(* ===== verification/_CoqProject ===== *)
-Q . S2P
Prelude.v
Bitmap.v
Pmm.v
PmmSpec.v
PmmInit.v
PageAllocator.v
Vmm.v
VmmTables.v
VmmRun.v
VmmUpdate.v
VmmSpec.v
VmmAlloc.v
VmmExamples.v
VmmInternal.v
Interrupts.v
Sched.v
SchedQueue.v
SchedSpec.v
SchedLock.v
SchedExamples.v
InterruptsSpec.v
InterruptsExamples.v
Input.v
InputSpec.v
InputExamples.v
Gdt.v
CString.v
CStringSpec.v
Bytes.v
Wp.v
BlockDevice.v
Ext2.v
Ext2Dir.v
Ext2File.v
Ext2Examples.v
Ext2Inv.v
Ext2Block.v
Ext2Inode.v
Ext2Safe.v
Ext2Alloc.v
Ext2Map.v
Ext2Spec.v
Ext2DirSafe.v
Ext2NameSafe.v
Ext2FileSafe.v
Ext2Path.v
Ext2DirSpec.v
Ext2ReadSpec.v
Ext2AllocSpec.v
Ext2Mount.v
Ext2Witness.v
Ports.v
Pci.v
PciSpec.v
Ata.v
AtaSpec.v
AtaInit.v
AtaSim.v
Ext2OnAta.v
Memory.v
Elf.v
ElfSpec.v
ElfLoad.v
ElfProps.v
ElfExamples.v
Task.v
Kernel.v
Syscalls.v
SyscallSpec.v
SyscallFail.v
SyscallBoot.v
SyscallExamples.v
Stdio.v
StdioSpec.v
Serial.v
Log.v
LogSpec.v
SysInfo.v
Boot.v
BootSpec.v
