(* ===== verification/Prelude.v ===== *)
(** * KronosOS: a verification library for the kernel

    KronosOS (src/kernel/) is a small x86-64 kernel in C.  This library
    translates its core to functions and states what makes it correct.

    ** The program and the files

    The kernel is a set of C files, each with its static variables and an
    interface in a header.  A file is a [Module] here; its static variables are
    a [Record], each function is a definition with the function's name.  An
    operation is a function of the monad [M] of this file: it takes the state
    to an outcome and a state.  A layer that calls another one holds the other
    one's state in its own, or takes it as a parameter with a type class.

    - Memory.  memory/pmm.c is Pmm.v, over the bitmaps of Bitmap.v; PmmSpec.v and
      PmmInit.v verify it.  PageAllocator.v is the interface its clients see.
      memory/vmm.c is Vmm.v, over a physical memory of 64-bit words and a
      processor that translates addresses; VmmTables.v, VmmRun.v, VmmUpdate.v,
      VmmSpec.v and VmmAlloc.v verify it.  VmmInternal.v is its unused
      [map_page_internal].  Memory.v adds accesses to bytes through the
      processor's translation.
    - Interrupts and devices.  drivers/pic/pic.c, core/idt.c and
      drivers/timer/timer.c are Interrupts.v; the keyboard and the mouse
      (drivers/keyboard, drivers/mouse) are Input.v; core/gdt.c is Gdt.v.  The
      devices behind the ports are parameters ([PortIO] and, for wider
      accesses, Ports.v).
    - Tasks.  core/exec/scheduler.c is Sched.v; it calls the memory manager, the
      timer and the page allocator.  SchedQueue.v, SchedSpec.v and SchedLock.v
      verify it.  Task.v is its [scheduler_create_task], which loads a program.
    - Programs.  core/exec/elf.c is Elf.v, over the bytes of Memory.v: images,
      tables and [elf_file_t] structures are addresses.  ElfSpec.v reads them as
      data, ElfLoad.v and ElfProps.v verify parsing and loading.
    - System calls.  Kernel.v puts the scheduler, the memory manager and the file
      system together, with one page allocator, and holds [elf_parse_file];
      core/exec/syscalls.c is Syscalls.v.  SyscallSpec.v, SyscallFail.v and
      SyscallBoot.v say what the calls do.
    - Disk and files.  drivers/pci/pci.c is Pci.v, drivers/ata/ata.c is Ata.v;
      BlockDevice.v is the interface the file system sees, and AtaSpec.v shows
      that the driver implements it on channels that follow the ATA protocol.
      fs/ext2.c is Ext2.v (blocks, inodes, allocation), Ext2Dir.v (names and
      directories) and Ext2File.v (open files, mounting), with buffers as byte
      lists (Bytes.v).
    - Text.  lib/string.c is CString.v, over a memory of bytes; lib/stdio.c is
      Stdio.v (with [uint64_to_hex] of vmm.c), drivers/serial/serial.c is
      Serial.v, utils/log.c is Log.v and utils/sysinfo.c is SysInfo.v.
    - Starting.  main.c is Boot.v, over the state of all components with one
      state of the devices; BootSpec.v has the stages of [kmain] one by one
      and what they amount to.

    Files named ...Spec, ...Safe and the like hold theorems; files named
    ...Examples, ...Witness and AtaSim.v hold concrete machines on which the
    hypotheses of the theorems are shown to hold.  Wp.v is a small program
    logic of total correctness for the monad [M].

    ** What is shown

    - The page allocator refines a set of free frames, never hands out a frame
      twice and keeps its counters right (PmmSpec.v); initialisation leaves
      exactly the usable frames free (PmmInit.v).
    - The page tables of the user half refine a finite map from pages to
      entries, under mapping, unmapping and lookup; ranges are mapped
      all-or-nothing; [vmm_allocate] maps zeroed fresh pages (VmmSpec.v,
      VmmAlloc.v).
    - The ready queue refines a list; the timer schedules round robin
      (SchedSpec.v); which operations deadlock (SchedLock.v).
    - The interrupt table and the controllers after initialisation, the keyboard
      state as a function of the history of scancodes, the mouse packets
      (InterruptsSpec.v, InputSpec.v), the segment descriptors (Gdt.v).
    - A mounted ext2 volume: every call returns and keeps the file system well
      formed whatever bytes the disk holds (Ext2FileSafe.v); blocks through the
      cache refine the disk, inodes and file blocks are maps (Ext2Spec.v);
      reading returns the contents of the file (Ext2ReadSpec.v); allocation
      claims a clear bit (Ext2AllocSpec.v); directory blocks are lists of
      entries (Ext2DirSpec.v); path lookup is a walk (Ext2Path.v); mounting
      establishes the invariant (Ext2Mount.v).
    - The bus scan finds every function that answers (PciSpec.v); the disk
      driver's table is well formed (AtaInit.v), its transfers move the right
      sectors and the file system's blocks reach the drive (Ext2OnAta.v).
    - An image that is accepted has its tables inside the file, up to sums that
      wrap around, and loading puts its segments, zero-filled, where the image
      asks for them (ElfProps.v).
    - The read call fills the process's buffer with the bytes of the file
      (SyscallSpec.v).  Several calls can never work: exit and execve wait for a
      lock they hold, no task can be created on the layout the kernel is booted
      with, fstat, lseek and getdents look at a table nothing fills
      (SyscallFail.v), and no file can be used since no volume is ever mounted
      (SyscallBoot.v).
    - [vsnprintf] writes the text its format stands for, cut off to the buffer;
      printed numbers read back; where it overruns its buffer (StdioSpec.v).  The
      formatter of the logger writes the text its format stands for, widths
      included, and a log message reaches the serial line in one piece
      (LogSpec.v).  The system report says what the memory manager knows
      (SysInfo.v).
    - Starting ends in the main loop, with the tables installed, the page
      allocator's invariant established and the idle task running: the state
      that the theorems on tasks, system calls and files start from
      (BootSpec.v).
    - Where the code does not do what it means to, the theorem states what it
      does and the manifest lists the finding.

    ** Integers, loops, outcomes

    Machine integers are [Z] with the wrap-around written out ([u8] to [u64],
    [s8] to [s64]).  A loop that is not bounded by a counter runs on fuel and
    ends in [Spin] without it.  The fuel is enough: the scans of a directory
    block take [block_fuel], one more than the bytes of the block, since every
    entry moves the offset by at least one or ends the scan; [dir_fuel],
    [read_fuel] and [write_fuel] count the blocks of the file or the bytes left
    ([calls_return] shows that no call spins).  The polling loops of the disk,
    mouse and timer drivers take exactly the rounds the code gives them, or are
    infinite in the code as well, like those of the serial port, where the fuel
    bounds the polls of a busy transmitter.  Loops over strings, formats and
    tables of pointers run on fuel that must be at least their length; it is an
    argument of the function, and the theorems say how much is enough.  An access the processor or the language
    forbids (an unmapped address, the end of a buffer, division by zero) is
    [Fault].

    ** Interfaces and assumptions

    [PageAllocatorSpec] is proved of pmm.c, [BlockDeviceSpec] of ata.c and of a
    disk in memory.  Assumed of the hardware: the direct map of the boot loader
    ([HhdmWindow]); for what is reached through physical addresses or pointers
    of a process, that those are mapped to themselves ([IdentityMap]); the
    answers of the PCI host bridge ([PciHost]), the ATA protocol
    ([AtaHardware]), the transmitter of a UART ([Uart]) and a mouse that only its
    own ports reach ([MouseAlone]); each has an instance.  The file system is verified
    with its pages as byte lists: that the pages' addresses can be dereferenced
    is taken for granted there.

    ** Not modelled

    Assembly (the interrupt stubs, [task_switch_context], the loads of the
    descriptor registers) is a parameter or a field that records the effect.
    The calls of the logger outside main.c and sysinfo.c, and the printing of
    statistics and page tables, change no state the kernel reads and are left
    out.  Interrupts are steps of their own: none arrives in the middle of a
    function, nor while the kernel starts. *)
From stdpp Require Export base numbers list gmap.
From Stdlib Require Export ZArith Lia.

#[global] Open Scope Z_scope.

(** ** Machine integers *)

(** [wrap w z] is the value of [z] stored in a [w]-bit unsigned C object. *)
Definition wrap (w z : Z) : Z := z mod 2 ^ w.
Abbreviation u8 := (wrap 8).
Abbreviation u16 := (wrap 16).
Abbreviation u32 := (wrap 32).
Abbreviation u64 := (wrap 64).

(** [swrap w z] is the value of [z] stored in a [w]-bit signed (two's
    complement) C object. *)
Definition swrap (w z : Z) : Z :=
  let r := z mod 2 ^ w in if r <? 2 ^ (w - 1) then r else r - 2 ^ w.
Abbreviation s8 := (swrap 8).
Abbreviation s32 := (swrap 32).
Abbreviation s64 := (swrap 64).

(** The null pointer, as an address. *)
Definition NULL : Z := 0.

(** C truth value of an integer. *)
Definition truthy (z : Z) : bool := negb (z =? 0).

(** ** Outcomes of running kernel code

    Kernel code returns ([Ret]), transfers control to another task
    ([Switched]: the code after the switch runs when the task is resumed),
    busy-waits forever ([Spin]), is stopped by the processor or does what C
    leaves undefined - an address that is not mapped, an access beyond a buffer,
    a division by zero - ([Fault]) or stops the machine with [hcf()] ([Halted]). *)
Inductive outcome (A : Type) : Type :=
| Ret (a : A)
| Switched
| Spin
| Fault
| Halted.
Arguments Ret {A} a.
Arguments Switched {A}.
Arguments Spin {A}.
Arguments Fault {A}.
Arguments Halted {A}.

(** The monad of kernel code over a state [S]; the state reached is kept for
    every outcome. *)
Definition M (S A : Type) : Type := S -> outcome A * S.

#[global] Instance m_ret S : MRet (M S) := fun A a s => (Ret a, s).
#[global] Instance m_bind S : MBind (M S) := fun A B f m s =>
  match m s with
  | (Ret a, s') => f a s'
  | (Switched, s') => (Switched, s')
  | (Spin, s') => (Spin, s')
  | (Fault, s') => (Fault, s')
  | (Halted, s') => (Halted, s')
  end.

Definition mget {S} : M S S := fun s => (Ret s, s).
Definition mgets {S A} (f : S -> A) : M S A := fun s => (Ret (f s), s).
Definition mput {S} (s : S) : M S unit := fun _ => (Ret tt, s).
Definition mmodify {S} (f : S -> S) : M S unit := fun s => (Ret tt, f s).
Definition mspin {S A} : M S A := fun s => (Spin, s).
Definition mfault {S A} : M S A := fun s => (Fault, s).
Definition mhalt {S A} : M S A := fun s => (Halted, s).
Definition mswitch {S A} : M S A := fun s => (Switched, s).

(** A pure state transformer with a result, as kernel code that returns. *)
Definition mlift {S A} (f : S -> A * S) : M S A :=
  fun s => let '(a, s') := f s in (Ret a, s').

(** [for (i = 0; i < n; i++) body(i)], from index [i] on. *)
Fixpoint mfor {S} (n : nat) (i : Z) (body : Z -> M S unit) : M S unit :=
  match n with
  | O => mret tt
  | Datatypes.S n' => body i ;; mfor n' (i + 1) body
  end.

(** ** Running kernel code: equations *)

Section run.
  Context {S : Type}.
  Implicit Types s : S.

Lemma run_bind {A B} (m : M S A) (f : A -> M S B) s a s' :
    m s = (Ret a, s') -> (m ≫= f) s = f a s'.
  Proof. intros H. unfold mbind, m_bind. by rewrite H. Qed.

Lemma run_ret {A} (a : A) s : (mret a : M S A) s = (Ret a, s).
  Proof. done. Qed.

Lemma run_gets {A} (f : S -> A) s : mgets f s = (Ret (f s), s).
  Proof. done. Qed.

Lemma run_modify (f : S -> S) s : mmodify f s = (Ret tt, f s).
  Proof. done. Qed.

Lemma run_lift {A} (f : S -> A * S) s a s' :
    f s = (a, s') -> mlift f s = (Ret a, s').
  Proof. intros H. unfold mlift. by rewrite H. Qed.

Lemma run_for_O i (body : Z -> M S unit) s : mfor 0 i body s = (Ret tt, s).
  Proof. done. Qed.

Lemma run_for_S n i (body : Z -> M S unit) s s' :
    body i s = (Ret tt, s') ->
    mfor (Datatypes.S n) i body s = mfor n (i + 1) body s'.
  Proof. intros H. simpl. by rewrite (run_bind _ _ _ _ _ H). Qed.

  (** A loop whose body always returns and keeps an indexed invariant
      returns and keeps it. *)
Lemma run_for_inv (I : Z -> S -> Prop) n i (body : Z -> M S unit) s :
    I i s ->
    (forall j s0, i <= j < i + Z.of_nat n -> I j s0 ->
       exists s1, body j s0 = (Ret tt, s1) /\ I (j + 1) s1) ->
    exists s', mfor n i body s = (Ret tt, s') /\ I (i + Z.of_nat n) s'.
  Proof.
    revert i s. induction n as [|n IH]; intros i s HI Hbody.
    - exists s. split; [done|]. by replace (i + Z.of_nat 0) with i by lia.
    - destruct (Hbody i s) as (s1 & Hb & HI1); [lia|done|].
      destruct (IH (i + 1) s1 HI1) as (s' & Hr & HI').
      { intros j s0 Hj. apply Hbody. lia. }
      exists s'. rewrite (run_for_S _ _ _ _ _ Hb). split; [done|].
      by replace (i + Z.of_nat (Datatypes.S n)) with (i + 1 + Z.of_nat n) by lia.
  Qed.
End run.

Create HintDb kernel discriminated.
Create Rewrite HintDb kernel_run.
#[export] Hint Rewrite @run_ret @run_gets @run_modify @run_for_O : kernel_run.

(** [mstep] runs the first command of the program in the goal; [mstep H] uses
    the equation [H] for it. *)
Tactic Notation "mstep" :=
  first
    [ erewrite run_bind; [|solve [reflexivity | eassumption]]; cbv beta
    | progress autorewrite with kernel_run ].
Tactic Notation "mstep" uconstr(H) :=
  erewrite run_bind; [|apply H]; cbv beta.

(** ** Integer and bit lemmas *)

Lemma wrap_small w z : 0 <= z < 2 ^ w -> wrap w z = z.
Proof. apply Z.mod_small. Qed.

Lemma wrap_range w z : 0 <= w -> 0 <= wrap w z < 2 ^ w.
Proof. intros. apply Z.mod_pos_bound. lia. Qed.

Lemma wrap_idem w z : wrap w (wrap w z) = wrap w z.
Proof. unfold wrap. apply Zmod_mod. Qed.

(** A value that a signed object can hold is stored as it is. *)
Lemma swrap_small w z : 0 < w -> - 2 ^ (w - 1) <= z < 2 ^ (w - 1) -> swrap w z = z.
Proof.
  intros Hw Hz. assert (2 ^ w = 2 * 2 ^ (w - 1)) as E by (rewrite <- Z.pow_succ_r by lia; f_equal; lia).
  unfold swrap. cbv zeta. destruct (decide (0 <= z)).
  - rewrite Z.mod_small by lia. destruct (Z.ltb_spec z (2 ^ (w - 1))); lia.
  - rewrite <- (Z.mod_unique_pos z (2 ^ w) (-1) (z + 2 ^ w)) by lia.
    destruct (Z.ltb_spec (z + 2 ^ w) (2 ^ (w - 1))); lia.
Qed.

#[export] Hint Resolve wrap_range : kernel.

Lemma testbit_high z w i : 0 <= z < 2 ^ w -> w <= i -> Z.testbit z i = false.
Proof.
  intros Hz Hi. destruct (decide (w < 0)) as [Hw|Hw].
  { rewrite Z.pow_neg_r in Hz by lia. lia. }
  rewrite <- (Z.mod_small z (2 ^ w)) by lia.
  apply Z.mod_pow2_bits_high. lia.
Qed.

(** Two [w]-bit integers with the same low [w] bits are equal. *)
Lemma eq_by_bits w a b :
  0 <= a < 2 ^ w -> 0 <= b < 2 ^ w ->
  (forall i, 0 <= i < w -> Z.testbit a i = Z.testbit b i) -> a = b.
Proof.
  intros Ha Hb Hbits. apply Z.bits_inj'. intros i Hi.
  destruct (decide (i < w)); [apply Hbits; lia|].
  rewrite !(testbit_high _ w) by lia. done.
Qed.

Lemma range_by_bits w z :
  0 <= w -> 0 <= z -> (forall i, w <= i -> Z.testbit z i = false) -> 0 <= z < 2 ^ w.
Proof.
  intros Hw Hz Hbits. split; [done|].
  destruct (decide (z = 0)) as [->|]; [lia|].
  apply Z.log2_lt_pow2; [lia|].
  destruct (decide (Z.log2 z < w)); [done|].
  assert (Z.testbit z (Z.log2 z) = true) by (apply Z.bit_log2; lia).
  rewrite Hbits in H by lia. done.
Qed.

Lemma lor_range w a b : 0 <= w -> 0 <= a < 2 ^ w -> 0 <= b < 2 ^ w -> 0 <= Z.lor a b < 2 ^ w.
Proof.
  intros Hw Ha Hb. apply range_by_bits; [done| |].
  - apply Z.lor_nonneg. lia.
  - intros i Hi. rewrite Z.lor_spec, !(testbit_high _ w) by lia. done.
Qed.

Lemma land_range_l w a b : 0 <= w -> 0 <= a < 2 ^ w -> 0 <= Z.land a b < 2 ^ w.
Proof.
  intros Hw Ha. apply range_by_bits; [done| |].
  - apply Z.land_nonneg. lia.
  - intros i Hi. rewrite Z.land_spec, (testbit_high _ w) by lia. done.
Qed.

(** Testing one bit with a mask. *)
Lemma land_pow2_testbit a i :
  0 <= i -> (Z.land a (Z.shiftl 1 i) =? 0) = negb (Z.testbit a i).
Proof.
  intros Hi. rewrite Z.shiftl_1_l.
  destruct (Z.testbit a i) eqn:E; simpl.
  - apply Z.eqb_neq. intros H0.
    assert (Z.testbit (Z.land a (2 ^ i)) i = false) as H by (rewrite H0; apply Z.bits_0).
    rewrite Z.land_spec, E, Z.pow2_bits_true in H by lia. done.
  - apply Z.eqb_eq. apply Z.bits_inj'. intros j Hj.
    rewrite Z.land_spec, Z.bits_0.
    destruct (decide (i = j)) as [->|Hne]; [by rewrite E|].
    rewrite Z.pow2_bits_false by lia. by rewrite andb_false_r.
Qed.

Lemma shiftl1_testbit i j : 0 <= i -> 0 <= j -> Z.testbit (Z.shiftl 1 i) j = (i =? j).
Proof.
  intros Hi Hj. rewrite Z.shiftl_1_l.
  destruct (Z.eqb_spec i j) as [->|Hne]; [by apply Z.pow2_bits_true|].
  by apply Z.pow2_bits_false.
Qed.

(** Clearing low bits with a mask is rounding down. *)
Lemma land_mask_align a n w :
  0 <= n <= w -> 0 <= a < 2 ^ w ->
  Z.land a (wrap w (Z.lnot (2 ^ n - 1))) = a - a mod 2 ^ n.
Proof.
  intros Hn Ha.
  replace (a - a mod 2 ^ n) with (Z.shiftl (Z.shiftr a n) n).
  2:{ rewrite Z.shiftl_mul_pow2, Z.shiftr_div_pow2 by lia.
      pose proof (Z.div_mod a (2 ^ n)). lia. }
  apply Z.bits_inj'. intros i Hi.
  rewrite Z.land_spec, Z.shiftl_spec by lia.
  replace (2 ^ n - 1) with (Z.ones n) by (rewrite Z.ones_equiv; lia).
  destruct (decide (i < w)).
  - unfold wrap. rewrite Z.mod_pow2_bits_low, Z.lnot_spec, Z.testbit_ones_nonneg by lia.
    destruct (decide (i < n)).
    + rewrite (Z.testbit_neg_r _ (i - n)) by lia.
      replace (i <? n) with true by lia. by rewrite andb_false_r.
    + rewrite Z.shiftr_spec by lia. replace (i <? n) with false by lia.
      rewrite andb_true_r. f_equal. lia.
  - rewrite (testbit_high a w) by lia. simpl.
    rewrite Z.shiftr_spec by lia. rewrite (testbit_high a w) by lia. done.
Qed.

(** Splits on the integer comparisons of the goal and drops the impossible
    cases. *)
Ltac range_cases :=
  repeat match goal with
  | |- context [?a <=? ?b] => destruct (Z.leb_spec a b)
  | |- context [?a <? ?b] => destruct (Z.ltb_spec a b)
  | |- context [?a =? ?b] => destruct (Z.eqb_spec a b)
  end; cbn [andb orb negb]; try lia.

(** ** Lists as C arrays *)

(** [seqZ 0 n] enumerates the indices a C loop visits. *)
Lemma seqZ_snoc m n : 0 <= n -> seqZ m (n + 1) = seqZ m n ++ [m + n].
Proof.
  intros Hn. rewrite seqZ_app by lia. f_equal.
Qed.

(** Reading an array element; the default is never used inside the bounds. *)
Definition array_get {A} (d : A) (l : list A) (i : Z) : A := default d (l !! Z.to_nat i).
Definition array_set {A} (l : list A) (i : Z) (x : A) : list A := <[Z.to_nat i := x]> l.

Section arrays.
  Context {A : Type} (d : A).
  Implicit Types l : list A.

Lemma array_get_set_eq l i x :
    0 <= i < Z.of_nat (length l) -> array_get d (array_set l i x) i = x.
  Proof. intros. unfold array_get, array_set. by rewrite list_lookup_insert_eq by lia. Qed.

Lemma array_get_set_ne l i j x :
    0 <= i -> 0 <= j -> i <> j -> array_get d (array_set l i x) j = array_get d l j.
  Proof.
    intros. unfold array_get, array_set. rewrite list_lookup_insert_ne; [done|]. lia.
  Qed.

Lemma length_array_set l i x : length (array_set l i x) = length l.
  Proof. apply length_insert. Qed.

Lemma Forall_array_set (P : A -> Prop) l i x :
    Forall P l -> P x -> Forall P (array_set l i x).
  Proof. intros. by apply Forall_insert. Qed.

Lemma Forall_array_get (P : A -> Prop) l i :
    Forall P l -> P d -> P (array_get d l i).
  Proof.
    intros Hl Hd. unfold array_get. destruct (l !! Z.to_nat i) eqn:E; [|done].
    simpl. eapply Forall_lookup_1; eauto.
  Qed.
End arrays.

#[export] Hint Rewrite @length_array_set : kernel_run.
