(* ===== verification/Bitmap.v ===== *)
(** Bitmaps stored in byte arrays, as the physical memory manager
    (memory/pmm.c) and the EXT2 driver (fs/ext2.c) keep them: bit [i] is bit
    [i % 8] of byte [i / 8].  The operations are the three statements the C
    code repeats; the lemmas reduce them to operations on a set of indices. *)
From S2P Require Import Prelude.

(** [uint8_t bit_mask = 1 << (i % 8)] *)
Definition bit_mask (i : Z) : Z := u8 (Z.shiftl 1 (i mod 8)).

(** [bitmap[i / 8] & bit_mask] *)
Definition bit_test (bm : list Z) (i : Z) : bool :=
  truthy (Z.land (array_get 0 bm (i / 8)) (bit_mask i)).

(** [bitmap[i / 8] |= bit_mask] *)
Definition bit_set (bm : list Z) (i : Z) : list Z :=
  array_set bm (i / 8) (u8 (Z.lor (array_get 0 bm (i / 8)) (bit_mask i))).

(** [bitmap[i / 8] &= ~bit_mask] *)
Definition bit_clear (bm : list Z) (i : Z) : list Z :=
  array_set bm (i / 8) (u8 (Z.land (array_get 0 bm (i / 8)) (Z.lnot (bit_mask i)))).

(** A byte array of [n] bytes. *)
Definition bitmap_wf (n : Z) (bm : list Z) : Prop :=
  Z.of_nat (length bm) = n /\ Forall (fun b => 0 <= b < 2 ^ 8) bm.

(** ** Reduction to [Z.testbit] *)

Lemma bit_mask_shift i : bit_mask i = Z.shiftl 1 (i mod 8).
Proof.
  unfold bit_mask. apply wrap_small. rewrite Z.shiftl_1_l.
  assert (0 <= i mod 8 < 8) by (apply Z.mod_pos_bound; lia).
  split; [lia|]. apply Z.pow_lt_mono_r; lia.
Qed.

Lemma bit_test_testbit bm i :
  bit_test bm i = Z.testbit (array_get 0 bm (i / 8)) (i mod 8).
Proof.
  unfold bit_test, truthy. rewrite bit_mask_shift, land_pow2_testbit.
  - apply negb_involutive.
  - apply Z.mod_pos_bound. lia.
Qed.

Section bitmap.
  Context (n : Z) (bm : list Z) (Hwf : bitmap_wf n bm).

Lemma bitmap_byte_range i : 0 <= array_get 0 bm i < 2 ^ 8.
  Proof. apply (Forall_array_get 0 (fun b => 0 <= b < 2 ^ 8)); [apply Hwf | lia]. Qed.

Lemma bit_mod_range i : 0 <= i mod 8 < 8.
  Proof. apply Z.mod_pos_bound. lia. Qed.

Lemma bit_set_wf i : bitmap_wf n (bit_set bm i).
  Proof using Hwf.
    destruct Hwf as [Hl Hf]. unfold bit_set. split.
    - by rewrite length_array_set.
    - apply Forall_array_set; [done|]. by apply wrap_range.
  Qed.

Lemma bit_clear_wf i : bitmap_wf n (bit_clear bm i).
  Proof using Hwf.
    destruct Hwf as [Hl Hf]. unfold bit_clear. split.
    - by rewrite length_array_set.
    - apply Forall_array_set; [done|]. by apply wrap_range.
  Qed.

  (** Setting bit [i] changes bit [i] only. *)
Lemma bit_test_set i j :
    0 <= i < 8 * n -> 0 <= j -> bit_test (bit_set bm i) j = (i =? j) || bit_test bm j.
  Proof using Hwf.
    intros Hi Hj. rewrite !bit_test_testbit. unfold bit_set.
    pose proof (bit_mod_range i). pose proof (bit_mod_range j).
    destruct Hwf as [Hl _].
    assert (0 <= i / 8 < n) by (split; [apply Z.div_pos; lia | apply Z.div_lt_upper_bound; lia]).
    assert (0 <= j / 8) by (apply Z.div_pos; lia).
    pose proof (Z.div_mod i 8). pose proof (Z.div_mod j 8).
    destruct (decide (i / 8 = j / 8)) as [Hd|Hd].
    - rewrite <- Hd, array_get_set_eq by lia. unfold wrap.
      rewrite Z.mod_pow2_bits_low, Z.lor_spec, bit_mask_shift, shiftl1_testbit by lia.
      rewrite orb_comm. f_equal.
      destruct (Z.eqb_spec i j), (Z.eqb_spec (i mod 8) (j mod 8)); lia || done.
    - rewrite array_get_set_ne by lia.
      destruct (Z.eqb_spec i j); [congruence | done].
  Qed.

  (** Clearing bit [i] changes bit [i] only. *)
Lemma bit_test_clear i j :
    0 <= i < 8 * n -> 0 <= j -> bit_test (bit_clear bm i) j = negb (i =? j) && bit_test bm j.
  Proof using Hwf.
    intros Hi Hj. rewrite !bit_test_testbit. unfold bit_clear.
    pose proof (bit_mod_range i). pose proof (bit_mod_range j).
    destruct Hwf as [Hl _].
    assert (0 <= i / 8 < n) by (split; [apply Z.div_pos; lia | apply Z.div_lt_upper_bound; lia]).
    assert (0 <= j / 8) by (apply Z.div_pos; lia).
    pose proof (Z.div_mod i 8). pose proof (Z.div_mod j 8).
    destruct (decide (i / 8 = j / 8)) as [Hd|Hd].
    - rewrite <- Hd, array_get_set_eq by lia. unfold wrap.
      rewrite Z.mod_pow2_bits_low, Z.land_spec, Z.lnot_spec, bit_mask_shift, shiftl1_testbit by lia.
      rewrite andb_comm. f_equal. f_equal.
      destruct (Z.eqb_spec i j), (Z.eqb_spec (i mod 8) (j mod 8)); lia || done.
    - rewrite array_get_set_ne by lia.
      destruct (Z.eqb_spec i j); [congruence | done].
  Qed.
End bitmap.

(** Bitmaps of one size with the same bits are equal. *)
Lemma bitmap_ext n bm1 bm2 :
  bitmap_wf n bm1 -> bitmap_wf n bm2 ->
  (forall i, 0 <= i < 8 * n -> bit_test bm1 i = bit_test bm2 i) -> bm1 = bm2.
Proof.
  intros [Hl1 Hf1] [Hl2 Hf2] Hbits.
  apply (list_eq_same_length _ _ (length bm1)); [lia|done|].
  intros k x y Hk Hx Hy.
  rewrite Forall_lookup in Hf1, Hf2.
  apply (eq_by_bits 8); eauto.
  intros i Hi. specialize (Hbits (8 * Z.of_nat k + i)).
  rewrite !bit_test_testbit in Hbits.
  replace ((8 * Z.of_nat k + i) / 8) with (Z.of_nat k) in Hbits
    by (rewrite Z.mul_comm, Z.div_add_l, Z.div_small; lia).
  replace ((8 * Z.of_nat k + i) mod 8) with i in Hbits
    by (rewrite Z.mul_comm, Z.add_comm, Z.mod_add, Z.mod_small; lia).
  unfold array_get in Hbits. rewrite Nat2Z.id, Hx, Hy in Hbits. apply Hbits. lia.
Qed.

(** A zeroed array has every bit clear. *)
Lemma bit_test_zero n i : bit_test (replicate n 0) i = false.
Proof.
  rewrite bit_test_testbit. unfold array_get.
  destruct (replicate n 0 !! Z.to_nat (i / 8)) eqn:E; simpl; [|apply Z.bits_0].
  apply lookup_replicate in E as [-> _]. apply Z.bits_0.
Qed.

Lemma bitmap_wf_zero n : bitmap_wf (Z.of_nat n) (replicate n 0).
Proof.
  split; [by rewrite length_replicate|].
  apply Forall_replicate. lia.
Qed.

(** ** Ranges of bits *)

(** [for (j = 0; j < count; j++) set bit (start + j)] *)
Definition bit_set_range (bm : list Z) (start : Z) (count : Z) : list Z :=
  foldl (fun bm j => bit_set bm (start + j)) bm (seqZ 0 count).

Lemma bit_set_range_spec n bm start count :
  bitmap_wf n bm -> 0 <= start -> 0 <= count -> start + count <= 8 * n ->
  bitmap_wf n (bit_set_range bm start count) /\
  forall j, 0 <= j ->
    bit_test (bit_set_range bm start count) j =
    ((start <=? j) && (j <? start + count)) || bit_test bm j.
Proof.
  intros Hwf Hs Hc. revert bm Hwf.
  pattern count. apply natlike_ind; [|clear count Hc; intros count Hc IH|done].
  - intros bm Hwf Hle. unfold bit_set_range. simpl. split; [done|].
    intros j Hj. replace ((start <=? j) && (j <? start + 0)) with false by lia. done.
  - intros bm Hwf Hle. destruct (IH bm Hwf) as [Hwf' Hbits]; [lia|].
    unfold bit_set_range in *.
    replace (Z.succ count) with (count + 1) by lia.
    rewrite seqZ_snoc, foldl_app by lia. simpl.
    split; [by apply bit_set_wf|].
    intros j Hj. rewrite (bit_test_set n) by (done || lia). rewrite Hbits by done.
    destruct (bit_test bm j); rewrite ?orb_true_r, ?orb_false_r; [done|].
    destruct (Z.eqb_spec (start + (0 + count)) j), (Z.leb_spec start j),
      (Z.ltb_spec j (start + count)), (Z.ltb_spec j (start + (count + 1))); done || lia.
Qed.

#[export] Hint Resolve bit_set_wf bit_clear_wf bitmap_wf_zero : kernel.
