(* ===== verification/Pmm.v ===== *)
(** The physical memory manager, memory/pmm.c: a static bitmap with one bit
    per 4 KiB page of the largest usable region of the boot memory map.

    [Module Pmm] holds the state (the file's static variables), one definition
    per function and the invariant [pmm_inv].  The file then gives the abstract
    allocator - a set of free page addresses - and proves that the functions
    implement it.  Logging calls have no effect on this state and are left
    out. *)
From S2P Require Import Prelude Bitmap.

(** The boot memory map (the [limine_memmap_response] the boot loader hands
    over): the entry types are the ones [pmm_init] names. *)
Inductive memmap_type : Type :=
| MEMMAP_USABLE
| MEMMAP_RESERVED
| MEMMAP_ACPI_RECLAIMABLE
| MEMMAP_ACPI_NVS
| MEMMAP_BAD_MEMORY
| MEMMAP_BOOTLOADER_RECLAIMABLE
| MEMMAP_KERNEL_AND_MODULES
| MEMMAP_FRAMEBUFFER.

#[export] Instance memmap_type_eq_dec : EqDecision memmap_type.
Proof. solve_decision. Defined.

Record memmap_entry : Type := MemmapEntry {
  entry_base : Z;
  entry_length : Z;
  entry_type : memmap_type;
}.

Definition is_usable (e : memmap_entry) : bool := bool_decide (entry_type e = MEMMAP_USABLE).

(** [PMM_BLOCK_SIZE] and [STATIC_BITMAP_SIZE]. *)
Definition PMM_BLOCK_SIZE : Z := 4096.
Definition STATIC_BITMAP_SIZE : Z := 8192.

Module Pmm.

(** [pmm_config_t] of memory/pmm.h. *)
Record pmm_config_t : Type := PmmConfig {
  page_size : Z;
  kernel_start : Z;
  kernel_end : Z;
  max_pages : Z;
  total_memory : Z;
}.

(** The static variables of pmm.c.  [page_bitmap] is [false] for [NULL] and
    [true] once it points to [static_bitmap]. *)
Record pmm_state : Type := PmmState {
  pmm_config : pmm_config_t;
  static_bitmap : list Z;
  page_bitmap : bool;
  bitmap_size : Z;
  total_allocations : Z;
  failed_allocations : Z;
}.

Definition pmm_boot : pmm_state := {|
  pmm_config := PmmConfig 0 0 0 0 0;
  static_bitmap := replicate (Z.to_nat STATIC_BITMAP_SIZE) 0;
  page_bitmap := false;
  bitmap_size := 0;
  total_allocations := 0;
  failed_allocations := 0;
|}.

Definition set_bitmap (bm : list Z) (s : pmm_state) : pmm_state :=
  PmmState (pmm_config s) bm (page_bitmap s) (bitmap_size s)
    (total_allocations s) (failed_allocations s).
Definition count_alloc (s : pmm_state) : pmm_state :=
  PmmState (pmm_config s) (static_bitmap s) (page_bitmap s) (bitmap_size s)
    (u64 (total_allocations s + 1)) (failed_allocations s).
Definition count_failure (s : pmm_state) : pmm_state :=
  PmmState (pmm_config s) (static_bitmap s) (page_bitmap s) (bitmap_size s)
    (total_allocations s) (u64 (failed_allocations s + 1)).

(** ** pmm_init *)

(** One entry of the first loop: total usable memory, and the largest usable
    region at or above 1 MiB. *)
Definition scan_entry (acc : Z * Z * Z) (e : memmap_entry) : Z * Z * Z :=
  let '(start_address, largest_usable_size, total) := acc in
  if is_usable e then
    let total := u64 (total + entry_length e) in
    if (largest_usable_size <? entry_length e) && (0x100000 <=? entry_base e)
    then (entry_base e, entry_length e, total)
    else (start_address, largest_usable_size, total)
  else acc.

(** [for (addr = region_start; addr < region_end; addr += page_size)]: mark
    the page of each visited address.  The loop visits at most
    [STATIC_BITMAP_SIZE * 8] addresses of the managed range, which bounds the
    fuel; a loop that outlives its fuel is a loop that never ends. *)
Fixpoint mark_region (fuel : nat) (cfg : pmm_config_t) (addr region_end : Z) (bm : list Z)
  : outcome (list Z) :=
  if addr <? region_end then
    match fuel with
    | O => Spin
    | S fuel' =>
        let offset := u64 (addr - kernel_start cfg) in
        let page_index := offset / page_size cfg in
        let bm := if page_index <? max_pages cfg then bit_set bm page_index else bm in
        mark_region fuel' cfg (u64 (addr + page_size cfg)) region_end bm
    end
  else Ret bm.

Definition region_fuel : nat := Z.to_nat (STATIC_BITMAP_SIZE * 8).

(** One entry of the second loop: mark the part of a non-usable region that
    overlaps the managed range. *)
Definition mark_entry (cfg : pmm_config_t) (bm : list Z) (e : memmap_entry) : outcome (list Z) :=
  if is_usable e then Ret bm
  else if (kernel_end cfg <=? entry_base e)
          || (u64 (entry_base e + entry_length e) <=? kernel_start cfg) then Ret bm
  else
    let region_start := entry_base e in
    let region_end := u64 (entry_base e + entry_length e) in
    let region_start :=
      if region_start <? kernel_start cfg then kernel_start cfg else region_start in
    let region_end :=
      if kernel_end cfg <? region_end then kernel_end cfg else region_end in
    mark_region region_fuel cfg region_start region_end bm.

Fixpoint mark_entries (cfg : pmm_config_t) (es : list memmap_entry) (bm : list Z)
  : outcome (list Z) :=
  match es with
  | [] => Ret bm
  | e :: es' =>
      match mark_entry cfg bm e with
      | Ret bm' => mark_entries cfg es' bm'
      | o => o
      end
  end.

(** The configuration [pmm_init] computes from the memory map. *)
Definition init_config (es : list memmap_entry) : pmm_config_t :=
  let page_size := PMM_BLOCK_SIZE in
  let max_pages := u32 (STATIC_BITMAP_SIZE * 8) in
  let '(start_address, largest_usable_size, total_memory) :=
    foldl scan_entry (0x100000, 0, 0) es in
  let manageable_size := u64 (max_pages * page_size) in
  let max_pages :=
    if largest_usable_size <? manageable_size
    then u32 (largest_usable_size / page_size) else max_pages in
  {| page_size := page_size;
     kernel_start := start_address;
     kernel_end := u64 (start_address + u64 (max_pages * page_size));
     max_pages := max_pages;
     total_memory := total_memory |}.

(** [pmm_init(memmap)]; [None] is the null response. *)
Definition pmm_init (memmap : option (list memmap_entry)) : M pmm_state unit := fun s =>
  match memmap with
  | None => (Halted, s)
  | Some es =>
      let cfg := init_config es in
      let bm := replicate (Z.to_nat STATIC_BITMAP_SIZE) 0 in
      match mark_entries cfg es bm with
      | Ret bm =>
          let bm := bit_set_range bm 0 (Z.min 256 (max_pages cfg)) in
          (Ret tt, PmmState cfg bm true STATIC_BITMAP_SIZE
                     (total_allocations s) (failed_allocations s))
      | _ => (Spin, s)
      end
  end.

(** ** Allocation *)

(** The scan of [pmm_alloc_page]: the first clear bit among the [n] from [i]. *)
Fixpoint alloc_scan (bm : list Z) (n : nat) (i : Z) : option Z :=
  match n with
  | O => None
  | S n' => if negb (bit_test bm i) then Some i else alloc_scan bm n' (i + 1)
  end.

Definition page_phys (s : pmm_state) (i : Z) : Z :=
  u64 (kernel_start (pmm_config s) + u64 (i * page_size (pmm_config s))).

Definition pmm_alloc_page (s : pmm_state) : Z * pmm_state :=
  if negb (page_bitmap s) then (NULL, s)
  else
    match alloc_scan (static_bitmap s) (Z.to_nat (max_pages (pmm_config s))) 0 with
    | Some i =>
        (page_phys s i, count_alloc (set_bitmap (bit_set (static_bitmap s) i) s))
    | None => (NULL, count_failure s)
    end.

(** The scan of [pmm_alloc_pages]: the first run of [count] clear bits;
    [found] and [start] are [found_pages] and [start_page]. *)
Fixpoint run_scan (bm : list Z) (count : Z) (n : nat) (i found start : Z) : option Z :=
  match n with
  | O => None
  | S n' =>
      if negb (bit_test bm i) then
        let start := if found =? 0 then i else start in
        let found := found + 1 in
        if found =? count then Some start
        else run_scan bm count n' (i + 1) found start
      else run_scan bm count n' (i + 1) 0 start
  end.

Definition pmm_alloc_pages (count : Z) (s : pmm_state) : Z * pmm_state :=
  if negb (page_bitmap s) || (count =? 0) then (NULL, s)
  else if count =? 1 then pmm_alloc_page s
  else
    match run_scan (static_bitmap s) count (Z.to_nat (max_pages (pmm_config s))) 0 0 0 with
    | Some start_page =>
        (page_phys s start_page,
         count_alloc (set_bitmap (bit_set_range (static_bitmap s) start_page count) s))
    | None => (NULL, count_failure s)
    end.

(** ** Release *)

(** The range and alignment test the release functions share. *)
Definition managed_page (s : pmm_state) (page : Z) : bool :=
  negb ((page <? kernel_start (pmm_config s))
        || (kernel_end (pmm_config s) <=? page)
        || negb (page mod page_size (pmm_config s) =? 0)).

Definition page_index (s : pmm_state) (page : Z) : Z :=
  u64 (page - kernel_start (pmm_config s)) / page_size (pmm_config s).

Definition pmm_free_page (page : Z) (s : pmm_state) : pmm_state :=
  if negb (page_bitmap s) then s
  else if negb (managed_page s page) then s
  else
    let i := page_index s page in
    if max_pages (pmm_config s) <=? i then s
    else if negb (bit_test (static_bitmap s) i) then s
    else set_bitmap (bit_clear (static_bitmap s) i) s.

Definition pmm_free_pages (page : Z) (count : Z) (s : pmm_state) : pmm_state :=
  if negb (page_bitmap s) || (count =? 0) then s
  else if count =? 1 then pmm_free_page page s
  else if negb (managed_page s page) then s
  else
    let end_page := u64 (page + u64 (count * page_size (pmm_config s))) in
    let count :=
      if kernel_end (pmm_config s) <? end_page
      then u64 (kernel_end (pmm_config s) - page) / page_size (pmm_config s) else count in
    foldl (fun s i => pmm_free_page (u64 (page + u64 (i * page_size (pmm_config s)))) s)
      s (seqZ 0 count).

(** ** Queries *)

Definition pmm_is_page_free (page : Z) (s : pmm_state) : bool :=
  if negb (page_bitmap s) then false
  else if negb (managed_page s page) then false
  else
    let i := page_index s page in
    if max_pages (pmm_config s) <=? i then false
    else negb (bit_test (static_bitmap s) i).

(** The counting loops of the statistics functions. *)
Definition count_pages (f : Z -> bool) (n : Z) : Z :=
  foldl (fun c i => if f i then u64 (c + 1) else c) 0 (seqZ 0 n).

Definition pmm_get_free_memory (s : pmm_state) : Z :=
  if negb (page_bitmap s) then 0
  else u64 (count_pages (fun i => negb (bit_test (static_bitmap s) i)) (max_pages (pmm_config s))
            * page_size (pmm_config s)).

Definition pmm_get_used_memory (s : pmm_state) : Z :=
  if negb (page_bitmap s) then 0
  else u64 (count_pages (fun i => bit_test (static_bitmap s) i) (max_pages (pmm_config s))
            * page_size (pmm_config s)).

Definition pmm_get_info (s : pmm_state) : pmm_config_t := pmm_config s.

End Pmm.
