(* ===== verification/PmmSpec.v ===== *)
(** Correctness of the physical memory manager: its invariant, the abstract
    allocator - a set of free page addresses - and the refinement between the
    two. *)
From S2P Require Import Prelude Bitmap Pmm.
Import Pmm.

(** Physical addresses the kernel can reach through the direct map: the
    higher half of a 48-bit virtual address space is [2^47] bytes. *)
Definition PHYS_LIMIT : Z := 2 ^ 47.

(** The invariant of an initialised manager. *)
Record pmm_inv (s : pmm_state) : Prop := {
  inv_init : page_bitmap s = true;
  inv_bitmap : bitmap_wf STATIC_BITMAP_SIZE (static_bitmap s);
  inv_page_size : page_size (pmm_config s) = 4096;
  inv_max : 0 <= max_pages (pmm_config s) <= 65536;
  inv_start : 4096 <= kernel_start (pmm_config s);
  inv_aligned : kernel_start (pmm_config s) mod 4096 = 0;
  inv_end : kernel_end (pmm_config s)
            = kernel_start (pmm_config s) + max_pages (pmm_config s) * 4096;
  inv_limit : kernel_end (pmm_config s) <= PHYS_LIMIT;
}.

(** ** The abstract allocator *)

Definition frame_at (s : pmm_state) (i : Z) : Z := kernel_start (pmm_config s) + i * 4096.

(** The managed page addresses, and the free ones. *)
Definition managed_frames (s : pmm_state) : gset Z :=
  list_to_set (frame_at s <$> seqZ 0 (max_pages (pmm_config s))).

Definition free_frames (s : pmm_state) : gset Z :=
  list_to_set (frame_at s <$>
    filter (fun i => bit_test (static_bitmap s) i = false) (seqZ 0 (max_pages (pmm_config s)))).

(** [n] consecutive pages from [st]. *)
Definition frame_run (st n : Z) : gset Z := list_to_set ((fun i => st + i * 4096) <$> seqZ 0 n).

Inductive pmm_op : Type :=
| AllocPage
| AllocPages (count : Z)
| FreePage (page : Z)
| FreePages (page count : Z).

(** The arguments the C types allow: [uint64_t] addresses and counts, and a
    range of pages that does not wrap around the address space. *)
Definition op_ok (op : pmm_op) : Prop :=
  match op with
  | AllocPage => True
  | AllocPages n => 0 <= n < 2 ^ 64
  | FreePage p => 0 <= p < 2 ^ 64
  | FreePages p n => 0 <= p /\ 0 <= n /\ p + n * 4096 < 2 ^ 64
  end.

Definition pmm_exec (op : pmm_op) (s : pmm_state) : Z * pmm_state :=
  match op with
  | AllocPage => pmm_alloc_page s
  | AllocPages n => pmm_alloc_pages n s
  | FreePage p => (NULL, pmm_free_page p s)
  | FreePages p n => (NULL, pmm_free_pages p n s)
  end.

(** What each operation promises of the set [F] of free pages; [mgd] is the
    set of managed pages. *)
Inductive alloc_step (mgd : gset Z) (F : gset Z) : pmm_op -> Z -> gset Z -> Prop :=
| step_alloc p :
    p ∈ F -> (forall q, q ∈ F -> p <= q) ->
    alloc_step mgd F AllocPage p (F ∖ {[p]})
| step_alloc_fail :
    F = ∅ -> alloc_step mgd F AllocPage NULL F
| step_allocs st n :
    0 < n -> frame_run st n ⊆ F ->
    (forall st', st' ∈ F -> frame_run st' n ⊆ F -> st <= st') ->
    alloc_step mgd F (AllocPages n) st (F ∖ frame_run st n)
| step_allocs_fail n :
    (n = 0 \/ forall st, ~ frame_run st n ⊆ F) ->
    alloc_step mgd F (AllocPages n) NULL F
| step_free p :
    alloc_step mgd F (FreePage p) NULL (F ∪ ({[p]} ∩ mgd))
| step_frees p n :
    p ∈ mgd -> alloc_step mgd F (FreePages p n) NULL (F ∪ (frame_run p n ∩ mgd))
| step_frees_fail p n :
    p ∉ mgd -> alloc_step mgd F (FreePages p n) NULL F.

(** ** Arithmetic of page addresses *)

Section inv.
  Context (s : pmm_state) (Hinv : pmm_inv s).

Lemma page_phys_frame i :
    0 <= i < max_pages (pmm_config s) -> page_phys s i = frame_at s i.
  Proof using Hinv.
    destruct Hinv as [_ _ Hps Hmx Hst _ Hen Hlim]. intros Hi.
    unfold page_phys, frame_at, PHYS_LIMIT in *. rewrite Hps.
    rewrite (wrap_small 64 (i * 4096)) by lia. rewrite wrap_small by lia. done.
  Qed.

Lemma frame_at_inj i j : frame_at s i = frame_at s j -> i = j.
  Proof. unfold frame_at. lia. Qed.

Lemma elem_managed p :
    p ∈ managed_frames s <-> exists i, 0 <= i < max_pages (pmm_config s) /\ p = frame_at s i.
  Proof.
    unfold managed_frames. rewrite elem_of_list_to_set, list_elem_of_fmap.
    split; intros (i & H1 & H2).
    - apply elem_of_seqZ in H2. exists i. lia.
    - exists i. rewrite elem_of_seqZ. lia.
  Qed.

Lemma elem_free p :
    p ∈ free_frames s <->
    exists i, 0 <= i < max_pages (pmm_config s) /\ p = frame_at s i /\
              bit_test (static_bitmap s) i = false.
  Proof.
    unfold free_frames. rewrite elem_of_list_to_set, list_elem_of_fmap.
    split.
    - intros (i & -> & Hi). apply list_elem_of_filter in Hi as [Hb Hi].
      apply elem_of_seqZ in Hi. exists i. split; [lia|done].
    - intros (i & Hi & -> & Hb). exists i. split; [done|].
      apply list_elem_of_filter. split; [done|]. apply elem_of_seqZ. lia.
  Qed.

Lemma frame_free_iff i :
    0 <= i < max_pages (pmm_config s) ->
    frame_at s i ∈ free_frames s <-> bit_test (static_bitmap s) i = false.
  Proof.
    intros Hi. rewrite elem_free. split.
    - intros (j & Hj & Heq & Hb). by rewrite (frame_at_inj _ _ Heq).
    - intros Hb. by exists i.
  Qed.

Lemma free_managed : free_frames s ⊆ managed_frames s.
  Proof.
    intros p Hp. apply elem_free in Hp as (i & Hi & -> & _).
    apply elem_managed. by exists i.
  Qed.

  (** Managed pages are page aligned, not null, and below the limit. *)
Lemma managed_range p :
    p ∈ managed_frames s -> 4096 <= p /\ p mod 4096 = 0 /\ p + 4096 <= PHYS_LIMIT.
  Proof using Hinv.
    destruct Hinv as [_ _ _ Hmx Hst Hal Hen Hlim].
    intros (i & Hi & ->)%elem_managed. unfold frame_at.
    split; [lia|]. split; [|lia].
    by rewrite Z_mod_plus_full.
  Qed.

Lemma managed_page_iff p :
    0 <= p -> managed_page s p = true <-> p ∈ managed_frames s.
  Proof using Hinv.
    destruct Hinv as [_ _ Hps Hmx Hst Hal Hen Hlim].
    intros Hp. unfold managed_page. rewrite Hps.
    rewrite negb_true_iff, !orb_false_iff, negb_false_iff, Z.ltb_ge, Z.leb_gt, Z.eqb_eq.
    rewrite elem_managed. unfold frame_at. split.
    - intros [[H1 H2] H3].
      exists ((p - kernel_start (pmm_config s)) / 4096).
      pose proof (Z.div_mod p 4096). pose proof (Z.div_mod (kernel_start (pmm_config s)) 4096).
      replace (p - kernel_start (pmm_config s))
        with ((p / 4096 - kernel_start (pmm_config s) / 4096) * 4096) by lia.
      rewrite Z.div_mul by lia. lia.
    - intros (i & Hi & ->). rewrite Z_mod_plus_full. lia.
  Qed.

Lemma page_index_frame i :
    0 <= i < max_pages (pmm_config s) -> page_index s (frame_at s i) = i.
  Proof using Hinv.
    destruct Hinv as [_ _ Hps Hmx Hst Hal Hen Hlim].
    intros Hi. unfold page_index, frame_at, PHYS_LIMIT in *. rewrite Hps.
    rewrite wrap_small by lia.
    replace (kernel_start (pmm_config s) + i * 4096 - kernel_start (pmm_config s))
      with (i * 4096) by lia.
    by rewrite Z.div_mul by lia.
  Qed.
End inv.

Lemma elem_frame_run st n p : p ∈ frame_run st n <-> exists i, 0 <= i < n /\ p = st + i * 4096.
Proof.
  unfold frame_run. rewrite elem_of_list_to_set, list_elem_of_fmap.
  split; intros (i & H1 & H2).
  - apply elem_of_seqZ in H2. exists i. lia.
  - exists i. rewrite elem_of_seqZ. lia.
Qed.

(** ** The scans *)

Lemma alloc_scan_spec bm n i :
  match alloc_scan bm n i with
  | Some k => i <= k < i + Z.of_nat n /\ bit_test bm k = false /\
              (forall j, i <= j < k -> bit_test bm j = true)
  | None => forall j, i <= j < i + Z.of_nat n -> bit_test bm j = true
  end.
Proof.
  revert i. induction n as [|n IH]; intros i; simpl; [lia|].
  destruct (bit_test bm i) eqn:Hi; simpl.
  - specialize (IH (i + 1)). destruct (alloc_scan bm n (i + 1)) as [k|].
    + destruct IH as (Hk & Hb & Hlt). split_and!; [lia..|done|].
      intros j Hj. destruct (decide (j = i)) as [->|]; [done|]. apply Hlt. lia.
    + intros j Hj. destruct (decide (j = i)) as [->|]; [done|]. apply IH. lia.
  - split_and!; [lia..|done|]. lia.
Qed.

(** A run of [count] clear bits from [st]. *)
Definition clear_run (bm : list Z) (st count : Z) : Prop :=
  forall j, st <= j < st + count -> bit_test bm j = false.

(** Between iterations of [pmm_alloc_pages], the last [found] bits before [i]
    are clear, they start at [start], and no run of [count] ends before [i]. *)
Lemma run_scan_spec bm count n i found start :
  1 < count -> 0 <= found < count ->
  (found = 0 \/ start = i - found) -> clear_run bm (i - found) found ->
  (forall st, 0 <= st -> st < i - found -> ~ clear_run bm st count) ->
  0 <= i - found ->
  match run_scan bm count n i found start with
  | Some st => 0 <= st /\ st + count <= i + Z.of_nat n /\ clear_run bm st count /\
               (forall st', 0 <= st' -> st' < st -> ~ clear_run bm st' count)
  | None => forall st, 0 <= st -> st + count <= i + Z.of_nat n -> ~ clear_run bm st count
  end.
Proof.
  intros Hc. revert i found start.
  induction n as [|n IH]; intros i found start Hf Hst Hrun Hmin Hpos; simpl.
  { intros st Hst0 Hle. apply Hmin; lia. }
  destruct (bit_test bm i) eqn:Hi; simpl.
  - replace (i + Z.of_nat (S n)) with ((i + 1) + Z.of_nat n) by lia.
    apply IH; [lia|by left| | |lia].
    + intros j Hj. lia.
    + intros st Hst0 Hlt Hcl. destruct (decide (st < i - found)); [by apply (Hmin st)|].
      rewrite (Hcl i) in Hi by lia. done.
  - assert (Hstart : (if found =? 0 then i else start) = i - found).
    { destruct (Z.eqb_spec found 0); [lia|]. destruct Hst; [done|lia]. }
    assert (Hrun' : clear_run bm (i - found) (found + 1)).
    { intros j Hj. destruct (decide (j = i)) as [->|]; [done|]. apply Hrun. lia. }
    rewrite Hstart. destruct (Z.eqb_spec (found + 1) count) as [Heq|Hne].
    + split_and!; [lia..| |done]. by rewrite <- Heq.
    + replace (i + Z.of_nat (S n)) with ((i + 1) + Z.of_nat n) by lia.
      apply IH; [lia|right; lia| | |lia].
      * replace (i + 1 - (found + 1)) with (i - found) by lia. done.
      * intros st Hst0 Hlt. apply Hmin; lia.
Qed.

(** ** Each operation implements its specification *)

(** Replacing the bitmap keeps the invariant and the managed pages. *)
Lemma set_bitmap_inv s bm :
  pmm_inv s -> bitmap_wf STATIC_BITMAP_SIZE bm -> pmm_inv (set_bitmap bm s).
Proof. intros []; intros; by constructor. Qed.

Lemma count_alloc_inv s : pmm_inv s -> pmm_inv (count_alloc s).
Proof. intros []; by constructor. Qed.

Lemma count_failure_inv s : pmm_inv s -> pmm_inv (count_failure s).
Proof. intros []; by constructor. Qed.

#[export] Hint Resolve set_bitmap_inv count_alloc_inv count_failure_inv inv_bitmap : kernel.

(** Two managers with one configuration and related bitmaps. *)
Lemma free_frames_set_bitmap s bm (F : gset Z) :
  (forall i, 0 <= i < max_pages (pmm_config s) ->
     bit_test bm i = false <-> frame_at s i ∈ F) ->
  F ⊆ managed_frames s ->
  free_frames (set_bitmap bm s) = F.
Proof.
  intros Hbits Hsub. apply set_eq. intros p. rewrite elem_free. split.
  - intros (i & Hi & -> & Hb). by apply Hbits in Hb.
  - intros Hp. pose proof (Hsub _ Hp) as (i & Hi & ->)%elem_managed.
    exists i. split; [done|]. split; [done|]. by apply Hbits.
Qed.

Section ops.
  Context (s : pmm_state) (Hinv : pmm_inv s).
Let mx := max_pages (pmm_config s).

Lemma bit_set_frames i :
    0 <= i < mx ->
    free_frames (set_bitmap (bit_set (static_bitmap s) i) s)
    = free_frames s ∖ {[frame_at s i]}.
  Proof using Hinv.
    intros Hi. pose proof (inv_max s Hinv). pose proof (inv_bitmap s Hinv) as Hwf.
    apply free_frames_set_bitmap.
    - intros j Hj. rewrite (bit_test_set STATIC_BITMAP_SIZE)
        by (done || unfold STATIC_BITMAP_SIZE, mx in *; lia).
      rewrite elem_of_difference, elem_of_singleton, frame_free_iff by done.
      rewrite orb_false_iff, Z.eqb_neq. split.
      + intros [Hne Hb]. split; [done|]. intros Heq%frame_at_inj. congruence.
      + intros [Hb Hne]. split; [|done]. intros ->. done.
    - intros p [Hp _]%elem_of_difference. by apply free_managed.
  Qed.

Lemma bit_set_range_frames st n :
    0 <= st -> 0 <= n -> st + n <= mx ->
    pmm_inv (set_bitmap (bit_set_range (static_bitmap s) st n) s) /\
    free_frames (set_bitmap (bit_set_range (static_bitmap s) st n) s)
    = free_frames s ∖ frame_run (frame_at s st) n.
  Proof using Hinv.
    intros Hst Hn Hle. pose proof (inv_max s Hinv). pose proof (inv_bitmap s Hinv) as Hwf.
    destruct (bit_set_range_spec STATIC_BITMAP_SIZE (static_bitmap s) st n)
      as [Hwf' Hbits]; [done..|unfold STATIC_BITMAP_SIZE, mx in *; lia|].
    split; [by auto with kernel|].
    apply free_frames_set_bitmap.
    - intros j Hj. rewrite Hbits by lia.
      rewrite elem_of_difference, elem_frame_run, frame_free_iff by done.
      rewrite orb_false_iff, andb_false_iff, Z.leb_gt, Z.ltb_ge. unfold frame_at. split.
      + intros [Hne Hb]. split; [done|]. intros (i & Hi & Heq). lia.
      + intros [Hb Hne]. split; [|done].
        destruct (decide (st <= j < st + n)); [|lia].
        exfalso. apply Hne. exists (j - st). lia.
    - intros p [Hp _]%elem_of_difference. by apply free_managed.
  Qed.

Lemma bit_clear_frames i :
    0 <= i < mx ->
    free_frames (set_bitmap (bit_clear (static_bitmap s) i) s)
    = free_frames s ∪ {[frame_at s i]}.
  Proof using Hinv.
    intros Hi. pose proof (inv_max s Hinv). pose proof (inv_bitmap s Hinv) as Hwf.
    apply free_frames_set_bitmap.
    - intros j Hj. rewrite (bit_test_clear STATIC_BITMAP_SIZE)
        by (done || unfold STATIC_BITMAP_SIZE, mx in *; lia).
      rewrite elem_of_union, elem_of_singleton, frame_free_iff by done.
      rewrite andb_false_iff, negb_false_iff, Z.eqb_eq. split.
      + intros [-> | Hb]; [by right|by left].
      + intros [Hb | Heq%frame_at_inj]; [by right|by left].
    - intros p [Hp | ->%elem_of_singleton]%elem_of_union; [by apply free_managed|].
      apply elem_managed. by exists i.
  Qed.

Lemma alloc_page_step r s' :
    pmm_alloc_page s = (r, s') ->
    pmm_inv s' /\ managed_frames s' = managed_frames s /\
    alloc_step (managed_frames s) (free_frames s) AllocPage r (free_frames s').
  Proof using Hinv.
    unfold pmm_alloc_page. rewrite (inv_init s Hinv). cbn [negb].
    pose proof (alloc_scan_spec (static_bitmap s) (Z.to_nat mx) 0) as Hscan.
    pose proof (inv_max s Hinv) as Hmx. fold mx in Hmx |- *.
    destruct (alloc_scan _ _ _) as [k|]; intros [= <- <-].
    - destruct Hscan as (Hk & Hb & Hlt).
      split; [eauto with kernel|]. split; [done|].
      rewrite page_phys_frame by (done || lia).
      change (free_frames (count_alloc ?x)) with (free_frames x).
      rewrite bit_set_frames by lia. constructor.
      + apply frame_free_iff; [lia|done].
      + intros q (j & Hj & -> & Hbj)%elem_free. unfold frame_at.
        destruct (decide (j < k)); [|lia]. rewrite Hlt in Hbj by lia. done.
    - split; [eauto with kernel|]. split; [done|].
      change (free_frames (count_failure ?x)) with (free_frames x).
      constructor. apply elem_of_equiv_empty_L.
      intros p (j & Hj & -> & Hbj)%elem_free. rewrite Hscan in Hbj by lia. done.
  Qed.

  (** Runs of free frames are runs of clear bits. *)
Lemma clear_run_frames st n :
    0 <= st -> 0 <= n -> st + n <= mx ->
    clear_run (static_bitmap s) st n <-> frame_run (frame_at s st) n ⊆ free_frames s.
  Proof.
    intros Hst Hn Hle. split.
    - intros Hcl p (i & Hi & ->)%elem_frame_run.
      replace (frame_at s st + i * 4096) with (frame_at s (st + i)) by (unfold frame_at; lia).
      apply frame_free_iff; [unfold mx in *; lia|]. apply Hcl. lia.
    - intros Hsub j Hj. apply frame_free_iff; [unfold mx in *; lia|].
      apply Hsub. apply elem_frame_run. exists (j - st). unfold frame_at. lia.
  Qed.

Lemma free_run_bounds st n :
    0 < n -> frame_run st n ⊆ free_frames s ->
    exists k, 0 <= k /\ k + n <= mx /\ st = frame_at s k.
  Proof.
    intros Hn Hsub.
    assert (st ∈ free_frames s) as Hst.
    { apply Hsub, elem_frame_run. exists 0. lia. }
    assert (st + (n - 1) * 4096 ∈ free_frames s) as Hend.
    { apply Hsub, elem_frame_run. exists (n - 1). lia. }
    apply elem_free in Hst as (k & Hk & -> & _).
    apply elem_free in Hend as (j & Hj & Heq & _).
    exists k. unfold frame_at, mx in *. lia.
  Qed.
End ops.

Lemma frame_run_1 st : frame_run st 1 = {[st]}.
Proof.
  apply set_eq. intros p. rewrite elem_frame_run, elem_of_singleton. split.
  - intros (i & Hi & ->). lia.
  - intros ->. exists 0. lia.
Qed.

Lemma alloc_pages_step s n r s' :
  pmm_inv s -> 0 <= n < 2 ^ 64 -> pmm_alloc_pages n s = (r, s') ->
  pmm_inv s' /\ managed_frames s' = managed_frames s /\
  alloc_step (managed_frames s) (free_frames s) (AllocPages n) r (free_frames s').
Proof.
  intros Hinv Hn. unfold pmm_alloc_pages. rewrite (inv_init s Hinv). cbn [negb orb].
  pose proof (inv_max s Hinv) as Hmx.
  destruct (Z.eqb_spec n 0) as [->|Hn0].
  { intros [= <- <-]. split_and!; [done..|]. constructor. by left. }
  destruct (Z.eqb_spec n 1) as [->|Hn1].
  { intros Ha. destruct (alloc_page_step s Hinv _ _ Ha) as (Hi & Hm & Hs).
    split_and!; [done..|]. inversion Hs as [p Hp Hmin | HF | | | | |]; subst.
    - rewrite <- (frame_run_1 r). constructor; [lia| |].
      + rewrite frame_run_1. by apply singleton_subseteq_l.
      + intros st' Hst' _. by apply Hmin.
    - constructor. right. intros st Hsub. rewrite HF, frame_run_1 in Hsub.
      apply singleton_subseteq_l in Hsub. by apply not_elem_of_empty in Hsub. }
  pose proof (run_scan_spec (static_bitmap s) n (Z.to_nat (max_pages (pmm_config s))) 0 0 0)
    as Hscan.
  specialize (Hscan ltac:(lia) ltac:(lia) (or_introl eq_refl)
                ltac:(intros j Hj; lia) ltac:(intros; lia) ltac:(lia)).
  destruct (run_scan _ _ _ _ _ _) as [st|]; intros [= <- <-].
  - destruct Hscan as (Hst & Hle & Hcl & Hmin).
    destruct (bit_set_range_frames s Hinv st n) as [Hi HF]; [lia..|].
    split; [by apply count_alloc_inv|]. split; [done|].
    rewrite page_phys_frame by (done || lia).
    change (free_frames (count_alloc ?x)) with (free_frames x). rewrite HF.
    constructor; [lia| |].
    + apply clear_run_frames; [lia..|done].
    + intros st' _ Hsub. destruct (free_run_bounds s st' n) as (k & Hk & Hkn & ->); [lia|done|].
      destruct (decide (k < st)); [|unfold frame_at; lia].
      exfalso. apply (Hmin k); [lia..|]. by apply (clear_run_frames s); lia || done.
  - split; [by apply count_failure_inv|]. split; [done|].
    change (free_frames (count_failure ?x)) with (free_frames x).
    constructor. right. intros st Hsub.
    destruct (free_run_bounds s st n) as (k & Hk & Hkn & ->); [lia|done|].
    apply (Hscan k); [lia..|]. by apply (clear_run_frames s); lia || done.
Qed.

Lemma free_page_step s p :
  pmm_inv s -> 0 <= p ->
  pmm_inv (pmm_free_page p s) /\
  managed_frames (pmm_free_page p s) = managed_frames s /\
  pmm_config (pmm_free_page p s) = pmm_config s /\
  free_frames (pmm_free_page p s) = free_frames s ∪ ({[p]} ∩ managed_frames s).
Proof.
  intros Hinv Hp. unfold pmm_free_page. rewrite (inv_init s Hinv). cbn [negb].
  pose proof (inv_max s Hinv) as Hmx.
  destruct (managed_page s p) eqn:Hm; cbn [negb].
  - apply managed_page_iff in Hm as Hin; [|done..].
    pose proof Hin as (i & Hi & ->)%elem_managed.
    rewrite page_index_frame by done.
    replace (max_pages (pmm_config s) <=? i) with false by lia.
    replace ({[frame_at s i]} ∩ managed_frames s) with ({[frame_at s i]} : gset Z) by set_solver.
    destruct (bit_test (static_bitmap s) i) eqn:Hb; cbn [negb].
    + split; [eauto using bit_clear_wf with kernel|]. split; [done|]. split; [done|].
      by apply bit_clear_frames.
    + split_and!; [done..|]. apply frame_free_iff in Hb; [|done]. set_solver.
  - assert (p ∉ managed_frames s) as Hn.
    { intros Hin. apply managed_page_iff in Hin; [congruence|done..]. }
    split_and!; [done..|]. set_solver.
Qed.

(** The loop of [pmm_free_pages]. *)
Lemma free_pages_loop s p n :
  pmm_inv s -> 0 <= p -> 0 <= n -> p + n * 4096 < 2 ^ 64 ->
  let s' := foldl (fun s i => pmm_free_page (u64 (p + u64 (i * page_size (pmm_config s)))) s)
              s (seqZ 0 n) in
  pmm_inv s' /\ managed_frames s' = managed_frames s /\
  free_frames s' = free_frames s ∪ (frame_run p n ∩ managed_frames s).
Proof.
  intros Hinv Hp Hn. pattern n. apply natlike_ind; [| |done]; clear n Hn.
  - intros _. simpl. split_and!; [done..|].
    replace (frame_run p 0) with (∅ : gset Z) by done. set_solver.
  - intros n Hn IH Hle. destruct IH as (Hi & Hm & HF); [lia|].
    replace (Z.succ n) with (n + 1) by lia. rewrite seqZ_snoc, foldl_app by lia.
    cbn zeta in *. set (s1 := foldl _ s (seqZ 0 n)) in *. cbn [foldl].
    rewrite (inv_page_size _ Hi), Z.add_0_l.
    rewrite (wrap_small 64 (n * 4096)) by lia. rewrite wrap_small by lia.
    destruct (free_page_step s1 (p + n * 4096) Hi) as (Hi' & Hm' & _ & HF'); [lia|].
    split; [done|]. split; [congruence|].
    rewrite HF', HF, Hm.
    assert (frame_run p (n + 1) = frame_run p n ∪ {[p + n * 4096]}) as ->; [|set_solver].
    apply set_eq. intros q.
    rewrite elem_of_union, elem_of_singleton, !elem_frame_run. split.
    + intros (i & Hi1 & ->). destruct (decide (i = n)) as [->|]; [by right|].
      left. exists i. lia.
    + intros [(i & Hi1 & ->) | ->]; [exists i|exists n]; lia.
Qed.

Lemma free_pages_step s p n :
  pmm_inv s -> 0 <= p -> 0 <= n -> p + n * 4096 < 2 ^ 64 ->
  pmm_inv (pmm_free_pages p n s) /\
  managed_frames (pmm_free_pages p n s) = managed_frames s /\
  free_frames (pmm_free_pages p n s)
  = if decide (p ∈ managed_frames s)
    then free_frames s ∪ (frame_run p n ∩ managed_frames s) else free_frames s.
Proof.
  intros Hinv Hp Hn Hle. unfold pmm_free_pages. rewrite (inv_init s Hinv). cbn [negb orb].
  pose proof Hinv as [_ _ Hps Hmx Hst Hal Hen Hlim].
  destruct (Z.eqb_spec n 0) as [->|Hn0].
  { replace (frame_run p 0) with (∅ : gset Z) by done.
    split_and!; [done..|]. case_decide; set_solver. }
  destruct (Z.eqb_spec n 1) as [->|Hn1].
  { destruct (free_page_step s p Hinv Hp) as (Hi & Hm & _ & ->).
    split_and!; [done..|]. rewrite frame_run_1. case_decide; set_solver. }
  destruct (managed_page s p) eqn:Hmp; cbn [negb].
  2:{ rewrite decide_False; [done|]. intros Hin.
      apply managed_page_iff in Hin; [congruence|done..]. }
  apply managed_page_iff in Hmp as Hin; [|done..].
  rewrite decide_True by done. rewrite Hps.
  rewrite (wrap_small 64 (n * 4096)) by lia. rewrite (wrap_small 64 (p + _)) by lia.
  pose proof Hin as (k & Hk & Hpk)%elem_managed. unfold frame_at, PHYS_LIMIT in *.
  destruct (Z.ltb_spec (kernel_end (pmm_config s)) (p + n * 4096)) as [Hc|Hc].
  2:{ apply free_pages_loop; [done|lia..]. }
  rewrite wrap_small by lia.
  replace ((kernel_end (pmm_config s) - p) / 4096) with (max_pages (pmm_config s) - k).
  2:{ replace (kernel_end (pmm_config s) - p)
        with ((max_pages (pmm_config s) - k) * 4096) by lia.
      by rewrite Z.div_mul. }
  destruct (free_pages_loop s p (max_pages (pmm_config s) - k)) as (Hi & Hm & HF);
    [done|lia..|].
  split; [done|]. split; [done|]. rewrite HF. f_equal.
  apply set_eq. intros q. rewrite !elem_of_intersection, !elem_frame_run, elem_managed.
  unfold frame_at. split.
  - intros [(i & Hi1 & ->) Hq]. split; [|done]. exists i. lia.
  - intros [(i & Hi1 & ->) (j & Hj & Hq)]. split; [|by exists j]. exists i. lia.
Qed.

Lemma pmm_refines_frame_set_aux s op r s' :
  pmm_inv s -> op_ok op -> pmm_exec op s = (r, s') ->
  pmm_inv s' /\ managed_frames s' = managed_frames s /\
  alloc_step (managed_frames s) (free_frames s) op r (free_frames s').
Proof.
  intros Hinv Hop. destruct op as [|n|p|p n]; simpl in *.
  - by apply alloc_page_step.
  - by apply alloc_pages_step.
  - intros [= <- <-]. destruct (free_page_step s p Hinv) as (Hi & Hm & _ & ->); [lia|].
    split_and!; [done..|]. constructor.
  - intros [= <- <-]. destruct Hop as (Hp & Hn & Hle).
    destruct (free_pages_step s p n Hinv Hp Hn Hle) as (Hi & Hm & ->).
    split_and!; [done..|]. case_decide; by constructor.
Qed.

(** C1: every allocation and release function implements its abstract
    specification: on a manager that satisfies the invariant it keeps the
    invariant and the managed pages, and it changes the set of free pages and
    returns an address as [alloc_step] allows - the lowest free page, the
    lowest run of [count] free pages, [NULL] exactly when there is none, and a
    release that frees exactly the managed pages of its range. *)
Theorem pmm_refines_frame_set s op r s' :
  pmm_inv s -> op_ok op -> pmm_exec op s = (r, s') ->
  pmm_inv s' /\ managed_frames s' = managed_frames s /\
  alloc_step (managed_frames s) (free_frames s) op r (free_frames s').
Proof. apply pmm_refines_frame_set_aux. Qed.

(** ** Sequences of operations *)

Fixpoint pmm_run (ops : list pmm_op) (s : pmm_state) : list Z * pmm_state :=
  match ops with
  | [] => ([], s)
  | op :: ops' =>
      let '(r, s1) := pmm_exec op s in
      let '(rs, s2) := pmm_run ops' s1 in (r :: rs, s2)
  end.

(** [op] releases page [p]. *)
Definition releases (p : Z) (op : pmm_op) : Prop :=
  match op with
  | FreePage q => p = q
  | FreePages q n => p ∈ frame_run q n
  | _ => False
  end.

(** Page [p] is one of the pages the answer [r] of [op] hands out. *)
Definition hands_out (p : Z) (op : pmm_op) (r : Z) : Prop :=
  match op with
  | AllocPage => r <> NULL /\ p = r
  | AllocPages n => r <> NULL /\ p ∈ frame_run r n
  | _ => False
  end.

Lemma alloc_step_taken mgd F op r F' p :
  alloc_step mgd F op r F' -> p ∉ F -> ~ releases p op -> (p ∉ F') /\ ~ hands_out p op r.
Proof.
  intros Hs Hp Hr.
  inversion Hs as [q Hq Hmin | HF | st n Hn Hsub Hmin | n HF | q | q n Hq | q n Hq];
    subst; simpl in *.
  - split; [set_solver|]. intros [_ ->]. done.
  - split; [done|]. by intros [? _].
  - split; [set_solver|]. intros [_ Hin]. by apply Hp, Hsub.
  - split; [done|]. by intros [? _].
  - split; [set_solver|tauto].
  - split; [set_solver|tauto].
  - tauto.
Qed.

(** A page handed out is no longer free. *)
Lemma alloc_step_handed mgd F op r F' p :
  alloc_step mgd F op r F' -> hands_out p op r -> p ∈ F /\ p ∉ F'.
Proof.
  intros Hs Hh.
  inversion Hs as [q Hq Hmin | HF | st n Hn Hsub Hmin | n HF | q | q n Hq | q n Hq];
    subst; simpl in *; try tauto.
  - destruct Hh as [_ ->]. set_solver.
  - destruct Hh as [_ Hin]. split; [by apply Hsub|set_solver].
Qed.

(** C8: no page is handed out twice.  Once an allocation has returned a block
    that contains page [p], no later allocation of either kind returns a block
    that contains [p] as long as no operation in between releases [p]. *)
Theorem pmm_no_double_allocation s op r s1 ops op' r' s2 rs s3 p :
  pmm_inv s -> op_ok op -> Forall op_ok ops -> op_ok op' ->
  pmm_exec op s = (r, s1) -> hands_out p op r ->
  Forall (fun o => ~ releases p o) ops ->
  pmm_run ops s1 = (rs, s2) ->
  pmm_exec op' s2 = (r', s3) ->
  ~ hands_out p op' r'.
Proof.
  intros Hinv Hop Hops Hop' Hex Hh Hnr Hrun Hex' Hh'.
  destruct (pmm_refines_frame_set_aux s op r s1) as (Hi1 & _ & Hs1); [done..|].
  apply (alloc_step_handed _ _ _ _ _ p) in Hs1 as [_ Hp1]; [|done].
  clear Hex Hh s Hinv. revert s1 rs Hrun Hi1 Hp1.
  induction ops as [|o ops IH]; intros s1 rs Hrun Hi1 Hp1; simpl in Hrun.
  - injection Hrun as <- <-.
    destruct (pmm_refines_frame_set_aux s1 op' r' s3) as (_ & _ & Hs); [done..|].
    apply (alloc_step_handed _ _ _ _ _ p) in Hs as [Hin _]; done.
  - apply Forall_cons in Hops as [Ho Hops]. apply Forall_cons in Hnr as [Hno Hnr].
    destruct (pmm_exec o s1) as [r1 sm] eqn:Hex1.
    destruct (pmm_run ops sm) as [rs' sf] eqn:Hrun1.
    injection Hrun as <- <-.
    destruct (pmm_refines_frame_set_aux s1 o r1 sm) as (Him & _ & Hsm); [done..|].
    apply (alloc_step_taken _ _ _ _ _ p) in Hsm as [Hpm _]; [|done..].
    by apply (IH Hops Hnr sm rs').
Qed.

(** ** Accounting *)

Lemma count_pages_snoc f n :
  0 <= n -> count_pages f (n + 1) = if f n then u64 (count_pages f n + 1) else count_pages f n.
Proof. intros Hn. unfold count_pages. rewrite seqZ_snoc, foldl_app by lia. done. Qed.

Lemma count_pages_filter (f : Z -> bool) n :
  0 <= n < 2 ^ 64 ->
  count_pages f n = Z.of_nat (length (filter (fun i => f i = true) (seqZ 0 n))) /\
  0 <= count_pages f n <= n.
Proof.
  intros [Hn Hle]. revert Hle. pattern n. apply natlike_ind; [done| |done]; clear n Hn.
  intros n Hn IH Hle. destruct IH as [IH Hb]; [lia|].
  replace (Z.succ n) with (n + 1) by lia.
  rewrite count_pages_snoc, seqZ_snoc, filter_app, length_app by lia.
  rewrite Z.add_0_l. destruct (f n) eqn:Hf.
  - rewrite filter_cons_True by done. simpl. rewrite wrap_small by lia. lia.
  - rewrite filter_cons_False by congruence. simpl. lia.
Qed.

Lemma count_pages_split (f : Z -> bool) n :
  0 <= n < 2 ^ 64 -> count_pages f n + count_pages (fun i => negb (f i)) n = n.
Proof.
  intros [Hn Hle]. revert Hle. pattern n. apply natlike_ind; [done| |done]; clear n Hn.
  intros n Hn IH Hle. specialize (IH ltac:(lia)).
  destruct (count_pages_filter f n) as [_ H1]; [lia|].
  destruct (count_pages_filter (fun i => negb (f i)) n) as [_ H2]; [lia|].
  replace (Z.succ n) with (n + 1) by lia. rewrite !count_pages_snoc by lia.
  destruct (f n); simpl; rewrite wrap_small by lia; lia.
Qed.

Lemma size_free_frames s :
  size (free_frames s)
  = length (filter (fun i => bit_test (static_bitmap s) i = false)
              (seqZ 0 (max_pages (pmm_config s)))).
Proof.
  unfold free_frames. rewrite size_list_to_set; [by rewrite length_fmap|].
  apply NoDup_fmap_2_strong.
  - intros i j _ _ Heq. by apply frame_at_inj in Heq.
  - apply NoDup_filter, NoDup_seqZ.
Qed.

Lemma pmm_accounting_aux s :
  pmm_inv s ->
  pmm_get_free_memory s = 4096 * Z.of_nat (size (free_frames s)) /\
  pmm_get_free_memory s + pmm_get_used_memory s
  = kernel_end (pmm_config s) - kernel_start (pmm_config s).
Proof.
  intros [Hi Hbm Hps Hmx Hst Hal Hen Hlim].
  unfold pmm_get_free_memory, pmm_get_used_memory. rewrite Hi, Hps. cbn [negb].
  set (free := fun i => negb (bit_test (static_bitmap s) i)).
  set (used := fun i => bit_test (static_bitmap s) i).
  set (n := max_pages (pmm_config s)) in *.
  destruct (count_pages_filter free n) as [Hf Hfb]; [lia|].
  destruct (count_pages_filter used n) as [_ Hub]; [lia|].
  pose proof (count_pages_split used n ltac:(lia)) as Hsplit.
  change (fun i => negb (used i)) with free in *.
  rewrite !wrap_small by lia. split; [|lia].
  rewrite size_free_frames, Hf. rewrite Z.mul_comm. f_equal. f_equal. f_equal.
  apply list_filter_iff. intros i. unfold free. apply negb_true_iff.
Qed.

(** the statistics are exact: [pmm_get_free_memory] is 4096 times the
    number of free pages, and with [pmm_get_used_memory] it adds up to the
    size of the managed range. *)
Theorem pmm_accounting s :
  pmm_inv s ->
  pmm_get_free_memory s = 4096 * Z.of_nat (size (free_frames s)) /\
  pmm_get_free_memory s + pmm_get_used_memory s
  = kernel_end (pmm_config s) - kernel_start (pmm_config s).
Proof. apply pmm_accounting_aux. Qed.

(** ** Round trip *)

Lemma pmm_is_page_free_spec s p :
  pmm_inv s -> 0 <= p -> pmm_is_page_free p s = true <-> p ∈ free_frames s.
Proof.
  intros Hinv Hp. unfold pmm_is_page_free. rewrite (inv_init s Hinv). cbn [negb].
  destruct (managed_page s p) eqn:Hm; cbn [negb].
  - apply managed_page_iff in Hm as (i & Hi & ->)%elem_managed; [|done..].
    rewrite page_index_frame by done.
    replace (max_pages (pmm_config s) <=? i) with false by lia.
    by rewrite negb_true_iff, frame_free_iff.
  - split; [done|]. intros Hin%free_managed.
    apply managed_page_iff in Hin; [congruence|done..].
Qed.

(** releasing what was allocated undoes the allocation: after
    [pmm_alloc_pages n], successful or not, and the release of the [n] pages at
    the address it returned, the same pages are free as before and the free
    memory reported is the same. *)
Theorem pmm_alloc_free_roundtrip s n r s' :
  pmm_inv s -> 0 <= n < 2 ^ 52 -> pmm_alloc_pages n s = (r, s') ->
  let s2 := pmm_free_pages r n s' in
  free_frames s2 = free_frames s /\
  pmm_get_free_memory s2 = pmm_get_free_memory s /\
  forall p, 0 <= p -> pmm_is_page_free p s2 = pmm_is_page_free p s.
Proof.
  intros Hinv Hn Ha. cbn zeta.
  destruct (alloc_pages_step s n r s' Hinv ltac:(lia) Ha) as (Hi & Hm & Hs).
  assert (0 <= r /\ r + n * 4096 < 2 ^ 64 /\
          (r ∈ managed_frames s -> frame_run r n ⊆ managed_frames s)
          /\ free_frames s' = free_frames s ∖ (if decide (r ∈ managed_frames s) then frame_run r n else ∅)) as (Hr & Hle & Hrun & HF).
  { inversion Hs as [| | st k Hk Hsub Hmin | k HF | | |]; subst.
    - destruct (free_run_bounds s r n) as (k & Hk0 & Hkn & ->); [lia|done|].
      assert (frame_at s k ∈ managed_frames s) as Hin
        by (apply elem_managed; exists k; lia).
      rewrite decide_True by done. pose proof (free_managed s).
      destruct Hinv as [_ _ Hps Hmx Hst Hal Hen Hlim]. unfold frame_at, PHYS_LIMIT in *.
      split_and!; [lia..| |done].
      intros _. by transitivity (free_frames s).
    - rewrite decide_False; [split_and!; [done|unfold NULL; lia| |by rewrite difference_empty_L]|].
      + intros Hin. apply (managed_range s Hinv) in Hin. unfold NULL in Hin. lia.
      + intros Hin. apply (managed_range s Hinv) in Hin. unfold NULL in Hin. lia. }
  destruct (free_pages_step s' r n Hi Hr ltac:(lia) Hle) as (Hi2 & Hm2 & HF2).
  assert (free_frames (pmm_free_pages r n s') = free_frames s) as Hfree.
  { rewrite HF2, Hm, HF. destruct (decide (r ∈ managed_frames s)) as [Hd|Hd];
      [|apply difference_empty_L].
    inversion Hs as [| | st k Hk Hsub Hmin | k HFk | | |]; subst.
    - pose proof (Hrun Hd) as Hrd.
      rewrite (subseteq_intersection_1_L _ _ Hrd).
      rewrite (comm_L (∪)). symmetry. by apply union_difference_L.
    - apply (managed_range s Hinv) in Hd. unfold NULL in Hd. lia. }
  split; [done|]. split.
  - destruct (pmm_accounting_aux s Hinv) as [-> _].
    destruct (pmm_accounting_aux _ Hi2) as [-> _]. by rewrite Hfree.
  - intros p Hp. apply eq_true_iff_eq. rewrite !pmm_is_page_free_spec by done.
    by rewrite Hfree.
Qed.
