(* ===== verification/PmmInit.v ===== *)
(** Initialisation of the physical memory manager ([pmm_init] of memory/pmm.c):
    it returns, establishes the invariant of PmmSpec.v and leaves free exactly
    the usable pages after the reserved prefix.  The file ends with a concrete
    memory map on which the manager's properties are instantiated. *)
From S2P Require Import Prelude Bitmap Pmm PmmSpec.
Import Pmm.

(** ** pmm_init *)

(** What the boot protocol guarantees of the memory map: entries are page
    aligned and lie below the limit of the direct map. *)
Definition memmap_ok (es : list memmap_entry) : Prop :=
  Forall (fun e => 0 <= entry_base e /\ 0 <= entry_length e /\
                   entry_base e + entry_length e <= PHYS_LIMIT /\
                   entry_base e mod 4096 = 0 /\ entry_length e mod 4096 = 0) es.

(** Region [e] has a byte in the page at [p]. *)
Definition overlaps (e : memmap_entry) (p : Z) : Prop :=
  entry_base e < p + 4096 /\ p < entry_base e + entry_length e.

(** The region [pmm_init] chooses: the default, or the first largest usable
    region that starts at or above 1 MiB. *)
Definition chosen_region (es : list memmap_entry) (start size : Z) : Prop :=
  (forall e, e ∈ es -> is_usable e = true -> 0x100000 <= entry_base e -> entry_length e <= size) /\
  ((start = 0x100000 /\ size = 0) \/
   exists e, e ∈ es /\ is_usable e = true /\ 0x100000 <= entry_base e /\
             start = entry_base e /\ size = entry_length e).

Lemma chosen_region_snoc es e st sz tot st' sz' tot' :
  0 <= entry_length e ->
  chosen_region es st sz -> 0 <= sz ->
  scan_entry (st, sz, tot) e = (st', sz', tot') ->
  chosen_region (es ++ [e]) st' sz' /\ 0 <= sz'.
Proof.
  intros He [Hmax Hsrc] Hsz Hscan. unfold scan_entry in Hscan.
  assert (Hold : chosen_region es st sz) by done.
  assert (Hkeep : (is_usable e = true -> 0x100000 <= entry_base e -> entry_length e <= sz) ->
                  chosen_region (es ++ [e]) st sz).
  { intros Hle. split.
    - intros e' [He' | ->%list_elem_of_singleton]%elem_of_app; [by apply Hmax|done].
    - destruct Hsrc as [|(e0 & He0 & Hrest)]; [by left|right].
      exists e0. split; [|done]. apply elem_of_app. by left. }
  destruct (is_usable e) eqn:Hu; [|injection Hscan as <- <- <-; split; [by apply Hkeep|done]].
  destruct ((sz <? entry_length e) && (0x100000 <=? entry_base e)) eqn:Hc;
    injection Hscan as <- <- <-.
  - apply andb_true_iff in Hc as [Hlt Hge]. split; [|lia]. split.
    + intros e' [He' | ->%list_elem_of_singleton]%elem_of_app Hu' Hb'; [|lia].
      specialize (Hmax e' He' Hu' Hb'). lia.
    + right. exists e. split_and!; [|done|lia|done..]. apply elem_of_app. right. by apply list_elem_of_singleton.
  - split; [|done]. apply Hkeep. intros _ Hb. apply andb_false_iff in Hc. lia.
Qed.

Lemma scan_entries_spec es :
  memmap_ok es ->
  forall st sz tot, foldl scan_entry (0x100000, 0, 0) es = (st, sz, tot) ->
  chosen_region es st sz /\ 0 <= sz.
Proof.
  induction es as [|e es IH] using rev_ind; intros Hok st sz tot Hf.
  - injection Hf as <- <- <-. split; [|done]. split; [|by left].
    intros e He. by apply not_elem_of_nil in He.
  - apply Forall_app in Hok as [Hok [He _]%Forall_cons].
    rewrite foldl_app in Hf. destruct (foldl scan_entry _ es) as [[st0 sz0] tot0].
    destruct (IH Hok _ _ _ eq_refl) as [Hch Hsz].
    eapply chosen_region_snoc; [|exact Hch|exact Hsz|exact Hf]. tauto.
Qed.

Section mark.
  Context (cfg : pmm_config_t).
  Hypothesis (Hps : page_size cfg = 4096) (Hmx : 0 <= max_pages cfg <= 65536).
  Hypothesis (Hst : 4096 <= kernel_start cfg) (Hal : kernel_start cfg mod 4096 = 0).
  Hypothesis (Hen : kernel_end cfg = kernel_start cfg + max_pages cfg * 4096).
  Hypothesis (Hlim : kernel_end cfg <= PHYS_LIMIT).

  (** From page [i] to page [k] of the managed range, the marking loop
      returns and marks exactly those pages. *)
Lemma mark_region_spec fuel bm i k :
    bitmap_wf STATIC_BITMAP_SIZE bm -> 0 <= i <= k -> k <= max_pages cfg ->
    k - i <= Z.of_nat fuel ->
    exists bm', mark_region fuel cfg (kernel_start cfg + i * 4096)
                  (kernel_start cfg + k * 4096) bm = Ret bm' /\
      bitmap_wf STATIC_BITMAP_SIZE bm' /\
      forall j, 0 <= j -> bit_test bm' j = ((i <=? j) && (j <? k)) || bit_test bm j.
  Proof using All.
    revert bm i. induction fuel as [|fuel IH]; intros bm i Hwf Hi Hk Hf; cbn [mark_region].
    - replace (_ <? _) with false by lia. exists bm. split_and!; [done..|].
      intros j Hj. replace ((i <=? j) && (j <? k)) with false by lia. done.
    - destruct (Z.ltb_spec (kernel_start cfg + i * 4096) (kernel_start cfg + k * 4096)).
      2:{ exists bm. split_and!; [done..|].
          intros j Hj. replace ((i <=? j) && (j <? k)) with false by lia. done. }
      rewrite Hps. unfold PHYS_LIMIT in Hlim.
      rewrite (wrap_small 64 (kernel_start cfg + i * 4096 - kernel_start cfg)) by lia.
      replace (kernel_start cfg + i * 4096 - kernel_start cfg) with (i * 4096) by lia.
      rewrite Z.div_mul, (wrap_small 64) by lia.
      replace (i <? max_pages cfg) with true by lia.
      replace (kernel_start cfg + i * 4096 + 4096)
        with (kernel_start cfg + (i + 1) * 4096) by lia.
      destruct (IH (bit_set bm i) (i + 1)) as (bm' & -> & Hwf' & Hbits);
        [by apply bit_set_wf|lia..|].
      exists bm'. split_and!; [done..|]. intros j Hj.
      rewrite Hbits, (bit_test_set STATIC_BITMAP_SIZE)
        by (done || unfold STATIC_BITMAP_SIZE; lia).
      destruct (bit_test bm j); rewrite ?orb_true_r, ?orb_false_r; [done|].
      destruct (Z.eqb_spec i j), (Z.leb_spec (i + 1) j), (Z.leb_spec i j), (Z.ltb_spec j k);
        done || lia.
  Qed.

Definition entry_ok (e : memmap_entry) : Prop :=
    0 <= entry_base e /\ 0 <= entry_length e /\
    entry_base e + entry_length e <= PHYS_LIMIT /\
    entry_base e mod 4096 = 0 /\ entry_length e mod 4096 = 0.

  (** A page-aligned address at or above the start of the managed range. *)
Lemma aligned_page a :
    a mod 4096 = 0 -> exists i, a = kernel_start cfg + i * 4096.
  Proof using Hal.
    intros Ha. exists (a / 4096 - kernel_start cfg / 4096).
    pose proof (Z.div_mod a 4096). pose proof (Z.div_mod (kernel_start cfg) 4096). lia.
  Qed.

Lemma mark_entry_spec bm e :
    bitmap_wf STATIC_BITMAP_SIZE bm -> entry_ok e ->
    exists bm', mark_entry cfg bm e = Ret bm' /\ bitmap_wf STATIC_BITMAP_SIZE bm' /\
      forall j, 0 <= j < max_pages cfg ->
        bit_test bm' j = true <->
        (is_usable e = false /\ overlaps e (kernel_start cfg + j * 4096)) \/ bit_test bm j = true.
  Proof using All.
    intros Hwf (Hb & Hlen & Hle & Hba & Hla). unfold mark_entry, overlaps, PHYS_LIMIT in *.
    destruct (is_usable e).
    { exists bm. split_and!; [done..|]. intros j Hj. intuition congruence. }
    rewrite (wrap_small 64 (entry_base e + entry_length e)) by lia.
    destruct (aligned_page (entry_base e) Hba) as [b Hbb].
    destruct (aligned_page (entry_base e + entry_length e)) as [t Ht].
    { rewrite Z.add_mod, Hba, Hla by lia. done. }
    destruct ((kernel_end cfg <=? entry_base e)
              || (entry_base e + entry_length e <=? kernel_start cfg)) eqn:Hout.
    { exists bm. split_and!; [done..|]. intros j Hj.
      apply orb_true_iff in Hout. split; [by right|]. intros [[_ Hov]|]; [lia|done]. }
    apply orb_false_iff in Hout as [Ho1 Ho2].
    set (i := Z.max 0 b). set (k := Z.min (max_pages cfg) t).
    replace (if entry_base e <? kernel_start cfg then kernel_start cfg else entry_base e)
      with (kernel_start cfg + i * 4096) by (destruct (Z.ltb_spec (entry_base e) (kernel_start cfg)); lia).
    replace (if kernel_end cfg <? entry_base e + entry_length e then kernel_end cfg
             else entry_base e + entry_length e)
      with (kernel_start cfg + k * 4096)
      by (destruct (Z.ltb_spec (kernel_end cfg) (entry_base e + entry_length e)); lia).
    destruct (mark_region_spec region_fuel bm i k) as (bm' & -> & Hwf' & Hbits);
      [done|lia|lia|unfold region_fuel, STATIC_BITMAP_SIZE; lia|].
    exists bm'. split_and!; [done..|]. intros j Hj.
    rewrite Hbits, orb_true_iff, andb_true_iff, Z.leb_le, Z.ltb_lt by lia.
    apply or_iff_compat_r. split; [intros []; split; [done|lia]|lia].
  Qed.

Lemma mark_entries_spec es bm :
    bitmap_wf STATIC_BITMAP_SIZE bm -> Forall entry_ok es ->
    exists bm', mark_entries cfg es bm = Ret bm' /\ bitmap_wf STATIC_BITMAP_SIZE bm' /\
      forall j, 0 <= j < max_pages cfg ->
        bit_test bm' j = true <->
        (exists e, e ∈ es /\ is_usable e = false /\ overlaps e (kernel_start cfg + j * 4096))
        \/ bit_test bm j = true.
  Proof using All.
    revert bm. induction es as [|e es IH]; intros bm Hwf Hok.
    - exists bm. split_and!; [done..|]. intros j Hj. split; [by right|].
      intros [(e & He & _)|]; [by apply not_elem_of_nil in He|done].
    - apply Forall_cons in Hok as [He Hok].
      destruct (mark_entry_spec bm e Hwf He) as (bm1 & H1 & Hwf1 & Hb1).
      destruct (IH bm1 Hwf1 Hok) as (bm' & H2 & Hwf2 & Hb2).
      exists bm'. cbn [mark_entries]. rewrite H1. split_and!; [done..|].
      intros j Hj. rewrite (Hb2 j Hj), (Hb1 j Hj). split.
      + intros [(e' & He' & Hr) | [Hr | Hr]]; [|left|by right].
        * left. exists e'. split; [by right|done].
        * exists e. split; [by left|done].
      + intros [(e' & [-> | He']%elem_of_cons & Hr) | Hr]; [right; by left| |right; by right].
        left. by exists e'.
  Qed.
End mark.

Lemma memmap_ok_entries es : memmap_ok es -> Forall entry_ok es.
Proof. done. Qed.

(** The configuration of a good memory map satisfies the invariant. *)
Lemma init_config_spec es :
  memmap_ok es ->
  let cfg := init_config es in
  exists size,
    chosen_region es (kernel_start cfg) size /\
    page_size cfg = 4096 /\ max_pages cfg = Z.min 65536 (size / 4096) /\
    4096 <= kernel_start cfg /\ kernel_start cfg mod 4096 = 0 /\
    kernel_end cfg = kernel_start cfg + max_pages cfg * 4096 /\
    kernel_end cfg <= PHYS_LIMIT /\ 0 <= max_pages cfg <= 65536.
Proof.
  intros Hok. unfold init_config.
  destruct (foldl scan_entry (0x100000, 0, 0) es) as [[st sz] tot] eqn:Hf.
  destruct (scan_entries_spec es Hok _ _ _ Hf) as [Hch Hsz].
  cbn [kernel_start page_size max_pages kernel_end]. exists sz.
  assert (Hreg : 0x100000 <= st /\ st mod 4096 = 0 /\ st + sz <= PHYS_LIMIT).
  { destruct Hch as [_ [[-> ->] | (e & He & Hu & Hb & -> & ->)]]; [done|].
    unfold memmap_ok in Hok. rewrite Forall_forall in Hok. destruct (Hok e He) as (? & ? & ? & ? & ?).
    split_and!; lia. }
  unfold PMM_BLOCK_SIZE, STATIC_BITMAP_SIZE, PHYS_LIMIT in *.
  change (u32 (8192 * 8)) with 65536. change (u64 (65536 * 4096)) with 268435456.
  assert (0 <= sz / 4096 /\ sz / 4096 * 4096 <= sz) as Hdiv.
  { pose proof (Z.div_mod sz 4096). pose proof (Z.mod_pos_bound sz 4096).
    split; [apply Z.div_pos|]; lia. }
  assert (Hmx : (if sz <? 268435456 then u32 (sz / 4096) else 65536)
                = Z.min 65536 (sz / 4096)).
  { destruct (Z.ltb_spec sz 268435456).
    - rewrite wrap_small by lia. lia.
    - assert (65536 <= sz / 4096) by (apply Z.div_le_lower_bound; lia). lia. }
  rewrite Hmx. rewrite (wrap_small 64 (_ * 4096)) by lia. rewrite wrap_small by lia.
  split_and!; done || lia.
Qed.

Lemma pmm_init_correct_aux es s :
  memmap_ok es ->
  exists s', pmm_init (Some es) s = (Ret tt, s') /\ pmm_inv s' /\
    (exists size, chosen_region es (kernel_start (pmm_config s')) size /\
                  max_pages (pmm_config s') = Z.min 65536 (size / 4096)) /\
    forall p, p ∈ free_frames s' <->
      p ∈ managed_frames s' /\ kernel_start (pmm_config s') + 256 * 4096 <= p /\
      ~ exists e, e ∈ es /\ is_usable e = false /\ overlaps e p.
Proof.
  intros Hok.
  destruct (init_config_spec es Hok) as (size & Hch & Hps & Hm & Hst & Hal & Hen & Hlim & Hmx).
  set (cfg := init_config es) in *. unfold pmm_init. fold cfg.
  destruct (mark_entries_spec cfg Hps Hmx Hst Hal Hen Hlim es
              (replicate (Z.to_nat STATIC_BITMAP_SIZE) 0))
    as (bm & -> & Hwf & Hbits); [by apply (bitmap_wf_zero (Z.to_nat STATIC_BITMAP_SIZE))|done|].
  destruct (bit_set_range_spec STATIC_BITMAP_SIZE bm 0 (Z.min 256 (max_pages cfg)))
    as [Hwf' Hbits']; [done|unfold STATIC_BITMAP_SIZE; lia..|].
  eexists. split; [reflexivity|]. split; [by constructor|]. split; [by exists size|].
  intros p. rewrite elem_free, elem_managed. cbn [pmm_config static_bitmap]. unfold frame_at.
  split.
  - intros (i & Hi & -> & Hb). cbn [pmm_config] in *. rewrite Hbits' in Hb by lia.
    apply orb_false_iff in Hb as [Hlo Hb].
    split; [by exists i|]. split; [lia|]. intros He.
    enough (bit_test bm i = true) by congruence. apply Hbits; [done|]. by left.
  - intros ((i & Hi & ->) & Hlo & Hno). cbn [pmm_config] in *. exists i. split_and!; [lia..|].
    rewrite Hbits' by lia. apply orb_false_iff. split; [lia|].
    apply not_true_is_false. intros Hb. apply Hbits in Hb as [He|Hz]; [done| |done].
    by rewrite bit_test_zero in Hz.
Qed.

(** ** A concrete machine

    Low memory, 300 usable pages at 1 MiB, and a reserved region that overlaps
    the last 10 of them. *)
Definition example_map : list memmap_entry := [
  MemmapEntry 0 0x9f000 MEMMAP_USABLE;
  MemmapEntry 0x100000 (300 * 4096) MEMMAP_USABLE;
  MemmapEntry (0x100000 + 290 * 4096) 0x100000 MEMMAP_RESERVED;
  MemmapEntry 0xfe000000 0x1000 MEMMAP_FRAMEBUFFER
].

Definition example_pmm : pmm_state := snd (pmm_init (Some example_map) pmm_boot).

Lemma example_map_ok : memmap_ok example_map.
Proof. repeat apply List.Forall_cons; try apply List.Forall_nil; vm_compute; repeat split; discriminate. Qed.

Lemma example_pmm_inv : pmm_inv example_pmm.
Proof.
  destruct (pmm_init_correct_aux example_map pmm_boot example_map_ok) as (s' & Hr & Hi & _).
  unfold example_pmm. by rewrite Hr.
Qed.

(** C32: on a page-aligned memory map, [pmm_init] returns (its marking loops
    end), the manager it leaves satisfies the invariant, the managed range is
    inside the largest usable region at or above 1 MiB (or empty), and its
    free pages are exactly the pages after the first 256 that no non-usable
    region overlaps. *)
Theorem pmm_init_correct es s :
  memmap_ok es ->
  exists s', pmm_init (Some es) s = (Ret tt, s') /\ pmm_inv s' /\
    (exists size, chosen_region es (kernel_start (pmm_config s')) size /\
                  max_pages (pmm_config s') = Z.min 65536 (size / 4096)) /\
    forall p, p ∈ free_frames s' <->
      p ∈ managed_frames s' /\ kernel_start (pmm_config s') + 256 * 4096 <= p /\
      ~ exists e, e ∈ es /\ is_usable e = false /\ overlaps e p.
Proof. apply pmm_init_correct_aux. Qed.

Lemma pmm_init_correct_witness :
  exists s', pmm_init (Some example_map) pmm_boot = (Ret tt, s') /\ pmm_inv s' /\
    max_pages (pmm_config s') = 300 /\
    pmm_get_free_memory s' = 34 * 4096.
Proof.
  destruct (pmm_init_correct example_map pmm_boot) as (s' & Hr & Hi & _).
  { repeat apply List.Forall_cons; try apply List.Forall_nil; vm_compute; repeat split; discriminate. }
  exists s'. split; [exact Hr|]. split; [exact Hi|].
  assert (s' = snd (pmm_init (Some example_map) pmm_boot)) as -> by (rewrite Hr; reflexivity).
  split; vm_compute; reflexivity.
Defined.

(** ** Witnesses of the allocator's properties *)

Lemma pmm_refines_frame_set_witness :
  let '(r, s') := pmm_exec (AllocPages 3) example_pmm in
  r = 0x100000 + 256 * 4096 /\ pmm_inv s' /\
  alloc_step (managed_frames example_pmm) (free_frames example_pmm)
    (AllocPages 3) r (free_frames s').
Proof.
  destruct (pmm_exec (AllocPages 3) example_pmm) as [r s'] eqn:Hex.
  split; [transitivity (fst (pmm_exec (AllocPages 3) example_pmm));
          [by rewrite Hex | vm_compute; reflexivity]|].
  destruct (pmm_refines_frame_set example_pmm (AllocPages 3) r s' example_pmm_inv)
    as (Hi & _ & Hs); [simpl; lia|exact Hex|].
  split; assumption.
Defined.

Lemma pmm_no_double_allocation_witness :
  let '(r, s1) := pmm_exec AllocPage example_pmm in
  let '(rs, s2) := pmm_run [FreePage 0x100000] s1 in
  let '(r', s3) := pmm_exec AllocPage s2 in
  ~ hands_out r AllocPage r'.
Proof.
  destruct (pmm_exec AllocPage example_pmm) as [r s1] eqn:H1.
  destruct (pmm_run [FreePage 0x100000] s1) as [rs s2] eqn:H2.
  destruct (pmm_exec AllocPage s2) as [r' s3] eqn:H3.
  assert (r = fst (pmm_exec AllocPage example_pmm)) as Hr by (rewrite H1; reflexivity).
  assert (r = 0x100000 + 256 * 4096) as Hr' by (rewrite Hr; vm_compute; reflexivity).
  apply (pmm_no_double_allocation example_pmm AllocPage r s1 [FreePage 0x100000]
           AllocPage r' s2 rs s3 r); try assumption; try exact I.
  - exact example_pmm_inv.
  - apply List.Forall_cons; [simpl; lia|apply List.Forall_nil].
  - simpl. split; [rewrite Hr'; unfold NULL; lia|reflexivity].
  - apply List.Forall_cons; [simpl; rewrite Hr'; lia|apply List.Forall_nil].
Defined.

Lemma pmm_accounting_witness :
  pmm_get_free_memory example_pmm = 4096 * Z.of_nat (size (free_frames example_pmm)) /\
  pmm_get_free_memory example_pmm = 34 * 4096.
Proof.
  split; [exact (proj1 (pmm_accounting example_pmm example_pmm_inv))|].
  vm_compute; reflexivity.
Defined.

Lemma pmm_alloc_free_roundtrip_witness :
  let '(r, s') := pmm_alloc_pages 5 example_pmm in
  r <> NULL /\ free_frames (pmm_free_pages r 5 s') = free_frames example_pmm.
Proof.
  destruct (pmm_alloc_pages 5 example_pmm) as [r s'] eqn:Ha.
  split.
  - assert (r = fst (pmm_alloc_pages 5 example_pmm)) as -> by (rewrite Ha; reflexivity).
    vm_compute. discriminate.
  - apply (pmm_alloc_free_roundtrip example_pmm 5 r s' example_pmm_inv); [lia|exact Ha].
Defined.
