(* ===== verification/PageAllocator.v ===== *)
(** The interface of the physical page allocator (memory/pmm.h), as its
    clients see it: the operations a client calls, and the laws they rely on,
    stated with a set of free pages.  The virtual memory manager and the
    scheduler are written and verified against this interface; the physical
    memory manager of Pmm.v implements it (instances at the end of the file). *)
From S2P Require Import Prelude Bitmap Pmm PmmSpec PmmInit.

(** The functions of memory/pmm.h that other components call. *)
Class PageAllocator (A : Type) : Type := {
  pmm_alloc_page : A -> Z * A;
  pmm_alloc_pages : Z -> A -> Z * A;
  pmm_free_page : Z -> A -> A;
  pmm_free_pages : Z -> Z -> A -> A;
}.

(** What a client may rely on. *)
Class PageAllocatorSpec (A : Type) `{PageAllocator A} : Type := {
  pa_inv : A -> Prop;
  pa_managed : A -> gset Z;
  pa_free : A -> gset Z;

  pa_managed_page a p :
    pa_inv a -> p ∈ pa_managed a -> 4096 <= p /\ p mod 4096 = 0 /\ p + 4096 <= PHYS_LIMIT;
  pa_free_managed a : pa_inv a -> pa_free a ⊆ pa_managed a;

  pa_alloc_page a p a' :
    pa_inv a -> pmm_alloc_page a = (p, a') ->
    pa_inv a' /\ pa_managed a' = pa_managed a /\
    (p = NULL /\ pa_free a = ∅ /\ pa_free a' = ∅ \/
     p <> NULL /\ p ∈ pa_free a /\ pa_free a' = pa_free a ∖ {[p]});

  pa_alloc_pages a n p a' :
    pa_inv a -> 0 <= n < 2 ^ 64 -> pmm_alloc_pages n a = (p, a') ->
    pa_inv a' /\ pa_managed a' = pa_managed a /\
    (p = NULL /\ pa_free a' = pa_free a \/
     p <> NULL /\ 0 < n /\ frame_run p n ⊆ pa_free a /\ pa_free a' = pa_free a ∖ frame_run p n);

  pa_free_page a p :
    pa_inv a -> 0 <= p ->
    pa_inv (pmm_free_page p a) /\ pa_managed (pmm_free_page p a) = pa_managed a /\
    pa_free (pmm_free_page p a) = pa_free a ∪ ({[p]} ∩ pa_managed a);
}.

(** ** The physical memory manager implements the interface *)

#[export] Instance pmm_allocator : PageAllocator Pmm.pmm_state := {
  pmm_alloc_page := Pmm.pmm_alloc_page;
  pmm_alloc_pages := Pmm.pmm_alloc_pages;
  pmm_free_page := Pmm.pmm_free_page;
  pmm_free_pages := Pmm.pmm_free_pages;
}.

#[export] Program Instance pmm_allocator_spec : PageAllocatorSpec Pmm.pmm_state := {
  pa_inv := pmm_inv;
  pa_managed := managed_frames;
  pa_free := free_frames;
}.
Next Obligation. intros. by apply (managed_range a). Qed.
Next Obligation. intros. apply free_managed. Qed.
Next Obligation.
  intros a p a' Hinv Ha.
  destruct (alloc_page_step a Hinv p a' Ha) as (Hi & Hm & Hs). split_and!; [done..|].
  inversion Hs as [q Hq Hmin | HF | | | | |]; subst.
  - right. split; [|done]. apply free_managed in Hq.
    apply (managed_range a Hinv) in Hq. unfold NULL. lia.
  - left. rewrite HF in *. by split_and!.
Qed.
Next Obligation.
  intros a n p a' Hinv Hn Ha.
  destruct (alloc_pages_step a n p a' Hinv Hn Ha) as (Hi & Hm & Hs). split_and!; [done..|].
  inversion Hs as [| | st k Hk Hsub Hmin | | | |]; subst; [|by left].
  right. split_and!; [|done..].
  assert (p ∈ frame_run p n) as Hp by (apply elem_frame_run; exists 0; lia).
  apply Hsub, free_managed, (managed_range a Hinv) in Hp. unfold NULL. lia.
Qed.
Next Obligation.
  intros a p Hinv Hp. destruct (free_page_step a p Hinv Hp) as (Hi & Hm & _ & HF).
  by split_and!.
Qed.
