(* ===== verification/Vmm.v ===== *)
(** The virtual memory manager, memory/vmm.c: 4-level page tables in physical
    memory, reached through the higher-half direct map (HHDM).

    [Module Vmm] holds the state (the file's static variables, the physical
    memory the page tables live in, and CR3) and one definition per function.
    It is written against the allocator interface of PageAllocator.v.  The
    processor's address translation, which the C code uses at every pointer
    dereference, is the parameter [mmu_translate].  Logging is left out. *)
From S2P Require Import Prelude PmmSpec PageAllocator.

(** ** The machine *)

(** Physical memory as 64-bit words, by the physical address of the word. *)
Definition mem_read (m : gmap Z Z) (a : Z) : Z := default 0 (m !! a).

(** [mmu_translate mem cr3 va] is the physical address the processor accesses
    for the virtual address [va], [None] if the access faults. *)
Class Mmu : Type := mmu_translate : gmap Z Z -> Z -> Z -> option Z.

(** The direct map the boot loader sets up: the first [PHYS_LIMIT] bytes of
    physical memory appear at [hhdm], whatever the tables of the lower half
    say. *)
Class HhdmWindow `{Mmu} (hhdm : Z) : Prop := {
  hhdm_canonical : PHYS_LIMIT <= hhdm;
  hhdm_fits : hhdm + PHYS_LIMIT <= 2 ^ 64;
  hhdm_translate m cr3 p : 0 <= p < PHYS_LIMIT -> mmu_translate m cr3 (hhdm + p) = Some p;
}.

Module Vmm.

(** ** Constants of memory/vmm.h *)

Definition PAGE_SIZE_4K : Z := 0x1000.
Definition PAGE_SIZE_2M : Z := 0x200000.

Definition PAGE_PRESENT : Z := 2 ^ 0.
Definition PAGE_WRITABLE : Z := 2 ^ 1.
Definition PAGE_USER : Z := 2 ^ 2.
Definition PAGE_WRITETHROUGH : Z := 2 ^ 3.
Definition PAGE_CACHE_DISABLE : Z := 2 ^ 4.
Definition PAGE_HUGE : Z := 2 ^ 7.
Definition PAGE_GLOBAL : Z := 2 ^ 8.
Definition PAGE_NO_EXECUTE : Z := 2 ^ 63.

Definition VMM_FLAG_PRESENT : Z := 2 ^ 0.
Definition VMM_FLAG_WRITABLE : Z := 2 ^ 1.
Definition VMM_FLAG_USER : Z := 2 ^ 2.
Definition VMM_FLAG_WRITETHROUGH : Z := 2 ^ 3.
Definition VMM_FLAG_NOCACHE : Z := 2 ^ 4.
Definition VMM_FLAG_GLOBAL : Z := 2 ^ 8.
Definition VMM_FLAG_NO_EXECUTE : Z := 2 ^ 9.
Definition VMM_FLAG_HUGE : Z := 2 ^ 10.

Definition PAGE_ADDR_MASK : Z := u64 (Z.lnot 0xFFF).

Definition MAX_MEMORY_AREAS : Z := 32.

Definition PML4_INDEX (addr : Z) : Z := Z.land (Z.shiftr addr 39) 0x1FF.
Definition PDPT_INDEX (addr : Z) : Z := Z.land (Z.shiftr addr 30) 0x1FF.
Definition PD_INDEX (addr : Z) : Z := Z.land (Z.shiftr addr 21) 0x1FF.
Definition PT_INDEX (addr : Z) : Z := Z.land (Z.shiftr addr 12) 0x1FF.

(** [x & flag], as a condition. *)
Definition has (x flag : Z) : bool := truthy (Z.land x flag).

(** ** State *)

Record vmm_config_t : Type := VmmConfig {
  kernel_pml4 : Z;
  kernel_virtual_base : Z;
  kernel_virtual_size : Z;
  using_nx : bool;
  config_hhdm_offset : Z;
}.

Record vmm_memory_region_t : Type := Region {
  base : Z;
  size : Z;
  flags : Z;
  is_used : bool;
}.

Record vmm_stats_t : Type := VmmStats {
  pages_allocated : Z;
  pages_freed : Z;
  page_faults_handled : Z;
}.

(** The static variables of vmm.c, with the allocator state [pmm], the
    physical memory [mem], the register [cr3], the TLB invalidations issued so
    far (latest first) and whether [page_fault_handler] is registered for
    vector 14. *)
Record vmm_state (A : Type) : Type := VmmState {
  pmm : A;
  mem : gmap Z Z;
  cr3 : Z;
  tlb : list Z;
  pf_handler : bool;
  vmm_config : vmm_config_t;
  hhdm_offset : Z;
  kernel_phys_base : Z;
  kernel_virt_base : Z;
  current_pml4_phys : Z;
  user_areas : list vmm_memory_region_t;
  kernel_areas : list vmm_memory_region_t;
  user_area_count : Z;
  kernel_area_count : Z;
  vmm_stats : vmm_stats_t;
}.
Arguments VmmState {A}.
Arguments pmm {A}.
Arguments mem {A}.
Arguments cr3 {A}.
Arguments tlb {A}.
Arguments pf_handler {A}.
Arguments vmm_config {A}.
Arguments hhdm_offset {A}.
Arguments kernel_phys_base {A}.
Arguments kernel_virt_base {A}.
Arguments current_pml4_phys {A}.
Arguments user_areas {A}.
Arguments kernel_areas {A}.
Arguments user_area_count {A}.
Arguments kernel_area_count {A}.
Arguments vmm_stats {A}.

Section setters.
  Context {A : Type}.
  Implicit Types s : vmm_state A.

Definition set_pmm (a : A) s : vmm_state A :=
    VmmState a (mem s) (cr3 s) (tlb s) (pf_handler s) (vmm_config s) (hhdm_offset s)
      (kernel_phys_base s) (kernel_virt_base s) (current_pml4_phys s) (user_areas s)
      (kernel_areas s) (user_area_count s) (kernel_area_count s) (vmm_stats s).
Definition set_mem (m : gmap Z Z) s : vmm_state A :=
    VmmState (pmm s) m (cr3 s) (tlb s) (pf_handler s) (vmm_config s) (hhdm_offset s)
      (kernel_phys_base s) (kernel_virt_base s) (current_pml4_phys s) (user_areas s)
      (kernel_areas s) (user_area_count s) (kernel_area_count s) (vmm_stats s).
Definition set_cr3 (c : Z) s : vmm_state A :=
    VmmState (pmm s) (mem s) c (tlb s) (pf_handler s) (vmm_config s) (hhdm_offset s)
      (kernel_phys_base s) (kernel_virt_base s) (current_pml4_phys s) (user_areas s)
      (kernel_areas s) (user_area_count s) (kernel_area_count s) (vmm_stats s).
Definition add_tlb (v : Z) s : vmm_state A :=
    VmmState (pmm s) (mem s) (cr3 s) (v :: tlb s) (pf_handler s) (vmm_config s) (hhdm_offset s)
      (kernel_phys_base s) (kernel_virt_base s) (current_pml4_phys s) (user_areas s)
      (kernel_areas s) (user_area_count s) (kernel_area_count s) (vmm_stats s).
Definition set_current_pml4 (c : Z) s : vmm_state A :=
    VmmState (pmm s) (mem s) (cr3 s) (tlb s) (pf_handler s) (vmm_config s) (hhdm_offset s)
      (kernel_phys_base s) (kernel_virt_base s) c (user_areas s)
      (kernel_areas s) (user_area_count s) (kernel_area_count s) (vmm_stats s).
Definition set_stats (st : vmm_stats_t) s : vmm_state A :=
    VmmState (pmm s) (mem s) (cr3 s) (tlb s) (pf_handler s) (vmm_config s) (hhdm_offset s)
      (kernel_phys_base s) (kernel_virt_base s) (current_pml4_phys s) (user_areas s)
      (kernel_areas s) (user_area_count s) (kernel_area_count s) st.
  (** The two area arrays, [user_areas] when [u] and [kernel_areas] otherwise. *)
Definition areas_of (u : bool) s : list vmm_memory_region_t :=
    if u then user_areas s else kernel_areas s.
Definition area_count_of (u : bool) s : Z :=
    if u then user_area_count s else kernel_area_count s.
Definition set_areas (u : bool) (l : list vmm_memory_region_t) s : vmm_state A :=
    VmmState (pmm s) (mem s) (cr3 s) (tlb s) (pf_handler s) (vmm_config s) (hhdm_offset s)
      (kernel_phys_base s) (kernel_virt_base s) (current_pml4_phys s)
      (if u then l else user_areas s) (if u then kernel_areas s else l)
      (user_area_count s) (kernel_area_count s) (vmm_stats s).
Definition set_area_count (u : bool) (n : Z) s : vmm_state A :=
    VmmState (pmm s) (mem s) (cr3 s) (tlb s) (pf_handler s) (vmm_config s) (hhdm_offset s)
      (kernel_phys_base s) (kernel_virt_base s) (current_pml4_phys s) (user_areas s)
      (kernel_areas s) (if u then n else user_area_count s)
      (if u then kernel_area_count s else n) (vmm_stats s).
End setters.

Section vmm.
  Context {A : Type} `{PageAllocator A} `{Mmu}.
  Local Abbreviation V := (M (vmm_state A)).

(** ** Memory accesses *)

Definition load64 (va : Z) : V Z := fun s =>
  match mmu_translate (mem s) (cr3 s) va with
  | Some pa => (Ret (mem_read (mem s) pa), s)
  | None => (Fault, s)
  end.

Definition store64 (va v : Z) : V unit := fun s =>
  match mmu_translate (mem s) (cr3 s) va with
  | Some pa => (Ret tt, set_mem (<[pa := v]> (mem s)) s)
  | None => (Fault, s)
  end.

(** [memset(va, 0, PAGE_SIZE_4K)], a word at a time. *)
Definition memset_page (va : Z) : V unit :=
  mfor 512 0 (fun i => store64 (u64 (va + 8 * i)) 0).

(** The address of [table[idx]]. *)
Definition entry_ptr (table idx : Z) : Z := u64 (table + 8 * idx).

(** Calls of the page allocator. *)
Definition alloc_page : V Z :=
  mlift (fun s => let '(p, a) := pmm_alloc_page (pmm s) in (p, set_pmm a s)).
Definition free_page (p : Z) : V unit :=
  mmodify (fun s => set_pmm (pmm_free_page p (pmm s)) s).

(** ** Registers *)

Definition read_cr3 : V Z := mgets cr3.
Definition write_cr3 (c : Z) : V unit := mmodify (set_cr3 c).
Definition invlpg (addr : Z) : V unit := mmodify (add_tlb addr).

(** ** Address conversion *)

Definition phys_to_virt (s : vmm_state A) (phys : Z) : Z :=
  if phys =? 0 then NULL else u64 (phys + hhdm_offset s).

(** [table[idx]] for the table at physical address [phys]; [None] when the
    table pointer is null. *)
Definition table_entry (phys idx : Z) : V (option Z) :=
  s ← mget;
  let table := phys_to_virt s phys in
  if table =? NULL then mret None
  else e ← load64 (entry_ptr table idx); mret (Some e).

Definition virt_to_phys (addr : Z) : V Z :=
  s ← mget;
  if hhdm_offset s <=? addr then mret (addr - hhdm_offset s) else
  e4 ← table_entry (current_pml4_phys s) (PML4_INDEX addr);
  match e4 with
  | None => mret 0
  | Some e4 =>
    if negb (has e4 PAGE_PRESENT) then mret 0 else
    e3 ← table_entry (Z.land e4 PAGE_ADDR_MASK) (PDPT_INDEX addr);
    match e3 with
    | None => mret 0
    | Some e3 =>
      if negb (has e3 PAGE_PRESENT) then mret 0 else
      if has e3 PAGE_HUGE
      then mret (u64 (Z.land e3 PAGE_ADDR_MASK + Z.land addr 0x3FFFFFFF)) else
      e2 ← table_entry (Z.land e3 PAGE_ADDR_MASK) (PD_INDEX addr);
      match e2 with
      | None => mret 0
      | Some e2 =>
        if negb (has e2 PAGE_PRESENT) then mret 0 else
        if has e2 PAGE_HUGE
        then mret (u64 (Z.land e2 PAGE_ADDR_MASK + Z.land addr 0x1FFFFF)) else
        e1 ← table_entry (Z.land e2 PAGE_ADDR_MASK) (PT_INDEX addr);
        match e1 with
        | None => mret 0
        | Some e1 =>
          if negb (has e1 PAGE_PRESENT) then mret 0 else
          mret (u64 (Z.land e1 PAGE_ADDR_MASK + Z.land addr 0xFFF))
        end
      end
    end
  end.

Definition vmm_get_physical_address (virt_addr : Z) : V Z := virt_to_phys virt_addr.

Definition vmm_is_mapped (virt_addr : Z) : V bool :=
  s ← mget;
  if hhdm_offset s <=? virt_addr then mret true else
  e4 ← table_entry (current_pml4_phys s) (PML4_INDEX virt_addr);
  match e4 with
  | None => mret false
  | Some e4 =>
    if negb (has e4 PAGE_PRESENT) then mret false else
    e3 ← table_entry (Z.land e4 PAGE_ADDR_MASK) (PDPT_INDEX virt_addr);
    match e3 with
    | None => mret false
    | Some e3 =>
      if negb (has e3 PAGE_PRESENT) then mret false else
      if has e3 PAGE_HUGE then mret true else
      e2 ← table_entry (Z.land e3 PAGE_ADDR_MASK) (PD_INDEX virt_addr);
      match e2 with
      | None => mret false
      | Some e2 =>
        if negb (has e2 PAGE_PRESENT) then mret false else
        if has e2 PAGE_HUGE then mret true else
        e1 ← table_entry (Z.land e2 PAGE_ADDR_MASK) (PT_INDEX virt_addr);
        match e1 with
        | None => mret false
        | Some e1 => mret (has e1 PAGE_PRESENT)
        end
      end
    end
  end.

(** ** Mapping *)

(** [vmm_map_page]: from VMM flags to hardware flags. *)
Definition hw_flags (nx : bool) (flags : Z) : Z :=
  let f := PAGE_PRESENT in
  let f := if has flags VMM_FLAG_WRITABLE then Z.lor f PAGE_WRITABLE else f in
  let f := if has flags VMM_FLAG_USER then Z.lor f PAGE_USER else f in
  let f := if has flags VMM_FLAG_WRITETHROUGH then Z.lor f PAGE_WRITETHROUGH else f in
  let f := if has flags VMM_FLAG_NOCACHE then Z.lor f PAGE_CACHE_DISABLE else f in
  let f := if has flags VMM_FLAG_GLOBAL then Z.lor f PAGE_GLOBAL else f in
  let f := if has flags VMM_FLAG_HUGE then Z.lor f PAGE_HUGE else f in
  if has flags VMM_FLAG_NO_EXECUTE && nx then Z.lor f PAGE_NO_EXECUTE else f.

(** [vmm_map_page]: "Ensure PDPT/PD/PT exists" - allocate, zero and link the
    table [table[idx]] should point to; [false] when memory runs out. *)
Definition ensure_table (table idx virt_addr : Z) : V bool :=
  e ← load64 (entry_ptr table idx);
  if has e PAGE_PRESENT then mret true else
  phys ← alloc_page;
  if phys =? NULL then mret false else
  s ← mget;
  memset_page (phys_to_virt s phys);;
  store64 (entry_ptr table idx) (Z.lor (Z.lor phys PAGE_PRESENT) PAGE_WRITABLE);;
  (if virt_addr <? 0x8000000000000000 then
     e ← load64 (entry_ptr table idx);
     store64 (entry_ptr table idx) (Z.lor e PAGE_USER)
   else mret tt);;
  mret true.

(** [vmm_map_page]: "Get PDPT/PD/PT" - the pointer to the next table. *)
Definition next_table (table idx : Z) : V Z :=
  e ← load64 (entry_ptr table idx);
  s ← mget;
  mret (phys_to_virt s (Z.land e PAGE_ADDR_MASK)).

Definition vmm_map_page (virt_addr phys_addr flags : Z) : V bool :=
  if virt_addr =? 0 then mret false else
  if phys_addr =? 0 then mret false else
  let virt_addr := Z.land virt_addr PAGE_ADDR_MASK in
  let phys_addr := Z.land phys_addr PAGE_ADDR_MASK in
  s ← mget;
  let pml4 := phys_to_virt s (current_pml4_phys s) in
  if pml4 =? NULL then mret false else
  let pml4_idx := PML4_INDEX virt_addr in
  let pdpt_idx := PDPT_INDEX virt_addr in
  let pd_idx := PD_INDEX virt_addr in
  let pt_idx := PT_INDEX virt_addr in
  let hw := hw_flags (using_nx (vmm_config s)) flags in
  ok ← ensure_table pml4 pml4_idx virt_addr;
  if negb ok then mret false else
  pdpt ← next_table pml4 pml4_idx;
  if pdpt =? NULL then mret false else
  ok ← ensure_table pdpt pdpt_idx virt_addr;
  if negb ok then mret false else
  pd ← next_table pdpt pdpt_idx;
  if pd =? NULL then mret false else
  ok ← ensure_table pd pd_idx virt_addr;
  if negb ok then mret false else
  pt ← next_table pd pd_idx;
  if pt =? NULL then mret false else
  store64 (entry_ptr pt pt_idx) (Z.lor phys_addr hw);;
  invlpg virt_addr;;
  mret true.

Definition vmm_unmap_page (virt_addr : Z) : V bool :=
  if virt_addr =? 0 then mret false else
  let virt_addr := Z.land virt_addr PAGE_ADDR_MASK in
  s ← mget;
  let pml4 := phys_to_virt s (current_pml4_phys s) in
  if pml4 =? NULL then mret false else
  let pml4_idx := PML4_INDEX virt_addr in
  let pdpt_idx := PDPT_INDEX virt_addr in
  let pd_idx := PD_INDEX virt_addr in
  let pt_idx := PT_INDEX virt_addr in
  e4 ← load64 (entry_ptr pml4 pml4_idx);
  if negb (has e4 PAGE_PRESENT) then mret false else
  pdpt ← next_table pml4 pml4_idx;
  if pdpt =? NULL then mret false else
  e3 ← load64 (entry_ptr pdpt pdpt_idx);
  if negb (has e3 PAGE_PRESENT) then mret false else
  if has e3 PAGE_HUGE then
    store64 (entry_ptr pdpt pdpt_idx) 0;; invlpg virt_addr;; mret true
  else
  pd ← next_table pdpt pdpt_idx;
  if pd =? NULL then mret false else
  e2 ← load64 (entry_ptr pd pd_idx);
  if negb (has e2 PAGE_PRESENT) then mret false else
  if has e2 PAGE_HUGE then
    store64 (entry_ptr pd pd_idx) 0;; invlpg virt_addr;; mret true
  else
  pt ← next_table pd pd_idx;
  if pt =? NULL then mret false else
  e1 ← load64 (entry_ptr pt pt_idx);
  if negb (has e1 PAGE_PRESENT) then mret false else
  store64 (entry_ptr pt pt_idx) 0;;
  invlpg virt_addr;;
  mret true.

(** ** Ranges of pages *)

(** [for (j = 0; j < n; j++) vmm_unmap_page(virt + j * step)] *)
Definition unmap_loop (n : nat) (virt step : Z) : V unit :=
  mfor n 0 (fun j => vmm_unmap_page (u64 (virt + u64 (j * step)));; mret tt).

(** [for (i = 0; i < n; i++)] mapping [step] bytes apart, from index [i] on;
    [Some i] is the index of the first failure. *)
Fixpoint map_loop (n : nat) (i virt phys step flags : Z) : V (option Z) :=
  match n with
  | O => mret None
  | S n' =>
      ok ← vmm_map_page (u64 (virt + u64 (i * step))) (u64 (phys + u64 (i * step))) flags;
      if (ok : bool) then map_loop n' (i + 1) virt phys step flags else mret (Some i)
  end.

Definition vmm_map_pages (virt_addr phys_addr count flags : Z) : V bool :=
  let no_huge := Z.land flags (u64 (Z.lnot VMM_FLAG_HUGE)) in
  if has flags VMM_FLAG_HUGE && (Z.land virt_addr 0x1FFFFF =? 0)
     && (Z.land phys_addr 0x1FFFFF =? 0) && (512 <=? count) then
    let huge_pages := count / 512 in
    let remaining := count mod 512 in
    failed ← map_loop (Z.to_nat huge_pages) 0 virt_addr phys_addr PAGE_SIZE_2M flags;
    match failed with
    | Some i => unmap_loop (Z.to_nat i) virt_addr PAGE_SIZE_2M;; mret false
    | None =>
      if 0 <? remaining then
        let start_virt := u64 (virt_addr + u64 (huge_pages * PAGE_SIZE_2M)) in
        let start_phys := u64 (phys_addr + u64 (huge_pages * PAGE_SIZE_2M)) in
        failed ← map_loop (Z.to_nat remaining) 0 start_virt start_phys PAGE_SIZE_4K no_huge;
        match failed with
        | Some i =>
            unmap_loop (Z.to_nat i) start_virt PAGE_SIZE_4K;;
            unmap_loop (Z.to_nat huge_pages) virt_addr PAGE_SIZE_2M;;
            mret false
        | None => mret true
        end
      else mret true
    end
  else
    failed ← map_loop (Z.to_nat count) 0 virt_addr phys_addr PAGE_SIZE_4K no_huge;
    match failed with
    | Some i => unmap_loop (Z.to_nat i) virt_addr PAGE_SIZE_4K;; mret false
    | None => mret true
    end.

Definition vmm_unmap_pages (virt_addr count : Z) : V bool :=
  unmap_loop (Z.to_nat count) virt_addr PAGE_SIZE_4K;; mret true.

(** ** Address spaces *)

Definition create_page_table : V Z :=
  page ← alloc_page;
  if page =? NULL then mret 0 else
  phys_addr ← virt_to_phys page;
  memset_page page;;
  mret phys_addr.

Definition vmm_create_address_space : V Z :=
  pml4_phys ← create_page_table;
  if pml4_phys =? 0 then mret 0 else
  s ← mget;
  let src_pml4 := phys_to_virt s (current_pml4_phys s) in
  let new_pml4 := phys_to_virt s pml4_phys in
  mfor 256 256 (fun i =>
    e ← load64 (entry_ptr src_pml4 i); store64 (entry_ptr new_pml4 i) e);;
  mret pml4_phys.

Definition vmm_delete_address_space (pml4_phys : Z) : V unit :=
  s ← mget;
  if (pml4_phys =? 0) || (pml4_phys =? current_pml4_phys s) then mret tt else
  let pml4 := phys_to_virt s pml4_phys in
  mfor 256 0 (fun pml4_idx =>
    e4 ← load64 (entry_ptr pml4 pml4_idx);
    if has e4 PAGE_PRESENT then
      let pdpt_phys := Z.land e4 PAGE_ADDR_MASK in
      let pdpt := phys_to_virt s pdpt_phys in
      mfor 512 0 (fun pdpt_idx =>
        e3 ← load64 (entry_ptr pdpt pdpt_idx);
        if has e3 PAGE_PRESENT && negb (has e3 PAGE_HUGE) then
          let pd_phys := Z.land e3 PAGE_ADDR_MASK in
          let pd := phys_to_virt s pd_phys in
          mfor 512 0 (fun pd_idx =>
            e2 ← load64 (entry_ptr pd pd_idx);
            if has e2 PAGE_PRESENT && negb (has e2 PAGE_HUGE) then
              free_page (Z.land e2 PAGE_ADDR_MASK)
            else mret tt);;
          free_page pd_phys
        else mret tt);;
      free_page pdpt_phys
    else mret tt);;
  free_page pml4_phys.

Definition vmm_switch_address_space (pml4_phys : Z) : V unit :=
  s ← mget;
  if (pml4_phys =? 0) || (pml4_phys =? current_pml4_phys s) then mret tt else
  mmodify (set_current_pml4 pml4_phys);;
  write_cr3 pml4_phys.

Definition vmm_get_current_address_space : V Z := mgets current_pml4_phys.

(** ** Memory areas *)

Definition set_used (u : bool) (r : vmm_memory_region_t) : vmm_memory_region_t :=
  Region (base r) (size r) (flags r) u.

Definition empty_region : vmm_memory_region_t := Region 0 0 0 false.

Definition register_memory_area (u : bool) (base size flags : Z) : V unit := mmodify (fun s =>
  let count := area_count_of u s in
  if MAX_MEMORY_AREAS <=? count then s
  else set_area_count u (count + 1)
         (set_areas u (array_set (areas_of u s) count (Region base size (u32 flags) false)) s)).

(** The index of the first unused area of at least [size] bytes among the [n]
    areas from [i]. *)
Fixpoint find_free_area (areas : list vmm_memory_region_t) (n : nat) (i size : Z) : option Z :=
  match n with
  | O => None
  | S n' =>
      let r := array_get empty_region areas i in
      if negb (is_used r) && (size <=? Vmm.size r) then Some i
      else find_free_area areas n' (i + 1) size
  end.

Definition mark_area (u : bool) (i : Z) (used : bool) : V unit := mmodify (fun s =>
  set_areas u (array_set (areas_of u s) i
                 (set_used used (array_get empty_region (areas_of u s) i))) s).

(** [for (i = 0; i < count; i++) if (areas[i].base == addr) { areas[i].is_used
    = false; break; }] *)
Fixpoint release_area (u : bool) (n : nat) (i addr : Z) : V unit :=
  match n with
  | O => mret tt
  | S n' =>
      s ← mget;
      if base (array_get empty_region (areas_of u s) i) =? addr then mark_area u i false
      else release_area u n' (i + 1) addr
  end.

(** [(size + PAGE_SIZE_4K - 1) & ~(PAGE_SIZE_4K - 1)] *)
Definition round_up_page (size : Z) : Z :=
  Z.land (u64 (size + PAGE_SIZE_4K - 1)) (u64 (Z.lnot (PAGE_SIZE_4K - 1))).

(** ** Allocation of virtual memory *)

(** The clean-up loops of [vmm_allocate]: give back the first [n] pages. *)
Definition give_back (n : nat) (area_base : Z) : V unit :=
  mfor n 0 (fun j =>
    let addr := u64 (area_base + u64 (j * PAGE_SIZE_4K)) in
    page_phys ← vmm_get_physical_address addr;
    vmm_unmap_page addr;;
    free_page page_phys).

(** The allocation loop of [vmm_allocate] from page [i] on; [false] after a
    failure and its clean-up. *)
Fixpoint allocate_loop (n : nat) (i area_base area_flags flags : Z) : V bool :=
  match n with
  | O => mret true
  | S n' =>
      phys ← alloc_page;
      if phys =? NULL then give_back (Z.to_nat i) area_base;; mret false else
      ok ← vmm_map_page (u64 (area_base + u64 (i * PAGE_SIZE_4K))) phys (Z.lor flags area_flags);
      if negb ok then
        free_page phys;; give_back (Z.to_nat i) area_base;; mret false
      else
        s ← mget;
        memset_page (phys_to_virt s phys);;
        allocate_loop n' (i + 1) area_base area_flags flags
  end.

Definition vmm_allocate (size flags : Z) : V Z :=
  if size =? 0 then mret NULL else
  let size := round_up_page size in
  let page_count := size / PAGE_SIZE_4K in
  let u := has flags VMM_FLAG_USER in
  s ← mget;
  match find_free_area (areas_of u s) (Z.to_nat (area_count_of u s)) 0 size with
  | None => mret NULL
  | Some i =>
      mark_area u i true;;
      let area := array_get empty_region (areas_of u s) i in
      ok ← allocate_loop (Z.to_nat page_count) 0 (base area) (Vmm.flags area) flags;
      if negb ok then mark_area u i false;; mret NULL else
      mmodify (fun s => set_stats (VmmStats (u64 (pages_allocated (vmm_stats s) + page_count))
                 (pages_freed (vmm_stats s)) (page_faults_handled (vmm_stats s))) s);;
      mret (base area)
  end.

Definition vmm_free (virt_addr size : Z) : V unit :=
  if (virt_addr =? NULL) || (size =? 0) then mret tt else
  let size := round_up_page size in
  let page_count := size / PAGE_SIZE_4K in
  mfor (Z.to_nat page_count) 0 (fun i =>
    let page_addr := u64 (virt_addr + u64 (i * PAGE_SIZE_4K)) in
    phys_addr ← vmm_get_physical_address page_addr;
    if phys_addr =? 0 then mret tt
    else vmm_unmap_page page_addr;; free_page phys_addr);;
  s ← mget;
  let u := negb (hhdm_offset s <=? virt_addr) in
  release_area u (Z.to_nat (area_count_of u s)) 0 virt_addr;;
  mmodify (fun s => set_stats (VmmStats (pages_allocated (vmm_stats s))
             (u64 (pages_freed (vmm_stats s) + page_count))
             (page_faults_handled (vmm_stats s))) s).

(** [for (offset = 0; offset < size; offset += PAGE_SIZE_4K)], as the page
    index; [Some i] is the first page that could not be mapped. *)
Definition vmm_map_physical (phys_addr size flags : Z) : V Z :=
  if (phys_addr =? 0) || (size =? 0) then mret NULL else
  let size := round_up_page size in
  s ← mget;
  if phys_addr <? 0x100000000 then mret (phys_to_virt s phys_addr) else
  match find_free_area (kernel_areas s) (Z.to_nat (kernel_area_count s)) 0 size with
  | None => mret NULL
  | Some i =>
      mark_area false i true;;
      let virt_addr := base (array_get empty_region (kernel_areas s) i) in
      failed ← map_loop (Z.to_nat (size / PAGE_SIZE_4K)) 0 virt_addr phys_addr PAGE_SIZE_4K flags;
      match failed with
      | Some j =>
          unmap_loop (Z.to_nat j) virt_addr PAGE_SIZE_4K;;
          mark_area false i false;;
          mret NULL
      | None => mret virt_addr
      end
  end.

Definition vmm_unmap_physical (virt_addr size : Z) : V unit :=
  if (virt_addr =? NULL) || (size =? 0) then mret tt else
  s ← mget;
  if (hhdm_offset s <=? virt_addr) && (virt_addr <? u64 (hhdm_offset s + 0x100000000))
  then mret tt else
  let size := round_up_page size in
  unmap_loop (Z.to_nat (size / PAGE_SIZE_4K)) virt_addr PAGE_SIZE_4K;;
  s ← mget;
  release_area false (Z.to_nat (kernel_area_count s)) 0 virt_addr.

(** ** Initialisation, faults, TLB *)

(** [vmm_init]: the responses of the boot loader ([None] when missing), the
    CR3 value it left and the EDX result of CPUID leaf 0x80000001 are inputs. *)
Definition vmm_init (hhdm_response : option Z) (kernel_address : option (Z * Z)) (cpuid_edx : Z)
  : V unit :=
  mmodify (fun s =>
    let hhdm := match hhdm_response with Some o => o | None => 0xffff800000000000 end in
    let '(pbase, vbase) :=
      match kernel_address with
      | Some (p, v) => (p, v)
      | None => (0x100000, u64 (hhdm + 0x100000))
      end in
    let cfg := VmmConfig (cr3 s) vbase 0x10000000 (has cpuid_edx (2 ^ 20)) hhdm in
    VmmState (pmm s) (mem s) (cr3 s) (tlb s) true cfg hhdm pbase vbase (cr3 s)
      (user_areas s) (kernel_areas s) (user_area_count s) (kernel_area_count s) (vmm_stats s));;
  s ← mget;
  register_memory_area false (u64 (hhdm_offset s + 0x10000000)) 0x10000000
    (Z.lor VMM_FLAG_PRESENT VMM_FLAG_WRITABLE);;
  register_memory_area true 0x400000 0x10000000
    (Z.lor (Z.lor VMM_FLAG_PRESENT VMM_FLAG_WRITABLE) VMM_FLAG_USER).

(** [page_fault_handler] reads CR2, looks the address up for its message and
    halts. *)
Definition page_fault_handler (fault_addr : Z) : V unit :=
  vmm_get_physical_address fault_addr;; mhalt.

Definition vmm_handle_page_fault (fault_addr error_code : Z) : V bool := mret false.

Definition vmm_flush_tlb_page (virt_addr : Z) : V unit := invlpg virt_addr.

Definition vmm_flush_tlb_full : V unit := c ← read_cr3; write_cr3 c.

Definition vmm_get_config : V vmm_config_t := mgets vmm_config.

End vmm.

(** The state before [vmm_init], on an allocator [a], memory [m] and the CR3
    value [c] the boot loader left. *)
Definition vmm_boot {A} (a : A) (m : gmap Z Z) (c : Z) : vmm_state A :=
  VmmState a m c [] false (VmmConfig 0 0 0 false 0) 0 0 0 0
    (replicate (Z.to_nat MAX_MEMORY_AREAS) empty_region)
    (replicate (Z.to_nat MAX_MEMORY_AREAS) empty_region)
    0 0 (VmmStats 0 0 0).

End Vmm.
