(* ===== verification/VmmTables.v ===== *)
(** The page-table trees of the virtual memory manager (Vmm.v): the walk from
    the top-level table to the entry that maps a page, the invariant [pt_inv]
    that makes the tree of the user half well formed, and how stores to tables
    change walks.  VmmSpec.v uses it to verify the functions of vmm.c. *)
From S2P Require Import Prelude PmmSpec PageAllocator Vmm.
Import Vmm.

(** ** Words, entries, addresses *)

Lemma has_testbit x n : 0 <= n -> has x (2 ^ n) = Z.testbit x n.
Proof.
  intros Hn. unfold has, truthy. rewrite <- Z.shiftl_1_l, land_pow2_testbit by done.
  apply negb_involutive.
Qed.

Lemma has_0 x : has 0 x = false.
Proof. unfold has. by rewrite Z.land_0_l. Qed.

(** The page part of an address or entry. *)
Lemma mask_round x : 0 <= x < 2 ^ 64 -> Z.land x PAGE_ADDR_MASK = x - x mod 4096.
Proof. intros Hx. by apply (land_mask_align x 12 64). Qed.

Lemma mask_aligned x : 0 <= x < 2 ^ 64 -> x mod 4096 = 0 -> Z.land x PAGE_ADDR_MASK = x.
Proof. intros Hx Ha. rewrite mask_round by done. lia. Qed.

(** Low flag bits do not disturb a page address. *)
Lemma mask_lor_flags p f :
  0 <= p < 2 ^ 64 -> p mod 4096 = 0 -> 0 <= f < 4096 ->
  Z.land (Z.lor p f) PAGE_ADDR_MASK = p.
Proof.
  intros Hp Ha Hf. unfold PAGE_ADDR_MASK.
  rewrite Z.land_lor_distr_l.
  change (Z.land p (u64 (Z.lnot 4095))) with (Z.land p PAGE_ADDR_MASK).
  rewrite mask_aligned by done.
  change (Z.land f (u64 (Z.lnot 4095))) with (Z.land f PAGE_ADDR_MASK).
  rewrite mask_round by lia. rewrite Z.mod_small by lia.
  by rewrite Z.sub_diag, Z.lor_0_r.
Qed.

Lemma lor_flags_bit p f n :
  p mod 4096 = 0 -> 0 <= n < 12 -> Z.testbit (Z.lor p f) n = Z.testbit f n.
Proof.
  intros Ha Hn. rewrite Z.lor_spec.
  assert (Z.testbit p n = false) as ->; [|done].
  rewrite (Z.div_mod p (2 ^ 12)) by lia. change (2 ^ 12) with 4096. rewrite Ha, Z.add_0_r.
  change 4096 with (2 ^ 12). rewrite Z.mul_comm, <- Z.shiftl_mul_pow2 by lia.
  apply Z.shiftl_spec_low. lia.
Qed.

(** The index a walk uses at level [l] (4 for the PML4 down to 1 for a PT). *)
Definition index (l : nat) (v : Z) : Z :=
  Z.land (Z.shiftr v (12 + 9 * (Z.of_nat l - 1))) 0x1FF.

Lemma index_div l v : (1 <= l)%nat -> index l v = (v / 4096 / 512 ^ (Z.of_nat l - 1)) mod 512.
Proof.
  intros Hl. unfold index. change 0x1FF with (Z.ones 9).
  rewrite Z.land_ones, Z.shiftr_div_pow2 by lia.
  set (k := Z.of_nat l - 1). assert (0 <= k) by lia.
  replace (512 ^ k) with (2 ^ (9 * k)) by (rewrite Z.pow_mul_r by lia; done).
  change 4096 with (2 ^ 12). rewrite Z.div_div, <- Z.pow_add_r by lia. done.
Qed.

Lemma index_range l v : 0 <= index l v < 512.
Proof.
  unfold index. change 0x1FF with (Z.ones 9). rewrite Z.land_ones by lia.
  apply Z.mod_pos_bound. lia.
Qed.

(** Addresses of the user half. *)
Definition user_addr (v : Z) : Prop := 0 <= v < 2 ^ 47.

Lemma index4_user v : user_addr v -> index 4 v < 256.
Proof.
  intros Hv. unfold user_addr in Hv. rewrite index_div by lia.
  change (512 ^ (Z.of_nat 4 - 1)) with (2 ^ 27). change 4096 with (2 ^ 12).
  rewrite Z.div_div, <- Z.pow_add_r by lia.
  assert (0 <= v / 2 ^ (12 + 27) < 256) by (split; [apply Z.div_pos; lia|apply Z.div_lt_upper_bound; lia]).
  rewrite Z.mod_small; lia.
Qed.

(** Two user addresses whose four indices agree are on one page. *)
Lemma index_inj v v' :
  user_addr v -> user_addr v' ->
  (forall k, (1 <= k <= 4)%nat -> index k v = index k v') -> v / 4096 = v' / 4096.
Proof.
  unfold user_addr. intros Hv Hv' Hk.
  pose proof (Hk 1%nat ltac:(lia)) as H1. pose proof (Hk 2%nat ltac:(lia)) as H2.
  pose proof (Hk 3%nat ltac:(lia)) as H3. pose proof (Hk 4%nat ltac:(lia)) as H4.
  rewrite !index_div in H1, H2, H3, H4 by lia.
  change (512 ^ (Z.of_nat 1 - 1)) with 1 in H1.
  change (512 ^ (Z.of_nat 2 - 1)) with 512 in H2.
  change (512 ^ (Z.of_nat 3 - 1)) with (512 * 512) in H3.
  change (512 ^ (Z.of_nat 4 - 1)) with (512 * 512 * 512) in H4.
  assert (D3 : forall x, x / (512 * 512) = x / 512 / 512) by (intros; by rewrite Z.div_div).
  assert (D4 : forall x, x / (512 * 512 * 512) = x / 512 / 512 / 512)
    by (intros; by rewrite !Z.div_div).
  rewrite !D3 in H3. rewrite !D4 in H4. rewrite !Z.div_1_r in H1.
  assert (0 <= v / 4096 < 2 ^ 35) by (split; [apply Z.div_pos; lia|apply Z.div_lt_upper_bound; lia]).
  assert (0 <= v' / 4096 < 2 ^ 35) by (split; [apply Z.div_pos; lia|apply Z.div_lt_upper_bound; lia]).
  set (w := v / 4096) in *. set (w' := v' / 4096) in *. clearbody w w'.
  rewrite (Z.mod_small (w / 512 / 512 / 512)) in H4
    by (split; [repeat apply Z.div_pos; lia|repeat (apply Z.div_lt_upper_bound; [lia|]); lia]).
  rewrite (Z.mod_small (w' / 512 / 512 / 512)) in H4
    by (split; [repeat apply Z.div_pos; lia|repeat (apply Z.div_lt_upper_bound; [lia|]); lia]).
  pose proof (Z.div_mod w 512). pose proof (Z.div_mod w' 512).
  pose proof (Z.div_mod (w / 512) 512). pose proof (Z.div_mod (w' / 512) 512).
  pose proof (Z.div_mod (w / 512 / 512) 512). pose proof (Z.div_mod (w' / 512 / 512) 512).
  lia.
Qed.

(** Addresses of one page have the same indices. *)
Lemma index_page l v v' : (1 <= l)%nat -> v / 4096 = v' / 4096 -> index l v = index l v'.
Proof. intros Hl Hp. by rewrite !index_div, Hp by done. Qed.

Lemma index_mask l v : (1 <= l)%nat -> 0 <= v < 2 ^ 64 ->
  index l (Z.land v PAGE_ADDR_MASK) = index l v.
Proof.
  intros Hl Hv. apply index_page; [done|]. rewrite mask_round by done.
  pose proof (Z.div_mod v 4096). pose proof (Z.mod_pos_bound v 4096).
  replace (v - v mod 4096) with (v / 4096 * 4096) by lia. by rewrite Z.div_mul.
Qed.

(** ** Walks *)

Definition present (e : Z) : bool := has e PAGE_PRESENT.
Definition target (e : Z) : Z := Z.land e PAGE_ADDR_MASK.

(** The address of the last-level entry for [v], below table [tbl] of level
    [l]; [None] when a table on the way is missing. *)
Fixpoint slot (m : gmap Z Z) (l : nat) (tbl v : Z) : option Z :=
  match l with
  | O => None
  | S O => Some (tbl + 8 * index 1 v)
  | S l' =>
      let e := mem_read m (tbl + 8 * index l v) in
      if present e then slot m l' (target e) v else None
  end.

(** The entry itself, 0 when there is none. *)
Definition leaf (m : gmap Z Z) (l : nat) (tbl v : Z) : Z :=
  match slot m l tbl v with Some a => mem_read m a | None => 0 end.

Definition pte {A} (s : vmm_state A) (v : Z) : Z := leaf (mem s) 4 (current_pml4_phys s) v.

Lemma slot_S m l tbl v :
  (1 <= l)%nat ->
  slot m (S l) tbl v =
  if present (mem_read m (tbl + 8 * index (S l) v))
  then slot m l (target (mem_read m (tbl + 8 * index (S l) v))) v else None.
Proof. destruct l; [lia|done]. Qed.

Lemma leaf_S m l tbl v :
  (1 <= l)%nat ->
  leaf m (S l) tbl v =
  if present (mem_read m (tbl + 8 * index (S l) v))
  then leaf m l (target (mem_read m (tbl + 8 * index (S l) v))) v else 0.
Proof. intros Hl. unfold leaf. rewrite slot_S by done. by destruct (present _). Qed.

Lemma slot_page m l tbl v v' : v / 4096 = v' / 4096 -> slot m l tbl v = slot m l tbl v'.
Proof.
  intros Hp. revert tbl. induction l as [|l IH]; intros tbl; [done|].
  destruct (decide (l = 0%nat)) as [->|].
  { cbn [slot]. by rewrite (index_page 1 v v') by done. }
  rewrite !slot_S by lia. rewrite (index_page (S l) v v') by (done || lia).
  by destruct (present _).
Qed.

Lemma leaf_page m l tbl v v' : v / 4096 = v' / 4096 -> leaf m l tbl v = leaf m l tbl v'.
Proof. intros Hp. unfold leaf. by rewrite (slot_page _ _ _ v v'). Qed.

(** ** Well-formed trees

    [T] types the table pages of the current user tree by level.  Each
    present entry of a table of level 2 to 4 is not a huge page and points to
    a table one level below, no two entries point to the same table, and no
    table is a free page of the allocator. *)

Definition user_index (l : nat) (i : Z) : Prop := 0 <= i < 512 /\ (l = 4%nat -> i < 256).

Definition page_ok (p : Z) : Prop := 4096 <= p /\ p mod 4096 = 0 /\ p + 4096 <= PHYS_LIMIT.

Record tree_wf (T : gmap Z nat) (m : gmap Z Z) : Prop := {
  tw_page p l : T !! p = Some l -> page_ok p /\ (1 <= l <= 4)%nat;
  tw_word a : 0 <= mem_read m a < 2 ^ 64;
  tw_entry p l i :
    T !! p = Some (S l) -> (1 <= l)%nat -> user_index (S l) i ->
    present (mem_read m (p + 8 * i)) = true ->
    has (mem_read m (p + 8 * i)) PAGE_HUGE = false /\
    T !! target (mem_read m (p + 8 * i)) = Some l;
  tw_inj p p' l i i' :
    T !! p = Some (S l) -> T !! p' = Some (S l) -> (1 <= l)%nat ->
    user_index (S l) i -> user_index (S l) i' ->
    present (mem_read m (p + 8 * i)) = true -> present (mem_read m (p' + 8 * i')) = true ->
    target (mem_read m (p + 8 * i)) = target (mem_read m (p' + 8 * i')) ->
    p = p' /\ i = i';
}.

Lemma user_index_of l v : user_addr v -> user_index l (index l v).
Proof.
  intros Hv. split; [apply index_range|]. intros ->. by apply index4_user.
Qed.

(** Slots of different pages, or different slots of a page, are different. *)
Lemma slot_addr_inj p p' i i' :
  p mod 4096 = 0 -> p' mod 4096 = 0 -> 0 <= i < 512 -> 0 <= i' < 512 ->
  p + 8 * i = p' + 8 * i' -> p = p' /\ i = i'.
Proof.
  intros Hp Hp' Hi Hi' Heq.
  pose proof (Z.div_mod p 4096). pose proof (Z.div_mod p' 4096). lia.
Qed.

Lemma mem_read_insert m a x : mem_read (<[a := x]> m) a = x.
Proof. unfold mem_read. by rewrite lookup_insert_eq. Qed.

Lemma mem_read_insert_ne m a b x : a <> b -> mem_read (<[a := x]> m) b = mem_read m b.
Proof. intros. unfold mem_read. by rewrite lookup_insert_ne. Qed.

Section tree.
  Context (T : gmap Z nat) (m : gmap Z Z) (Hwf : tree_wf T m).

  (** The last-level entry of a walk is in a level-1 table. *)
Lemma slot_table l tbl v a :
    T !! tbl = Some l -> user_addr v -> slot m l tbl v = Some a ->
    exists pt, T !! pt = Some 1%nat /\ a = pt + 8 * index 1 v.
  Proof using Hwf.
    revert tbl. induction l as [|l IH]; intros tbl Ht Hv Hs; [done|].
    destruct (decide (l = 0%nat)) as [->|].
    { injection Hs as <-. by exists tbl. }
    rewrite slot_S in Hs by lia.
    destruct (present _) eqn:Hp; [|done].
    apply (IH _ ltac:(eapply (tw_entry T m Hwf); eauto using user_index_of; lia) Hv Hs).
  Qed.

  (** Walks that end in one entry started in one table and are walks of
      addresses with the same indices. *)
Lemma slot_inj l tbl tbl' v v' a :
    T !! tbl = Some l -> T !! tbl' = Some l -> user_addr v -> user_addr v' ->
    slot m l tbl v = Some a -> slot m l tbl' v' = Some a ->
    tbl = tbl' /\ forall k, (1 <= k <= l)%nat -> index k v = index k v'.
  Proof using Hwf.
    revert tbl tbl'. induction l as [|l IH]; intros tbl tbl' Ht Ht' Hv Hv' Hs Hs'; [done|].
    destruct (decide (l = 0%nat)) as [->|Hl].
    { cbn [slot] in Hs, Hs'. injection Hs as <-. injection Hs' as Heq.
      destruct (tw_page _ _ Hwf _ _ Ht) as [(? & ? & ?) _].
      destruct (tw_page _ _ Hwf _ _ Ht') as [(? & ? & ?) _].
      apply slot_addr_inj in Heq as [-> Heq]; [|done|done|apply index_range|apply index_range].
      split; [done|]. intros k Hk. by replace k with 1%nat by lia. }
    rewrite slot_S in Hs, Hs' by lia.
    destruct (present (mem_read m (tbl + _))) eqn:Hp; [|done].
    destruct (present (mem_read m (tbl' + _))) eqn:Hp'; [|done].
    destruct (tw_entry _ _ Hwf tbl l (index (S l) v) Ht) as [_ Hn];
      [lia|by apply user_index_of|done|].
    destruct (tw_entry _ _ Hwf tbl' l (index (S l) v') Ht') as [_ Hn'];
      [lia|by apply user_index_of|done|].
    destruct (IH _ _ Hn Hn' Hv Hv' Hs Hs') as [Heq Hidx].
    destruct (tw_inj _ _ Hwf tbl tbl' l (index (S l) v) (index (S l) v'))
      as [-> Hi]; [done|done|lia|by apply user_index_of|by apply user_index_of|done..|].
    split; [done|]. intros k Hk. destruct (decide (k = S l)) as [->|]; [done|].
    apply Hidx. lia.
  Qed.

  (** A walk depends on the entries of typed tables of level 2 and up only. *)
Lemma slot_agree m' l tbl v :
    T !! tbl = Some l -> user_addr v ->
    (forall p k i, T !! p = Some (S k) -> (1 <= k)%nat -> user_index (S k) i ->
       mem_read m' (p + 8 * i) = mem_read m (p + 8 * i)) ->
    slot m' l tbl v = slot m l tbl v.
  Proof using Hwf.
    intros Ht Hv Hag. revert tbl Ht. induction l as [|l IH]; intros tbl Ht; [done|].
    destruct (decide (l = 0%nat)) as [->|Hl]; [done|].
    rewrite !slot_S by lia. rewrite (Hag tbl l) by (done || lia || by apply user_index_of).
    destruct (present _) eqn:Hp; [|done].
    apply IH. apply (tw_entry _ _ Hwf tbl l); [done|lia|by apply user_index_of|done].
  Qed.
End tree.

(** ** Stores *)

(** Storing a last-level entry. *)
Lemma tree_store_leaf T m pt i x :
  tree_wf T m -> T !! pt = Some 1%nat -> 0 <= i < 512 -> 0 <= x < 2 ^ 64 ->
  tree_wf T (<[pt + 8 * i := x]> m) /\
  (forall p k j, T !! p = Some (S k) -> (1 <= k)%nat -> user_index (S k) j ->
     mem_read (<[pt + 8 * i := x]> m) (p + 8 * j) = mem_read m (p + 8 * j)).
Proof.
  intros Hwf Hpt Hi Hx.
  assert (Hag : forall p k j, T !! p = Some (S k) -> (1 <= k)%nat -> user_index (S k) j ->
     mem_read (<[pt + 8 * i := x]> m) (p + 8 * j) = mem_read m (p + 8 * j)).
  { intros p k j Hp Hk [Hj _]. apply mem_read_insert_ne. intros Heq.
    destruct (tw_page _ _ Hwf _ _ Hp) as [(? & ? & ?) _].
    destruct (tw_page _ _ Hwf _ _ Hpt) as [(? & ? & ?) _].
    apply slot_addr_inj in Heq as [-> _]; [|done..].
    rewrite Hpt in Hp. injection Hp. lia. }
  split; [|done]. constructor.
  - apply (tw_page _ _ Hwf).
  - intros a. destruct (decide (pt + 8 * i = a)) as [<-|Hne].
    + by rewrite mem_read_insert.
    + rewrite mem_read_insert_ne by done. apply (tw_word _ _ Hwf).
  - intros p l j Hp Hl Hj. rewrite (Hag p l j) by done. by apply (tw_entry _ _ Hwf).
  - intros p p' l j j' Hp Hp' Hl Hj Hj'. rewrite (Hag p l j), (Hag p' l j') by done.
    by apply (tw_inj _ _ Hwf p p' l).
Qed.

(** The walks after storing the last-level entry of [v]. *)
Lemma leaf_store T m root v a x v' :
  tree_wf T m -> T !! root = Some 4%nat -> user_addr v -> user_addr v' -> 0 <= x < 2 ^ 64 ->
  slot m 4 root v = Some a ->
  leaf (<[a := x]> m) 4 root v' = if v' / 4096 =? v / 4096 then x else leaf m 4 root v'.
Proof.
  intros Hwf Hr Hv Hv' Hx Hs.
  destruct (slot_table T m Hwf 4 root v a Hr Hv Hs) as (pt & Hpt & ->).
  destruct (tree_store_leaf T m pt (index 1 v) x Hwf Hpt (index_range 1 v) Hx) as [_ Hag].
  unfold leaf. rewrite (slot_agree T m Hwf) by done.
  destruct (Z.eqb_spec (v' / 4096) (v / 4096)) as [Hp|Hp].
  - rewrite (slot_page m 4 root v' v Hp), Hs. apply mem_read_insert.
  - destruct (slot m 4 root v') as [a'|] eqn:Hs'; [|done].
    apply mem_read_insert_ne. intros <-.
    destruct (slot_inj T m Hwf 4 root root v v' _ Hr Hr Hv Hv' Hs Hs') as [_ Hidx].
    by apply index_inj in Hidx.
Qed.

(** A page whose words are all zero. *)
Definition zero_page (m : gmap Z Z) (p : Z) : Prop := forall i, 0 <= i < 512 -> mem_read m (p + 8 * i) = 0.

(** An address is a word of a page or it is not. *)
Lemma page_word_dec a p :
  (exists j, 0 <= j < 512 /\ a = p + 8 * j) \/ (forall j, 0 <= j < 512 -> a <> p + 8 * j).
Proof.
  destruct (decide (p <= a < p + 4096 /\ (a - p) mod 8 = 0)) as [[Ha Hm]|Ha]; [left|right].
  - exists ((a - p) / 8). pose proof (Z.div_mod (a - p) 8).
    split; [split; [apply Z.div_pos|apply Z.div_lt_upper_bound]|]; lia.
  - intros j Hj ->. apply Ha. split; [lia|].
    replace (p + 8 * j - p) with (j * 8) by lia. by apply Z.mod_mul.
Qed.

Lemma leaf_zero_page m l p v : zero_page m p -> leaf m l p v = 0.
Proof.
  intros Hz. destruct l as [|l]; [done|].
  destruct (decide (l = 0%nat)) as [->|].
  - unfold leaf. cbn [slot]. apply Hz, index_range.
  - rewrite leaf_S by lia. rewrite Hz by apply index_range.
    unfold present. by rewrite has_0.
Qed.

(** ** Linking a new table

    Page [p] is zeroed and entry [i] of table [tbl] set to [e], which points
    to [p]; nothing else changes. *)
Definition linked (m m' : gmap Z Z) (tbl i p e : Z) : Prop :=
  mem_read m' (tbl + 8 * i) = e /\ zero_page m' p /\
  forall a, a <> tbl + 8 * i -> (forall j, 0 <= j < 512 -> a <> p + 8 * j) ->
    mem_read m' a = mem_read m a.

Section link.
  Context (T : gmap Z nat) (m m' : gmap Z Z) (tbl i p e : Z) (l : nat).
  Hypothesis (Hwf : tree_wf T m) (Htbl : T !! tbl = Some (S l)) (Hl : (1 <= l)%nat).
  Hypothesis (Hi : user_index (S l) i) (Hnp : present (mem_read m (tbl + 8 * i)) = false).
  Hypothesis (Hp : page_ok p) (Hfresh : T !! p = None).
  Hypothesis (He : 0 <= e < 2 ^ 64) (Hpres : present e = true).
  Hypothesis (Hhuge : has e PAGE_HUGE = false) (Htgt : target e = p).
  Hypothesis (Hlink : linked m m' tbl i p e).

  (** Entries of typed tables other than the linked one are unchanged. *)
Lemma link_other q k j :
    T !! q = Some k -> 0 <= j < 512 -> (q <> tbl \/ j <> i) ->
    mem_read m' (q + 8 * j) = mem_read m (q + 8 * j).
  Proof using All.
    intros Hq Hj Hne. destruct Hlink as (_ & _ & Hother). destruct Hi as [Hi' _].
    destruct (tw_page _ _ Hwf _ _ Hq) as [(? & ? & ?) _].
    destruct (tw_page _ _ Hwf _ _ Htbl) as [(? & ? & ?) _].
    destruct Hp as (? & ? & ?).
    apply Hother.
    - intros Heq. apply slot_addr_inj in Heq as [? ?]; [|done..]. tauto.
    - intros j' Hj' Heq. apply slot_addr_inj in Heq as [-> _]; [|done..].
      congruence.
  Qed.

  (** Present entries of typed tables are unchanged. *)
Lemma link_present q k j :
    T !! q = Some k -> 0 <= j < 512 -> present (mem_read m (q + 8 * j)) = true ->
    mem_read m' (q + 8 * j) = mem_read m (q + 8 * j).
  Proof using All.
    intros Hq Hj Hpr. apply (link_other q k j Hq Hj).
    destruct (decide (q = tbl)) as [->|]; [right|by left]. intros ->. congruence.
  Qed.

Lemma link_tree : tree_wf (<[p := l]> T) m'.
  Proof using All.
    pose proof Hlink as (Hslot & Hzero & Hother). pose proof Hi as [Hi' _].
    assert (Hlook : forall q k, <[p := l]> T !! q = Some k ->
                    (q = p /\ k = l) \/ (q <> p /\ T !! q = Some k)).
    { intros q k Hq. destruct (decide (q = p)) as [->|]; simplify_map_eq; auto. }
    (* an entry present after linking: the new one, or an old one *)
    assert (Hcase : forall q k j, <[p := l]> T !! q = Some (S k) -> (1 <= k)%nat ->
      user_index (S k) j -> present (mem_read m' (q + 8 * j)) = true ->
      (q = tbl /\ j = i /\ k = l /\ mem_read m' (q + 8 * j) = e) \/
      (T !! q = Some (S k) /\ mem_read m' (q + 8 * j) = mem_read m (q + 8 * j))).
    { intros q k j Hq Hk [Hj Hj4] Hpr.
      apply Hlook in Hq as [[-> Hkl] | [Hqp Hq]].
      - rewrite Hzero in Hpr by done. unfold present in Hpr. by rewrite has_0 in Hpr.
      - destruct (decide (q = tbl)) as [->|Hqt].
        + destruct (decide (j = i)) as [->|Hji].
          * left. rewrite Htbl in Hq. injection Hq as Hq. by split_and!.
          * right. split; [done|]. apply (link_other tbl (S k) j); tauto.
        + right. split; [done|]. apply (link_other q (S k) j); tauto. }
    constructor.
    - intros q k [[-> ->] | [_ Hq]]%Hlook; [split; [done|]|by apply (tw_page _ _ Hwf q)].
      destruct (tw_page _ _ Hwf _ _ Htbl) as [_ ?]. lia.
    - intros a. destruct (decide (a = tbl + 8 * i)) as [->|Hne]; [by rewrite Hslot|].
      destruct (page_word_dec a p) as [(j & Hj & ->)|Ha]; [by rewrite Hzero|].
      rewrite Hother by done. apply (tw_word _ _ Hwf).
    - intros q k j Hq Hk Hj Hpr.
      destruct (Hcase q k j Hq Hk Hj Hpr) as [(-> & -> & -> & ->) | [Hq' Heq]].
      + split; [done|]. rewrite Htgt. by simplify_map_eq.
      + rewrite Heq in Hpr |- *. destruct (tw_entry _ _ Hwf q k j Hq' Hk Hj Hpr) as [Hh Ht].
        split; [done|]. rewrite lookup_insert_ne; [done|]. intros Hpt. congruence.
    - intros q q' k j j' Hq Hq' Hk Hj Hj' Hpr Hpr' Htt.
      destruct (Hcase q k j Hq Hk Hj Hpr) as [(-> & -> & -> & He1) | [Hq1 He1]];
        destruct (Hcase q' _ j' Hq' Hk Hj' Hpr') as [(-> & -> & Hk' & He2) | [Hq2 He2]];
        rewrite ?He1, ?He2 in *.
      + done.
      + exfalso. destruct (tw_entry _ _ Hwf q' l j' Hq2 Hk Hj' Hpr') as [_ Ht]. congruence.
      + exfalso. destruct (tw_entry _ _ Hwf q k j Hq1 Hk Hj Hpr) as [_ Ht]. congruence.
      + by apply (tw_inj _ _ Hwf q q' k).
  Qed.

  (** Linking an empty table changes no last-level entry. *)
Lemma link_leaf k q v :
    T !! q = Some k -> user_addr v -> leaf m' k q v = leaf m k q v.
  Proof using All.
    pose proof Hlink as (Hslot & Hzero & Hother).
    intros Hq Hv. revert q Hq. induction k as [|k IH]; intros q Hq; [done|].
    destruct (decide (k = 0%nat)) as [->|Hk].
    { unfold leaf. cbn [slot]. apply (link_other q 1); [done|apply index_range|].
      left. intros ->. rewrite Htbl in Hq. injection Hq. lia. }
    rewrite !leaf_S by lia.
    destruct (decide (q = tbl /\ index (S k) v = i)) as [[-> Hidx]|Hne].
    - rewrite Hidx, Hnp, Hslot, Hpres, Htgt. by apply leaf_zero_page.
    - rewrite (link_other q (S k)); [|done|apply index_range
        |destruct (decide (q = tbl)); [right; intros ?; by apply Hne|by left]].
      destruct (present (mem_read m (q + _))) eqn:Hpr; [|done]. apply IH.
      apply (tw_entry _ _ Hwf q k (index (S k) v)); [done|lia|by apply user_index_of|].
      done.
  Qed.
End link.
