(* ===== verification/VmmRun.v ===== *)
(** Running the memory accesses of vmm.c: loads and stores of page-table
    entries through the direct map, zeroing a page, and linking a new table
    ([ensure_table]).  The invariant [pt_inv] of the page-table tree of the
    current address space is stated here. *)
From S2P Require Import Prelude PmmSpec PageAllocator Vmm VmmTables.
Import Vmm.

Section vmm_run.
  Context {A : Type} `{PageAllocatorSpec A} `{!Mmu} (hhdm : Z) `{!HhdmWindow hhdm}.
  Implicit Types s : vmm_state A.

(** ** The invariant

    [T] gives the level of every table page of the current user tree. *)
Record pt_inv (T : gmap Z nat) s : Prop := {
  pi_hhdm : hhdm_offset s = hhdm;
  pi_pmm : pa_inv (pmm s);
  pi_root : T !! current_pml4_phys s = Some 4%nat;
  pi_tree : tree_wf T (mem s);
  pi_used p l : T !! p = Some l -> p ∉ pa_free (pmm s);
}.

(** ** Loads and stores *)

Lemma hhdm_u64 p : 0 <= p < PHYS_LIMIT -> u64 (hhdm + p) = hhdm + p.
Proof using Type*.
  intros Hp. pose proof hhdm_canonical. pose proof hhdm_fits.
  apply wrap_small. unfold PHYS_LIMIT in *. lia.
Qed.

Lemma run_load p s : 0 <= p < PHYS_LIMIT -> load64 (hhdm + p) s = (Ret (mem_read (mem s) p), s).
Proof using Type*. intros Hp. unfold load64. by rewrite hhdm_translate. Qed.

Lemma run_store p x s :
  0 <= p < PHYS_LIMIT -> store64 (hhdm + p) x s = (Ret tt, set_mem (<[p := x]> (mem s)) s).
Proof using Type*. intros Hp. unfold store64. by rewrite hhdm_translate. Qed.

Lemma phys_to_virt_page s p : hhdm_offset s = hhdm -> page_ok p -> phys_to_virt s p = hhdm + p.
Proof using Type*.
  intros Hh (Hp & _ & Hp'). unfold phys_to_virt. rewrite Hh.
  replace (p =? 0) with false by lia.
  rewrite Z.add_comm. apply hhdm_u64. lia.
Qed.

Lemma page_virt_nonnull p : page_ok p -> (hhdm + p =? NULL) = false.
Proof using Type*.
  intros (Hp & _). pose proof hhdm_canonical. unfold PHYS_LIMIT, NULL in *. lia.
Qed.

Lemma entry_ptr_page p i : page_ok p -> 0 <= i < 512 -> entry_ptr (hhdm + p) i = hhdm + (p + 8 * i).
Proof using Type*.
  intros (Hp & _ & Hp') Hi. unfold entry_ptr. rewrite <- Z.add_assoc. apply hhdm_u64. lia.
Qed.

Lemma run_load_entry p i s :
  page_ok p -> 0 <= i < 512 ->
  load64 (entry_ptr (hhdm + p) i) s = (Ret (mem_read (mem s) (p + 8 * i)), s).
Proof using Type*.
  intros Hp Hi. rewrite entry_ptr_page by done. apply run_load. destruct Hp as (? & _ & ?). lia.
Qed.

Lemma run_store_entry p i x s :
  page_ok p -> 0 <= i < 512 ->
  store64 (entry_ptr (hhdm + p) i) x s = (Ret tt, set_mem (<[p + 8 * i := x]> (mem s)) s).
Proof using Type*.
  intros Hp Hi. rewrite entry_ptr_page by done. apply run_store. destruct Hp as (? & _ & ?). lia.
Qed.

Lemma run_next_table p i s :
  hhdm_offset s = hhdm -> page_ok p -> 0 <= i < 512 -> page_ok (target (mem_read (mem s) (p + 8 * i))) ->
  next_table (hhdm + p) i s = (Ret (hhdm + target (mem_read (mem s) (p + 8 * i))), s).
Proof using Type*.
  intros Hh Hp Hi Ht. unfold next_table. mstep (run_load_entry _ _ _ Hp Hi). mstep.
  rewrite run_ret. by rewrite <- (phys_to_virt_page s) by done.
Qed.

Lemma run_table_entry p i s :
  hhdm_offset s = hhdm -> page_ok p -> 0 <= i < 512 ->
  table_entry p i s = (Ret (Some (mem_read (mem s) (p + 8 * i))), s).
Proof using Type*.
  intros Hh Hp Hi. unfold table_entry. mstep. cbv zeta.
  rewrite phys_to_virt_page, page_virt_nonnull by done.
  by mstep (run_load_entry _ _ _ Hp Hi).
Qed.

(** [memset] of a page zeroes it and changes nothing else. *)
Lemma run_memset_page p s :
  page_ok p ->
  exists m', memset_page (hhdm + p) s = (Ret tt, set_mem m' s) /\ zero_page m' p /\
    forall a, (forall i, 0 <= i < 512 -> a <> p + 8 * i) -> mem_read m' a = mem_read (mem s) a.
Proof using Type*.
  intros Hp.
  destruct (run_for_inv (fun j s0 => exists m', s0 = set_mem m' s /\
      (forall i, 0 <= i < j -> mem_read m' (p + 8 * i) = 0) /\
      (forall a, (forall i, 0 <= i < 512 -> a <> p + 8 * i) -> mem_read m' a = mem_read (mem s) a))
    512 0 (fun i => store64 (u64 (hhdm + p + 8 * i)) 0) s) as (s' & Hr & m' & -> & Hz & Ho).
  - exists (mem s). split_and!; [by destruct s|lia|done].
  - intros j s0 Hj (m0 & -> & Hz & Ho).
    exists (set_mem (<[p + 8 * j := 0]> m0) s). split.
    { change (u64 (hhdm + p + 8 * j)) with (entry_ptr (hhdm + p) j).
      by rewrite run_store_entry by (done || lia). }
    eexists. split_and!; [done| |].
    + intros i Hi. destruct (decide (i = j)) as [->|Hne]; [apply mem_read_insert|].
      rewrite mem_read_insert_ne by lia. apply Hz. lia.
    + intros a Ha. rewrite mem_read_insert_ne; [by apply Ho|]. intros Heq.
      apply (Ha j); [lia|done].
  - exists m'. split_and!; [exact Hr| |done]. intros i Hi. apply Hz. lia.
Qed.

(** ** Growing a tree

    What adding tables does: nothing but the allocator and memory changes,
    new tables come from free pages, no last-level entry and no memory outside
    the tables changes, and at most [n] pages are used. *)
Record grows (n : nat) (T : gmap Z nat) s (T' : gmap Z nat) s' : Prop := {
  gr_frame : exists a m, s' = set_pmm a (set_mem m s);
  gr_inv : pt_inv T' s';
  gr_types : T ⊆ T';
  gr_new p : is_Some (T' !! p) -> T !! p = None -> p ∈ pa_free (pmm s);
  gr_kept p : p ∈ pa_free (pmm s) -> p ∈ pa_free (pmm s') \/ is_Some (T' !! p);
  gr_pte v : user_addr v -> pte s' v = pte s v;
  gr_entry p l i : T !! p = Some (S l) -> (1 <= l)%nat -> user_index (S l) i ->
    present (mem_read (mem s) (p + 8 * i)) = true ->
    mem_read (mem s') (p + 8 * i) = mem_read (mem s) (p + 8 * i);
  gr_data a : (forall p l, T' !! p = Some l -> ~ (p <= a < p + 4096)) ->
    mem_read (mem s') a = mem_read (mem s) a;
  gr_managed : pa_managed (pmm s') = pa_managed (pmm s);
  gr_free : pa_free (pmm s') ⊆ pa_free (pmm s);
  gr_size : (base.size (pa_free (pmm s)) <= base.size (pa_free (pmm s')) + n)%nat;
}.

Lemma grows_refl T s : pt_inv T s -> grows 0 T s T s.
Proof using Type*.
  intros Hi. constructor; try done; [by exists (pmm s), (mem s); destruct s| |by left|lia].
  intros p [l Hp] Hn. congruence.
Qed.

Lemma grows_trans n1 n2 T1 s1 T2 s2 T3 s3 :
  grows n1 T1 s1 T2 s2 -> grows n2 T2 s2 T3 s3 -> grows (n1 + n2) T1 s1 T3 s3.
Proof using Type*.
  intros G1 G2. constructor.
  - destruct (gr_frame _ _ _ _ _ G1) as (a & m & ->).
    destruct (gr_frame _ _ _ _ _ G2) as (a' & m' & ->). by exists a', m'.
  - apply G2.
  - etrans; [apply G1|apply G2].
  - intros p HS HN. destruct (T2 !! p) as [l|] eqn:E.
    + apply (gr_new _ _ _ _ _ G1); [by rewrite E|done].
    + apply (gr_free _ _ _ _ _ G1), (gr_new _ _ _ _ _ G2); done.
  - intros p [Hp|[l Hp]]%(gr_kept _ _ _ _ _ G1); [by apply (gr_kept _ _ _ _ _ G2)|].
    right. exists l. eapply lookup_weaken; [done|apply G2].
  - intros v Hv. rewrite (gr_pte _ _ _ _ _ G2) by done. by apply (gr_pte _ _ _ _ _ G1).
  - intros p l i Hp Hl Hi Hpr.
    pose proof (gr_entry _ _ _ _ _ G1 p l i Hp Hl Hi Hpr) as E1.
    rewrite <- E1. apply (gr_entry _ _ _ _ _ G2 p l); [|done..|by rewrite E1].
    eapply lookup_weaken; [done|apply G1].
  - intros a Ha. rewrite (gr_data _ _ _ _ _ G2) by done. apply (gr_data _ _ _ _ _ G1).
    intros p l Hp. apply (Ha p l). eapply lookup_weaken; [done|apply G2].
  - rewrite (gr_managed _ _ _ _ _ G2). apply G1.
  - etrans; [apply G2|apply G1].
  - pose proof (gr_size _ _ _ _ _ G1). pose proof (gr_size _ _ _ _ _ G2). lia.
Qed.

(** ** Linking a new table *)

(** The entry [ensure_table] writes for a new table of the user half. *)
Definition table_pte (p : Z) : Z := Z.lor (Z.lor (Z.lor p PAGE_PRESENT) PAGE_WRITABLE) PAGE_USER.

Lemma table_pte_lor p : table_pte p = Z.lor p 7.
Proof using Type. unfold table_pte. by rewrite <- !Z.lor_assoc. Qed.

Lemma table_pte_ok p :
  page_ok p ->
  0 <= table_pte p < 2 ^ 64 /\ present (table_pte p) = true /\
  has (table_pte p) PAGE_HUGE = false /\ target (table_pte p) = p.
Proof using Type.
  intros (Hp & Ha & Hp'). unfold PHYS_LIMIT in *. rewrite table_pte_lor. split_and!.
  - apply (lor_range 64); lia.
  - apply (lor_range 64); lia.
  - unfold present, PAGE_PRESENT. rewrite has_testbit, lor_flags_bit by lia. done.
  - unfold PAGE_HUGE. rewrite has_testbit, lor_flags_bit by lia. done.
  - unfold target. apply mask_lor_flags; lia.
Qed.

(** A free page can become a table. *)
Lemma fresh_page T s p :
  pt_inv T s -> p ∈ pa_free (pmm s) -> page_ok p /\ T !! p = None.
Proof using Type*.
  intros Hi Hp. split.
  - by apply (pa_managed_page (pmm s)), pa_free_managed; [apply Hi..|].
  - destruct (T !! p) eqn:E; [|done]. exfalso. by apply (pi_used _ _ Hi p n).
Qed.

Lemma grows_link T s a m p l tbl i :
  pt_inv T s -> T !! tbl = Some (S l) -> (1 <= l)%nat -> user_index (S l) i ->
  present (mem_read (mem s) (tbl + 8 * i)) = false ->
  pa_inv a -> pa_managed a = pa_managed (pmm s) ->
  p ∈ pa_free (pmm s) -> pa_free a = pa_free (pmm s) ∖ {[p]} ->
  linked (mem s) m tbl i p (table_pte p) ->
  grows 1 T s (<[p := l]> T) (set_pmm a (set_mem m s)).
Proof using Type*.
  intros Hi Htbl Hl Hui Hnp Ha Hm Hp Hf Hlink.
  destruct (fresh_page T s p Hi Hp) as [Hok Hfresh].
  destruct (table_pte_ok p Hok) as (He & Hpr & Hh & Ht).
  pose proof (pi_tree _ _ Hi) as Hwf. pose proof (pi_root _ _ Hi) as Hroot.
  constructor; simpl.
  - by exists a, m.
  - constructor; simpl; [apply Hi|done| | |].
    + rewrite lookup_insert_ne by congruence. done.
    + by apply (link_tree T (mem s) m tbl i p (table_pte p) l).
    + intros q k Hq. rewrite Hf. destruct (decide (q = p)) as [->|Hne]; [set_solver|].
      rewrite lookup_insert_ne in Hq by done. pose proof (pi_used _ _ Hi q k Hq). set_solver.
  - by apply insert_subseteq.
  - intros q Hq Hn. destruct (decide (q = p)) as [->|Hne]; [done|].
    rewrite lookup_insert_ne in Hq by done. rewrite Hn in Hq. by destruct Hq.
  - intros q Hq. rewrite Hf. destruct (decide (q = p)) as [->|]; [right|left; set_solver].
    by rewrite lookup_insert_eq.
  - intros v Hv. unfold pte. simpl.
    by apply (link_leaf T (mem s) m tbl i p (table_pte p) l Hwf).
  - intros q k j Hq Hk [Hj _] Hpr'.
    by apply (link_present T (mem s) m tbl i p (table_pte p) l) with (k := S k).
  - intros b Hb. destruct Hlink as (_ & _ & Ho). destruct Hui as [Hi' _].
    apply Ho.
    + intros ->. apply (Hb tbl (S l)); [rewrite lookup_insert_ne by congruence; done|lia].
    + intros j Hj ->. apply (Hb p l); [by rewrite lookup_insert_eq|lia].
  - done.
  - rewrite Hf. set_solver.
  - rewrite Hf. rewrite size_difference by set_solver. rewrite size_singleton. lia.
Qed.

(** Running out of memory changes nothing. *)
Lemma grows_oom T s a :
  pt_inv T s -> pa_inv a -> pa_managed a = pa_managed (pmm s) ->
  pa_free (pmm s) = ∅ -> pa_free a = ∅ -> grows 0 T s T (set_pmm a s).
Proof using Type*.
  intros Hi Ha Hm Hf Hf'. constructor; simpl; try done.
  - exists a, (mem s). by destruct s.
  - constructor; simpl; [apply Hi|done|apply Hi|apply Hi|]. intros p l _. rewrite Hf'. set_solver.
  - intros p [l Hl] Hn. congruence.
  - intros p. rewrite Hf. set_solver.
  - by rewrite Hf, Hf'.
  - rewrite Hf, Hf'. lia.
Qed.

Lemma run_ensure_table T s l tbl i v :
  pt_inv T s -> T !! tbl = Some (S l) -> (1 <= l)%nat -> user_index (S l) i -> 0 <= v < 2 ^ 63 ->
  (exists T' s', ensure_table (hhdm + tbl) i v s = (Ret true, s') /\ grows 1 T s T' s' /\
     present (mem_read (mem s') (tbl + 8 * i)) = true) \/
  (exists s', ensure_table (hhdm + tbl) i v s = (Ret false, s') /\ grows 0 T s T s' /\
     pa_free (pmm s) = ∅).
Proof using Type*.
  intros Hi Htbl Hl Hui Hv. pose proof Hui as [Hi' _].
  destruct (tw_page _ _ (pi_tree _ _ Hi) _ _ Htbl) as [Hok _].
  unfold ensure_table. mstep (run_load_entry _ _ _ Hok Hi').
  destruct (has _ PAGE_PRESENT) eqn:Hpr.
  { left. exists T, s. split_and!; [done| |done].
    destruct (grows_refl T s Hi). constructor; try done. lia. }
  unfold alloc_page. destruct (pmm_alloc_page (pmm s)) as [p a] eqn:Ha.
  erewrite run_bind; [|apply run_lift; rewrite Ha; reflexivity]. cbv beta.
  destruct (pa_alloc_page (pmm s) p a (pi_pmm _ _ Hi) Ha)
    as (Hia & Hm & [(-> & Hf & Hf') | (Hnz & Hp & Hf)]).
  { right. exists (set_pmm a s). split_and!; [done| |done]. by apply grows_oom. }
  destruct (fresh_page T s p Hi Hp) as [Hpok Hfresh].
  left. replace (p =? NULL) with false by (symmetry; by apply Z.eqb_neq).
  mstep. rewrite phys_to_virt_page by (done || apply Hi).
  destruct (run_memset_page p (set_pmm a s) Hpok) as (m & Hms & Hz & Ho).
  mstep Hms. mstep (run_store_entry _ _ _ _ Hok Hi').
  replace (v <? 0x8000000000000000) with true by lia.
  erewrite run_bind.
  2:{ mstep (run_load_entry _ _ _ Hok Hi'). by apply run_store_entry. }
  cbn [mem set_mem set_pmm]. rewrite mem_read_insert, run_ret.
  set (m' := <[tbl + 8 * i := table_pte p]>
    (<[tbl + 8 * i := Z.lor (Z.lor p PAGE_PRESENT) PAGE_WRITABLE]> m)).
  exists (<[p := l]> T), (set_pmm a (set_mem m' s)). split; [reflexivity|].
  split; [|cbn; unfold m'; rewrite mem_read_insert; by apply table_pte_ok].
  apply (grows_link T s a _ p l tbl i); try done.
  assert (tbl <> p) by congruence.
  destruct Hok as (? & ? & ?), Hpok as (? & ? & ?).
  unfold m'. split_and!.
  - apply mem_read_insert.
  - intros j Hj. rewrite !mem_read_insert_ne; [by apply Hz|..];
      intros Heq; apply slot_addr_inj in Heq as [? _]; done.
  - intros b Hb Hb'. rewrite !mem_read_insert_ne by done. by apply Ho.
Qed.

End vmm_run.
