(* ===== verification/VmmUpdate.v ===== *)
(** What vmm_map_page and vmm_unmap_page do to the pages of the user half:
    the relation [updates f], which says how each last-level entry changes and
    that everything else stays, and the run lemmas of the two functions and
    of the loops over ranges of pages. *)
From S2P Require Import Prelude PmmSpec PageAllocator Vmm VmmTables VmmRun.
Import Vmm.

Section vmm_update.
  Context {A : Type} `{PageAllocatorSpec A} `{!Mmu} (hhdm : Z) `{!HhdmWindow hhdm}.
  Implicit Types s : vmm_state A.
  Local Abbreviation pt_inv := (pt_inv hhdm).
  Local Abbreviation grows := (grows hhdm).

(** ** Updates of the user half *)

(** All but the allocator, memory and the TLB log is the same. *)
Definition same_config s s' : Prop :=
  exists a m t, s' = VmmState a m (cr3 s) t (pf_handler s) (vmm_config s) (hhdm_offset s)
      (kernel_phys_base s) (kernel_virt_base s) (current_pml4_phys s) (user_areas s)
      (kernel_areas s) (user_area_count s) (kernel_area_count s) (vmm_stats s).

(** From [s] to [s'] each last-level entry [e] of a user address [w] becomes
    [f w e]; the tree stays well formed, tables are added from at most [n]
    free pages, and memory outside the tables is unchanged. *)
Record updates (f : Z -> Z -> Z) (n : nat) (T : gmap Z nat) s (T' : gmap Z nat) s' : Prop := {
  up_config : same_config s s';
  up_inv : pt_inv T' s';
  up_types : T ⊆ T';
  up_new p : is_Some (T' !! p) -> T !! p = None -> p ∈ pa_free (pmm s);
  up_kept p : p ∈ pa_free (pmm s) -> p ∈ pa_free (pmm s') \/ is_Some (T' !! p);
  up_pte w : user_addr w -> pte s' w = f w (pte s w);
  up_data a : (forall p l, T' !! p = Some l -> ~ (p <= a < p + 4096)) ->
    mem_read (mem s') a = mem_read (mem s) a;
  up_managed : pa_managed (pmm s') = pa_managed (pmm s);
  up_free : pa_free (pmm s') ⊆ pa_free (pmm s);
  up_size : (base.size (pa_free (pmm s)) <= base.size (pa_free (pmm s')) + n)%nat;
}.

Lemma same_config_refl s : same_config s s.
Proof using Type. exists (pmm s), (mem s), (tlb s). by destruct s. Qed.

Lemma same_config_trans s1 s2 s3 : same_config s1 s2 -> same_config s2 s3 -> same_config s1 s3.
Proof using Type. intros (a & m & t & ->) (a' & m' & t' & ->). by exists a', m', t'. Qed.

Lemma updates_trans f g n1 n2 T1 s1 T2 s2 T3 s3 :
  updates f n1 T1 s1 T2 s2 -> updates g n2 T2 s2 T3 s3 ->
  updates (fun w e => g w (f w e)) (n1 + n2) T1 s1 T3 s3.
Proof using Type.
  intros U1 U2. constructor.
  - eapply same_config_trans; [apply U1|apply U2].
  - apply U2.
  - etrans; [apply U1|apply U2].
  - intros p HS HN. destruct (T2 !! p) as [l|] eqn:E.
    + apply (up_new _ _ _ _ _ _ U1); [by rewrite E|done].
    + apply (up_free _ _ _ _ _ _ U1), (up_new _ _ _ _ _ _ U2); done.
  - intros p [Hp|[l Hp]]%(up_kept _ _ _ _ _ _ U1); [by apply (up_kept _ _ _ _ _ _ U2)|].
    right. exists l. eapply lookup_weaken; [done|apply U2].
  - intros w Hw. rewrite (up_pte _ _ _ _ _ _ U2), (up_pte _ _ _ _ _ _ U1) by done. done.
  - intros a Ha. rewrite (up_data _ _ _ _ _ _ U2) by done. apply (up_data _ _ _ _ _ _ U1).
    intros p l Hp. apply (Ha p l). eapply lookup_weaken; [done|apply U2].
  - rewrite (up_managed _ _ _ _ _ _ U2). apply U1.
  - etrans; [apply U2|apply U1].
  - pose proof (up_size _ _ _ _ _ _ U1). pose proof (up_size _ _ _ _ _ _ U2). lia.
Qed.

(** The entry function matters only at user addresses and their entries. *)
Lemma updates_ext_at f g n T s T' s' :
  (forall w, user_addr w -> f w (pte s w) = g w (pte s w)) ->
  updates f n T s T' s' -> updates g n T s T' s'.
Proof using Type.
  intros Hfg [? ? ? ? ? Hp ? ? ? ?]. constructor; try done.
  intros w Hw. rewrite <- Hfg by done. by apply Hp.
Qed.

Lemma updates_ext f g n T s T' s' :
  (forall w e, user_addr w -> f w e = g w e) -> updates f n T s T' s' -> updates g n T s T' s'.
Proof using Type. intros Hfg. apply updates_ext_at. intros w Hw. by apply Hfg. Qed.

Lemma updates_weaken f n n' T s T' s' :
  (n <= n')%nat -> updates f n T s T' s' -> updates f n' T s T' s'.
Proof using Type. intros ? [? ? ? ? ? ? ? ? ? ?]. constructor; try done. lia. Qed.

Lemma updates_refl T s : pt_inv T s -> updates (fun _ e => e) 0 T s T s.
Proof using Type.
  intros Hi. constructor; try done; [apply same_config_refl| |by left|lia].
  intros p [l Hp] Hn. congruence.
Qed.

Lemma updates_grow n T s T' s' : grows n T s T' s' -> updates (fun _ e => e) n T s T' s'.
Proof using Type.
  intros [(a & m & Hs) ? ? ? ? ? ? ? ? ? ?]. constructor; try done.
  exists a, m, (tlb s). by rewrite Hs.
Qed.

Lemma updates_tlb f n T s T' s' v :
  updates f n T s T' s' -> updates f n T s T' (add_tlb v s').
Proof using Type.
  intros [(a & m & t & ->) [? ? ? ? ?] ? ? ? ? ? ? ? ?]. constructor; try done.
  by exists a, m, (v :: t).
Qed.

(** The entry function of setting the page of [v] to [x]. *)
Definition set_entry (v x w e : Z) : Z := if w / 4096 =? v / 4096 then x else e.

(** Storing the entry of [v]. *)
Lemma updates_store T s v a x :
  pt_inv T s -> user_addr v -> 0 <= x < 2 ^ 64 ->
  slot (mem s) 4 (current_pml4_phys s) v = Some a ->
  updates (set_entry v x) 0 T s T (set_mem (<[a := x]> (mem s)) s).
Proof using Type*.
  intros Hi Hv Hx Hs.
  destruct (slot_table T _ (pi_tree _ _ _ Hi) 4 _ v a (pi_root _ _ _ Hi) Hv Hs) as (pt & Hpt & ->).
  destruct (tree_store_leaf T (mem s) pt (index 1 v) x (pi_tree _ _ _ Hi) Hpt
              (index_range 1 v) Hx) as [Hwf Hag].
  pose proof (index_range 1 v) as Hr.
  constructor; simpl; try done.
  - by exists (pmm s), (<[pt + 8 * index 1 v := x]> (mem s)), (tlb s).
  - constructor; simpl; try apply Hi. done.
  - intros p [l Hp] Hn. congruence.
  - by left.
  - intros w Hw. unfold pte. simpl.
    by apply (leaf_store T (mem s)); [apply Hi|apply Hi|..].
  - intros b Hb. apply mem_read_insert_ne. intros <-. apply (Hb pt 1%nat Hpt). lia.
  - lia.
Qed.

(** ** One level of the walk of vmm_map_page *)

Lemma run_level T s l tbl i v :
  pt_inv T s -> T !! tbl = Some (S l) -> (1 <= l)%nat -> user_index (S l) i -> 0 <= v < 2 ^ 63 ->
  (exists T' s', ensure_table (hhdm + tbl) i v s = (Ret true, s') /\ grows 1 T s T' s' /\
     let e := mem_read (mem s') (tbl + 8 * i) in
     present e = true /\ T' !! target e = Some l /\
     next_table (hhdm + tbl) i s' = (Ret (hhdm + target e), s') /\
     (hhdm + target e =? NULL) = false) \/
  (exists s', ensure_table (hhdm + tbl) i v s = (Ret false, s') /\ grows 0 T s T s' /\
     pa_free (pmm s) = ∅).
Proof using Type*.
  intros Hi Htbl Hl Hui Hv.
  destruct (run_ensure_table hhdm T s l tbl i v Hi Htbl Hl Hui Hv)
    as [(T' & s' & Hrun & Hg & Hpr) | Hoom]; [left|by right].
  pose proof (gr_inv _ _ _ _ _ _ Hg) as Hi'.
  assert (Htbl' : T' !! tbl = Some (S l)) by (eapply lookup_weaken; [done|apply Hg]).
  destruct (tw_page _ _ (pi_tree _ _ _ Hi') _ _ Htbl') as [Hok _].
  destruct (tw_entry _ _ (pi_tree _ _ _ Hi') tbl l i Htbl' Hl Hui Hpr) as [_ Ht].
  destruct (tw_page _ _ (pi_tree _ _ _ Hi') _ _ Ht) as [Hok' _].
  exists T', s'. cbv zeta. split_and!; try done.
  - apply run_next_table; try done; [apply Hi'|apply Hui].
  - by apply page_virt_nonnull.
Qed.

(** Following three entries down to the last-level one. *)
Lemma slot_levels m root v e4 e3 e2 :
  mem_read m (root + 8 * index 4 v) = e4 -> present e4 = true ->
  mem_read m (target e4 + 8 * index 3 v) = e3 -> present e3 = true ->
  mem_read m (target e3 + 8 * index 2 v) = e2 -> present e2 = true ->
  slot m 4 root v = Some (target e2 + 8 * index 1 v).
Proof using Type.
  intros E4 P4 E3 P3 E2 P2.
  rewrite slot_S, E4, P4 by lia. rewrite slot_S, E3, P3 by lia.
  by rewrite slot_S, E2, P2 by lia.
Qed.

(** ** vmm_map_page *)

(** The page part of a user address. *)
Lemma user_mask v : user_addr v -> 0 <= Z.land v PAGE_ADDR_MASK < 2 ^ 63.
Proof using Type.
  unfold user_addr. intros Hv. rewrite mask_round by lia.
  pose proof (Z.mod_pos_bound v 4096). pose proof (Z.div_mod v 4096).
  assert (0 <= v / 4096) by (apply Z.div_pos; lia). lia.
Qed.

Lemma index_mask_user l v : (1 <= l)%nat -> user_addr v ->
  index l (Z.land v PAGE_ADDR_MASK) = index l v.
Proof using Type. unfold user_addr. intros. apply index_mask; [done|lia]. Qed.

(** The indices the code computes are those of the walk. *)
Lemma code_indices v :
  user_addr v ->
  let v' := Z.land v PAGE_ADDR_MASK in
  PML4_INDEX v' = index 4 v /\ PDPT_INDEX v' = index 3 v /\
  PD_INDEX v' = index 2 v /\ PT_INDEX v' = index 1 v.
Proof using Type.
  intros Hv. cbv zeta.
  rewrite <- !(index_mask_user _ v) by (done || lia). by split_and!.
Qed.

Lemma hw_flags_range nx f : 0 <= hw_flags nx f < 2 ^ 64.
Proof using Type.
  unfold hw_flags.
  repeat case_match; repeat (apply (lor_range 64); [lia| |unfold PAGE_PRESENT,
    PAGE_WRITABLE, PAGE_USER, PAGE_WRITETHROUGH, PAGE_CACHE_DISABLE, PAGE_GLOBAL, PAGE_HUGE,
    PAGE_NO_EXECUTE; lia]); unfold PAGE_PRESENT; lia.
Qed.

(** The entry vmm_map_page writes. *)
Definition leaf_pte (nx : bool) (phys flags : Z) : Z :=
  Z.lor (Z.land phys PAGE_ADDR_MASK) (hw_flags nx flags).

Lemma leaf_pte_range nx p f : 0 <= p < 2 ^ 64 -> 0 <= leaf_pte nx p f < 2 ^ 64.
Proof using Type.
  intros Hp. apply (lor_range 64); [lia| |apply hw_flags_range]. by apply land_range_l.
Qed.

Lemma run_map_page T s v p f :
  pt_inv T s -> user_addr v -> v <> 0 -> 0 < p < 2 ^ 64 ->
  exists T' s' b, vmm_map_page v p f s = (Ret b, s') /\
    (if (b : bool)
     then updates (set_entry v (leaf_pte (using_nx (vmm_config s)) p f)) 3 T s T' s' /\
          head (tlb s') = Some (Z.land v PAGE_ADDR_MASK)
     else updates (fun _ e => e) 2 T s T' s' /\ pa_free (pmm s') = ∅).
Proof using Type*.
  intros Hi Hv Hv0 Hp.
  pose proof (user_mask v Hv) as Hvm. pose proof (pi_root _ _ _ Hi) as Hroot.
  destruct (code_indices v Hv) as (I4 & I3 & I2 & I1).
  destruct (tw_page _ _ (pi_tree _ _ _ Hi) _ _ Hroot) as [Hok4 _].
  unfold vmm_map_page.
  replace (v =? 0) with false by lia. replace (p =? 0) with false by lia.
  cbv zeta. mstep.
  rewrite (phys_to_virt_page hhdm), (page_virt_nonnull hhdm) by (done || apply Hi).
  rewrite I4, I3, I2, I1.
  set (root := current_pml4_phys s) in *. set (v' := Z.land v PAGE_ADDR_MASK) in *.
  set (x := leaf_pte _ p f).
  assert (Hoom : forall n T1 s1 s2, (n <= 2)%nat -> grows n T s T1 s1 -> grows 0 T1 s1 T1 s2 ->
    pa_free (pmm s1) = ∅ -> updates (fun _ e => e) 2 T s T1 s2 /\ pa_free (pmm s2) = ∅).
  { intros n T1 s1 s2 Hn G1 G2 He. split.
    - apply (updates_weaken _ (n + 0)); [lia|]. apply updates_grow. by eapply grows_trans.
    - pose proof (gr_free _ _ _ _ _ _ G2). set_solver. }
  (* the PDPT *)
  destruct (run_level T s 3 root (index 4 v) v' Hi Hroot) as
    [(T1 & s1 & R1 & G1 & Pr1 & Tt1 & N1 & Z1) | (s1 & R1 & G1 & F1)];
    [lia|by apply (user_index_of 4)|done| |].
  2:{ exists T, s1, false. mstep R1. split; [done|].
      eapply (Hoom 0%nat); [lia|by apply grows_refl|done|done]. }
  mstep R1. cbn [negb]. mstep N1. rewrite Z1.
  pose proof (gr_inv _ _ _ _ _ _ G1) as Hi1.
  (* the PD *)
  destruct (run_level T1 s1 2 _ (index 3 v) v' Hi1 Tt1) as
    [(T2 & s2 & R2 & G2 & Pr2 & Tt2 & N2 & Z2) | (s2 & R2 & G2 & F2)];
    [lia|by apply (user_index_of 3)|done| |].
  2:{ exists T1, s2, false. mstep R2. split; [done|]. by eapply (Hoom 1%nat); [lia|..]. }
  mstep R2. cbn [negb]. mstep N2. rewrite Z2.
  pose proof (gr_inv _ _ _ _ _ _ G2) as Hi2.
  (* the PT *)
  destruct (run_level T2 s2 1 _ (index 2 v) v' Hi2 Tt2) as
    [(T3 & s3 & R3 & G3 & Pr3 & Tt3 & N3 & Z3) | (s3 & R3 & G3 & F3)];
    [lia|by apply (user_index_of 2)|done| |].
  2:{ exists T2, s3, false. mstep R3. split; [done|].
      eapply (Hoom 2%nat); [lia| |done|done]. by apply (grows_trans hhdm 1 1 T s T1 s1). }
  mstep R3. cbn [negb]. mstep N3. rewrite Z3.
  pose proof (gr_inv _ _ _ _ _ _ G3) as Hi3.
  (* the entry *)
  destruct (tw_page _ _ (pi_tree _ _ _ Hi3) _ _ Tt3) as [Hok1 _].
  mstep (run_store_entry _ _ _ _ _ Hok1 (index_range 1 v)). unfold invlpg. mstep. rewrite run_ret.
  exists T3. eexists. exists true. split; [reflexivity|]. split; [|done].
  pose proof (grows_trans hhdm _ _ _ _ _ _ _ _ G2 G3) as G23.
  pose proof (grows_trans hhdm _ _ _ _ _ _ _ _ G1 G23) as G123.
  apply updates_tlb.
  pose proof (updates_grow _ _ _ _ _ G123) as U.
  eapply (updates_ext (fun w e => set_entry v x w e)); [done|].
  change 3%nat with (1 + (1 + 1) + 0)%nat.
  eapply updates_trans; [exact U|].
  apply updates_store; [done|done|apply leaf_pte_range; lia|].
  destruct (gr_frame _ _ _ _ _ _ G123) as (am & mm & Hs3).
  replace (current_pml4_phys s3) with root by (by rewrite Hs3).
  assert (E4 : mem_read (mem s3) (root + 8 * index 4 v) = mem_read (mem s1) (root + 8 * index 4 v)).
  { apply (gr_entry _ _ _ _ _ _ G23 root 3); [|lia|by apply (user_index_of 4)|done].
    eapply lookup_weaken; [exact Hroot|apply G1]. }
  assert (E3 := gr_entry _ _ _ _ _ _ G3 _ 2 (index 3 v)
    (lookup_weaken _ _ _ _ Tt1 (gr_types _ _ _ _ _ _ G2)) ltac:(lia) (user_index_of 3 v Hv) Pr2).
  exact (slot_levels _ root v _ _ _ E4 Pr1 E3 Pr2 eq_refl Pr3).
Qed.

(** ** Reading the tables *)

Lemma user_below_hhdm s v : hhdm_offset s = hhdm -> user_addr v -> (hhdm_offset s <=? v) = false.
Proof using Type*.
  intros -> Hv. pose proof hhdm_canonical. unfold user_addr, PHYS_LIMIT in *. lia.
Qed.

Lemma present_has e : has e PAGE_PRESENT = present e.
Proof using Type. done. Qed.

(** An entry of a table of the user tree on the walk for [v]. *)
Lemma walk_entry T s l tbl v :
  pt_inv T s -> T !! tbl = Some (S l) -> user_addr v ->
  let e := mem_read (mem s) (tbl + 8 * index (S l) v) in
  page_ok tbl /\
  load64 (entry_ptr (hhdm + tbl) (index (S l) v)) s = (Ret e, s) /\
  table_entry tbl (index (S l) v) s = (Ret (Some e), s) /\
  ((1 <= l)%nat -> present e = true ->
     has e PAGE_HUGE = false /\ T !! target e = Some l /\ page_ok (target e) /\
     next_table (hhdm + tbl) (index (S l) v) s = (Ret (hhdm + target e), s) /\
     (hhdm + target e =? NULL) = false).
Proof using Type*.
  intros Hi Ht Hv. cbv zeta.
  destruct (tw_page _ _ (pi_tree _ _ _ Hi) _ _ Ht) as [Hok _].
  pose proof (index_range (S l) v) as Hr.
  split_and!; [done|by apply run_load_entry| |].
  { apply (run_table_entry hhdm); [apply Hi|done..]. }
  intros Hl Hpr.
  destruct (tw_entry _ _ (pi_tree _ _ _ Hi) tbl l _ Ht Hl (user_index_of (S l) v Hv) Hpr) as [Hh Ht'].
  destruct (tw_page _ _ (pi_tree _ _ _ Hi) _ _ Ht') as [Hok' _].
  split_and!; [done..| |by apply (page_virt_nonnull hhdm)].
  apply (run_next_table hhdm); [apply Hi|done..].
Qed.

(** [read_level l Hi Ht Hv] runs the reading of a table of level [S l] and
    its test of the present bit, for the table typed by [Ht]; a missing table
    ends the walk. *)
Local Ltac read_level l Hi Ht Hv :=
  let R := fresh "R" in let W := fresh "W" in let P := fresh "P" in
  let T' := fresh "Ht" in let Hh := fresh "Hh" in
  destruct (walk_entry _ _ l _ _ Hi Ht Hv) as (_ & _ & R & W);
  rewrite leaf_S by lia; mstep R; cbv beta iota; rewrite present_has;
  destruct (present _) eqn:P; [|done]; cbn [negb];
  destruct (W ltac:(lia) eq_refl) as (Hh & T' & _);
  try rewrite Hh; clear Hh R W P.

Lemma run_virt_to_phys T s v :
  pt_inv T s -> user_addr v ->
  virt_to_phys v s =
    (Ret (if present (pte s v) then u64 (target (pte s v) + v mod 4096) else 0), s).
Proof using Type*.
  intros Hi Hv. unfold virt_to_phys. mstep. rewrite user_below_hhdm by (done || apply Hi).
  change (PML4_INDEX v) with (index 4 v). change (PDPT_INDEX v) with (index 3 v).
  change (PD_INDEX v) with (index 2 v). change (PT_INDEX v) with (index 1 v).
  unfold pte. pose proof (pi_root _ _ _ Hi) as H4.
  read_level 3%nat Hi H4 Hv. read_level 2%nat Hi Ht Hv. read_level 1%nat Hi Ht0 Hv.
  destruct (walk_entry _ _ 0 _ v Hi Ht1 Hv) as (_ & _ & R1 & _).
  mstep R1. cbv beta iota. rewrite present_has. unfold leaf. cbn [slot].
  destruct (present _); [|done]. cbn [negb]. rewrite run_ret. do 3 f_equal.
  change 0xFFF with (Z.ones 12). by rewrite Z.land_ones by lia.
Qed.

Lemma run_is_mapped T s v :
  pt_inv T s -> user_addr v -> vmm_is_mapped v s = (Ret (present (pte s v)), s).
Proof using Type*.
  intros Hi Hv. unfold vmm_is_mapped. mstep. rewrite user_below_hhdm by (done || apply Hi).
  change (PML4_INDEX v) with (index 4 v). change (PDPT_INDEX v) with (index 3 v).
  change (PD_INDEX v) with (index 2 v). change (PT_INDEX v) with (index 1 v).
  unfold pte. pose proof (pi_root _ _ _ Hi) as H4.
  read_level 3%nat Hi H4 Hv. read_level 2%nat Hi Ht Hv. read_level 1%nat Hi Ht0 Hv.
  destruct (walk_entry _ _ 0 _ v Hi Ht1 Hv) as (_ & _ & R1 & _).
  by mstep R1.
Qed.

(** ** vmm_unmap_page *)

Lemma run_unmap_page T s v :
  pt_inv T s -> user_addr v -> v <> 0 ->
  exists s', vmm_unmap_page v s = (Ret (present (pte s v)), s') /\
    (if present (pte s v)
     then updates (set_entry v 0) 0 T s T s' /\ tlb s' = Z.land v PAGE_ADDR_MASK :: tlb s /\
          pmm s' = pmm s
     else s' = s).
Proof using Type*.
  intros Hi Hv Hv0. destruct (code_indices v Hv) as (I4 & I3 & I2 & I1).
  destruct (walk_entry T s 3 _ v Hi (pi_root _ _ _ Hi) Hv) as (Hok & R4 & _ & W4).
  unfold vmm_unmap_page. replace (v =? 0) with false by lia. cbv zeta. mstep.
  rewrite (phys_to_virt_page hhdm), (page_virt_nonnull hhdm) by (done || apply Hi).
  rewrite I4, I3, I2, I1.
  assert (Hnot : forall t, leaf (mem s) 4 (current_pml4_phys s) v = 0 -> t = (Ret false, s) ->
    exists s', t = (Ret (present (pte s v)), s') /\
    (if present (pte s v)
     then updates (set_entry v 0) 0 T s T s' /\ tlb s' = Z.land v PAGE_ADDR_MASK :: tlb s /\
          pmm s' = pmm s
     else s' = s)).
  { intros t Hl ->. exists s. unfold pte. rewrite Hl. done. }
  rewrite !leaf_S in Hnot by lia.
  mstep R4. rewrite present_has.
  destruct (present (mem_read _ (current_pml4_phys s + _))) eqn:P4; [|by apply Hnot].
  cbn [negb]. destruct (W4 ltac:(lia) eq_refl) as (_ & T4 & _ & N4 & Z4). mstep N4. rewrite Z4.
  destruct (walk_entry T s 2 _ v Hi T4 Hv) as (_ & R3 & _ & W3).
  mstep R3. rewrite present_has.
  destruct (present (mem_read _ (_ + 8 * index 3 v))) eqn:P3; [|by apply Hnot].
  cbn [negb]. destruct (W3 ltac:(lia) eq_refl) as (H3 & T3 & _ & N3 & Z3).
  rewrite H3. mstep N3. rewrite Z3.
  destruct (walk_entry T s 1 _ v Hi T3 Hv) as (_ & R2 & _ & W2).
  mstep R2. rewrite present_has.
  destruct (present (mem_read _ (_ + 8 * index 2 v))) eqn:P2; [|by apply Hnot].
  cbn [negb]. destruct (W2 ltac:(lia) eq_refl) as (H2 & T2 & _ & N2 & Z2).
  rewrite H2. mstep N2. rewrite Z2.
  destruct (walk_entry T s 0 _ v Hi T2 Hv) as (Hok1 & R1 & _).
  mstep R1. rewrite present_has.
  pose proof (slot_levels (mem s) _ v _ _ _ eq_refl P4 eq_refl P3 eq_refl P2) as Hslot.
  assert (Hpte : pte s v = mem_read (mem s)
    (target (mem_read (mem s) (target (mem_read (mem s) (target (mem_read (mem s)
       (current_pml4_phys s + 8 * index 4 v)) + 8 * index 3 v)) + 8 * index 2 v)) + 8 * index 1 v))
    by (unfold pte, leaf; by rewrite Hslot).
  rewrite <- Hpte. clear Hnot.
  destruct (present (pte s v)) eqn:Hp; [|by exists s]. cbn [negb].
  mstep (run_store_entry hhdm _ _ _ _ Hok1 (index_range 1 v)).
  eexists. split; [reflexivity|]. split_and!; [|done..].
  apply updates_tlb. by apply updates_store.
Qed.

(** ** Ranges of pages *)

(** The entry function of setting pages [i] to [j - 1], counted from the page
    of [v], page [k] to [g k]. *)
Definition set_range (v i j : Z) (g : Z -> Z) (w e : Z) : Z :=
  let k := w / 4096 - v / 4096 in
  if (i <=? k) && (k <? j) then g k else e.

(** The pages [i] to [j - 1] from [v] are user pages other than page 0's
    address 0. *)
Definition range_ok (v i j : Z) : Prop := 0 < v /\ 0 <= i /\ v + j * 4096 <= 2 ^ 47.

Lemma range_addr v i j k :
  range_ok v i j -> i <= k < j ->
  u64 (v + u64 (k * PAGE_SIZE_4K)) = v + k * 4096 /\ user_addr (v + k * 4096) /\ v + k * 4096 <> 0.
Proof using Type.
  unfold range_ok, user_addr, PAGE_SIZE_4K. intros (Hv & Hi & Hj) Hk.
  rewrite (wrap_small 64 (k * _)), wrap_small by lia. split_and!; lia.
Qed.

Lemma page_of v k : (v + k * 4096) / 4096 = v / 4096 + k.
Proof using Type. by rewrite Z.div_add by lia. Qed.

Lemma set_range_first v i j g w e :
  i < j -> set_range v (i + 1) j g w (set_entry (v + i * 4096) (g i) w e) = set_range v i j g w e.
Proof using Type.
  intros Hij. unfold set_range, set_entry. rewrite page_of.
  destruct (Z.eqb_spec (w / 4096) (v / 4096 + i)) as [E|E].
  - replace (w / 4096 - v / 4096) with i by lia.
    replace (i + 1 <=? i) with false by lia. replace (i <=? i) with true by lia.
    by replace (i <? j) with true by lia.
  - repeat case_match; lia || done.
Qed.

Lemma set_range_nil v i g w e : set_range v i i g w e = e.
Proof using Type. unfold set_range. case_match; [lia|done]. Qed.

Lemma testbit_0_even x : x mod 4096 = 0 -> Z.testbit x 0 = false.
Proof using Type.
  intros Hx. rewrite Z.bit0_odd, (Z.div_mod x 4096), Hx, Z.add_0_r, Z.odd_mul by lia. done.
Qed.

Lemma hw_flags_present nx f : present (hw_flags nx f) = true.
Proof using Type.
  unfold present, PAGE_PRESENT. rewrite has_testbit by done. unfold hw_flags.
  repeat case_match; rewrite ?Z.lor_spec; done.
Qed.

Lemma present_lor a b : present b = true -> present (Z.lor a b) = true.
Proof using Type.
  unfold present, PAGE_PRESENT. rewrite !has_testbit, Z.lor_spec by done. intros ->.
  apply orb_true_r.
Qed.

Lemma leaf_pte_present nx p f : present (leaf_pte nx p f) = true.
Proof using Type. apply present_lor, hw_flags_present. Qed.

Lemma up_nx f n T s T' s' : updates f n T s T' s' -> using_nx (vmm_config s') = using_nx (vmm_config s).
Proof using Type. intros [(a & m & t & ->) _ _ _ _ _ _ _ _ _]. done. Qed.

(** The mapping loop. *)
Lemma run_map_loop T s n i v p f :
  pt_inv T s -> range_ok v i (i + Z.of_nat n) -> 0 < p -> p + (i + Z.of_nat n) * 4096 <= 2 ^ 64 ->
  let g k := leaf_pte (using_nx (vmm_config s)) (p + k * 4096) f in
  exists T' s' r, map_loop n i v p PAGE_SIZE_4K f s = (Ret r, s') /\
    match r with
    | None => updates (set_range v i (i + Z.of_nat n) g) (3 * n) T s T' s'
    | Some j => i <= j < i + Z.of_nat n /\ pa_free (pmm s') = ∅ /\
        updates (set_range v i j g) (3 * n - 1) T s T' s'
    end.
Proof using Type*.
  intros Hi Hr Hp Hp64 g. revert T s i Hi Hr Hp64 g.
  induction n as [|n IH]; intros T s i Hi Hr Hp64 g.
  { exists T, s, None. split; [done|]. eapply updates_ext; [|by apply updates_refl].
    intros w e _. by rewrite Z.add_0_r, set_range_nil. }
  cbn [map_loop].
  destruct (range_addr v i (i + Z.of_nat (S n)) i Hr ltac:(lia)) as (Ha & Hu & Hnz).
  assert (Hpa : u64 (p + u64 (i * PAGE_SIZE_4K)) = p + i * 4096).
  { unfold range_ok in Hr. unfold PAGE_SIZE_4K.
    rewrite (wrap_small 64 (i * _)), wrap_small by lia. done. }
  rewrite Ha, Hpa.
  destruct (run_map_page T s (v + i * 4096) (p + i * 4096) f Hi Hu Hnz) as (T1 & s1 & b & R & Hb).
  { unfold range_ok in Hr. lia. }
  mstep R. destruct b.
  2:{ destruct Hb as [U He]. exists T1, s1, (Some i). split_and!; [done|lia|lia|done|].
      eapply updates_weaken; [|eapply updates_ext; [|exact U]]; [lia|].
      intros w e _. by rewrite set_range_nil. }
  destruct Hb as [U _].
  destruct (IH T1 s1 (i + 1)) as (T2 & s2 & r & R2 & Hr2).
  { apply U. }
  { unfold range_ok in *. lia. }
  { lia. }
  rewrite (up_nx _ _ _ _ _ _ U) in Hr2.
  exists T2, s2, r. split; [done|]. destruct r as [j|].
  - destruct Hr2 as (Hj & He & U2). split_and!; [lia|lia|done|].
    eapply updates_weaken; [|eapply updates_ext; [|eapply updates_trans; [exact U|exact U2]]]; [lia|].
    intros w e _. by apply (set_range_first v i j g); lia.
  - eapply updates_weaken; [|eapply updates_ext; [|eapply updates_trans; [exact U|exact Hr2]]]; [lia|].
    intros w e _. replace (i + Z.of_nat (S n)) with (i + 1 + Z.of_nat n) by lia.
    by apply (set_range_first v i _ g); lia.
Qed.

(** The entry function of unmapping pages [i] to [j - 1] from [v]. *)
Definition clear_range (v i j w e : Z) : Z := if present e then set_range v i j (fun _ => 0) w e else e.

(** The unmapping loop. *)
Lemma run_unmap_loop T s n v :
  pt_inv T s -> range_ok v 0 (Z.of_nat n) ->
  exists s', unmap_loop n v PAGE_SIZE_4K s = (Ret tt, s') /\ pmm s' = pmm s /\
    updates (clear_range v 0 (Z.of_nat n)) 0 T s T s'.
Proof using Type*.
  intros Hi Hr. unfold unmap_loop.
  destruct (run_for_inv (fun j s0 => pmm s0 = pmm s /\ updates (clear_range v 0 j) 0 T s T s0)
    n 0 (fun j => vmm_unmap_page (u64 (v + u64 (j * PAGE_SIZE_4K)));; mret tt) s)
    as (s' & R & Hpm & U).
  - split; [done|]. eapply updates_ext; [|by apply updates_refl].
    intros w e _. unfold clear_range. rewrite set_range_nil. by destruct (present e).
  - intros j s0 Hj [Hpm U].
    destruct (range_addr v 0 (Z.of_nat n) j Hr ltac:(lia)) as (-> & Hu & Hnz).
    destruct (run_unmap_page T s0 (v + j * 4096) ltac:(apply U) Hu Hnz) as (s1 & R & Hs1).
    exists s1. split; [by mstep R|].
    assert (Hw : forall w, user_addr w -> w / 4096 = v / 4096 + j -> pte s w = pte s0 (v + j * 4096)).
    { intros w Hw Hpg. transitivity (pte s0 w).
      - rewrite (up_pte _ _ _ _ _ _ U w Hw). unfold clear_range, set_range.
        replace (w / 4096 - v / 4096) with j by lia.
        replace (j <? j) with false by lia. rewrite andb_false_r. by destruct (present (pte s w)).
      - apply leaf_page. by rewrite page_of. }
    destruct (present (pte s0 (v + j * 4096))) eqn:Hpr.
    + destruct Hs1 as (U1 & _ & Hpm1). split; [by rewrite Hpm1|].
      change 0%nat with (0 + 0)%nat. eapply updates_ext_at; [|by eapply updates_trans].
      intros w Huw. pose proof (Hw w Huw) as Hwj. simpl. unfold clear_range, set_entry, set_range.
      rewrite page_of. destruct (Z.eqb_spec (w / 4096) (v / 4096 + j)) as [E|E].
      * rewrite Hwj, Hpr by done. by replace ((0 <=? w / 4096 - v / 4096) &&
          (w / 4096 - v / 4096 <? j + 1)) with true by lia.
      * case_match; [|done].
        by replace (w / 4096 - v / 4096 <? j + 1) with (w / 4096 - v / 4096 <? j) by lia.
    + subst s1. split; [done|]. eapply updates_ext_at; [|exact U].
      intros w Huw. pose proof (Hw w Huw) as Hwj. unfold clear_range, set_range.
      destruct (decide (w / 4096 = v / 4096 + j)) as [E|E].
      * by rewrite Hwj, Hpr by done.
      * case_match; [|done].
        by replace (w / 4096 - v / 4096 <? j + 1) with (w / 4096 - v / 4096 <? j) by lia.
  - exists s'. rewrite Z.add_0_l in U. done.
Qed.

End vmm_update.
