(* ===== verification/VmmSpec.v ===== *)
(** The correctness of the page mapping functions of memory/vmm.c: what
    mapping, unmapping and looking up pages of the user half do, stated
    against the page-table walk [pte] and, for sequences of calls, against an
    abstract map from page numbers to entries. *)
From S2P Require Import Prelude PmmSpec PageAllocator Vmm VmmTables VmmRun VmmUpdate.
Import Vmm.

Section vmm_spec.
  Context {A : Type} `{PageAllocatorSpec A} `{!Mmu} (hhdm : Z) `{!HhdmWindow hhdm}.
  Implicit Types s : vmm_state A.
  Local Abbreviation pt_inv := (pt_inv hhdm).

(** ** Mapping and unmapping one page *)

(** Memory outside the tables [T]. *)
Definition outside (T : gmap Z nat) (a : Z) : Prop :=
  forall p l, T !! p = Some l -> ~ (p <= a < p + 4096).

(** Table pages added to [T] to get [T'] were free pages of [s]. *)
Definition new_tables_free (T T' : gmap Z nat) s : Prop :=
  forall p, is_Some (T' !! p) -> T !! p = None -> p ∈ pa_free (pmm s).

(** C12: [vmm_map_page] on a user address.  It returns; on success the entry of
    every address of the page is the physical page with the hardware flags of
    [flags] and the page is invalidated in the TLB, on failure no entry
    changes; other pages keep their entries in both cases.  It fails only when
    fewer than three pages are free.  The tables stay well formed, new tables
    are taken from the free pages, and no memory outside the tables changes. *)
Theorem vmm_map_page_correct T s v p f :
  pt_inv T s -> user_addr v -> v <> 0 -> 0 < p < 2 ^ 64 ->
  exists T' s' b, vmm_map_page v p f s = (Ret b, s') /\ pt_inv T' s' /\
    (forall w, user_addr w ->
       pte s' w = if b && (w / 4096 =? v / 4096)
                  then Z.lor (Z.land p PAGE_ADDR_MASK) (hw_flags (using_nx (vmm_config s)) f)
                  else pte s w) /\
    (b = true -> head (tlb s') = Some (Z.land v PAGE_ADDR_MASK)) /\
    ((3 <= base.size (pa_free (pmm s)))%nat -> b = true) /\
    T ⊆ T' /\ new_tables_free T T' s /\ pa_free (pmm s') ⊆ pa_free (pmm s) /\
    (forall a, outside T' a -> mem_read (mem s') a = mem_read (mem s) a).
Proof using Type*.
  intros Hi Hv Hv0 Hp.
  destruct (run_map_page hhdm T s v p f Hi Hv Hv0 Hp) as (T' & s' & b & R & Hb).
  exists T', s', b. split; [done|]. destruct b.
  - destruct Hb as [[? ? ? Hn ? Hp' Hd ? ? ?] Ht]. by split_and!.
  - destruct Hb as [[? ? ? Hn ? Hp' Hd ? ? Hsz] He]. split_and!; try done.
    intros H3. rewrite He, size_empty in Hsz. lia.
Qed.

(** [vmm_unmap_page] on a user address returns whether the page was
    mapped; if it was, the entry of the page becomes 0, the page is
    invalidated in the TLB, and the other pages, the tables' memory of other
    pages and the allocator are unchanged; otherwise nothing changes. *)
Theorem vmm_unmap_page_correct T s v :
  pt_inv T s -> user_addr v -> v <> 0 ->
  exists s', vmm_unmap_page v s = (Ret (present (pte s v)), s') /\ pt_inv T s' /\
    (forall w, user_addr w ->
       pte s' w = if present (pte s v) && (w / 4096 =? v / 4096) then 0 else pte s w) /\
    tlb s' = (if present (pte s v) then [Z.land v PAGE_ADDR_MASK] else []) ++ tlb s /\
    pmm s' = pmm s /\
    (forall a, outside T a -> mem_read (mem s') a = mem_read (mem s) a).
Proof using Type*.
  intros Hi Hv Hv0.
  destruct (run_unmap_page hhdm T s v Hi Hv Hv0) as (s' & R & Hs').
  exists s'. split; [done|]. destruct (present (pte s v)).
  - destruct Hs' as ([? ? ? Hn ? Hp' Hd ? ? ?] & Ht & Hm). by split_and!.
  - subst s'. by split_and!.
Qed.

(** on the user half, [vmm_get_physical_address] and [vmm_is_mapped]
    compute the translation of the page-table walk: the page address of the
    entry plus the offset in the page, 0 and [false] when there is no present
    entry; they change nothing. *)
Theorem vmm_lookup_correct T s v :
  pt_inv T s -> user_addr v ->
  vmm_get_physical_address v s =
    (Ret (if present (pte s v) then u64 (target (pte s v) + v mod 4096) else 0), s) /\
  vmm_is_mapped v s = (Ret (present (pte s v)), s).
Proof using Type*.
  intros Hi Hv. split; [by apply (run_virt_to_phys hhdm T)|by apply (run_is_mapped hhdm T)].
Qed.

(** ** Mapping, then translating *)

(** The page address of a written entry; with NO_EXECUTE in force bit 63 stays
    in it. *)
Lemma target_leaf_pte nx p f :
  0 <= p < 2 ^ 64 ->
  target (leaf_pte nx p f) =
  if has f VMM_FLAG_NO_EXECUTE && nx then Z.lor (Z.land p PAGE_ADDR_MASK) PAGE_NO_EXECUTE
  else Z.land p PAGE_ADDR_MASK.
Proof using Type.
  intros Hp. unfold target, leaf_pte. rewrite Z.land_lor_distr_l, <- Z.land_assoc, Z.land_diag.
  assert (Hhw : Z.land (hw_flags nx f) PAGE_ADDR_MASK =
    if has f VMM_FLAG_NO_EXECUTE && nx then PAGE_NO_EXECUTE else 0).
  { unfold hw_flags.
    destruct (has f VMM_FLAG_NO_EXECUTE && nx), (has f VMM_FLAG_WRITABLE),
      (has f VMM_FLAG_USER), (has f VMM_FLAG_WRITETHROUGH), (has f VMM_FLAG_NOCACHE),
      (has f VMM_FLAG_GLOBAL), (has f VMM_FLAG_HUGE); reflexivity. }
  rewrite Hhw. destruct (has f _ && nx); [done|]. by rewrite Z.lor_0_r.
Qed.

Lemma lookup_after_map T s v p f s' :
  pt_inv T s -> user_addr v -> v <> 0 -> 0 < p < 2 ^ 64 ->
  vmm_map_page v p f s = (Ret true, s') ->
  exists T', pt_inv T' s' /\
    forall w, user_addr w -> pte s' w = set_entry v (leaf_pte (using_nx (vmm_config s)) p f) w (pte s w).
Proof using Type*.
  intros Hi Hv Hv0 Hp R.
  destruct (run_map_page hhdm T s v p f Hi Hv Hv0 Hp) as (T1 & s1 & b & R1 & Hb).
  rewrite R in R1. injection R1 as <- <-. destruct Hb as [U _].
  exists T1. split; apply U.
Qed.

(** after a successful [vmm_map_page] without NO_EXECUTE, every address of
    the page translates to the same offset in the physical page and is
    mapped, and every other user address translates as before. *)
Theorem vmm_map_then_translate T s v p f s' w :
  pt_inv T s -> user_addr v -> v <> 0 -> 0 < p < 2 ^ 64 ->
  has f VMM_FLAG_NO_EXECUTE && using_nx (vmm_config s) = false ->
  vmm_map_page v p f s = (Ret true, s') -> user_addr w ->
  if w / 4096 =? v / 4096
  then vmm_get_physical_address w s' = (Ret (p - p mod 4096 + w mod 4096), s') /\
       vmm_is_mapped w s' = (Ret true, s')
  else fst (vmm_get_physical_address w s') = fst (vmm_get_physical_address w s) /\
       fst (vmm_is_mapped w s') = fst (vmm_is_mapped w s).
Proof using Type*.
  intros Hi Hv Hv0 Hp Hnx R Hw.
  destruct (lookup_after_map T s v p f s' Hi Hv Hv0 Hp R) as (T' & Hi' & Hpte).
  unfold vmm_get_physical_address.
  rewrite (run_virt_to_phys hhdm T' s' w), (run_is_mapped hhdm T' s' w) by done.
  rewrite (Hpte w Hw). unfold set_entry. destruct (w / 4096 =? v / 4096).
  - rewrite leaf_pte_present, target_leaf_pte, Hnx, mask_round by lia. split; [|done].
    rewrite wrap_small; [done|].
    pose proof (Z.mod_pos_bound w 4096). pose proof (Z.div_mod p 4096).
    pose proof (Z.mod_pos_bound p 4096). lia.
  - by rewrite (run_virt_to_phys hhdm T s w), (run_is_mapped hhdm T s w) by done.
Qed.

(** a page mapped with NO_EXECUTE, on a processor with the NX feature,
    translates to an address with bit 63 set: [PAGE_ADDR_MASK] does not clear
    the NX bit of the entry. *)
Theorem vmm_no_execute_leaks_into_address T s v p f s' :
  pt_inv T s -> user_addr v -> v <> 0 -> 0 < p < 2 ^ 63 ->
  has f VMM_FLAG_NO_EXECUTE = true -> using_nx (vmm_config s) = true ->
  vmm_map_page v p f s = (Ret true, s') ->
  vmm_get_physical_address v s' = (Ret (2 ^ 63 + (p - p mod 4096) + v mod 4096), s').
Proof using Type*.
  intros Hi Hv Hv0 Hp Hf Hnx R.
  destruct (lookup_after_map T s v p f s' Hi Hv Hv0 ltac:(lia) R) as (T' & Hi' & Hpte).
  unfold vmm_get_physical_address. rewrite (run_virt_to_phys hhdm T' s' v) by done.
  rewrite (Hpte v Hv). unfold set_entry. rewrite Z.eqb_refl.
  rewrite leaf_pte_present, target_leaf_pte, Hf, Hnx, mask_round by lia. simpl.
  pose proof (Z.mod_pos_bound v 4096). pose proof (Z.div_mod p 4096).
  pose proof (Z.mod_pos_bound p 4096). set (q := p - p mod 4096) in *.
  assert (Z.lor q PAGE_NO_EXECUTE = q + 2 ^ 63) as ->.
  { unfold PAGE_NO_EXECUTE. rewrite Z.add_nocarry_lxor, Z.lxor_lor; [done|..];
      apply Z.bits_inj'; intros i Hi0; rewrite Z.land_spec, Z.bits_0, Z.pow2_bits_eqb by lia;
      destruct (Z.eqb_spec 63 i) as [<-|]; rewrite ?andb_false_r; try done;
      by rewrite (testbit_high q 63) by lia. }
  rewrite wrap_small by lia. do 2 f_equal. lia.
Qed.

(** ** Sequences of calls against an abstract map of pages *)

Inductive vm_op : Type :=
| MapPage (virt phys flags : Z)
| UnmapPage (virt : Z)
| GetPhysical (virt : Z)
| IsMapped (virt : Z).

Definition vm_op_ok (op : vm_op) : Prop :=
  match op with
  | MapPage v p _ => user_addr v /\ 0 < p < 2 ^ 64
  | UnmapPage v | GetPhysical v | IsMapped v => user_addr v
  end.

(** The calls, with a boolean result as 0 or 1. *)
Definition vm_exec (op : vm_op) : M (vmm_state A) Z :=
  match op with
  | MapPage v p f => b ← vmm_map_page v p f; mret (Z.b2z b)
  | UnmapPage v => b ← vmm_unmap_page v; mret (Z.b2z b)
  | GetPhysical v => vmm_get_physical_address v
  | IsMapped v => b ← vmm_is_mapped v; mret (Z.b2z b)
  end.

Fixpoint vm_run (ops : list vm_op) : M (vmm_state A) (list Z) :=
  match ops with
  | [] => mret []
  | op :: ops => r ← vm_exec op; rs ← vm_run ops; mret (r :: rs)
  end.

(** The abstract machine: present entries by page number, and the number of
    free pages.  [nx] says whether the NX feature is on. *)
Definition vm_abs : Type := gmap Z Z * nat.

Inductive vm_step (nx : bool) : vm_abs -> vm_op -> Z -> vm_abs -> Prop :=
| step_map st n n' v p f :
    v <> 0 -> (n <= n' + 3)%nat -> (n' <= n)%nat ->
    vm_step nx (st, n) (MapPage v p f) 1 (<[v / 4096 := leaf_pte nx p f]> st, n')
| step_map_null st n p f : vm_step nx (st, n) (MapPage 0 p f) 0 (st, n)
| step_map_oom st n v p f : (n < 3)%nat -> vm_step nx (st, n) (MapPage v p f) 0 (st, 0%nat)
| step_unmap st n v e :
    v <> 0 -> st !! (v / 4096) = Some e ->
    vm_step nx (st, n) (UnmapPage v) 1 (delete (v / 4096) st, n)
| step_unmap_none st n v :
    v = 0 \/ st !! (v / 4096) = None -> vm_step nx (st, n) (UnmapPage v) 0 (st, n)
| step_phys st n v e :
    st !! (v / 4096) = Some e ->
    vm_step nx (st, n) (GetPhysical v) (u64 (target e + v mod 4096)) (st, n)
| step_phys_none st n v :
    st !! (v / 4096) = None -> vm_step nx (st, n) (GetPhysical v) 0 (st, n)
| step_mapped st n v :
    vm_step nx (st, n) (IsMapped v) (Z.b2z (bool_decide (is_Some (st !! (v / 4096))))) (st, n).

Inductive vm_steps (nx : bool) : vm_abs -> list vm_op -> list Z -> vm_abs -> Prop :=
| steps_nil a : vm_steps nx a [] [] a
| steps_cons a op r a1 ops rs a2 :
    vm_step nx a op r a1 -> vm_steps nx a1 ops rs a2 -> vm_steps nx a (op :: ops) (r :: rs) a2.

(** The abstraction of a state. *)
Definition vm_repr s (a : vm_abs) : Prop :=
  snd a = base.size (pa_free (pmm s)) /\
  forall v, user_addr v -> fst a !! (v / 4096) = if present (pte s v) then Some (pte s v) else None.

Lemma repr_set f n T s T' s' st v x :
  updates hhdm f n T s T' s' -> user_addr v ->
  (forall w, user_addr w -> f w (pte s w) = set_entry v x w (pte s w)) ->
  vm_repr s st ->
  forall w, user_addr w ->
    (if present x then <[v / 4096 := x]> (fst st) else delete (v / 4096) (fst st)) !! (w / 4096) =
    if present (pte s' w) then Some (pte s' w) else None.
Proof using Type*.
  intros U Hv Hf [_ Hr] w Hw. rewrite (up_pte _ _ _ _ _ _ _ U w Hw), Hf by done.
  unfold set_entry. destruct (Z.eqb_spec (w / 4096) (v / 4096)) as [->|Hne].
  - by destruct (present x); simplify_map_eq.
  - rewrite <- (Hr w Hw). by destruct (present x); simplify_map_eq.
Qed.

Lemma vm_exec_refines T s op a :
  pt_inv T s -> vm_repr s a -> vm_op_ok op ->
  exists T' s' r a', vm_exec op s = (Ret r, s') /\ pt_inv T' s' /\ vm_repr s' a' /\
    vm_step (using_nx (vmm_config s)) a op r a' /\ vmm_config s' = vmm_config s.
Proof using Type*.
  intros Hi Hrep Hok. destruct a as [st n]. pose proof Hrep as [Hn Hst]. simpl in Hn, Hst.
  destruct op as [v p f|v|v|v]; simpl in Hok |- *.
  - destruct Hok as [Hv Hp]. destruct (decide (v = 0)) as [->|Hv0].
    { exists T, s, 0, (st, n). split_and!; try done. constructor. }
    destruct (run_map_page hhdm T s v p f Hi Hv Hv0 Hp) as (T' & s' & b & R & Hb).
    mstep R. exists T', s', (Z.b2z b). destruct b.
    + destruct Hb as [U _].
      exists (<[v / 4096 := leaf_pte (using_nx (vmm_config s)) p f]> st, base.size (pa_free (pmm s'))).
      split_and!; [done|apply U| | |by destruct (up_config _ _ _ _ _ _ _ U) as (? & ? & ? & ->)].
      * split; [done|]. intros w Hw.
        pose proof (repr_set _ _ _ _ _ _ (st, n) v _ U Hv (fun _ _ => eq_refl) Hrep w Hw) as Hl.
        by rewrite leaf_pte_present in Hl.
      * subst n. constructor; [done|apply U|]. apply subseteq_size. apply U.
    + destruct Hb as [U He]. exists (st, 0%nat).
      split_and!; [done|apply U| | |by destruct (up_config _ _ _ _ _ _ _ U) as (? & ? & ? & ->)].
      * split; [by rewrite He|]. intros w Hw. rewrite (up_pte _ _ _ _ _ _ _ U w Hw). by apply Hst.
      * apply step_map_oom. pose proof (up_size _ _ _ _ _ _ _ U) as Hsz.
        rewrite He, size_empty in Hsz. lia.
  - destruct (decide (v = 0)) as [->|Hv0].
    { exists T, s, 0, (st, n). split_and!; try done. constructor. by left. }
    destruct (run_unmap_page hhdm T s v Hi Hok Hv0) as (s' & R & Hs').
    mstep R. exists T, s', (Z.b2z (present (pte s v))). pose proof (Hst v Hok) as Hlk.
    destruct (present (pte s v)).
    + destruct Hs' as (U & _ & Hpm). exists (delete (v / 4096) st, n).
      split_and!; [done|apply U| | |by destruct (up_config _ _ _ _ _ _ _ U) as (? & ? & ? & ->)].
      * split; [by rewrite Hpm|]. intros w Hw.
        exact (repr_set _ _ _ _ _ _ (st, n) v 0 U Hok (fun _ _ => eq_refl) Hrep w Hw).
      * by econstructor.
    + subst s'. exists (st, n). split_and!; try done. constructor. by right.
  - exists T, s. eexists. exists (st, n). split_and!; [by apply (run_virt_to_phys hhdm T)|done..| |done].
    pose proof (Hst v Hok) as Hlk. destruct (present (pte s v)); by constructor.
  - mstep (run_is_mapped hhdm T s v Hi Hok). exists T, s. eexists. exists (st, n).
    split_and!; [reflexivity|done..| |done].
    replace (present (pte s v)) with (bool_decide (is_Some (st !! (v / 4096)))); [constructor|].
    rewrite (Hst v Hok). by destruct (present (pte s v)).
Qed.

(** C3: any sequence of map, unmap and lookup calls on user addresses
    returns, and its results and final state are those of the abstract
    machine, whose state is a finite map from page numbers to entries and the
    number of free pages. *)
Theorem vmm_refines_page_map ops T s a :
  pt_inv T s -> vm_repr s a -> Forall vm_op_ok ops ->
  exists T' s' rs a', vm_run ops s = (Ret rs, s') /\ pt_inv T' s' /\ vm_repr s' a' /\
    vm_steps (using_nx (vmm_config s)) a ops rs a'.
Proof using Type*.
  intros Hi Ha Hops. revert T s a Hi Ha.
  induction Hops as [|op ops Hop Hops IH]; intros T s a Hi Ha.
  { exists T, s, [], a. split_and!; try done. constructor. }
  destruct (vm_exec_refines T s op a Hi Ha Hop) as (T1 & s1 & r & a1 & R & Hi1 & Ha1 & Hs & Hc).
  destruct (IH T1 s1 a1 Hi1 Ha1) as (T2 & s2 & rs & a2 & R2 & Hi2 & Ha2 & Hs2).
  rewrite Hc in Hs2. exists T2, s2, (r :: rs), a2. cbn [vm_run].
  mstep R. mstep R2. split_and!; try done. by econstructor.
Qed.

(** ** Ranges of pages *)

(** Rolling back a mapped prefix leaves it unmapped. *)
Lemma rollback_entry nx v j p f w e :
  clear_range v 0 j w (set_range v 0 j (fun k => leaf_pte nx (p + k * 4096) f) w e) =
  set_range v 0 j (fun _ => 0) w e.
Proof using Type.
  unfold clear_range, set_range.
  destruct ((0 <=? w / 4096 - v / 4096) && (w / 4096 - v / 4096 <? j)) eqn:E.
  - by rewrite leaf_pte_present.
  - by destruct (present e).
Qed.

(** C33: [vmm_map_pages] with 4 KiB pages is all or nothing up to earlier
    mappings of the range: it returns; on success page [k] of the range maps to
    page [k] of the physical range and every other page is as before; on
    failure, which needs fewer than [3 * n] free pages, a prefix of the range
    is unmapped and every other page is as before.  Memory outside the tables
    does not change. *)
Theorem vmm_map_pages_all_or_nothing T s v p n f :
  pt_inv T s -> 0 <= n -> 0 < v -> v + n * 4096 <= 2 ^ 47 -> 0 < p -> p + n * 4096 <= 2 ^ 64 ->
  has f VMM_FLAG_HUGE = false ->
  let g k := leaf_pte (using_nx (vmm_config s)) (p + k * 4096) (Z.land f (u64 (Z.lnot VMM_FLAG_HUGE))) in
  exists T' s' b, vmm_map_pages v p n f s = (Ret b, s') /\ pt_inv T' s' /\
    (if (b : bool)
     then forall w, user_addr w -> pte s' w = set_range v 0 n g w (pte s w)
     else exists j, 0 <= j < n /\
          forall w, user_addr w -> pte s' w = set_range v 0 j (fun _ => 0) w (pte s w)) /\
    (3 * n <= Z.of_nat (base.size (pa_free (pmm s))) -> b = true) /\
    new_tables_free T T' s /\
    (forall a, outside T' a -> mem_read (mem s') a = mem_read (mem s) a).
Proof using Type*.
  intros Hi Hn Hv Hv' Hp Hp' Hf g. unfold vmm_map_pages. rewrite Hf. cbn [andb]. cbv zeta.
  destruct (run_map_loop hhdm T s (Z.to_nat n) 0 v p (Z.land f (u64 (Z.lnot VMM_FLAG_HUGE))) Hi)
    as (T' & s' & r & R & Hr); [unfold range_ok; lia|done|lia|].
  mstep R. rewrite Z.add_0_l, Z2Nat.id in Hr by done. destruct r as [j|].
  - destruct Hr as (Hj & He & U).
    destruct (run_unmap_loop hhdm T' s' (Z.to_nat j) v ltac:(apply U)) as (s2 & R2 & Hpm & U2);
      [unfold range_ok; lia|].
    mstep R2. exists T', s2, false. rewrite Z2Nat.id in U2 by lia. split_and!; [done|apply U2| | |exact (up_new _ _ _ _ _ _ _ U)|].
    + exists j. split; [lia|]. intros w Hw.
      rewrite (up_pte _ _ _ _ _ _ _ U2 w Hw), (up_pte _ _ _ _ _ _ _ U w Hw).
      apply rollback_entry.
    + pose proof (up_size _ _ _ _ _ _ _ U) as Hsz. rewrite He, size_empty in Hsz. lia.
    + intros a Ha. rewrite (up_data _ _ _ _ _ _ _ U2 a Ha). by apply (up_data _ _ _ _ _ _ _ U).
  - exists T', s', true.
    split_and!; [done|apply Hr|exact (up_pte _ _ _ _ _ _ _ Hr)|done|exact (up_new _ _ _ _ _ _ _ Hr)|apply Hr].
Qed.

(** [vmm_map_pages] of 512 pages with VMM_FLAG_HUGE on 2 MiB aligned
    addresses reports success after changing the entry of the first page only:
    the other 511 pages keep the entries they had, so an unmapped one stays
    unmapped. *)
Theorem vmm_map_pages_huge_maps_one_page T s v p f :
  pt_inv T s -> user_addr v -> v <> 0 -> 0 < p < 2 ^ 64 ->
  has f VMM_FLAG_HUGE = true -> Z.land v 0x1FFFFF = 0 -> Z.land p 0x1FFFFF = 0 ->
  exists T' s' b, vmm_map_pages v p 512 f s = (Ret b, s') /\ pt_inv T' s' /\
    ((3 <= base.size (pa_free (pmm s)))%nat -> b = true) /\
    (b = true -> forall w, user_addr w -> w / 4096 <> v / 4096 ->
       pte s' w = pte s w /\ vmm_is_mapped w s' = (Ret (present (pte s w)), s')).
Proof using Type*.
  intros Hi Hv Hv0 Hp Hf Hva Hpa.
  destruct (run_map_page hhdm T s v p f Hi Hv Hv0 Hp) as (T' & s' & b & R & Hb).
  unfold vmm_map_pages. rewrite Hf, Hva, Hpa. cbn -[map_loop unmap_loop].
  change (Z.to_nat (512 / 512)) with 1%nat. cbn [map_loop].
  change (u64 (0 * PAGE_SIZE_2M)) with 0. rewrite !Z.add_0_r.
  unfold user_addr in Hv. rewrite (wrap_small 64 v), (wrap_small 64 p) by lia.
  assert (Hl : (ok ← vmm_map_page v p f; if (ok : bool) then mret None else mret (Some 0)) s =
               (Ret (if b then None else Some 0), s')) by (mstep R; by destruct b).
  mstep Hl. destruct b.
  - destruct Hb as [U _]. exists T', s', true. split_and!; [done|apply U|done|].
    intros _ w Hw Hne.
    rewrite (run_is_mapped hhdm T' s' w ltac:(apply U) Hw), (up_pte _ _ _ _ _ _ _ U w Hw).
    unfold set_entry. by rewrite (proj2 (Z.eqb_neq _ _) Hne).
  - destruct Hb as [U He]. exists T', s', false. split_and!; [done|apply U| |done].
    pose proof (up_size _ _ _ _ _ _ _ U) as Hsz. rewrite He, size_empty in Hsz. lia.
Qed.

(** ** Address spaces *)

(** Without a free page there is no address space. *)
Lemma run_create_address_space_no_page s :
  fst (pmm_alloc_page (pmm s)) = NULL -> exists s', vmm_create_address_space s = (Ret 0, s').
Proof using Type.
  intros Hp. unfold vmm_create_address_space, create_page_table, alloc_page, mlift, mbind, m_bind.
  destruct (pmm_alloc_page (pmm s)) as [p a]. cbn [fst] in Hp. subst p. by eexists.
Qed.

Lemma run_create_address_space_faults T s :
  pt_inv T s -> fst (pmm_alloc_page (pmm s)) <> NULL ->
  mmu_translate (mem s) (cr3 s) (fst (pmm_alloc_page (pmm s))) = None ->
  exists s', vmm_create_address_space s = (Fault, s').
Proof using Type*.
  intros Hi Hnz Hmmu. unfold vmm_create_address_space, create_page_table, alloc_page.
  destruct (pmm_alloc_page (pmm s)) as [p a] eqn:Ha. simpl in Hnz, Hmmu.
  destruct (pa_alloc_page (pmm s) p a (pi_pmm _ _ _ Hi) Ha)
    as (Hia & Hm & [(-> & _) | (_ & Hp & Hf)]); [done|].
  destruct (fresh_page hhdm T s p Hi Hp) as [(Hlo & _ & Hhi) _]. unfold PHYS_LIMIT in Hhi.
  assert (Hi' : pt_inv T (set_pmm a s)).
  { destruct Hi as [? ? ? ? Hu]. constructor; simpl; try done.
    intros q l Hq. rewrite Hf. pose proof (Hu q l Hq). set_solver. }
  assert (Hfault : memset_page p (set_pmm a s) = (Fault, set_pmm a s)).
  { unfold memset_page. cbn [mfor]. unfold mbind at 1, m_bind, store64.
    rewrite Z.add_0_r, wrap_small by lia. simpl. by rewrite Hmmu. }
  exists (set_pmm a s).
  assert (Hcreate : (page ← mlift (fun s => let '(p, a) := pmm_alloc_page (pmm s) in (p, set_pmm a s));
    if page =? NULL then mret 0
    else phys_addr ← virt_to_phys page; memset_page page;; mret phys_addr) s = (Fault, set_pmm a s)).
  { erewrite run_bind; [|apply run_lift; rewrite Ha; reflexivity]. cbv beta.
    rewrite (proj2 (Z.eqb_neq _ _) Hnz).
    mstep (run_virt_to_phys hhdm T (set_pmm a s) p Hi' ltac:(unfold user_addr; lia)).
    unfold mbind, m_bind. by rewrite Hfault. }
  unfold mbind at 1, m_bind at 1. by rewrite Hcreate.
Qed.

(** when the processor does not translate the physical address of the
    page the allocator returns (no identity mapping of it in the current
    address space), [vmm_create_address_space] faults: [create_page_table]
    zeroes the page through its physical address instead of the direct map. *)
Theorem vmm_create_address_space_faults T s :
  pt_inv T s -> fst (pmm_alloc_page (pmm s)) <> NULL ->
  mmu_translate (mem s) (cr3 s) (fst (pmm_alloc_page (pmm s))) = None ->
  exists s', vmm_create_address_space s = (Fault, s').
Proof using Type*. exact (run_create_address_space_faults T s). Qed.

End vmm_spec.
