(* ===== verification/VmmAlloc.v ===== *)
(** The allocation of virtual memory, vmm_allocate in memory/vmm.c: the loop
    that allocates, maps and zeroes the pages of an area, and the clean-up
    that gives them back when memory runs out. *)
From S2P Require Import Prelude PmmSpec PageAllocator Vmm VmmTables VmmRun VmmUpdate VmmSpec.
Import Vmm.

Section vmm_alloc.
  Context {A : Type} `{PageAllocatorSpec A} `{!Mmu} (hhdm : Z) `{!HhdmWindow hhdm}.
  Implicit Types s : vmm_state A.
  Local Abbreviation pt_inv := (pt_inv hhdm).

(** ** Memory outside the tables, and the allocator *)

(** Changing memory outside the tables keeps the tree and its entries. *)
Lemma pt_inv_outside T s m' :
  pt_inv T s -> (forall a, 0 <= mem_read m' a < 2 ^ 64) ->
  (forall q l i, T !! q = Some l -> 0 <= i < 512 -> mem_read m' (q + 8 * i) = mem_read (mem s) (q + 8 * i)) ->
  pt_inv T (set_mem m' s) /\ forall w, user_addr w -> pte (set_mem m' s) w = pte s w.
Proof using Type*.
  intros Hi Hw Hsame. pose proof (pi_tree _ _ _ Hi) as Hwf. split.
  - constructor; try apply Hi. constructor; [apply Hwf|done| |]; simpl.
    + intros p l i Hp Hl Hu. rewrite (Hsame p (S l)) by (done || apply Hu). by apply (tw_entry _ _ Hwf).
    + intros p p' l i i' Hp Hp' Hl Hu Hu'.
      rewrite (Hsame p (S l)), (Hsame p' (S l)) by (done || apply Hu || apply Hu').
      by apply (tw_inj _ _ Hwf p p' l).
  - intros w Huw. unfold pte, leaf. cbn [mem set_mem current_pml4_phys].
    rewrite (slot_agree T (mem s) Hwf); [|apply Hi|done|].
    2:{ intros p l i Hp _ [Hu _]. by apply (Hsame p (S l)). }
    destruct (slot _ 4 _ w) as [a|] eqn:Hs; [|done].
    destruct (slot_table T _ Hwf 4 _ w a (pi_root _ _ _ Hi) Huw Hs) as (pt & Hpt & ->).
    apply (Hsame pt 1%nat); [done|apply index_range].
Qed.

(** Changing the allocator so that no table is free keeps the tree. *)
Lemma pt_inv_pmm T s a :
  pt_inv T s -> pa_inv a -> (forall p l, T !! p = Some l -> p ∉ pa_free a) -> pt_inv T (set_pmm a s).
Proof using Type*. intros [? ? ? ? ?] Ha Hf. by constructor. Qed.

(** ** The allocation loop *)

(** After allocating the pages [ps] for the area at [b] with flags [F]. *)
Record alloc_inv (b F : Z) (ps : list Z) (T : gmap Z nat) s (T' : gmap Z nat) s' : Prop := {
  ai_config : same_config s s';
  ai_inv : pt_inv T' s';
  ai_types : T ⊆ T';
  ai_new p : is_Some (T' !! p) -> T !! p = None -> p ∈ pa_free (pmm s);
  ai_nodup : NoDup ps;
  ai_page p : p ∈ ps -> p ∈ pa_free (pmm s) /\ (p ∉ pa_free (pmm s')) /\ T' !! p = None /\
                        zero_page (mem s') p;
  ai_free : pa_free (pmm s') ⊆ pa_free (pmm s);
  ai_kept p : p ∈ pa_free (pmm s) -> p ∈ pa_free (pmm s') \/ p ∈ ps \/ is_Some (T' !! p);
  ai_managed : pa_managed (pmm s') = pa_managed (pmm s);
  ai_pte w : user_addr w ->
    pte s' w = set_range b 0 (Z.of_nat (length ps))
      (fun k => leaf_pte (using_nx (vmm_config s)) (array_get 0 ps k) F) w (pte s w);
}.

Lemma alloc_inv_start b F T s : pt_inv T s -> alloc_inv b F [] T s T s.
Proof using Type*.
  intros Hi. constructor; try done.
  - apply same_config_refl.
  - intros p [l Hp] Hn. congruence.
  - constructor.
  - intros p Hp. by apply elem_of_nil in Hp.
  - by left.
  - intros w _. by rewrite set_range_nil.
Qed.

(** A page address is not inside another page. *)
Lemma page_disjoint p q i : page_ok p -> page_ok q -> p <> q -> 0 <= i < 512 ->
  ~ (q <= p + 8 * i < q + 4096).
Proof using Type.
  intros (_ & Hp & _) (_ & Hq & _) Hne Hi Hin.
  pose proof (Z.div_mod p 4096). pose proof (Z.div_mod q 4096). lia.
Qed.

(** A page that is not a table is outside the tables. *)
Lemma nontable_outside T s p i :
  pt_inv T s -> page_ok p -> T !! p = None -> 0 <= i < 512 -> outside T (p + 8 * i).
Proof using Type*.
  intros Hi Hp Hn Hr q l Hq. apply page_disjoint; [done| |congruence|done].
  by apply (tw_page _ _ (pi_tree _ _ _ Hi) q l).
Qed.

Lemma free_page_ok T s p : pt_inv T s -> p ∈ pa_free (pmm s) -> page_ok p.
Proof using Type*. intros Hi Hp. by apply (fresh_page hhdm T s). Qed.

Lemma array_get_snoc_l {B} (d : B) l x k :
  0 <= k < Z.of_nat (length l) -> array_get d (l ++ [x]) k = array_get d l k.
Proof using Type. intros. unfold array_get. by rewrite lookup_app_l by lia. Qed.

Lemma array_get_snoc_r {B} (d : B) l x : array_get d (l ++ [x]) (Z.of_nat (length l)) = x.
Proof using Type. unfold array_get. by rewrite lookup_app_r, Nat2Z.id, Nat.sub_diag by lia. Qed.

(** The entries after one more page. *)
Lemma set_range_snoc nx F b ps p w e :
  set_entry (b + Z.of_nat (length ps) * 4096) (leaf_pte nx p F) w
    (set_range b 0 (Z.of_nat (length ps)) (fun k => leaf_pte nx (array_get 0 ps k) F) w e) =
  set_range b 0 (Z.of_nat (length (ps ++ [p])))
    (fun k => leaf_pte nx (array_get 0 (ps ++ [p]) k) F) w e.
Proof using Type.
  unfold set_entry, set_range. rewrite page_of, length_app. cbn [length].
  destruct (Z.eqb_spec (w / 4096) (b / 4096 + Z.of_nat (length ps))) as [E|E].
  - replace (w / 4096 - b / 4096) with (Z.of_nat (length ps)) by lia.
    rewrite array_get_snoc_r. by range_cases.
  - destruct (decide (0 <= w / 4096 - b / 4096 < Z.of_nat (length ps))) as [Hk|Hk].
    + rewrite array_get_snoc_l by done. by range_cases.
    + by range_cases.
Qed.

(** One turn of the loop that succeeds: page [p] is allocated from [s1]
    leaving allocator state [a], mapped by [updates] and zeroed. *)
Lemma alloc_inv_step b F ps T s T1 s1 p a T2 s2 m :
  pt_inv T s -> alloc_inv b F ps T s T1 s1 ->
  p ∈ pa_free (pmm s1) -> pa_free a = pa_free (pmm s1) ∖ {[p]} -> pa_managed a = pa_managed (pmm s1) ->
  updates hhdm (set_entry (b + Z.of_nat (length ps) * 4096)
                  (leaf_pte (using_nx (vmm_config s)) p F)) 3 T1 (set_pmm a s1) T2 s2 ->
  zero_page m p ->
  (forall x, (forall i, 0 <= i < 512 -> x <> p + 8 * i) -> mem_read m x = mem_read (mem s2) x) ->
  alloc_inv b F (ps ++ [p]) T s T2 (set_mem m s2).
Proof using Type*.
  intros Hi AI Hp Ha Hma U Hz Ho.
  pose proof (free_page_ok T1 s1 p (ai_inv _ _ _ _ _ _ _ AI) Hp) as Hpok.
  assert (Hp2 : T2 !! p = None).
  { destruct (T2 !! p) eqn:E; [|done]. exfalso.
    destruct (T1 !! p) eqn:E1; [by apply (pi_used _ _ _ (ai_inv _ _ _ _ _ _ _ AI) p n0)|].
    pose proof (up_new _ _ _ _ _ _ _ U p ltac:(by rewrite E) E1) as Hin. simpl in Hin. set_solver. }
  pose proof (up_inv _ _ _ _ _ _ _ U) as Hi2.
  pose proof (up_free _ _ _ _ _ _ _ U) as Hf2. simpl in Hf2.
  assert (Hne : forall q i, page_ok q -> q <> p -> 0 <= i < 512 ->
    mem_read m (q + 8 * i) = mem_read (mem s2) (q + 8 * i)).
  { intros q i (_ & Hq & _) Hqp Hir. apply Ho. intros j Hj Heq. destruct Hpok as (_ & ? & _).
    by apply slot_addr_inj in Heq as [? _]. }
  destruct (pt_inv_outside T2 s2 m Hi2) as [Hinv Hpte].
  { intros x. destruct (page_word_dec x p) as [(i & Hir & ->)|Hx]; [by rewrite Hz|].
    rewrite Ho by done. apply (tw_word _ _ (pi_tree _ _ _ Hi2)). }
  { intros q l i Hq Hir. apply Hne; [by apply (tw_page _ _ (pi_tree _ _ _ Hi2) q l)|congruence|done]. }
  constructor; simpl.
  - eapply same_config_trans; [apply AI|].
    destruct (up_config _ _ _ _ _ _ _ U) as (a' & m' & t & ->). by exists a', m, t.
  - done.
  - etrans; [apply AI|apply U].
  - intros q Hq Hn. destruct (T1 !! q) as [l|] eqn:E.
    + apply (ai_new _ _ _ _ _ _ _ AI); [by rewrite E|done].
    + pose proof (up_new _ _ _ _ _ _ _ U q Hq E) as Hin. simpl in Hin.
      apply (ai_free _ _ _ _ _ _ _ AI). set_solver.
  - apply NoDup_app. split_and!; [apply AI| |apply NoDup_singleton].
    intros q Hq Hqp. apply list_elem_of_singleton in Hqp as ->. by apply (ai_page _ _ _ _ _ _ _ AI p Hq).
  - intros q [Hq|Hq]%elem_of_app; [|apply list_elem_of_singleton in Hq as ->].
    + destruct (ai_page _ _ _ _ _ _ _ AI q Hq) as (Hqf & Hqn & HqT & Hqz).
      pose proof (free_page_ok T s q Hi Hqf) as Hqok.
      assert (Hqp : q <> p) by (intros ->; done).
      assert (HqT2 : T2 !! q = None).
      { destruct (T2 !! q) eqn:E; [|done]. exfalso.
        pose proof (up_new _ _ _ _ _ _ _ U q ltac:(by rewrite E) HqT) as Hin. simpl in Hin. set_solver. }
      split_and!; [done|set_solver|done|].
      intros i Hir. rewrite Hne by done. rewrite (up_data _ _ _ _ _ _ _ U); [by apply Hqz|].
      by apply (nontable_outside T2 s2).
    + split_and!; [by apply (ai_free _ _ _ _ _ _ _ AI)|set_solver|done|done].
  - etrans; [exact Hf2|]. pose proof (ai_free _ _ _ _ _ _ _ AI). set_solver.
  - intros q [Hq|[Hq|[l Hq]]]%(ai_kept _ _ _ _ _ _ _ AI).
    + destruct (decide (q = p)) as [->|Hqp]; [right; left; set_solver|].
      destruct (up_kept _ _ _ _ _ _ _ U q) as [?|?]; [simpl; set_solver|by left|by right; right].
    + right; left. set_solver.
    + right; right. exists l. eapply lookup_weaken; [done|apply U].
  - rewrite (up_managed _ _ _ _ _ _ _ U). simpl. rewrite Hma. apply AI.
  - intros w Hw. rewrite Hpte, (up_pte _ _ _ _ _ _ _ U w Hw) by done.
    change (pte (set_pmm a s1) w) with (pte s1 w).
    rewrite (ai_pte _ _ _ _ _ _ _ AI w Hw). apply set_range_snoc.
Qed.

(** ** Giving pages back *)

Lemma take_snoc_get (ps : list Z) j :
  0 <= j < Z.of_nat (length ps) ->
  take (Z.to_nat (j + 1)) ps = take (Z.to_nat j) ps ++ [array_get 0 ps j].
Proof using Type.
  intros Hj. replace (Z.to_nat (j + 1)) with (S (Z.to_nat j)) by lia.
  destruct (lookup_lt_is_Some_2 ps (Z.to_nat j)) as [x Hx]; [lia|].
  unfold array_get. rewrite Hx. by apply take_S_r.
Qed.

Lemma array_get_in (ps : list Z) j : 0 <= j < Z.of_nat (length ps) -> array_get 0 ps j ∈ ps.
Proof using Type.
  intros Hj. destruct (lookup_lt_is_Some_2 ps (Z.to_nat j)) as [x Hx]; [lia|].
  unfold array_get. rewrite Hx. by eapply list_elem_of_lookup_2.
Qed.

(** The state after the first [j] pages were given back. *)
Record given_back (b : Z) (ps : list Z) (T' : gmap Z nat) s' (j : Z) s0 : Prop := {
  gb_config : same_config s' s0;
  gb_inv : pt_inv T' s0;
  gb_managed : pa_managed (pmm s0) = pa_managed (pmm s');
  gb_free : pa_free (pmm s0) = pa_free (pmm s') ∪ list_to_set (take (Z.to_nat j) ps);
  gb_pte w : user_addr w -> pte s0 w = set_range b 0 j (fun _ => 0) w (pte s' w);
}.

(** One turn of the clean-up loop. *)
Lemma give_back_step b F ps T s T' s' j s0 :
  pt_inv T s -> alloc_inv b F ps T s T' s' ->
  has F VMM_FLAG_NO_EXECUTE && using_nx (vmm_config s) = false ->
  b mod 4096 = 0 -> range_ok b 0 (Z.of_nat (length ps)) -> 0 <= j < Z.of_nat (length ps) ->
  given_back b ps T' s' j s0 ->
  exists s1, (page_phys ← vmm_get_physical_address (b + j * 4096);
              vmm_unmap_page (b + j * 4096);; free_page page_phys) s0 = (Ret tt, s1) /\
    given_back b ps T' s' (j + 1) s1.
Proof using Type*.
  intros Hi AI Hnx Hb Hr Hj [Hc Hi0 Hm Hf Hp].
  destruct (range_addr b 0 _ j Hr Hj) as (_ & Hu & Hnz).
  set (p := array_get 0 ps j). pose proof (array_get_in ps j Hj) as Hin. fold p in Hin.
  destruct (ai_page _ _ _ _ _ _ _ AI p Hin) as (Hpf & _ & HpT & _).
  pose proof (free_page_ok T s p Hi Hpf) as Hpok. pose proof Hpok as (Hp1 & Hp2 & Hp3).
  unfold PHYS_LIMIT in Hp3.
  assert (Hpm : p ∈ pa_managed (pmm s0)).
  { rewrite Hm, (ai_managed _ _ _ _ _ _ _ AI). apply pa_free_managed; [apply Hi|done]. }
  assert (Hpte : pte s0 (b + j * 4096) = leaf_pte (using_nx (vmm_config s)) p F).
  { rewrite Hp, (ai_pte _ _ _ _ _ _ _ AI) by done. unfold set_range. rewrite page_of.
    replace (b / 4096 + j - b / 4096) with j by lia. by range_cases. }
  unfold vmm_get_physical_address. mstep (run_virt_to_phys hhdm T' s0 _ Hi0 Hu).
  rewrite Hpte, leaf_pte_present, target_leaf_pte, Hnx, mask_aligned by lia.
  rewrite Z.mod_add, Hb, Z.add_0_r, wrap_small by lia.
  destruct (run_unmap_page hhdm T' s0 _ Hi0 Hu Hnz) as (s1 & R & Hs1).
  rewrite Hpte, leaf_pte_present in R, Hs1. destruct Hs1 as (U & _ & Hpmm).
  mstep R. unfold free_page. rewrite run_modify.
  destruct (pa_free_page (pmm s1) p ltac:(apply U) ltac:(lia)) as (Hia & Hma & Hfa).
  rewrite Hpmm in Hfa, Hma.
  eexists. split; [reflexivity|]. constructor; simpl.
  - eapply same_config_trans; [exact Hc|].
    destruct (up_config _ _ _ _ _ _ _ U) as (a & m & t & ->). by eexists _, m, t.
  - apply pt_inv_pmm; [apply U|done|]. rewrite Hpmm, Hfa. intros q l Hq.
    pose proof (pi_used _ _ _ Hi0 q l Hq). assert (q <> p) by congruence. set_solver.
  - by rewrite Hpmm, Hma.
  - rewrite Hpmm, Hfa, Hf, take_snoc_get, list_to_set_app_L by done. fold p. set_solver.
  - intros w Hw. change (pte (set_pmm _ s1) w) with (pte s1 w).
    rewrite (up_pte _ _ _ _ _ _ _ U w Hw), Hp by done.
    unfold set_entry, set_range. rewrite page_of. by range_cases.
Qed.

Lemma run_give_back b F ps T s T' s' :
  pt_inv T s -> alloc_inv b F ps T s T' s' ->
  has F VMM_FLAG_NO_EXECUTE && using_nx (vmm_config s) = false ->
  b mod 4096 = 0 -> range_ok b 0 (Z.of_nat (length ps)) ->
  exists s2, give_back (length ps) b s' = (Ret tt, s2) /\
    given_back b ps T' s' (Z.of_nat (length ps)) s2.
Proof using Type*.
  intros Hi AI Hnx Hb Hr. unfold give_back.
  apply (run_for_inv (given_back b ps T' s') (length ps) 0).
  - constructor; [apply same_config_refl|apply AI|done|simpl; set_solver|].
    intros w _. by rewrite set_range_nil.
  - intros j s0 Hj G. destruct (range_addr b 0 _ j Hr ltac:(lia)) as (-> & _).
    by apply (give_back_step b F ps T s T' s' j s0); try lia.
Qed.

(** ** The loop *)

(** After a failure and its clean-up: every page that was free is free again
    or is a page table, and at most a prefix of the area was unmapped. *)
Record alloc_failed (b : Z) (n : Z) (T : gmap Z nat) s (T' : gmap Z nat) s' : Prop := {
  af_config : same_config s s';
  af_inv : pt_inv T' s';
  af_kept p : p ∈ pa_free (pmm s) -> p ∈ pa_free (pmm s') \/ is_Some (T' !! p);
  af_pte : exists j, 0 <= j < n /\
    forall w, user_addr w -> pte s' w = set_range b 0 j (fun _ => 0) w (pte s w);
}.

Lemma alloc_inv_failed b F ps T s T' s' n :
  pt_inv T s -> alloc_inv b F ps T s T' s' ->
  has F VMM_FLAG_NO_EXECUTE && using_nx (vmm_config s) = false ->
  b mod 4096 = 0 -> range_ok b 0 (Z.of_nat (length ps)) -> Z.of_nat (length ps) < n ->
  exists s2, give_back (length ps) b s' = (Ret tt, s2) /\ alloc_failed b n T s T' s2.
Proof using Type*.
  intros Hi AI Hnx Hb Hr Hn.
  destruct (run_give_back b F ps T s T' s' Hi AI Hnx Hb Hr) as (s2 & R & [Hc Hi2 Hm Hf Hp]).
  exists s2. split; [done|]. constructor; [|done| |].
  - by eapply same_config_trans; [apply AI|].
  - intros p Hpf. rewrite Hf, Nat2Z.id, firstn_all.
    destruct (ai_kept _ _ _ _ _ _ _ AI p Hpf) as [?|[?|?]]; [left; set_solver..|by right].
  - exists (Z.of_nat (length ps)). split; [lia|]. intros w Hw.
    rewrite Hp, (ai_pte _ _ _ _ _ _ _ AI) by done. unfold set_range. by range_cases.
Qed.

(** A failed allocation of a page keeps the loop invariant. *)
Lemma alloc_inv_oom b F ps T s T1 s1 a :
  alloc_inv b F ps T s T1 s1 -> pa_inv a -> pa_managed a = pa_managed (pmm s1) ->
  pa_free a = pa_free (pmm s1) -> alloc_inv b F ps T s T1 (set_pmm a s1).
Proof using Type*.
  intros [Hc Hi Ht Hn Hnd Hpg Hf Hk Hm Hp] Ha Hma Hfa. constructor; simpl; try rewrite Hfa; try done.
  - destruct Hc as (a' & m & t & ->). by exists a, m, t.
  - apply pt_inv_pmm; [done..|]. rewrite Hfa. apply Hi.
  - by rewrite Hma.
Qed.

(** So does a page that was allocated, could not be mapped and was freed. *)
Lemma alloc_inv_unmapped b F ps T s T1 s1 p a n T2 s2 :
  pt_inv T s -> alloc_inv b F ps T s T1 s1 ->
  p ∈ pa_free (pmm s1) -> pa_free a = pa_free (pmm s1) ∖ {[p]} -> pa_managed a = pa_managed (pmm s1) ->
  updates hhdm (fun _ e => e) n T1 (set_pmm a s1) T2 s2 ->
  alloc_inv b F ps T s T2 (set_pmm (pmm_free_page p (pmm s2)) s2).
Proof using Type*.
  intros Hi AI Hp Ha Hma U.
  pose proof (ai_inv _ _ _ _ _ _ _ AI) as Hi1. pose proof (up_inv _ _ _ _ _ _ _ U) as Hi2.
  destruct (free_page_ok T1 s1 p Hi1 Hp) as (Hp0 & _).
  destruct (pa_free_page (pmm s2) p (pi_pmm _ _ _ Hi2) ltac:(lia)) as (Hia & Hm & Hf).
  assert (Hpm : p ∈ pa_managed (pmm s2)).
  { rewrite (up_managed _ _ _ _ _ _ _ U). simpl. rewrite Hma.
    apply pa_free_managed; [apply Hi1|done]. }
  assert (Hnew : forall q, T1 !! q = None -> is_Some (T2 !! q) -> q ∈ pa_free (pmm s1) /\ q <> p).
  { intros q Hq Hq2. pose proof (up_new _ _ _ _ _ _ _ U q Hq2 Hq) as Hin. simpl in Hin. set_solver. }
  pose proof (up_free _ _ _ _ _ _ _ U) as Hf2. simpl in Hf2.
  assert (HpT1 : T1 !! p = None) by (by apply (fresh_page hhdm T1 s1)).
  constructor; simpl.
  - eapply same_config_trans; [apply AI|].
    destruct (up_config _ _ _ _ _ _ _ U) as (a' & m & t & ->). by eexists _, m, t.
  - apply pt_inv_pmm; [done..|]. intros q l Hq. rewrite Hf. pose proof (pi_used _ _ _ Hi2 q l Hq).
    assert (q <> p); [|set_solver]. intros ->. by destruct (Hnew p HpT1 ltac:(by rewrite Hq)).
  - etrans; [apply AI|apply U].
  - intros q Hq Hn. destruct (T1 !! q) as [l|] eqn:E.
    + apply (ai_new _ _ _ _ _ _ _ AI); [by rewrite E|done].
    + apply (ai_free _ _ _ _ _ _ _ AI). by apply Hnew.
  - apply AI.
  - intros q Hq. destruct (ai_page _ _ _ _ _ _ _ AI q Hq) as (Hqf & Hqn & HqT & Hqz).
    assert (HqT2 : T2 !! q = None).
    { destruct (T2 !! q) eqn:E; [|done]. exfalso. by apply Hqn, Hnew; [|rewrite E]. }
    split_and!; [done| |done|].
    + rewrite Hf. assert (q <> p) by congruence. set_solver.
    + intros i Hir. rewrite (up_data _ _ _ _ _ _ _ U); [by apply Hqz|].
      apply (nontable_outside T2 s2); [done|by apply (free_page_ok T s)|done..].
  - rewrite Hf. pose proof (ai_free _ _ _ _ _ _ _ AI). set_solver.
  - intros q [Hq|[Hq|[l Hq]]]%(ai_kept _ _ _ _ _ _ _ AI).
    + rewrite Hf. destruct (decide (q = p)) as [->|Hqp]; [left; set_solver|].
      destruct (up_kept _ _ _ _ _ _ _ U q) as [?|?]; [simpl; set_solver|left; set_solver|by right; right].
    + by right; left.
    + right; right. exists l. eapply lookup_weaken; [done|apply U].
  - rewrite Hm, (up_managed _ _ _ _ _ _ _ U). simpl. rewrite Hma. apply AI.
  - intros w Hw. change (pte (set_pmm _ s2) w) with (pte s2 w).
    rewrite (up_pte _ _ _ _ _ _ _ U w Hw). by apply (ai_pte _ _ _ _ _ _ _ AI).
Qed.

Lemma alloc_inv_config b F ps T s T' s' :
  alloc_inv b F ps T s T' s' -> using_nx (vmm_config s') = using_nx (vmm_config s).
Proof using Type. intros [(a & m & t & ->) _ _ _ _ _ _ _ _ _]. done. Qed.

(** The loop from page [length ps] on. *)
Lemma run_allocate_loop n b F1 F2 T s :
  pt_inv T s -> has (Z.lor F2 F1) VMM_FLAG_NO_EXECUTE && using_nx (vmm_config s) = false ->
  b mod 4096 = 0 ->
  forall ps T1 s1, alloc_inv b (Z.lor F2 F1) ps T s T1 s1 ->
  range_ok b 0 (Z.of_nat (length ps + n)) ->
  exists T2 s2 r, allocate_loop n (Z.of_nat (length ps)) b F1 F2 s1 = (Ret r, s2) /\
    if (r : bool)
    then exists ps', length ps' = (length ps + n)%nat /\ alloc_inv b (Z.lor F2 F1) ps' T s T2 s2
    else alloc_failed b (Z.of_nat (length ps + n)) T s T2 s2.
Proof using Type*.
  intros Hi Hnx Hb. set (F := Z.lor F2 F1) in *. induction n as [|n IH]; intros ps T1 s1 AI Hr.
  { exists T1, s1, true. split; [done|]. exists ps. split; [lia|done]. }
  assert (Hfail : forall T' s', alloc_inv b F ps T s T' s' -> exists s2,
    give_back (length ps) b s' = (Ret tt, s2) /\ alloc_failed b (Z.of_nat (length ps + S n)) T s T' s2).
  { intros T' s' AI'. apply (alloc_inv_failed b F ps T s T' s'); try done; [|lia].
    unfold range_ok in *. lia. }
  cbn [allocate_loop]. unfold alloc_page.
  destruct (pmm_alloc_page (pmm s1)) as [p a] eqn:Ha.
  erewrite run_bind; [|apply run_lift; rewrite Ha; reflexivity]. cbv beta.
  pose proof (ai_inv _ _ _ _ _ _ _ AI) as Hi1.
  destruct (pa_alloc_page (pmm s1) p a (pi_pmm _ _ _ Hi1) Ha)
    as (Hia & Hm & [(-> & Hf & Hf') | (Hnz & Hp & Hf)]).
  { destruct (Hfail T1 (set_pmm a s1)) as (s2 & R & Hs2).
    { apply alloc_inv_oom; [done..|]. by rewrite Hf. }
    exists T1, s2, false. rewrite Nat2Z.id. cbn -[give_back]. mstep R. by split. }
  rewrite (proj2 (Z.eqb_neq _ _) Hnz).
  destruct (range_addr b 0 _ (Z.of_nat (length ps)) Hr ltac:(lia)) as (-> & Hu & Hnz').
  destruct (free_page_ok T1 s1 p Hi1 Hp) as (Hp1 & Hp2 & Hp3) eqn:Hpok. unfold PHYS_LIMIT in Hp3.
  assert (Hi1' : pt_inv T1 (set_pmm a s1)).
  { apply pt_inv_pmm; [done..|]. intros q l Hq. pose proof (pi_used _ _ _ Hi1 q l Hq). set_solver. }
  destruct (run_map_page hhdm T1 (set_pmm a s1) _ p F Hi1' Hu Hnz' ltac:(lia))
    as (T2 & s2 & ok & R & Hok).
  mstep R. destruct ok; cbn [negb].
  - destruct Hok as [U _]. mstep.
    rewrite (phys_to_virt_page hhdm) by (done || apply U).
    destruct (run_memset_page hhdm p s2 ltac:(done)) as (m & Rm & Hz & Ho). mstep Rm.
    change (using_nx (vmm_config (set_pmm a s1))) with (using_nx (vmm_config s1)) in U.
    rewrite (alloc_inv_config _ _ _ _ _ _ _ AI) in U.
    pose proof (alloc_inv_step b F ps T s T1 s1 p a T2 s2 m Hi AI Hp Hf Hm U Hz Ho) as AI2.
    destruct (IH (ps ++ [p]) T2 (set_mem m s2) AI2) as (T3 & s3 & r & R3 & Hr3).
    { rewrite length_app. cbn [length]. by replace (length ps + 1 + n)%nat with (length ps + S n)%nat by lia. }
    rewrite length_app in R3, Hr3. cbn [length] in R3, Hr3.
    replace (Z.of_nat (length ps + 1)) with (Z.of_nat (length ps) + 1) in R3 by lia.
    replace (length ps + 1 + n)%nat with (length ps + S n)%nat in Hr3 by lia.
    exists T3, s3, r. by split.
  - destruct Hok as [U _].
    destruct (Hfail T2 (set_pmm (pmm_free_page p (pmm s2)) s2)) as (s3 & R3 & Hs3).
    { by eapply alloc_inv_unmapped. }
    exists T2, s3, false. unfold free_page. mstep. rewrite Nat2Z.id. mstep R3. by split.
Qed.

(** ** vmm_allocate *)

(** A registered area of the user half. *)
Definition area_ok (r : vmm_memory_region_t) : Prop :=
  0 < base r /\ base r mod 4096 = 0 /\ 0 <= size r /\ base r + size r <= 2 ^ 47 /\
  has (flags r) VMM_FLAG_NO_EXECUTE = false.

Lemma find_free_area_Some l n i sz j :
  find_free_area l n i sz = Some j ->
  i <= j < i + Z.of_nat n /\ is_used (array_get empty_region l j) = false /\
  sz <= size (array_get empty_region l j).
Proof using Type.
  revert i. induction n as [|n IH]; intros i; [done|]. cbn [find_free_area].
  destruct (negb _ && _) eqn:E.
  - intros [= <-]. apply andb_true_iff in E as [E1%negb_true_iff E2%Z.leb_le].
    split_and!; [lia|lia|done|done].
  - intros Hj%IH. split_and!; [lia|lia|apply Hj..].
Qed.

Lemma has_lor a b n : 0 <= n -> has (Z.lor a b) (2 ^ n) = has a (2 ^ n) || has b (2 ^ n).
Proof using Type. intros Hn. by rewrite !has_testbit, Z.lor_spec. Qed.

(** [round_up_page] rounds up to whole pages. *)
Lemma round_up_page_spec sz :
  0 <= sz -> sz + 4095 < 2 ^ 64 -> round_up_page sz = (sz + 4095) / 4096 * 4096.
Proof using Type.
  intros Hlo Hm. unfold round_up_page. change (PAGE_SIZE_4K - 1) with (2 ^ 12 - 1).
  replace (sz + PAGE_SIZE_4K - 1) with (sz + 4095) by (unfold PAGE_SIZE_4K; lia).
  rewrite (wrap_small 64 (sz + 4095)), land_mask_align by lia. change (2 ^ 12) with 4096.
  pose proof (Z.div_mod (sz + 4095) 4096). lia.
Qed.

(** The area arrays play no part in the tables. *)
Lemma pt_inv_areas T s u l : pt_inv T s -> pt_inv T (set_areas u l s).
Proof using Type. intros [? ? ? ? ?]. by constructor. Qed.

Lemma array_set_back {B} (d : B) l i x :
  0 <= i < Z.of_nat (length l) -> array_set (array_set l i x) i (array_get d l i) = l.
Proof using Type.
  intros Hi. unfold array_set, array_get. rewrite list_insert_insert_eq. apply list_insert_id.
  destruct (lookup_lt_is_Some_2 l (Z.to_nat i)) as [y Hy]; [lia|]. by rewrite Hy.
Qed.

Lemma set_used_id r u : is_used r = u -> set_used u r = r.
Proof using Type. intros <-. by destruct r. Qed.

(** What [vmm_allocate] leaves for an area [r] at index [i]: the area's first
    [n] pages mapped to distinct, formerly free, zeroed pages that are not
    tables; or nothing but page tables and an unmapped prefix. *)
Definition allocated (r : vmm_memory_region_t) (i n f : Z) (T : gmap Z nat) s (T' : gmap Z nat) s' : Prop :=
  exists ps, Z.of_nat (length ps) = n /\ NoDup ps /\
    (forall p, p ∈ ps -> p ∈ pa_free (pmm s) /\ ~ p ∈ pa_free (pmm s') /\ T' !! p = None /\
                         zero_page (mem s') p) /\
    (forall w, user_addr w ->
       pte s' w = set_range (base r) 0 n
         (fun k => leaf_pte (using_nx (vmm_config s)) (array_get 0 ps k) (Z.lor f (flags r))) w (pte s w)) /\
    user_areas s' = array_set (user_areas s) i (set_used true r).

Definition not_allocated (r : vmm_memory_region_t) (n : Z) s (T' : gmap Z nat) s' : Prop :=
  (forall p, p ∈ pa_free (pmm s) -> p ∈ pa_free (pmm s') \/ is_Some (T' !! p)) /\
  (exists j, 0 <= j < n /\
    forall w, user_addr w -> pte s' w = set_range (base r) 0 j (fun _ => 0) w (pte s w)) /\
  user_areas s' = user_areas s.

Lemma vmm_allocate_aux T s sz f :
  pt_inv T s -> 0 < sz -> sz + 4095 < 2 ^ 64 ->
  has f VMM_FLAG_USER = true -> has f VMM_FLAG_NO_EXECUTE && using_nx (vmm_config s) = false ->
  Forall area_ok (take (Z.to_nat (user_area_count s)) (user_areas s)) -> user_area_count s <= Z.of_nat (length (user_areas s)) ->
  let n := (sz + 4095) / 4096 in
  match find_free_area (user_areas s) (Z.to_nat (user_area_count s)) 0 (n * 4096) with
  | None => vmm_allocate sz f s = (Ret NULL, s)
  | Some i =>
      let r := array_get empty_region (user_areas s) i in
      exists T' s' a, vmm_allocate sz f s = (Ret a, s') /\ pt_inv T' s' /\
        (a = base r /\ allocated r i n f T s T' s' \/ a = NULL /\ not_allocated r n s T' s')
  end.
Proof using Type*.
  intros Hi Hsz Hmax Hf Hnx Hareas Hcount n. unfold vmm_allocate.
  replace (sz =? 0) with false by lia. rewrite round_up_page_spec, Hf by lia. fold n.
  assert (Hn : 0 < n) by (apply Z.div_str_pos; lia).
  change PAGE_SIZE_4K with 4096. rewrite Z.div_mul by lia. mstep.
  change (areas_of true s) with (user_areas s). change (area_count_of true s) with (user_area_count s).
  destruct (find_free_area _ _ 0 _) as [i|] eqn:Hfind; [|done].
  apply find_free_area_Some in Hfind as (Hir & Hfree & Hsize).
  set (r := array_get empty_region (user_areas s) i) in *. cbv zeta.
  assert (Hil : 0 <= i < Z.of_nat (length (user_areas s))) by lia.
  destruct (lookup_lt_is_Some_2 (user_areas s) (Z.to_nat i)) as [r' Hr']; [lia|].
  assert (Hok : area_ok r).
  { replace r with r' by (unfold r, array_get; by rewrite Hr').
    apply (Forall_lookup_1 _ _ (Z.to_nat i) r' Hareas). rewrite lookup_take_lt by lia. done. }
  destruct Hok as (Hb & Hba & Hs0 & Hs47 & Hrf).
  unfold mark_area at 1. mstep.
  set (s0 := set_areas true _ s).
  assert (Hi0 : pt_inv T s0) by by apply pt_inv_areas.
  destruct (run_allocate_loop (Z.to_nat n) (base r) (flags r) f T s0 Hi0) with (ps := @nil Z) (T1 := T) (s1 := s0)
    as (T' & s' & ok & R & Hok); [|done|by apply alloc_inv_start| |].
  { change (using_nx (vmm_config s0)) with (using_nx (vmm_config s)).
    unfold VMM_FLAG_NO_EXECUTE in *. rewrite has_lor, Hrf, orb_false_r by done. done. }
  { unfold range_ok. cbn [length]. lia. }
  cbn [length] in R, Hok. change (Z.of_nat 0) with 0 in R. mstep R.
  change (pmm s0) with (pmm s) in *. rewrite Nat.add_0_l, ?Z2Nat.id in Hok by lia.
  destruct ok; cbn [negb].
  - destruct Hok as (ps & Hlen & AI). mstep. rewrite run_ret.
    exists T'. eexists. exists (base r). split; [reflexivity|]. split.
    { destruct (ai_inv _ _ _ _ _ _ _ AI). by constructor. }
    left. split; [done|]. exists ps. split_and!; [lia|apply AI| | |].
    + apply (ai_page _ _ _ _ _ _ _ AI).
    + intros w Hw. replace n with (Z.of_nat (length ps)) by lia.
      exact (ai_pte _ _ _ _ _ _ _ AI w Hw).
    + simpl. destruct (ai_config _ _ _ _ _ _ _ AI) as (a & m & t & ->). done.
  - destruct Hok as [Hc Hi' Hk Hp]. unfold mark_area. mstep. rewrite run_ret.
    exists T'. eexists. exists NULL. split; [reflexivity|]. split; [by apply pt_inv_areas|].
    right. split; [done|]. split_and!; [exact Hk|exact Hp|].
    destruct Hc as (a & m & t & ->). simpl. unfold areas_of.
    rewrite array_get_set_eq by done.
    transitivity (array_set (array_set (user_areas s) i (set_used true r)) i r);
      [|by apply array_set_back].
    f_equal. exact (set_used_id r false Hfree).
Qed.


(** a size within a page of 2^64 wraps to 0 pages: [vmm_allocate] then
    takes the first free area and returns its base although it has mapped
    nothing. *)
Theorem vmm_allocate_size_wraps s sz f i :
  2 ^ 64 - 4095 <= sz < 2 ^ 64 -> has f VMM_FLAG_USER = true ->
  find_free_area (user_areas s) (Z.to_nat (user_area_count s)) 0 0 = Some i ->
  exists s', vmm_allocate sz f s = (Ret (base (array_get empty_region (user_areas s) i)), s') /\
    mem s' = mem s /\ pmm s' = pmm s /\
    user_areas s' = array_set (user_areas s) i
                      (set_used true (array_get empty_region (user_areas s) i)).
Proof using Type.
  intros Hsz Hf Hfind. unfold vmm_allocate. replace (sz =? 0) with false by lia.
  assert (Hr : round_up_page sz = 0).
  { unfold round_up_page. change (PAGE_SIZE_4K - 1) with (2 ^ 12 - 1).
    replace (u64 (sz + PAGE_SIZE_4K - 1)) with (sz + 4095 - 2 ^ 64).
    2:{ unfold wrap, PAGE_SIZE_4K.
        rewrite <- (Z_mod_plus_full (sz + 0x1000 - 1) (-1)), Z.mod_small; lia. }
    rewrite land_mask_align by lia. change (2 ^ 12) with 4096. rewrite Z.mod_small; lia. }
  rewrite Hr, Hf. mstep.
  change (areas_of true s) with (user_areas s). change (area_count_of true s) with (user_area_count s).
  rewrite Hfind. unfold mark_area at 1. mstep. change (Z.to_nat (0 / PAGE_SIZE_4K)) with 0%nat.
  cbn [allocate_loop]. mstep. cbn [negb]. mstep. rewrite run_ret.
  eexists. split; [reflexivity|]. done.
Qed.

End vmm_alloc.
