(* ===== verification/VmmExamples.v ===== *)
(** A concrete machine for the virtual memory manager, and instances of the
    properties of VmmSpec.v and VmmAlloc.v on it. *)
From S2P Require Import Prelude Pmm PmmSpec PmmInit PageAllocator Vmm VmmTables VmmRun VmmUpdate.
From S2P Require Import VmmSpec VmmAlloc.
Import Vmm.

(** ** A concrete machine

    The allocator state of [example_map], the direct map at its usual place,
    an empty PML4 at physical address 0x5000. *)
Definition example_hhdm : Z := 0xffff800000000000.

#[export] Instance example_mmu : Mmu := fun m cr3 va =>
  if (example_hhdm <=? va) && (va <? example_hhdm + PHYS_LIMIT) then Some (va - example_hhdm)
  else None.

#[export] Instance example_window : HhdmWindow example_hhdm.
Proof.
  split; [done|done|]. intros m c p Hp. unfold mmu_translate, example_mmu.
  replace ((example_hhdm <=? example_hhdm + p) && (example_hhdm + p <? example_hhdm + PHYS_LIMIT))
    with true by lia.
  f_equal. lia.
Qed.

Definition example_vmm : vmm_state Pmm.pmm_state :=
  snd (vmm_init (Some example_hhdm) (Some (0x200000, 0xffffffff80000000)) (2 ^ 20)
         (vmm_boot example_pmm ∅ 0x5000)).

Definition example_types : gmap Z nat := {[0x5000 := 4%nat]}.

Lemma example_pt_inv : pt_inv example_hhdm example_types example_vmm.
Proof.
  constructor; [reflexivity|exact example_pmm_inv|reflexivity| |].
  - constructor.
    + unfold example_types. intros p l [<- <-]%lookup_singleton_Some. split; [|lia].
      by split_and!; [|reflexivity|].
    + intros a. by change (0 <= 0 < 2 ^ 64).
    + intros p l i _ _ _ Hp. exfalso. by change (present 0 = true) in Hp.
    + intros p p' l i i' _ _ _ _ _ Hp. exfalso. by change (present 0 = true) in Hp.
  - unfold example_types. intros p l [<- <-]%lookup_singleton_Some Hin.
    apply (free_managed example_pmm), elem_managed in Hin as (i & Hi & Heq).
    assert (Pmm.kernel_start (Pmm.pmm_config example_pmm) = 0x100000) as Hst by by vm_compute.
    unfold frame_at in Heq. rewrite Hst in Heq. lia.
Qed.


Lemma example_free_size : base.size (pa_free (pmm example_vmm)) = 34%nat.
Proof. by vm_compute. Qed.

(** Every entry of the empty tree is 0. *)
Lemma example_pte v : pte example_vmm v = 0.
Proof.
  unfold pte. apply (leaf_zero_page (mem example_vmm) 4 _ v). intros i _. reflexivity.
Qed.

Lemma example_user_addr v : 0 <= v < 2 ^ 47 -> user_addr v.
Proof. done. Qed.

Definition example_flags : Z := Z.lor VMM_FLAG_WRITABLE VMM_FLAG_USER.

#[local] Opaque example_vmm.

(** ** Instances of the properties *)

Lemma vmm_map_page_correct_witness :
  exists s', vmm_map_page 0x400123 0x180000 example_flags example_vmm = (Ret true, s') /\
    pte s' 0x400ff0 = Z.lor 0x180000 7.
Proof.
  destruct (vmm_map_page_correct example_hhdm example_types example_vmm 0x400123 0x180000
              example_flags example_pt_inv)
    as (T' & s' & b & R & _ & Hp & _ & Hb & _); [done|done|done|].
  rewrite Hb in R, Hp by (rewrite example_free_size; lia).
  exists s'. split; [exact R|]. rewrite Hp by (unfold user_addr; lia). vm_compute. reflexivity.
Defined.

Lemma vmm_unmap_page_correct_witness :
  exists s', vmm_unmap_page 0x400123 example_vmm = (Ret false, s') /\ tlb s' = [].
Proof.
  destruct (vmm_unmap_page_correct example_hhdm example_types example_vmm 0x400123 example_pt_inv)
    as (s' & R & _ & _ & Ht & _); [done|done|].
  rewrite example_pte in R, Ht. by exists s'.
Defined.

Lemma vmm_lookup_correct_witness :
  vmm_get_physical_address 0x400123 example_vmm = (Ret 0, example_vmm) /\
  vmm_is_mapped 0x400123 example_vmm = (Ret false, example_vmm).
Proof.
  destruct (vmm_lookup_correct example_hhdm example_types example_vmm 0x400123 example_pt_inv)
    as [R1 R2]; [done|].
  rewrite example_pte in R1, R2. by split.
Defined.

(** The state after mapping one page. *)
Definition example_mapped : vmm_state Pmm.pmm_state :=
  snd (vmm_map_page 0x400123 0x180000 example_flags example_vmm).

Lemma example_mapped_run :
  vmm_map_page 0x400123 0x180000 example_flags example_vmm = (Ret true, example_mapped).
Proof.
  unfold example_mapped.
  assert (H : fst (vmm_map_page 0x400123 0x180000 example_flags example_vmm) = Ret true) by by vm_compute.
  destruct (vmm_map_page _ _ _ _) as [r s']. simpl in H. by subst r.
Qed.

#[local] Opaque example_mapped.

Lemma vmm_map_then_translate_witness :
  vmm_get_physical_address 0x400ff0 example_mapped = (Ret 0x180ff0, example_mapped).
Proof.
  pose proof (vmm_map_then_translate example_hhdm example_types example_vmm 0x400123 0x180000
    example_flags example_mapped 0x400ff0 example_pt_inv) as H.
  replace (0x400ff0 / 4096 =? 0x400123 / 4096) with true in H by reflexivity.
  replace (0x180000 - 0x180000 mod 4096 + 0x400ff0 mod 4096) with 0x180ff0 in H by reflexivity.
  apply H; [unfold user_addr; lia|lia|lia|by vm_compute|exact example_mapped_run|unfold user_addr; lia].
Defined.

Lemma vmm_no_execute_leaks_into_address_witness :
  exists s' : vmm_state Pmm.pmm_state, vmm_get_physical_address 0x400123 s' = (Ret (2 ^ 63 + 0x180123), s').
Proof.
  exists (snd (vmm_map_page 0x400123 0x180000 VMM_FLAG_NO_EXECUTE example_vmm)).
  apply (vmm_no_execute_leaks_into_address example_hhdm example_types example_vmm 0x400123 0x180000
           VMM_FLAG_NO_EXECUTE _ example_pt_inv); [done..|].
  assert (H : fst (vmm_map_page 0x400123 0x180000 VMM_FLAG_NO_EXECUTE example_vmm) = Ret true)
    by by vm_compute.
  destruct (vmm_map_page _ _ _ _) as [r s']. simpl in H. by subst r.
Defined.

Definition example_ops : list vm_op :=
  [MapPage 0x400123 0x180000 example_flags; GetPhysical 0x400ff0; UnmapPage 0x400000;
   IsMapped 0x400000].

Lemma vmm_refines_page_map_witness :
  exists s' a', vm_run example_ops example_vmm = (Ret [1; 0x180ff0; 1; 0], s') /\
    vm_steps true (∅, 34%nat) example_ops [1; 0x180ff0; 1; 0] a'.
Proof.
  destruct (vmm_refines_page_map example_hhdm example_ops example_types example_vmm (∅, 34%nat)
              example_pt_inv) as (T' & s' & rs & a' & R & _ & _ & Hs).
  - split; [by rewrite example_free_size|]. intros v _. by rewrite example_pte.
  - repeat constructor; done.
  - assert (H : fst (vm_run example_ops example_vmm) = Ret [1; 0x180ff0; 1; 0]) by by vm_compute.
    rewrite R in H. injection H as ->. exists s', a'. by split.
Defined.

Lemma vmm_map_pages_all_or_nothing_witness :
  exists s', vmm_map_pages 0x400000 0x180000 3 example_flags example_vmm = (Ret true, s') /\
    pte s' 0x402fff = Z.lor 0x182000 7.
Proof.
  destruct (vmm_map_pages_all_or_nothing example_hhdm example_types example_vmm 0x400000 0x180000 3
              example_flags example_pt_inv)
    as (T' & s' & b & R & _ & Hp & Hb & _); [done..|].
  rewrite Hb in R, Hp by (rewrite example_free_size; lia).
  exists s'. split; [exact R|]. rewrite (Hp 0x402fff) by (unfold user_addr; lia). vm_compute. reflexivity.
Defined.

Lemma vmm_map_pages_huge_maps_one_page_witness :
  exists s', vmm_map_pages 0x400000 0x600000 512 (Z.lor example_flags VMM_FLAG_HUGE) example_vmm
    = (Ret true, s') /\ vmm_is_mapped 0x401000 s' = (Ret false, s').
Proof.
  destruct (vmm_map_pages_huge_maps_one_page example_hhdm example_types example_vmm 0x400000 0x600000
              (Z.lor example_flags VMM_FLAG_HUGE) example_pt_inv ltac:(unfold user_addr; lia) ltac:(lia)
              ltac:(lia) ltac:(by vm_compute) eq_refl eq_refl)
    as (T' & s' & b & R & _ & Hb & Hp).
  rewrite Hb in R by (rewrite example_free_size; lia).
  exists s'. split; [exact R|].
  destruct (Hp ltac:(apply Hb; rewrite example_free_size; lia) 0x401000) as [_ H];
    [unfold user_addr; lia|vm_compute; discriminate|].
  rewrite example_pte in H. exact H.
Defined.

Lemma vmm_create_address_space_faults_witness :
  exists s', vmm_create_address_space example_vmm = (Fault, s').
Proof.
  apply (vmm_create_address_space_faults example_hhdm example_types example_vmm example_pt_inv).
  - vm_compute. discriminate.
  - by vm_compute.
Defined.


Lemma vmm_allocate_size_wraps_witness :
  exists s', vmm_allocate (2 ^ 64 - 1) example_flags example_vmm = (Ret 0x400000, s') /\
    mem s' = ∅.
Proof.
  destruct (vmm_allocate_size_wraps example_vmm (2 ^ 64 - 1) example_flags 0)
    as (s' & R & Hm & _); [lia|by vm_compute|by vm_compute|].
  exists s'. split; [|exact Hm].
  replace (array_get empty_region (user_areas example_vmm) 0)
    with (Region 0x400000 0x10000000 7 false) in R by (vm_compute; reflexivity).
  exact R.
Defined.
