(* ===== verification/VmmInternal.v ===== *)
(** [map_page_internal] of memory/vmm.c, which enters 4 KiB, 2 MiB and 1 GiB
    pages in any address space.  It is declared static and nothing calls it:
    the kernel uses [vmm_map_page] of Vmm.v. *)
From S2P Require Import Prelude PageAllocator Vmm.
Import Vmm.

Module VmmInternal.
Section internal.
  Context {A : Type} `{PageAllocator A} `{!Mmu}.
  Local Abbreviation V := (M (vmm_state A)).

(** "Ensure PDPT/PD/PT exists": as in [vmm_map_page], but by
    [create_page_table]. *)
Definition ensure_created (table idx virt : Z) : V bool :=
  e ← load64 (entry_ptr table idx);
  if has e PAGE_PRESENT then mret true else
  phys ← create_page_table;
  if phys =? 0 then mret false else
  store64 (entry_ptr table idx) (Z.lor (Z.lor phys PAGE_PRESENT) PAGE_WRITABLE);;
  (if virt <? 0x8000000000000000 then
     e ← load64 (entry_ptr table idx);
     store64 (entry_ptr table idx) (Z.lor e PAGE_USER)
   else mret tt);;
  mret true.

(** Writing the last entry. *)
Definition enter (table idx virt entry : Z) : V bool :=
  store64 (entry_ptr table idx) entry;;
  invlpg virt;;
  mret true.

(** [(flags & PAGE_HUGE) && ((virt & mask) == 0) && ((phys & mask) == 0)] *)
Definition huge_page (flags virt phys mask : Z) : bool :=
  has flags PAGE_HUGE && (Z.land virt mask =? 0) && (Z.land phys mask =? 0).

Definition map_page_internal (pml4_phys virt phys flags : Z) : V bool :=
  if (pml4_phys =? 0) || (virt =? 0) || (phys =? 0) then mret false else
  if Z.land virt PAGE_ADDR_MASK =? 0 then mret false else
  let virt := Z.land virt PAGE_ADDR_MASK in
  let phys := Z.land phys PAGE_ADDR_MASK in
  s ← mget;
  let pml4 := phys_to_virt s pml4_phys in
  if pml4 =? NULL then mret false else
  let pml4_idx := PML4_INDEX virt in
  let pdpt_idx := PDPT_INDEX virt in
  let pd_idx := PD_INDEX virt in
  let pt_idx := PT_INDEX virt in
  ok ← ensure_created pml4 pml4_idx virt;
  if negb ok then mret false else
  pdpt ← next_table pml4 pml4_idx;
  if pdpt =? NULL then mret false else
  if huge_page flags virt phys 0x3FFFFFFF
  then enter pdpt pdpt_idx virt (Z.lor (Z.lor phys flags) PAGE_HUGE) else
  ok ← ensure_created pdpt pdpt_idx virt;
  if negb ok then mret false else
  pd ← next_table pdpt pdpt_idx;
  if pd =? NULL then mret false else
  if huge_page flags virt phys 0x1FFFFF
  then enter pd pd_idx virt (Z.lor (Z.lor phys flags) PAGE_HUGE) else
  ok ← ensure_created pd pd_idx virt;
  if negb ok then mret false else
  pt ← next_table pd pd_idx;
  if pt =? NULL then mret false else
  _ ← load64 (entry_ptr pt pt_idx);
  enter pt pt_idx virt (Z.lor phys flags).
End internal.
End VmmInternal.
