(* ===== verification/Interrupts.v ===== *)
(** Interrupt delivery: the port accesses of lib/io.c, the 8259 interrupt
    controllers (drivers/pic/pic.c, [Module Pic]), the interrupt descriptor
    table and the C interrupt handler (core/idt.c, [Module Idt]) and the timer
    (drivers/timer/timer.c, [Module Timer]).  Logging is left out. *)
From S2P Require Import Prelude.

(** ** Ports

    What the devices behind the ports do is the parameter [PortIO]: the state
    [D] of all devices, and what reading and writing a byte does to it. *)
Class PortIO (D : Type) : Type := {
  port_in : Z -> D -> Z * D;
  port_out : Z -> Z -> D -> D;
}.

(** Running code of a component [T] that is part of a state [S]. *)
Definition mzoom {S T A} (get : S -> T) (set : T -> S -> S) (m : M T A) : M S A :=
  fun s => let '(r, t) := m (get s) in (r, set t s).

Lemma run_zoom {S T A} (get : S -> T) (set : T -> S -> S) (m : M T A) s (r : outcome A) t :
  m (get s) = (r, t) -> mzoom get set m s = (r, set t s).
Proof. intros H. unfold mzoom. by rewrite H. Qed.

(** ** The interrupt controllers *)

Module Pic.

Definition PIC1_COMMAND : Z := 0x20.
Definition PIC1_DATA : Z := 0x21.
Definition PIC2_COMMAND : Z := 0xA0.
Definition PIC2_DATA : Z := 0xA1.
Definition PIC_EOI : Z := 0x20.
Definition ICW1_ICW4 : Z := 0x01.
Definition ICW1_INIT : Z := 0x10.
Definition ICW4_8086 : Z := 0x01.

(** The devices and the variable [irq_mask]. *)
Record pic_state (D : Type) : Type := PicState { dev : D; irq_mask : Z }.
Arguments PicState {D}.
Arguments dev {D}.
Arguments irq_mask {D}.

Section pic.
  Context {D : Type} `{PortIO D}.
  Local Abbreviation P := (M (pic_state D)).

(** [inb] returns a [uint8_t]; [outb] takes one. *)
Definition inb (port : Z) : P Z := fun s =>
  let '(v, d) := port_in port (dev s) in (Ret (u8 v), PicState d (irq_mask s)).
Definition outb (port v : Z) : P unit := fun s =>
  (Ret tt, PicState (port_out port (u8 v) (dev s)) (irq_mask s)).
Definition set_mask (v : Z) : P unit := mmodify (fun s => PicState (dev s) v).

Definition pic_send_eoi (irq : Z) : P unit :=
  (if 8 <=? irq then outb PIC2_COMMAND PIC_EOI else mret tt);;
  outb PIC1_COMMAND PIC_EOI.

Definition pic_disable : P unit :=
  outb PIC1_DATA 0xFF;;
  outb PIC2_DATA 0xFF;;
  set_mask 0xFFFF.

Definition pic_mask_irq (irq : Z) : P unit :=
  let port := if irq <? 8 then PIC1_DATA else PIC2_DATA in
  let irq := if irq <? 8 then irq else u8 (irq - 8) in
  m ← inb port;
  let value := u8 (Z.lor m (Z.shiftl 1 irq)) in
  outb port value;;
  mmodify (fun s => PicState (dev s)
    (if port =? PIC1_DATA then Z.lor (Z.land (irq_mask s) 0xFF00) value
     else u16 (Z.lor (Z.land (irq_mask s) 0x00FF) (Z.shiftl value 8)))).

Definition pic_unmask_irq (irq : Z) : P unit :=
  let port := if irq <? 8 then PIC1_DATA else PIC2_DATA in
  let irq := if irq <? 8 then irq else u8 (irq - 8) in
  m ← inb port;
  let value := u8 (Z.land m (Z.lnot (Z.shiftl 1 irq))) in
  outb port value;;
  mmodify (fun s => PicState (dev s)
    (if port =? PIC1_DATA then Z.lor (Z.land (irq_mask s) 0xFF00) value
     else u16 (Z.lor (Z.land (irq_mask s) 0x00FF) (Z.shiftl value 8)))).

Definition pic_init : P unit :=
  mask1 ← inb PIC1_DATA;
  mask2 ← inb PIC2_DATA;
  outb PIC1_COMMAND (Z.lor ICW1_INIT ICW1_ICW4);;
  outb PIC2_COMMAND (Z.lor ICW1_INIT ICW1_ICW4);;
  outb PIC1_DATA 32;;
  outb PIC2_DATA 40;;
  outb PIC1_DATA 4;;
  outb PIC2_DATA 2;;
  outb PIC1_DATA ICW4_8086;;
  outb PIC2_DATA ICW4_8086;;
  outb PIC1_DATA mask1;;
  outb PIC2_DATA mask2;;
  set_mask (u16 (Z.lor (Z.shiftl mask2 8) mask1));;
  pic_mask_irq 0;;
  pic_mask_irq 1;;
  pic_unmask_irq 2.

Definition pic_get_irq_mask : P Z := mgets irq_mask.

Definition pic_set_irq_mask (mask : Z) : P unit :=
  set_mask mask;;
  outb PIC1_DATA (Z.land mask 0xFF);;
  outb PIC2_DATA (Z.land (Z.shiftr mask 8) 0xFF).

End pic.
End Pic.

(** ** The interrupt descriptor table *)

Module Idt.

Definition IDT_ENTRIES : Z := 256.

Record idt_entry : Type := IdtEntry {
  offset_low : Z;
  selector : Z;
  ist : Z;
  type_attr : Z;
  offset_mid : Z;
  offset_high : Z;
  reserved : Z;
}.

Definition zero_entry : idt_entry := IdtEntry 0 0 0 0 0 0 0.

Record idt_ptr : Type := IdtPtr { limit : Z; base : Z }.

(** The handlers the kernel registers. *)
Inductive handler : Type :=
| page_fault_handler
| timer_interrupt_handler
| keyboard_interrupt_handler
| mouse_interrupt_handler.

(** The table and its backup, the pointer and its backup, the handler array,
    the interrupt controllers and the register IDTR. *)
Record idt_state (D : Type) : Type := IdtState {
  idt : list idt_entry;
  idt_pointer : idt_ptr;
  idt_backup : list idt_entry;
  idt_pointer_backup : idt_ptr;
  interrupt_handlers : list (option handler);
  pic : Pic.pic_state D;
  idtr : idt_ptr;
}.
Arguments IdtState {D}.
Arguments idt {D}.
Arguments idt_pointer {D}.
Arguments idt_backup {D}.
Arguments idt_pointer_backup {D}.
Arguments interrupt_handlers {D}.
Arguments pic {D}.
Arguments idtr {D}.

(** The addresses the linker chooses: of the array [idt], and of the assembly
    stub of each of the vectors 0 to 47 (isr0 to isr31, irq0 to irq15). *)
Class IdtLayout : Type := { idt_address : Z; stub_address : Z -> Z }.

Section idt_code.
  Context {D : Type} `{PortIO D} `{IdtLayout}.
  Local Abbreviation I := (M (idt_state D)).

Definition set_idt (l : list idt_entry) (s : idt_state D) : idt_state D :=
  IdtState l (idt_pointer s) (idt_backup s) (idt_pointer_backup s) (interrupt_handlers s)
    (pic s) (idtr s).
Definition set_pointer (p : idt_ptr) (s : idt_state D) : idt_state D :=
  IdtState (idt s) p (idt_backup s) (idt_pointer_backup s) (interrupt_handlers s) (pic s) (idtr s).
Definition set_pic (p : Pic.pic_state D) (s : idt_state D) : idt_state D :=
  IdtState (idt s) (idt_pointer s) (idt_backup s) (idt_pointer_backup s) (interrupt_handlers s)
    p (idtr s).
Definition set_handlers (l : list (option handler)) (s : idt_state D) : idt_state D :=
  IdtState (idt s) (idt_pointer s) (idt_backup s) (idt_pointer_backup s) l (pic s) (idtr s).

Definition idt_load : I unit := mmodify (fun s =>
  IdtState (idt s) (idt_pointer s) (idt_backup s) (idt_pointer_backup s) (interrupt_handlers s)
    (pic s) (idt_pointer s)).

Definition run_pic {A} (m : M (Pic.pic_state D) A) : I A := mzoom pic set_pic m.

Definition make_gate (base sel ist_ type : Z) : idt_entry :=
  IdtEntry (Z.land base 0xFFFF) sel (Z.land ist_ 0x7) type
    (Z.land (Z.shiftr base 16) 0xFFFF) (Z.land (Z.shiftr base 32) 0xFFFFFFFF) 0.

Definition idt_set_gate (num base sel ist_ type : Z) : I bool :=
  if IDT_ENTRIES <=? num then mret false
  else mmodify (fun s => set_idt (array_set (idt s) num (make_gate base sel ist_ type)) s);; mret true.

Definition idt_initialize_gates : I unit :=
  mfor 48 0 (fun n => idt_set_gate n (stub_address n) 0x08 0 0x8E;; mret tt).

Definition idt_save_backup : I unit := mmodify (fun s =>
  IdtState (idt s) (idt_pointer s) (idt s) (idt_pointer s) (interrupt_handlers s) (pic s) (idtr s)).

(** [sizeof(struct idt_entry) * IDT_ENTRIES - 1] *)
Definition idt_limit : Z := 16 * IDT_ENTRIES - 1.

Definition idt_init : I unit :=
  mmodify (set_idt (replicate (Z.to_nat IDT_ENTRIES) zero_entry));;
  mmodify (set_pointer (IdtPtr idt_limit idt_address));;
  idt_initialize_gates;;
  idt_save_backup;;
  run_pic Pic.pic_init;;
  idt_load.

#[export] Instance idt_entry_eq_dec : EqDecision idt_entry.
Proof. solve_decision. Defined.
#[export] Instance idt_ptr_eq_dec : EqDecision idt_ptr.
Proof. solve_decision. Defined.

Definition idt_check_integrity : I bool := mgets (fun s =>
  if negb (base (idt_pointer s) =? idt_address) then false
  else if negb (limit (idt_pointer s) =? idt_limit) then false
  else bool_decide (idt s = idt_backup s)).

Definition idt_reload : I unit := idt_load.

Definition idt_recover : I bool :=
  mmodify (fun s => set_idt (idt_backup s) s);;
  mmodify (fun s => set_pointer (idt_pointer_backup s) s);;
  idt_reload;;
  idt_check_integrity.

Definition idt_register_handler (vector : Z) (h : handler) : I unit :=
  if vector <? IDT_ENTRIES
  then mmodify (fun s => set_handlers (array_set (interrupt_handlers s) vector (Some h)) s)
  else mret tt.

End idt_code.

(** The main interrupt handler, for vector [int_no]; [run_handler] runs a
    registered handler in the kernel state [S], of which the table is the part
    [get]. *)
Section interrupt_handler.
  Context {D S : Type} `{PortIO D}.
  Context (get : S -> idt_state D) (set : idt_state D -> S -> S) (run_handler : handler -> M S unit).

Definition interrupt_handler (int_no : Z) : M S unit :=
  s ← mget;
  match array_get None (interrupt_handlers (get s)) int_no with
  | Some h => run_handler h
  | None => if int_no <? 32 then mhalt else mret tt
  end;;
  if (32 <=? int_no) && (int_no <? 48)
  then mzoom get set (run_pic (Pic.pic_send_eoi (int_no - 32)))
  else mret tt.
End interrupt_handler.

End Idt.

(** ** The timer *)

Module Timer.

Definition PIT_FREQUENCY : Z := 1193182.
Definition PIT_CHANNEL0 : Z := 0x40.
Definition PIT_COMMAND : Z := 0x43.
Definition IRQ_TIMER : Z := 32.

(** The tick counter, whether the scheduler's callback is registered (no other
    code registers one) and the interrupt table. *)
Record timer_state (D : Type) : Type := TimerState {
  timer_ticks : Z;
  timer_callback : bool;
  idt : Idt.idt_state D;
}.
Arguments TimerState {D}.
Arguments timer_ticks {D}.
Arguments timer_callback {D}.
Arguments idt {D}.

Section timer.
  Context {D : Type} `{PortIO D}.
  Local Abbreviation T := (M (timer_state D)).

Definition set_idt (i : Idt.idt_state D) (s : timer_state D) : timer_state D :=
  TimerState (timer_ticks s) (timer_callback s) i.
Definition run_idt {A} (m : M (Idt.idt_state D) A) : T A := mzoom idt set_idt m.
Definition outb (port v : Z) : T unit := run_idt (Idt.run_pic (Pic.outb port v)).

(** [timer_interrupt_handler] up to its call of the callback. *)
Definition timer_count : T unit := mmodify (fun s =>
  TimerState (u64 (timer_ticks s + 1)) (timer_callback s) (idt s)).

(** The divisor of [timer_set_frequency]; dividing by 0 is undefined in C. *)
Definition timer_divisor (frequency : Z) : Z := PIT_FREQUENCY / frequency.

Definition timer_set_frequency (frequency : Z) : T unit :=
  let divisor := timer_divisor frequency in
  outb PIT_COMMAND 0x36;;
  outb PIT_CHANNEL0 (Z.land divisor 0xFF);;
  outb PIT_CHANNEL0 (Z.land (Z.shiftr divisor 8) 0xFF).

Definition timer_init (frequency : Z) : T unit :=
  timer_set_frequency frequency;;
  run_idt (Idt.idt_register_handler IRQ_TIMER Idt.timer_interrupt_handler);;
  run_idt (Idt.run_pic (Pic.pic_unmask_irq 0)).

Definition timer_get_ticks : T Z := mgets timer_ticks.

Definition timer_register_callback : T unit := mmodify (fun s =>
  TimerState (timer_ticks s) true (idt s)).

Definition timer_get_uptime_ms : T Z := mgets (fun s => u64 (timer_ticks s * 10)).

(** [timer_sleep]; [hlt] waits for the next interrupt and handles it.  The
    loop runs [fuel] times at most, then it is still waiting ([Spin]). *)
Fixpoint timer_wait (hlt : T unit) (fuel : nat) (target : Z) : T unit :=
  s ← mget;
  if timer_ticks s <? target then
    match fuel with
    | O => mspin
    | S fuel => hlt;; timer_wait hlt fuel target
    end
  else mret tt.

Definition timer_sleep (hlt : T unit) (fuel : nat) (ms : Z) : T unit :=
  s ← mget;
  timer_wait hlt fuel (u64 (timer_ticks s + ms / 10)).

End timer.
End Timer.
