(* ===== verification/Sched.v ===== *)
(** The scheduler, core/exec/scheduler.c: the task table, the ready and blocked
    queues threaded through it, the task lock, and the operations on them.

    A pointer to a task is the index of the task in [task_table] ([None] for
    NULL).  Code that gives up the processor ends with [Switched]; a lock that
    is already taken is waited for forever ([Spin]): the kernel runs on one
    processor, and the code that holds the lock cannot run meanwhile.  The
    scheduler calls the virtual memory manager (Vmm.v), the page allocator
    (PageAllocator.v) and the timer (Interrupts.v), whose states are parts of
    its own.  [create_task], its ELF loading and its initial stack contents are
    not modelled. *)
From S2P Require Import Prelude PageAllocator Vmm Interrupts.

Module Sched.

Definition TASK_MAX_COUNT : Z := 256.
Definition DEFAULT_TIME_QUANTUM : Z := 20.
Definition PAGE_SIZE_4K : Z := 4096.
Definition UINT64_MAX : Z := 2 ^ 64 - 1.

Inductive task_state_t : Type :=
| TASK_STATE_NEW
| TASK_STATE_READY
| TASK_STATE_RUNNING
| TASK_STATE_BLOCKED
| TASK_STATE_TERMINATED.

#[export] Instance task_state_eq_dec : EqDecision task_state_t.
Proof. solve_decision. Defined.

Definition TASK_PRIORITY_IDLE : Z := 0.

(** A task.  [context] holds the 25 words of [cpu_context_t]. *)
Record task_t : Type := Task {
  tid : Z;
  name : list Z;
  state : task_state_t;
  base_priority : Z;
  dynamic_priority : Z;
  quantum : Z;
  cpu_time : Z;
  last_schedule : Z;
  start_time : Z;
  exit_code : Z;
  context : list Z;
  page_table : Z;
  stack_top : Z;
  stack_size : Z;
  argc : Z;
  argv : Z;
  envp : Z;
  next : option Z;
  prev : option Z;
}.

(** A zeroed task structure. *)
Definition zero_task : task_t :=
  Task 0 [] TASK_STATE_NEW 0 0 0 0 0 0 0 (replicate 25 0) 0 0 0 0 0 0 None None.

Definition set_state (x : task_state_t) (t : task_t) : task_t :=
  Task (tid t) (name t) x (base_priority t) (dynamic_priority t) (quantum t) (cpu_time t)
    (last_schedule t) (start_time t) (exit_code t) (context t) (page_table t) (stack_top t)
    (stack_size t) (argc t) (argv t) (envp t) (next t) (prev t).
Definition set_cpu_time (x : Z) (t : task_t) : task_t :=
  Task (tid t) (name t) (state t) (base_priority t) (dynamic_priority t) (quantum t) x
    (last_schedule t) (start_time t) (exit_code t) (context t) (page_table t) (stack_top t)
    (stack_size t) (argc t) (argv t) (envp t) (next t) (prev t).
Definition set_last_schedule (x : Z) (t : task_t) : task_t :=
  Task (tid t) (name t) (state t) (base_priority t) (dynamic_priority t) (quantum t) (cpu_time t)
    x (start_time t) (exit_code t) (context t) (page_table t) (stack_top t)
    (stack_size t) (argc t) (argv t) (envp t) (next t) (prev t).
Definition set_exit_code (x : Z) (t : task_t) : task_t :=
  Task (tid t) (name t) (state t) (base_priority t) (dynamic_priority t) (quantum t) (cpu_time t)
    (last_schedule t) (start_time t) x (context t) (page_table t) (stack_top t)
    (stack_size t) (argc t) (argv t) (envp t) (next t) (prev t).
Definition set_context (x : list Z) (t : task_t) : task_t :=
  Task (tid t) (name t) (state t) (base_priority t) (dynamic_priority t) (quantum t) (cpu_time t)
    (last_schedule t) (start_time t) (exit_code t) x (page_table t) (stack_top t)
    (stack_size t) (argc t) (argv t) (envp t) (next t) (prev t).
Definition set_page_table (x : Z) (t : task_t) : task_t :=
  Task (tid t) (name t) (state t) (base_priority t) (dynamic_priority t) (quantum t) (cpu_time t)
    (last_schedule t) (start_time t) (exit_code t) (context t) x (stack_top t)
    (stack_size t) (argc t) (argv t) (envp t) (next t) (prev t).
Definition set_stack_top (x : Z) (t : task_t) : task_t :=
  Task (tid t) (name t) (state t) (base_priority t) (dynamic_priority t) (quantum t) (cpu_time t)
    (last_schedule t) (start_time t) (exit_code t) (context t) (page_table t) x
    (stack_size t) (argc t) (argv t) (envp t) (next t) (prev t).
Definition set_args (c v e : Z) (t : task_t) : task_t :=
  Task (tid t) (name t) (state t) (base_priority t) (dynamic_priority t) (quantum t) (cpu_time t)
    (last_schedule t) (start_time t) (exit_code t) (context t) (page_table t) (stack_top t)
    (stack_size t) c v e (next t) (prev t).
Definition set_next (x : option Z) (t : task_t) : task_t :=
  Task (tid t) (name t) (state t) (base_priority t) (dynamic_priority t) (quantum t) (cpu_time t)
    (last_schedule t) (start_time t) (exit_code t) (context t) (page_table t) (stack_top t)
    (stack_size t) (argc t) (argv t) (envp t) x (prev t).
Definition set_prev (x : option Z) (t : task_t) : task_t :=
  Task (tid t) (name t) (state t) (base_priority t) (dynamic_priority t) (quantum t) (cpu_time t)
    (last_schedule t) (start_time t) (exit_code t) (context t) (page_table t) (stack_top t)
    (stack_size t) (argc t) (argv t) (envp t) (next t) x.

Record scheduler_stats_t : Type := Stats {
  total_tasks_created : Z;
  ticks_since_boot : Z;
  current_task_count : Z;
}.

(** The static variables of scheduler.c, the interrupt flag of the processor,
    and the components the scheduler calls. *)
Record sched_state (A D : Type) : Type := SchedState {
  task_table : list task_t;
  next_tid : Z;
  current_task : option Z;
  idle_task : option Z;
  ready_queue_head : option Z;
  ready_queue_tail : option Z;
  blocked_queue_head : option Z;
  task_lock : Z;
  scheduler_stats : scheduler_stats_t;
  interrupts_on : bool;
  vm : Vmm.vmm_state A;
  timer : Timer.timer_state D;
}.
Arguments SchedState {A D}.
Arguments task_table {A D}.
Arguments next_tid {A D}.
Arguments current_task {A D}.
Arguments idle_task {A D}.
Arguments ready_queue_head {A D}.
Arguments ready_queue_tail {A D}.
Arguments blocked_queue_head {A D}.
Arguments task_lock {A D}.
Arguments scheduler_stats {A D}.
Arguments interrupts_on {A D}.
Arguments vm {A D}.
Arguments timer {A D}.

(** The words the assembly routine task_switch_context (context.asm) stores in
    the context of the task it leaves. *)
Class ContextSwitch : Type := saved_context : list Z -> list Z.

Section setters.
  Context {A D : Type}.
  Implicit Types s : sched_state A D.

Definition set_table (x : list task_t) s :=
    SchedState x (next_tid s) (current_task s) (idle_task s) (ready_queue_head s)
      (ready_queue_tail s) (blocked_queue_head s) (task_lock s) (scheduler_stats s)
      (interrupts_on s) (vm s) (timer s).
Definition set_next_tid (x : Z) s :=
    SchedState (task_table s) x (current_task s) (idle_task s) (ready_queue_head s)
      (ready_queue_tail s) (blocked_queue_head s) (task_lock s) (scheduler_stats s)
      (interrupts_on s) (vm s) (timer s).
Definition set_current (x : option Z) s :=
    SchedState (task_table s) (next_tid s) x (idle_task s) (ready_queue_head s)
      (ready_queue_tail s) (blocked_queue_head s) (task_lock s) (scheduler_stats s)
      (interrupts_on s) (vm s) (timer s).
Definition set_idle (x : option Z) s :=
    SchedState (task_table s) (next_tid s) (current_task s) x (ready_queue_head s)
      (ready_queue_tail s) (blocked_queue_head s) (task_lock s) (scheduler_stats s)
      (interrupts_on s) (vm s) (timer s).
Definition set_head (x : option Z) s :=
    SchedState (task_table s) (next_tid s) (current_task s) (idle_task s) x
      (ready_queue_tail s) (blocked_queue_head s) (task_lock s) (scheduler_stats s)
      (interrupts_on s) (vm s) (timer s).
Definition set_tail (x : option Z) s :=
    SchedState (task_table s) (next_tid s) (current_task s) (idle_task s) (ready_queue_head s)
      x (blocked_queue_head s) (task_lock s) (scheduler_stats s)
      (interrupts_on s) (vm s) (timer s).
Definition set_blocked (x : option Z) s :=
    SchedState (task_table s) (next_tid s) (current_task s) (idle_task s) (ready_queue_head s)
      (ready_queue_tail s) x (task_lock s) (scheduler_stats s)
      (interrupts_on s) (vm s) (timer s).
Definition set_lock (x : Z) s :=
    SchedState (task_table s) (next_tid s) (current_task s) (idle_task s) (ready_queue_head s)
      (ready_queue_tail s) (blocked_queue_head s) x (scheduler_stats s)
      (interrupts_on s) (vm s) (timer s).
Definition set_stats (x : scheduler_stats_t) s :=
    SchedState (task_table s) (next_tid s) (current_task s) (idle_task s) (ready_queue_head s)
      (ready_queue_tail s) (blocked_queue_head s) (task_lock s) x
      (interrupts_on s) (vm s) (timer s).
Definition set_interrupts (x : bool) s :=
    SchedState (task_table s) (next_tid s) (current_task s) (idle_task s) (ready_queue_head s)
      (ready_queue_tail s) (blocked_queue_head s) (task_lock s) (scheduler_stats s)
      x (vm s) (timer s).
Definition set_vm (x : Vmm.vmm_state A) s :=
    SchedState (task_table s) (next_tid s) (current_task s) (idle_task s) (ready_queue_head s)
      (ready_queue_tail s) (blocked_queue_head s) (task_lock s) (scheduler_stats s)
      (interrupts_on s) x (timer s).
Definition set_timer (x : Timer.timer_state D) s :=
    SchedState (task_table s) (next_tid s) (current_task s) (idle_task s) (ready_queue_head s)
      (ready_queue_tail s) (blocked_queue_head s) (task_lock s) (scheduler_stats s)
      (interrupts_on s) (vm s) x.

  (** [task->...] *)
Definition the_task s (i : Z) : task_t := array_get zero_task (task_table s) i.
Definition upd_task (i : Z) (f : task_t -> task_t) s :=
    set_table (array_set (task_table s) i (f (the_task s i))) s.
End setters.

Section sched.
  Context {A D : Type} `{PageAllocator A} `{!Mmu} `{PortIO D} `{ContextSwitch}.
  Local Abbreviation K := (M (sched_state A D)).

Definition run_vm {X} (m : M (Vmm.vmm_state A) X) : K X := mzoom vm set_vm m.
Definition run_timer {X} (m : M (Timer.timer_state D) X) : K X := mzoom timer set_timer m.
Definition update (i : Z) (f : task_t -> task_t) : K unit := mmodify (upd_task i f).

(** ** The lock *)

Definition spinlock_init : K unit := mmodify (set_lock 0).
Definition spinlock_acquire : K unit :=
  s ← mget; if task_lock s =? 0 then mmodify (set_lock 1) else mspin.
Definition spinlock_release : K unit := mmodify (set_lock 0).

(** ** The ready queue *)

Definition add_to_ready_queue (task : option Z) : K unit :=
  match task with
  | None => mret tt
  | Some t =>
      update t (set_next None);;
      s ← mget;
      match ready_queue_head s with
      | None =>
          mmodify (set_head (Some t));;
          mmodify (set_tail (Some t));;
          update t (set_prev None)
      | Some _ =>
          match ready_queue_tail s with
          | None => mfault
          | Some tail =>
              update tail (set_next (Some t));;
              update t (set_prev (Some tail));;
              mmodify (set_tail (Some t))
          end
      end;;
      update t (set_state TASK_STATE_READY)
  end.

Definition remove_from_ready_queue (task : option Z) : K unit :=
  match task with
  | None => mret tt
  | Some t =>
      s ← mget;
      (if decide (ready_queue_head s = Some t) then
         mmodify (set_head (next (the_task s t)));;
         match next (the_task s t) with
         | Some h => update h (set_prev None)
         | None => mmodify (set_tail None)
         end
       else if decide (ready_queue_tail s = Some t) then
         mmodify (set_tail (prev (the_task s t)));;
         match prev (the_task s t) with
         | Some l => update l (set_next None)
         | None => mmodify (set_head None)
         end
       else
         match prev (the_task s t) with
         | Some p => update p (set_next (next (the_task s t)))
         | None => mret tt
         end;;
         s ← mget;
         match next (the_task s t) with
         | Some n => update n (set_prev (prev (the_task s t)))
         | None => mret tt
         end);;
      update t (set_next None);;
      update t (set_prev None)
  end.

(** ** Switching tasks *)

Definition context_switch (next : option Z) : K unit :=
  s ← mget;
  match next with
  | None => mret tt
  | Some n =>
      if decide (current_task s = Some n) then mret tt else
      let prev := current_task s in
      mmodify (set_current (Some n));;
      match prev with
      | Some p =>
          if decide (state (the_task s p) = TASK_STATE_RUNNING)
          then update p (set_state TASK_STATE_READY) else mret tt
      | None => mret tt
      end;;
      update n (set_state TASK_STATE_RUNNING);;
      mmodify (fun s => upd_task n (set_last_schedule (cpu_time (the_task s n))) s);;
      s ← mget;
      run_vm (Vmm.vmm_switch_address_space (page_table (the_task s n)));;
      match prev with
      | Some p =>
          mmodify (fun s => upd_task p (set_context (saved_context (context (the_task s p)))) s);;
          mswitch
      | None => mswitch
      end
  end.

Definition schedule_next : K unit :=
  mmodify (set_interrupts false);;
  s ← mget;
  next ←
    match ready_queue_head s with
    | Some n =>
        mmodify (set_head (Sched.next (the_task s n)));;
        match Sched.next (the_task s n) with
        | Some h => update h (set_prev None)
        | None => mmodify (set_tail None)
        end;;
        update n (set_next None);;
        update n (set_prev None);;
        mret (Some n)
    | None => mret (idle_task s)
    end;
  match next with
  | Some _ => context_switch next
  | None => mret tt
  end.

Definition count_tick : K unit := mmodify (fun s =>
  let st := scheduler_stats s in
  set_stats (Stats (total_tasks_created st) (u64 (ticks_since_boot st + 1))
               (current_task_count st)) s).

Definition timer_callback (tick_count : Z) : K unit :=
  count_tick;;
  s ← mget;
  match current_task s with
  | Some c =>
      if decide (state (the_task s c) = TASK_STATE_RUNNING) then
        mmodify (fun s => upd_task c (set_cpu_time (u64 (cpu_time (the_task s c) + 1))) s);;
        s ← mget;
        if quantum (the_task s c) <=? u64 (cpu_time (the_task s c) - last_schedule (the_task s c)) then
          spinlock_acquire;;
          (if decide (current_task s = idle_task s) then mret tt
           else update c (set_state TASK_STATE_READY);; add_to_ready_queue (Some c));;
          spinlock_release;;
          schedule_next
        else mret tt
      else schedule_next
  | None => schedule_next
  end.

(** The timer interrupt: the handler of timer.c calling the callback. *)
Definition timer_interrupt_handler : K unit :=
  run_timer Timer.timer_count;;
  s ← mget;
  if Timer.timer_callback (timer s) then timer_callback (Timer.timer_ticks (timer s)) else mret tt.

Definition scheduler_get_current_task : K (option Z) := mgets current_task.

(** The first task from index [i] on with the given id. *)
Fixpoint find_tid (n : nat) (i id : Z) (tbl : list task_t) : option Z :=
  match n with
  | O => None
  | S n' => if tid (array_get zero_task tbl i) =? id then Some i else find_tid n' (i + 1) id tbl
  end.

Definition scheduler_get_task_by_id (id : Z) : K (option Z) :=
  spinlock_acquire;;
  r ← mgets (fun s => find_tid (Z.to_nat TASK_MAX_COUNT) 0 id (task_table s));
  spinlock_release;;
  mret r.

Definition scheduler_yield : K unit :=
  spinlock_acquire;;
  s ← mget;
  match current_task s with
  | Some c =>
      if decide (state (the_task s c) = TASK_STATE_RUNNING)
      then update c (set_state TASK_STATE_READY);; add_to_ready_queue (Some c)
      else mret tt
  | None => mret tt
  end;;
  schedule_next;;
  spinlock_release.

Definition scheduler_execute_task (id argc argv envp : Z) : K bool :=
  spinlock_acquire;;
  task ← scheduler_get_task_by_id id;
  s ← mget;
  match task with
  | Some t =>
      if decide (state (the_task s t) = TASK_STATE_READY) then
        update t (set_args argc argv envp);;
        context_switch (Some t);;
        spinlock_release;;
        mret true
      else spinlock_release;; mret false
  | None => spinlock_release;; mret false
  end.

(** ** Blocked tasks and termination *)

Definition add_to_blocked_queue (task : option Z) : K unit :=
  match task with
  | None => mret tt
  | Some t =>
      mmodify (fun s => upd_task t (set_next (blocked_queue_head s)) s);;
      mmodify (set_blocked (Some t));;
      update t (set_state TASK_STATE_BLOCKED)
  end.

(** The loop of [remove_from_blocked_queue], at most [fuel] turns. *)
Fixpoint remove_blocked_loop (fuel : nat) (t : Z) (current prev : option Z) : K unit :=
  match current with
  | None => mret tt
  | Some c =>
      s ← mget;
      if c =? t then
        match prev with
        | Some p => update p (set_next (next (the_task s c)))
        | None => mmodify (set_blocked (next (the_task s c)))
        end;;
        update t (set_next None)
      else
        match fuel with
        | O => mspin
        | S fuel => remove_blocked_loop fuel t (next (the_task s c)) (Some c)
        end
  end.

Definition remove_from_blocked_queue (task : option Z) : K unit :=
  match task with
  | None => mret tt
  | Some t =>
      s ← mget;
      remove_blocked_loop (Z.to_nat TASK_MAX_COUNT) t (blocked_queue_head s) None
  end.

Definition free_task_resources (task : option Z) : K unit :=
  match task with
  | None => mret tt
  | Some t =>
      s ← mget;
      (if page_table (the_task s t) =? 0 then mret tt
       else run_vm (Vmm.vmm_delete_address_space (page_table (the_task s t)));;
            update t (set_page_table 0));;
      s ← mget;
      (if stack_top (the_task s t) =? NULL then mret tt
       else run_vm (mmodify (fun v => Vmm.set_pmm
              (pmm_free_pages (stack_top (the_task s t)) (stack_size (the_task s t) / PAGE_SIZE_4K)
                 (Vmm.pmm v)) v));;
            update t (set_stack_top NULL))
  end.

Definition scheduler_terminate_task (id code : Z) : K bool :=
  spinlock_acquire;;
  task ← scheduler_get_task_by_id id;
  s ← mget;
  match task with
  | Some t =>
      if decide (state (the_task s t) = TASK_STATE_TERMINATED)
      then spinlock_release;; mret false
      else
        update t (set_state TASK_STATE_TERMINATED);;
        update t (set_exit_code code);;
        s ← mget;
        (if decide (state (the_task s t) = TASK_STATE_READY) then remove_from_ready_queue (Some t)
         else if decide (state (the_task s t) = TASK_STATE_BLOCKED)
         then remove_from_blocked_queue (Some t)
         else mret tt);;
        free_task_resources (Some t);;
        mmodify (fun s =>
          let st := scheduler_stats s in
          set_stats (Stats (total_tasks_created st) (ticks_since_boot st)
                       (u32 (current_task_count st - 1))) s);;
        spinlock_release;;
        mret true
  | None => spinlock_release;; mret false
  end.

(** ** Creating tasks *)

Definition allocate_tid : K Z :=
  s ← mget;
  let id := next_tid s in
  mmodify (set_next_tid (u32 (id + 1)));;
  s ← mget;
  (if next_tid s =? 0 then mmodify (set_next_tid 1) else mret tt);;
  mret id.

Definition create_task_address_space : K Z := run_vm Vmm.vmm_create_address_space.

(** The loop of [create_task_stack] from offset [i * 4096] on; [Some i] is the
    page that could not be mapped. *)
Fixpoint map_stack_loop (n : nat) (i stack_virt stack_phys : Z) : K (option Z) :=
  match n with
  | O => mret None
  | S n' =>
      ok ← run_vm (Vmm.vmm_map_page (u64 (stack_virt + i * PAGE_SIZE_4K))
             (u64 (stack_phys + i * PAGE_SIZE_4K))
             (Z.lor (Z.lor Vmm.VMM_FLAG_PRESENT Vmm.VMM_FLAG_WRITABLE) Vmm.VMM_FLAG_USER));
      if (ok : bool) then map_stack_loop n' (i + 1) stack_virt stack_phys else mret (Some i)
  end.

Definition create_task_stack (stack_size page_table : Z) : K Z :=
  let stack_size := Vmm.round_up_page stack_size in
  let page_count := stack_size / PAGE_SIZE_4K in
  stack_phys ← run_vm (mlift (fun v => let '(p, a) := pmm_alloc_pages page_count (Vmm.pmm v) in
                                       (p, Vmm.set_pmm a v)));
  if stack_phys =? NULL then mret NULL else
  let stack_virt := u64 (0xEFFFF000 - stack_size + PAGE_SIZE_4K) in
  old_cr3 ← run_vm Vmm.vmm_get_current_address_space;
  run_vm (Vmm.vmm_switch_address_space page_table);;
  failed ← map_stack_loop (Z.to_nat page_count) 0 stack_virt stack_phys;
  match failed with
  | Some i =>
      mfor (Z.to_nat i) 0 (fun j =>
        run_vm (Vmm.vmm_unmap_page (u64 (stack_virt + j * PAGE_SIZE_4K)));; mret tt);;
      run_vm (Vmm.vmm_switch_address_space old_cr3);;
      run_vm (mmodify (fun v => Vmm.set_pmm (pmm_free_pages stack_phys page_count (Vmm.pmm v)) v));;
      mret NULL
  | None =>
      run_vm (Vmm.vmm_map_page (u64 (stack_virt - PAGE_SIZE_4K)) 0
                (Z.lor Vmm.VMM_FLAG_PRESENT Vmm.VMM_FLAG_NO_EXECUTE));;
      run_vm (Vmm.vmm_switch_address_space old_cr3);;
      mret (u64 (stack_virt + stack_size))
  end.

(** ** Initialisation *)

(** The bytes of "idle_task". *)
Definition idle_name : list Z := [105; 100; 108; 101; 95; 116; 97; 115; 107].

(** The word of [cr3] in [cpu_context_t]. *)
Definition CONTEXT_CR3 : nat := 24.

Definition scheduler_init : K bool :=
  mmodify (set_table (replicate (Z.to_nat TASK_MAX_COUNT) zero_task));;
  spinlock_init;;
  run_timer Timer.timer_register_callback;;
  run_timer (Timer.timer_init 1000);;
  mmodify (set_idle (Some 0));;
  cr3 ← run_vm Vmm.vmm_get_current_address_space;
  update 0 (fun _ =>
    Task 0 idle_name TASK_STATE_READY TASK_PRIORITY_IDLE TASK_PRIORITY_IDLE UINT64_MAX 0 0 0 0
      (<[CONTEXT_CR3 := cr3]> (replicate 25 0)) 0 0 0 0 0 0 None None);;
  mmodify (set_current (Some 0));;
  mret true.

End sched.

(** The state before [scheduler_init]. *)
Definition sched_boot {A D} (v : Vmm.vmm_state A) (t : Timer.timer_state D) : sched_state A D :=
  SchedState (replicate (Z.to_nat TASK_MAX_COUNT) zero_task) 1 None None None None None 0
    (Stats 0 0 0) true v t.

End Sched.
