(* ===== verification/SchedQueue.v ===== *)
(** The ready queue of scheduler.c as a list: the doubly linked list threaded
    through the task table represents a list of tasks, and adding a task,
    taking the first one and removing one are the list operations. *)
From S2P Require Import Prelude PageAllocator Vmm Interrupts Sched.
Import Sched.

Definition valid_task (i : Z) : Prop := 0 <= i < TASK_MAX_COUNT.

#[export] Instance valid_task_dec t : Decision (valid_task t).
Proof. unfold valid_task. apply _. Defined.

Section queue.
  Context {A D : Type}.
  Implicit Types s : sched_state A D.

(** ** Task updates *)

Definition table_ok s : Prop := length (task_table s) = Z.to_nat TASK_MAX_COUNT.

Lemma the_upd_eq s i f :
  table_ok s -> valid_task i -> the_task (upd_task i f s) i = f (the_task s i).
Proof.
  intros Hl Hi. unfold table_ok, valid_task, the_task, upd_task, TASK_MAX_COUNT in *. simpl.
  apply array_get_set_eq. lia.
Qed.

Lemma the_upd_ne s i j f :
  valid_task i -> valid_task j -> i <> j -> the_task (upd_task i f s) j = the_task s j.
Proof.
  intros Hi Hj Hne. unfold valid_task, the_task, upd_task in *. simpl.
  apply array_get_set_ne; lia.
Qed.

Lemma table_ok_upd s i f : table_ok s -> table_ok (upd_task i f s).
Proof. unfold table_ok, upd_task. simpl. by rewrite length_array_set. Qed.

Lemma some_or (x : Z) (p : option Z) : Some x ∪ p = Some x.
Proof. by destruct p. Qed.

Lemma none_or (p : option Z) : None ∪ p = p.
Proof. by destruct p. Qed.

Lemma or_none (p : option Z) : p ∪ None = p.
Proof. by destruct p. Qed.

(** ** Linked segments

    [links s p l n]: the tasks of [l] are linked in both directions, the first
    back to [p] and the last on to [n]. *)
Fixpoint links s (p : option Z) (l : list Z) (n : option Z) : Prop :=
  match l with
  | [] => True
  | x :: l' =>
      prev (the_task s x) = p /\ next (the_task s x) = head l' ∪ n /\ links s (Some x) l' n
  end.

Lemma links_app s p l1 l2 n :
  links s p (l1 ++ l2) n <-> links s p l1 (head l2 ∪ n) /\ links s (last l1 ∪ p) l2 n.
Proof.
  revert p. induction l1 as [|x l1 IH]; intros p; cbn [app links].
  - simpl. rewrite !none_or. tauto.
  - rewrite IH. destruct l1 as [|y l1].
    + simpl. rewrite !none_or, some_or. tauto.
    + replace (last (x :: y :: l1) ∪ p) with (last (y :: l1) ∪ Some x).
      * cbn [app head]. rewrite !some_or. tauto.
      * change (last (x :: y :: l1)) with (last (y :: l1)).
        destruct (last (y :: l1)) eqn:E; [by rewrite !some_or|]. by apply last_None in E.
Qed.

(** Two states that agree on the links of the tasks of [l]. *)
Lemma links_agree s s' p l n :
  (forall x, x ∈ l -> next (the_task s' x) = next (the_task s x) /\
                      prev (the_task s' x) = prev (the_task s x)) ->
  links s p l n -> links s' p l n.
Proof.
  revert p. induction l as [|x l IH]; intros p Hag; simpl; [done|].
  intros (Hp & Hn & Hl). destruct (Hag x) as [-> ->]; [set_solver|].
  split_and!; [done..|]. apply IH; [|done]. intros y Hy. apply Hag. set_solver.
Qed.

(** Updating a task outside the segment. *)
Lemma links_frame s p l n i f :
  i ∉ l -> valid_task i -> Forall valid_task l -> links s p l n -> links (upd_task i f s) p l n.
Proof.
  intros Hi Hv Hl. apply links_agree. intros x Hx.
  rewrite Forall_forall in Hl. rewrite the_upd_ne; [done|done|by apply Hl|]. by intros ->.
Qed.

(** ** The ready queue *)

Record queue_wf s (l : list Z) : Prop := {
  qw_table : table_ok s;
  qw_nodup : NoDup l;
  qw_head : ready_queue_head s = head l;
  qw_tail : ready_queue_tail s = last l;
  qw_task : Forall valid_task l;
  qw_links : links s None l None;
}.

(** An update that leaves the links of a task alone. *)
Definition keeps_links (f : task_t -> task_t) : Prop :=
  forall t, next (f t) = next t /\ prev (f t) = prev t.

Lemma queue_wf_upd s l i f :
  queue_wf s l -> valid_task i -> keeps_links f -> queue_wf (upd_task i f s) l.
Proof.
  intros [Ht Hn Hh Htl Hv Hl] Hi Hf. constructor; try done; [by apply table_ok_upd|].
  revert Hl. apply links_agree. intros x Hx. rewrite Forall_forall in Hv.
  destruct (decide (i = x)) as [->|Hne]; [|rewrite the_upd_ne by auto; done].
  rewrite the_upd_eq by auto. apply Hf.
Qed.

(** The queue depends on the table and the two ends only. *)
Lemma queue_wf_ext s s' l :
  queue_wf s l -> task_table s' = task_table s -> ready_queue_head s' = ready_queue_head s ->
  ready_queue_tail s' = ready_queue_tail s -> queue_wf s' l.
Proof.
  intros [Ht Hn Hh Htl Hv Hl] Et Eh El.
  constructor; unfold table_ok; rewrite ?Et, ?Eh, ?El; try done.
  revert Hl. apply links_agree. intros x _. unfold the_task. by rewrite Et.
Qed.

(** ** Adding a task at the end *)

Definition queue_append (t : Z) s : sched_state A D :=
  let s1 := upd_task t (set_next None) s in
  let s2 :=
    match ready_queue_tail s with
    | None => upd_task t (set_prev None) (set_tail (Some t) (set_head (Some t) s1))
    | Some l => set_tail (Some t) (upd_task t (set_prev (Some l)) (upd_task l (set_next (Some t)) s1))
    end in
  upd_task t (set_state TASK_STATE_READY) s2.

Lemma queue_append_wf s l t :
  queue_wf s l -> valid_task t -> t ∉ l -> queue_wf (queue_append t s) (l ++ [t]).
Proof.
  intros [Htb Hn Hh Htl Hv Hl] Ht Hni. unfold queue_append.
  apply queue_wf_upd; [|done|done]. rewrite Htl.
  assert (Hnd : NoDup (l ++ [t])).
  { apply NoDup_app. split_and!; [done| |apply NoDup_singleton]. set_solver. }
  assert (Hvt : Forall valid_task (l ++ [t])) by (apply Forall_app; auto using Forall_singleton).
  destruct l as [|z l0 _] using rev_ind.
  - constructor; try done; [by repeat apply table_ok_upd|]. simpl.
    split_and!; [|rewrite ?none_or|done]; rewrite the_upd_eq by (done || by apply table_ok_upd);
      [done|]. simpl. change (the_task (set_tail _ (set_head _ ?y)) t) with (the_task y t).
    by rewrite the_upd_eq.
  - rewrite last_snoc. apply Forall_app in Hv as [Hv0 [Hvz _]%Forall_cons].
    apply NoDup_app in Hn as (_ & Hz & _). specialize (fun H => Hz z H).
    apply links_app in Hl as [Hl0 (Hzp & Hzn & _)].
    assert (Hzt : z <> t) by set_solver. assert (Hz0 : z ∉ l0) by set_solver.
    assert (Ht0 : t ∉ l0) by set_solver.
    set (s' := upd_task t (set_prev (Some z)) (upd_task z (set_next (Some t)) (upd_task t (set_next None) s))).
    apply (queue_wf_ext (set_tail (Some t) s')); [|done..].
    assert (Htb1 : table_ok (upd_task t (set_next None) s)) by by apply table_ok_upd.
    assert (Htb2 : table_ok (upd_task z (set_next (Some t)) (upd_task t (set_next None) s)))
      by by apply table_ok_upd.
    constructor; try done; [by apply table_ok_upd|change (ready_queue_head s = head ((l0 ++ [z]) ++ [t])); rewrite Hh; by destruct l0|by rewrite last_snoc|].
    apply (links_agree s'); [done|]. rewrite <- app_assoc. apply links_app. split.
    + by repeat apply links_frame.
    + simpl. unfold s'. rewrite !(the_upd_ne _ t z), !the_upd_eq by done. simpl.
      rewrite !(the_upd_ne _ t z), !(the_upd_ne _ z t), !the_upd_eq by done. by split_and!.
Qed.

(** ** Taking the first task *)

Definition queue_pop (n : Z) s : sched_state A D :=
  let s1 := set_head (next (the_task s n)) s in
  let s2 :=
    match next (the_task s n) with
    | Some h => upd_task h (set_prev None) s1
    | None => set_tail None s1
    end in
  upd_task n (set_prev None) (upd_task n (set_next None) s2).

Lemma queue_pop_wf s n l : queue_wf s (n :: l) -> queue_wf (queue_pop n s) l.
Proof.
  intros [Htb Hn Hh Htl Hv (Hnp & Hnn & Hl)]. unfold queue_pop. rewrite Hnn, or_none.
  apply NoDup_cons in Hn as [Hni Hn]. apply Forall_cons in Hv as [Hvn Hv].
  assert (Hq : queue_wf (match head l with
    | Some h => upd_task h (set_prev None) (set_head (head l) s)
    | None => set_tail None (set_head (head l) s)
    end) l).
  { destruct l as [|h l]; simpl; [by constructor|].
    apply NoDup_cons in Hn as [Hhi Hn]. apply Forall_cons in Hv as [Hvh Hv].
    destruct Hl as (Hhp & Hhn & Hl).
    constructor; simpl; try done; [by apply table_ok_upd|by apply NoDup_cons|by apply Forall_cons|].
    rewrite the_upd_eq by done. split_and!; [done|done|]. apply links_frame; [done..|]. by apply (links_agree s). }
  destruct Hq as [Htb' _ Hh' Htl' _ Hl'].
  constructor; try done; [by repeat apply table_ok_upd|]. do 2 (apply links_frame; [done..|]). exact Hl'.
Qed.

(** ** Removing a task *)

(** Relinking the ends of a segment. *)
Lemma links_set_next s p l n n' z :
  table_ok s -> NoDup l -> Forall valid_task l -> last l = Some z ->
  links s p l n -> links (upd_task z (set_next n') s) p l n'.
Proof.
  intros Htb Hn Hv Hz. destruct l as [|y l0 _] using rev_ind; [done|].
  rewrite last_snoc in Hz. injection Hz as ->.
  apply Forall_app in Hv as [Hv0 [Hvz _]%Forall_cons].
  apply NoDup_app in Hn as (_ & Hni & _).
  assert (z ∉ l0) by (intros Hz; apply (Hni z Hz); set_solver).
  intros [Hl (Hp & _ & _)]%links_app. apply links_app. simpl in *. rewrite some_or in Hl |- *. split.
  - by apply links_frame.
  - rewrite !the_upd_eq by done. by rewrite none_or.
Qed.

Lemma links_set_prev s p p' l n h :
  table_ok s -> NoDup l -> Forall valid_task l -> head l = Some h ->
  links s p l n -> links (upd_task h (set_prev p') s) p' l n.
Proof.
  intros Htb Hn Hv Hh. destruct l as [|y l]; [done|]. injection Hh as ->.
  apply NoDup_cons in Hn as [Hni Hn]. apply Forall_cons in Hv as [Hvh Hv].
  intros (_ & Hnx & Hl). simpl. rewrite !the_upd_eq by done.
  split_and!; [done..|]. by apply links_frame.
Qed.

(** The neighbours of a removed task are linked to each other. *)
Definition relink (z : option Z) (h : option Z) s : sched_state A D :=
  let s1 := match z with Some z => upd_task z (set_next h) s | None => s end in
  match h with Some h => upd_task h (set_prev z) s1 | None => s1 end.

Lemma relink_links s l1 l2 :
  table_ok s -> NoDup (l1 ++ l2) -> Forall valid_task (l1 ++ l2) -> forall n1 p2,
  links s None l1 n1 -> links s p2 l2 None -> links (relink (last l1) (head l2) s) None (l1 ++ l2) None.
Proof.
  intros Htb (Hn1 & Hd & Hn2)%NoDup_app [Hv1 Hv2]%Forall_app n1 p2 Hl1 Hl2.
  apply links_app. rewrite !or_none. unfold relink.
  set (s1 := match last l1 with Some z => upd_task z (set_next (head l2)) s | None => s end).
  assert (Htb1 : table_ok s1) by (unfold s1; destruct (last l1); [by apply table_ok_upd|done]).
  assert (H1 : links s1 None l1 (head l2) /\ links s1 p2 l2 None).
  { unfold s1. destruct (last l1) as [z|] eqn:Hz.
    - split; [by eapply links_set_next|]. apply last_Some_elem_of in Hz as Hin.
      apply links_frame; [by apply Hd| |done..]. rewrite Forall_forall in Hv1. by apply Hv1.
    - by apply last_None in Hz as ->. }
  destruct H1 as [H1 H2]. destruct (head l2) as [h|] eqn:Hh.
  - split; [|by eapply links_set_prev]. apply head_Some_elem_of in Hh as Hin.
    apply links_frame; [intros Hin'; by apply (Hd h Hin')| |done..].
    rewrite Forall_forall in Hv2. by apply Hv2.
  - split; [done|]. by apply head_None in Hh as ->.
Qed.

Lemma relink_table s z h : table_ok s -> table_ok (relink z h s).
Proof. intros Ht. unfold relink. destruct z, h; by repeat apply table_ok_upd. Qed.

(** What [remove_from_ready_queue] does to a queue with neighbours [z] and [h]
    of the removed task. *)
Definition queue_remove (t : Z) (z h : option Z) s : sched_state A D :=
  let s1 := relink z h s in
  let s2 := match z with None => set_head h s1 | Some _ => s1 end in
  let s3 := match h with None => set_tail z s2 | Some _ => s2 end in
  upd_task t (set_prev None) (upd_task t (set_next None) s3).

Lemma queue_remove_wf s l1 t l2 :
  queue_wf s (l1 ++ t :: l2) -> queue_wf (queue_remove t (last l1) (head l2) s) (l1 ++ l2).
Proof.
  intros [Htb Hn Hh Htl Hv Hl]. unfold queue_remove.
  assert (Hnd : NoDup (l1 ++ l2) /\ t ∉ l1 ++ l2).
  { apply NoDup_app in Hn as (Hn1 & Hd & [Hni Hn2]%NoDup_cons). rewrite NoDup_app. set_solver. }
  assert (Hva : Forall valid_task (l1 ++ l2) /\ valid_task t).
  { apply Forall_app in Hv as [Hv1 [Hvt Hv2]%Forall_cons]. split; [by apply Forall_app|done]. }
  destruct Hnd as [Hnd Hni], Hva as [Hva Hvt].
  apply links_app in Hl as [Hl1 (Htp & Htn & Hl2)].
  pose proof (relink_links s l1 l2 Htb Hnd Hva _ _ Hl1 Hl2) as Hlinks.
  set (s1 := relink (last l1) (head l2) s) in *.
  assert (Hends : ready_queue_head s1 = head (l1 ++ t :: l2) /\ ready_queue_tail s1 = last (l1 ++ t :: l2)).
  { rewrite <- Hh, <- Htl. unfold s1, relink. by destruct (last l1), (head l2). }
  destruct Hends as [Hh1 Htl1].
  assert (Htb1 : table_ok s1) by by apply relink_table.
  clearbody s1.
  set (s3 := match head l2 with None => set_tail (last l1) _ | Some _ => _ end).
  assert (Hq : queue_wf s3 (l1 ++ l2)).
  { assert (Ht3 : task_table s3 = task_table s1) by (unfold s3; by destruct (last l1), (head l2)).
    constructor; [unfold table_ok; by rewrite Ht3|done| | |done|].
    - unfold s3. destruct l1 as [|x l1]; [by destruct (head l2) eqn:E|].
      destruct (last (x :: l1)) eqn:E; [|by apply last_None in E].
      destruct (head l2); simpl; by rewrite Hh1.
    - unfold s3. destruct l2 as [|y l2 _] using rev_ind.
      + simpl. rewrite app_nil_r. by destruct (last l1).
      + destruct (head (l2 ++ [y])) eqn:E; [|by apply head_None, app_eq_nil in E as [_ ?]].
        rewrite app_assoc, last_snoc.
        replace (l1 ++ t :: l2 ++ [y]) with ((l1 ++ t :: l2) ++ [y]) in Htl1 by by rewrite <- app_assoc.
        rewrite last_snoc in Htl1. by destruct (last l1).
    - revert Hlinks. apply links_agree. intros x _. unfold the_task. by rewrite Ht3. }
  destruct Hq as [Htb3 _ Hh3 Htl3 _ Hl3].
  constructor; try done; [by repeat apply table_ok_upd|].
  do 2 (apply links_frame; [done..|]). exact Hl3.
Qed.

(** ** The operations of the code *)

Section run.
  Context `{PageAllocator A} `{!Mmu} `{PortIO D} `{ContextSwitch}.

Lemma run_add_to_ready_queue s l t :
    queue_wf s l -> add_to_ready_queue (Some t) s = (Ret tt, queue_append t s).
  Proof.
    intros [_ _ Hh Htl _ _]. unfold add_to_ready_queue, update, queue_append. do 2 mstep.
    change (ready_queue_head (upd_task t (set_next None) s)) with (ready_queue_head s).
    change (ready_queue_tail (upd_task t (set_next None) s)) with (ready_queue_tail s).
    rewrite Hh, Htl. destruct l as [|z l0 _] using rev_ind; [done|].
    rewrite last_snoc. by destruct l0.
  Qed.

Lemma run_remove_from_ready_queue s l1 t l2 :
    queue_wf s (l1 ++ t :: l2) ->
    remove_from_ready_queue (Some t) s = (Ret tt, queue_remove t (last l1) (head l2) s).
  Proof.
    intros [Htb Hn Hh Htl Hv Hl]. unfold remove_from_ready_queue, update, queue_remove, relink. mstep.
    apply links_app in Hl as [_ (Htp & Htn & _)]. rewrite or_none in Htp, Htn.
    apply NoDup_app in Hn as (_ & Hd & [Hni _]%NoDup_cons).
    apply Forall_app in Hv as [Hv1 [Hvt _]%Forall_cons]. rewrite Forall_forall in Hv1.
    destruct l1 as [|x l1].
    - (* the head *)
      rewrite decide_True by done. rewrite Htn. simpl. by destruct (head l2).
    - rewrite decide_False.
      2:{ rewrite Hh. simpl. intros [= ->]. by apply (Hd t); [left|left]. }
      destruct (last (x :: l1)) as [z|] eqn:Hz; [|by apply last_None in Hz].
      destruct (head l2) as [h|] eqn:Hhd.
      + (* in the middle *)
        destruct l2 as [|y l2 _] using rev_ind; [done|].
        rewrite decide_False.
        2:{ rewrite Htl, app_comm_cons, app_assoc, last_snoc. intros [= ->]. set_solver. }
        rewrite Htp. apply last_Some_elem_of in Hz.
        assert (z <> t) by (intros ->; by apply (Hd t Hz); left).
        unfold mbind, m_bind, mmodify, mget. rewrite the_upd_ne, Htn, Htp by auto. done.
      + (* the tail *)
        apply head_None in Hhd as ->. rewrite decide_True by (by rewrite Htl, last_snoc).
        by rewrite Htp.
  Qed.
End run.

End queue.
