(* ===== verification/SchedSpec.v ===== *)
(** The correctness of the scheduler: the ready queue operations against
    lists, preemption by the timer as a round robin, and what happens to a
    task that runs alone, to the idle task and to the task lock. *)
From S2P Require Import Prelude PageAllocator Vmm Interrupts Sched SchedQueue.
Import Sched.

Section sched_spec.
  Context {A D : Type} `{PageAllocator A} `{!Mmu} `{PortIO D} `{ContextSwitch}.
  Implicit Types s : sched_state A D.

(** ** The ready queue *)

Inductive queue_op : Type :=
| Enqueue (t : Z)
| Unlink (t : Z).

Definition queue_exec (op : queue_op) : M (sched_state A D) unit :=
  match op with
  | Enqueue t => add_to_ready_queue (Some t)
  | Unlink t => remove_from_ready_queue (Some t)
  end.

(** The operations on lists; [None] where the code must not be called. *)
Definition queue_abs (op : queue_op) (l : list Z) : option (list Z) :=
  match op with
  | Enqueue t =>
      if bool_decide (valid_task t) && negb (bool_decide (t ∈ l)) then Some (l ++ [t]) else None
  | Unlink t => if bool_decide (t ∈ l) then Some (filter (fun x => x <> t) l) else None
  end.

Lemma filter_ne_id (l : list Z) t : t ∉ l -> filter (fun x => x <> t) l = l.
Proof using Type.
  induction l as [|y l IH]; intros Hl; [done|].
  rewrite filter_cons_True by set_solver. f_equal. apply IH. set_solver.
Qed.

Lemma filter_ne_split (l1 l2 : list Z) t :
  NoDup (l1 ++ t :: l2) -> filter (fun x => x <> t) (l1 ++ t :: l2) = l1 ++ l2.
Proof using Type.
  intros (Hn1 & Hd & [Hni Hn2]%NoDup_cons)%NoDup_app.
  rewrite filter_app, filter_cons_False by tauto. rewrite !filter_ne_id; [done|done|].
  intros Ht. apply (Hd t Ht). by left.
Qed.

Lemma queue_exec_refines op s l l' :
  queue_wf s l -> queue_abs op l = Some l' ->
  exists s', queue_exec op s = (Ret tt, s') /\ queue_wf s' l'.
Proof using Type*.
  intros Hq. destruct op as [t|t]; cbn [queue_exec queue_abs].
  - destruct (bool_decide_reflect (valid_task t)) as [Ht|]; [|done].
    destruct (bool_decide_reflect (t ∈ l)) as [|Hni]; [done|]. intros [= <-].
    rewrite (run_add_to_ready_queue s l t Hq). eexists. split; [done|]. by apply queue_append_wf.
  - destruct (bool_decide_reflect (t ∈ l)) as [Hin|]; [|done]. intros [= <-].
    apply list_elem_of_split in Hin as (l1 & l2 & ->).
    rewrite (run_remove_from_ready_queue s l1 t l2 Hq), filter_ne_split by apply Hq.
    eexists. split; [done|]. by apply queue_remove_wf.
Qed.

(** ** Switching *)

(** The state after a switch from task [p] to task [n]. *)
Definition switch_tasks (p n : Z) s : sched_state A D :=
  let s1 := set_current (Some n) s in
  let s2 := if decide (state (the_task s1 p) = TASK_STATE_RUNNING)
            then upd_task p (set_state TASK_STATE_READY) s1 else s1 in
  let s3 := upd_task n (set_state TASK_STATE_RUNNING) s2 in
  let s4 := upd_task n (set_last_schedule (cpu_time (the_task s3 n))) s3 in
  let s5 := set_vm (snd (Vmm.vmm_switch_address_space (page_table (the_task s4 n)) (vm s4))) s4 in
  upd_task p (set_context (saved_context (context (the_task s5 p)))) s5.

Lemma run_switch_address_space c (v : Vmm.vmm_state A) :
  Vmm.vmm_switch_address_space c v = (Ret tt, snd (Vmm.vmm_switch_address_space c v)).
Proof using Type.
  unfold Vmm.vmm_switch_address_space, mbind, m_bind, mget. by destruct (_ || _).
Qed.

Lemma run_context_switch s p n :
  current_task s = Some p -> p <> n -> context_switch (Some n) s = (Switched, switch_tasks p n s).
Proof using Type*.
  intros Hp Hne. unfold context_switch, update. mstep. rewrite Hp.
  rewrite decide_False by congruence. mstep. unfold switch_tasks.
  set (s1 := set_current (Some n) s).
  assert (Hd : forall {T} (k : unit -> M (sched_state A D) T),
    ((if decide (state (the_task s p) = TASK_STATE_RUNNING)
      then mmodify (upd_task p (set_state TASK_STATE_READY)) else mret tt) ≫= k) s1 =
    k tt (if decide (state (the_task s1 p) = TASK_STATE_RUNNING)
            then upd_task p (set_state TASK_STATE_READY) s1 else s1)).
  { intros T k. change (the_task s1 p) with (the_task s p). by case_decide. }
  rewrite Hd. clear Hd. do 3 mstep.
  erewrite run_bind; [|apply run_zoom, run_switch_address_space]. mstep. done.
Qed.

Lemma run_context_switch_same s n :
  current_task s = Some n -> context_switch (Some n) s = (Ret tt, s).
Proof using Type*.
  intros Hn. unfold context_switch. mstep. by rewrite Hn, decide_True.
Qed.

(** What a switch does to the tasks. *)
Lemma switch_tasks_facts s p n :
  table_ok s -> valid_task p -> valid_task n -> p <> n ->
  let s' := switch_tasks p n s in
  table_ok s' /\ current_task s' = Some n /\
  ready_queue_head s' = ready_queue_head s /\ ready_queue_tail s' = ready_queue_tail s /\
  idle_task s' = idle_task s /\ task_lock s' = task_lock s /\
  the_task s' n = set_last_schedule (cpu_time (the_task s n)) (set_state TASK_STATE_RUNNING (the_task s n)) /\
  (exists c, the_task s' p = set_context c
     (if decide (state (the_task s p) = TASK_STATE_RUNNING)
      then set_state TASK_STATE_READY (the_task s p) else the_task s p)) /\
  forall t, valid_task t -> t <> p -> t <> n -> the_task s' t = the_task s t.
Proof using Type*.
  intros Htb Hp Hn Hne. cbv zeta. unfold switch_tasks.
  set (s1 := set_current (Some n) s).
  set (s2 := if decide (state (the_task s1 p) = TASK_STATE_RUNNING) then _ else s1).
  assert (Htb2 : table_ok s2) by (unfold s2; case_decide; [by apply table_ok_upd|done]).
  assert (Hp2 : the_task s2 p = if decide (state (the_task s p) = TASK_STATE_RUNNING)
      then set_state TASK_STATE_READY (the_task s p) else the_task s p).
  { unfold s2. change (the_task s1 p) with (the_task s p).
    case_decide; [by rewrite the_upd_eq|done]. }
  assert (Ho2 : forall t, valid_task t -> t <> p -> the_task s2 t = the_task s t).
  { intros t Ht Htp. unfold s2. destruct (decide (state (the_task s1 p) = TASK_STATE_RUNNING));
      [rewrite the_upd_ne by auto|]; done. }
  assert (Hf2 : current_task s2 = Some n /\ ready_queue_head s2 = ready_queue_head s /\
    ready_queue_tail s2 = ready_queue_tail s /\ idle_task s2 = idle_task s /\ task_lock s2 = task_lock s).
  { unfold s2. by destruct (decide (state (the_task s1 p) = TASK_STATE_RUNNING)). }
  clearbody s2.
  set (s3 := upd_task n (set_state TASK_STATE_RUNNING) s2).
  set (s4 := upd_task n (set_last_schedule (cpu_time (the_task s3 n))) s3).
  assert (Htb3 : table_ok s3) by by apply table_ok_upd.
  assert (Htb4 : table_ok s4) by by apply table_ok_upd.
  set (s5 := set_vm _ s4). assert (Htb5 : table_ok s5) by done.
  split_and!; try apply Hf2; [by apply table_ok_upd| | |].
  - rewrite the_upd_ne by done. change (the_task s5 n) with (the_task s4 n).
    unfold s4. rewrite the_upd_eq by done. unfold s3. rewrite the_upd_eq by done. by rewrite Ho2 by auto.
  - eexists. rewrite the_upd_eq by done. change (the_task s5 p) with (the_task s4 p).
    unfold s4. rewrite the_upd_ne by auto. unfold s3. rewrite the_upd_ne, Hp2 by auto. done.
  - intros t Ht Htp Htn. rewrite the_upd_ne by auto. change (the_task s5 t) with (the_task s4 t).
    unfold s4. rewrite the_upd_ne by auto. unfold s3. rewrite the_upd_ne, Ho2 by auto. done.
Qed.

(** ** schedule_next *)

Lemma run_schedule_next_pop s n l :
  queue_wf s (n :: l) ->
  schedule_next s = context_switch (Some n) (queue_pop n (set_interrupts false s)).
Proof using Type*.
  intros [Htb Hn Hh Htl Hv (_ & Hnn & _)]. unfold schedule_next. do 2 mstep.
  change (ready_queue_head (set_interrupts false s)) with (ready_queue_head s). rewrite Hh. cbn [head].
  unfold queue_pop, update. change (the_task (set_interrupts false s) n) with (the_task s n).
  rewrite Hnn, or_none. by destruct (head l).
Qed.

Lemma run_schedule_next_idle s :
  ready_queue_head s = None -> idle_task s <> None ->
  schedule_next s = context_switch (idle_task s) (set_interrupts false s).
Proof using Type*.
  intros Hh Hi. unfold schedule_next. do 2 mstep.
  change (ready_queue_head (set_interrupts false s)) with (ready_queue_head s). rewrite Hh. mstep.
  change (idle_task (set_interrupts false s)) with (idle_task s). by destruct (idle_task s).
Qed.

Lemma queue_task_valid s l t : queue_wf s l -> t ∈ l -> valid_task t.
Proof using Type. intros Hq Ht. pose proof (qw_task _ _ Hq) as Hv. rewrite Forall_forall in Hv. auto. Qed.

(** What adding a task to the queue leaves alone. *)
Lemma queue_append_facts s l t :
  queue_wf s l -> valid_task t -> t ∉ l ->
  let s' := queue_append t s in
  current_task s' = current_task s /\ idle_task s' = idle_task s /\ task_lock s' = task_lock s /\
  state (the_task s' t) = TASK_STATE_READY /\
  forall x, valid_task x -> quantum (the_task s' x) = quantum (the_task s x) /\
    (x <> t -> state (the_task s' x) = state (the_task s x)).
Proof using Type.
  intros Hq Ht Hni. cbv zeta. unfold queue_append. rewrite (qw_tail _ _ Hq).
  assert (Hk : forall s0 i f, table_ok s0 -> valid_task i ->
    (forall y, quantum (f y) = quantum y /\ state (f y) = state y) ->
    forall x, valid_task x -> quantum (the_task (upd_task i f s0) x) = quantum (the_task s0 x) /\
                              state (the_task (upd_task i f s0) x) = state (the_task s0 x)).
  { intros s0 i f Htb Hi Hf x Hx. destruct (decide (i = x)) as [->|Hne].
    - rewrite the_upd_eq by done. apply Hf.
    - by rewrite the_upd_ne. }
  set (s1 := upd_task t (set_next None) s).
  set (s2 := match last l with Some _ => _ | None => _ end).
  assert (Hs2 : table_ok s2 /\ current_task s2 = current_task s /\ idle_task s2 = idle_task s /\
    task_lock s2 = task_lock s /\
    forall x, valid_task x -> quantum (the_task s2 x) = quantum (the_task s x) /\
                              state (the_task s2 x) = state (the_task s x)).
  { unfold s2. pose proof (qw_table _ _ Hq) as Htb. destruct (last l) as [z|] eqn:Hz.
    - assert (Hvz : valid_task z).
      { apply (queue_task_valid s l); [done|by apply last_Some_elem_of]. }
      split_and!; [by repeat apply table_ok_upd|done..|]. intros x Hx.
      change (the_task (set_tail _ ?y) x) with (the_task y x).
      destruct (Hk (upd_task z (set_next (Some t)) s1) t (set_prev (Some z))) with (x := x) as [-> ->];
        [by repeat apply table_ok_upd|done..|].
      destruct (Hk s1 z (set_next (Some t))) with (x := x) as [-> ->];
        [by repeat apply table_ok_upd|done..|]. by apply Hk.
    - split_and!; [by repeat apply table_ok_upd|done..|]. intros x Hx.
      destruct (Hk (set_tail (Some t) (set_head (Some t) s1)) t (set_prev None)) with (x := x) as [-> ->];
        [by repeat apply table_ok_upd|done..|]. by apply (Hk s). }
  destruct Hs2 as (Htb2 & Hc2 & Hi2 & Hl2 & Hx2). clearbody s2.
  split_and!; [done..| |].
  - by rewrite the_upd_eq.
  - intros x Hx. destruct (Hx2 x Hx) as [<- <-]. destruct (decide (t = x)) as [->|Hne].
    + by rewrite the_upd_eq.
    + by rewrite the_upd_ne.
Qed.

(** ** Preemption *)

(** Task [c] runs, having used [k] ticks of its quantum [q]; the tasks of [l]
    are ready, in this order. *)
Record run_inv (i q : Z) s (c : Z) (l : list Z) (k : Z) : Prop := {
  ri_queue : queue_wf s l;
  ri_current : current_task s = Some c;
  ri_valid : valid_task c;
  ri_fresh : c ∉ l;
  ri_idle : idle_task s = Some i;
  ri_other : valid_task i /\ i <> c /\ i ∉ l;
  ri_running : state (the_task s c) = TASK_STATE_RUNNING;
  ri_ready t : t ∈ l -> state (the_task s t) = TASK_STATE_READY;
  ri_lock : task_lock s = 0;
  ri_quantum t : t = c \/ t ∈ l -> quantum (the_task s t) = q;
  ri_used : u64 (cpu_time (the_task s c) - last_schedule (the_task s c)) = k;
}.

Lemma used_tick cpu last :
  u64 (u64 (cpu + 1) - last) = u64 (u64 (cpu - last) + 1).
Proof using Type.
  unfold wrap. rewrite Zminus_mod_idemp_l, Zplus_mod_idemp_l. f_equal. lia.
Qed.

(** Task [c], idle or not, runs and has used [k] ticks of its quantum [q]. *)
Record cur_inv (q : Z) s (c : Z) (k : Z) : Prop := {
  ci_table : table_ok s;
  ci_current : current_task s = Some c;
  ci_valid : valid_task c;
  ci_running : state (the_task s c) = TASK_STATE_RUNNING;
  ci_quantum : quantum (the_task s c) = q;
  ci_used : u64 (cpu_time (the_task s c) - last_schedule (the_task s c)) = k;
}.

Lemma run_inv_cur i q s c l k : run_inv i q s c l k -> cur_inv q s c k.
Proof using Type.
  intros [Hq Hc Hv Hf Hi Hio Hr Hre Hl Hqu Hu]. constructor; try done; [apply Hq|]. apply Hqu. by left.
Qed.

(** The state after counting a tick of the running task [c]. *)
Definition ticked (c : Z) s : sched_state A D :=
  let st := scheduler_stats s in
  let s1 := set_stats (Stats (total_tasks_created st) (u64 (ticks_since_boot st + 1))
               (current_task_count st)) s in
  upd_task c (set_cpu_time (u64 (cpu_time (the_task s1 c) + 1))) s1.

Lemma the_ticked_eq s c : table_ok s -> valid_task c ->
  the_task (ticked c s) c = set_cpu_time (u64 (cpu_time (the_task s c) + 1)) (the_task s c).
Proof using Type. intros Htb Hv. unfold ticked. by rewrite the_upd_eq. Qed.

Lemma the_ticked_ne s c t : valid_task c -> valid_task t -> t <> c ->
  the_task (ticked c s) t = the_task s t.
Proof using Type. intros Hc Ht Hne. unfold ticked. by rewrite the_upd_ne by auto. Qed.

Lemma ticked_quantum s c t : table_ok s -> valid_task c -> valid_task t ->
  quantum (the_task (ticked c s) t) = quantum (the_task s t).
Proof using Type.
  intros Htb Hc Ht. destruct (decide (t = c)) as [->|Hne].
  - by rewrite the_ticked_eq.
  - by rewrite the_ticked_ne.
Qed.

Lemma ticked_queue s c l : queue_wf s l -> valid_task c -> queue_wf (ticked c s) l.
Proof using Type. intros Hq Hc. apply queue_wf_upd; [|done|done]. by apply (queue_wf_ext s). Qed.

Lemma ticked_cur q s c k : cur_inv q s c k -> k + 1 < 2 ^ 64 -> cur_inv q (ticked c s) c (k + 1).
Proof using Type.
  intros [Htb Hc Hv Hr Hq Hu] Hk.
  assert (Hk0 : 0 <= k) by (rewrite <- Hu; apply wrap_range; lia).
  constructor; try done; [by apply table_ok_upd|by rewrite the_ticked_eq..|].
  rewrite the_ticked_eq by done. simpl. rewrite used_tick, Hu. apply wrap_small. lia.
Qed.

Lemma ticked_inv i q s c l k :
  run_inv i q s c l k -> k + 1 < 2 ^ 64 -> run_inv i q (ticked c s) c l (k + 1).
Proof using Type.
  intros Hri Hk. destruct (ticked_cur q s c k (run_inv_cur _ _ _ _ _ _ Hri) Hk) as [_ Hc Hv Hr _ Hu].
  destruct Hri as [Hq _ _ Hf Hi Hio _ Hre Hl Hqu _].
  assert (Hother : forall t, t ∈ l -> the_task (ticked c s) t = the_task s t).
  { intros t Ht. apply the_ticked_ne; [done|by apply (queue_task_valid s l)|]. by intros ->. }
  constructor; try done.
  - by apply ticked_queue.
  - intros t Ht. rewrite Hother by done. auto.
  - intros t Ht. rewrite ticked_quantum; [by apply Hqu|apply Hq|done|].
    destruct Ht as [->|Ht]; [done|by apply (queue_task_valid s l)].
Qed.

Lemma run_acquire s : task_lock s = 0 -> spinlock_acquire s = (Ret tt, set_lock 1 s).
Proof using Type. intros Hl. unfold spinlock_acquire. mstep. by rewrite Hl. Qed.

Lemma run_acquire_held s : task_lock s <> 0 -> spinlock_acquire s = (Spin, s).
Proof using Type.
  intros Hl. unfold spinlock_acquire. mstep. by rewrite (proj2 (Z.eqb_neq _ _) Hl).
Qed.

(** A tick of the running task: counted, then compared with the quantum. *)
Lemma run_tick_running q s c k n :
  cur_inv q s c k -> k + 1 < q -> q < 2 ^ 64 -> timer_callback n s = (Ret tt, ticked c s).
Proof using Type*.
  intros Hci Hk Hq64. pose proof (ticked_cur q s c k Hci ltac:(lia)) as Hci'.
  unfold timer_callback, count_tick. do 2 mstep.
  change (current_task (set_stats _ s)) with (current_task s). rewrite (ci_current _ _ _ _ Hci).
  change (the_task (set_stats _ s) c) with (the_task s c).
  rewrite decide_True by apply Hci. do 2 mstep.
  change (upd_task c _ (set_stats _ s)) with (ticked c s).
  rewrite (ci_used _ _ _ _ Hci'), (ci_quantum _ _ _ _ Hci').
  by replace (q <=? k + 1) with false by lia.
Qed.

(** When the quantum is used up and the running task is not the idle task, it
    goes to the end of the queue and [schedule_next] runs with the lock
    released. *)
Lemma run_tick_expired i q s c l k n :
  run_inv i q s c l k -> q = k + 1 -> q < 2 ^ 64 ->
  exists s1, timer_callback n s = schedule_next s1 /\
    queue_wf s1 (l ++ [c]) /\ current_task s1 = Some c /\ idle_task s1 = idle_task s /\
    task_lock s1 = 0 /\ state (the_task s1 c) = TASK_STATE_READY /\
    (forall t, valid_task t -> quantum (the_task s1 t) = quantum (the_task s t)) /\
    (forall t, t ∈ l -> state (the_task s1 t) = TASK_STATE_READY).
Proof using Type*.
  intros Hri Hk Hq64. pose proof (ticked_inv i q s c l k Hri ltac:(lia)) as Hri'.
  unfold timer_callback, count_tick, spinlock_acquire, spinlock_release, update. do 2 mstep.
  change (current_task (set_stats _ s)) with (current_task s). rewrite (ri_current _ _ _ _ _ _ Hri).
  change (the_task (set_stats _ s) c) with (the_task s c).
  rewrite decide_True by apply Hri. do 2 mstep.
  change (upd_task c _ (set_stats _ s)) with (ticked c s).
  rewrite (ri_used _ _ _ _ _ _ Hri'), (ri_quantum _ _ _ _ _ _ Hri' c) by by left.
  replace (q <=? k + 1) with true by lia.
  set (s0 := ticked c s) in *. pose proof (ri_valid _ _ _ _ _ _ Hri') as Hv.
  mstep (run_acquire s0 (ri_lock _ _ _ _ _ _ Hri')).
  pose proof (ri_idle _ _ _ _ _ _ Hri) as Hi. destruct (ri_other _ _ _ _ _ _ Hri) as (_ & Hic & _).
  change (idle_task s0) with (idle_task s). rewrite (ri_current _ _ _ _ _ _ Hri'), Hi.
  rewrite decide_False by congruence.
  set (s2 := upd_task c (set_state TASK_STATE_READY) (set_lock 1 s0)).
  assert (Hq2 : queue_wf s2 l).
  { apply queue_wf_upd; [|done|done]. by apply (queue_wf_ext s0); [apply Hri'|..]. }
  pose proof (ri_fresh _ _ _ _ _ _ Hri') as Hni.
  pose proof (queue_append_wf s2 l c Hq2 Hv Hni) as Hqa.
  exists (set_lock 0 (queue_append c s2)). split.
  { erewrite run_bind; [|mstep; fold s2; apply (run_add_to_ready_queue s2 l c Hq2)]. by mstep. }
  destruct (queue_append_facts s2 l c Hq2 Hv Hni) as (Hac & Hai & Hal & Has & Hao).
  assert (Hlt : forall t, t ∈ l -> the_task s2 t = the_task s0 t).
  { intros t Ht. unfold s2. rewrite the_upd_ne; [done|done|by apply (queue_task_valid s2 l)|].
    by intros ->. }
  assert (Hc2 : the_task s2 c = set_state TASK_STATE_READY (the_task s0 c)).
  { unfold s2. rewrite the_upd_eq; [done|apply Hri'|done]. }
  split_and!; [by apply (queue_wf_ext (queue_append c s2))
    |etrans; [exact Hac|exact (ri_current _ _ _ _ _ _ Hri')]|etrans; [exact Hai|done]|done|exact Has| |].
  - intros t Ht. destruct (Hao t Ht) as (Hqc & _). etrans; [exact Hqc|].
    destruct (decide (t = c)) as [->|Htc].
    + rewrite Hc2. simpl. apply ticked_quantum; [apply Hri|done..].
    + unfold s2. rewrite the_upd_ne by auto. apply ticked_quantum; [apply Hri|done..].
  - intros t Ht. destruct (Hao t) as (_ & Hst); [by apply (queue_task_valid s2 l)|].
    etrans; [apply Hst; by intros ->|]. rewrite Hlt by done. by apply (ri_ready _ _ _ _ _ _ Hri').
Qed.

(** ** The switch at the end of a quantum *)

Lemma queue_pop_facts s n l :
  queue_wf s (n :: l) ->
  let s' := queue_pop n s in
  current_task s' = current_task s /\ idle_task s' = idle_task s /\ task_lock s' = task_lock s /\
  forall x, valid_task x ->
    quantum (the_task s' x) = quantum (the_task s x) /\ state (the_task s' x) = state (the_task s x).
Proof using Type.
  intros [Htb Hn Hh Htl Hv (_ & Hnn & _)]. cbv zeta. unfold queue_pop. rewrite Hnn, or_none.
  apply Forall_cons in Hv as [Hvn Hv].
  set (s2 := match head l with Some _ => _ | None => _ end).
  assert (Hs2 : table_ok s2 /\ current_task s2 = current_task s /\ idle_task s2 = idle_task s /\
    task_lock s2 = task_lock s /\
    forall x, valid_task x -> quantum (the_task s2 x) = quantum (the_task s x) /\
                              state (the_task s2 x) = state (the_task s x)).
  { unfold s2. destruct l as [|h l]; [done|]. apply Forall_cons in Hv as [Hvh _]. cbn [head].
    split_and!; [by apply table_ok_upd|done..|]. intros x Hx. destruct (decide (h = x)) as [->|Hne].
    - by rewrite the_upd_eq.
    - by rewrite the_upd_ne. }
  destruct Hs2 as (Htb2 & Hc2 & Hi2 & Hl2 & Hx2). clearbody s2.
  split_and!; [done..|]. intros x Hx. destruct (Hx2 x Hx) as [<- <-].
  destruct (decide (n = x)) as [->|Hne].
  - by rewrite !the_upd_eq by (try apply table_ok_upd; done).
  - by rewrite !the_upd_ne.
Qed.

Lemma switch_tasks_queue s p n l :
  queue_wf s l -> valid_task p -> valid_task n -> queue_wf (switch_tasks p n s) l.
Proof using Type*.
  intros Hq Hp Hn. unfold switch_tasks.
  set (s1 := set_current (Some n) s).
  set (s2 := if decide (state (the_task s1 p) = TASK_STATE_RUNNING) then _ else s1).
  set (s3 := upd_task n (set_state TASK_STATE_RUNNING) s2).
  set (s4 := upd_task n (set_last_schedule (cpu_time (the_task s3 n))) s3).
  assert (Hq1 : queue_wf s1 l) by by apply (queue_wf_ext s).
  assert (Hq2 : queue_wf s2 l) by (unfold s2; case_decide; [by apply queue_wf_upd|done]).
  assert (Hq4 : queue_wf s4 l) by (do 2 (apply queue_wf_upd; [|done|done]); done).
  apply queue_wf_upd; [|done|done]. by apply (queue_wf_ext s4).
Qed.

Lemma tick_switch i q s c h l k n :
  run_inv i q s c (h :: l) k -> q = k + 1 -> q < 2 ^ 64 ->
  exists s', timer_callback n s = (Switched, s') /\ run_inv i q s' h (l ++ [c]) 0.
Proof using Type*.
  intros Hri Hk Hq64.
  destruct (run_tick_expired i q s c (h :: l) k n Hri Hk Hq64)
    as (s1 & -> & Hq1 & Hc1 & Hi1 & Hl1 & Hs1 & Hqu1 & Hst1).
  assert (Hq1' : queue_wf (set_interrupts false s1) (h :: l ++ [c])) by by apply (queue_wf_ext s1).
  rewrite (run_schedule_next_pop s1 h (l ++ [c]) Hq1).
  set (s1' := set_interrupts false s1) in *.
  destruct (queue_pop_facts s1' h (l ++ [c]) Hq1') as (Hc2 & Hi2 & Hl2 & Hx2).
  pose proof (queue_pop_wf _ _ _ Hq1') as Hq2. set (s2 := queue_pop h s1') in *.
  pose proof (ri_valid _ _ _ _ _ _ Hri) as Hvc. pose proof (ri_fresh _ _ _ _ _ _ Hri) as Hfr.
  assert (Hvh : valid_task h) by (apply (queue_task_valid s (h :: l)); [apply Hri|left]).
  assert (Hch : c <> h) by (intros ->; apply Hfr; left).
  assert (Hhl : h ∉ l ++ [c]) by (apply (NoDup_cons_1_1 h), (qw_nodup _ _ Hq1')).
  rewrite (run_context_switch s2 c h) by (done || by rewrite Hc2).
  exists (switch_tasks c h s2). split; [done|].
  destruct (switch_tasks_facts s2 c h) as (Htb3 & Hc3 & Hhd3 & Htl3 & Hi3 & Hl3 & Hh3 & [ctx Hcc3] & Ho3);
    [apply Hq2|done..|].
  pose proof (switch_tasks_queue s2 c h (l ++ [c]) Hq2 Hvc Hvh) as Hq3.
  set (s3 := switch_tasks c h s2) in *. clearbody s3.
  assert (Hall : forall t, t ∈ l ++ [c] -> quantum (the_task s3 t) = q /\ state (the_task s3 t) = TASK_STATE_READY).
  { intros t Ht. pose proof (queue_task_valid _ _ _ Hq3 Ht) as Hvt. destruct (Hx2 t Hvt) as [Hqt Hst].
    destruct (decide (t = c)) as [->|Htc].
    - rewrite Hcc3. rewrite decide_False by (rewrite Hst; change (the_task s1' c) with (the_task s1 c); by rewrite Hs1).
      simpl. rewrite Hqt, Hst. split; [|exact Hs1]. etrans; [by apply Hqu1|]. apply (ri_quantum _ _ _ _ _ _ Hri). by left.
    - assert (Htl : t ∈ h :: l) by (apply elem_of_app in Ht as [Ht|Ht]; [by right|set_solver]).
      rewrite (Ho3 t Hvt Htc) by (intros ->; done). rewrite Hqt, Hst.
      split; [|by apply Hst1]. etrans; [by apply Hqu1|]. apply (ri_quantum _ _ _ _ _ _ Hri). by right. }
  pose proof (ri_idle _ _ _ _ _ _ Hri) as Hi. destruct (ri_other _ _ _ _ _ _ Hri) as (Hvi & Hic & Hil).
  constructor; try done.
  - rewrite Hi3, Hi2. change (idle_task s1') with (idle_task s1). by rewrite Hi1.
  - split_and!; [done|set_solver|set_solver].
  - by rewrite Hh3.
  - intros t Ht. by apply Hall.
  - rewrite Hl3, Hl2. exact Hl1.
  - intros t [->|Ht]; [|by apply Hall]. rewrite Hh3. simpl. destruct (Hx2 h Hvh) as [-> _].
    etrans; [by apply Hqu1|]. apply (ri_quantum _ _ _ _ _ _ Hri). right. left.
  - rewrite Hh3. simpl. by rewrite Z.sub_diag.
Qed.

(** With no other ready task, the running task is taken off the queue again
    and stays current, in state READY. *)
Lemma tick_alone i q s c k n :
  run_inv i q s c [] k -> q = k + 1 -> q < 2 ^ 64 ->
  exists s', timer_callback n s = (Ret tt, s') /\ queue_wf s' [] /\ current_task s' = Some c /\
    state (the_task s' c) = TASK_STATE_READY /\ idle_task s' = idle_task s /\
    forall t, valid_task t -> quantum (the_task s' t) = quantum (the_task s t).
Proof using Type*.
  intros Hri Hk Hq64.
  destruct (run_tick_expired i q s c [] k n Hri Hk Hq64)
    as (s1 & -> & Hq1 & Hc1 & Hi1 & Hl1 & Hs1 & Hqu1 & _).
  assert (Hq1' : queue_wf (set_interrupts false s1) [c]) by by apply (queue_wf_ext s1).
  rewrite (run_schedule_next_pop s1 c [] Hq1).
  destruct (queue_pop_facts _ c [] Hq1') as (Hc2 & Hi2 & Hl2 & Hx2).
  pose proof (queue_pop_wf _ _ _ Hq1') as Hq2.
  rewrite run_context_switch_same by by rewrite Hc2.
  eexists. split; [done|]. split_and!; [done|by rewrite Hc2| |by rewrite Hi2|].
  - destruct (Hx2 c (ri_valid _ _ _ _ _ _ Hri)) as [_ ->]. exact Hs1.
  - intros t Ht. destruct (Hx2 t Ht) as [-> _]. by apply Hqu1.
Qed.

(** ** Sequences of timer ticks

    The callback returns, or it switches to another task, in which the next
    tick is taken. *)
Fixpoint ticks (n : nat) s : option (sched_state A D) :=
  match n with
  | O => Some s
  | S n =>
      match timer_callback 0 s with
      | (Ret _, s') | (Switched, s') => ticks n s'
      | _ => None
      end
  end.

Lemma ticks_add n m s s' : ticks n s = Some s' -> ticks (n + m) s = ticks m s'.
Proof using Type.
  revert s. induction n as [|n IH]; intros s; cbn [ticks Nat.add]; [by intros [= ->]|].
  destruct (timer_callback 0 s) as [[] s1]; try done; apply IH.
Qed.

Lemma ticks_S s s' n : timer_callback 0 s = (Ret tt, s') \/ timer_callback 0 s = (Switched, s') ->
  ticks (S n) s = ticks n s'.
Proof using Type. intros Hr. cbn [ticks]. by destruct Hr as [-> | ->]. Qed.

(** Ticks inside one quantum. *)
Lemma ticks_quantum (P : sched_state A D -> Prop) q s c k n :
  (forall s0, P s0 -> P (ticked c s0)) -> P s ->
  cur_inv q s c k -> k + Z.of_nat n < q -> q < 2 ^ 64 ->
  exists s', ticks n s = Some s' /\ P s' /\ cur_inv q s' c (k + Z.of_nat n).
Proof using Type*.
  intros HP. revert s k. induction n as [|n IH]; intros s k Hs Hci Hk Hq.
  { exists s. rewrite Z.add_0_r. done. }
  destruct (IH (ticked c s) (k + 1)) as (s' & Ht & Hs' & Hci'); [by apply HP|apply ticked_cur; [done|lia]|lia..|].
  exists s'. rewrite (ticks_S s (ticked c s)); [|left; apply (run_tick_running q s c k 0); [done|lia..]].
  split_and!; [done..|]. by replace (k + Z.of_nat (S n)) with (k + 1 + Z.of_nat n) by lia.
Qed.

Lemma run_inv_ticks i q s c l n :
  run_inv i q s c l 0 -> Z.of_nat n < q -> q < 2 ^ 64 ->
  exists s', ticks n s = Some s' /\ run_inv i q s' c l (Z.of_nat n).
Proof using Type*.
  intros Hri Hn Hq.
  assert (Hgen : forall m k s0, run_inv i q s0 c l k -> k + Z.of_nat m < q ->
    exists s', ticks m s0 = Some s' /\ run_inv i q s' c l (k + Z.of_nat m)).
  { induction m as [|m IH]; intros k s0 HR Hk.
    - exists s0. by rewrite Z.add_0_r.
    - destruct (IH (k + 1) (ticked c s0)) as (s' & Ht & Hs'); [by apply ticked_inv; [|lia]|lia|].
      exists s'. rewrite (ticks_S s0 (ticked c s0)).
      + split; [done|]. by replace (k + Z.of_nat (S m)) with (k + 1 + Z.of_nat m) by lia.
      + left. apply (run_tick_running q s0 c k 0); [by eapply run_inv_cur|lia..]. }
  by apply (Hgen n 0 s).
Qed.

(** One whole quantum. *)
Lemma round_robin_once i q s c h l :
  run_inv i q s c (h :: l) 0 -> 0 < q < 2 ^ 64 ->
  exists s', ticks (Z.to_nat q) s = Some s' /\ run_inv i q s' h (l ++ [c]) 0.
Proof using Type*.
  intros Hri Hq.
  destruct (run_inv_ticks i q s c (h :: l) (Z.to_nat (q - 1)) Hri) as (s1 & Ht & Hri1); [lia..|].
  destruct (tick_switch i q s1 c h l _ 0 Hri1) as (s2 & Hr & Hri2); [lia..|].
  exists s2. split; [|done].
  replace (Z.to_nat q) with (Z.to_nat (q - 1) + 1)%nat by lia.
  rewrite (ticks_add _ 1 _ _ Ht). rewrite (ticks_S s1 s2); [done|by right].
Qed.

(** The rotation of the tasks, the running one first. *)
Definition rotate (cl : Z * list Z) : Z * list Z :=
  match snd cl with
  | [] => cl
  | h :: l => (h, l ++ [fst cl])
  end.

Fixpoint rotations (j : nat) (cl : Z * list Z) : Z * list Z :=
  match j with O => cl | S j => rotate (rotations j cl) end.

Lemma rotations_others j c l : l <> [] -> snd (rotations j (c, l)) <> [].
Proof using Type.
  intros Hl. induction j as [|j IH]; [done|]. cbn [rotations].
  destruct (rotations j (c, l)) as [c' [|h l']]; [done|].
  change (l' ++ [c'] <> []). intros E. by apply app_nil in E as [_ E].
Qed.

(** A tick while the current task is not running and no task is ready: the
    idle task gets the processor. *)
Lemma tick_to_idle s c i :
  queue_wf s [] -> current_task s = Some c -> state (the_task s c) <> TASK_STATE_RUNNING ->
  idle_task s = Some i -> valid_task c -> valid_task i /\ c <> i ->
  exists s', timer_callback 0 s = (Switched, s') /\ current_task s' = Some i /\
    state (the_task s' i) = TASK_STATE_RUNNING /\ queue_wf s' [] /\
    the_task s' i = set_last_schedule (cpu_time (the_task s i)) (set_state TASK_STATE_RUNNING (the_task s i)) /\
    state (the_task s' c) = state (the_task s c).
Proof using Type*.
  intros Hq Hc Hs Hi Hvc [Hvi Hne]. unfold timer_callback, count_tick. do 2 mstep.
  change (current_task (set_stats _ s)) with (current_task s). rewrite Hc.
  change (the_task (set_stats _ s) c) with (the_task s c). rewrite decide_False by done.
  set (s0 := set_stats _ s). rewrite run_schedule_next_idle; [|apply Hq|by change (idle_task s <> None); rewrite Hi].
  set (s1 := set_interrupts false s0).
  change (idle_task s0) with (idle_task s). rewrite Hi, (run_context_switch s1 c i) by done.
  assert (Hq1 : queue_wf s1 []) by by apply (queue_wf_ext s).
  destruct (switch_tasks_facts s1 c i) as (_ & Hc3 & _ & _ & _ & _ & Hi3 & [ctx Hcc] & _); [apply Hq1|done..|].
  eexists. split; [done|]. split_and!; [done|by rewrite Hi3|by apply switch_tasks_queue|exact Hi3|].
  rewrite Hcc. by rewrite decide_False.
Qed.

(** C7: the ready queue.  Whenever the task table holds a well-formed doubly
    linked queue of distinct tasks, adding a task that is not in it and
    removing one that is return and leave a well-formed queue of the tasks of
    the list operations: append and delete. *)
Theorem ready_queue_refines_list ops s l l' :
  queue_wf s l ->
  foldl (fun o op => l0 ← o; queue_abs op l0) (Some l) ops = Some l' ->
  exists s', foldr (fun op k s0 => match queue_exec op s0 with (Ret _, s1) => k s1 | _ => None end)
               Some ops s = Some s' /\ queue_wf s' l'.
Proof using Type*.
  revert s l. induction ops as [|op ops IH]; intros s l Hq; cbn [foldl foldr].
  { intros [= <-]. by exists s. }
  simpl. destruct (queue_abs op l) as [l1|] eqn:Hop.
  - destruct (queue_exec_refines op s l l1 Hq Hop) as (s1 & Hr & Hq1). intros Hf.
    rewrite Hr. by apply (IH s1 l1).
  - intros Hf. exfalso. revert Hf. clear. induction ops as [|op' ops IH]; [done|]. exact IH.
Qed.


(** a task that runs while no other is ready is lost at the end of its
    quantum: the queue stays empty and one tick later the idle task runs,
    although the task never stopped being able to run.  (At its quantum's end
    it is made READY, queued and at once taken off the queue again by
    [schedule_next], which does not switch to it because it is current.) *)
Theorem lone_task_is_lost i q s c :
  run_inv i q s c [] 0 -> 0 < q < 2 ^ 64 ->
  exists s', ticks (Z.to_nat q + 1) s = Some s' /\
    current_task s' = Some i /\ state (the_task s' i) = TASK_STATE_RUNNING /\
    queue_wf s' [] /\ state (the_task s' c) = TASK_STATE_READY.
Proof using Type*.
  intros Hri Hq.
  destruct (run_inv_ticks i q s c [] (Z.to_nat (q - 1)) Hri) as (s1 & Ht & Hri1); [lia..|].
  destruct (tick_alone i q s1 c _ 0 Hri1) as (s2 & Hr & Hq2 & Hc2 & Hs2 & Hi2 & _); [lia..|].
  destruct (tick_to_idle s2 c i) as (s3 & Hr3 & Hc3 & Hs3 & Hq3 & _ & Hsc); [done|done|by rewrite Hs2| | | |].
  { rewrite Hi2. exact (ri_idle _ _ _ _ _ _ Hri1). }
  { exact (ri_valid _ _ _ _ _ _ Hri1). }
  { destruct (ri_other _ _ _ _ _ _ Hri1) as (? & ? & _). auto. }
  exists s3. split_and!; [|done..|by rewrite Hsc by by rewrite Hs2].
  replace (Z.to_nat q + 1)%nat with (Z.to_nat (q - 1) + 2)%nat by lia.
  rewrite (ticks_add _ 2 _ _ Ht), (ticks_S s1 s2) by by left. by rewrite (ticks_S s2 s3) by by right.
Qed.

(** once the idle task runs, ready tasks starve: its quantum is
    UINT64_MAX, so for any number of ticks below [UINT64_MAX - k], [k] being
    those it has used, it stays the running task and the ready queue [l], of
    any length, stays as it is. *)
Theorem idle_task_starves_ready_tasks s i k l n :
  cur_inv UINT64_MAX s i k -> idle_task s = Some i -> queue_wf s l -> k + Z.of_nat n < UINT64_MAX ->
  exists s', ticks n s = Some s' /\ current_task s' = Some i /\
    state (the_task s' i) = TASK_STATE_RUNNING /\ queue_wf s' l.
Proof using Type*.
  intros Hci _ Hq Hn.
  destruct (ticks_quantum (fun s0 => queue_wf s0 l) UINT64_MAX s i k n) as (s' & Ht & Hq' & Hci');
    [|done|done|done|done|].
  { intros s0 Hq0. apply ticked_queue; [done|apply Hci]. }
  exists s'. split_and!; [done|apply Hci'|apply Hci'|done].
Qed.

End sched_spec.
