(* ===== verification/SchedLock.v ===== *)
(** The task lock and the rest of the scheduler: the operations that deadlock
    or leave the lock taken, the task ids, the blocked queue, and the timer
    interrupt that switches tasks. *)
From S2P Require Import Prelude PageAllocator Vmm Interrupts Sched SchedQueue SchedSpec.
Import Sched.

Section sched_lock.
  Context {A D : Type} `{PageAllocator A} `{!Mmu} `{PortIO D} `{ContextSwitch}.
  Implicit Types s : sched_state A D.

(** ** The lock *)

Lemma spin_bind {X Y} (m : M (sched_state A D) X) (f : X -> M (sched_state A D) Y) s s' :
  m s = (Spin, s') -> (m ≫= f) s = (Spin, s').
Proof using Type. intros Hm. unfold mbind, m_bind. by rewrite Hm. Qed.

Lemma get_task_by_id_held s id :
  task_lock s <> 0 -> scheduler_get_task_by_id id s = (Spin, s).
Proof using Type*. intros Hl. apply spin_bind. by apply run_acquire_held. Qed.

Lemma acquire_then_get {Y} (f : option Z -> M (sched_state A D) Y) s id :
  fst ((spinlock_acquire ;; task ← scheduler_get_task_by_id id; f task) s) = Spin.
Proof using Type*.
  destruct (decide (task_lock s = 0)) as [Hl|Hl].
  - mstep (run_acquire s Hl). erewrite spin_bind; [done|]. by apply get_task_by_id_held.
  - erewrite spin_bind; [done|]. by apply run_acquire_held.
Qed.

(** [scheduler_terminate_task] and [scheduler_execute_task] never return:
    they take the task lock and then call [scheduler_get_task_by_id], which
    waits for the same lock. *)
Theorem terminate_and_execute_deadlock s id code argc argv envp :
  fst (scheduler_terminate_task id code s) = Spin /\
  fst (scheduler_execute_task id argc argv envp s) = Spin.
Proof using Type*.
  split; apply acquire_then_get.
Qed.

(** C35: [scheduler_yield] by a running task while another one is ready
    switches to that task with the task lock still taken; from then on the
    operations that need the lock wait forever. *)
Theorem yield_keeps_lock s c h l :
  queue_wf s (h :: l) -> current_task s = Some c -> valid_task c -> c ∉ h :: l ->
  state (the_task s c) = TASK_STATE_RUNNING -> task_lock s = 0 ->
  exists s', scheduler_yield s = (Switched, s') /\ current_task s' = Some h /\
    queue_wf s' (l ++ [c]) /\ task_lock s' = 1 /\
    fst (scheduler_yield s') = Spin /\ forall id, fst (scheduler_get_task_by_id id s') = Spin.
Proof using Type*.
  intros Hq Hc Hvc Hni Hr Hl. unfold scheduler_yield at 1, update. mstep (run_acquire s Hl). mstep.
  change (current_task (set_lock 1 s)) with (current_task s). rewrite Hc.
  change (the_task (set_lock 1 s) c) with (the_task s c). rewrite decide_True by done.
  set (s1 := upd_task c (set_state TASK_STATE_READY) (set_lock 1 s)).
  assert (Hq1 : queue_wf s1 (h :: l)).
  { apply queue_wf_upd; [|done|done]. by apply (queue_wf_ext s). }
  erewrite run_bind; [|mstep; fold s1; apply (run_add_to_ready_queue s1 (h :: l) c Hq1)].
  destruct (queue_append_facts s1 (h :: l) c Hq1 Hvc Hni) as (Hc2 & Hi2 & Hl2 & _ & _).
  pose proof (queue_append_wf s1 (h :: l) c Hq1 Hvc Hni) as Hq2.
  set (s2 := queue_append c s1) in *.
  assert (Hq2' : queue_wf (set_interrupts false s2) (h :: l ++ [c])) by by apply (queue_wf_ext s2).
  pose proof (queue_pop_facts _ h (l ++ [c]) Hq2') as (Hc3 & _ & Hl3 & _).
  pose proof (queue_pop_wf _ _ _ Hq2') as Hq3. set (s3 := queue_pop h (set_interrupts false s2)) in *.
  assert (Hvh : valid_task h) by (apply (queue_task_valid s (h :: l)); [done|left]).
  assert (Hch : c <> h) by (intros ->; apply Hni; left).
  destruct (switch_tasks_facts s3 c h) as (_ & Hc4 & _ & _ & _ & Hl4 & _); [apply Hq3|done..|].
  pose proof (switch_tasks_queue s3 c h (l ++ [c]) Hq3 Hvc Hvh) as Hq4.
  assert (Hlock : task_lock (switch_tasks c h s3) = 1).
  { rewrite Hl4, Hl3. change (task_lock (set_interrupts false s2)) with (task_lock s2). by rewrite Hl2. }
  exists (switch_tasks c h s3). split.
  { unfold mbind, m_bind. rewrite (run_schedule_next_pop s2 h (l ++ [c]) Hq2). fold s3.
    rewrite (run_context_switch s3 c h); [done|etrans; [exact Hc3|etrans; [exact Hc2|exact Hc]]|done]. }
  split_and!; [done|done|done| |].
  - unfold scheduler_yield. erewrite spin_bind; [done|]. apply run_acquire_held. lia.
  - intros id. rewrite get_task_by_id_held; [done|]. lia.
Qed.

(** ** Task ids *)

Definition next_id (id : Z) : Z := if u32 (id + 1) =? 0 then 1 else u32 (id + 1).

Lemma run_allocate_tid s :
  allocate_tid s = (Ret (next_tid s), set_next_tid (next_id (next_tid s)) s).
Proof using Type.
  unfold allocate_tid, next_id. mstep. cbv zeta. mstep. mstep.
  change (next_tid (set_next_tid ?x s)) with x.
  destruct (u32 (next_tid s + 1) =? 0) eqn:E; by mstep.
Qed.

Fixpoint allocate_tids (n : nat) : M (sched_state A D) (list Z) :=
  match n with
  | O => mret []
  | S n => id ← allocate_tid; ids ← allocate_tids n; mret (id :: ids)
  end.

Lemma next_id_cycle k : 0 <= k -> next_id (k mod (2 ^ 32 - 1) + 1) = (k + 1) mod (2 ^ 32 - 1) + 1.
Proof using Type.
  intros Hk. unfold next_id. pose proof (Z.mod_pos_bound k (2 ^ 32 - 1)).
  rewrite Zplus_mod. rewrite (Z.mod_small 1) by lia.
  set (r := k mod (2 ^ 32 - 1)) in *. clearbody r. unfold wrap.
  destruct (decide (r = 2 ^ 32 - 2)) as [->|Hne]; [done|].
  rewrite !Z.mod_small by lia. by replace (r + 1 + 1 =? 0) with false by lia.
Qed.

(** the ids of successive tasks are successive numbers from 1 to
    2^32 - 1, wrapping around; so none of them is 0, the id of the idle task,
    and any 2^32 - 1 successive ids are distinct. *)
Theorem allocate_tid_cycles n s k :
  0 <= k -> next_tid s = k mod (2 ^ 32 - 1) + 1 ->
  exists s', allocate_tids n s =
    (Ret (map (fun j => j mod (2 ^ 32 - 1) + 1) (seqZ k (Z.of_nat n))), s') /\
    (Z.of_nat n < 2 ^ 32 ->
     NoDup (map (fun j => j mod (2 ^ 32 - 1) + 1) (seqZ k (Z.of_nat n)))) /\
    Forall (fun id => 0 < id < 2 ^ 32) (map (fun j => j mod (2 ^ 32 - 1) + 1) (seqZ k (Z.of_nat n))).
Proof using Type.
  intros Hk Hs.
  assert (Hrun : exists s', allocate_tids n s =
    (Ret (map (fun j => j mod (2 ^ 32 - 1) + 1) (seqZ k (Z.of_nat n))), s')).
  { revert s k Hk Hs. induction n as [|n IH]; intros s k Hk Hs; [by exists s|].
    destruct (IH (set_next_tid (next_id (next_tid s)) s) (k + 1)) as (s' & Hr); [lia| |].
    { simpl. rewrite Hs. by apply next_id_cycle. }
    exists s'. cbn [allocate_tids]. mstep (run_allocate_tid s). mstep Hr.
    rewrite Hs, Nat2Z.inj_succ, (seqZ_cons k (Z.succ _)), Z.pred_succ by lia. done. }
  destruct Hrun as (s' & Hrun). exists s'. split_and!; [done| |].
  - intros Hn. apply NoDup_fmap_2_strong; [|apply NoDup_seqZ].
    intros x y Hx%elem_of_seqZ Hy%elem_of_seqZ Heq.
    assert (Hm : x mod (2 ^ 32 - 1) = y mod (2 ^ 32 - 1)) by lia.
    pose proof (Z.div_mod x (2 ^ 32 - 1)). pose proof (Z.div_mod y (2 ^ 32 - 1)).
    assert (x / (2 ^ 32 - 1) = y / (2 ^ 32 - 1)) by nia. lia.
  - apply List.Forall_forall. intros id (j & <- & _)%List.in_map_iff.
    pose proof (Z.mod_pos_bound j (2 ^ 32 - 1)). lia.
Qed.

(** ** The blocked queue

    A list linked by the [next] pointers only. *)
Fixpoint chain s (l : list Z) : Prop :=
  match l with
  | [] => True
  | x :: l' => next (the_task s x) = head l' /\ chain s l'
  end.

Record blocked_wf s (l : list Z) : Prop := {
  bw_table : table_ok s;
  bw_nodup : NoDup l;
  bw_head : blocked_queue_head s = head l;
  bw_task : Forall valid_task l;
  bw_chain : chain s l;
}.

Lemma chain_agree s s' l :
  (forall x, x ∈ l -> next (the_task s' x) = next (the_task s x)) -> chain s l -> chain s' l.
Proof using Type.
  induction l as [|x l IH]; intros Hag; [done|]. intros [Hx Hl]. split.
  - rewrite Hag; [done|left].
  - apply IH; [|done]. intros y Hy. apply Hag. by right.
Qed.

Lemma chain_frame s l i f :
  i ∉ l -> valid_task i -> Forall valid_task l -> chain s l -> chain (upd_task i f s) l.
Proof using Type.
  intros Hi Hv Hl. apply chain_agree. intros x Hx. rewrite Forall_forall in Hl.
  rewrite the_upd_ne; [done|done|by apply Hl|]. by intros ->.
Qed.

(** A chain has at most as many tasks as the table. *)
Lemma tasks_length (l : list Z) : NoDup l -> Forall valid_task l -> (length l <= Z.to_nat TASK_MAX_COUNT)%nat.
Proof using Type.
  intros Hn Hv. rewrite <- (length_seqZ 0 TASK_MAX_COUNT). apply submseteq_length.
  apply NoDup_submseteq; [done|]. intros x Hx. rewrite Forall_forall in Hv.
  apply elem_of_seqZ. pose proof (Hv x Hx) as Hxv. unfold valid_task in Hxv. lia.
Qed.

(** The state after taking [t] out, [p] being the task before it and [n] the
    one after it. *)
Definition blocked_unlink (t : Z) (p n : option Z) s : sched_state A D :=
  upd_task t (set_next None)
    (match p with Some p => upd_task p (set_next n) s | None => set_blocked n s end).

Lemma run_remove_blocked_loop fuel s l1 l2 t :
  chain s l2 -> (length l2 <= fuel)%nat ->
  remove_blocked_loop fuel t (head l2) (last l1) s =
  (Ret tt, match list_find (eq t) l2 with
           | Some (k, _) => blocked_unlink t (last (l1 ++ take k l2)) (head (drop (S k) l2)) s
           | None => s
           end).
Proof using Type.
  revert fuel l1. induction l2 as [|c l2 IH]; intros fuel l1 Hch Hf.
  { by destruct fuel. }
  destruct Hch as [Hnx Hch]. destruct fuel as [|fuel]; [simpl in Hf; lia|].
  cbn [head remove_blocked_loop]. mstep. cbn [list_find]. rewrite Hnx.
  destruct (Z.eqb_spec c t) as [->|Hne].
  - rewrite decide_True by done. simpl. rewrite app_nil_r, drop_0. unfold blocked_unlink, update.
    by destruct (last l1).
  - rewrite decide_False by auto.
    pose proof (IH fuel (l1 ++ [c]) Hch ltac:(simpl in Hf; lia)) as Hr.
    rewrite last_snoc in Hr. rewrite Hr.
    f_equal. destruct (list_find (eq t) l2) as [[k y]|]; [|done]. simpl.
    by rewrite <- app_assoc.
Qed.

Lemma chain_app s l1 t l2 :
  chain s (l1 ++ t :: l2) -> chain s l2 /\ next (the_task s t) = head l2.
Proof using Type.
  induction l1 as [|x l1 IH]; [intros [? ?]; done|]. intros [_ Hl]. by apply IH.
Qed.

(** Linking the task before the removed one past it. *)
Lemma chain_relink s l1 t l2 :
  table_ok s -> NoDup (l1 ++ t :: l2) -> Forall valid_task (l1 ++ t :: l2) -> chain s (l1 ++ t :: l2) ->
  chain (match last l1 with Some p => upd_task p (set_next (head l2)) s | None => s end) (l1 ++ l2).
Proof using Type.
  intros Htb. induction l1 as [|x l1 IH]; intros Hn Hv Hc; [apply Hc|].
  apply NoDup_cons in Hn as [Hxi Hn]. apply Forall_cons in Hv as [Hvx Hv]. destruct Hc as [Hxn Hc].
  destruct l1 as [|y l1].
  - simpl in *. split; [by rewrite the_upd_eq|]. apply NoDup_cons in Hn as [_ Hn].
    apply Forall_cons in Hv as [_ Hv]. apply chain_frame; [set_solver|done|done|apply Hc].
  - change (last (x :: y :: l1)) with (last (y :: l1)).
    specialize (IH Hn Hv Hc). cbn [app chain]. split; [|exact IH].
    destruct (last (y :: l1)) as [p|] eqn:Hp; [|by apply last_None in Hp].
    apply last_Some_elem_of in Hp. rewrite the_upd_ne; [done| |done|].
    + rewrite Forall_forall in Hv. apply Hv. change (p ∈ (y :: l1) ++ t :: l2). apply elem_of_app. by left.
    + intros ->. apply Hxi. change (x ∈ (y :: l1) ++ t :: l2). apply elem_of_app. by left.
Qed.

Lemma blocked_unlink_wf s l1 t l2 :
  blocked_wf s (l1 ++ t :: l2) -> blocked_wf (blocked_unlink t (last l1) (head l2) s) (l1 ++ l2).
Proof using Type.
  intros [Htb Hn Hh Hv Hc].
  pose proof (chain_relink s l1 t l2 Htb Hn Hv Hc) as Hc'.
  apply NoDup_app in Hn as (Hn1 & Hd & [Hni Hn2]%NoDup_cons).
  apply Forall_app in Hv as [Hv1 [Hvt Hv2]%Forall_cons].
  assert (Hva : Forall valid_task (l1 ++ l2)) by by apply Forall_app.
  unfold blocked_unlink.
  set (s1 := match last l1 with Some p => upd_task p (set_next (head l2)) s | None => set_blocked _ s end).
  assert (Hs1 : table_ok s1 /\ blocked_queue_head s1 = head (l1 ++ l2) /\ chain s1 (l1 ++ l2)).
  { unfold s1. destruct (last l1) as [p|] eqn:Hp.
    - split_and!; [by apply table_ok_upd| |done].
      change (blocked_queue_head s = head (l1 ++ l2)). rewrite Hh. by destruct l1.
    - apply last_None in Hp as ->. split_and!; [done|done|]. by apply (chain_agree s). }
  destruct Hs1 as (Htb1 & Hh1 & Hc1).
  constructor; [by apply table_ok_upd| |exact Hh1|done|].
  - apply NoDup_app. split_and!; [done| |done]. intros x Hx Hx2. apply (Hd x Hx). by right.
  - apply chain_frame; [|done|done|done]. intros [Ht|Ht]%elem_of_app; [|done].
    by apply (Hd t Ht); left.
Qed.

(** the blocked queue.  [add_to_blocked_queue] of a task that is not in
    it puts the task first and makes it BLOCKED; [remove_from_blocked_queue]
    ends and deletes the task from the queue, and changes nothing when the
    task is not in it. *)
Theorem blocked_queue_refines_list s l t :
  blocked_wf s l -> valid_task t ->
  (t ∉ l -> exists s', add_to_blocked_queue (Some t) s = (Ret tt, s') /\ blocked_wf s' (t :: l) /\
                       state (the_task s' t) = TASK_STATE_BLOCKED) /\
  (exists s', remove_from_blocked_queue (Some t) s = (Ret tt, s') /\
     blocked_wf s' (filter (fun x => x <> t) l) /\ (t ∉ l -> s' = s)).
Proof using Type.
  intros Hb Ht. pose proof Hb as [Htb Hn Hh Hv Hc]. split.
  - intros Hni. unfold add_to_blocked_queue, update. do 2 mstep. rewrite run_modify.
    eexists. split; [done|]. change (blocked_queue_head s) with (blocked_queue_head s).
    set (s1 := upd_task t (set_next (blocked_queue_head s)) s).
    assert (Htb1 : table_ok (set_blocked (Some t) s1)) by by apply table_ok_upd.
    split.
    + constructor; [by apply table_ok_upd|by apply NoDup_cons|done|by apply Forall_cons|]. split.
      * rewrite the_upd_eq by done. simpl. change (the_task (set_blocked _ s1) t) with (the_task s1 t).
        unfold s1. by rewrite the_upd_eq.
      * apply chain_frame; [done..|]. apply (chain_agree s1); [done|]. by apply chain_frame.
    + by rewrite the_upd_eq.
  - unfold remove_from_blocked_queue. mstep. rewrite Hh.
    change (@None Z) with (last (@nil Z)).
    rewrite (run_remove_blocked_loop (Z.to_nat TASK_MAX_COUNT) s [] l t Hc) by by apply tasks_length.
    eexists. split; [done|]. destruct (list_find (eq t) l) as [[k y]|] eqn:Hfind.
    + apply list_find_Some in Hfind as (Hk & <- & _).
      assert (Hin : t ∈ l) by by eapply list_elem_of_lookup_2.
      rewrite <- (take_drop_middle l k t Hk) in Hb, Hn.
      rewrite <- (take_drop_middle l k t Hk) at 3. rewrite filter_ne_split by done.
      split; [|done]. by apply blocked_unlink_wf.
    + apply list_find_None in Hfind.
      assert (Hni : t ∉ l) by (intros Hin; rewrite Forall_forall in Hfind; by apply (Hfind t Hin)).
      by rewrite filter_ne_id.
Qed.

(** ** The timer interrupt *)

(** Code that does not touch the timer and what is behind it. *)
Definition keeps_timer {X} (m : M (sched_state A D) X) : Prop := forall s, timer (snd (m s)) = timer s.

Lemma keeps_bind {X Y} (m : M (sched_state A D) X) (f : X -> M (sched_state A D) Y) :
  keeps_timer m -> (forall x, keeps_timer (f x)) -> keeps_timer (m ≫= f).
Proof using Type.
  intros Hm Hf s. unfold mbind, m_bind. specialize (Hm s).
  destruct (m s) as [[x| | | |] s']; simpl in Hm |- *; try done. by rewrite Hf.
Qed.

Lemma keeps_modify f : (forall s, timer (f s) = timer s) -> keeps_timer (mmodify f).
Proof using Type. intros Hf s. apply Hf. Qed.

Lemma keeps_vm {X} (m : M (Vmm.vmm_state A) X) : keeps_timer (run_vm m).
Proof using Type. intros s. unfold run_vm, mzoom. by destruct (m (vm s)). Qed.

Ltac keeps :=
  repeat first
    [ apply keeps_bind; [|intros ?]
    | apply keeps_vm
    | apply keeps_modify; done
    | match goal with
      | |- keeps_timer (match ?x with _ => _ end) => destruct x
      end
    | done ].

Lemma schedule_next_keeps : keeps_timer schedule_next.
Proof using Type. unfold schedule_next, context_switch, update. keeps. Qed.

Lemma timer_callback_keeps n : keeps_timer (timer_callback n).
Proof using Type.
  unfold timer_callback, count_tick, spinlock_acquire, spinlock_release, add_to_ready_queue, update.
  keeps; apply schedule_next_keeps.
Qed.

Lemma ticks_keep_timer n s s' : ticks n s = Some s' -> timer s' = timer s.
Proof using Type.
  revert s. induction n as [|n IH]; intros s; cbn [ticks]; [by intros [= ->]|].
  pose proof (timer_callback_keeps 0 s) as Hk.
  destruct (timer_callback 0 s) as [[] s1]; try done; intros Ht; by rewrite (IH _ Ht).
Qed.

(** The dispatch of registered handlers; [other] stands for the handlers of
    the other drivers. *)
Definition kernel_handler (other : Idt.handler -> M (sched_state A D) unit) (h : Idt.handler)
  : M (sched_state A D) unit :=
  match h with
  | Idt.timer_interrupt_handler => Sched.timer_interrupt_handler
  | h => other h
  end.

Definition sched_idt s : Idt.idt_state D := Timer.idt (timer s).
Definition set_sched_idt (i : Idt.idt_state D) s : sched_state A D :=
  set_timer (Timer.set_idt i (timer s)) s.

(** C36: the timer interrupt (vector 32) while task [c] runs.  A tick inside
    the quantum ends with the end-of-interrupt command to the master
    controller; the tick that ends the quantum switches to the next ready task
    without it: nothing is written to the interrupt controllers. *)
Theorem preempting_tick_sends_no_eoi other i q s c h l k :
  run_inv i q s c (h :: l) k -> k < q -> q < 2 ^ 64 ->
  Timer.timer_callback (timer s) = true ->
  array_get None (Idt.interrupt_handlers (sched_idt s)) 32 = Some Idt.timer_interrupt_handler ->
  let r := Idt.interrupt_handler sched_idt set_sched_idt (kernel_handler other) 32 s in
  let pic0 := Idt.pic (sched_idt s) in
  if k + 1 <? q
  then fst r = Ret tt /\ current_task (snd r) = Some c /\
       Idt.pic (sched_idt (snd r)) = snd (Pic.outb Pic.PIC1_COMMAND Pic.PIC_EOI pic0)
  else fst r = Switched /\ current_task (snd r) = Some h /\ Idt.pic (sched_idt (snd r)) = pic0.
Proof using Type*.
  intros Hri Hk Hq Hcb Hh. cbv zeta. unfold Idt.interrupt_handler.
  set (s0 := set_timer (snd (Timer.timer_count (timer s))) s).
  assert (Hcount : run_timer Timer.timer_count s = (Ret tt, s0)) by done.
  assert (Hri0 : run_inv i q s0 c (h :: l) k).
  { destruct Hri as [Hqw ? ? ? ? ? ? ? ? ? ?]. constructor; try done. by apply (queue_wf_ext s). }
  assert (Hpic0 : Idt.pic (sched_idt s0) = Idt.pic (sched_idt s)) by done.
  assert (Hhandler : forall r s1, timer_callback (Timer.timer_ticks (timer s0)) s0 = (r, s1) ->
    (s ← mget;
     match array_get None (Idt.interrupt_handlers (sched_idt s)) 32 with
     | Some h => kernel_handler other h
     | None => if 32 <? 32 then mhalt else mret tt
     end) s = (r, s1)).
  { intros r s1 Hr. mstep. rewrite Hh. cbn [kernel_handler]. unfold Sched.timer_interrupt_handler.
    mstep Hcount. mstep. change (Timer.timer_callback (timer s0)) with (Timer.timer_callback (timer s)).
    by rewrite Hcb. }
  pose proof (timer_callback_keeps (Timer.timer_ticks (timer s0)) s0) as Hkeep.
  destruct (Z.ltb_spec (k + 1) q) as [Hlt|Hge].
  - pose proof (run_tick_running q s0 c k (Timer.timer_ticks (timer s0))
                  (run_inv_cur _ _ _ _ _ _ Hri0) Hlt Hq) as Hr.
    rewrite Hr in Hkeep. specialize (Hhandler _ _ Hr).
    unfold mbind, m_bind in Hhandler |- *. unfold mget in *. rewrite Hhandler. clear Hhandler.
    assert (Hc1 : current_task (ticked c s0) = Some c) by exact (ri_current _ _ _ _ _ _ Hri).
    set (s1 := ticked c s0) in *. clearbody s1.
    apply (f_equal Timer.idt) in Hkeep. change (Timer.idt (timer s1) = Timer.idt (timer s)) in Hkeep.
    unfold mzoom, Idt.run_pic, Pic.pic_send_eoi. unfold sched_idt. simpl.
    rewrite Hkeep. by split_and!.
  - destruct (tick_switch i q s0 c h l k (Timer.timer_ticks (timer s0)) Hri0) as (s1 & Hr & Hri1); [lia..|].
    rewrite Hr in Hkeep. specialize (Hhandler _ _ Hr).
    unfold mbind, m_bind in Hhandler |- *. unfold mget in *. rewrite Hhandler.
    apply (f_equal Timer.idt) in Hkeep. change (Timer.idt (timer s1) = Timer.idt (timer s)) in Hkeep.
    split_and!; [done|apply Hri1|]. unfold sched_idt. simpl. by rewrite Hkeep.
Qed.

End sched_lock.
