(* ===== verification/SchedExamples.v ===== *)
(** A concrete kernel state with three tasks, and instances of the properties
    of SchedSpec.v and SchedLock.v on it. *)
From S2P Require Import Prelude Pmm PageAllocator Vmm VmmExamples Interrupts Sched SchedQueue.
From S2P Require Import SchedSpec SchedLock.
Import Sched.

(** Devices that record what is written to them, latest first, and read as 0. *)
Definition port_log : Type := list (Z * Z).
#[export] Instance log_ports : PortIO port_log := {
  port_in _ d := (0, d);
  port_out p v d := (p, v) :: d;
}.
#[export] Instance example_switch : ContextSwitch := fun c => c.

Definition example_timer : Timer.timer_state port_log :=
  Timer.TimerState 0 false
    (Idt.IdtState (replicate 256 Idt.zero_entry) (Idt.IdtPtr 0 0) (replicate 256 Idt.zero_entry)
       (Idt.IdtPtr 0 0) (replicate 256 None) (Pic.PicState [] 0xFFFF) (Idt.IdtPtr 0 0)).

Abbreviation kstate := (sched_state Pmm.pmm_state port_log).

(** A ready task with the default quantum. *)
Definition example_task (id : Z) : task_t :=
  Task id [] TASK_STATE_READY 2 2 DEFAULT_TIME_QUANTUM 0 0 0 0 (replicate 25 0) 0 0 0 0 0 0 None None.

Definition add_example (id : Z) : M kstate unit :=
  update id (fun _ => example_task id);; add_to_ready_queue (Some id).

Definition example_setup (ids : list Z) : M kstate unit :=
  scheduler_init;;
  foldr (fun id m => add_example id;; m) (mret tt) ids;;
  timer_callback 0.

(** Tasks 1, 2 and 3; the first tick gave the processor to task 1. *)
Definition example_sched : kstate := snd (example_setup [1; 2; 3] (sched_boot example_vmm example_timer)).
(** Task 1 alone. *)
Definition example_lone : kstate := snd (example_setup [1] (sched_boot example_vmm example_timer)).
(** No task but the idle task, which has been resumed. *)
Definition example_idle : kstate :=
  snd (timer_callback 0 (upd_task 1 (set_state TASK_STATE_BLOCKED) example_lone)).

Lemma example_task_case (l : list Z) (P : Z -> Prop) : Forall P l -> forall t, t ∈ l -> P t.
Proof. by rewrite Forall_forall. Qed.

Ltac decide_all := repeat (apply Forall_cons; split; [by vm_compute|]); apply Forall_nil; exact I.

Lemma example_queue : queue_wf example_sched [2; 3].
Proof.
  constructor; try by vm_compute.
  - apply (bool_decide_unpack _). by vm_compute.
  - decide_all.
Qed.

Lemma example_run_inv : run_inv 0 20 example_sched 1 [2; 3] 0.
Proof.
  constructor; try by vm_compute.
  - exact example_queue.
  - apply (bool_decide_unpack _). by vm_compute.
  - split_and!; [done|done|]. apply (bool_decide_unpack _). by vm_compute.
  - apply example_task_case. decide_all.
  - intros t Ht. assert (Ht' : t ∈ [1; 2; 3]) by set_solver. clear Ht. revert t Ht'.
    apply example_task_case. decide_all.
Qed.

Lemma example_lone_inv : run_inv 0 20 example_lone 1 [] 0.
Proof.
  constructor; try by vm_compute.
  - constructor; first [by vm_compute|apply NoDup_nil_2|apply Forall_nil; exact I].
  - apply not_elem_of_nil.
  - split_and!; [done|done|apply not_elem_of_nil].
  - intros t Ht. by apply elem_of_nil in Ht.
  - intros t Ht. assert (Ht' : t ∈ [1]) by set_solver. clear Ht. revert t Ht'.
    apply example_task_case. decide_all.
Qed.

Lemma example_idle_inv : cur_inv UINT64_MAX example_idle 0 0.
Proof. by constructor; vm_compute. Qed.

(** ** Instances of the properties *)

Lemma ready_queue_refines_list_witness :
  exists s', foldr (fun op k s0 => match queue_exec op s0 with (Ret _, s1) => k s1 | _ => None end)
               Some [Enqueue 7; Unlink 2; Unlink 3; Enqueue 2] example_sched = Some s' /\
    queue_wf s' [7; 2].
Proof.
  apply (ready_queue_refines_list [Enqueue 7; Unlink 2; Unlink 3; Enqueue 2] example_sched [2; 3] [7; 2]
           example_queue). by vm_compute.
Defined.


Lemma lone_task_is_lost_witness :
  exists s', ticks (20 + 1) example_lone = Some s' /\ current_task s' = Some 0 /\
    state (the_task s' 1) = TASK_STATE_READY /\ queue_wf s' [].
Proof.
  destruct (lone_task_is_lost 0 20 example_lone 1 example_lone_inv ltac:(lia))
    as (s' & Ht & Hc & _ & Hq & Hs).
  exists s'. split; [exact Ht|]. split; [exact Hc|]. split; [exact Hs|exact Hq].
Defined.

Lemma idle_task_starves_ready_tasks_witness :
  exists s', ticks 1000 (queue_append 2 example_idle) = Some s' /\ current_task s' = Some 0 /\
    queue_wf s' [2].
Proof.
  destruct (idle_task_starves_ready_tasks (queue_append 2 example_idle) 0 0 [2] 1000)
    as (s' & Ht & Hc & _ & Hq).
  - by constructor; vm_compute.
  - by vm_compute.
  - constructor; first [apply NoDup_singleton|decide_all|by vm_compute].
  - unfold UINT64_MAX. lia.
  - exists s'. split; [exact Ht|]. split; [exact Hc|exact Hq].
Defined.

Lemma yield_keeps_lock_witness :
  exists s', scheduler_yield example_sched = (Switched, s') /\ task_lock s' = 1.
Proof.
  destruct (yield_keeps_lock example_sched 1 2 [3] example_queue) as (s' & Hr & _ & _ & Hl & _).
  - by vm_compute.
  - done.
  - apply (bool_decide_unpack _). by vm_compute.
  - by vm_compute.
  - by vm_compute.
  - exists s'. split; [exact Hr|exact Hl].
Defined.

Lemma allocate_tid_cycles_witness :
  exists s', allocate_tids 3 (set_next_tid (2 ^ 32 - 2) example_sched) = (Ret [2 ^ 32 - 2; 2 ^ 32 - 1; 1], s').
Proof.
  destruct (allocate_tid_cycles 3 (set_next_tid (2 ^ 32 - 2) example_sched) (2 ^ 32 - 3)) as (s' & Hr & _).
  - lia.
  - done.
  - exists s'. exact Hr.
Defined.

Lemma blocked_queue_refines_list_witness :
  exists s', remove_from_blocked_queue (Some 5)
      (snd ((add_to_blocked_queue (Some 4);; add_to_blocked_queue (Some 5);;
             add_to_blocked_queue (Some 6)) example_lone)) = (Ret tt, s') /\
    blocked_wf s' [6; 4].
Proof.
  destruct (blocked_queue_refines_list
    (snd ((add_to_blocked_queue (Some 4);; add_to_blocked_queue (Some 5);;
             add_to_blocked_queue (Some 6)) example_lone)) [6; 5; 4] 5) as (_ & s' & Hr & Hw & _).
  - constructor; try by vm_compute.
    + apply (bool_decide_unpack _). by vm_compute.
    + decide_all.
  - done.
  - exists s'. split; [exact Hr|exact Hw].
Defined.

Lemma preempting_tick_sends_no_eoi_witness :
  exists s19 s', ticks 19 example_sched = Some s19 /\
    Idt.interrupt_handler sched_idt set_sched_idt (kernel_handler (fun _ => mret tt)) 32 s19 = (Switched, s') /\
    Idt.pic (sched_idt s') = Idt.pic (sched_idt s19).
Proof.
  destruct (run_inv_ticks 0 20 example_sched 1 [2; 3] 19 example_run_inv) as (s19 & Ht & Hri); [lia|lia|].
  pose proof (ticks_keep_timer 19 example_sched s19 Ht) as Hk.
  assert (Hcb : Timer.timer_callback (timer s19) = true) by (rewrite Hk; by vm_compute).
  assert (Hh : array_get None (Idt.interrupt_handlers (sched_idt s19)) 32 = Some Idt.timer_interrupt_handler)
    by (unfold sched_idt; rewrite Hk; by vm_compute).
  destruct (preempting_tick_sends_no_eoi (fun _ => mret tt) 0 20 s19 1 2 [3] 19 Hri ltac:(lia) ltac:(lia)
              Hcb Hh) as (Hr & _ & Hp).
  exists s19. eexists. split; [exact Ht|]. split; [|exact Hp].
  destruct (Idt.interrupt_handler _ _ _ 32 s19) as [r s']. simpl in Hr |- *. by subst r.
Defined.
