(* ===== verification/InterruptsSpec.v ===== *)
(** The correctness of the interrupt set-up: the gates of the interrupt
    descriptor table and its recovery (core/idt.c), and the interrupt masks of
    the 8259 controllers (drivers/pic/pic.c) against the documented behaviour
    of the chips. *)
From S2P Require Import Prelude Interrupts.

(** ** Code that always returns *)

Definition returns {S A} (m : M S A) : Prop := forall s, exists a s', m s = (Ret a, s').

Lemma returns_bind {S A B} (m : M S A) (f : A -> M S B) :
  returns m -> (forall a, returns (f a)) -> returns (m ≫= f).
Proof.
  intros Hm Hf s. destruct (Hm s) as (a & s1 & Hr). rewrite (run_bind _ _ _ _ _ Hr). apply Hf.
Qed.

Lemma returns_zoom {S T A} (get : S -> T) (set : T -> S -> S) (m : M T A) :
  returns m -> returns (mzoom get set m).
Proof.
  intros Hm s. destruct (Hm (get s)) as (a & t & Hr). exists a, (set t s). by apply run_zoom.
Qed.

Lemma returns_ret {S A} (a : A) : returns (mret a : M S A).
Proof. intros s. by exists a, s. Qed.

Lemma returns_modify {S} (f : S -> S) : returns (mmodify f).
Proof. intros s. by exists tt, (f s). Qed.

(** ** The descriptor table *)

Section idt.
  Import Idt.
  Context {D : Type} `{PortIO D} `{IdtLayout}.
  Implicit Types s : idt_state D.

(** The handler address of a gate. *)
Definition gate_offset (e : idt_entry) : Z :=
  offset_low e + offset_mid e * 2 ^ 16 + offset_high e * 2 ^ 32.

Lemma make_gate_offset b sel i ty : 0 <= b < 2 ^ 64 -> gate_offset (make_gate b sel i ty) = b.
Proof using Type.
  intros Hb. unfold gate_offset, make_gate. simpl.
  change 0xFFFF with (Z.ones 16). change 0xFFFFFFFF with (Z.ones 32).
  rewrite !Z.land_ones, !Z.shiftr_div_pow2 by lia.
  rewrite (Z.mod_small (b / 2 ^ 32)) by (split; [apply Z.div_pos; lia|apply Z.div_lt_upper_bound; lia]).
  replace (b / 2 ^ 32) with (b / 2 ^ 16 / 2 ^ 16) by (by rewrite Z.div_div).
  pose proof (Z.div_mod b (2 ^ 16)). pose proof (Z.div_mod (b / 2 ^ 16) (2 ^ 16)). lia.
Qed.

Lemma run_set_gate s n b sel i ty :
  0 <= n < 256 ->
  idt_set_gate n b sel i ty s = (Ret true, set_idt (array_set (idt s) n (make_gate b sel i ty)) s).
Proof using Type.
  intros Hn. unfold idt_set_gate, IDT_ENTRIES. replace (256 <=? n) with false by lia. by mstep.
Qed.

Definition kernel_gate (n : Z) : idt_entry := make_gate (stub_address n) 0x08 0 0x8E.

Lemma run_initialize_gates s :
  length (idt s) = 256%nat ->
  exists l, idt_initialize_gates s = (Ret tt, set_idt l s) /\ length l = 256%nat /\
    forall n, 0 <= n < 256 ->
      array_get zero_entry l n = if n <? 48 then kernel_gate n else array_get zero_entry (idt s) n.
Proof using Type.
  intros Hlen. unfold idt_initialize_gates.
  destruct (run_for_inv (fun j s0 => exists l, s0 = set_idt l s /\ length l = 256%nat /\
      forall n, 0 <= n < 256 -> array_get zero_entry l n =
        if n <? j then kernel_gate n else array_get zero_entry (idt s) n)
    48 0 (fun n => idt_set_gate n (stub_address n) 0x08 0 0x8E;; mret tt) s)
    as (s' & Hr & l & -> & Hl & Hg).
  - exists (idt s). split_and!; [by destruct s|done|]. intros n Hn. by replace (n <? 0) with false by lia.
  - intros j s0 Hj (l & -> & Hl & Hg).
    exists (set_idt (array_set l j (kernel_gate j)) s). split.
    { by mstep (run_set_gate (set_idt l s) j (stub_address j) 8 0 142 ltac:(lia)). }
    eexists. split; [done|]. split; [by rewrite length_array_set|].
    intros n Hn. destruct (decide (j = n)) as [->|Hne].
    + rewrite array_get_set_eq by lia. by replace (n <? n + 1) with true by lia.
    + rewrite array_get_set_ne by lia. rewrite Hg by done.
      by replace (n <? j + 1) with (n <? j) by lia.
  - exists l. by split_and!.
Qed.

Lemma returns_pic_init : returns (Pic.pic_init : M (Pic.pic_state D) unit).
Proof using Type.
  assert (Hin : forall p, returns (Pic.inb p : M (Pic.pic_state D) Z)).
  { intros p s. unfold Pic.inb. destruct (port_in p (Pic.dev s)). by eexists _, _. }
  assert (Hout : forall p v, returns (Pic.outb p v : M (Pic.pic_state D) unit)).
  { intros p v s. by eexists _, _. }
  unfold Pic.pic_init, Pic.pic_mask_irq, Pic.pic_unmask_irq, Pic.set_mask.
  repeat first [apply returns_bind; [|intros ?] | apply Hin | apply Hout | apply returns_modify].
Qed.

(** The state of a table that is set up. *)
Record idt_installed s : Prop := {
  ii_gates n : 0 <= n < 256 ->
    array_get zero_entry (idt s) n = if n <? 48 then kernel_gate n else zero_entry;
  ii_length : length (idt s) = 256%nat;
  ii_backup : idt_backup s = idt s;
  ii_pointer : idt_pointer s = IdtPtr idt_limit idt_address;
  ii_pointer_backup : idt_pointer_backup s = idt_pointer s;
  ii_loaded : idtr s = idt_pointer s;
}.

(** [idt_init] returns; afterwards each of the vectors 0 to 47 has a
    present ring-0 interrupt gate for the kernel code segment whose address is
    that of its assembly stub, the other gates are empty, the backup is a
    copy, the processor uses the table, the registered handlers are as before
    and the integrity check succeeds. *)
Theorem idt_init_correct s :
  (forall n, 0 <= n < 48 -> 0 <= stub_address n < 2 ^ 64) ->
  exists s', idt_init s = (Ret tt, s') /\ idt_installed s' /\
    (forall n, 0 <= n < 48 ->
       let e := array_get zero_entry (idt s') n in
       gate_offset e = stub_address n /\ selector e = 0x08 /\ type_attr e = 0x8E) /\
    interrupt_handlers s' = interrupt_handlers s /\
    idt_check_integrity s' = (Ret true, s').
Proof using Type.
  intros Hstub. unfold idt_init. do 2 mstep.
  set (s1 := set_pointer _ _).
  destruct (run_initialize_gates s1) as (l & Hr & Hl & Hg); [apply length_replicate|]. mstep Hr.
  unfold idt_save_backup. mstep. set (s2 := IdtState _ _ _ _ _ _ _).
  destruct (returns_zoom (S := idt_state D) pic set_pic Pic.pic_init returns_pic_init s2)
    as ([] & s3 & Hp). pose proof Hp as Hp'. unfold mzoom in Hp'.
  destruct (Pic.pic_init (pic s2)) as [r p]. injection Hp' as -> <-.
  unfold run_pic. mstep Hp. unfold idt_load. rewrite run_modify.
  eexists. split; [reflexivity|]. simpl.
  assert (Hgates : forall n, 0 <= n < 256 -> array_get zero_entry l n =
    if n <? 48 then kernel_gate n else zero_entry).
  { intros n Hn. rewrite Hg by done. destruct (n <? 48); [done|].
    unfold s1, array_get. cbn [idt set_idt set_pointer]. by rewrite lookup_replicate_2 by (unfold IDT_ENTRIES; lia). }
  split_and!; [by constructor| |done|].
  - intros n Hn. rewrite Hgates by lia. replace (n <? 48) with true by lia.
    split_and!; [|done|done]. apply make_gate_offset. by apply Hstub.
  - unfold idt_check_integrity, mgets. cbn -[bool_decide]. rewrite !Z.eqb_refl. simpl.
    by rewrite bool_decide_true.
Qed.

(** the integrity check reports exactly whether the table, its pointer
    and its limit are those of the backup, and [idt_recover] brings a table
    back whatever happened to the table and the pointer: it restores both,
    reloads the register and reports success. *)
Theorem idt_recover_correct s l p r :
  idt_installed s ->
  let bad := IdtState l p (idt_backup s) (idt_pointer_backup s) (interrupt_handlers s) (pic s) r in
  idt_check_integrity bad = (Ret (bool_decide (l = idt s /\ p = idt_pointer s)), bad) /\
  idt_recover bad = (Ret true, IdtState (idt s) (idt_pointer s) (idt_backup s) (idt_pointer_backup s)
                       (interrupt_handlers s) (pic s) (idt_pointer s)).
Proof using Type.
  intros [_ _ Hb Hp Hpb _]. cbv zeta. split.
  - unfold idt_check_integrity, mgets. cbn -[bool_decide]. rewrite Hb, Hp. do 3 f_equal.
    destruct p as [lim ba]. simpl.
    destruct (Z.eqb_spec ba idt_address) as [->|Hne]; simpl.
    2:{ symmetry. apply bool_decide_false. intros [_ [= -> ->]]. done. }
    destruct (Z.eqb_spec lim idt_limit) as [->|Hne]; simpl.
    2:{ symmetry. apply bool_decide_false. intros [_ [= ->]]. done. }
    apply bool_decide_ext. tauto.
  - unfold idt_recover, idt_reload, idt_load, idt_check_integrity. do 3 mstep.
    unfold mgets. cbn -[bool_decide]. rewrite Hb, Hpb, Hp. simpl. rewrite !Z.eqb_refl. simpl.
    by rewrite bool_decide_true.
Qed.

End idt.


(** ** The interrupt controllers

    The documented behaviour of an 8259: what a chip holds and what writing to
    its two ports does.  A command byte with bit 4 set (ICW1) starts the
    initialisation: it clears the mask register, and the data bytes that
    follow are the vector offset (ICW2), the cascade wiring (ICW3) and the
    mode (ICW4).  Afterwards a data byte (OCW1) is the new mask register; a
    command byte without bit 4 (an end of interrupt) changes neither. *)

Inductive chip_stage : Type := expects_icw2 | expects_icw3 | expects_icw4 | operational.

Record chip : Type := Chip { stage : chip_stage; imr : Z; vector_offset : Z; cascade : Z }.

Definition chip_command (v : Z) (c : chip) : chip :=
  if Z.testbit v 4 then Chip expects_icw2 0 (vector_offset c) (cascade c) else c.

Definition chip_data (v : Z) (c : chip) : chip :=
  match stage c with
  | expects_icw2 => Chip expects_icw3 (imr c) v (cascade c)
  | expects_icw3 => Chip expects_icw4 (imr c) (vector_offset c) v
  | expects_icw4 => Chip operational (imr c) (vector_offset c) (cascade c)
  | operational => Chip operational v (vector_offset c) (cascade c)
  end.

(** The devices behind the ports contain the two controllers. *)
Class Pic8259 (D : Type) `{PortIO D} : Type := {
  chips : D -> chip * chip;
  in_master_data d : port_in 0x21 d = (imr (chips d).1, d);
  in_slave_data d : port_in 0xA1 d = (imr (chips d).2, d);
  out_master_command v d : 0 <= v < 2 ^ 8 ->
    chips (port_out 0x20 v d) = (chip_command v (chips d).1, (chips d).2);
  out_slave_command v d : 0 <= v < 2 ^ 8 ->
    chips (port_out 0xA0 v d) = ((chips d).1, chip_command v (chips d).2);
  out_master_data v d : 0 <= v < 2 ^ 8 ->
    chips (port_out 0x21 v d) = (chip_data v (chips d).1, (chips d).2);
  out_slave_data v d : 0 <= v < 2 ^ 8 ->
    chips (port_out 0xA1 v d) = ((chips d).1, chip_data v (chips d).2);
}.

Lemma pair_low_byte hi lo v :
  0 <= hi < 2 ^ 8 -> 0 <= lo < 2 ^ 8 -> 0 <= v < 2 ^ 8 ->
  Z.lor (Z.land (Z.lor (Z.shiftl hi 8) lo) 0xFF00) v = Z.lor (Z.shiftl hi 8) v.
Proof.
  intros Hhi Hlo Hv. apply Z.bits_inj'. intros i Hi.
  change 0xFF00 with (Z.shiftl (Z.ones 8) 8).
  rewrite !Z.lor_spec, Z.land_spec, Z.lor_spec, !Z.shiftl_spec by lia.
  destruct (decide (i < 8)) as [Hi8|Hi8].
  - rewrite !(Z.testbit_neg_r _ (i - 8)) by lia. by rewrite andb_false_r.
  - rewrite (testbit_high lo 8), orb_false_r by lia.
    rewrite Z.testbit_ones_nonneg by lia. destruct (Z.ltb_spec (i - 8) 8).
    + by rewrite andb_true_r.
    + rewrite (testbit_high hi 8) by lia. done.
Qed.

Lemma pair_high_byte hi lo v :
  0 <= hi < 2 ^ 8 -> 0 <= lo < 2 ^ 8 -> 0 <= v < 2 ^ 8 ->
  u16 (Z.lor (Z.land (Z.lor (Z.shiftl hi 8) lo) 0x00FF) (Z.shiftl v 8)) = Z.lor (Z.shiftl v 8) lo.
Proof.
  intros Hhi Hlo Hv.
  assert (Hland : Z.land (Z.lor (Z.shiftl hi 8) lo) 0x00FF = lo).
  { apply Z.bits_inj'. intros i Hi. change 0x00FF with (Z.ones 8).
    rewrite Z.land_spec, Z.lor_spec, Z.shiftl_spec, Z.testbit_ones_nonneg by lia.
    destruct (Z.ltb_spec i 8).
    - rewrite Z.testbit_neg_r by lia. by rewrite andb_true_r.
    - by rewrite (testbit_high lo 8), andb_false_r by lia. }
  rewrite Hland, Z.lor_comm. apply wrap_small. apply lor_range; [lia| |lia].
  rewrite Z.shiftl_mul_pow2 by lia. lia.
Qed.

Lemma pair_testbit hi lo i :
  0 <= lo < 2 ^ 8 -> 0 <= i ->
  Z.testbit (Z.lor (Z.shiftl hi 8) lo) i = if i <? 8 then Z.testbit lo i else Z.testbit hi (i - 8).
Proof.
  intros Hlo Hi. rewrite Z.lor_spec, Z.shiftl_spec by lia. destruct (Z.ltb_spec i 8).
  - by rewrite Z.testbit_neg_r by lia.
  - by rewrite (testbit_high lo 8), orb_false_r by lia.
Qed.

Section pic.
  Import Pic.
  Context {D : Type} `{Pic8259 D}.
  Implicit Types s : pic_state D.

Definition master s : chip := (chips (dev s)).1.
Definition slave s : chip := (chips (dev s)).2.

(** The mask registers are bytes, which every write keeps. *)
Definition imr_bytes s : Prop := 0 <= imr (master s) < 2 ^ 8 /\ 0 <= imr (slave s) < 2 ^ 8.

(** The kernel's variable [irq_mask] is what the chips mask. *)
Record masks_agree s : Prop := {
  ma_master : stage (master s) = operational;
  ma_slave : stage (slave s) = operational;
  ma_bytes : imr_bytes s;
  ma_mask : irq_mask s = Z.lor (Z.shiftl (imr (slave s)) 8) (imr (master s));
}.

(** Whether the chips hold back interrupt line [k]. *)
Definition masked s (k : Z) : bool :=
  if k <? 8 then Z.testbit (imr (master s)) k else Z.testbit (imr (slave s)) (k - 8).

(** One read-modify-write of a mask register: [pic_mask_irq] and
    [pic_unmask_irq] differ in the new value [f m k]. *)
Definition update_irq (f : Z -> Z -> Z) (irq : Z) : M (pic_state D) unit :=
  let port := if irq <? 8 then PIC1_DATA else PIC2_DATA in
  let irq := if irq <? 8 then irq else u8 (irq - 8) in
  m ← inb port;
  outb port (u8 (f m irq));;
  mmodify (fun s => PicState (dev s)
    (if port =? PIC1_DATA then Z.lor (Z.land (irq_mask s) 0xFF00) (u8 (f m irq))
     else u16 (Z.lor (Z.land (irq_mask s) 0x00FF) (Z.shiftl (u8 (f m irq)) 8)))).

Lemma run_update_irq f k s :
  masks_agree s -> 0 <= k < 16 ->
  exists s', update_irq f k s = (Ret tt, s') /\ masks_agree s' /\
    master s' = (if k <? 8 then Chip operational (u8 (f (imr (master s)) k))
                   (vector_offset (master s)) (cascade (master s)) else master s) /\
    slave s' = (if k <? 8 then slave s else Chip operational (u8 (f (imr (slave s)) (k - 8)))
                  (vector_offset (slave s)) (cascade (slave s))).
Proof using Type.
  intros [Hm Hs [Hmb Hsb] Hmask] Hk. unfold master, slave, imr_bytes in *.
  unfold update_irq, inb, outb, PIC1_DATA, PIC2_DATA.
  assert (Hu8 : forall z, 0 <= u8 z < 2 ^ 8) by (intros z; apply wrap_range; lia).
  destruct (Z.ltb_spec k 8).
  - unfold mbind, m_bind, mmodify. rewrite in_master_data.
    eexists. split; [reflexivity|]. cbn [dev irq_mask].
    rewrite wrap_idem, out_master_data, (wrap_small 8 (imr _)) by done. unfold chip_data.
    rewrite Hm. simpl.
    split_and!; [|done|done]. split; unfold imr_bytes, master, slave; cbn [dev irq_mask].
    all: rewrite ?out_master_data by done; unfold chip_data; rewrite ?Hm; simpl; try done; try (split; done).
    by rewrite Hmask, pair_low_byte.
  - unfold mbind, m_bind, mmodify. rewrite in_slave_data.
    eexists. split; [reflexivity|]. cbn [dev irq_mask].
    rewrite wrap_idem, out_slave_data, (wrap_small 8 (imr _)), (wrap_small 8 (k - 8)) by (done || lia).
    unfold chip_data. rewrite Hs. simpl.
    split_and!; [|done|done]. split; unfold imr_bytes, master, slave; cbn [dev irq_mask].
    all: rewrite ?out_slave_data by done; unfold chip_data; rewrite ?Hs; simpl; try done; try (split; done).
    by rewrite Hmask, pair_high_byte.
Qed.

Lemma masked_irq_mask s k : masks_agree s -> 0 <= k < 16 -> Z.testbit (irq_mask s) k = masked s k.
Proof using Type.
  intros [_ _ [Hmb _] Hmask] Hk. unfold masked. rewrite Hmask, pair_testbit by (done || lia).
  by destruct (k <? 8).
Qed.

Lemma update_irq_masked f (b : bool) k s :
  (forall m i j, 0 <= i < 8 -> 0 <= j < 8 ->
     Z.testbit (u8 (f m i)) j = if j =? i then b else Z.testbit m j) ->
  masks_agree s -> 0 <= k < 16 ->
  exists s', update_irq f k s = (Ret tt, s') /\ masks_agree s' /\
    (forall j, 0 <= j < 16 -> masked s' j = if j =? k then b else masked s j) /\
    vector_offset (master s') = vector_offset (master s) /\
    vector_offset (slave s') = vector_offset (slave s).
Proof using Type.
  intros Hf Hs Hk. destruct (run_update_irq f k s Hs Hk) as (s' & Hr & Hs' & Hm & Hsl).
  exists s'. split_and!; [done..| | |].
  - intros j Hj. unfold masked. rewrite Hm, Hsl.
    destruct (Z.ltb_spec k 8), (Z.ltb_spec j 8); cbn [imr];
      [by rewrite Hf by lia|by replace (j =? k) with false by lia..|].
    rewrite Hf by lia. by replace (j - 8 =? k - 8) with (j =? k) by lia.
  - rewrite Hm. by destruct (k <? 8).
  - rewrite Hsl. by destruct (k <? 8).
Qed.

Lemma mask_bit m i j :
  0 <= i < 8 -> 0 <= j < 8 ->
  Z.testbit (u8 (Z.lor m (Z.shiftl 1 i))) j = if j =? i then true else Z.testbit m j.
Proof using Type.
  intros Hi Hj. unfold wrap. rewrite Z.mod_pow2_bits_low, Z.lor_spec, shiftl1_testbit by lia.
  rewrite (Z.eqb_sym i j). destruct (j =? i); [apply orb_true_r|apply orb_false_r].
Qed.

Lemma unmask_bit m i j :
  0 <= i < 8 -> 0 <= j < 8 ->
  Z.testbit (u8 (Z.land m (Z.lnot (Z.shiftl 1 i)))) j = if j =? i then false else Z.testbit m j.
Proof using Type.
  intros Hi Hj. unfold wrap.
  rewrite Z.mod_pow2_bits_low, Z.land_spec, Z.lnot_spec, shiftl1_testbit by lia.
  rewrite (Z.eqb_sym i j). destruct (j =? i); [apply andb_false_r|apply andb_true_r].
Qed.

Lemma pic_mask_irq_masked k s :
  masks_agree s -> 0 <= k < 16 ->
  exists s', pic_mask_irq k s = (Ret tt, s') /\ masks_agree s' /\
    (forall j, 0 <= j < 16 -> masked s' j = if j =? k then true else masked s j) /\
    vector_offset (master s') = vector_offset (master s) /\
    vector_offset (slave s') = vector_offset (slave s).
Proof using Type. exact (update_irq_masked (fun m i => Z.lor m (Z.shiftl 1 i)) true k s mask_bit). Qed.

Lemma pic_unmask_irq_masked k s :
  masks_agree s -> 0 <= k < 16 ->
  exists s', pic_unmask_irq k s = (Ret tt, s') /\ masks_agree s' /\
    (forall j, 0 <= j < 16 -> masked s' j = if j =? k then false else masked s j) /\
    vector_offset (master s') = vector_offset (master s) /\
    vector_offset (slave s') = vector_offset (slave s).
Proof using Type. exact (update_irq_masked (fun m i => Z.land m (Z.lnot (Z.shiftl 1 i))) false k s unmask_bit). Qed.

(** while the variable [irq_mask] is what the two controllers mask,
    masking and unmasking an interrupt line 0 to 15 returns, changes the state
    of exactly that line, keeps the vectors and the agreement, and
    [pic_get_irq_mask] tells for every line whether it is masked. *)
Theorem pic_masks_one_line k s :
  masks_agree s -> 0 <= k < 16 ->
  (exists s', pic_mask_irq k s = (Ret tt, s') /\ masks_agree s' /\
    (forall j, 0 <= j < 16 -> masked s' j = if j =? k then true else masked s j) /\
    vector_offset (master s') = vector_offset (master s) /\
    vector_offset (slave s') = vector_offset (slave s)) /\
  (exists s', pic_unmask_irq k s = (Ret tt, s') /\ masks_agree s' /\
    (forall j, 0 <= j < 16 -> masked s' j = if j =? k then false else masked s j) /\
    vector_offset (master s') = vector_offset (master s) /\
    vector_offset (slave s') = vector_offset (slave s)) /\
  (exists m, pic_get_irq_mask s = (Ret m, s) /\
    forall j, 0 <= j < 16 -> Z.testbit m j = masked s j).
Proof using Type.
  intros Hs Hk. split_and!; [by apply pic_mask_irq_masked|by apply pic_unmask_irq_masked|].
  exists (irq_mask s). split; [done|]. intros j Hj. by apply masked_irq_mask.
Qed.

(** The initialisation sequence of [pic_init], up to the final masking. *)
Lemma run_pic_sequence s :
  imr_bytes s ->
  exists s', pic_init s = (pic_mask_irq 0;; pic_mask_irq 1;; pic_unmask_irq 2) s' /\
    masks_agree s' /\
    chips (dev s') = (Chip operational (imr (master s)) 32 4, Chip operational (imr (slave s)) 40 2).
Proof using Type.
  intros [Hm Hs]. unfold pic_init, inb, outb, set_mask, mmodify, mbind, m_bind.
  unfold master, slave in *. unfold PIC1_DATA, PIC2_DATA, PIC1_COMMAND, PIC2_COMMAND.
  cbn [dev irq_mask].
  rewrite in_master_data, in_slave_data. cbn [dev irq_mask].
  rewrite !(wrap_small 8 (imr _)) by done.
  eexists. split; [reflexivity|].
  match goal with |- masks_agree ?x /\ _ => set (s' := x) end.
  assert (Hc : chips (dev s') =
    (Chip operational (imr (chips (dev s)).1) 32 4, Chip operational (imr (chips (dev s)).2) 40 2)).
  { subst s'. cbn [dev].
    repeat first
      [ rewrite out_slave_data by (done || by apply wrap_range)
      | rewrite out_master_data by (done || by apply wrap_range)
      | rewrite out_slave_command by (done || by apply wrap_range)
      | rewrite out_master_command by (done || by apply wrap_range) ].
    done. }
  split; [|done]. split; unfold imr_bytes, master, slave; rewrite Hc; cbn [fst snd imr stage]; try done.
  subst s'. cbn [irq_mask]. apply wrap_small, lor_range; [lia| |lia].
  rewrite Z.shiftl_mul_pow2 by lia. lia.
Qed.

(** whatever state the controllers are in, [pic_init] returns with both
    initialised: lines 0 to 7 raise vectors 32 to 39, lines 8 to 15 vectors 40
    to 47, [irq_mask] is what they mask, line 2 (the cascade) is open and
    every line from 3 on is masked as before.  But lines 0 and 1, the timer
    and the keyboard, which the comments say are unmasked, are masked. *)
Theorem pic_init_remaps_and_masks s :
  imr_bytes s ->
  exists s', pic_init s = (Ret tt, s') /\ masks_agree s' /\
    vector_offset (master s') = 32 /\ vector_offset (slave s') = 40 /\
    masked s' 2 = false /\
    (forall j, 3 <= j < 16 -> masked s' j = masked s j) /\
    masked s' 0 = true /\ masked s' 1 = true.
Proof using Type.
  intros Hb. destruct (run_pic_sequence s Hb) as (s1 & -> & H1 & Hc).
  destruct (pic_mask_irq_masked 0 s1 H1) as (s2 & Hr2 & H2 & Hm2 & Hv2 & Hw2); [done|].
  destruct (pic_mask_irq_masked 1 s2 H2) as (s3 & Hr3 & H3 & Hm3 & Hv3 & Hw3); [done|].
  destruct (pic_unmask_irq_masked 2 s3 H3) as (s4 & Hr4 & H4 & Hm4 & Hv4 & Hw4); [done|].
  exists s4. mstep Hr2. mstep Hr3. split; [done|]. split; [done|].
  rewrite Hv4, Hv3, Hv2, Hw4, Hw3, Hw2. unfold master, slave in *. rewrite Hc.
  split; [done|]. split; [done|].
  rewrite (Hm4 2), (Hm4 0), (Hm4 1), (Hm3 0), (Hm3 1), (Hm2 0) by done. simpl.
  split_and!; try done. intros j Hj. rewrite Hm4, Hm3, Hm2 by lia.
  replace (j =? 2) with false by lia. replace (j =? 1) with false by lia.
  replace (j =? 0) with false by lia. unfold masked, master, slave. by rewrite Hc.
Qed.

End pic.


(** ** The timer *)

Section timer.
  Import Timer.
  Context {D : Type} `{PortIO D}.
  Implicit Types s : timer_state D.

(** How long a tick lasts, in periods of the timer chip's clock of
    [PIT_FREQUENCY] Hz, is the reload value programmed into the chip. *)
Lemma timer_divisor_small f : 19 <= f -> 0 <= timer_divisor f < 2 ^ 16.
Proof using Type.
  intros Hf. unfold timer_divisor, PIT_FREQUENCY. split; [apply Z.div_pos; lia|].
  apply Z.div_lt_upper_bound; lia.
Qed.

Lemma run_timer_set_frequency f s :
  19 <= f ->
  exists lo hi s', timer_set_frequency f s = (Ret tt, s') /\ lo + hi * 2 ^ 8 = timer_divisor f /\
    0 <= lo < 2 ^ 8 /\ 0 <= hi < 2 ^ 8 /\ timer_ticks s' = timer_ticks s /\
    Pic.dev (Idt.pic (idt s')) = port_out 0x40 hi (port_out 0x40 lo (port_out 0x43 0x36
      (Pic.dev (Idt.pic (idt s))))).
Proof using Type.
  intros Hf. pose proof (timer_divisor_small f Hf) as Hd.
  set (d := timer_divisor f) in *.
  assert (Hlo : Z.land d 0xFF = d mod 2 ^ 8) by (change 0xFF with (Z.ones 8); apply Z.land_ones; lia).
  assert (Hhi : Z.land (Z.shiftr d 8) 0xFF = d / 2 ^ 8).
  { change 0xFF with (Z.ones 8). rewrite Z.land_ones, Z.shiftr_div_pow2 by lia.
    apply Z.mod_small. split; [apply Z.div_pos; lia|apply Z.div_lt_upper_bound; lia]. }
  assert (0 <= d / 2 ^ 8 < 2 ^ 8) by (split; [apply Z.div_pos; lia|apply Z.div_lt_upper_bound; lia]).
  pose proof (Z.mod_pos_bound d (2 ^ 8) ltac:(lia)).
  exists (d mod 2 ^ 8), (d / 2 ^ 8). eexists. split; [reflexivity|].
  split; [pose proof (Z.div_mod d (2 ^ 8)); lia|]. split; [lia|]. split; [lia|]. split; [done|].
  change (timer_divisor f) with d. cbn [set_idt idt timer_ticks snd Idt.set_pic Idt.pic Pic.dev].
  rewrite Hlo, Hhi, !(wrap_small 8) by lia. done.
Qed.

Context (hlt : M (timer_state D) unit).
(** The processor is woken by timer interrupts, each of which counts a tick. *)
Hypothesis hlt_ticks : forall s, exists s',
  hlt s = (Ret tt, s') /\ timer_ticks s' = u64 (timer_ticks s + 1).

Lemma run_timer_wait fuel s target :
  0 <= timer_ticks s -> target < 2 ^ 64 ->
  if target - timer_ticks s <=? Z.of_nat fuel
  then exists s', timer_wait hlt fuel target s = (Ret tt, s') /\
         timer_ticks s' = Z.max (timer_ticks s) target
  else (timer_wait hlt fuel target s).1 = Spin.
Proof using hlt_ticks.
  revert s. induction fuel as [|fuel IH]; intros s H0 Ht; cbn [timer_wait];
    rewrite (run_bind mget _ s s s eq_refl).
  - destruct (Z.leb_spec (target - timer_ticks s) (Z.of_nat 0)).
    + replace (timer_ticks s <? target) with false by lia. exists s. split; [done|lia].
    + by replace (timer_ticks s <? target) with true by lia.
  - destruct (Z.ltb_spec (timer_ticks s) target).
    + destruct (hlt_ticks s) as (s1 & Hr & Hs1). rewrite (run_bind _ _ _ _ _ Hr).
      rewrite wrap_small in Hs1 by lia. specialize (IH s1 ltac:(lia) Ht).
      destruct (Z.leb_spec (target - timer_ticks s1) (Z.of_nat fuel)),
        (Z.leb_spec (target - timer_ticks s) (Z.of_nat (Datatypes.S fuel))); [|lia..|done].
      destruct IH as (s' & Hr' & Hs'). exists s'. split; [done|]. lia.
    + destruct (Z.leb_spec (target - timer_ticks s) (Z.of_nat (Datatypes.S fuel))); [|lia].
      exists s. split; [done|lia].
Qed.

(** [timer_set_frequency] programs the timer chip (low byte first) with
    the number of its clock periods that a tick is to last, for any frequency
    from 19 Hz on.  [timer_sleep] returns, after exactly as many timer interrupts as a
    hundredth-second clock has in the time asked for.  With the timer at
    100 Hz that is the time asked for, short of less than one tick and 82
    millionths; at the 1000 Hz the scheduler sets it is at most a tenth of it. *)
Theorem timer_sleep_duration ms s :
  0 <= ms < 2 ^ 32 -> 0 <= timer_ticks s < 2 ^ 64 - 2 ^ 32 ->
  (forall f, 19 <= f -> exists lo hi s', timer_set_frequency f s = (Ret tt, s') /\
     lo + hi * 2 ^ 8 = timer_divisor f /\ 0 <= lo < 2 ^ 8 /\ 0 <= hi < 2 ^ 8 /\
     timer_ticks s' = timer_ticks s /\
     Pic.dev (Idt.pic (idt s')) = port_out 0x40 hi (port_out 0x40 lo (port_out 0x43 0x36
       (Pic.dev (Idt.pic (idt s)))))) /\
  exists s', timer_sleep hlt (Z.to_nat (ms / 10)) ms s = (Ret tt, s') /\
    timer_ticks s' = timer_ticks s + ms / 10 /\
    (forall fuel, Z.of_nat fuel < ms / 10 -> (timer_sleep hlt fuel ms s).1 = Spin) /\
    (let waited f := (timer_ticks s' - timer_ticks s) * timer_divisor f in
     let asked := ms * PIT_FREQUENCY in
     asked < (waited 100 + timer_divisor 100) * 1000 + 82 * ms /\
     waited 100 * 1000 <= asked /\ waited 1000 * 10 * 1000 <= asked).
Proof using hlt_ticks.
  intros Hms Hs. split; [intros f Hf; by apply run_timer_set_frequency|].
  pose proof (Z.div_mod ms 10 ltac:(lia)) as Hdm.
  pose proof (Z.mod_pos_bound ms 10 ltac:(lia)) as Hmod.
  assert (Hgoal : forall fuel, timer_sleep hlt fuel ms s = timer_wait hlt fuel (timer_ticks s + ms / 10) s).
  { intros fuel. unfold timer_sleep. rewrite (run_bind mget _ s s s eq_refl).
    by rewrite wrap_small by lia. }
  pose proof (run_timer_wait (Z.to_nat (ms / 10)) s (timer_ticks s + ms / 10)) as Hw.
  specialize (Hw ltac:(lia) ltac:(lia)).
  destruct (Z.leb_spec (timer_ticks s + ms / 10 - timer_ticks s) (Z.of_nat (Z.to_nat (ms / 10))));
    [|lia].
  destruct Hw as (s' & Hr & Hs').
  exists s'. rewrite Hgoal. split; [done|]. split; [lia|]. split.
  - intros fuel Hf. rewrite Hgoal.
    pose proof (run_timer_wait fuel s (timer_ticks s + ms / 10)) as Hw'.
    specialize (Hw' ltac:(lia) ltac:(lia)).
    by destruct (Z.leb_spec (timer_ticks s + ms / 10 - timer_ticks s) (Z.of_nat fuel)); [lia|].
  - cbv beta zeta. change (timer_divisor 100) with 11931. change (timer_divisor 1000) with 1193.
    unfold PIT_FREQUENCY. lia.
Qed.

End timer.
