(* ===== verification/InterruptsExamples.v ===== *)
(** Two 8259 controllers as a device, and instances of the properties of
    InterruptsSpec.v on it. *)
From S2P Require Import Prelude Interrupts InterruptsSpec.

(** Two chips behind the ports 0x20, 0x21, 0xA0 and 0xA1 and a timer chip,
    which keeps the bytes written to it, latest first. *)
Record machine : Type := Machine { m_master : chip; m_slave : chip; m_timer : list (Z * Z) }.

#[export] Instance machine_ports : PortIO machine := {
  port_in p d := (if p =? 0x21 then imr (m_master d) else if p =? 0xA1 then imr (m_slave d) else 0, d);
  port_out p v d :=
    if p =? 0x20 then Machine (chip_command v (m_master d)) (m_slave d) (m_timer d)
    else if p =? 0x21 then Machine (chip_data v (m_master d)) (m_slave d) (m_timer d)
    else if p =? 0xA0 then Machine (m_master d) (chip_command v (m_slave d)) (m_timer d)
    else if p =? 0xA1 then Machine (m_master d) (chip_data v (m_slave d)) (m_timer d)
    else Machine (m_master d) (m_slave d) ((p, v) :: m_timer d);
}.

#[export] Instance machine_pic : Pic8259 machine.
Proof. by refine {| chips d := (m_master d, m_slave d) |}. Defined.

(** After the firmware: all lines but 1 and 2 masked, old vectors. *)
Definition firmware : machine := Machine (Chip operational 0xF9 8 4) (Chip operational 0xFF 0x70 2) [].

Definition example_pic : Pic.pic_state machine := Pic.PicState firmware 0xFFF9.

#[export] Instance example_layout : Idt.IdtLayout := {
  Idt.idt_address := 0xffffffff80010000;
  Idt.stub_address n := 0xffffffff80001000 + 16 * n;
}.

Definition example_idt : Idt.idt_state machine :=
  Idt.IdtState (replicate 256 Idt.zero_entry) (Idt.IdtPtr 0 0) (replicate 256 Idt.zero_entry)
    (Idt.IdtPtr 0 0) (replicate 256 None) example_pic (Idt.IdtPtr 0 0).

Lemma example_stubs n : 0 <= n < 48 -> 0 <= Idt.stub_address n < 2 ^ 64.
Proof. unfold Idt.stub_address, example_layout. lia. Qed.

Lemma idt_init_correct_witness :
  exists s', Idt.idt_init example_idt = (Ret tt, s') /\
    gate_offset (array_get Idt.zero_entry (Idt.idt s') 14) = 0xffffffff800010E0 /\
    array_get Idt.zero_entry (Idt.idt s') 48 = Idt.zero_entry.
Proof.
  destruct (idt_init_correct example_idt example_stubs) as (s' & Hr & Hi & Hg & _).
  exists s'. split; [exact Hr|]. split.
  - destruct (Hg 14) as [Ho _]; [lia|]. exact Ho.
  - exact (ii_gates _ Hi 48 ltac:(lia)).
Defined.

(** The table after [idt_init], computed. *)
Definition example_installed : Idt.idt_state machine := snd (Idt.idt_init example_idt).

#[local] Existing Instance Idt.idt_entry_eq_dec.

Lemma example_gates n :
  0 <= n < 256 ->
  array_get Idt.zero_entry (Idt.idt example_installed) n =
    if n <? 48 then kernel_gate n else Idt.zero_entry.
Proof.
  intros Hn.
  assert (Hall : Forall (fun n => array_get Idt.zero_entry (Idt.idt example_installed) n =
    if n <? 48 then kernel_gate n else Idt.zero_entry) (seqZ 0 256)).
  { apply (bool_decide_unpack _). vm_compute. exact I. }
  rewrite Forall_forall in Hall. apply Hall, elem_of_seqZ. lia.
Qed.

Lemma example_installed_ok : idt_installed example_installed.
Proof. split; [exact example_gates|vm_compute; reflexivity..]. Qed.

(** Gate 14 overwritten and the limit cut: the check notices and recovery
    brings the gate back. *)
Lemma idt_recover_correct_witness :
  let bad := Idt.IdtState
    (array_set (Idt.idt example_installed) 14 Idt.zero_entry) (Idt.IdtPtr 15 0)
    (Idt.idt_backup example_installed) (Idt.idt_pointer_backup example_installed)
    (Idt.interrupt_handlers example_installed) (Idt.pic example_installed)
    (Idt.idtr example_installed) in
  Idt.idt_check_integrity bad = (Ret false, bad) /\
  exists s', Idt.idt_recover bad = (Ret true, s') /\
    array_get Idt.zero_entry (Idt.idt s') 14 = kernel_gate 14.
Proof.
  intros bad. pose proof (idt_recover_correct example_installed
    (array_set (Idt.idt example_installed) 14 Idt.zero_entry) (Idt.IdtPtr 15 0)
    (Idt.idtr example_installed) example_installed_ok) as [Hc Hr].
  pose proof (ii_pointer _ example_installed_ok) as Hp.
  pose proof (example_gates 14 ltac:(lia)) as Hg.
  subst bad. revert Hc Hr Hp Hg. generalize example_installed. intros e Hc Hr Hp Hg. split.
  - rewrite Hc. rewrite bool_decide_false; [reflexivity|]. rewrite Hp. intros [_ Hd]. discriminate Hd.
  - eexists. split; [exact Hr|]. exact Hg.
Defined.

Lemma example_pic_agree : masks_agree example_pic.
Proof. by split. Qed.

Lemma pic_masks_one_line_witness :
  exists s', Pic.pic_unmask_irq 12 example_pic = (Ret tt, s') /\
    masked s' 12 = false /\ masked s' 11 = true /\ masked s' 1 = false.
Proof.
  destruct (pic_masks_one_line 12 example_pic example_pic_agree) as (_ & (s' & Hr & _ & Hm & _) & _).
  { lia. }
  exists s'. split; [exact Hr|]. rewrite !Hm by lia. by vm_compute.
Defined.

Lemma pic_init_remaps_and_masks_witness :
  exists s', Pic.pic_init example_pic = (Ret tt, s') /\
    vector_offset (master s') = 32 /\ masked s' 1 = true /\ masked example_pic 1 = false.
Proof.
  destruct (pic_init_remaps_and_masks example_pic) as (s' & Hr & _ & Hv & _ & _ & _ & _ & H1).
  { by split. }
  exists s'. split; [exact Hr|]. split; [exact Hv|]. split; [exact H1|]. reflexivity.
Defined.

Definition example_timer_state : Timer.timer_state machine := Timer.TimerState 5 false example_idt.

(** 95 ms take 9 ticks; at 1000 Hz that is 9 ms. *)
Lemma timer_sleep_duration_witness :
  exists s', Timer.timer_sleep Timer.timer_count 9 95 example_timer_state = (Ret tt, s') /\
    Timer.timer_ticks s' = 14 /\ 9 * Timer.timer_divisor 1000 * 10 * 1000 <= 95 * Timer.PIT_FREQUENCY.
Proof.
  destruct (timer_sleep_duration Timer.timer_count) with (ms := 95) (s := example_timer_state)
    as (_ & s' & Hr & Ht & _ & _ & _ & Hlt).
  - intros s. by exists (snd (Timer.timer_count s)).
  - lia.
  - cbn [Timer.timer_ticks example_timer_state]. lia.
  - exists s'. split; [exact Hr|]. split; [exact Ht|].
    rewrite Ht in Hlt. exact Hlt.
Defined.
