(* ===== verification/Input.v ===== *)
(** The input devices: the keyboard (drivers/keyboard/keyboard.c,
    [Module Keyboard]) and the PS/2 mouse (drivers/mouse/mouse.c,
    [Module Mouse]).  Both read ports and register an interrupt handler, so
    the interrupt table of Interrupts.v is part of their state.  The events
    passed to the registered callback are kept in a list, oldest first.
    Logging is left out. *)
From Stdlib Require Import Strings.String Strings.Ascii.
From S2P Require Import Prelude Interrupts.

(** The characters of a string, as C [char] values. *)
Definition chars (s : string) : list Z :=
  (fun c => Z.of_nat (nat_of_ascii c)) <$> list_ascii_of_string s.

(** ** The keyboard *)

Module Keyboard.

Definition KB_DATA_PORT : Z := 0x60.
Definition IRQ_KEYBOARD : Z := 33.

Definition scancode_to_ascii : list Z :=
  [0; 0] ++ chars "1234567890-=" ++ [0; 0] ++ chars "qwertyuiop[]" ++ [0; 0] ++
  chars "asdfghjkl;'`" ++ [0] ++ chars "\zxcvbnm,./" ++ [0] ++ chars "*" ++ [0] ++ chars " " ++
  replicate 13 0 ++ chars "789-456+1230." ++ replicate 6 0.

(** 34 is the double quote. *)
Definition scancode_to_ascii_shifted : list Z :=
  [0; 0] ++ chars "!@#$%^&*()_+" ++ [0; 0] ++ chars "QWERTYUIOP{}" ++ [0; 0] ++
  chars "ASDFGHJKL:" ++ [34] ++ chars "~" ++ [0] ++ chars "|ZXCVBNM<>?" ++ [0] ++
  chars "*" ++ [0] ++ chars " " ++
  replicate 13 0 ++ chars "789-456+1230." ++ replicate 6 0.

Inductive key_state_t : Type := KEY_RELEASED | KEY_PRESSED.

Record keyboard_event : Type := KeyboardEvent {
  ev_scancode : Z;
  ev_ascii : Z;
  ev_state : key_state_t;
  ev_shift : bool;
  ev_ctrl : bool;
  ev_alt : bool;
}.

(** The static variables ([kb_callback]: whether a callback is registered),
    the events delivered to the callback, and the interrupt table. *)
Record keyboard_state (D : Type) : Type := KeyboardState {
  key_states : list Z;
  shift_pressed : bool;
  ctrl_pressed : bool;
  alt_pressed : bool;
  caps_lock : bool;
  kb_callback : bool;
  delivered : list keyboard_event;
  idt : Idt.idt_state D;
}.
Arguments KeyboardState {D}.
Arguments key_states {D}.
Arguments shift_pressed {D}.
Arguments ctrl_pressed {D}.
Arguments alt_pressed {D}.
Arguments caps_lock {D}.
Arguments kb_callback {D}.
Arguments delivered {D}.
Arguments idt {D}.

Section keyboard.
  Context {D : Type} `{PortIO D}.
  Local Abbreviation K := (M (keyboard_state D)).

Definition set_idt (i : Idt.idt_state D) (s : keyboard_state D) : keyboard_state D :=
  KeyboardState (key_states s) (shift_pressed s) (ctrl_pressed s) (alt_pressed s) (caps_lock s)
    (kb_callback s) (delivered s) i.
Definition run_idt {A} (m : M (Idt.idt_state D) A) : K A := mzoom idt set_idt m.
Definition inb (port : Z) : K Z := run_idt (Idt.run_pic (Pic.inb port)).

Definition set_key_states (l : list Z) (s : keyboard_state D) : keyboard_state D :=
  KeyboardState l (shift_pressed s) (ctrl_pressed s) (alt_pressed s) (caps_lock s)
    (kb_callback s) (delivered s) (idt s).
Definition set_modifiers (shift ctrl alt caps : bool) (s : keyboard_state D) : keyboard_state D :=
  KeyboardState (key_states s) shift ctrl alt caps (kb_callback s) (delivered s) (idt s).
Definition set_callback (b : bool) (s : keyboard_state D) : keyboard_state D :=
  KeyboardState (key_states s) (shift_pressed s) (ctrl_pressed s) (alt_pressed s) (caps_lock s)
    b (delivered s) (idt s).
Definition deliver (e : keyboard_event) (s : keyboard_state D) : keyboard_state D :=
  KeyboardState (key_states s) (shift_pressed s) (ctrl_pressed s) (alt_pressed s) (caps_lock s)
    (kb_callback s) (delivered s ++ [e]) (idt s).

(** The letters of the layout. *)
Definition is_letter_key (key : Z) : bool :=
  ((0x10 <=? key) && (key <=? 0x19)) || ((0x1E <=? key) && (key <=? 0x26)) ||
  ((0x2C <=? key) && (key <=? 0x32)).

(** The character of a key press or release. *)
Definition key_ascii (key : Z) (is_release shift caps : bool) : Z :=
  if (key <? Z.of_nat (length scancode_to_ascii)) && negb is_release then
    let uppercase := xorb shift caps in
    if is_letter_key key then
      if uppercase then array_get 0 scancode_to_ascii_shifted key
      else array_get 0 scancode_to_ascii key
    else
      if shift then array_get 0 scancode_to_ascii_shifted key
      else array_get 0 scancode_to_ascii key
  else 0.

Definition keyboard_handle_keypress (scancode : Z) : K unit :=
  let is_release := truthy (Z.land scancode 0x80) in
  let key := Z.land scancode 0x7F in
  mmodify (fun s => set_key_states (array_set (key_states s) key (if is_release then 0 else 1)) s);;
  mmodify (fun s =>
    if (key =? 0x2A) || (key =? 0x36)
    then set_modifiers (negb is_release) (ctrl_pressed s) (alt_pressed s) (caps_lock s) s
    else if key =? 0x1D
    then set_modifiers (shift_pressed s) (negb is_release) (alt_pressed s) (caps_lock s) s
    else if key =? 0x38
    then set_modifiers (shift_pressed s) (ctrl_pressed s) (negb is_release) (caps_lock s) s
    else if (key =? 0x3A) && negb is_release
    then set_modifiers (shift_pressed s) (ctrl_pressed s) (alt_pressed s) (negb (caps_lock s)) s
    else s);;
  s ← mget;
  let event := KeyboardEvent key (key_ascii key is_release (shift_pressed s) (caps_lock s))
    (if is_release then KEY_RELEASED else KEY_PRESSED)
    (shift_pressed s) (ctrl_pressed s) (alt_pressed s) in
  if kb_callback s then mmodify (deliver event) else mret tt.

Definition keyboard_interrupt_handler : K unit :=
  scancode ← inb KB_DATA_PORT;
  keyboard_handle_keypress scancode.

Definition keyboard_init : K unit :=
  run_idt (Idt.idt_register_handler IRQ_KEYBOARD Idt.keyboard_interrupt_handler);;
  run_idt (Idt.run_pic (Pic.pic_unmask_irq 1)).

Definition keyboard_register_callback : K unit := mmodify (set_callback true).

Definition keyboard_get_key_state (scancode : Z) : K bool := mgets (fun s =>
  if scancode <? 128 then array_get 0 (key_states s) scancode =? 1 else false).

End keyboard.

Definition key_names : list string := [
  "Unknown"; "Escape"; "1"; "2"; "3"; "4"; "5"; "6"; "7"; "8"; "9"; "0";
  "Minus"; "Equal"; "Backspace"; "Tab"; "Q"; "W"; "E"; "R"; "T"; "Y"; "U"; "I"; "O"; "P";
  "LeftBracket"; "RightBracket"; "Enter"; "LeftCtrl"; "A"; "S"; "D"; "F"; "G"; "H"; "J"; "K"; "L";
  "Semicolon"; "Apostrophe"; "Backtick"; "LeftShift"; "Backslash"; "Z"; "X"; "C"; "V"; "B"; "N"; "M";
  "Comma"; "Period"; "Slash"; "RightShift"; "KeypadMultiply"; "LeftAlt"; "Space"; "CapsLock";
  "F1"; "F2"; "F3"; "F4"; "F5"; "F6"; "F7"; "F8"; "F9"; "F10";
  "NumLock"; "ScrollLock"; "Keypad7"; "Keypad8"; "Keypad9"; "KeypadMinus";
  "Keypad4"; "Keypad5"; "Keypad6"; "KeypadPlus"; "Keypad1"; "Keypad2"; "Keypad3"; "Keypad0";
  "KeypadDecimal"]%string.

Definition keyboard_get_key_name (scancode : Z) : string :=
  if scancode <? Z.of_nat (length key_names)
  then array_get "Unknown"%string key_names scancode else "Unknown"%string.

End Keyboard.

(** ** The mouse *)

Module Mouse.

Definition MOUSE_DATA_PORT : Z := 0x60.
Definition MOUSE_STATUS_PORT : Z := 0x64.
Definition MOUSE_COMMAND_PORT : Z := 0x64.
Definition MOUSE_STATUS_OUTPUT_FULL : Z := 0x01.
Definition MOUSE_STATUS_INPUT_FULL : Z := 0x02.
Definition MOUSE_CMD_ENABLE : Z := 0xF4.
Definition MOUSE_CMD_DISABLE : Z := 0xF5.
Definition MOUSE_CMD_RESET : Z := 0xFF.
Definition MOUSE_CMD_DEFAULTS : Z := 0xF6.
Definition MOUSE_CMD_SAMPLE_RATE : Z := 0xF3.
Definition MOUSE_PACKET_X_SIGN : Z := 0x10.
Definition MOUSE_PACKET_Y_SIGN : Z := 0x20.
Definition IRQ_MOUSE : Z := 44.

(** The fields of [mouse_event_t] that the driver sets; [delta_x] and
    [delta_y] are [int8_t]. *)
Record mouse_event : Type := MouseEvent { buttons : Z; delta_x : Z; delta_y : Z }.

(** The static variables ([mouse_callback]: whether a callback is registered),
    the events delivered to the callback, and the interrupt table. *)
Record mouse_state (D : Type) : Type := MouseState {
  mouse_packet : list Z;
  mouse_cycle : Z;
  mouse_buttons : Z;
  mouse_callback : bool;
  delivered : list mouse_event;
  idt : Idt.idt_state D;
}.
Arguments MouseState {D}.
Arguments mouse_packet {D}.
Arguments mouse_cycle {D}.
Arguments mouse_buttons {D}.
Arguments mouse_callback {D}.
Arguments delivered {D}.
Arguments idt {D}.

Section mouse.
  Context {D : Type} `{PortIO D}.
  Local Abbreviation K := (M (mouse_state D)).

Definition set_idt (i : Idt.idt_state D) (s : mouse_state D) : mouse_state D :=
  MouseState (mouse_packet s) (mouse_cycle s) (mouse_buttons s) (mouse_callback s) (delivered s) i.
Definition run_idt {A} (m : M (Idt.idt_state D) A) : K A := mzoom idt set_idt m.
Definition inb (port : Z) : K Z := run_idt (Idt.run_pic (Pic.inb port)).
Definition outb (port v : Z) : K unit := run_idt (Idt.run_pic (Pic.outb port v)).

(** The busy-wait on the status register, [fuel] reads at most. *)
Fixpoint mouse_poll (fuel : nat) (ready : Z -> bool) : K unit :=
  status ← inb MOUSE_STATUS_PORT;
  if ready status then mret tt
  else match fuel with O => mspin | S fuel => mouse_poll fuel ready end.

Definition mouse_read (fuel : nat) : K Z :=
  mouse_poll fuel (fun st => truthy (Z.land st MOUSE_STATUS_OUTPUT_FULL));;
  inb MOUSE_DATA_PORT.

Definition mouse_write (fuel : nat) (cmd : Z) : K unit :=
  mouse_poll fuel (fun st => negb (truthy (Z.land st MOUSE_STATUS_INPUT_FULL)));;
  outb MOUSE_COMMAND_PORT 0xD4;;
  mouse_poll fuel (fun st => negb (truthy (Z.land st MOUSE_STATUS_INPUT_FULL)));;
  outb MOUSE_DATA_PORT cmd.

Definition mouse_wait_ack (fuel : nat) : K bool :=
  response ← mouse_read fuel;
  mret (response =? 0xFA).

Definition set_packet (i : Z) (b cycle : Z) (s : mouse_state D) : mouse_state D :=
  MouseState (array_set (mouse_packet s) i b) cycle (mouse_buttons s) (mouse_callback s)
    (delivered s) (idt s).

(** The event of a packet: the data bytes are stored in [int8_t] fields, the
    bits above them are then set in an [int] that is stored back. *)
Definition packet_event (packet : list Z) : mouse_event :=
  let b0 := array_get 0 packet 0 in
  let dx := s8 (array_get 0 packet 1) in
  let dx := if truthy (Z.land b0 MOUSE_PACKET_X_SIGN) then s8 (Z.lor (u32 dx) 0xFFFFFF00) else dx in
  let dy := s8 (array_get 0 packet 2) in
  let dy := if truthy (Z.land b0 MOUSE_PACKET_Y_SIGN) then s8 (Z.lor (u32 dy) 0xFFFFFF00) else dy in
  MouseEvent (Z.land b0 0x07) dx (s8 (- dy)).

(** The handler, after reading the byte. *)
Definition mouse_handle_byte (mouse_data : Z) : K unit :=
  s ← mget;
  if mouse_cycle s =? 0 then mmodify (set_packet 0 mouse_data 1)
  else if mouse_cycle s =? 1 then mmodify (set_packet 1 mouse_data 2)
  else if mouse_cycle s =? 2 then
    mmodify (set_packet 2 mouse_data 2);;
    s ← mget;
    let event := packet_event (mouse_packet s) in
    (if mouse_callback s
     then mmodify (fun s => MouseState (mouse_packet s) (mouse_cycle s) (mouse_buttons s)
            (mouse_callback s) (delivered s ++ [event]) (idt s))
     else mret tt);;
    mmodify (fun s => MouseState (mouse_packet s) 0 (buttons event) (mouse_callback s)
      (delivered s) (idt s))
  else mret tt.

Definition mouse_interrupt_handler : K unit :=
  mouse_data ← inb MOUSE_DATA_PORT;
  mouse_handle_byte mouse_data.

(** Sending a command and waiting for its acknowledgement; [next] is what
    [mouse_init] does when it arrives, otherwise it returns. *)
Definition mouse_command (fuel : nat) (cmd : Z) (next : K unit) : K unit :=
  mouse_write fuel cmd;;
  ok ← mouse_wait_ack fuel;
  if (ok : bool) then next else mret tt.

Definition mouse_init (fuel : nat) : K unit :=
  mouse_write fuel MOUSE_CMD_DISABLE;;
  mouse_command fuel MOUSE_CMD_RESET (
  mouse_read fuel;; mouse_read fuel;;
  mouse_command fuel MOUSE_CMD_DEFAULTS (
  mouse_command fuel MOUSE_CMD_SAMPLE_RATE (
  mouse_command fuel 100 (
  mouse_command fuel MOUSE_CMD_ENABLE (
  run_idt (Idt.idt_register_handler IRQ_MOUSE Idt.mouse_interrupt_handler);;
  run_idt (Idt.run_pic (Pic.pic_unmask_irq 12))))))).

Definition mouse_register_callback : K unit := mmodify (fun s =>
  MouseState (mouse_packet s) (mouse_cycle s) (mouse_buttons s) true (delivered s) (idt s)).

Definition mouse_get_button_state (button : Z) : K bool := mgets (fun s =>
  if 2 <? button then false
  else truthy (Z.land (mouse_buttons s) (Z.shiftl 1 button))).

End mouse.
End Mouse.
