(* ===== verification/InputSpec.v ===== *)
(** The correctness of the input drivers of Input.v: what the keyboard driver
    knows after any sequence of scancodes, which character a key gives, which
    events the mouse driver makes of a byte stream, and what becomes of its
    initialisation. *)
From S2P Require Import Prelude Interrupts Input.

(** ** The keyboard *)

Section keyboard.
  Import Keyboard.
  Context {D : Type} `{PortIO D}.
  Implicit Types s : keyboard_state D.

(** A scancode is a key number and, in bit 7, whether the key was released. *)
Definition key_of (c : Z) : Z := c mod 128.
Definition is_press (c : Z) : bool := c <? 128.

Lemma scancode_release c : 0 <= c < 256 -> truthy (Z.land c 0x80) = negb (is_press c).
Proof using Type.
  intros Hc. unfold truthy, is_press. change (Z.land c 0x80) with (Z.land c (Z.shiftl 1 7)).
  rewrite land_pow2_testbit, negb_involutive by lia.
  rewrite Z.testbit_eqb by lia. destruct (Z.ltb_spec c 128).
  - by rewrite Z.div_small by lia.
  - assert (Hd : c / 2 ^ 7 = 1) by (symmetry; apply (Z.div_unique_pos _ _ _ (c - 128)); lia). by rewrite Hd.
Qed.

Lemma scancode_key c : Z.land c 0x7F = key_of c.
Proof using Type. change 0x7F with (Z.ones 7). by rewrite Z.land_ones. Qed.

(** Handling the scancodes of [h] in turn. *)
Fixpoint handle_keys (h : list Z) : M (keyboard_state D) unit :=
  match h with
  | [] => mret tt
  | c :: h => keyboard_handle_keypress c;; handle_keys h
  end.

(** Whether the latest event of the keys [ks] in the history [h] is a press;
    [before] is the answer if there is none. *)
Definition down_after (ks : list Z) (h : list Z) (before : bool) : bool :=
  default before (is_press <$> last (filter (fun c => key_of c ∈ ks) h)).

(** How often the caps lock key is pressed in the history [h]. *)
Definition caps_presses (h : list Z) : nat := length (filter (eq 0x3A) h).

Lemma down_after_cons ks c h before :
  down_after ks (c :: h) before =
    down_after ks h (if decide (key_of c ∈ ks) then is_press c else before).
Proof using Type.
  unfold down_after. rewrite filter_cons. case_decide; [|done].
  rewrite last_cons. by destruct (last _).
Qed.

Lemma keypress_state c s :
  exists s', keyboard_handle_keypress c s = (Ret tt, s') /\ idt s' = idt s /\
    kb_callback s' = kb_callback s /\
    key_states s' = array_set (key_states s) (Z.land c 0x7F) (if truthy (Z.land c 0x80) then 0 else 1) /\
    let key := Z.land c 0x7F in
    let press := negb (truthy (Z.land c 0x80)) in
    shift_pressed s' = (if (key =? 0x2A) || (key =? 0x36) then press else shift_pressed s) /\
    ctrl_pressed s' = (if key =? 0x1D then press else ctrl_pressed s) /\
    alt_pressed s' = (if key =? 0x38 then press else alt_pressed s) /\
    caps_lock s' = (if (key =? 0x3A) && press then negb (caps_lock s) else caps_lock s) /\
    delivered s' = delivered s ++ if kb_callback s then
      [KeyboardEvent key (key_ascii key (truthy (Z.land c 0x80)) (shift_pressed s') (caps_lock s'))
        (if truthy (Z.land c 0x80) then KEY_RELEASED else KEY_PRESSED)
        (shift_pressed s') (ctrl_pressed s') (alt_pressed s')] else [].
Proof using Type.
  unfold keyboard_handle_keypress. set (rel := truthy _). set (key := Z.land c 0x7F).
  do 2 mstep. set (s1 := if _ || _ then _ else _). mstep.
  assert (Hs1 : idt s1 = idt s /\ kb_callback s1 = kb_callback s /\ delivered s1 = delivered s /\
    key_states s1 = array_set (key_states s) key (if rel then 0 else 1) /\
    shift_pressed s1 = (if (key =? 0x2A) || (key =? 0x36) then negb rel else shift_pressed s) /\
    ctrl_pressed s1 = (if key =? 0x1D then negb rel else ctrl_pressed s) /\
    alt_pressed s1 = (if key =? 0x38 then negb rel else alt_pressed s) /\
    caps_lock s1 = (if (key =? 0x3A) && negb rel then negb (caps_lock s) else caps_lock s)).
  { subst s1. destruct (Z.eqb_spec key 0x2A) as [->|]; [done|].
    destruct (Z.eqb_spec key 0x36) as [->|]; [done|].
    destruct (Z.eqb_spec key 0x1D) as [->|]; [done|].
    destruct (Z.eqb_spec key 0x38) as [->|]; [done|]. cbn [orb].
    destruct (_ && _); done. }
  destruct Hs1 as (? & Hcb & Hdel & ? & Hsh & Hct & Hal & Hca).
  rewrite <- Hcb, <- Hdel. destruct (kb_callback s1) eqn:E; (eexists; split; [reflexivity|]);
    cbn; rewrite ?app_nil_r; by split_and!.
Qed.

Lemma key_of_range c : 0 <= key_of c < 128.
Proof using Type. apply Z.mod_pos_bound. lia. Qed.

Lemma decide_bool (P : Prop) (b : bool) `{Decision P} {A} (x y : A) :
  (P <-> b = true) -> (if b then x else y) = (if decide P then x else y).
Proof using Type. intros HP. case_decide; destruct b; naive_solver. Qed.

Lemma caps_presses_cons c h :
  0 <= c < 256 ->
  Nat.odd (caps_presses (c :: h)) =
    xorb ((Z.land c 0x7F =? 0x3A) && is_press c) (Nat.odd (caps_presses h)).
Proof using Type.
  intros Hc. unfold caps_presses. rewrite filter_cons, scancode_key. unfold key_of, is_press.
  pose proof (Z.div_mod c 128) as Hdm. pose proof (Z.div_pos c 128).
  case_decide as Hcase.
  - subst c. simpl length. rewrite Nat.odd_succ, <- Nat.negb_odd. done.
  - replace ((c mod 128 =? 0x3A) && (c <? 128)) with false; [by destruct (Nat.odd _)|].
    symmetry. apply andb_false_iff.
    destruct (Z.ltb_spec c 128); [|by right]. left.
    rewrite Z.mod_small by lia. lia.
Qed.

(** C37: after any sequence of scancodes, [keyboard_get_key_state] tells of
    each key whether its latest scancode was a press, the control and alt
    flags tell the same of their keys, caps lock has been toggled by every
    press of its key, and a registered callback has had one event per
    scancode.  The shift flag follows the latest scancode of either shift key:
    releasing one clears it although the other is held. *)
Theorem keyboard_follows_history h s :
  Forall (fun c => 0 <= c < 256) h -> length (key_states s) = 128%nat ->
  exists s', handle_keys h s = (Ret tt, s') /\ length (key_states s') = 128%nat /\
    (forall k, 0 <= k < 128 -> keyboard_get_key_state k s' =
       (Ret (down_after [k] h (array_get 0 (key_states s) k =? 1)), s')) /\
    shift_pressed s' = down_after [0x2A; 0x36] h (shift_pressed s) /\
    ctrl_pressed s' = down_after [0x1D] h (ctrl_pressed s) /\
    alt_pressed s' = down_after [0x38] h (alt_pressed s) /\
    caps_lock s' = xorb (caps_lock s) (Nat.odd (caps_presses h)) /\
    kb_callback s' = kb_callback s /\
    length (delivered s') = (length (delivered s) + if kb_callback s then length h else 0)%nat.
Proof using Type.
  revert s. induction h as [|c h IH]; intros s Hh Hlen.
  - exists s. split_and!; try done; [|by destruct (caps_lock s)|by destruct (kb_callback s)].
    intros k Hk. unfold keyboard_get_key_state, mgets. by replace (k <? 128) with true by lia.
  - apply Forall_cons in Hh as [Hc Hh].
    destruct (keypress_state c s) as (s1 & Hr & _ & Hcb & Hks & Hsh & Hct & Hal & Hca & Hdel).
    destruct (IH s1 Hh) as (s' & Hr' & Hlen' & Hk & Hsh' & Hct' & Hal' & Hca' & Hcb' & Hdel').
    { by rewrite Hks, length_array_set. }
    exists s'. cbn [handle_keys]. rewrite (run_bind _ _ _ _ _ Hr).
    rewrite scancode_release, negb_involutive in * by done.
    rewrite !down_after_cons. split_and!; [done|done| | | | | |congruence|].
    + intros k Hk0. rewrite Hk, down_after_cons by done. do 3 f_equal.
      rewrite Hks, scancode_key. pose proof (key_of_range c).
      case_decide as Hin; rewrite list_elem_of_singleton in Hin.
      * rewrite <- Hin, array_get_set_eq by lia. by destruct (is_press c).
      * by rewrite array_get_set_ne by lia.
    + rewrite Hsh', Hsh, scancode_key. f_equal. apply decide_bool. set_solver by lia.
    + rewrite Hct', Hct, scancode_key. f_equal. apply decide_bool. set_solver by lia.
    + rewrite Hal', Hal, scancode_key. f_equal. apply decide_bool. set_solver by lia.
    + rewrite Hca', Hca, caps_presses_cons by done.
      destruct (_ && _), (caps_lock s), (Nat.odd _); done.
    + rewrite Hdel', Hdel, length_app, Hcb. destruct (kb_callback s); simpl; lia.
Qed.

(** The character the layout gives for key [k]: the shift key selects the
    upper character, and caps lock inverts that for the letters. *)
Definition layout (k : Z) (shift caps : bool) : Z :=
  let lower := array_get 0 scancode_to_ascii k in
  if (97 <=? lower) && (lower <=? 122) then if xorb shift caps then lower - 32 else lower
  else if shift then array_get 0 scancode_to_ascii_shifted k else lower.

Lemma key_ascii_layout k shift caps :
  0 <= k < 128 ->
  key_ascii k false shift caps = layout k shift caps /\
  (layout k shift caps = 0 \/ 32 <= layout k shift caps < 127).
Proof using Type.
  intros Hk.
  assert (Hall : Forall (fun k => key_ascii k false shift caps = layout k shift caps /\
    (layout k shift caps = 0 \/ 32 <= layout k shift caps < 127)) (seqZ 0 128)).
  { apply (bool_decide_unpack _). by destruct shift, caps; vm_compute. }
  rewrite Forall_forall in Hall. apply Hall, elem_of_seqZ. lia.
Qed.

(** with a callback registered, every scancode delivers one event with
    its key, its direction and the modifiers as they are afterwards.  The
    character of a press is the one of the US layout under shift and caps
    lock, printable or 0; a release has none. *)
Theorem keyboard_event_character c s :
  0 <= c < 256 -> kb_callback s = true ->
  exists s' e, keyboard_handle_keypress c s = (Ret tt, s') /\ delivered s' = delivered s ++ [e] /\
    ev_scancode e = key_of c /\
    ev_state e = (if is_press c then KEY_PRESSED else KEY_RELEASED) /\
    ev_shift e = shift_pressed s' /\ ev_ctrl e = ctrl_pressed s' /\ ev_alt e = alt_pressed s' /\
    ev_ascii e = (if is_press c then layout (key_of c) (shift_pressed s') (caps_lock s') else 0) /\
    (ev_ascii e = 0 \/ 32 <= ev_ascii e < 127).
Proof using Type.
  intros Hc Hcb. destruct (keypress_state c s) as (s' & Hr & _ & _ & _ & _ & _ & _ & _ & Hdel).
  rewrite Hcb, scancode_key, scancode_release in Hdel by done.
  eexists s', _. split; [done|]. split; [exact Hdel|]. cbn.
  destruct (key_ascii_layout (key_of c) (shift_pressed s') (caps_lock s') (key_of_range c)) as [Ha Hl].
  destruct (is_press c); cbn [negb].
  - rewrite Ha. by split_and!.
  - unfold key_ascii. rewrite andb_false_r. split_and!; try done. by left.
Qed.

End keyboard.

(** ** The mouse *)

Section mouse.
  Import Mouse.
  Context {D : Type} `{PortIO D}.
  Implicit Types s : mouse_state D.

(** The packets of a byte stream. *)
Fixpoint packets (l : list Z) : list (list Z) :=
  match l with
  | b0 :: b1 :: b2 :: l => [b0; b1; b2] :: packets l
  | _ => []
  end.

(** The movement a PS/2 packet encodes: nine bits, the sign in the first byte. *)
Definition movement (sign : bool) (b : Z) : Z := b - (if sign then 256 else 0).
Definition x_movement (b0 b1 : Z) : Z := movement (Z.testbit b0 4) b1.
Definition y_movement (b0 b2 : Z) : Z := movement (Z.testbit b0 5) b2.

Fixpoint handle_bytes (l : list Z) : M (mouse_state D) unit :=
  match l with
  | [] => mret tt
  | b :: l => mouse_handle_byte b;; handle_bytes l
  end.

Lemma swrap_mod w a b : a mod 2 ^ w = b mod 2 ^ w -> swrap w a = swrap w b.
Proof using Type. intros Hab. unfold swrap. by rewrite Hab. Qed.

Lemma s8_sign_extend z : s8 (Z.lor (u32 (s8 z)) 0xFFFFFF00) = s8 z.
Proof using Type.
  assert (Hmod : Z.lor (u32 (s8 z)) 0xFFFFFF00 mod 2 ^ 8 = z mod 2 ^ 8).
  { transitivity (s8 z mod 2 ^ 8).
    - apply Z.bits_inj'. intros i Hi. destruct (decide (i < 8)).
      + rewrite !Z.mod_pow2_bits_low, Z.lor_spec by lia. unfold wrap.
        rewrite Z.mod_pow2_bits_low by lia.
        change 0xFFFFFF00 with (Z.shiftl (Z.ones 24) 8).
        rewrite Z.shiftl_spec, (Z.testbit_neg_r _ (i - 8)) by lia. apply orb_false_r.
      + by rewrite !Z.mod_pow2_bits_high by lia.
    - unfold swrap. destruct (_ <? _); [by rewrite Zmod_mod|].
      replace (z mod 2 ^ 8 - 2 ^ 8) with (z mod 2 ^ 8 + (-1) * 2 ^ 8) by lia.
      by rewrite Z_mod_plus_full, Zmod_mod. }
  by apply swrap_mod.
Qed.

Lemma packet_event_bytes b0 b1 b2 :
  packet_event [b0; b1; b2] = MouseEvent (Z.land b0 7) (s8 b1) (s8 (- s8 b2)).
Proof using Type.
  unfold packet_event, array_get. cbn [lookup list_lookup Z.to_nat Pos.to_nat Pos.iter_op default from_option].
  change ([b0; b1; b2] !! 0%nat) with (Some b0). change ([b0; b1; b2] !! 1%nat) with (Some b1).
  change ([b0; b1; b2] !! 2%nat) with (Some b2). cbn [default from_option].
  destruct (truthy _), (truthy _); by rewrite ?s8_sign_extend.
Qed.

Lemma s8_id z : 0 <= z < 256 -> s8 z = if z <? 128 then z else z - 256.
Proof using Type. intros Hz. unfold swrap. by rewrite Z.mod_small by (change (2 ^ 8) with 256; lia). Qed.

(** The three cases of the handler. *)
Lemma handle_byte_cases b p0 p1 p2 bt cb d (i : Idt.idt_state D) :
  mouse_handle_byte b (MouseState [p0; p1; p2] 0 bt cb d i) =
    (Ret tt, MouseState [b; p1; p2] 1 bt cb d i) /\
  mouse_handle_byte b (MouseState [p0; p1; p2] 1 bt cb d i) =
    (Ret tt, MouseState [p0; b; p2] 2 bt cb d i) /\
  mouse_handle_byte b (MouseState [p0; p1; p2] 2 bt cb d i) =
    (Ret tt, MouseState [p0; p1; b] 0 (Z.land p0 7) cb
      (if cb then d ++ [packet_event [p0; p1; b]] else d) i).
Proof using Type. split_and!; by destruct cb. Qed.

Lemma handle_packet b0 b1 b2 l p0 p1 p2 bt cb d (i : Idt.idt_state D) :
  handle_bytes (b0 :: b1 :: b2 :: l) (MouseState [p0; p1; p2] 0 bt cb d i) = handle_bytes l
    (MouseState [b0; b1; b2] 0 (Z.land b0 7) cb
       (if cb then d ++ [packet_event [b0; b1; b2]] else d) i).
Proof using Type.
  cbn [handle_bytes].
  rewrite (run_bind _ _ _ _ _ (proj1 (handle_byte_cases b0 p0 p1 p2 bt cb d i))).
  rewrite (run_bind _ _ _ _ _ (proj1 (proj2 (handle_byte_cases b1 b0 p1 p2 bt cb d i)))).
  by rewrite (run_bind _ _ _ _ _ (proj2 (proj2 (handle_byte_cases b2 b0 b1 p2 bt cb d i)))).
Qed.

(** Induction over a stream packet by packet. *)
Lemma packets_ind (P : list Z -> Prop) :
  P [] -> (forall b0, P [b0]) -> (forall b0 b1, P [b0; b1]) ->
  (forall b0 b1 b2 l, P l -> P (b0 :: b1 :: b2 :: l)) -> forall l, P l.
Proof using Type.
  intros H0 H1 H2 H3. fix go 1. intros [|b0 [|b1 [|b2 l]]]; [done..|]. by apply H3.
Qed.

Lemma run_handle_bytes l p0 p1 p2 bt d (i : Idt.idt_state D) :
  exists s', handle_bytes l (MouseState [p0; p1; p2] 0 bt true d i) = (Ret tt, s') /\
    mouse_cycle s' = Z.of_nat (length l) mod 3 /\
    delivered s' = d ++ (packet_event <$> packets l).
Proof using Type.
  revert p0 p1 p2 bt d. induction l as [|b0|b0 b1|b0 b1 b2 l IH] using packets_ind; intros.
  - eexists. split; [done|]. by rewrite app_nil_r.
  - eexists. split; [reflexivity|]. by rewrite app_nil_r.
  - cbn [handle_bytes].
    rewrite (run_bind _ _ _ _ _ (proj1 (handle_byte_cases b0 p0 p1 p2 bt true d i))).
    rewrite (run_bind _ _ _ _ _ (proj1 (proj2 (handle_byte_cases b1 b0 p1 p2 bt true d i)))).
    eexists. split; [reflexivity|]. by rewrite app_nil_r.
  - rewrite handle_packet.
    destruct (IH b0 b1 b2 (Z.land b0 7) (d ++ [packet_event [b0; b1; b2]])) as (s' & Hr & Hcy & Hd).
    exists s'. split; [done|]. split.
    + rewrite Hcy. cbn [length]. rewrite !Nat2Z.inj_succ.
      replace (Z.succ (Z.succ (Z.succ (Z.of_nat (length l))))) with (Z.of_nat (length l) + 1 * 3) by lia.
      by rewrite Z_mod_plus_full.
    + rewrite Hd. cbn [packets fmap list_fmap]. by rewrite <- app_assoc.
Qed.

Lemma s8_neg_movement sign b :
  0 <= b < 256 ->
  let m := movement sign b in
  (s8 b = m <-> -128 <= m <= 127) /\ (s8 (- s8 b) = - m <-> -127 <= m <= 128).
Proof using Type.
  intros Hb m. subst m. rewrite (s8_id b) by done. unfold movement.
  assert (Hneg : s8 (- (if b <? 128 then b else b - 256)) =
    if (b =? 0) || (128 <? b) then - (if b <? 128 then b else b - 256) else
    if b =? 128 then -128 else - b).
  { unfold swrap. change (2 ^ 8) with 256. change (2 ^ (8 - 1)) with 128.
    destruct (Z.ltb_spec b 128), (Z.eqb_spec b 0), (Z.ltb_spec 128 b), (Z.eqb_spec b 128);
      cbn [orb]; try lia; subst; try done.
    - rewrite <- (Z.mod_unique_pos (- b) 256 (-1) (256 - b)) by lia.
      replace (256 - b <? 128) with false by lia. lia.
    - rewrite Z.mod_small by lia. by replace (- (b - 256) <? 128) with true by lia. }
  rewrite Hneg. destruct sign; range_cases.
Qed.

(** C38: a driver that is between two packets makes one event of every three
    bytes of the stream, in order, and is in the middle of a packet when the
    stream is.  The event has the buttons of the packet, and its movement (y
    downwards) if that fits the [int8_t] fields: the sign bits have no effect,
    so that any larger movement is reported as another one. *)
Theorem mouse_stream_events l s :
  Forall (fun b => 0 <= b < 256) l ->
  mouse_cycle s = 0 -> length (mouse_packet s) = 3%nat -> mouse_callback s = true ->
  (exists s', handle_bytes l s = (Ret tt, s') /\
    mouse_cycle s' = Z.of_nat (length l) mod 3 /\
    delivered s' = delivered s ++ (packet_event <$> packets l)) /\
  Forall (fun p => exists b0 b1 b2, p = [b0; b1; b2] /\
    let e := packet_event p in
    let x := x_movement b0 b1 in
    let y := y_movement b0 b2 in
    buttons e = b0 mod 8 /\
    (delta_x e = x <-> -128 <= x <= 127) /\ (delta_y e = - y <-> -127 <= y <= 128) /\
    packet_event [Z.land b0 7; b1; b2] = e) (packets l).
Proof using Type.
  intros Hl Hc Hp Hcb. split.
  - destruct s as [p c b cb d i]. cbn [mouse_cycle mouse_packet mouse_callback delivered] in *.
    subst c cb. destruct p as [|p0 [|p1 [|p2 [|]]]]; try done. apply run_handle_bytes.
  - clear -Hl. induction l as [|b0|b0 b1|b0 b1 b2 l IH] using packets_ind; [by constructor..|].
    rewrite !Forall_cons in Hl. destruct Hl as (Hb0 & Hb1 & Hb2 & Hl).
    cbn [packets]. constructor; [|by apply IH].
    exists b0, b1, b2. split; [done|]. rewrite !packet_event_bytes. cbn [buttons delta_x delta_y].
    change 7 with (Z.ones 3). rewrite <- Z.land_assoc, Z.land_diag, Z.land_ones by lia.
    split_and!; [done|by apply s8_neg_movement|by apply s8_neg_movement|done].
Qed.

End mouse.

(** ** The initialisation of the mouse

    The documented behaviour of a PS/2 controller with a mouse, as far as
    [mouse_init] uses it: the status register tells whether a byte is pending,
    the data port gives the pending bytes in order, and a command sent through
    [0xD4] is answered with an acknowledgement, a reset also with the result of
    the self test and the device number. *)
Definition mouse_reply (cmd : Z) : list Z := if cmd =? 0xFF then [0xFA; 0xAA; 0x00] else [0xFA].

Class Ps2Mouse (D : Type) `{PortIO D} : Type := {
  pending : D -> list Z;
  to_mouse : D -> bool;
  in_status d : exists st, port_in 0x64 d = (st, d) /\
    Z.testbit (u8 st) 0 = bool_decide (pending d <> []) /\ Z.testbit (u8 st) 1 = false;
  in_data b l d : pending d = b :: l ->
    exists d', port_in 0x60 d = (b, d') /\ pending d' = l;
  out_prefix d : pending (port_out 0x64 0xD4 d) = pending d /\ to_mouse (port_out 0x64 0xD4 d) = true;
  out_to_mouse cmd d : 0 <= cmd < 2 ^ 8 -> to_mouse d = true ->
    pending (port_out 0x60 cmd d) = pending d ++ mouse_reply cmd;
}.

Section mouse_init.
  Import Mouse.
  Context {D : Type} `{Ps2Mouse D}.
  Implicit Types s : mouse_state D.

(** The bytes that wait to be read. *)
Definition waiting s : list Z := pending (Pic.dev (Idt.pic (idt s))).
(** The state with other devices. *)
Definition with_devices (d : D) s : mouse_state D :=
  set_idt (Idt.set_pic (Pic.PicState d (Pic.irq_mask (Idt.pic (idt s)))) (idt s)) s.

Lemma land_bit a i : 0 <= i -> truthy (Z.land a (Z.shiftl 1 i)) = Z.testbit a i.
Proof using Type. intros Hi. unfold truthy. by rewrite land_pow2_testbit, negb_involutive. Qed.

Lemma run_status s :
  exists st, inb MOUSE_STATUS_PORT s = (Ret st, s) /\
    truthy (Z.land st MOUSE_STATUS_OUTPUT_FULL) = bool_decide (waiting s <> []) /\
    truthy (Z.land st MOUSE_STATUS_INPUT_FULL) = false.
Proof using Type.
  destruct s as [p c b cb d i]. destruct i as [i1 i2 i3 i4 i5 [dv m] i7].
  destruct (in_status dv) as (st & Hin & Hb0 & Hb1). exists (u8 st). split.
  { unfold inb, MOUSE_STATUS_PORT, run_idt, Idt.run_pic, mzoom, Pic.inb. cbn. by rewrite Hin. }
  change MOUSE_STATUS_OUTPUT_FULL with (Z.shiftl 1 0).
  change MOUSE_STATUS_INPUT_FULL with (Z.shiftl 1 1).
  rewrite !land_bit by done. by rewrite Hb0, Hb1.
Qed.

Lemma run_write fuel cmd s :
  0 <= cmd < 2 ^ 8 ->
  exists d, mouse_write fuel cmd s = (Ret tt, with_devices d s) /\
    pending d = waiting s ++ mouse_reply cmd.
Proof using Type.
  intros Hcmd. unfold mouse_write.
  assert (Hpoll : forall s, mouse_poll fuel
    (fun st => negb (truthy (Z.land st MOUSE_STATUS_INPUT_FULL))) s = (Ret tt, s)).
  { intros s0. destruct (run_status s0) as (st & Hr & _ & Hin).
    destruct fuel; cbn [mouse_poll]; rewrite (run_bind _ _ _ _ _ Hr); by rewrite Hin. }
  rewrite (run_bind _ _ _ _ _ (Hpoll s)). erewrite run_bind; [|reflexivity].
  rewrite (run_bind _ _ _ _ _ (Hpoll _)).
  destruct s as [p c b cb dl i]. destruct i as [i1 i2 i3 i4 i5 [dv m] i7].
  eexists. split; [reflexivity|]. cbn. unfold waiting. cbn.
  rewrite (wrap_small 8 cmd) by done. change (u8 0xD4) with 0xD4.
  destruct (out_prefix dv) as [Hp Ht]. unfold MOUSE_COMMAND_PORT, MOUSE_DATA_PORT. by rewrite out_to_mouse, Hp.
Qed.

Lemma run_read fuel b l s :
  0 <= b < 2 ^ 8 -> waiting s = b :: l ->
  exists d, mouse_read fuel s = (Ret b, with_devices d s) /\ pending d = l.
Proof using Type.
  intros Hb Hw. unfold mouse_read. destruct (run_status s) as (st & Hr & Hout & _).
  rewrite bool_decide_true in Hout by (by rewrite Hw).
  assert (Hpoll : mouse_poll fuel
    (fun st => truthy (Z.land st MOUSE_STATUS_OUTPUT_FULL)) s = (Ret tt, s)).
  { destruct fuel; cbn [mouse_poll]; rewrite (run_bind _ _ _ _ _ Hr); by rewrite Hout. }
  rewrite (run_bind _ _ _ _ _ Hpoll).
  destruct s as [p c bt cb dl i]. destruct i as [i1 i2 i3 i4 i5 [dv m] i7].
  destruct (in_data b l dv Hw) as (d' & Hin & Hp). exists d'. split; [|done].
  unfold inb, MOUSE_DATA_PORT, run_idt, Idt.run_pic, mzoom, Pic.inb. cbn. rewrite Hin.
  by rewrite wrap_small by done.
Qed.

(** A command whose answer is not an acknowledgement ends the initialisation;
    the acknowledgement of another command counts as well. *)
Lemma run_command fuel cmd next b l s :
  0 <= cmd < 2 ^ 8 -> 0 <= b < 2 ^ 8 -> waiting s ++ mouse_reply cmd = b :: l ->
  exists d, pending d = l /\
    mouse_command fuel cmd next s = if b =? 0xFA then next (with_devices d s)
                                    else (Ret tt, with_devices d s).
Proof using Type.
  intros Hcmd Hb Hw. unfold mouse_command.
  destruct (run_write fuel cmd s Hcmd) as (d1 & Hr1 & Hp1). rewrite (run_bind _ _ _ _ _ Hr1).
  destruct (run_read fuel b l (with_devices d1 s) Hb) as (d2 & Hr2 & Hp2).
  { unfold waiting, with_devices. cbn. by rewrite Hp1. }
  exists d2. split; [done|]. unfold mouse_wait_ack.
  erewrite run_bind; [|rewrite (run_bind _ _ _ _ _ Hr2); reflexivity].
  by destruct (b =? 0xFA).
Qed.

(** with a mouse that answers every command as documented and nothing
    pending, [mouse_init] returns without having initialised the mouse: the
    acknowledgement of the first command (disable) is not read, so that it
    passes for the one of the reset, and the last byte of the reset's answer
    for the one of the third command.  No handler is registered, the interrupt
    line stays as it is, and an acknowledgement is left over. *)
Theorem mouse_init_gives_up fuel s :
  waiting s = [] ->
  exists d, mouse_init fuel s = (Ret tt, with_devices d s) /\ pending d = [0xFA] /\
    Idt.interrupt_handlers (idt (with_devices d s)) = Idt.interrupt_handlers (idt s).
Proof using Type.
  intros Hw. unfold mouse_init.
  destruct (run_write fuel MOUSE_CMD_DISABLE s) as (d1 & Hr1 & Hp1); [by vm_compute|].
  rewrite (run_bind _ _ _ _ _ Hr1). rewrite Hw in Hp1. set (s1 := with_devices d1 s).
  assert (Hw1 : waiting s1 = [0xFA]) by done.
  edestruct (run_command fuel MOUSE_CMD_RESET) with (s := s1) (b := 0xFA) (l := [0xFA; 0xAA; 0x00])
    as (d2 & Hp2 & ->); [by vm_compute|done|by rewrite Hw1|].
  change (0xFA =? 0xFA) with true. cbv iota. set (s2 := with_devices d2 s1).
  destruct (run_read fuel 0xFA [0xAA; 0x00] s2) as (d3 & Hr3 & Hp3); [done|done|].
  rewrite (run_bind _ _ _ _ _ Hr3). set (s3 := with_devices d3 s2).
  destruct (run_read fuel 0xAA [0x00] s3) as (d4 & Hr4 & Hp4); [done|done|].
  rewrite (run_bind _ _ _ _ _ Hr4). set (s4 := with_devices d4 s3).
  edestruct (run_command fuel MOUSE_CMD_DEFAULTS) with (s := s4) (b := 0x00) (l := [0xFA])
    as (d5 & Hp5 & ->); [by vm_compute|done|by change (waiting s4) with (pending d4); rewrite Hp4|].
  exists d5. by split_and!.
Qed.

End mouse_init.
