(* ===== verification/InputExamples.v ===== *)
(** A PS/2 controller with a mouse as a device, and instances of the
    properties of InputSpec.v. *)
From S2P Require Import Prelude Interrupts Input InputSpec.

Record controller : Type := Controller { c_pending : list Z; c_to_mouse : bool }.

#[export] Instance controller_ports : PortIO controller := {
  port_in p d :=
    if p =? 0x64 then (if decide (c_pending d = []) then 0 else 1, d)
    else match c_pending d with b :: l => (b, Controller l (c_to_mouse d)) | [] => (0, d) end;
  port_out p v d :=
    if p =? 0x64 then Controller (c_pending d) (v =? 0xD4)
    else if c_to_mouse d then Controller (c_pending d ++ mouse_reply v) false else d;
}.

#[export] Instance controller_mouse : Ps2Mouse controller.
Proof.
  refine {| pending := c_pending; to_mouse := c_to_mouse |}.
  - intros d. simpl. eexists. split; [reflexivity|]. by destruct (c_pending d).
  - intros b l d Hd. simpl. rewrite Hd. by eexists.
  - done.
  - intros cmd d _ Hd. simpl. by rewrite Hd.
Defined.

Definition example_idt : Idt.idt_state controller :=
  Idt.IdtState (replicate 256 Idt.zero_entry) (Idt.IdtPtr 0 0) (replicate 256 Idt.zero_entry)
    (Idt.IdtPtr 0 0) (replicate 256 None) (Pic.PicState (Controller [] false) 0xFFFF) (Idt.IdtPtr 0 0).

Definition example_keyboard : Keyboard.keyboard_state controller :=
  Keyboard.KeyboardState (replicate 128 0) false false false false true [] example_idt.

(** Both shift keys pressed and the right one released: the left one is still
    down, but the shift flag is off. *)
Lemma keyboard_follows_history_witness :
  exists s', handle_keys [0x2A; 0x36; 0xB6] example_keyboard = (Ret tt, s') /\
    Keyboard.keyboard_get_key_state 0x2A s' = (Ret true, s') /\
    Keyboard.shift_pressed s' = false /\ length (Keyboard.delivered s') = 3%nat.
Proof.
  destruct (keyboard_follows_history [0x2A; 0x36; 0xB6] example_keyboard)
    as (s' & Hr & _ & Hk & Hs & _ & _ & _ & _ & Hd).
  - repeat constructor; lia.
  - reflexivity.
  - exists s'. split; [exact Hr|]. split; [rewrite Hk by lia; reflexivity|].
    split; [rewrite Hs; reflexivity|]. rewrite Hd. reflexivity.
Defined.

(** Key 0x1E under caps lock gives a capital A. *)
Lemma keyboard_event_character_witness :
  exists s' e, Keyboard.keyboard_handle_keypress 0x1E
      (Keyboard.set_modifiers false false false true example_keyboard) = (Ret tt, s') /\
    Keyboard.delivered s' = [e] /\ Keyboard.ev_ascii e = 65.
Proof.
  destruct (keyboard_event_character 0x1E (Keyboard.set_modifiers false false false true example_keyboard))
    as (s' & e & Hr & Hd & _ & _ & _ & _ & _ & Ha & _).
  - lia.
  - reflexivity.
  - exists s', e. split; [exact Hr|]. split; [exact Hd|]. rewrite Ha.
    injection Hr as <-. reflexivity.
Defined.

Definition example_mouse : Mouse.mouse_state controller :=
  Mouse.MouseState [0; 0; 0] 0 0 true [] example_idt.

(** A movement of 5 to the left and 200 up (sign bits 0x10 and 0), reported as
    56 down, and half of the next packet. *)
Lemma mouse_stream_events_witness :
  exists s', handle_bytes [0x19; 251; 200; 0x08] example_mouse = (Ret tt, s') /\
    Mouse.mouse_cycle s' = 1 /\ Mouse.delivered s' = [Mouse.MouseEvent 1 (-5) 56].
Proof.
  destruct (mouse_stream_events [0x19; 251; 200; 0x08] example_mouse) as [(s' & Hr & Hc & Hd) _].
  - repeat constructor; lia.
  - reflexivity.
  - reflexivity.
  - reflexivity.
  - exists s'. split; [exact Hr|]. split; [exact Hc|]. rewrite Hd. reflexivity.
Defined.

Lemma mouse_init_gives_up_witness :
  exists d, Mouse.mouse_init 0 example_mouse = (Ret tt, with_devices d example_mouse) /\
    c_pending d = [0xFA].
Proof.
  destruct (mouse_init_gives_up 0 example_mouse) as (d & Hr & Hp & _).
  - reflexivity.
  - exists d. split; [exact Hr|exact Hp].
Defined.
