(* ===== verification/Gdt.v ===== *)
(** The global descriptor table (core/gdt.c): its entries, their backup, the
    task state segment, and the registers GDTR and TR the assembly routines
    load.  Also its correctness: what [gdt_init] sets up, and recovery. *)
From S2P Require Import Prelude.

Module Gdt.

Record gdt_entry : Type := GdtEntry {
  limit_low : Z;
  base_low : Z;
  base_middle : Z;
  access : Z;
  granularity : Z;
  base_high : Z;
}.

Record gdt_ptr : Type := GdtPtr { limit : Z; base : Z }.

(** The fields of [struct tss_entry] that the kernel gives a meaning; the
    others are zero. *)
Record tss_entry : Type := TssEntry { rsp0 : Z; iopb_offset : Z }.

(** [sizeof(struct tss_entry)], packed. *)
Definition sizeof_tss : Z := 4 + 3 * 8 + 8 + 7 * 8 + 8 + 2 + 2.

Definition GDT_NULL : Z := 0.
Definition GDT_KERNEL_CODE : Z := 1.
Definition GDT_KERNEL_DATA : Z := 2.
Definition GDT_USER_CODE : Z := 3.
Definition GDT_USER_DATA : Z := 4.
Definition GDT_TSS : Z := 5.
Definition GDT_ENTRIES_COUNT : Z := 6.
Definition GDT_REAL_ENTRIES_COUNT : Z := GDT_ENTRIES_COUNT + 1.

(** The static variables of gdt.c and the two registers. *)
Record gdt_state : Type := GdtState {
  gdt : list gdt_entry;
  gdt_pointer : gdt_ptr;
  gdt_backup : list gdt_entry;
  gdt_pointer_backup : gdt_ptr;
  tss : tss_entry;
  gdtr : gdt_ptr;
  tr : Z;
}.

Definition zero_entry : gdt_entry := GdtEntry 0 0 0 0 0 0.

(** The addresses the linker chooses for [gdt] and [tss]. *)
Class GdtLayout : Type := { gdt_address : Z; tss_address : Z }.

Section gdt_code.
  Context `{GdtLayout}.
  Local Abbreviation G := (M gdt_state).

Definition set_gdt (l : list gdt_entry) (s : gdt_state) : gdt_state :=
  GdtState l (gdt_pointer s) (gdt_backup s) (gdt_pointer_backup s) (tss s) (gdtr s) (tr s).
Definition set_pointer (p : gdt_ptr) (s : gdt_state) : gdt_state :=
  GdtState (gdt s) p (gdt_backup s) (gdt_pointer_backup s) (tss s) (gdtr s) (tr s).
Definition set_tss (t : tss_entry) (s : gdt_state) : gdt_state :=
  GdtState (gdt s) (gdt_pointer s) (gdt_backup s) (gdt_pointer_backup s) t (gdtr s) (tr s).
Definition gdt_load : G unit := mmodify (fun s =>
  GdtState (gdt s) (gdt_pointer s) (gdt_backup s) (gdt_pointer_backup s) (tss s) (gdt_pointer s) (tr s)).
Definition tss_load (selector : Z) : G unit := mmodify (fun s =>
  GdtState (gdt s) (gdt_pointer s) (gdt_backup s) (gdt_pointer_backup s) (tss s) (gdtr s) selector).

(** The descriptor [gdt_set_gate] writes. *)
Definition make_descriptor (base limit acc gran : Z) : gdt_entry :=
  GdtEntry (Z.land limit 0xFFFF) (Z.land base 0xFFFF) (Z.land (Z.shiftr base 16) 0xFF) acc
    (Z.lor (Z.land (Z.shiftr limit 16) 0x0F) (Z.land gran 0xF0)) (Z.land (Z.shiftr base 24) 0xFF).

Definition gdt_set_gate (num base limit acc gran : Z) : G unit := mmodify (fun s =>
  set_gdt (array_set (gdt s) num (make_descriptor base limit acc gran)) s).

Definition gdt_set_tss (num base limit acc gran : Z) : G unit :=
  gdt_set_gate num base limit acc gran;;
  mmodify (fun s => set_gdt (array_set (gdt s) (num + 1) (GdtEntry 0 0 0 0 0 0)) s).

Definition tss_init : G unit := mmodify (set_tss (TssEntry 0 sizeof_tss)).

Definition gdt_save_backup : G unit := mmodify (fun s =>
  GdtState (gdt s) (gdt_pointer s) (gdt s) (gdt_pointer s) (tss s) (gdtr s) (tr s)).

(** [sizeof(struct gdt_entry) * GDT_REAL_ENTRIES_COUNT - 1] *)
Definition gdt_limit : Z := 8 * GDT_REAL_ENTRIES_COUNT - 1.

Definition gdt_init : G unit :=
  tss_init;;
  mmodify (set_pointer (GdtPtr gdt_limit gdt_address));;
  gdt_set_gate GDT_NULL 0 0 0 0;;
  gdt_set_gate GDT_KERNEL_CODE 0 0xFFFFF 0x9A 0xA0;;
  gdt_set_gate GDT_KERNEL_DATA 0 0xFFFFF 0x92 0x80;;
  gdt_set_gate GDT_USER_CODE 0 0xFFFFF 0xFA 0xA0;;
  gdt_set_gate GDT_USER_DATA 0 0xFFFFF 0xF2 0x80;;
  let tss_base := tss_address in
  let tss_limit := sizeof_tss - 1 in
  gdt_set_tss GDT_TSS tss_base tss_limit 0x89 0x00;;
  mmodify (fun s =>
    let e := array_get zero_entry (gdt s) (GDT_TSS + 1) in
    set_gdt (array_set (gdt s) (GDT_TSS + 1)
      (GdtEntry (Z.land (Z.shiftr tss_base 32) 0xFFFF) (Z.land (Z.shiftr tss_base 48) 0xFFFF)
         (base_middle e) (access e) (granularity e) (base_high e))) s);;
  gdt_save_backup;;
  gdt_load;;
  tss_load (GDT_TSS * 8).

#[export] Instance gdt_entry_eq_dec : EqDecision gdt_entry.
Proof. solve_decision. Defined.
#[export] Instance gdt_ptr_eq_dec : EqDecision gdt_ptr.
Proof. solve_decision. Defined.

Definition gdt_check_integrity : G bool := mgets (fun s =>
  if negb (base (gdt_pointer s) =? gdt_address) then false
  else if negb (limit (gdt_pointer s) =? gdt_limit) then false
  else bool_decide (gdt s = gdt_backup s)).

Definition gdt_reload : G unit :=
  gdt_load;;
  tss_load (GDT_TSS * 8).

Definition gdt_recover : G bool :=
  mmodify (fun s => set_gdt (gdt_backup s) s);;
  mmodify (fun s => set_pointer (gdt_pointer_backup s) s);;
  gdt_reload;;
  gdt_check_integrity.

Definition gdt_set_kernel_stack (stack : Z) : G unit :=
  mmodify (fun s => set_tss (TssEntry stack (iopb_offset (tss s))) s).

End gdt_code.
End Gdt.

(** ** Correctness *)

Section gdt.
  Import Gdt.
  Context `{GdtLayout}.
  Implicit Types s : gdt_state.

(** What a descriptor says to the processor: the base, the limit, and the flag
    bits next to the limit. *)
Definition descriptor_base (e : gdt_entry) : Z :=
  base_low e + base_middle e * 2 ^ 16 + base_high e * 2 ^ 24.
Definition descriptor_limit (e : gdt_entry) : Z := limit_low e + granularity e mod 16 * 2 ^ 16.
Definition descriptor_flags (e : gdt_entry) : Z := granularity e / 16.

(** A system descriptor takes two entries; the second holds the high half of
    the base, and bits 8 to 12 of its second word must be zero. *)
Definition system_base (lo hi : gdt_entry) : Z :=
  descriptor_base lo + limit_low hi * 2 ^ 32 + base_low hi * 2 ^ 48.

Lemma land_byte_at b i : 0 <= i -> Z.land (Z.shiftr b i) 0xFF = b / 2 ^ i mod 2 ^ 8.
Proof using Type. intros. change 0xFF with (Z.ones 8). by rewrite Z.land_ones, Z.shiftr_div_pow2 by lia. Qed.

Lemma land_word_at b i : 0 <= i -> Z.land (Z.shiftr b i) 0xFFFF = b / 2 ^ i mod 2 ^ 16.
Proof using Type. intros. change 0xFFFF with (Z.ones 16). by rewrite Z.land_ones, Z.shiftr_div_pow2 by lia. Qed.

Lemma make_descriptor_base b l acc gran :
  descriptor_base (make_descriptor b l acc gran) = b mod 2 ^ 32.
Proof using Type.
  unfold descriptor_base, make_descriptor. cbn [base_low base_middle base_high].
  rewrite !land_byte_at by lia. change 0xFFFF with (Z.ones 16). rewrite Z.land_ones by lia.
  pose proof (Z.rem_mul_r b (2 ^ 16) (2 ^ 16) ltac:(lia) ltac:(lia)) as H1.
  pose proof (Z.rem_mul_r (b / 2 ^ 16) (2 ^ 8) (2 ^ 8) ltac:(lia) ltac:(lia)) as H2.
  rewrite Z.div_div in H2 by lia. change (2 ^ 16 * 2 ^ 16) with (2 ^ 32) in H1.
  change (2 ^ 8 * 2 ^ 8) with (2 ^ 16) in H2. change (2 ^ 16 * 2 ^ 8) with (2 ^ 24) in H2. lia.
Qed.

(** The entries [gdt_init] writes. *)
Definition installed_entries : list gdt_entry := [
  make_descriptor 0 0 0 0;
  make_descriptor 0 0xFFFFF 0x9A 0xA0;
  make_descriptor 0 0xFFFFF 0x92 0x80;
  make_descriptor 0 0xFFFFF 0xFA 0xA0;
  make_descriptor 0 0xFFFFF 0xF2 0x80;
  make_descriptor tss_address (sizeof_tss - 1) 0x89 0x00;
  GdtEntry (Z.land (Z.shiftr tss_address 32) 0xFFFF) (Z.land (Z.shiftr tss_address 48) 0xFFFF) 0 0 0 0].

Lemma run_gdt_init s :
  length (gdt s) = 7%nat ->
  gdt_init s = (Ret tt, GdtState installed_entries (GdtPtr gdt_limit gdt_address) installed_entries
    (GdtPtr gdt_limit gdt_address) (TssEntry 0 sizeof_tss) (GdtPtr gdt_limit gdt_address) 0x28).
Proof using Type.
  destruct s as [g p gb pb t r k]. cbn [gdt]. intros Hl.
  do 7 (destruct g as [|? g]; [done|]). destruct g; [|done]. reflexivity.
Qed.

(** C39: [gdt_init] returns with a flat ring-0 and ring-3 code and data
    segment at the selectors 0x08 to 0x20 (64-bit code), a descriptor of the
    task state segment that gives its full 64-bit address and its size, and
    with the registers loaded.  Whatever then happens to the table, the
    pointer and the registers, the integrity check reports exactly whether
    table and pointer are unchanged, and [gdt_recover] restores and reloads
    them. *)
Theorem gdt_init_and_recover_correct s :
  length (gdt s) = 7%nat -> 0 <= tss_address < 2 ^ 64 ->
  exists s', gdt_init s = (Ret tt, s') /\
    array_get zero_entry (gdt s') 0 = zero_entry /\
    Forall (fun '(i, acc, flags) => let e := array_get zero_entry (gdt s') i in
        descriptor_base e = 0 /\ descriptor_limit e = 0xFFFFF /\ access e = acc /\
        descriptor_flags e = flags)
      [(1, 0x9A, 0xA); (2, 0x92, 0x8); (3, 0xFA, 0xA); (4, 0xF2, 0x8)] /\
    (let e := array_get zero_entry (gdt s') 5 in
     let hi := array_get zero_entry (gdt s') 6 in
     system_base e hi = tss_address /\ descriptor_limit e = 103 /\ access e = 0x89 /\
     base_middle hi = 0 /\ access hi = 0) /\
    gdtr s' = GdtPtr 55 gdt_address /\ tr s' = 0x28 /\ iopb_offset (tss s') = 104 /\
    (forall l p r k,
       let bad := GdtState l p (gdt_backup s') (gdt_pointer_backup s') (tss s') r k in
       gdt_check_integrity bad = (Ret (bool_decide (l = gdt s' /\ p = gdt_pointer s')), bad) /\
       gdt_recover bad = (Ret true, s')).
Proof using Type.
  intros Hl Ht. eexists. split; [by apply run_gdt_init|]. cbn [gdt gdtr tr tss].
  split; [done|]. split; [by repeat constructor|]. split.
  { change (array_get zero_entry installed_entries 5)
      with (make_descriptor tss_address (sizeof_tss - 1) 0x89 0x00).
    change (array_get zero_entry installed_entries 6) with
      (GdtEntry (Z.land (Z.shiftr tss_address 32) 0xFFFF) (Z.land (Z.shiftr tss_address 48) 0xFFFF) 0 0 0 0).
    split; [|done]. unfold system_base. rewrite make_descriptor_base. cbn [limit_low base_low].
    rewrite !land_word_at by lia.
    pose proof (Z.rem_mul_r tss_address (2 ^ 32) (2 ^ 16) ltac:(lia) ltac:(lia)) as H1.
    pose proof (Z.rem_mul_r tss_address (2 ^ 48) (2 ^ 16) ltac:(lia) ltac:(lia)) as H2.
    change (2 ^ 32 * 2 ^ 16) with (2 ^ 48) in H1. change (2 ^ 48 * 2 ^ 16) with (2 ^ 64) in H2.
    rewrite (Z.mod_small tss_address (2 ^ 64)) in H2 by done. lia. }
  do 3 (split; [done|]). intros l p r k. split.
  - unfold gdt_check_integrity, mgets. cbn -[bool_decide installed_entries].
    destruct p as [lim ba]. cbn [limit base]. do 2 f_equal.
    destruct (Z.eqb_spec ba gdt_address) as [->|Hne]; cbn [negb].
    2:{ symmetry. apply bool_decide_false. by intros [_ [= ]]. }
    destruct (Z.eqb_spec lim gdt_limit) as [->|Hne]; cbn [negb].
    2:{ symmetry. apply bool_decide_false. by intros [_ [= ]]. }
    apply bool_decide_ext. tauto.
  - unfold gdt_recover, gdt_reload, gdt_load, tss_load, gdt_check_integrity.
    unfold mbind, m_bind, mmodify, mgets. cbn -[bool_decide installed_entries].
    rewrite !Z.eqb_refl. cbn [negb]. by rewrite bool_decide_true.
Qed.

End gdt.

(** ** An instance *)

#[export] Instance example_gdt_layout : Gdt.GdtLayout := {
  Gdt.gdt_address := 0xffffffff80020000;
  Gdt.tss_address := 0xffffffff80021040;
}.

Definition example_gdt : Gdt.gdt_state :=
  Gdt.GdtState (replicate 7 Gdt.zero_entry) (Gdt.GdtPtr 0 0) (replicate 7 Gdt.zero_entry)
    (Gdt.GdtPtr 0 0) (Gdt.TssEntry 0 0) (Gdt.GdtPtr 0 0) 0.

Lemma gdt_init_and_recover_correct_witness :
  exists s', Gdt.gdt_init example_gdt = (Ret tt, s') /\
    system_base (array_get Gdt.zero_entry (Gdt.gdt s') 5) (array_get Gdt.zero_entry (Gdt.gdt s') 6)
      = 0xffffffff80021040 /\
    Gdt.gdtr s' = Gdt.GdtPtr 55 0xffffffff80020000.
Proof.
  destruct (gdt_init_and_recover_correct example_gdt)
    as (s' & Hr & _ & _ & (Hb & _) & Hg & _).
  - reflexivity.
  - unfold Gdt.tss_address, example_gdt_layout. lia.
  - exists s'. split; [exact Hr|]. split; [exact Hb|exact Hg].
Defined.
