(* ===== verification/CString.v ===== *)
(** The memory and string functions of lib/string.c, over a memory that holds
    a byte at every address.  A [char] is signed: reading one gives a value
    from -128 to 127.  A [while] loop runs [fuel] times at most and is then
    still running ([Spin]). *)
From S2P Require Import Prelude.

Module CString.

Definition mem : Type := Z -> Z.
Local Abbreviation C := (M mem).

Definition upd (m : mem) (a v : Z) : mem := fun x => if x =? a then v else m x.

(** [*p] for a [uint8_t *] (or [unsigned char *]) and for a [char *]. *)
Definition rd (p : Z) : C Z := mgets (fun m => m p).
Definition rdc (p : Z) : C Z := mgets (fun m => s8 (m p)).
(** Storing a byte that was read. *)
Definition wr (p v : Z) : C unit := mmodify (fun m => upd m p v).

Definition memcpy (dest src : Z) (n : nat) : C Z :=
  mfor n 0 (fun i => v ← rd (src + i); wr (dest + i) v);;
  mret dest.

Definition memset (s c : Z) (n : nat) : C Z :=
  mfor n 0 (fun i => wr (s + i) (u8 c));;
  mret s.

(** The backward loop of [memmove]: [for (i = n; i > 0; i--)]. *)
Fixpoint memmove_backward (n : nat) (dest src : Z) : C unit :=
  match n with
  | O => mret tt
  | S n' => v ← rd (src + (Z.of_nat n - 1)); wr (dest + (Z.of_nat n - 1)) v;;
            memmove_backward n' dest src
  end.

Definition memmove (dest src : Z) (n : nat) : C Z :=
  (if dest <? src then mfor n 0 (fun i => v ← rd (src + i); wr (dest + i) v)
   else if src <? dest then memmove_backward n dest src
   else mret tt);;
  mret dest.

Fixpoint memcmp (s1 s2 : Z) (n : nat) : C Z :=
  match n with
  | O => mret 0
  | S n =>
      a ← rd s1; b ← rd s2;
      if negb (a =? b) then mret (if a <? b then -1 else 1)
      else memcmp (s1 + 1) (s2 + 1) n
  end.

(** The two loops of [strncpy], from index [i] on. *)
Fixpoint strncpy_pad (dest i : Z) (n : nat) : C unit :=
  match n with
  | O => mret tt
  | S n => wr (dest + i) 0;; strncpy_pad dest (i + 1) n
  end.
Fixpoint strncpy_loop (dest src i : Z) (n : nat) : C unit :=
  match n with
  | O => mret tt
  | S rest =>
      c ← rd (src + i);
      if negb (c =? 0) then wr (dest + i) c;; strncpy_loop dest src (i + 1) rest
      else strncpy_pad dest i n
  end.
Definition strncpy (dest src : Z) (n : nat) : C Z :=
  strncpy_loop dest src 0 n;;
  mret dest.

(** The copying loop: until the terminating NUL is copied. *)
Fixpoint strcpy_loop (fuel : nat) (d src : Z) : C unit :=
  c ← rd src;
  wr d c;;
  if c =? 0 then mret tt
  else match fuel with O => mspin | S fuel => strcpy_loop fuel (d + 1) (src + 1) end.
Definition strcpy (fuel : nat) (dest src : Z) : C Z :=
  strcpy_loop fuel dest src;;
  mret dest.

(** The loop that moves a pointer to the terminating NUL. *)
Fixpoint string_end (fuel : nat) (p : Z) : C Z :=
  c ← rd p;
  if c =? 0 then mret p
  else match fuel with O => mspin | S fuel => string_end fuel (p + 1) end.

Definition strcat (fuel : nat) (dest src : Z) : C Z :=
  d ← string_end fuel dest;
  strcpy_loop fuel d src;;
  mret dest.

Fixpoint strcmp (fuel : nat) (s1 s2 : Z) : C Z :=
  a ← rd s1; b ← rd s2;
  if negb (a =? 0) && (a =? b)
  then match fuel with O => mspin | S fuel => strcmp fuel (s1 + 1) (s2 + 1) end
  else mret (a - b).

Fixpoint strncmp (s1 s2 : Z) (n : nat) : C Z :=
  match n with
  | O => mret 0
  | S n =>
      a ← rd s1; b ← rd s2;
      if negb (a =? b) then mret (a - b)
      else if a =? 0 then mret 0
      else strncmp (s1 + 1) (s2 + 1) n
  end.

Fixpoint strrchr_loop (fuel : nat) (s c last : Z) : C (Z * Z) :=
  a ← rdc s;
  if a =? 0 then mret (s, last)
  else
    let last := if a =? c then s else last in
    match fuel with O => mspin | S fuel => strrchr_loop fuel (s + 1) c last end.
Definition strrchr (fuel : nat) (s c : Z) : C Z :=
  let c := u8 c in
  '(s, last) ← strrchr_loop fuel s c NULL;
  if c =? 0 then mret s else mret last.

Definition strlen (fuel : nat) (s : Z) : C Z :=
  sc ← string_end fuel s;
  mret (sc - s).

Fixpoint strchr (fuel : nat) (s c : Z) : C Z :=
  a ← rdc s;
  if negb (a =? 0) then
    if a =? c then mret s
    else match fuel with O => mspin | S fuel => strchr fuel (s + 1) c end
  else if c =? 0 then mret s else mret NULL.

(** The two loops of [strtok_r]: past the characters of [delim]
    ([skip = true]) or up to the next one ([skip = false]). *)
Fixpoint strtok_scan (fuel : nat) (skip : bool) (str delim : Z) : C Z :=
  a ← rdc str;
  if a =? 0 then mret str
  else
    p ← strchr fuel delim a;
    if Bool.eqb (negb (p =? NULL)) skip
    then match fuel with O => mspin | S fuel' => strtok_scan fuel' skip (str + 1) delim end
    else mret str.

(** [strtok_r]: the token and the new value of [*saveptr]. *)
Definition strtok_r (fuel : nat) (str delim saveptr : Z) : C (Z * Z) :=
  let str := if str =? NULL then saveptr else str in
  str ← strtok_scan fuel true str delim;
  a ← rdc str;
  if a =? 0 then mret (NULL, str)
  else
    let token_start := str in
    str ← strtok_scan fuel false str delim;
    b ← rdc str;
    if b =? 0 then mret (token_start, str)
    else wr str 0;; mret (token_start, str + 1).

(** Whether [c] is one of the characters of the string at [a], and where the
    search stops. *)
Fixpoint span_find (fuel : nat) (c a : Z) : C bool :=
  x ← rdc a;
  if x =? 0 then mret false
  else if c =? x then mret true
  else match fuel with O => mspin | S fuel => span_find fuel c (a + 1) end.

Fixpoint strspn_loop (fuel : nat) (p accept : Z) : C Z :=
  c ← rdc p;
  if c =? 0 then mret p
  else
    found ← span_find fuel c accept;
    if negb found then mret p
    else match fuel with O => mspin | S fuel => strspn_loop fuel (p + 1) accept end.
Definition strspn (fuel : nat) (s accept : Z) : C Z :=
  p ← strspn_loop fuel s accept;
  mret (p - s).

Fixpoint strpbrk (fuel : nat) (s accept : Z) : C Z :=
  c ← rdc s;
  if c =? 0 then mret NULL
  else
    found ← span_find fuel c accept;
    if (found : bool) then mret s
    else match fuel with O => mspin | S fuel => strpbrk fuel (s + 1) accept end.

End CString.
