(* ===== verification/CStringSpec.v ===== *)
(** The correctness of the functions of CString.v: copying between regions
    that overlap, the order of the comparisons, and splitting a string into
    tokens as the file system does with a path. *)
From S2P Require Import Prelude CString.
Import CString.

(** ** Memory *)

Lemma run_rd p m : rd p m = (Ret (m p), m).
Proof. done. Qed.
Lemma run_rdc p m : rdc p m = (Ret (s8 (m p)), m).
Proof. done. Qed.
Lemma run_wr p v m : wr p v m = (Ret tt, upd m p v).
Proof. done. Qed.

Lemma bind_rd {B} p (f : Z -> M mem B) m : (rd p ≫= f) m = f (m p) m.
Proof. done. Qed.
Lemma bind_rdc {B} p (f : Z -> M mem B) m : (rdc p ≫= f) m = f (s8 (m p)) m.
Proof. done. Qed.
Lemma bind_wr {B} p v (f : unit -> M mem B) m : (wr p v ≫= f) m = f tt (upd m p v).
Proof. done. Qed.

Lemma upd_eq m a v : upd m a v a = v.
Proof. unfold upd. by rewrite Z.eqb_refl. Qed.
Lemma upd_ne m a b v : b <> a -> upd m a v b = m b.
Proof. intros Hne. unfold upd. by destruct (Z.eqb_spec b a). Qed.

(** The bytes [src], [src + 1], ... of [m] are at [dest] in [m'], and nothing
    else has changed. *)
Definition copied (m m' : mem) (dest src n : Z) : Prop :=
  forall a, m' a = if (dest <=? a) && (a <? dest + n) then m (src + (a - dest)) else m a.

(** ** Copying *)

Lemma run_copy_forward dest src n m :
  (forall i j, 0 <= i < j -> j < Z.of_nat n -> dest + i <> src + j) ->
  exists m', mfor n 0 (fun i => v ← rd (src + i); wr (dest + i) v) m = (Ret tt, m') /\
    copied m m' dest src (Z.of_nat n).
Proof.
  intros Hov.
  destruct (run_for_inv (fun k m1 => copied m m1 dest src k) n 0
    (fun i => v ← rd (src + i); wr (dest + i) v) m) as (m' & Hr & Hm').
  - intros a. range_cases.
  - intros k m1 Hk Hm1. eexists. split; [by rewrite bind_rd|].
    intros a. unfold upd. rewrite (Hm1 (src + k)), (Hm1 a).
    pose proof (Hov (src + k - dest) k) as Hne. range_cases; f_equal; lia.
  - exists m'. split; [done|]. by rewrite Z.add_0_l in Hm'.
Qed.

Lemma run_copy_backward dest src n m :
  (forall i j, 0 <= i < j -> j < Z.of_nat n -> dest + j <> src + i) ->
  exists m', memmove_backward n dest src m = (Ret tt, m') /\ copied m m' dest src (Z.of_nat n).
Proof.
  revert m. induction n as [|n IH]; intros m Hov.
  - exists m. split; [done|]. intros a. range_cases.
  - cbn [memmove_backward]. rewrite bind_rd, bind_wr.
    destruct (IH (upd m (dest + (Z.of_nat (S n) - 1)) (m (src + (Z.of_nat (S n) - 1)))))
      as (m' & Hr & Hm').
    { intros i j Hi Hj. apply Hov; lia. }
    exists m'. split; [done|]. intros a. rewrite (Hm' a). unfold upd. rewrite Nat2Z.inj_succ.
    replace (Z.succ (Z.of_nat n) - 1) with (Z.of_nat n) by lia.
    pose proof (Hov (a - dest) (Z.of_nat n)) as Hne. range_cases; f_equal; lia.
Qed.

(** [memmove] returns [dest] and copies the [n] bytes it is asked to,
    however the two regions overlap; nothing else changes.  [memcpy] does so
    unless the destination begins inside the source. *)
Theorem memmove_copies dest src n m :
  (exists m', memmove dest src n m = (Ret dest, m') /\ copied m m' dest src (Z.of_nat n)) /\
  (dest <= src \/ src + Z.of_nat n <= dest ->
   exists m', memcpy dest src n m = (Ret dest, m') /\ copied m m' dest src (Z.of_nat n)).
Proof.
  split.
  - unfold memmove. destruct (Z.ltb_spec dest src) as [Hlt|Hge].
    + destruct (run_copy_forward dest src n m) as (m' & Hr & Hm'); [lia|].
      exists m'. by rewrite (run_bind _ _ _ _ _ Hr).
    + destruct (Z.ltb_spec src dest) as [Hlt|Hge'].
      * destruct (run_copy_backward dest src n m) as (m' & Hr & Hm'); [lia|].
        exists m'. by rewrite (run_bind _ _ _ _ _ Hr).
      * exists m. split; [done|]. intros a. destruct (_ && _); [f_equal; lia|done].
  - intros Hov. unfold memcpy.
    destruct (run_copy_forward dest src n m) as (m' & Hr & Hm'); [lia|].
    exists m'. by rewrite (run_bind _ _ _ _ _ Hr).
Qed.

(** ** Strings *)

(** The string at [p] is [w], with the terminating NUL after it. *)
Fixpoint cstr (m : mem) (p : Z) (w : list Z) : Prop :=
  match w with
  | [] => m p = 0
  | c :: w => m p = c /\ 0 < c < 256 /\ cstr m (p + 1) w
  end.

Lemma cstr_ext m m' p w :
  (forall a, p <= a <= p + Z.of_nat (length w) -> m' a = m a) -> cstr m p w -> cstr m' p w.
Proof.
  revert p. induction w as [|c w IH]; intros p Hext; cbn [cstr length].
  - intros <-. apply Hext. simpl. lia.
  - intros (Hc & Hr & Hw). rewrite Hext by lia. split_and!; [done|lia|lia|].
    apply IH; [|done]. intros a Ha. apply Hext. simpl. lia.
Qed.

Lemma cstr_app m p v w :
  cstr m p (v ++ w) <->
    cstr (upd m (p + Z.of_nat (length v)) 0) p v /\ cstr m (p + Z.of_nat (length v)) w.
Proof.
  revert p. induction v as [|c v IH]; intros p; cbn [app cstr length].
  - rewrite Z.add_0_r, upd_eq. tauto.
  - rewrite IH, upd_ne by lia.
    replace (p + 1 + Z.of_nat (length v)) with (p + Z.of_nat (S (length v))) by lia. tauto.
Qed.

(** Two strings in the order of their first difference. *)
Definition before (v w : list Z) : Prop :=
  exists u, (exists b w', v = u /\ w = u ++ b :: w') \/
            (exists a v' b w', v = u ++ a :: v' /\ w = u ++ b :: w' /\ a < b).

(** What the comparisons compute. *)
Fixpoint difference (v w : list Z) : Z :=
  match v, w with
  | [], [] => 0
  | [], b :: _ => - b
  | a :: _, [] => a
  | a :: v, b :: w => if a =? b then difference v w else a - b
  end.

Definition bytes (w : list Z) : Prop := Forall (fun c => 0 < c < 256) w.

Lemma cstr_bytes m p w : cstr m p w -> bytes w.
Proof.
  revert p. induction w as [|c w IH]; intros p; [by constructor|].
  intros (_ & Hc & Hw). constructor; [lia|by eapply IH].
Qed.

Lemma before_cons c v w : before (c :: v) (c :: w) <-> before v w.
Proof.
  split.
  - intros (u & [(b & w' & <- & Hw)|(a & v' & b & w' & Hv & Hw & Hab)]).
    + simplify_eq Hw. exists v. left. by exists b, w'.
    + destruct u as [|x u]; simplify_eq/=; [lia|].
      exists u. right. by exists a, v', b, w'.
  - intros (u & [(b & w' & -> & ->)|(a & v' & b & w' & -> & -> & Hab)]); exists (c :: u).
    + left. by exists b, w'.
    + right. by exists a, v', b, w'.
Qed.

Lemma before_diff a b v w : a <> b -> before (a :: v) (b :: w) <-> a < b.
Proof.
  intros Hne. split.
  - intros (u & [(x & w' & <- & Hw)|(x & v' & y & w' & Hv & Hw & Hab)]); [simplify_eq/=|].
    destruct u; simplify_eq/=; lia.
  - intros Hab. exists []. right. by exists a, v, b, w.
Qed.

Lemma not_before_nil v : ~ before v [].
Proof. intros ([|] & [(? & ? & ? & ?)|(? & ? & ? & ? & ? & ? & ?)]); simplify_eq/=. Qed.

Lemma nil_before b w : before [] (b :: w).
Proof. exists []. left. by exists b, w. Qed.

Lemma difference_spec v w :
  bytes v -> bytes w ->
  (difference v w = 0 <-> v = w) /\ (difference v w < 0 <-> before v w) /\
  (0 < difference v w <-> before w v).
Proof.
  revert w. induction v as [|a v IH]; intros [|b w] Hv Hw; cbn [difference].
  - pose proof (not_before_nil []). split_and!; [done|split; [lia|done]..].
  - apply Forall_cons in Hw as [Hb _].
    pose proof (not_before_nil (b :: w)). pose proof (nil_before b w).
    split_and!; (split; [lia || done|intros; done || lia]).
  - apply Forall_cons in Hv as [Ha _].
    pose proof (not_before_nil (a :: v)). pose proof (nil_before a v).
    split_and!; (split; [lia || done|intros; done || lia]).
  - apply Forall_cons in Hv as [Ha Hv]. apply Forall_cons in Hw as [Hb Hw].
    destruct (Z.eqb_spec a b) as [->|Hne].
    + destruct (IH w Hv Hw) as (H0 & H1 & H2). rewrite !before_cons. split_and!; [|done..].
      rewrite H0. split; [by intros ->|by intros [= ->]].
    + rewrite !before_diff by done. split_and!; [|lia..].
      split; [lia|]. by intros [= -> ->].
Qed.

Lemma run_strcmp v : forall fuel p q w m,
  cstr m p v -> cstr m q w -> (length v <= fuel)%nat ->
  strcmp fuel p q m = (Ret (difference v w), m).
Proof.
  induction v as [|a v IH]; intros fuel p q w m Hv Hw Hf.
  - assert (Hr : strcmp fuel p q m = (Ret (0 - m q), m)).
    { destruct fuel; cbn [strcmp cstr] in *; by rewrite !bind_rd, Hv. }
    rewrite Hr. destruct w as [|b w]; cbn [cstr difference] in Hw |- *; [by rewrite Hw|].
    by destruct Hw as [-> _].
  - destruct Hv as (Ha & Hra & Hv). destruct fuel as [|fuel]; [simpl in Hf; lia|].
    cbn [strcmp]. rewrite !bind_rd, Ha.
    replace (a =? 0) with false by lia. cbn [negb andb].
    destruct w as [|b w]; cbn [cstr difference] in *.
    + rewrite Hw. replace (a =? 0) with false by lia. by rewrite Z.sub_0_r.
    + destruct Hw as (Hb & Hrb & Hw). rewrite Hb. destruct (a =? b); [|done].
      apply IH; [done..|simpl in Hf; lia].
Qed.

Lemma run_strncmp n : forall p q v w m,
  cstr m p v -> cstr m q w ->
  strncmp p q n m = (Ret (difference (take n v) (take n w)), m).
Proof.
  induction n as [|n IH]; intros p q v w m Hv Hw; [done|].
  cbn [strncmp]. rewrite !bind_rd.
  destruct v as [|a v], w as [|b w]; cbn [cstr take difference] in *.
  - by rewrite Hv, Hw.
  - destruct Hw as (Hb & Hrb & Hw). rewrite Hv, Hb. by replace (0 =? b) with false by lia.
  - destruct Hv as (Ha & Hra & Hv). rewrite Hw, Ha. replace (a =? 0) with false by lia.
    cbn [negb]. by rewrite Z.sub_0_r.
  - destruct Hv as (Ha & Hra & Hv), Hw as (Hb & Hrb & Hw). rewrite Ha, Hb.
    destruct (Z.eqb_spec a b); cbn [negb]; [|done].
    replace (a =? 0) with false by lia. by apply IH.
Qed.

(** [strcmp] of two strings returns, and the sign of its result is the
    order of the strings by their first difference as unsigned bytes; it is 0
    exactly for equal strings.  [strncmp] does the same with their first [n]
    characters. *)
Theorem string_comparison_order p q v w n fuel m :
  cstr m p v -> cstr m q w -> (length v <= fuel)%nat ->
  (exists r, strcmp fuel p q m = (Ret r, m) /\
     (r = 0 <-> v = w) /\ (r < 0 <-> before v w) /\ (0 < r <-> before w v)) /\
  (exists r, strncmp p q n m = (Ret r, m) /\
     (r = 0 <-> take n v = take n w) /\ (r < 0 <-> before (take n v) (take n w)) /\
     (0 < r <-> before (take n w) (take n v))).
Proof.
  intros Hv Hw Hf. pose proof (cstr_bytes _ _ _ Hv). pose proof (cstr_bytes _ _ _ Hw).
  split.
  - exists (difference v w). split; [by apply run_strcmp|by apply difference_spec].
  - exists (difference (take n v) (take n w)). split; [by apply run_strncmp|].
    apply difference_spec; by apply Forall_take.
Qed.

(** ** Tokens *)

(** The maximal runs of characters of [w] that are not in [ds]; [cur] is the
    run read so far. *)
Fixpoint split_from (ds cur w : list Z) : list (list Z) :=
  match w with
  | [] => match cur with [] => [] | _ => [cur] end
  | c :: w =>
      if decide (c ∈ ds)
      then match cur with [] => split_from ds [] w | _ => cur :: split_from ds [] w end
      else split_from ds (cur ++ [c]) w
  end.
Definition split_on (ds w : list Z) : list (list Z) := split_from ds [] w.

(** Calling [strtok_r] until it returns no token, at most [n] times. *)
Fixpoint strtok_all (fuel n : nat) (str delim saveptr : Z) : M mem (list Z) :=
  match n with
  | O => mret []
  | S n =>
      '(token, saveptr) ← strtok_r fuel str delim saveptr;
      if token =? NULL then mret []
      else r ← strtok_all fuel n NULL delim saveptr; mret (token :: r)
  end.

Lemma s8_inj a b : 0 <= a < 256 -> 0 <= b < 256 -> s8 a = s8 b -> a = b.
Proof.
  intros Ha Hb. unfold swrap. change (2 ^ 8) with 256. change (2 ^ (8 - 1)) with 128.
  rewrite !Z.mod_small by lia. range_cases.
Qed.

Lemma s8_eqb a b : 0 <= a < 256 -> 0 <= b < 256 -> (s8 a =? s8 b) = (a =? b).
Proof.
  intros Ha Hb. destruct (Z.eqb_spec a b) as [->|Hne]; [by rewrite Z.eqb_refl|].
  destruct (Z.eqb_spec (s8 a) (s8 b)) as [He|]; [|done]. by apply s8_inj in He.
Qed.

Lemma s8_zero a : 0 <= a < 256 -> (s8 a =? 0) = (a =? 0).
Proof. intros Ha. change 0 with (s8 0) at 1. apply s8_eqb; lia. Qed.

Lemma run_strchr ds : forall fuel p c m,
  cstr m p ds -> 0 < p -> 0 < c < 256 -> (length ds <= fuel)%nat ->
  exists r, strchr fuel p (s8 c) m = (Ret r, m) /\ negb (r =? NULL) = bool_decide (c ∈ ds).
Proof.
  induction ds as [|d ds IH]; intros fuel p c m Hds Hp Hc Hf.
  - exists NULL. split; [|done]. cbn [cstr] in Hds.
    destruct fuel; cbn [strchr]; rewrite bind_rdc, Hds; change (s8 0 =? 0) with true;
      cbn [negb]; rewrite s8_zero by lia; by replace (c =? 0) with false by lia.
  - destruct Hds as (Hd & Hrd & Hds). destruct fuel as [|fuel]; [simpl in Hf; lia|].
    cbn [strchr]. rewrite bind_rdc, Hd, s8_zero, s8_eqb by lia.
    replace (d =? 0) with false by lia. cbn [negb].
    destruct (Z.eqb_spec d c) as [->|Hne].
    + exists p. split; [done|]. rewrite bool_decide_true by set_solver.
      by replace (p =? NULL) with false by (unfold NULL; lia).
    + destruct (IH fuel (p + 1) c m) as (r & Hr & Hb); [done|lia|done|simpl in Hf; lia|].
      exists r. split; [done|]. rewrite Hb. apply bool_decide_ext. set_solver.
Qed.

Lemma run_strtok_scan (skip : bool) ds delim u : forall fuel p rest m,
  cstr m p (u ++ rest) -> cstr m delim ds -> 0 < delim ->
  (length u + length ds <= fuel)%nat ->
  Forall (fun c => bool_decide (c ∈ ds) = skip) u ->
  match rest with [] => True | c :: _ => bool_decide (c ∈ ds) = negb skip end ->
  strtok_scan fuel skip p delim m = (Ret (p + Z.of_nat (length u)), m).
Proof.
  induction u as [|a u IH]; intros fuel p rest m Hs Hd Hdelim Hf Hu Hrest.
  - rewrite Z.add_0_r. cbn [app] in Hs. destruct rest as [|c rest]; cbn [cstr] in Hs.
    + by destruct fuel; cbn [strtok_scan]; rewrite bind_rdc, Hs.
    + destruct Hs as (Hc & Hrc & _).
      destruct (run_strchr ds fuel delim c m) as (r & Hr & Hb); [done..|simpl in Hf; lia|].
      destruct fuel; cbn [strtok_scan]; rewrite bind_rdc, Hc, s8_zero by lia;
        replace (c =? 0) with false by lia; rewrite (run_bind _ _ _ _ _ Hr), Hb, Hrest;
        by destruct skip.
  - cbn [app cstr] in Hs. destruct Hs as (Ha & Hra & Hs).
    apply Forall_cons in Hu as [Hua Hu].
    destruct (run_strchr ds fuel delim a m) as (r & Hr & Hb); [done..|simpl in Hf; lia|].
    destruct fuel as [|fuel]; [simpl in Hf; lia|].
    cbn [strtok_scan]. rewrite bind_rdc, Ha, s8_zero by lia. replace (a =? 0) with false by lia.
    rewrite (run_bind _ _ _ _ _ Hr), Hb, Hua, eqb_reflx.
    rewrite (IH fuel (p + 1) rest m); [|done..|simpl in Hf; lia|done|done].
    cbn [length]. do 2 f_equal. lia.
Qed.

(** The parts of a string that one call of [strtok_r] sees: delimiters, a
    token, and the rest, which starts with a delimiter. *)
Lemma token_parts (ds w : list Z) :
  Forall (fun c => bool_decide (c ∈ ds) = true) w \/
  exists pre a tok rest, w = pre ++ (a :: tok) ++ rest /\
    Forall (fun c => bool_decide (c ∈ ds) = true) pre /\
    Forall (fun c => bool_decide (c ∈ ds) = false) (a :: tok) /\
    match rest with [] => True | c :: _ => bool_decide (c ∈ ds) = true end.
Proof.
  induction w as [|c w IH]; [by left|].
  destruct (bool_decide (c ∈ ds)) eqn:Hc.
  - destruct IH as [IH|(pre & a & tok & rest & -> & Hpre & Htok & Hrest)]; [left; by constructor|].
    right. exists (c :: pre), a, tok, rest. split_and!; [done|by constructor|done|done].
  - right. destruct IH as [IH|(pre & a & tok & rest & -> & Hpre & Htok & Hrest)].
    + exists [], c, [], w. split_and!; [done|done|by repeat constructor|].
      by destruct w; [|apply Forall_cons in IH as [IH _]].
    + destruct pre as [|d pre].
      * exists [], c, (a :: tok), rest. split_and!; [done|done|by constructor|done].
      * exists [], c, [], (d :: pre ++ (a :: tok) ++ rest).
        split_and!; [done|done|by repeat constructor|]. by apply Forall_cons in Hpre as [Hpre _].
Qed.

Lemma split_from_delims ds pre w :
  Forall (fun c => bool_decide (c ∈ ds) = true) pre -> split_on ds (pre ++ w) = split_on ds w.
Proof.
  unfold split_on. induction 1 as [|c pre Hc _ IH]; [done|]. cbn [app split_from].
  apply bool_decide_eq_true in Hc. by rewrite decide_True.
Qed.

Lemma split_from_token ds tok rest cur :
  Forall (fun c => bool_decide (c ∈ ds) = false) tok ->
  split_from ds cur (tok ++ rest) = split_from ds (cur ++ tok) rest.
Proof.
  intros Htok. revert cur. induction Htok as [|c tok Hc _ IH]; intros cur; [by rewrite app_nil_r|].
  cbn [app split_from]. apply bool_decide_eq_false in Hc. rewrite decide_False by done.
  by rewrite IH, <- app_assoc.
Qed.

Lemma split_on_token ds pre a tok rest :
  Forall (fun c => bool_decide (c ∈ ds) = true) pre ->
  Forall (fun c => bool_decide (c ∈ ds) = false) (a :: tok) ->
  match rest with [] => True | c :: _ => bool_decide (c ∈ ds) = true end ->
  split_on ds (pre ++ (a :: tok) ++ rest) = (a :: tok) :: split_on ds (tail rest).
Proof.
  intros Hpre Htok Hrest. rewrite split_from_delims by done.
  unfold split_on. rewrite split_from_token by done. cbn [app].
  destruct rest as [|c rest]; [done|]. cbn [split_from tail].
  apply bool_decide_eq_true in Hrest. by rewrite decide_True.
Qed.

Section tokens.
  Context (ds : list Z) (delim : Z) (fuel : nat).
  Hypothesis delim_pos : 0 < delim.

(** The pointer [strtok_r] starts from. *)
Definition start (str saveptr : Z) : Z := if str =? NULL then saveptr else str.

Lemma run_strtok_none str sv w m :
  cstr m (start str sv) w -> cstr m delim ds -> (length w + length ds <= fuel)%nat ->
  Forall (fun c => bool_decide (c ∈ ds) = true) w ->
  strtok_r fuel str delim sv m = (Ret (NULL, start str sv + Z.of_nat (length w)), m).
Proof using delim_pos.
  intros Hw Hd Hf Hall. unfold strtok_r. change (if str =? NULL then sv else str) with (start str sv).
  set (p := start str sv) in *.
  rewrite <- (app_nil_r w) in Hw.
  rewrite (run_bind _ _ _ _ _ (run_strtok_scan true ds delim w fuel p [] m Hw Hd delim_pos Hf Hall I)).
  rewrite bind_rdc. apply cstr_app in Hw as [_ Hw]. cbn [cstr] in Hw. by rewrite Hw.
Qed.

Lemma run_strtok_token str sv pre a tok rest m :
  let p := start str sv + Z.of_nat (length pre) in
  let q := p + Z.of_nat (length (a :: tok)) in
  cstr m (start str sv) (pre ++ (a :: tok) ++ rest) -> cstr m delim ds ->
  (length (pre ++ (a :: tok) ++ rest) + length ds <= fuel)%nat ->
  Forall (fun c => bool_decide (c ∈ ds) = true) pre ->
  Forall (fun c => bool_decide (c ∈ ds) = false) (a :: tok) ->
  match rest with [] => True | c :: _ => bool_decide (c ∈ ds) = true end ->
  strtok_r fuel str delim sv m =
    match rest with [] => (Ret (p, q), m) | _ => (Ret (p, q + 1), upd m q 0) end.
Proof using delim_pos.
  intros p q Hw Hd Hf Hpre Htok Hrest. rewrite !length_app in Hf.
  unfold strtok_r. change (if str =? NULL then sv else str) with (start str sv).
  assert (Ha : bool_decide (a ∈ ds) = false) by (by apply Forall_cons in Htok as [Ha _]).
  rewrite (run_bind _ _ _ _ _ (run_strtok_scan true ds delim pre fuel (start str sv)
    ((a :: tok) ++ rest) m Hw Hd delim_pos ltac:(lia) Hpre Ha)).
  apply cstr_app in Hw as [_ Hw]. change (start str sv + Z.of_nat (length pre)) with p in Hw |- *.
  pose proof Hw as Hw1. cbn [app cstr] in Hw1. destruct Hw1 as (Hpa & Hra & _).
  rewrite bind_rdc, Hpa, s8_zero by lia. replace (a =? 0) with false by lia.
  assert (Hrest' : match rest with [] => True | c :: _ => bool_decide (c ∈ ds) = negb false end)
    by (by destruct rest).
  rewrite (run_bind _ _ _ _ _ (run_strtok_scan false ds delim (a :: tok) fuel p rest m Hw Hd delim_pos
    ltac:(lia) Htok Hrest')).
  apply cstr_app in Hw as [_ Hw]. change (p + Z.of_nat (length (a :: tok))) with q in Hw |- *.
  rewrite bind_rdc. destruct rest as [|c rest]; cbn [cstr] in Hw; [by rewrite Hw|].
  destruct Hw as (Hc & Hrc & _). rewrite Hc, s8_zero by lia. by replace (c =? 0) with false by lia.
Qed.

(** The bytes of the string that may be overwritten. *)
Definition same_outside (m m' : mem) (p n : Z) : Prop := forall a, a < p \/ p + n <= a -> m' a = m a.

Lemma run_strtok_all n : forall str sv w m,
  (length w < n)%nat -> 0 < start str sv ->
  cstr m (start str sv) w -> cstr m delim ds -> (length w + length ds <= fuel)%nat ->
  delim + Z.of_nat (length ds) < start str sv \/ start str sv + Z.of_nat (length w) < delim ->
  exists ptrs m', strtok_all fuel n str delim sv m = (Ret ptrs, m') /\
    Forall2 (cstr m') ptrs (split_on ds w) /\
    same_outside m m' (start str sv) (Z.of_nat (length w)).
Proof using delim_pos.
  induction n as [|n IH]; intros str sv w m Hn Hp Hw Hd Hf Hdis; [lia|].
  cbn [strtok_all].
  destruct (token_parts ds w) as [Hall|(pre & a & tok & rest & -> & Hpre & Htok & Hrest)].
  - rewrite (run_bind _ _ _ _ _ (run_strtok_none str sv w m Hw Hd Hf Hall)).
    exists [], m. split; [done|]. split; [|by intros ?].
    rewrite <- (app_nil_r w), split_from_delims by done. constructor.
  - pose proof (run_strtok_token str sv pre a tok rest m Hw Hd Hf Hpre Htok Hrest) as Hr.
    cbv zeta in Hr. rewrite split_on_token by done.
    set (p := start str sv + Z.of_nat (length pre)) in *.
    set (q := p + Z.of_nat (length (a :: tok))) in *.
    apply cstr_app in Hw as [_ Hw]. change (start str sv + _) with p in Hw.
    apply cstr_app in Hw as [Htokc Hw]. change (p + _) with q in Htokc, Hw.
    rewrite !length_app in *.
    destruct rest as [|c rest].
    + rewrite (run_bind _ _ _ _ _ Hr). replace (p =? NULL) with false by (unfold NULL; lia).
      destruct (IH NULL q [] m) as (ptrs & m' & Hr' & Htoks & Hout);
        [simpl in *; lia|unfold start; cbn; lia|done|done|simpl in *; lia| |].
      { change (start NULL q) with q. simpl in *. lia. }
      rewrite (run_bind _ _ _ _ _ Hr'). exists (p :: ptrs), m'. split; [done|].
      assert (Heq : forall x, m' x = m x) by (intros x; apply Hout; change (start NULL q) with q; simpl; lia).
      split; [constructor; [|done]|by intros x _].
      apply (cstr_ext (upd m q 0)); [|done]. intros x Hx. rewrite Heq. unfold upd.
      destruct (Z.eqb_spec x q) as [->|]; [done|]. done.
    + destruct Hw as (Hqc & Hrc & Hw).
      rewrite (run_bind _ _ _ _ _ Hr). replace (p =? NULL) with false by (unfold NULL; lia).
      destruct (IH NULL (q + 1) rest (upd m q 0)) as (ptrs & m' & Hr' & Htoks & Hout).
      * simpl in *; lia.
      * unfold start; cbn; lia.
      * change (start NULL (q + 1)) with (q + 1). apply (cstr_ext m); [|done].
        intros x Hx. apply upd_ne. lia.
      * apply (cstr_ext m); [|done]. intros x Hx. apply upd_ne. simpl in *; lia.
      * simpl in *; lia.
      * change (start NULL (q + 1)) with (q + 1). simpl in *; lia.
      * change (start NULL (q + 1)) with (q + 1) in *.
        rewrite (run_bind _ _ _ _ _ Hr'). exists (p :: ptrs), m'. split; [done|].
        cbn [length] in *. split; [constructor; [|done]|].
        -- apply (cstr_ext (upd m q 0)); [|done]. intros x Hx. apply Hout. simpl in *; lia.
        -- intros x Hx. rewrite Hout by lia. apply upd_ne. simpl in *; lia.
Qed.

End tokens.

(** splitting a string the way the file system splits a path, with
    repeated calls of [strtok_r] of which the first gets the string and the
    later ones NULL, returns a pointer for each maximal run of characters that
    are not delimiters, in order, at which that run is then a string; nothing
    outside the string's characters changes. *)
Theorem strtok_splits_string s w delim ds saveptr fuel m :
  cstr m s w -> cstr m delim ds -> 0 < s -> 0 < delim ->
  delim + Z.of_nat (length ds) < s \/ s + Z.of_nat (length w) < delim ->
  (length w + length ds <= fuel)%nat ->
  exists ptrs m', strtok_all fuel (S (length w)) s delim saveptr m = (Ret ptrs, m') /\
    Forall2 (cstr m') ptrs (split_on ds w) /\
    (forall a, a < s \/ s + Z.of_nat (length w) <= a -> m' a = m a).
Proof.
  intros Hw Hd Hs Hdelim Hdis Hf.
  assert (Hst : start s saveptr = s) by (unfold start, NULL; by replace (s =? 0) with false by lia).
  destruct (run_strtok_all ds delim fuel Hdelim (S (length w)) s saveptr w m)
    as (ptrs & m' & Hr & Htoks & Hout); rewrite ?Hst; [lia|done..|].
  exists ptrs, m'. rewrite Hst in Hout. by split_and!.
Qed.

(** ** Instances *)

(** The path /usr//bin/ at 100, the delimiter / at 50 and zeros elsewhere. *)
Definition example_mem : mem := fun a =>
  if a =? 50 then 47
  else array_get 0 [47; 117; 115; 114; 47; 47; 98; 105; 110; 47] (a - 100) * Z.b2z (100 <=? a).

Lemma example_path : cstr example_mem 100 [47; 117; 115; 114; 47; 47; 98; 105; 110; 47].
Proof. cbn [cstr]. repeat split. Qed.

Lemma example_delim : cstr example_mem 50 [47].
Proof. cbn [cstr]. repeat split. Qed.

Lemma memmove_copies_witness :
  (exists m', memmove 102 100 3 example_mem = (Ret 102, m') /\ m' 102 = 47 /\ m' 104 = 115) /\
  (exists m', memcpy 100 102 3 example_mem = (Ret 100, m') /\ m' 100 = 115 /\ m' 102 = 47).
Proof.
  destruct (memmove_copies 102 100 3 example_mem) as [(m1 & Hr1 & H1) _].
  destruct (memmove_copies 100 102 3 example_mem) as [_ Hcpy].
  destruct Hcpy as (m2 & Hr2 & H2); [left; lia|].
  split; [exists m1|exists m2]; (split; [assumption|]);
    rewrite ?(H1 _), ?(H2 _); split; reflexivity.
Defined.

Lemma string_comparison_order_witness :
  (exists r, strcmp 10 101 106 example_mem = (Ret r, example_mem) /\ 0 < r) /\
  (exists r, strncmp 104 105 1 example_mem = (Ret r, example_mem) /\ r = 0).
Proof.
  destruct (string_comparison_order 101 106 [117; 115; 114; 47; 47; 98; 105; 110; 47] [98; 105; 110; 47] 1 10
    example_mem) as [(r & Hr & _ & _ & Hpos) _].
  - cbn [cstr]. repeat split.
  - cbn [cstr]. repeat split.
  - simpl. lia.
  - destruct (string_comparison_order 104 105 [47; 47; 98; 105; 110; 47] [47; 98; 105; 110; 47] 1 10
      example_mem) as [_ (r' & Hr' & Hz & _)].
    + cbn [cstr]. repeat split.
    + cbn [cstr]. repeat split.
    + simpl. lia.
    + split; [exists r|exists r'].
      * split; [exact Hr|]. apply Hpos. exists []. right.
        exists 98, [105; 110; 47], 117, [115; 114; 47; 47; 98; 105; 110; 47].
        split; [reflexivity|]. split; [reflexivity|lia].
      * split; [exact Hr'|]. apply Hz. reflexivity.
Defined.

Lemma strtok_splits_string_witness :
  exists p1 p2 m', strtok_all 11 11 100 50 0 example_mem = (Ret [p1; p2], m') /\
    cstr m' p1 [117; 115; 114] /\ cstr m' p2 [98; 105; 110].
Proof.
  destruct (strtok_splits_string 100 [47; 117; 115; 114; 47; 47; 98; 105; 110; 47] 50 [47] 0 11
    example_mem example_path example_delim) as (ptrs & m' & Hr & Ht & _).
  - lia.
  - lia.
  - left. simpl. lia.
  - simpl. lia.
  - change (split_on _ _) with [[117; 115; 114]; [98; 105; 110]] in Ht.
    destruct ptrs as [|p1 [|p2 [|]]];
      try (apply Forall2_length in Ht; discriminate Ht).
    exists p1, p2, m'. split; [exact Hr|].
    apply Forall2_cons in Ht as [H1 Ht]. apply Forall2_cons in Ht as [H2 _].
    split; [exact H1|exact H2].
Defined.
