(* ===== verification/Bytes.v ===== *)
(** Byte arrays as lists of integers: little-endian fields, and the copies that
    [memcpy] and struct assignments make into a buffer. *)
From S2P Require Import Prelude.

(** ** Little-endian integers *)

Fixpoint le (n : nat) (v : Z) : list Z :=
  match n with
  | O => []
  | S n => v mod 256 :: le n (v / 256)
  end.

Fixpoint un_le (l : list Z) : Z :=
  match l with
  | [] => 0
  | b :: l => b + 256 * un_le l
  end.

Definition byte_ok (b : Z) : Prop := 0 <= b < 256.
Abbreviation bytes_ok := (Forall byte_ok).

Lemma length_le n v : length (le n v) = n.
Proof. revert v. induction n as [|n IH]; intros v; [done|]. simpl. by rewrite IH. Qed.

Lemma le_bytes_ok n v : bytes_ok (le n v).
Proof.
  revert v. induction n as [|n IH]; intros v; [constructor|].
  constructor; [apply Z.mod_pos_bound; lia|apply IH].
Qed.

Lemma un_le_le n v : un_le (le n v) = v mod 256 ^ Z.of_nat n.
Proof.
  revert v. induction n as [|n IH]; intros v; [symmetry; apply Z.mod_1_r|].
  cbn [le un_le]. rewrite IH, Nat2Z.inj_succ, Z.pow_succ_r by lia.
  by rewrite Z.rem_mul_r by lia.
Qed.

Lemma un_le_range l : bytes_ok l -> 0 <= un_le l < 256 ^ Z.of_nat (length l).
Proof.
  induction 1 as [|b l Hb _ IH]; [done|]. cbn [un_le length].
  rewrite Nat2Z.inj_succ, Z.pow_succ_r by lia. unfold byte_ok in Hb. lia.
Qed.

Lemma le_un_le l : bytes_ok l -> le (length l) (un_le l) = l.
Proof.
  induction 1 as [|b l Hb _ IH]; [done|]. cbn [un_le length le].
  unfold byte_ok in Hb.
  replace ((b + 256 * un_le l) mod 256) with b.
  2:{ apply (Z.mod_unique_pos _ 256 (un_le l)); lia. }
  replace ((b + 256 * un_le l) / 256) with (un_le l); [by rewrite IH|].
  apply (Z.div_unique_pos _ 256 _ b); lia.
Qed.

(** ** Parts of an array *)

(** The [n] bytes from [off] on. *)
Definition slice (off n : Z) (l : list Z) : list Z := take (Z.to_nat n) (drop (Z.to_nat off) l).

(** Copying [src] to offset [off] of [l]. *)
Definition splice (off : Z) (src l : list Z) : list Z :=
  take (Z.to_nat off) l ++ src ++ drop (Z.to_nat off + length src) l.

Definition zlen (l : list Z) : Z := Z.of_nat (length l).

Lemma length_slice off n l :
  0 <= off -> 0 <= n -> off + n <= zlen l -> length (slice off n l) = Z.to_nat n.
Proof. unfold zlen, slice. intros. rewrite length_take, length_drop. lia. Qed.

Lemma length_splice off src l :
  0 <= off -> off + zlen src <= zlen l -> length (splice off src l) = length l.
Proof.
  unfold zlen, splice. intros. rewrite !length_app, length_take, length_drop. lia.
Qed.

Lemma lookup_slice off n l i :
  0 <= off -> (i < Z.to_nat n)%nat -> slice off n l !! i = l !! (Z.to_nat off + i)%nat.
Proof. intros. unfold slice. by rewrite lookup_take_lt, lookup_drop. Qed.

Lemma slice_all l n : n = zlen l -> slice 0 n l = l.
Proof. intros ->. unfold slice, zlen. rewrite drop_0, take_ge by lia. done. Qed.

Lemma slice_splice_same off src l n :
  0 <= off -> off + zlen src <= zlen l -> n = zlen src -> slice off n (splice off src l) = src.
Proof.
  unfold zlen, slice, splice. intros Hoff Hl ->. rewrite drop_app_length' by (rewrite length_take; lia).
  by rewrite take_app_length' by lia.
Qed.

Lemma slice_splice_before off src l o n :
  0 <= o -> 0 <= n -> o + n <= off -> off + zlen src <= zlen l ->
  slice o n (splice off src l) = slice o n l.
Proof.
  unfold zlen, slice, splice. intros. apply list_eq. intros i.
  destruct (decide (i < Z.to_nat n)%nat).
  - rewrite !lookup_take_lt, !lookup_drop by done.
    rewrite lookup_app_l by (rewrite length_take; lia). by rewrite lookup_take_lt by lia.
  - by rewrite !lookup_take_ge by lia.
Qed.

Lemma slice_splice_after off src l o n :
  0 <= off -> off + zlen src <= o -> off + zlen src <= zlen l ->
  slice o n (splice off src l) = slice o n l.
Proof.
  unfold zlen, slice, splice. intros. f_equal. rewrite app_assoc, drop_app_ge.
  2:{ rewrite length_app, length_take. lia. }
  rewrite drop_drop. f_equal. rewrite length_app, length_take. lia.
Qed.

Lemma slice_slice a n b k l :
  0 <= a -> 0 <= b -> b + k <= n -> slice b k (slice a n l) = slice (a + b) k l.
Proof.
  intros. unfold slice. rewrite skipn_firstn_comm, drop_drop, take_take. f_equal; [lia|].
  f_equal. lia.
Qed.

Lemma slice_bytes_ok off n l : bytes_ok l -> bytes_ok (slice off n l).
Proof. intros. unfold slice. by apply Forall_take, Forall_drop. Qed.

Lemma splice_bytes_ok off src l : bytes_ok src -> bytes_ok l -> bytes_ok (splice off src l).
Proof.
  intros. unfold splice. apply Forall_app. split; [by apply Forall_take|].
  apply Forall_app. split; [done|by apply Forall_drop].
Qed.

(** ** Fields *)

Definition get8 (l : list Z) (off : Z) : Z := un_le (slice off 1 l).
Definition get16 (l : list Z) (off : Z) : Z := un_le (slice off 2 l).
Definition get32 (l : list Z) (off : Z) : Z := un_le (slice off 4 l).
Definition put8 (off v : Z) (l : list Z) : list Z := splice off (le 1 v) l.
Definition put16 (off v : Z) (l : list Z) : list Z := splice off (le 2 v) l.
Definition put32 (off v : Z) (l : list Z) : list Z := splice off (le 4 v) l.

(** [memset(p, v, n)] at the start of an array. *)
Definition fill (n v : Z) (l : list Z) : list Z := splice 0 (replicate (Z.to_nat n) v) l.

(** ** Packed structures

    A packed C structure of little-endian integers is the list of its fields'
    values; [ws] lists the fields' widths in bytes. *)
Fixpoint pack (ws : list nat) (vs : list Z) : list Z :=
  match ws, vs with
  | w :: ws, v :: vs => le w v ++ pack ws vs
  | _, _ => []
  end.

Fixpoint unpack (ws : list nat) (l : list Z) : list Z :=
  match ws with
  | [] => []
  | w :: ws => un_le (take w l) :: unpack ws (drop w l)
  end.

(** Every field holds a value of its width. *)
Definition fields_ok (ws : list nat) (vs : list Z) : Prop :=
  Forall2 (fun w v => 0 <= v < 256 ^ Z.of_nat w) ws vs.

Lemma length_unpack ws l : length (unpack ws l) = length ws.
Proof. revert l. induction ws as [|w ws IH]; intros l; [done|]. cbn. by rewrite IH. Qed.

Lemma length_pack ws vs : length vs = length ws -> length (pack ws vs) = sum_list ws.
Proof.
  revert vs. induction ws as [|w ws IH]; intros [|v vs]; try done.
  intros [= Hl]. cbn [pack]. rewrite length_app, length_le, IH by done. done.
Qed.

Lemma pack_bytes_ok ws vs : bytes_ok (pack ws vs).
Proof.
  revert vs. induction ws as [|w ws IH]; intros [|v vs]; try by constructor.
  cbn [pack]. apply Forall_app. split; [apply le_bytes_ok|apply IH].
Qed.

Lemma unpack_pack ws vs rest : fields_ok ws vs -> unpack ws (pack ws vs ++ rest) = vs.
Proof.
  induction 1 as [|w v ws vs Hv _ IH]; [done|]. cbn [pack unpack].
  rewrite <- app_assoc, take_app_length', drop_app_length' by (by rewrite length_le).
  rewrite un_le_le, Z.mod_small by done. by rewrite IH.
Qed.

Lemma pack_unpack ws l : bytes_ok l -> length l = sum_list ws -> pack ws (unpack ws l) = l.
Proof.
  revert l. induction ws as [|w ws IH]; intros l Hl Hlen.
  { symmetry. by apply nil_length_inv. }
  cbn [sum_list foldr] in Hlen. cbn [pack unpack].
  rewrite IH by (auto using Forall_drop; rewrite length_drop; cbn in Hlen; lia).
  replace w with (length (take w l)) at 1 by (rewrite length_take; cbn in Hlen; lia).
  rewrite le_un_le by by apply Forall_take. apply take_drop.
Qed.

Lemma fields_ok_unpack ws l :
  bytes_ok l -> (sum_list ws <= length l)%nat -> fields_ok ws (unpack ws l).
Proof.
  revert l. induction ws as [|w ws IH]; intros l Hl Hlen; [constructor|].
  cbn in Hlen. constructor.
  - replace (256 ^ Z.of_nat w) with (256 ^ Z.of_nat (length (take w l)))
      by (rewrite length_take; do 2 f_equal; lia).
    by apply un_le_range, Forall_take.
  - apply IH; [by apply Forall_drop|]. rewrite length_drop. cbn. lia.
Qed.

(** ** More on parts of an array *)

Lemma slice_app a m n l :
  0 <= a -> 0 <= m -> 0 <= n -> slice a (m + n) l = slice a m l ++ slice (a + m) n l.
Proof.
  intros. unfold slice. rewrite !Z2Nat.inj_add, <- drop_drop by lia.
  generalize (drop (Z.to_nat a) l). intros k.
  rewrite <- (take_drop (Z.to_nat m) (take (Z.to_nat m + Z.to_nat n) k)).
  rewrite take_take, skipn_firstn_comm. f_equal; f_equal; lia.
Qed.

Lemma zlen_slice off n l : 0 <= off -> 0 <= n -> off + n <= zlen l -> zlen (slice off n l) = n.
Proof. intros. unfold zlen. rewrite length_slice by done. lia. Qed.

Lemma zlen_splice off src l : 0 <= off -> off + zlen src <= zlen l -> zlen (splice off src l) = zlen l.
Proof. intros. unfold zlen. by rewrite length_splice. Qed.

Lemma slice_0 off l : slice off 0 l = [].
Proof. done. Qed.

(** A write inside the first [n] bytes, seen in them. *)
Lemma slice_0_splice off src l n :
  0 <= off -> off + zlen src <= n -> n <= zlen l ->
  slice 0 n (splice off src l) = splice off src (slice 0 n l).
Proof.
  intros Hoff Hsrc Hn. unfold slice, splice, zlen in *. rewrite !drop_0.
  rewrite !take_app, take_take, length_take.
  replace (Z.to_nat n `min` Z.to_nat off)%nat with (Z.to_nat off) by lia.
  replace (Z.to_nat off `min` Z.to_nat n)%nat with (Z.to_nat off) by lia.
  rewrite (take_ge src) by lia. rewrite (skipn_firstn_comm _ (Z.to_nat n)).
  rewrite take_take. f_equal; [f_equal; lia|]. f_equal. f_equal. lia.
Qed.
