(* ===== verification/Wp.v ===== *)
(** Total correctness of kernel code: [wp m s Q] says that [m], started in [s],
    returns, with a result and a state that satisfy [Q].  The rules follow the
    monad of Prelude.v; [wp_auto] applies them and splits on the conditions of
    the program. *)
From S2P Require Import Prelude.

Section wp.
Context {S : Type}.

Definition wp {A} (m : M S A) (s : S) (Q : A -> S -> Prop) : Prop :=
  match m s with
  | (Ret a, s') => Q a s'
  | _ => False
  end.

Lemma wp_run {A} (m : M S A) s Q : wp m s Q <-> exists a s', m s = (Ret a, s') /\ Q a s'.
Proof.
  unfold wp. split.
  - destruct (m s) as [[] s']; try done. eauto.
  - intros (a & s' & -> & HQ). done.
Qed.

Lemma wp_mono {A} (m : M S A) s (P Q : A -> S -> Prop) :
  wp m s P -> (forall a s', P a s' -> Q a s') -> wp m s Q.
Proof. unfold wp. destruct (m s) as [[] s']; auto. Qed.

Lemma wp_ret {A} (a : A) s (Q : A -> S -> Prop) : Q a s -> wp (mret a) s Q.
Proof. done. Qed.

Lemma wp_bind {A B} (m : M S A) (f : A -> M S B) s Q :
  wp m s (fun a s' => wp (f a) s' Q) -> wp (m ≫= f) s Q.
Proof. unfold wp, mbind, m_bind. by destruct (m s) as [[] s']. Qed.

Lemma wp_get s Q : Q s s -> wp mget s Q.
Proof. done. Qed.

Lemma wp_gets {A} (f : S -> A) s Q : Q (f s) s -> wp (mgets f) s Q.
Proof. done. Qed.

Lemma wp_modify (f : S -> S) s Q : Q tt (f s) -> wp (mmodify f) s Q.
Proof. done. Qed.

(** A loop whose body keeps [I]. *)
Lemma wp_for (I : Z -> S -> Prop) n i (body : Z -> M S unit) s Q :
  I i s ->
  (forall j s0, i <= j < i + Z.of_nat n -> I j s0 -> wp (body j) s0 (fun _ s1 => I (j + 1) s1)) ->
  (forall s', I (i + Z.of_nat n) s' -> Q tt s') ->
  wp (mfor n i body) s Q.
Proof.
  revert i s. induction n as [|n IH]; intros i s HI Hbody HQ.
  { apply HQ. by replace (i + Z.of_nat 0) with i by lia. }
  cbn [mfor]. apply wp_bind. eapply wp_mono; [apply Hbody; [lia|done]|].
  intros [] s1 HI1. apply IH; [done| |].
  - intros j s0 Hj. apply Hbody. lia.
  - intros s'. replace (i + 1 + Z.of_nat n) with (i + Z.of_nat (Datatypes.S n)) by lia. apply HQ.
Qed.
End wp.

Create HintDb wp discriminated.

(** One rule for the command in the goal. *)
Ltac wp_rule :=
  cbv beta zeta;
  lazymatch goal with
  | |- wp (mbind _ _) _ _ => apply wp_bind
  | |- wp (mret _) _ _ => apply wp_ret
  | |- wp mget _ _ => apply wp_get
  | |- wp (mgets _) _ _ => apply wp_gets
  | |- wp (mmodify _) _ _ => apply wp_modify
  | |- wp (match ?x with _ => _ end) _ _ => destruct x eqn:?
  end.
