(* ===== verification/BlockDevice.v ===== *)
(** The disk as the file system sees it (drivers/ata/ata.h): the calls it
    makes, one sector at a time, and the laws it relies on, stated with the
    contents of the sectors.  The file system of Ext2.v is written and verified
    against this interface; a disk held in memory, for concrete runs, ends the
    file. *)
From S2P Require Import Prelude Bytes.

(** [ata_drive_present(drive)], [ata_read_sectors(drive, lba, 1, buffer)] (the
    512 bytes stored in the buffer, [None] for a failed call) and
    [ata_write_sectors(drive, lba, 1, buffer)]. *)
Class BlockDevice (D : Type) : Type := {
  ata_drive_present : Z -> D -> bool;
  ata_read_sector : Z -> Z -> D -> option (list Z) * D;
  ata_write_sector : Z -> Z -> list Z -> D -> bool * D;
}.

Definition sector_ok (l : list Z) : Prop := length l = 512%nat /\ bytes_ok l.

(** What the file system may rely on.  Reading leaves the sectors as they are;
    below [dev_limit] it returns the contents, a write changes no other sector,
    and a write that succeeds stores the bytes. *)
Class BlockDeviceSpec (D : Type) `{BlockDevice D} : Type := {
  dev_inv : D -> Prop;
  dev_limit : Z;
  dev_sector : D -> Z -> Z -> list Z;

  dev_limit_range : dev_limit <= 2 ^ 32;
  dev_sector_ok d k s : dev_inv d -> sector_ok (dev_sector d k s);
  dev_read d k s r d' :
    dev_inv d -> 0 <= s < 2 ^ 32 -> ata_read_sector k s d = (r, d') ->
    dev_inv d' /\ (forall k' s', dev_sector d' k' s' = dev_sector d k' s') /\
    (forall bs, r = Some bs -> sector_ok bs /\ (s < dev_limit -> bs = dev_sector d k s));
  dev_write d k s bs r d' :
    dev_inv d -> 0 <= s < 2 ^ 32 -> sector_ok bs -> ata_write_sector k s bs d = (r, d') ->
    dev_inv d' /\
    (s < dev_limit ->
     (r = true -> dev_sector d' k s = bs) /\
     (forall k' s', 0 <= s' < dev_limit -> (k', s') <> (k, s) -> dev_sector d' k' s' = dev_sector d k' s'));
}.

(** ** A disk in memory *)

(** Sectors that were never written hold zeros; the sectors of [bad] can be
    read but not written. *)
Record ram_disk : Type := RamDisk {
  rd_drives : Z;
  rd_sectors : gmap (Z * Z) (list Z);
  rd_bad : list (Z * Z);
}.

Definition zero_sector : list Z := replicate 512 0.
Definition rd_sector (d : ram_disk) (k s : Z) : list Z := default zero_sector (rd_sectors d !! (k, s)).

#[export] Instance ram_device : BlockDevice ram_disk := {
  ata_drive_present k d := (0 <=? k) && (k <? rd_drives d);
  ata_read_sector k s d := (Some (rd_sector d k s), d);
  ata_write_sector k s bs d :=
    if bool_decide ((k, s) ∈ rd_bad d) then (false, d)
    else (true, RamDisk (rd_drives d) (<[(k, s) := bs]> (rd_sectors d)) (rd_bad d));
}.

Definition ram_inv (d : ram_disk) : Prop := map_Forall (fun _ l => sector_ok l) (rd_sectors d).

Lemma zero_sector_ok : sector_ok zero_sector.
Proof.
  split; [done|]. apply Forall_replicate. unfold byte_ok. lia.
Qed.

#[export] Program Instance ram_device_spec : BlockDeviceSpec ram_disk := {
  dev_inv := ram_inv;
  dev_limit := 2 ^ 32;
  dev_sector := rd_sector;
}.
Next Obligation. done. Qed.
Next Obligation.
  intros d k s Hd. unfold rd_sector. destruct (_ !! _) eqn:E; [|apply zero_sector_ok].
  by apply (Hd _ _ E).
Qed.
Next Obligation.
  intros d k s r d' Hd _ [= <- <-]. split_and!; [done..|]. intros bs [= <-].
  split; [|done]. unfold rd_sector. destruct (_ !! _) eqn:E; [|apply zero_sector_ok].
  by apply (Hd _ _ E).
Qed.
Next Obligation.
  intros d k s bs r d' Hd _ Hbs. cbn. case_bool_decide; intros [= <- <-].
  { by split_and!. }
  split; [apply map_Forall_insert_2; [done|apply Hd]|]. intros _. split.
  - intros _. unfold rd_sector. cbn. by rewrite lookup_insert_eq.
  - intros k' s' _ Hne. unfold rd_sector. cbn. by rewrite lookup_insert_ne by congruence.
Qed.
