(* ===== verification/Ext2.v ===== *)
(** The ext2 file system driver, fs/ext2.c: state, block layer, inodes and
    allocation.  Paths, directories and files are in Ext2Dir.v and Ext2File.v.

    [Module Ext2] is written against the page allocator of PageAllocator.v and
    the disk of BlockDevice.v.  A page the driver owns is its physical address
    with its contents; the contents of a page the allocator has just handed out
    are put at zero, and the code never reads a byte of one before it has
    written it.  An access beyond the end of a buffer, and a division by zero,
    end in [Fault].  Logging is left out. *)
From S2P Require Import Prelude PageAllocator Bytes BlockDevice.

Module Ext2.

(** ** Constants of fs/ext2.h *)

Definition EXT2_SUPER_MAGIC : Z := 0xEF53.
Definition EXT2_ROOT_INO : Z := 2.

Definition EXT2_S_IFREG : Z := 0x8000.
Definition EXT2_S_IFDIR : Z := 0x4000.
Definition EXT2_S_IFCHR : Z := 0x2000.
Definition EXT2_S_IFBLK : Z := 0x6000.

Definition EXT2_S_ISDIR (m : Z) : bool := Z.land m 0xF000 =? EXT2_S_IFDIR.

Definition EXT2_O_RDONLY : Z := 0x0001.
Definition EXT2_O_WRONLY : Z := 0x0002.
Definition EXT2_O_RDWR : Z := 0x0003.
Definition EXT2_O_CREAT : Z := 0x0100.

Definition EXT2_NDIR_BLOCKS : Z := 12.
Definition EXT2_IND_BLOCK : Z := 12.
Definition EXT2_DIND_BLOCK : Z := 13.
Definition EXT2_TIND_BLOCK : Z := 14.

Definition EXT2_FT_REG_FILE : Z := 1.
Definition EXT2_FT_DIR : Z := 2.
Definition EXT2_FT_CHRDEV : Z := 3.
Definition EXT2_FT_BLKDEV : Z := 4.

Definition EXT2_NAME_LEN : Z := 255.
Definition EXT2_MAX_FILES : nat := 64.
Definition EXT2_CACHE_SIZE : nat := 32.
Definition EXT2_MAX_PATH : Z := 256.

(** ** Inodes *)

Record ext2_inode_t : Type := Inode {
  i_mode : Z; i_uid : Z; i_size : Z; i_atime : Z; i_ctime : Z; i_mtime : Z; i_dtime : Z;
  i_gid : Z; i_links_count : Z; i_blocks : Z; i_flags : Z; i_osd1 : Z;
  i_block : list Z;
  i_generation : Z; i_file_acl : Z; i_dir_acl : Z; i_faddr : Z;
  i_osd2 : list Z;
}.

Definition zero_inode : ext2_inode_t :=
  Inode 0 0 0 0 0 0 0 0 0 0 0 0 (replicate 15 0) 0 0 0 0 (replicate 12 0).

Definition set_i_mode (v : Z) (r : ext2_inode_t) : ext2_inode_t :=
  Inode v (i_uid r) (i_size r) (i_atime r) (i_ctime r) (i_mtime r) (i_dtime r) (i_gid r)
    (i_links_count r) (i_blocks r) (i_flags r) (i_osd1 r) (i_block r) (i_generation r)
    (i_file_acl r) (i_dir_acl r) (i_faddr r) (i_osd2 r).
Definition set_i_size (v : Z) (r : ext2_inode_t) : ext2_inode_t :=
  Inode (i_mode r) (i_uid r) v (i_atime r) (i_ctime r) (i_mtime r) (i_dtime r) (i_gid r)
    (i_links_count r) (i_blocks r) (i_flags r) (i_osd1 r) (i_block r) (i_generation r)
    (i_file_acl r) (i_dir_acl r) (i_faddr r) (i_osd2 r).
Definition set_i_atime (v : Z) (r : ext2_inode_t) : ext2_inode_t :=
  Inode (i_mode r) (i_uid r) (i_size r) v (i_ctime r) (i_mtime r) (i_dtime r) (i_gid r)
    (i_links_count r) (i_blocks r) (i_flags r) (i_osd1 r) (i_block r) (i_generation r)
    (i_file_acl r) (i_dir_acl r) (i_faddr r) (i_osd2 r).
Definition set_i_ctime (v : Z) (r : ext2_inode_t) : ext2_inode_t :=
  Inode (i_mode r) (i_uid r) (i_size r) (i_atime r) v (i_mtime r) (i_dtime r) (i_gid r)
    (i_links_count r) (i_blocks r) (i_flags r) (i_osd1 r) (i_block r) (i_generation r)
    (i_file_acl r) (i_dir_acl r) (i_faddr r) (i_osd2 r).
Definition set_i_mtime (v : Z) (r : ext2_inode_t) : ext2_inode_t :=
  Inode (i_mode r) (i_uid r) (i_size r) (i_atime r) (i_ctime r) v (i_dtime r) (i_gid r)
    (i_links_count r) (i_blocks r) (i_flags r) (i_osd1 r) (i_block r) (i_generation r)
    (i_file_acl r) (i_dir_acl r) (i_faddr r) (i_osd2 r).
Definition set_i_dtime (v : Z) (r : ext2_inode_t) : ext2_inode_t :=
  Inode (i_mode r) (i_uid r) (i_size r) (i_atime r) (i_ctime r) (i_mtime r) v (i_gid r)
    (i_links_count r) (i_blocks r) (i_flags r) (i_osd1 r) (i_block r) (i_generation r)
    (i_file_acl r) (i_dir_acl r) (i_faddr r) (i_osd2 r).
Definition set_i_links_count (v : Z) (r : ext2_inode_t) : ext2_inode_t :=
  Inode (i_mode r) (i_uid r) (i_size r) (i_atime r) (i_ctime r) (i_mtime r) (i_dtime r) (i_gid
    r) v (i_blocks r) (i_flags r) (i_osd1 r) (i_block r) (i_generation r) (i_file_acl r)
    (i_dir_acl r) (i_faddr r) (i_osd2 r).
Definition set_i_blocks (v : Z) (r : ext2_inode_t) : ext2_inode_t :=
  Inode (i_mode r) (i_uid r) (i_size r) (i_atime r) (i_ctime r) (i_mtime r) (i_dtime r) (i_gid
    r) (i_links_count r) v (i_flags r) (i_osd1 r) (i_block r) (i_generation r) (i_file_acl r)
    (i_dir_acl r) (i_faddr r) (i_osd2 r).
Definition set_i_block (v : list Z) (r : ext2_inode_t) : ext2_inode_t :=
  Inode (i_mode r) (i_uid r) (i_size r) (i_atime r) (i_ctime r) (i_mtime r) (i_dtime r) (i_gid
    r) (i_links_count r) (i_blocks r) (i_flags r) (i_osd1 r) v (i_generation r) (i_file_acl r)
    (i_dir_acl r) (i_faddr r) (i_osd2 r).

(** The fields in the order of the packed structure, [i_block] and [i_osd2]
    element by element. *)
Definition inode_layout : list nat :=
  ([2; 2; 4; 4; 4; 4; 4; 2; 2; 4; 4; 4] ++ replicate 15 4 ++ [4; 4; 4; 4] ++ replicate 12 1)%nat.

Definition inode_values (i : ext2_inode_t) : list Z :=
  [i_mode i; i_uid i; i_size i; i_atime i; i_ctime i; i_mtime i; i_dtime i; i_gid i;
   i_links_count i; i_blocks i; i_flags i; i_osd1 i] ++ i_block i ++
  [i_generation i; i_file_acl i; i_dir_acl i; i_faddr i] ++ i_osd2 i.

Definition inode_of_values (vs : list Z) : ext2_inode_t :=
  let f k := nth k vs 0 in
  Inode (f 0%nat) (f 1%nat) (f 2%nat) (f 3%nat) (f 4%nat) (f 5%nat) (f 6%nat) (f 7%nat) (f 8%nat)
    (f 9%nat) (f 10%nat) (f 11%nat) (take 15 (drop 12 vs)) (f 27%nat) (f 28%nat) (f 29%nat)
    (f 30%nat) (take 12 (drop 31 vs)).

Definition inode_bytes (i : ext2_inode_t) : list Z := pack inode_layout (inode_values i).
Definition inode_of_bytes (l : list Z) : ext2_inode_t := inode_of_values (unpack inode_layout l).

(** [inode->i_block[k]]. *)
Definition i_block_at (k : Z) (i : ext2_inode_t) : Z := array_get 0 (i_block i) k.
Definition set_i_block_at (k v : Z) (i : ext2_inode_t) : ext2_inode_t :=
  set_i_block (array_set (i_block i) k v) i.

(** ** State *)

(** Memory of the page allocator: the address and the contents. *)
Record page : Type := Page { page_ptr : Z; page_bytes : list Z }.

Record ext2_file_t : Type := File {
  inode_num : Z;
  inode : ext2_inode_t;
  flags : Z;
  position : Z;
  is_open : bool;
}.

Record cache_entry : Type := CacheEntry {
  block_no : Z;
  data : option page;
  dirty : bool;
  valid : bool;
}.

Record ext2_fs_t : Type := Fs {
  drive_index : Z;
  block_size : Z;
  blocks_per_group : Z;
  inodes_per_group : Z;
  inode_size : Z;
  groups_count : Z;
  blocks_count : Z;
  inodes_count : Z;
  superblock : option page;
  group_descs : option page;
  open_files : list ext2_file_t;
  current_dir : list Z;
  cache : list cache_entry;
}.

Definition set_drive_index (v : Z) (r : ext2_fs_t) : ext2_fs_t :=
  Fs v (block_size r) (blocks_per_group r) (inodes_per_group r) (inode_size r) (groups_count r)
    (blocks_count r) (inodes_count r) (superblock r) (group_descs r) (open_files r) (current_dir
    r) (cache r).
Definition set_superblock (v : option page) (r : ext2_fs_t) : ext2_fs_t :=
  Fs (drive_index r) (block_size r) (blocks_per_group r) (inodes_per_group r) (inode_size r)
    (groups_count r) (blocks_count r) (inodes_count r) v (group_descs r) (open_files r)
    (current_dir r) (cache r).
Definition set_group_descs (v : option page) (r : ext2_fs_t) : ext2_fs_t :=
  Fs (drive_index r) (block_size r) (blocks_per_group r) (inodes_per_group r) (inode_size r)
    (groups_count r) (blocks_count r) (inodes_count r) (superblock r) v (open_files r)
    (current_dir r) (cache r).
Definition set_open_files (v : list ext2_file_t) (r : ext2_fs_t) : ext2_fs_t :=
  Fs (drive_index r) (block_size r) (blocks_per_group r) (inodes_per_group r) (inode_size r)
    (groups_count r) (blocks_count r) (inodes_count r) (superblock r) (group_descs r) v
    (current_dir r) (cache r).
Definition set_current_dir (v : list Z) (r : ext2_fs_t) : ext2_fs_t :=
  Fs (drive_index r) (block_size r) (blocks_per_group r) (inodes_per_group r) (inode_size r)
    (groups_count r) (blocks_count r) (inodes_count r) (superblock r) (group_descs r)
    (open_files r) v (cache r).
Definition set_cache (v : list cache_entry) (r : ext2_fs_t) : ext2_fs_t :=
  Fs (drive_index r) (block_size r) (blocks_per_group r) (inodes_per_group r) (inode_size r)
    (groups_count r) (blocks_count r) (inodes_count r) (superblock r) (group_descs r)
    (open_files r) (current_dir r) v.

(** The static variables of fs/ext2.c, with the page allocator and the disk. *)
Record ext2_state (A D : Type) : Type := Ext2State {
  fs : ext2_fs_t;
  initialized : bool;
  mounted : bool;
  io_buffer : option (list Z);
  pmm : A;
  disk : D;
}.
Arguments Ext2State {A D}.
Arguments fs {A D}.
Arguments initialized {A D}.
Arguments mounted {A D}.
Arguments io_buffer {A D}.
Arguments pmm {A D}.
Arguments disk {A D}.

(** The memory a block is read to or written from: [io_buffer], the group
    descriptors from an offset on ([ext2_mount]), the page of a cache entry
    ([ext2_unmount]). *)
Inductive buffer : Type :=
| Io
| GroupDescs (off : Z)
| CacheData (i : nat).

Definition cached (b : Z) (e : cache_entry) : Prop := valid e = true /\ block_no e = b.
#[export] Instance cached_dec b e : Decision (cached b e) := ltac:(unfold cached; apply _).

(** The entry that holds a block, and the entry a new block goes to. *)
Definition cache_find (b : Z) (c : list cache_entry) : option nat := fst <$> list_find (cached b) c.
Definition cache_slot (c : list cache_entry) : nat :=
  match list_find (fun e => valid e = false) c with Some (i, _) => i | None => 0%nat end.

Definition set_data (v : option page) (e : cache_entry) : cache_entry :=
  CacheEntry (block_no e) v (dirty e) (valid e).
Definition set_dirty (v : bool) (e : cache_entry) : cache_entry :=
  CacheEntry (block_no e) (data e) v (valid e).

(** [find_free_bit]: the loops over the bits of a byte and over the bytes. *)
Fixpoint find_zero_bit (byte : Z) (n : nat) (j : Z) : option Z :=
  match n with
  | O => None
  | S n => if Z.land byte (Z.shiftl 1 j) =? 0 then Some j else find_zero_bit byte n (j + 1)
  end.
Fixpoint find_free_bit_from (i : Z) (bitmap : list Z) : Z :=
  match bitmap with
  | [] => -1
  | byte :: rest =>
      if byte =? 0xFF then find_free_bit_from (i + 1) rest
      else match find_zero_bit byte 8 0 with
           | Some j => i * 8 + j
           | None => find_free_bit_from (i + 1) rest
           end
  end.
Definition find_free_bit : list Z -> Z := find_free_bit_from 0.

Section ops.
Context {A D : Type} `{!PageAllocator A, !BlockDevice D}.
Abbreviation state := (ext2_state A D).
Abbreviation K := (M (ext2_state A D)).

(** ** Access to the state *)

Definition on_fs (f : ext2_fs_t -> ext2_fs_t) (s : state) : state :=
  Ext2State (f (fs s)) (initialized s) (mounted s) (io_buffer s) (pmm s) (disk s).
Definition on_cache (f : list cache_entry -> list cache_entry) : state -> state :=
  on_fs (fun r => set_cache (f (cache r)) r).
Definition set_io (l : list Z) (s : state) : state :=
  Ext2State (fs s) (initialized s) (mounted s) (Some l) (pmm s) (disk s).
Definition set_flags (i m : bool) (s : state) : state :=
  Ext2State (fs s) i m (io_buffer s) (pmm s) (disk s).

(** A call of the page allocator and a call of the disk driver. *)
Definition call_pmm {R} (f : A -> R * A) : K R := fun s =>
  let '(r, a) := f (pmm s) in
  (Ret r, Ext2State (fs s) (initialized s) (mounted s) (io_buffer s) a (disk s)).
Definition call_disk {R} (f : D -> R * D) : K R := fun s =>
  let '(r, d) := f (disk s) in
  (Ret r, Ext2State (fs s) (initialized s) (mounted s) (io_buffer s) (pmm s) d).

(** Integer division, which raises an exception for a divisor of zero. *)
Definition mdiv (a b : Z) : K Z := if b =? 0 then mfault else mret (a / b).
Definition mmod (a b : Z) : K Z := if b =? 0 then mfault else mret (a mod b).

Definition buffer_bytes (b : buffer) (s : state) : option (list Z) :=
  match b with
  | Io => io_buffer s
  | GroupDescs off => drop (Z.to_nat off) ∘ page_bytes <$> group_descs (fs s)
  | CacheData i => e ← cache (fs s) !! i; page_bytes <$> data e
  end.

Definition page_with (l : list Z) (p : page) : page := Page (page_ptr p) l.

Definition set_buffer (b : buffer) (l : list Z) (s : state) : state :=
  match b with
  | Io => set_io l s
  | GroupDescs off =>
      on_fs (fun r =>
        set_group_descs
          ((fun p => page_with (take (Z.to_nat off) (page_bytes p) ++ l) p) <$> group_descs r) r) s
  | CacheData i => on_cache (alter (fun e => set_data (page_with l <$> data e) e) i) s
  end.

(** Reading and writing bytes of a buffer, from an offset on. *)
Definition load (b : buffer) (off n : Z) : K (list Z) := fun s =>
  match buffer_bytes b s with
  | Some l => if off + n <=? zlen l then (Ret (slice off n l), s) else (Fault, s)
  | None => (Fault, s)
  end.
Definition store (b : buffer) (off : Z) (src : list Z) : K unit := fun s =>
  match buffer_bytes b s with
  | Some l => if off + zlen src <=? zlen l then (Ret tt, set_buffer b (splice off src l) s) else (Fault, s)
  | None => (Fault, s)
  end.

(** [memset(io_buffer, 0, fs.block_size)], and the integers of [io_buffer]. *)
Definition io_zero : K unit :=
  f ← mgets fs; store Io 0 (replicate (Z.to_nat (block_size f)) 0).
Definition io_get (n : nat) (off : Z) : K Z := l ← load Io off (Z.of_nat n); mret (un_le l).
Definition io_put (n : nat) (off v : Z) : K unit := store Io off (le n v).

(** Fields of [fs.group_descs[bg]] (32 bytes each) and of [fs.superblock]. *)
Definition gd_get (n : nat) (bg field : Z) : K Z :=
  l ← load (GroupDescs 0) (32 * bg + field) (Z.of_nat n); mret (un_le l).
Definition gd_put (n : nat) (bg field v : Z) : K unit :=
  store (GroupDescs 0) (32 * bg + field) (le n v).
Definition bg_block_bitmap : Z := 0.
Definition bg_inode_bitmap : Z := 4.
Definition bg_inode_table : Z := 8.
Definition bg_free_blocks_count : Z := 12.
Definition bg_free_inodes_count : Z := 14.
Definition bg_used_dirs_count : Z := 16.

Definition sb_get (field : Z) : K Z := fun s =>
  match superblock (fs s) with
  | Some p => (Ret (get32 (page_bytes p) field), s)
  | None => (Fault, s)
  end.
Definition sb_put (field v : Z) : K unit :=
  mmodify (on_fs (fun r =>
    set_superblock ((fun p => page_with (put32 field v (page_bytes p)) p) <$> superblock r) r)).
Definition s_inodes_count : Z := 0.
Definition s_blocks_count : Z := 4.
Definition s_free_blocks_count : Z := 12.
Definition s_free_inodes_count : Z := 16.
Definition s_first_data_block : Z := 20.
Definition s_log_block_size : Z := 24.
Definition s_blocks_per_group : Z := 32.
Definition s_inodes_per_group : Z := 40.
Definition s_magic : Z := 56.
Definition s_inode_size : Z := 88.

(** ** Blocks *)

(** The loops over the sectors of a block, from sector [i] on. *)
Fixpoint read_sectors (drive start : Z) (buf : buffer) (n : nat) (i : Z) : K bool :=
  match n with
  | O => mret true
  | S n =>
      r ← call_disk (ata_read_sector drive (u32 (start + i)));
      match r with
      | Some bytes => store buf (u32 (i * 512)) bytes;; read_sectors drive start buf n (i + 1)
      | None => mret false
      end
  end.
Fixpoint write_sectors (drive start : Z) (buf : buffer) (n : nat) (i : Z) : K bool :=
  match n with
  | O => mret true
  | S n =>
      bytes ← load buf (u32 (i * 512)) 512;
      ok ← call_disk (ata_write_sector drive (u32 (start + i)) bytes);
      if (ok : bool) then write_sectors drive start buf n (i + 1) else mret false
  end.

Definition nonnull (buf : buffer) (s : state) : bool :=
  match buf with
  | Io => bool_decide (is_Some (io_buffer s))
  | GroupDescs _ => true
  | CacheData i => bool_decide (is_Some (cache (fs s) !! i ≫= data))
  end.

(** [pmm_alloc_page()] for the driver: [NULL] is [None]. *)
Definition alloc_data (n : Z) (f : A -> Z * A) : K (option page) :=
  p ← call_pmm f;
  mret (if p =? NULL then None else Some (Page p (replicate (Z.to_nat n) 0))).

(** "Update cache" of [ext2_read_block]. *)
Definition cache_insert (b : Z) (buf : buffer) : K unit :=
  f ← mgets fs;
  let i := cache_slot (cache f) in
  (if bool_decide (is_Some (cache f !! i ≫= data)) then mret tt
   else p ← alloc_data 4096 pmm_alloc_page; mmodify (on_cache (alter (set_data p) i)));;
  s ← mget;
  if bool_decide (is_Some (cache (fs s) !! i ≫= data)) then
    mmodify (on_cache (alter (fun e => CacheEntry b (data e) false true) i));;
    l ← load buf 0 (block_size f);
    store (CacheData i) 0 l
  else mret tt.

Definition ext2_read_block (drive b : Z) (buf : buffer) : K bool :=
  s ← mget;
  if negb (nonnull buf s) then mret false
  else
    let bs := block_size (fs s) in
    match (if mounted s then cache_find b (cache (fs s)) else None) with
    | Some i => l ← load (CacheData i) 0 bs; store buf 0 l;; mret true
    | None =>
        let sectors_per_block := bs / 512 in
        let start_sector := u32 (b * sectors_per_block) in
        ok ← read_sectors drive start_sector buf (Z.to_nat sectors_per_block) 0;
        if (ok : bool) then
          (if mounted s then cache_insert b buf else mret tt);;
          mret true
        else mret false
    end.

(** "Update cache if present" of [ext2_write_block]: one cache entry. *)
Definition cache_update (b : Z) (buf : buffer) (i : Z) : K unit :=
  f ← mgets fs;
  match cache f !! Z.to_nat i with
  | Some e =>
      if bool_decide (cached b e) then
        l ← load buf 0 (block_size f);
        store (CacheData (Z.to_nat i)) 0 l;;
        mmodify (on_cache (alter (set_dirty true) (Z.to_nat i)))
      else mret tt
  | None => mret tt
  end.

Definition ext2_write_block (drive b : Z) (buf : buffer) : K bool :=
  s ← mget;
  if negb (nonnull buf s) then mret false
  else
    (if mounted s then mfor EXT2_CACHE_SIZE 0 (cache_update b buf) else mret tt);;
    let sectors_per_block := block_size (fs s) / 512 in
    let start_sector := u32 (b * sectors_per_block) in
    write_sectors drive start_sector buf (Z.to_nat sectors_per_block) 0.

(** ** Inodes on the disk *)

(** The block and the offset in it that hold an inode, computed by the same
    lines in [ext2_read_inode] and [ext2_write_inode]. *)
Definition inode_location (inode_no : Z) : K (option (Z * Z)) :=
  f ← mgets fs;
  block_group ← mdiv (u32 (inode_no - 1)) (inodes_per_group f);
  index ← mmod (u32 (inode_no - 1)) (inodes_per_group f);
  if groups_count f <=? block_group then mret None
  else
    inode_table ← gd_get 4 block_group bg_inode_table;
    inodes_per_block ← mdiv (block_size f) (inode_size f);
    block_offset ← mdiv index inodes_per_block;
    inode_offset ← mmod index inodes_per_block;
    mret (Some (u32 (inode_table + block_offset), u32 (inode_offset * inode_size f))).

Definition ext2_read_inode (drive inode_no : Z) : K (option ext2_inode_t) :=
  if inode_no =? 0 then mret None
  else
    loc ← inode_location inode_no;
    match loc with
    | None => mret None
    | Some (b, off) =>
        ok ← ext2_read_block drive b Io;
        if (ok : bool) then l ← load Io off 128; mret (Some (inode_of_bytes l))
        else mret None
    end.

Definition ext2_write_inode (drive inode_no : Z) (ino : ext2_inode_t) : K bool :=
  if inode_no =? 0 then mret false
  else
    loc ← inode_location inode_no;
    match loc with
    | None => mret false
    | Some (b, off) =>
        ok ← ext2_read_block drive b Io;
        if (ok : bool) then
          store Io off (inode_bytes ino);;
          ext2_write_block drive b Io
        else mret false
    end.

(** ** Allocation *)

(** The loop over the block groups of [ext2_allocate_block] and
    [ext2_allocate_inode]; [finish] is what follows once the bit is marked. *)
Fixpoint allocate_in_groups (drive free_count bitmap_field : Z) (finish : Z -> Z -> K Z)
    (n : nat) (bg : Z) : K Z :=
  match n with
  | O => mret 0
  | S n =>
      let continue := allocate_in_groups drive free_count bitmap_field finish n (bg + 1) in
      count ← gd_get 2 bg free_count;
      if count =? 0 then continue
      else
        bitmap_block ← gd_get 4 bg bitmap_field;
        ok ← ext2_read_block drive bitmap_block Io;
        if negb ok then continue
        else
          f ← mgets fs;
          bitmap ← load Io 0 (block_size f);
          let bit := find_free_bit bitmap in
          if bit =? -1 then continue
          else
            byte ← io_get 1 (bit / 8);
            io_put 1 (bit / 8) (Z.lor byte (Z.shiftl 1 (bit mod 8)));;
            ok ← ext2_write_block drive bitmap_block Io;
            if negb ok then mret 0 else finish bg bit
  end.

Definition finish_block (drive bg bit : Z) : K Z :=
  f ← mgets fs;
  first ← sb_get s_first_data_block;
  let b := u32 (bg * blocks_per_group f + bit + first) in
  free ← sb_get s_free_blocks_count;
  sb_put s_free_blocks_count (u32 (free - 1));;
  count ← gd_get 2 bg bg_free_blocks_count;
  gd_put 2 bg bg_free_blocks_count (u16 (count - 1));;
  io_zero;;
  _ ← ext2_write_block drive b Io;
  mret b.

Definition ext2_allocate_block (drive : Z) : K Z :=
  m ← mgets mounted;
  if negb m then mret 0
  else
    free ← sb_get s_free_blocks_count;
    if free =? 0 then mret 0
    else
      f ← mgets fs;
      allocate_in_groups drive bg_free_blocks_count bg_block_bitmap (finish_block drive)
        (Z.to_nat (groups_count f)) 0.

Definition finish_inode (drive bg bit : Z) : K Z :=
  f ← mgets fs;
  let inode_no := u32 (bg * inodes_per_group f + bit + 1) in
  free ← sb_get s_free_inodes_count;
  sb_put s_free_inodes_count (u32 (free - 1));;
  count ← gd_get 2 bg bg_free_inodes_count;
  gd_put 2 bg bg_free_inodes_count (u16 (count - 1));;
  _ ← ext2_write_inode drive inode_no zero_inode;
  mret inode_no.

Definition ext2_allocate_inode (drive : Z) : K Z :=
  m ← mgets mounted;
  if negb m then mret 0
  else
    free ← sb_get s_free_inodes_count;
    if free =? 0 then mret 0
    else
      f ← mgets fs;
      allocate_in_groups drive bg_free_inodes_count bg_inode_bitmap (finish_inode drive)
        (Z.to_nat (groups_count f)) 0.

(** ** The blocks of a file *)

(** [block_ptrs[k]], once block [b] is read: zero when [b] is zero or cannot
    be read. *)
Definition read_ptr (b k : Z) : K Z :=
  if b =? 0 then mret 0
  else
    f ← mgets fs;
    ok ← ext2_read_block (drive_index f) b Io;
    if (ok : bool) then io_get 4 (4 * k) else mret 0.

(** [get_block_from_inode]; it returns [false] exactly when the block number
    it stores is zero, so the number stands for both. *)
Definition get_block_from_inode (ino : ext2_inode_t) (block_idx : Z) : K Z :=
  f ← mgets fs;
  max_blocks ← mdiv (u32 (i_size ino + block_size f - 1)) (block_size f);
  if max_blocks <=? block_idx then mret 0
  else if block_idx <? EXT2_NDIR_BLOCKS then mret (i_block_at block_idx ino)
  else
    let idx := block_idx - EXT2_NDIR_BLOCKS in
    let ppb := block_size f / 4 in
    if idx <? ppb then read_ptr (i_block_at EXT2_IND_BLOCK ino) idx
    else
      let idx := idx - ppb in
      if idx <? u32 (ppb * ppb) then
        ind ← read_ptr (i_block_at EXT2_DIND_BLOCK ino) (idx / ppb);
        read_ptr ind (idx mod ppb)
      else
        let idx := u32 (idx - u32 (ppb * ppb)) in
        if idx <? u32 (ppb * ppb * ppb) then
          let remain := idx mod u32 (ppb * ppb) in
          dbl ← read_ptr (i_block_at EXT2_TIND_BLOCK ino) (idx / u32 (ppb * ppb));
          ind ← read_ptr dbl (remain / ppb);
          read_ptr ind (remain mod ppb)
        else mret 0.

Definition set_block_in_inode (ino : ext2_inode_t) (block_idx b : Z) : K (bool * ext2_inode_t) :=
  if block_idx <? EXT2_NDIR_BLOCKS then mret (true, set_i_block_at block_idx b ino)
  else
    f ← mgets fs;
    let drive := drive_index f in
    let idx := block_idx - EXT2_NDIR_BLOCKS in
    if idx <? block_size f / 4 then
      r ← (if i_block_at EXT2_IND_BLOCK ino =? 0 then
             ind ← ext2_allocate_block drive;
             let ino := set_i_block_at EXT2_IND_BLOCK ind ino in
             if ind =? 0 then mret (false, ino)
             else
               io_zero;;
               _ ← ext2_write_block drive ind Io;
               mret (true, ino)
           else mret (true, ino));
      let '(ok, ino) := (r : bool * ext2_inode_t) in
      if negb ok then mret (false, ino)
      else
        ok ← ext2_read_block drive (i_block_at EXT2_IND_BLOCK ino) Io;
        if negb ok then mret (false, ino)
        else
          io_put 4 (4 * idx) b;;
          ok ← ext2_write_block drive (i_block_at EXT2_IND_BLOCK ino) Io;
          mret (ok, ino)
    else mret (false, ino).
End ops.

End Ext2.
