(* ===== verification/Ext2Dir.v ===== *)
(** The ext2 file system driver, fs/ext2.c: directory entries, paths, and the
    operations that look up, add and remove names.  A C string is the list of
    its bytes before the terminating NUL. *)
From S2P Require Import Prelude PageAllocator Bytes BlockDevice CString CStringSpec Ext2.
Import Ext2.

Module Ext2Dir.

(** ** The entries of a directory block

    The functions below work on the contents [l] of [io_buffer], of which the
    first [bs] bytes are the block.  [None] is an access beyond the end of the
    buffer.  [block_offset] grows by [rec_len], which is not zero, at every
    round, so [bs] rounds are enough. *)

Definition field (n : nat) (off : Z) (l : list Z) : option Z :=
  if off + Z.of_nat n <=? zlen l then Some (un_le (slice off (Z.of_nat n) l)) else None.

(** The fields of [ext2_dir_entry_t]. *)
Definition d_inode (off : Z) : list Z -> option Z := field 4 off.
Definition d_rec_len (off : Z) : list Z -> option Z := field 2 (off + 4).
Definition d_name_len (off : Z) : list Z -> option Z := field 1 (off + 6).
Definition d_name (off k : Z) : list Z -> option Z := field 1 (off + 8 + k).

(** [strncmp(p, name, strlen(name)) == 0] for the bytes from [off] on. *)
Fixpoint name_eq (name : list Z) (off : Z) (l : list Z) : option bool :=
  match name with
  | [] => Some true
  | c :: name => x ← field 1 off l; if x =? c then name_eq name (off + 1) l else Some false
  end.

(** [entry->name_len == strlen(name) && strncmp(...) == 0]. *)
Definition entry_named (name : list Z) (off : Z) (l : list Z) : option bool :=
  n ← d_name_len off l;
  if n =? zlen name then name_eq name (off + 8) l else Some false.

(** The inner loop of [find_file_in_dir]; [0] if no entry has the name. *)
Fixpoint find_entry (fuel : nat) (bs : Z) (name : list Z) (off : Z) (l : list Z) : option Z :=
  match fuel with
  | O => Some 0
  | S fuel =>
      if bs <=? off then Some 0
      else
        rec_len ← d_rec_len off l;
        if rec_len =? 0 then Some 0
        else
          ino ← d_inode off l;
          found ← (if ino =? 0 then Some false else entry_named name off l);
          if (found : bool) then Some ino else find_entry fuel bs name (off + rec_len) l
  end.

(** Filling in an entry. *)
Definition write_entry (off ino rec_len type : Z) (name : list Z) (l : list Z) : option (list Z) :=
  if off + 8 + zlen name <=? zlen l
  then Some (splice off (pack [4; 2; 1; 1]%nat [ino; rec_len; zlen name; type] ++ name) l)
  else None.

(** The size of an entry for a name of length [n]: [(8 + n + 7) & ~7]. *)
Definition entry_size (n : Z) : Z := u16 (Z.land (u16 (8 + n) + 7) (Z.lnot 7)).

(** The inner loop of [add_dir_entry]: the block with the new entry. *)
Fixpoint add_entry (fuel : nat) (bs ino type : Z) (name : list Z) (off : Z) (l : list Z)
    : option (option (list Z)) :=
  match fuel with
  | O => Some None
  | S fuel =>
      if bs <=? off then Some None
      else
        let size := entry_size (zlen name) in
        rec_len ← d_rec_len off l;
        unused ← (if rec_len =? 0 then Some true
                  else i ← d_inode off l; Some ((i =? 0) && (size <=? rec_len)));
        if (unused : bool) then Some <$> write_entry off ino size type name l
        else
          n ← d_name_len off l;
          let actual_len := entry_size n in
          if size <=? rec_len - actual_len then
            Some <$> write_entry (off + actual_len) ino (rec_len - actual_len) type name
                       (put16 (off + 4) actual_len l)
          else add_entry fuel bs ino type name (off + rec_len) l
  end.

(** The inner loop of [ext2_unlink] and [ext2_rmdir] that removes an entry. *)
Fixpoint remove_entry (fuel : nat) (bs ino : Z) (name : list Z) (prev : option Z) (off : Z)
    (l : list Z) : option (option (list Z)) :=
  match fuel with
  | O => Some None
  | S fuel =>
      if bs <=? off then Some None
      else
        rec_len ← d_rec_len off l;
        if rec_len =? 0 then Some None
        else
          i ← d_inode off l;
          found ← (if i =? ino then entry_named name off l else Some false);
          if (found : bool) then
            match prev with
            | Some p => n ← d_rec_len p l; Some (Some (put16 (p + 4) (u16 (n + rec_len)) l))
            | None => Some (Some (put32 off 0 l))
            end
          else remove_entry fuel bs ino name (Some off) (off + rec_len) l
  end.

(** The inner loop of [ext2_rmdir] that looks for an entry other than "." and
    "..". *)
Fixpoint block_is_empty (fuel : nat) (bs : Z) (off : Z) (l : list Z) : option bool :=
  match fuel with
  | O => Some true
  | S fuel =>
      if bs <=? off then Some true
      else
        rec_len ← d_rec_len off l;
        if rec_len =? 0 then Some true
        else
          i ← d_inode off l;
          n ← d_name_len off l;
          dots ← (if i =? 0 then Some true
                  else if n =? 1 then c ← d_name off 0 l; Some (c =? 46)
                  else if n =? 2 then
                    c ← d_name off 0 l;
                    if c =? 46 then c ← d_name off 1 l; Some (c =? 46) else Some false
                  else Some false);
          if (dots : bool) then block_is_empty fuel bs (off + rec_len) l else Some false
  end.

(** ** Paths *)

Definition SLASH : Z := 47.
Definition ROOT : list Z := [SLASH].
Definition DOT : list Z := [46].
Definition DOTDOT : list Z := [46; 46].

(** [strrchr(l, c)], as an index. *)
Fixpoint last_index (c : Z) (l : list Z) : option nat :=
  match l with
  | [] => None
  | x :: l =>
      match last_index c l with
      | Some i => Some (S i)
      | None => if x =? c then Some 0%nat else None
      end
  end.

(** The absolute path in [temp]: [snprintf] and [strncpy] keep the first 255
    bytes. *)
Definition absolute_path (mounted : bool) (current_dir path : list Z) : list Z :=
  take (Z.to_nat (EXT2_MAX_PATH - 1))
    (match path with
     | c :: _ => if c =? SLASH then path
                 else if mounted then current_dir ++ [SLASH] ++ path else [SLASH] ++ path
     | [] => if mounted then current_dir ++ [SLASH] else [SLASH]
     end).

(** One round of the loop over the components that [strtok_r] returns. *)
Definition normalize_step (normalized token : list Z) : list Z :=
  if decide (token = DOT) then normalized
  else if decide (token = DOTDOT) then
    match last_index SLASH normalized with
    | Some (S i) => take (S i) normalized
    | _ => normalized
    end
  else normalized ++ [SLASH] ++ token.

Definition ext2_normalize_path (mounted : bool) (current_dir path : list Z) : list Z :=
  match foldl normalize_step [] (split_on [SLASH] (absolute_path mounted current_dir path)) with
  | [] => ROOT
  | normalized => normalized
  end.

(** The directory and the name that [create_file], [ext2_unlink] and
    [ext2_rmdir] extract at the last slash. *)
Definition split_path (norm_path : list Z) : option (list Z * list Z) :=
  match last_index SLASH norm_path with
  | None => None
  | Some i =>
      Some (if decide (i = 0%nat) then ROOT else take i norm_path,
            take (Z.to_nat EXT2_NAME_LEN) (drop (S i) norm_path))
  end.

Section ops.
Context {A D : Type} `{!PageAllocator A, !BlockDevice D}.
Abbreviation state := (ext2_state A D).
Abbreviation K := (M (ext2_state A D)).

(** A scan of [io_buffer], and one that changes it. *)
Definition scan_io {R} (f : list Z -> option R) : K R := fun s =>
  match io_buffer s ≫= f with
  | Some r => (Ret r, s)
  | None => (Fault, s)
  end.
Definition edit_io (f : list Z -> option (option (list Z))) : K bool := fun s =>
  match io_buffer s ≫= f with
  | Some (Some l) => (Ret true, set_io l s)
  | Some None => (Ret false, s)
  | None => (Fault, s)
  end.

(** The loop over the blocks of a directory of [find_file_in_dir],
    [add_dir_entry], [ext2_unlink] and [ext2_rmdir].  [body] handles the block
    in [io_buffer] and says what to leave the loop with; without that the
    loop ends with the index of the block it stopped at. *)
Fixpoint scan_dir {R} (drive : Z) (dir : ext2_inode_t) (body : Z -> K (option R)) (fuel : nat)
    (offset block_idx : Z) : K (R + Z) :=
  match fuel with
  | O => mspin
  | S fuel =>
      if i_size dir <=? offset then mret (inr block_idx)
      else
        b ← get_block_from_inode dir block_idx;
        if b =? 0 then mret (inr block_idx)
        else
          ok ← ext2_read_block drive b Io;
          if negb ok then mret (inr block_idx)
          else
            r ← body b;
            f ← mgets fs;
            match r with
            | Some r => mret (inl r)
            | None => scan_dir drive dir body fuel (u32 (offset + block_size f)) (block_idx + 1)
            end
  end.

(** Rounds that are enough for a directory: one for each block, and the one
    that ends the loop. *)
Definition dir_fuel (dir : ext2_inode_t) (bs : Z) : nat := (2 + Z.to_nat (i_size dir / bs))%nat.
Definition block_fuel (bs : Z) : nat := S (Z.to_nat bs).

Definition find_file_in_dir (drive dir_ino : Z) (name : list Z) : K Z :=
  if dir_ino =? 0 then mret 0
  else
    d ← ext2_read_inode drive dir_ino;
    match d with
    | None => mret 0
    | Some dir =>
        if negb (EXT2_S_ISDIR (i_mode dir)) then mret 0
        else
          bs ← mgets (block_size ∘ fs);
          r ← scan_dir drive dir
                (fun _ => ino ← scan_io (find_entry (block_fuel bs) bs name 0);
                          mret (if ino =? 0 then None else Some ino))
                (dir_fuel dir bs) 0 0;
          match (r : Z + Z) with inl ino => mret ino | inr _ => mret 0 end
    end.

(** The loop over the bytes of the path of [ext2_lookup_path]; [component] is
    what lies between [start] and [p]. *)
Fixpoint lookup_loop (drive ino : Z) (component p : list Z) : K Z :=
  let find := find_file_in_dir drive ino (take (Z.to_nat EXT2_NAME_LEN) component) in
  match p with
  | [] => if decide (component = []) then mret ino else find
  | c :: p =>
      if c =? SLASH then
        if decide (component = []) then lookup_loop drive ino [] p
        else
          next ← find;
          if next =? 0 then mret 0 else lookup_loop drive next [] p
      else lookup_loop drive ino (component ++ [c]) p
  end.

Definition normalize (path : list Z) : K (list Z) :=
  mgets (fun s => ext2_normalize_path (mounted s) (current_dir (fs s)) path).

Definition ext2_lookup_path (drive : Z) (path : list Z) : K Z :=
  norm_path ← normalize path;
  if decide (norm_path = ROOT) then mret EXT2_ROOT_INO
  else
    lookup_loop drive EXT2_ROOT_INO []
      (match norm_path with
       | c :: p => if c =? SLASH then p else norm_path
       | [] => []
       end).

(** ** Adding and removing names *)

Definition add_dir_entry (drive dir_ino : Z) (name : list Z) (ino type : Z) : K bool :=
  if (dir_ino =? 0) || (ino =? 0) then mret false
  else if EXT2_NAME_LEN <? zlen name then mret false
  else
    d ← ext2_read_inode drive dir_ino;
    match d with
    | None => mret false
    | Some dir =>
        if negb (EXT2_S_ISDIR (i_mode dir)) then mret false
        else
          bs ← mgets (block_size ∘ fs);
          r ← scan_dir drive dir
                (fun b => added ← edit_io (add_entry (block_fuel bs) bs ino type name 0);
                          if (added : bool) then ok ← ext2_write_block drive b Io; mret (Some ok)
                          else mret None)
                (dir_fuel dir bs) 0 0;
          match (r : bool + Z) with
          | inl ok => mret ok
          | inr block_idx =>
              b ← ext2_allocate_block drive;
              if b =? 0 then mret false
              else
                io_zero;;
                _ ← edit_io (fun l => Some <$> write_entry 0 ino (u16 bs) type name l);
                ok ← ext2_write_block drive b Io;
                if negb ok then mret false
                else
                  r ← set_block_in_inode dir block_idx b;
                  let '(ok, dir) := (r : bool * ext2_inode_t) in
                  if negb ok then mret false
                  else
                    let dir := set_i_size (u32 (i_size dir + bs)) dir in
                    let dir := set_i_blocks (u32 (i_blocks dir + bs / 512)) dir in
                    let dir := set_i_mtime 0 dir in
                    ext2_write_inode drive dir_ino dir
          end
    end.

(** The loop that removes a name; [false] also for a block that cannot be
    written, where the callers return [false] too. *)
Definition remove_dir_entry (drive : Z) (dir : ext2_inode_t) (name : list Z) (ino : Z) : K bool :=
  bs ← mgets (block_size ∘ fs);
  r ← scan_dir drive dir
        (fun b => removed ← edit_io (remove_entry (block_fuel bs) bs ino name None 0);
                  if (removed : bool) then ok ← ext2_write_block drive b Io; mret (Some ok)
                  else mret None)
        (dir_fuel dir bs) 0 0;
  match (r : bool + Z) with inl ok => mret ok | inr _ => mret false end.

(** The type bits of the inode and of the entry; other types are refused. *)
Definition file_type_mode (type : Z) : option Z :=
  if type =? EXT2_FT_REG_FILE then Some EXT2_S_IFREG
  else if type =? EXT2_FT_DIR then Some EXT2_S_IFDIR
  else if type =? EXT2_FT_CHRDEV then Some EXT2_S_IFCHR
  else if type =? EXT2_FT_BLKDEV then Some EXT2_S_IFBLK
  else None.

Definition create_file (drive : Z) (path : list Z) (mode type : Z) : K bool :=
  norm_path ← normalize path;
  match split_path norm_path with
  | None => mret false
  | Some (dir_path, filename) =>
      dir_ino ← ext2_lookup_path drive dir_path;
      if dir_ino =? 0 then mret false
      else
        found ← find_file_in_dir drive dir_ino filename;
        if negb (found =? 0) then mret false
        else
          ino ← ext2_allocate_inode drive;
          if ino =? 0 then mret false
          else
            match file_type_mode type with
            | None => mret false
            | Some file_type =>
                let inode := set_i_mode (Z.lor file_type (Z.land mode 0x1FF)) zero_inode in
                let inode := set_i_links_count 1 inode in
                ok ← ext2_write_inode drive ino inode;
                if negb ok then mret false
                else add_dir_entry drive dir_ino filename ino type
            end
  end.

(** The type [ext2_create_device] chooses. *)
Definition device_type (mode : Z) : option Z :=
  if Z.land mode EXT2_S_IFCHR =? EXT2_S_IFCHR then Some EXT2_FT_CHRDEV
  else if Z.land mode EXT2_S_IFBLK =? EXT2_S_IFBLK then Some EXT2_FT_BLKDEV
  else None.

Definition ext2_create_device (drive : Z) (path : list Z) (mode dev : Z) : K bool :=
  m ← mgets mounted;
  if negb m then mret false
  else
    match device_type mode with
    | None => mret false
    | Some type =>
        ok ← create_file drive path mode type;
        if negb ok then mret false
        else
          ino ← ext2_lookup_path drive path;
          if ino =? 0 then mret false
          else
            i ← ext2_read_inode drive ino;
            match i with
            | None => mret false
            | Some inode => ext2_write_inode drive ino (set_i_block_at 0 dev inode)
            end
    end.

(** [fs.group_descs[bg].bg_used_dirs_count += d] for the group of an inode. *)
Definition count_dir (ino d : Z) : K unit :=
  ipg ← mgets (inodes_per_group ∘ fs);
  bg ← mdiv (u32 (ino - 1)) ipg;
  count ← gd_get 2 bg bg_used_dirs_count;
  gd_put 2 bg bg_used_dirs_count (u16 (count + d)).

Definition ext2_mkdir (path : list Z) (mode : Z) : K bool :=
  m ← mgets mounted;
  if negb m then mret false
  else
    drive ← mgets (drive_index ∘ fs);
    ok ← create_file drive path mode EXT2_FT_DIR;
    if negb ok then mret false
    else
      ino ← ext2_lookup_path drive path;
      if ino =? 0 then mret false
      else
        norm_path ← normalize path;
        match split_path norm_path with
        | None => mret false
        | Some (dir_path, _) =>
            parent_ino ← ext2_lookup_path drive dir_path;
            if parent_ino =? 0 then mret false
            else
              i ← ext2_read_inode drive ino;
              match i with
              | None => mret false
              | Some inode =>
                  b ← ext2_allocate_block drive;
                  if b =? 0 then mret false
                  else
                    bs ← mgets (block_size ∘ fs);
                    io_zero;;
                    _ ← edit_io (fun l => Some <$> write_entry 0 ino 12 EXT2_FT_DIR DOT l);
                    _ ← edit_io (fun l =>
                          Some <$> write_entry 12 parent_ino (u16 (bs - 12)) EXT2_FT_DIR DOTDOT l);
                    ok ← ext2_write_block drive b Io;
                    if negb ok then mret false
                    else
                      let inode := set_i_block_at 0 b inode in
                      let inode := set_i_size bs inode in
                      let inode := set_i_blocks (bs / 512) inode in
                      let inode := set_i_links_count 2 inode in
                      ok ← ext2_write_inode drive ino inode;
                      if negb ok then mret false
                      else
                        p ← ext2_read_inode drive parent_ino;
                        match p with
                        | None => mret false
                        | Some parent =>
                            count_dir ino 1;;
                            ext2_write_inode drive parent_ino
                              (set_i_links_count (u16 (i_links_count parent + 1)) parent)
                        end
              end
        end.

Definition ext2_unlink (path : list Z) : K bool :=
  m ← mgets mounted;
  if negb m then mret false
  else
    drive ← mgets (drive_index ∘ fs);
    norm_path ← normalize path;
    match split_path norm_path with
    | None => mret false
    | Some (dir_path, filename) =>
        dir_ino ← ext2_lookup_path drive dir_path;
        if dir_ino =? 0 then mret false
        else
          file_ino ← find_file_in_dir drive dir_ino filename;
          if file_ino =? 0 then mret false
          else
            i ← ext2_read_inode drive file_ino;
            match i with
            | None => mret false
            | Some inode =>
                if EXT2_S_ISDIR (i_mode inode) then mret false
                else
                  d ← ext2_read_inode drive dir_ino;
                  match d with
                  | None => mret false
                  | Some dir =>
                      removed ← remove_dir_entry drive dir filename file_ino;
                      if negb removed then mret false
                      else
                        let inode := set_i_links_count (u16 (i_links_count inode - 1)) inode in
                        let inode := if i_links_count inode =? 0 then set_i_dtime 0 inode else inode in
                        ext2_write_inode drive file_ino inode
                  end
            end
    end.

Definition ext2_rmdir (path : list Z) : K bool :=
  m ← mgets mounted;
  if negb m then mret false
  else
    drive ← mgets (drive_index ∘ fs);
    norm_path ← normalize path;
    match split_path norm_path with
    | None => mret false
    | Some (parent_path, dirname) =>
        if decide (norm_path = ROOT) then mret false
        else
          parent_ino ← ext2_lookup_path drive parent_path;
          if parent_ino =? 0 then mret false
          else
            dir_ino ← find_file_in_dir drive parent_ino dirname;
            if dir_ino =? 0 then mret false
            else
              d ← ext2_read_inode drive dir_ino;
              match d with
              | None => mret false
              | Some dir =>
                  if negb (EXT2_S_ISDIR (i_mode dir)) then mret false
                  else
                    bs ← mgets (block_size ∘ fs);
                    r ← scan_dir drive dir
                          (fun _ => empty ← scan_io (block_is_empty (block_fuel bs) bs 0);
                                    mret (if (empty : bool) then None else Some tt))
                          (dir_fuel dir bs) 0 0;
                    match (r : unit + Z) with
                    | inl _ => mret false
                    | inr _ =>
                        p ← ext2_read_inode drive parent_ino;
                        match p with
                        | None => mret false
                        | Some parent =>
                            removed ← remove_dir_entry drive parent dirname dir_ino;
                            if negb removed then mret false
                            else
                              count_dir dir_ino (-1);;
                              ok ← ext2_write_inode drive parent_ino
                                     (set_i_links_count (u16 (i_links_count parent - 1)) parent);
                              if negb ok then mret false
                              else
                                ext2_write_inode drive dir_ino
                                  (set_i_dtime 0 (set_i_links_count 0 dir))
                        end
                    end
              end
    end.
End ops.

End Ext2Dir.
