(* ===== verification/Ext2File.v ===== *)
(** The ext2 file system driver, fs/ext2.c: open files, and initialising,
    mounting and unmounting the file system. *)
From S2P Require Import Prelude PageAllocator Bytes BlockDevice Ext2 Ext2Dir.
Import Ext2 Ext2Dir.

Module Ext2File.

Definition no_file : ext2_file_t := File 0 zero_inode 0 0 false.
Definition no_entry : cache_entry := CacheEntry 0 None false false.
Definition zero_fs : ext2_fs_t :=
  Fs 0 0 0 0 0 0 0 0 None None (replicate EXT2_MAX_FILES no_file) []
    (replicate EXT2_CACHE_SIZE no_entry).

Definition set_inode (v : ext2_inode_t) (f : ext2_file_t) : ext2_file_t :=
  File (inode_num f) v (flags f) (position f) (is_open f).
Definition set_position (v : Z) (f : ext2_file_t) : ext2_file_t :=
  File (inode_num f) (inode f) (flags f) v (is_open f).
Definition set_is_open (v : bool) (f : ext2_file_t) : ext2_file_t :=
  File (inode_num f) (inode f) (flags f) (position f) v.

(** [flags & mask], as a condition. *)
Definition has (flags mask : Z) : bool := negb (Z.land flags mask =? 0).

(** The tests of the flags in [ext2_open], [ext2_read] and [ext2_write]. *)
Definition wants_write (flags : Z) : bool := has flags (Z.lor EXT2_O_WRONLY EXT2_O_RDWR).
Definition refuses_read (flags : Z) : bool :=
  has flags EXT2_O_WRONLY && negb (has flags EXT2_O_RDWR).

Section ops.
Context {A D : Type} `{!PageAllocator A, !BlockDevice D}.
Abbreviation state := (ext2_state A D).
Abbreviation K := (M (ext2_state A D)).

Definition on_files (f : list ext2_file_t -> list ext2_file_t) : K unit :=
  mmodify (on_fs (fun r => set_open_files (f (open_files r)) r)).
Definition set_file (fd : nat) (f : ext2_file_t) : K unit := on_files (fun l => <[fd := f]> l).

(** The open file of a descriptor; [None] where the calls return an error. *)
Definition open_file (fd : Z) : K (option ext2_file_t) :=
  s ← mget;
  mret (if negb (mounted s) || (fd <? 0) || (Z.of_nat EXT2_MAX_FILES <=? fd) then None
        else match open_files (fs s) !! Z.to_nat fd with
             | Some f => if is_open f then Some f else None
             | None => None
             end).

(** ** Open and close *)

Definition ext2_open (path : list Z) (flags : Z) : K Z :=
  s ← mget;
  if negb (mounted s) then mret (-1)
  else
    match list_find (fun f => is_open f = false) (open_files (fs s)) with
    | None => mret (-1)
    | Some (fd, _) =>
        let drive := drive_index (fs s) in
        inode_no ← ext2_lookup_path drive path;
        inode_no ← (if inode_no =? 0 then
                      if has flags EXT2_O_CREAT then
                        ok ← create_file drive path 0x1A4 (* 0644 *) EXT2_FT_REG_FILE;
                        if (ok : bool) then ext2_lookup_path drive path else mret 0
                      else mret 0
                    else mret inode_no);
        if inode_no =? 0 then mret (-1)
        else
          i ← ext2_read_inode drive inode_no;
          match i with
          | None => mret (-1)
          | Some inode =>
              if EXT2_S_ISDIR (i_mode inode) && wants_write flags then mret (-1)
              else
                set_file fd (File inode_no inode flags 0 true);;
                mret (Z.of_nat fd)
          end
    end.

Definition ext2_close (fd : Z) : K bool :=
  o ← open_file fd;
  match o with
  | None => mret false
  | Some f => set_file (Z.to_nat fd) (set_is_open false f);; mret true
  end.

(** ** Read *)

(** The loop of [ext2_read]; [done] is what is already in the buffer. *)
Fixpoint read_loop (fuel : nat) (ino : ext2_inode_t) (start_block block_offset remaining : Z)
    (done : list Z) : K (list Z) :=
  match fuel with
  | O => mspin
  | S fuel =>
      if remaining <=? 0 then mret done
      else
        b ← get_block_from_inode ino start_block;
        if b =? 0 then mret done
        else
          f ← mgets fs;
          ok ← ext2_read_block (drive_index f) b Io;
          if negb ok then mret done
          else
            let to_copy := Z.min (block_size f - block_offset) remaining in
            bytes ← load Io block_offset to_copy;
            read_loop fuel ino (u32 (start_block + 1)) 0 (remaining - to_copy) (done ++ bytes)
  end.

(** Rounds that are enough: one for each block of the file, and the one that
    ends the loop. *)
Definition read_fuel (ino : ext2_inode_t) (bs : Z) : nat := (2 + Z.to_nat (i_size ino / bs))%nat.

(** The value returned and the bytes stored in the buffer. *)
Definition ext2_read (fd : Z) (buffer_null : bool) (size : Z) : K (Z * list Z) :=
  o ← open_file fd;
  match o with
  | None => mret (-1, [])
  | Some file =>
      if buffer_null || refuses_read (flags file) then mret (-1, [])
      else if i_size (inode file) <=? position file then mret (0, [])
      else
        let size := if i_size (inode file) <? u64 (position file + size)
                    then i_size (inode file) - position file else size in
        f ← mgets fs;
        start_block ← mdiv (position file) (block_size f);
        block_offset ← mmod (position file) (block_size f);
        bytes ← read_loop (read_fuel (inode file) (block_size f)) (inode file)
                  (u32 start_block) block_offset size [];
        let file := set_position (u64 (position file + zlen bytes)) file in
        let file := set_inode (set_i_atime 0 (inode file)) file in
        set_file (Z.to_nat fd) file;;
        _ ← ext2_write_inode (drive_index f) (inode_num file) (inode file);
        mret (zlen bytes, bytes)
  end.

(** ** Write *)

(** The loop of [ext2_write] over the bytes [buf] that remain; it returns the
    number of bytes written and the inode. *)
Fixpoint write_loop (fuel : nat) (ino : ext2_inode_t) (start_block block_offset : Z)
    (buf : list Z) (written : Z) : K (Z * ext2_inode_t) :=
  match fuel with
  | O => mspin
  | S fuel =>
      if decide (buf = []) then mret (written, ino)
      else
        f ← mgets fs;
        let drive := drive_index f in
        b ← get_block_from_inode ino start_block;
        r ← (if b =? 0 then
               b ← ext2_allocate_block drive;
               if b =? 0 then mret (None, ino)
               else
                 io_zero;;
                 _ ← ext2_write_block drive b Io;
                 r ← set_block_in_inode ino start_block b;
                 let '(ok, ino) := (r : bool * ext2_inode_t) in
                 if negb ok then mret (None, ino)
                 else mret (Some b, set_i_blocks (u32 (i_blocks ino + block_size f / 512)) ino)
             else mret (Some b, ino));
        let '(b, ino) := (r : option Z * ext2_inode_t) in
        match b with
        | None => mret (written, ino)
        | Some b =>
            ok ← (if (0 <? block_offset) || (zlen buf <? block_size f)
                  then ext2_read_block drive b Io else mret true);
            if negb ok then mret (written, ino)
            else
              let to_copy := Z.min (block_size f - block_offset) (zlen buf) in
              store Io block_offset (take (Z.to_nat to_copy) buf);;
              ok ← ext2_write_block drive b Io;
              if negb ok then mret (written, ino)
              else
                write_loop fuel ino (u32 (start_block + 1)) 0 (drop (Z.to_nat to_copy) buf)
                  (written + to_copy)
        end
  end.

(** Rounds that are enough: every round but the first writes a whole block or
    the last bytes. *)
Definition write_fuel (size bs : Z) : nat := (3 + Z.to_nat (size / bs))%nat.

(** The buffer is given by its bytes; [None] is the null pointer. *)
Definition ext2_write (fd : Z) (buffer : option (list Z)) : K Z :=
  o ← open_file fd;
  match o, buffer with
  | None, _ | _, None => mret (-1)
  | Some file, Some buf =>
      if negb (wants_write (flags file)) then mret (-1)
      else
        f ← mgets fs;
        start_block ← mdiv (position file) (block_size f);
        block_offset ← mmod (position file) (block_size f);
        r ← write_loop (write_fuel (zlen buf) (block_size f)) (inode file) (u32 start_block)
              block_offset buf 0;
        let '(written, ino) := (r : Z * ext2_inode_t) in
        let position' := u64 (position file + written) in
        let ino := if i_size ino <? position' then set_i_size (u32 position') ino else ino in
        let ino := set_i_mtime 0 ino in
        set_file (Z.to_nat fd) (set_position position' (set_inode ino file));;
        _ ← ext2_write_inode (drive_index f) (inode_num file) ino;
        mret written
  end.

(** ** Initialising, mounting and unmounting *)

Definition ext2_init : K bool :=
  mmodify (on_fs (fun _ => zero_fs));;
  p ← alloc_data 8192 (pmm_alloc_pages 2);
  mmodify (fun s => Ext2State (fs s) (initialized s) (mounted s) (page_bytes <$> p) (pmm s) (disk s));;
  match p with
  | None => mret false
  | Some _ =>
      mmodify (on_fs (set_current_dir ROOT));;
      mmodify (fun s => set_flags true (mounted s) s);;
      mret true
  end.

(** The group descriptors, block by block. *)
Fixpoint read_group_descs (drive bg_desc_block bs : Z) (n : nat) (i : Z) : K bool :=
  match n with
  | O => mret true
  | S n =>
      ok ← ext2_read_block drive (u32 (bg_desc_block + i)) (GroupDescs (u32 (i * bs)));
      if (ok : bool) then read_group_descs drive bg_desc_block bs n (i + 1) else mret false
  end.

(** [if (!fs.cache[i].data) fs.cache[i].data = pmm_alloc_page();] *)
Definition alloc_cache_entry (i : Z) : K unit :=
  f ← mgets fs;
  if bool_decide (is_Some (cache f !! Z.to_nat i ≫= data)) then mret tt
  else p ← alloc_data 4096 pmm_alloc_page; mmodify (on_cache (alter (set_data p) (Z.to_nat i))).

Definition free_page (p : option page) : K unit :=
  match p with
  | Some p => call_pmm (fun a => (tt, pmm_free_page (page_ptr p) a))
  | None => mret tt
  end.

(** [1024 << n] for a 32-bit [n]: C leaves a shift by more than 20 undefined;
    the processor takes the count modulo 32 and keeps 32 bits. *)
Definition shifted_block_size (n : Z) : Z := u32 (Z.shiftl 1024 (n mod 32)).

(** [ext2_mount] from the allocation of the superblock's page on: the
    superblock, the group descriptors and the pages of the cache. *)
Definition load_tables (drive bs groups_count first_data_block : Z) : K bool :=
  sb ← alloc_data 4096 pmm_alloc_page;
  mmodify (on_fs (set_superblock sb));;
  match sb with
  | None => mret false
  | Some _ =>
      l ← load Io 0 1024;
      mmodify (on_fs (fun f =>
        set_superblock ((fun p => page_with (splice 0 l (page_bytes p)) p) <$> superblock f) f));;
      let bg_desc_block := u32 (first_data_block + 1) in
      let bg_desc_size := u32 (32 * groups_count) in
      bg_desc_blocks ← mdiv (u32 (bg_desc_size + bs - 1)) bs;
      let pages := u32 (bg_desc_blocks * bs + 4095) / 4096 in
      gd ← alloc_data (pages * 4096) (pmm_alloc_pages pages);
      mmodify (on_fs (set_group_descs gd));;
      match gd with
      | None => free_page sb;; mret false
      | Some _ =>
          ok ← read_group_descs drive bg_desc_block bs (Z.to_nat bg_desc_blocks) 0;
          if negb ok then free_page gd;; free_page sb;; mret false
          else
            mfor EXT2_CACHE_SIZE 0 alloc_cache_entry;;
            mmodify (fun s => set_flags (initialized s) true s);;
            mmodify (on_fs (set_current_dir ROOT));;
            blocks ← sb_get s_blocks_count;
            inodes ← sb_get s_inodes_count;
            mmodify (on_fs (fun f =>
              Fs (drive_index f) (block_size f) (Ext2.blocks_per_group f)
                (Ext2.inodes_per_group f) (Ext2.inode_size f) (Ext2.groups_count f)
                blocks inodes (superblock f) (group_descs f) (open_files f)
                (current_dir f) (cache f)));;
            mret true
      end
  end.

Definition ext2_mount (drive : Z) : K bool :=
  s ← mget;
  if negb (initialized s) || mounted s then mret false
  else if negb (ata_drive_present drive (disk s)) then mret false
  else
    mmodify (on_fs (set_drive_index drive));;
    r ← call_disk (ata_read_sector drive 2);
    match r with
    | None => mret false
    | Some bytes =>
        store Io 0 bytes;;
        magic ← io_get 2 s_magic;
        if negb (magic =? EXT2_SUPER_MAGIC) then mret false
        else
          log_block_size ← io_get 4 s_log_block_size;
          blocks_per_group ← io_get 4 s_blocks_per_group;
          inodes_per_group ← io_get 4 s_inodes_per_group;
          sb_inode_size ← io_get 2 s_inode_size;
          sb_blocks_count ← io_get 4 s_blocks_count;
          first_data_block ← io_get 4 s_first_data_block;
          let bs := shifted_block_size log_block_size in
          let inode_size := if 0 <? sb_inode_size then sb_inode_size else 128 in
          groups_count ← mdiv (u32 (sb_blocks_count + blocks_per_group - 1)) blocks_per_group;
          mmodify (on_fs (fun f =>
            Fs (drive_index f) bs blocks_per_group inodes_per_group inode_size groups_count
              (blocks_count f) (inodes_count f) (superblock f) (group_descs f) (open_files f)
              (current_dir f) (cache f)));;
          load_tables drive bs groups_count first_data_block
    end.

(** One round of the loop of [ext2_unmount] over the cache. *)
Definition flush_entry (i : Z) : K unit :=
  f ← mgets fs;
  match cache f !! Z.to_nat i with
  | Some e =>
      (if valid e && dirty e
       then _ ← ext2_write_block (drive_index f) (block_no e) (CacheData (Z.to_nat i)); mret tt
       else mret tt);;
      free_page (data e);;
      mmodify (on_cache (alter (fun e => CacheEntry (block_no e) None false false) (Z.to_nat i)))
  | None => mret tt
  end.

Definition ext2_unmount : K bool :=
  m ← mgets mounted;
  if negb m then mret false
  else
    mfor EXT2_CACHE_SIZE 0 flush_entry;;
    on_files (fmap (set_is_open false));;
    f ← mgets fs;
    free_page (superblock f);;
    mmodify (on_fs (set_superblock None));;
    free_page (group_descs f);;
    mmodify (on_fs (set_group_descs None));;
    mmodify (fun s => set_flags (initialized s) false s);;
    mret true.
End ops.

End Ext2File.
