(* ===== verification/Ext2Examples.v ===== *)
(** A small ext2 volume on a disk in memory, for the concrete runs of the file
    system. *)
From S2P Require Import Prelude PageAllocator Bytes BlockDevice Ext2 Ext2Dir Ext2File.
Import Ext2 Ext2Dir Ext2File.

(** An allocator that hands out page after page and runs out at page 1000. *)
#[export] Instance counter_allocator : PageAllocator Z := {
  pmm_alloc_page a := if a <? 1000 then (4096 * a, a + 1) else (NULL, a);
  pmm_alloc_pages n a := if a + n <? 1000 then (4096 * a, a + n) else (NULL, a);
  pmm_free_page _ a := a;
  pmm_free_pages _ _ a := a;
}.

Definition zeros (n : nat) : list Z := replicate n 0.

(** A volume of 64 blocks of 1024 bytes in one group: superblock in block 1,
    group descriptor in 2, bitmaps in 3 and 4, 32 inodes in blocks 5 to 8, the
    root directory in block 9. *)
Definition image_superblock : list Z :=
  put16 88 128 (put16 56 0xEF53 (put32 40 32 (put32 32 8192 (put32 24 0 (put32 20 1
    (put32 16 21 (put32 12 54 (put32 4 64 (put32 0 32 (zeros 1024)))))))))).
Definition image_group_desc : list Z :=
  put16 16 1 (put16 14 21 (put16 12 54 (put32 8 5 (put32 4 4 (put32 0 3 (zeros 1024)))))).
Definition image_block_bitmap : list Z := splice 0 [0xFF; 0x01] (zeros 1024).
Definition image_inode_bitmap : list Z := splice 0 [0xFF; 0x07] (zeros 1024).
Definition root_inode : ext2_inode_t :=
  set_i_block_at 0 9 (set_i_blocks 2 (set_i_links_count 2 (set_i_size 1024
    (set_i_mode (EXT2_S_IFDIR + 0x1ED) zero_inode)))).
Definition image_inode_table : list Z := splice 128 (inode_bytes root_inode) (zeros 1024).
Definition image_root : list Z :=
  default [] (write_entry 12 2 1012 EXT2_FT_DIR DOTDOT
    (default [] (write_entry 0 2 12 EXT2_FT_DIR DOT (zeros 1024)))).

Definition put_block (b : Z) (l : list Z) (m : gmap (Z * Z) (list Z)) : gmap (Z * Z) (list Z) :=
  <[(0, 2 * b) := slice 0 512 l]> (<[(0, 2 * b + 1) := slice 512 512 l]> m).

Definition image : ram_disk :=
  RamDisk 1
    (put_block 1 image_superblock (put_block 2 image_group_desc (put_block 3 image_block_bitmap
      (put_block 4 image_inode_bitmap (put_block 5 image_inode_table (put_block 9 image_root ∅))))))
    [].

