(* ===== verification/Ext2Inv.v ===== *)
(** The invariant of a mounted ext2 file system, and the block layer: reading
    and writing blocks through the cache. *)
From S2P Require Import Prelude Wp PageAllocator Bytes BlockDevice Ext2.
Import Ext2.

(** ** Well-formed states *)

Definition page_ok (p : page) : Prop := zlen (page_bytes p) = 4096 /\ bytes_ok (page_bytes p).

Definition inode_ok (i : ext2_inode_t) : Prop :=
  length (i_block i) = 15%nat /\ fields_ok inode_layout (inode_values i).

Record entry_ok (e : cache_entry) : Prop := {
  entry_page p : data e = Some p -> page_ok p;
  entry_valid : valid e = true -> is_Some (data e) /\ 0 <= block_no e < 2 ^ 32;
}.

(** A block size the cache pages and [io_buffer] have room for, inodes that fit
    in a block, and descriptors for every group. *)
Record fs_ok (f : ext2_fs_t) : Prop := {
  ok_block_size : block_size f = 1024 \/ block_size f = 2048 \/ block_size f = 4096;
  ok_inodes_per_group : 0 < inodes_per_group f < 2 ^ 32;
  ok_inode_size : 128 <= inode_size f <= block_size f;
  ok_groups_count : 0 <= groups_count f;
  ok_superblock : exists p, superblock f = Some p /\ page_ok p;
  ok_group_descs : exists p, group_descs f = Some p /\ 32 * groups_count f <= zlen (page_bytes p) /\
                             bytes_ok (page_bytes p);
  ok_cache : length (cache f) = EXT2_CACHE_SIZE /\ Forall entry_ok (cache f);
  ok_files : length (open_files f) = EXT2_MAX_FILES /\ Forall (fun o => inode_ok (inode o)) (open_files f);
  ok_current_dir : bytes_ok (current_dir f);
}.

Section inv.
Context {A D : Type} `{!PageAllocator A, !BlockDevice D, !BlockDeviceSpec D}.
Abbreviation state := (ext2_state A D).
Implicit Types s : state.

Record inv s : Prop := {
  inv_mounted : mounted s = true;
  inv_io : exists l, io_buffer s = Some l /\ zlen l = 8192 /\ bytes_ok l;
  inv_fs : fs_ok (fs s);
  inv_dev : dev_inv (disk s);
}.

(** The contents of [io_buffer]. *)
Definition io s : list Z := default [] (io_buffer s).

Lemma inv_io_eq s : inv s -> io_buffer s = Some (io s) /\ zlen (io s) = 8192 /\ bytes_ok (io s).
Proof.
  intros Hs. destruct (inv_io s Hs) as (l & Hl & Hlen & Hok). unfold io. rewrite Hl. cbn.
  done.
Qed.

Lemma block_size_cases s : inv s -> block_size (fs s) = 1024 \/ block_size (fs s) = 2048 \/ block_size (fs s) = 4096.
Proof. intros Hs. apply ok_block_size, inv_fs, Hs. Qed.

Lemma inv_set_io s l : inv s -> zlen l = 8192 -> bytes_ok l -> inv (set_io l s).
Proof.
  intros [Hm _ Hf Hd] Hl Hok. constructor; [done| |done..].
  exists l. by split_and!.
Qed.

Lemma inv_on_fs s g : inv s -> fs_ok (g (fs s)) -> inv (on_fs g s).
Proof. intros [Hm Hi Hf Hd] Hg. by constructor. Qed.

Lemma fs_ok_set_cache f c :
  fs_ok f -> length c = EXT2_CACHE_SIZE -> Forall entry_ok c -> fs_ok (set_cache c f).
Proof. intros [] Hl Hc. constructor; cbn; auto. Qed.

Lemma inv_entry s i e : inv s -> cache (fs s) !! i = Some e -> entry_ok e.
Proof.
  intros Hs He. destruct (ok_cache _ (inv_fs s Hs)) as [_ Hc]. by apply (Forall_lookup_1 _ _ _ _ Hc He).
Qed.

Lemma inv_on_cache s g :
  inv s -> length (g (cache (fs s))) = EXT2_CACHE_SIZE -> Forall entry_ok (g (cache (fs s))) ->
  inv (on_cache g s).
Proof. intros Hs Hl Hg. apply inv_on_fs; [done|]. apply fs_ok_set_cache; [apply inv_fs, Hs|done..]. Qed.

Lemma on_cache_ext s g h : g (cache (fs s)) = h (cache (fs s)) -> on_cache g s = on_cache h s.
Proof. intros He. unfold on_cache, on_fs. by rewrite He. Qed.

(** Changing one entry of the cache. *)
Lemma inv_alter s g i :
  inv s -> (forall e, cache (fs s) !! i = Some e -> entry_ok (g e)) -> inv (on_cache (alter g i) s).
Proof.
  intros Hs Hg. destruct (ok_cache _ (inv_fs s Hs)) as [Hl Hc]. apply inv_on_cache; [done| |].
  - by rewrite length_alter.
  - apply Forall_alter; [done|]. auto.
Qed.

(** ** Access to buffers *)

Lemma wp_load_io s off n (Q : list Z -> state -> Prop) :
  inv s -> 0 <= off -> 0 <= n -> off + n <= 8192 ->
  Q (slice off n (io s)) s -> wp (load Io off n) s Q.
Proof.
  intros Hs Hoff Hn Hle HQ. destruct (inv_io_eq s Hs) as (Hio & Hlen & _).
  unfold wp, load. cbn [buffer_bytes]. rewrite Hio. destruct (Z.leb_spec (off + n) (zlen (io s))); [done|lia].
Qed.

Lemma wp_store_io s off src (Q : unit -> state -> Prop) :
  inv s -> 0 <= off -> off + zlen src <= 8192 -> bytes_ok src ->
  (inv (set_io (splice off src (io s)) s) -> Q tt (set_io (splice off src (io s)) s)) ->
  wp (store Io off src) s Q.
Proof.
  intros Hs Hoff Hle Hsrc HQ. destruct (inv_io_eq s Hs) as (Hio & Hlen & Hok).
  unfold wp, store. cbn [buffer_bytes]. rewrite Hio.
  destruct (Z.leb_spec (off + zlen src) (zlen (io s))); [|lia].
  apply HQ. apply inv_set_io; [done| |by apply splice_bytes_ok].
  rewrite zlen_splice; lia.
Qed.

Lemma wp_load_data s i e p n (Q : list Z -> state -> Prop) :
  inv s -> cache (fs s) !! i = Some e -> data e = Some p -> 0 <= n <= 4096 ->
  Q (slice 0 n (page_bytes p)) s -> wp (load (CacheData i) 0 n) s Q.
Proof.
  intros Hs He Hp Hn HQ. destruct (entry_page _ (inv_entry s i e Hs He) p Hp) as [Hlen _].
  unfold wp, load. cbn [buffer_bytes]. rewrite He. cbn. rewrite Hp. cbn.
  by rewrite (proj2 (Z.leb_le _ _)) by lia.
Qed.

Lemma wp_store_data s i e p src (Q : unit -> state -> Prop) :
  inv s -> cache (fs s) !! i = Some e -> data e = Some p -> zlen src <= 4096 -> bytes_ok src ->
  (let s' := on_cache (alter (set_data (Some (page_with (splice 0 src (page_bytes p)) p))) i) s in
   inv s' -> Q tt s') ->
  wp (store (CacheData i) 0 src) s Q.
Proof.
  intros Hs He Hp Hn Hsrc HQ. pose proof (inv_entry s i e Hs He) as Hok.
  destruct (entry_page _ Hok p Hp) as [Hlen Hb].
  unfold wp, store. cbn [buffer_bytes]. rewrite He. cbn. rewrite Hp. cbn.
  rewrite (proj2 (Z.leb_le _ _)) by lia.
  unfold set_buffer.
  assert (on_cache (alter (fun e => set_data (page_with (splice 0 src (page_bytes p)) <$> data e) e) i) s
          = on_cache (alter (set_data (Some (page_with (splice 0 src (page_bytes p)) p))) i) s) as ->.
  { apply on_cache_ext, list_alter_ext; [|done]. rewrite He. intros x [= <-]. by rewrite Hp. }
  apply HQ. apply inv_alter; [done|]. rewrite He. intros x [= <-]. constructor.
  - intros q [= <-]. split; cbn; [rewrite zlen_splice; lia|by apply splice_bytes_ok].
  - intros Hv. cbn. split; [done|]. apply (entry_valid _ Hok Hv).
Qed.
End inv.
