(* ===== verification/Ext2Block.v ===== *)
(** The block layer of fs/ext2.c: what [ext2_read_block] and [ext2_write_block]
    do to the disk and the cache of a mounted file system. *)
From S2P Require Import Prelude Wp PageAllocator Bytes BlockDevice Ext2 Ext2Inv.
Import Ext2.

Section block.
Context {A D : Type} `{!PageAllocator A, !BlockDevice D, !BlockDeviceSpec D}.
Abbreviation state := (ext2_state A D).
Implicit Types s : state.

(** ** The contents of the disk *)

(** [n] sectors from [start] on. *)
Fixpoint sectors (d : D) (k start : Z) (n : nat) : list Z :=
  match n with
  | O => []
  | S n => dev_sector d k start ++ sectors d k (start + 1) n
  end.

Definition same_disk (d d' : D) : Prop := forall k x, dev_sector d' k x = dev_sector d k x.

Lemma sectors_same d d' k start n : same_disk d d' -> sectors d' k start n = sectors d k start n.
Proof.
  intros Hd. revert start. induction n as [|n IH]; intros start; [done|]. cbn. by rewrite Hd, IH.
Qed.

Lemma length_sectors d k start n : dev_inv d -> length (sectors d k start n) = (n * 512)%nat.
Proof.
  intros Hd. revert start. induction n as [|n IH]; intros start; [done|]. cbn [sectors].
  rewrite length_app, IH. destruct (dev_sector_ok d k start Hd) as [-> _]. lia.
Qed.

Definition sectors_per_block s : Z := block_size (fs s) / 512.

(** Block [b] of the mounted drive, and the blocks the drive can address. *)
Definition disk_block s (b : Z) : list Z :=
  sectors (disk s) (drive_index (fs s)) (b * sectors_per_block s) (Z.to_nat (sectors_per_block s)).
Definition block_in s (b : Z) : Prop := 0 <= b /\ (b + 1) * sectors_per_block s <= dev_limit.

(** The block in [io_buffer]. *)
Definition io_block s : list Z := slice 0 (block_size (fs s)) (io s).

Lemma sectors_per_block_cases s :
  inv s -> block_size (fs s) = sectors_per_block s * 512 /\
           (sectors_per_block s = 2 \/ sectors_per_block s = 4 \/ sectors_per_block s = 8).
Proof.
  intros Hs. unfold sectors_per_block.
  destruct (block_size_cases s Hs) as [H|[H|H]]; rewrite H; (split; [reflexivity|]);
    [left|right; left|right; right]; reflexivity.
Qed.

(** ** The cache agrees with the disk *)

Definition coherent_entry s (e : cache_entry) : Prop :=
  forall p, data e = Some p -> valid e = true -> block_in s (block_no e) ->
            slice 0 (block_size (fs s)) (page_bytes p) = disk_block s (block_no e).
Definition coherent s : Prop := Forall (coherent_entry s) (cache (fs s)).

(** What the block operations leave alone: everything but [io_buffer], the
    cache, the allocator and the disk. *)
Record block_step s s' : Prop := {
  step_inv : inv s';
  step_fs : fs s' = set_cache (cache (fs s')) (fs s);
}.

Lemma block_step_refl s : inv s -> block_step s s.
Proof. intros Hs. constructor; [done|]. by destruct (fs s). Qed.

Lemma block_step_trans s1 s2 s3 : block_step s1 s2 -> block_step s2 s3 -> block_step s1 s3.
Proof.
  intros [_ H2] [Hi H3]. constructor; [done|]. rewrite H3, H2 at 1. done.
Qed.

Lemma block_step_fs {R} (f : ext2_fs_t -> R) s s' :
  block_step s s' -> (forall c r, f (set_cache c r) = f r) -> f (fs s') = f (fs s).
Proof. intros [_ H] Hf. rewrite H. apply Hf. Qed.

Lemma block_step_same s s' : block_step s s' ->
  block_size (fs s') = block_size (fs s) /\ drive_index (fs s') = drive_index (fs s) /\
  sectors_per_block s' = sectors_per_block s.
Proof.
  intros H. unfold sectors_per_block.
  rewrite (block_step_fs block_size s s' H), (block_step_fs drive_index s s' H) by done. done.
Qed.

Lemma disk_block_same s s' b :
  block_step s s' -> same_disk (disk s) (disk s') -> disk_block s' b = disk_block s b.
Proof.
  intros H Hd. unfold disk_block. destruct (block_step_same s s' H) as (_ & -> & ->).
  by apply sectors_same.
Qed.

Lemma block_in_same s s' b : block_step s s' -> block_in s' b <-> block_in s b.
Proof. intros H. unfold block_in. by destruct (block_step_same s s' H) as (_ & _ & ->). Qed.

Lemma coherent_entry_same s s' e :
  block_step s s' -> same_disk (disk s) (disk s') -> coherent_entry s e -> coherent_entry s' e.
Proof.
  intros H Hd He p Hp Hv Hin. rewrite (disk_block_same s s') by done.
  destruct (block_step_same s s' H) as (-> & _). apply He; [done..|]. by apply (block_in_same s s').
Qed.

(** ** The sectors of a block *)

Lemma call_disk_eq {R} (f : D -> R * D) s :
  call_disk f s =
  (Ret (fst (f (disk s))),
   Ext2State (fs s) (initialized s) (mounted s) (io_buffer s) (pmm s) (snd (f (disk s)))).
Proof. unfold call_disk. by destruct (f (disk s)). Qed.

Definition with_disk (d : D) s : state :=
  Ext2State (fs s) (initialized s) (mounted s) (io_buffer s) (pmm s) d.

Lemma inv_with_disk s d : inv s -> dev_inv d -> inv (with_disk d s).
Proof. intros [] Hd. by constructor. Qed.

(** A disk that never fails to read a sector. *)
Definition reads_succeed : Prop :=
  forall (d : D) (k x : Z), is_Some (fst (ata_read_sector k x d)).

Lemma wp_read_sectors drive start n : forall i s,
  inv s -> 0 <= i -> (i + Z.of_nat n) * 512 <= 8192 ->
  wp (read_sectors drive start Io n i) s (fun ok s' =>
    inv s' /\ fs s' = fs s /\ same_disk (disk s) (disk s') /\
    slice 0 (i * 512) (io s') = slice 0 (i * 512) (io s) /\
    (reads_succeed -> ok = true) /\
    (ok = true -> 0 <= start -> start + i + Z.of_nat n <= dev_limit ->
     slice (i * 512) (Z.of_nat n * 512) (io s') = sectors (disk s) drive (start + i) n)).
Proof.
  induction n as [|n IH]; intros i s Hs Hi Hn.
  { apply wp_ret. by split_and!. }
  cbn [read_sectors]. apply wp_bind. unfold wp at 1. rewrite call_disk_eq.
  destruct (ata_read_sector drive (u32 (start + i)) (disk s)) as [r d] eqn:Hr. cbn [fst snd].
  pose proof (wrap_range 32 (start + i) ltac:(lia)) as Hrange.
  destruct (dev_read _ _ _ _ _ (inv_dev s Hs) Hrange Hr) as (Hd & Hsame & Hbytes).
  change (Ext2State _ _ _ _ _ d) with (with_disk d s).
  pose proof (inv_with_disk s d Hs Hd) as Hs1.
  destruct r as [bytes|]; cycle 1.
  { apply wp_ret. split_and!; try done. intros Hall.
    destruct (Hall (disk s) drive (u32 (start + i))) as [x Hx]. by rewrite Hr in Hx. }
  destruct (Hbytes bytes eq_refl) as [[Hlen Hok] Hval].
  assert (zlen bytes = 512) as Hz by (unfold zlen; lia).
  assert (u32 (i * 512) = i * 512) as -> by (apply wrap_small; lia).
  apply wp_bind. apply wp_store_io; [done|lia|lia|done|]. intros Hs2.
  set (s2 := set_io _ _) in *.
  destruct (inv_io_eq s Hs) as (_ & Hio & _).
  assert (slice (i * 512) 512 (io s2) = bytes) as Hnew.
  { change (io s2) with (splice (i * 512) bytes (io s)). apply slice_splice_same; lia. }
  assert (slice 0 (i * 512) (io s2) = slice 0 (i * 512) (io s)) as Hold.
  { change (io s2) with (splice (i * 512) bytes (io s)). apply slice_splice_before; lia. }
  eapply wp_mono; [apply IH; [done|lia|lia]|]. intros ok s' (Hi' & Hfs & Hsd & Hpre & Hall & Hsec).
  replace ((i + 1) * 512) with (i * 512 + 512) in * by lia.
  rewrite !(slice_app 0) in Hpre by lia. apply app_inj_1 in Hpre as [Hp1 Hp2].
  2:{ pose proof (inv_io_eq s2 Hs2) as (_ & ? & _). pose proof (inv_io_eq s' Hi') as (_ & ? & _).
      rewrite !length_slice; lia. }
  split_and!; [done|done| |by rewrite Hp1, Hold|done|].
  { intros k x. rewrite Hsd. apply Hsame. }
  intros Hok' Hst Hlim. replace (Z.of_nat (S n) * 512) with (512 + Z.of_nat n * 512) by lia.
  rewrite slice_app by lia. cbn [sectors]. f_equal.
  - rewrite Z.add_0_l in Hp2. rewrite Hp2, Hnew. replace (u32 (start + i)) with (start + i) in Hval.
    + apply Hval. lia.
    + symmetry. apply wrap_small. pose proof dev_limit_range. lia.
  - replace (start + i + 1) with (start + (i + 1)) by lia. rewrite Hsec by (done || lia).
    apply sectors_same. intros k x. apply Hsame.
Qed.

(** ** Filling a cache entry *)

Lemma cache_slot_lt s : inv s -> (cache_slot (cache (fs s)) < EXT2_CACHE_SIZE)%nat.
Proof.
  intros Hs. destruct (ok_cache _ (inv_fs s Hs)) as [Hl _]. unfold cache_slot.
  destruct (list_find _ _) as [[i e]|] eqn:E; [|unfold EXT2_CACHE_SIZE; lia].
  apply list_find_Some in E as [E _]. apply lookup_lt_Some in E. lia.
Qed.

Lemma block_step_alter s g i :
  inv (on_cache (alter g i) s) -> block_step s (on_cache (alter g i) s).
Proof. intros H. by constructor. Qed.

(** A step that leaves [io_buffer] and the disk alone. *)
Definition cache_step s s' : Prop := block_step s s' /\ io s' = io s /\ disk s' = disk s.

Lemma cache_step_refl s : inv s -> cache_step s s.
Proof. intros Hs. by split_and!; [apply block_step_refl|..]. Qed.

Lemma cache_step_trans s1 s2 s3 : cache_step s1 s2 -> cache_step s2 s3 -> cache_step s1 s3.
Proof.
  intros (H1 & Hi1 & Hd1) (H2 & Hi2 & Hd2). split_and!; [by eapply block_step_trans| |]; congruence.
Qed.

Lemma coherent_alter s s' g i :
  cache_step s s' -> cache (fs s') = alter g i (cache (fs s)) ->
  (forall e, cache (fs s) !! i = Some e -> coherent_entry s e -> coherent_entry s (g e)) ->
  coherent s -> coherent s'.
Proof.
  intros (Hstep & _ & Hd) Hc Hg Hs. unfold coherent. rewrite Hc.
  assert (same_disk (disk s) (disk s')) as Hsd by (intros k x; by rewrite Hd).
  apply Forall_alter.
  - eapply Forall_impl; [apply Hs|]. intros e He. by apply (coherent_entry_same s s').
  - intros e He _. apply (coherent_entry_same s s'); [done..|]. apply Hg; [done|].
    by apply (Forall_lookup_1 _ _ _ _ Hs He).
Qed.

Lemma zeros_ok n : bytes_ok (replicate n 0).
Proof. apply Forall_replicate. unfold byte_ok. lia. Qed.

Lemma fresh_page_ok p q :
  (if p =? NULL then None else Some (Page p (replicate (Z.to_nat 4096) 0))) = Some q -> page_ok q.
Proof.
  destruct (p =? NULL); [done|]. intros H. apply Some_inj in H. subst q.
  split; [unfold zlen; cbn [page_bytes]; rewrite length_replicate; lia|apply zeros_ok].
Qed.

(** An entry without a page gets one, if the allocator has one. *)
Lemma wp_ensure_data s i :
  inv s ->
  wp (if bool_decide (is_Some (cache (fs s) !! i ≫= data)) then mret tt
      else p ← alloc_data 4096 pmm_alloc_page; mmodify (on_cache (alter (set_data p) i))) s
    (fun _ s' => cache_step s s' /\ (coherent s -> coherent s')).
Proof.
  intros Hs. case_bool_decide as Hdata.
  { apply wp_ret. split; [by apply cache_step_refl|done]. }
  apply wp_bind, wp_bind. unfold wp at 1, call_pmm. destruct (pmm_alloc_page (pmm s)) as [p a].
  set (s1 := Ext2State _ _ _ _ a _). assert (inv s1) as Hs1 by (destruct Hs; by constructor).
  apply wp_ret, wp_modify.
  assert (forall e, cache (fs s) !! i = Some e -> valid e = false) as Hinvalid.
  { intros e He. destruct (valid e) eqn:Hv; [|done]. exfalso. apply Hdata. rewrite He.
    apply (entry_valid _ (inv_entry s i e Hs He) Hv). }
  pose proof (fresh_page_ok p) as Hfresh. revert Hfresh.
  generalize (if p =? NULL then None else Some (Page p (replicate (Z.to_nat 4096) 0))).
  intros q Hfresh.
  assert (inv (on_cache (alter (set_data q) i) s1)) as Hs2.
  { apply inv_alter; [done|]. intros e He. constructor; cbn; [done|].
    intros Hv. by rewrite (Hinvalid e He) in Hv. }
  assert (cache_step s (on_cache (alter (set_data q) i) s1)) as Hstep by (split_and!; by try constructor).
  split; [done|]. eapply coherent_alter; [done|reflexivity|].
  intros e He _ q' _ Hv. cbn in Hv. by rewrite (Hinvalid e He) in Hv.
Qed.

Lemma block_size_le s : inv s -> 0 <= block_size (fs s) <= 4096 /\ 1024 <= block_size (fs s).
Proof. intros Hs. pose proof (block_size_cases s Hs). lia. Qed.

Lemma zlen_io_block s : inv s -> zlen (io_block s) = block_size (fs s).
Proof.
  intros Hs. pose proof (block_size_le s Hs). destruct (inv_io_eq s Hs) as (_ & ? & _).
  apply zlen_slice; lia.
Qed.

Lemma io_block_ok s : inv s -> bytes_ok (io_block s).
Proof. intros Hs. apply slice_bytes_ok. by destruct (inv_io_eq s Hs) as (_ & _ & ?). Qed.

Lemma wp_cache_insert s b :
  inv s -> 0 <= b < 2 ^ 32 ->
  wp (cache_insert b Io) s (fun _ s' =>
    cache_step s s' /\
    (coherent s -> (block_in s b -> io_block s = disk_block s b) -> coherent s')).
Proof.
  intros Hs Hb. unfold cache_insert. do 2 wp_rule. set (i := cache_slot _).
  wp_rule. eapply wp_mono; [by apply wp_ensure_data|]. intros [] s1 [Hstep1 Hcoh1].
  pose proof (step_inv _ _ (proj1 Hstep1)) as Hs1.
  do 2 wp_rule. case_bool_decide as Hdata; [|apply wp_ret; by auto].
  destruct (cache (fs s1) !! i) as [e|] eqn:He; [|by destruct Hdata as [? [=]]].
  destruct Hdata as [p Hp]. cbn in Hp.
  do 2 wp_rule.
  assert (inv (on_cache (alter (fun e => CacheEntry b (data e) false true) i) s1)) as Hs2.
  { apply inv_alter; [done|]. intros e' He'. simplify_eq. constructor; cbn.
    - apply (entry_page _ (inv_entry s1 i e Hs1 He)).
    - intros _. split; [by rewrite Hp|done]. }
  set (s2 := on_cache _ s1) in *. destruct (block_size_le s Hs) as [Hbs _].
  wp_rule. apply wp_load_io; [done|lia..|].
  change (slice 0 (block_size (fs s)) (io s2)) with (slice 0 (block_size (fs s)) (io s1)).
  destruct Hstep1 as (Hstep1 & Hio1 & Hd1). rewrite Hio1. fold (io_block s).
  pose proof (zlen_io_block s Hs) as Hz. pose proof (io_block_ok s Hs) as Hok.
  eapply (wp_store_data s2 i (CacheEntry b (data e) false true) p); [done| |done|lia|done|].
  { subst s2. cbn. by rewrite list_lookup_alter_eq, He. }
  cbv zeta. intros Hs3. set (s3 := on_cache _ s2) in *.
  assert (cache_step s1 s3) as Hstep2 by (split_and!; [by constructor|done..]).
  split. { eapply cache_step_trans; [|done]. by split_and!. }
  intros Hcoh Hblk.
  apply (coherent_alter s1 s3 (fun e => CacheEntry b (Some (page_with (splice 0 (io_block s) (page_bytes p)) p)) false true) i);
    [done| | |by apply Hcoh1].
  - subst s3 s2. cbn. rewrite list_alter_alter_eq. by apply list_alter_ext.
  - intros e' He' _ q [= <-] _ Hin. cbn [block_no page_bytes page_with].
    assert (same_disk (disk s) (disk s1)) as Hsd by (intros k x; by rewrite Hd1).
    rewrite (disk_block_same s s1) by done. destruct (block_step_same s s1 Hstep1) as (-> & _).
    destruct (entry_page _ (inv_entry s1 i e Hs1 He) p Hp) as [Hzp _].
    rewrite slice_splice_same by lia. apply Hblk. by apply (block_in_same s s1).
Qed.

(** ** [ext2_read_block] *)


Lemma io_set_io l s : io (set_io l s) = l.
Proof. done. Qed.

Lemma wp_guard_io s (Q : bool -> state -> Prop) (m : M state bool) :
  inv s -> wp m s Q -> wp (if negb (nonnull Io s) then mret false else m) s Q.
Proof.
  intros Hs Hm. destruct (inv_io_eq s Hs) as (Hio & _). unfold nonnull. rewrite Hio. done.
Qed.

(** What [ext2_read_block] does for a caller. *)
Record read_post (drive b : Z) s (ok : bool) s' : Prop := {
  read_step : block_step s s';
  read_disk : same_disk (disk s) (disk s');
  read_coherent : drive = drive_index (fs s) -> coherent s -> coherent s';
  read_contents : drive = drive_index (fs s) -> coherent s -> block_in s b -> ok = true ->
                  io_block s' = disk_block s b;
  read_succeeds : reads_succeed -> ok = true;
}.

Lemma wp_read_block drive b s :
  inv s -> 0 <= b < 2 ^ 32 -> wp (ext2_read_block drive b Io) s (read_post drive b s).
Proof.
  intros Hs Hb. unfold ext2_read_block. do 2 wp_rule. apply wp_guard_io; [done..|].
  rewrite (inv_mounted s Hs). pose proof (block_size_le s Hs) as [Hbs _].
  destruct (inv_io_eq s Hs) as (_ & Hzio & _).
  destruct (cache_find b (cache (fs s))) as [i|] eqn:Hfind.
  - unfold cache_find in Hfind. apply fmap_Some in Hfind as ([i' e] & Hfind & ->).
    apply list_find_Some in Hfind as (He & [Hv Hbe] & _). cbn [fst].
    destruct (entry_valid _ (inv_entry s _ e Hs He) Hv) as [[p Hp] _].
    destruct (entry_page _ (inv_entry s _ e Hs He) p Hp) as [Hzp Hokp].
    wp_rule. eapply wp_load_data; [done..|lia|]. wp_rule.
    assert (zlen (slice 0 (block_size (fs s)) (page_bytes p)) = block_size (fs s)) as Hz
      by (apply zlen_slice; lia).
    apply wp_store_io; [done|lia|lia|by apply slice_bytes_ok|]. intros Hs1. wp_rule.
    constructor; [by constructor; [|destruct s as [[]]]|done|done| |done].
    intros _ Hcoh Hin _. unfold io_block. rewrite io_set_io.
    change (fs (set_io _ s)) with (fs s). rewrite slice_splice_same by lia.
    rewrite <- Hbe. apply (Forall_lookup_1 _ _ _ _ Hcoh He); [done..|]. by rewrite Hbe.
  - destruct (sectors_per_block_cases s Hs) as [Hspb Hcases].
    fold (sectors_per_block s). cbv zeta. wp_rule.
    eapply wp_mono; [apply wp_read_sectors; [done|lia|lia]|].
    intros ok s1 (Hs1 & Hfs & Hsame & _ & Hall & Hsec). cbn beta in *.
    assert (block_step s s1) as Hstep by (constructor; [done|]; rewrite Hfs; by destruct (fs s)).
    assert (coherent s -> coherent s1) as Hcoh1.
    { intros Hcoh. unfold coherent. rewrite Hfs. eapply Forall_impl; [apply Hcoh|].
      intros e. by apply coherent_entry_same. }
    destruct ok; [|wp_rule; by constructor].
    assert (drive = drive_index (fs s) -> block_in s b -> io_block s1 = disk_block s b) as Hblk.
    { intros -> [Hb0 Hlim]. unfold io_block, disk_block. rewrite Hfs. pose proof dev_limit_range.
      assert (u32 (b * sectors_per_block s) = b * sectors_per_block s) as Hw
        by (apply wrap_small; nia).
      rewrite Hw in Hsec.
      specialize (Hsec eq_refl ltac:(nia) ltac:(nia)). rewrite Z.add_0_r, Z2Nat.id in Hsec by lia.
      by rewrite Hspb. }
    wp_rule. eapply wp_mono; [by apply wp_cache_insert|].
    intros [] s2 ((Hstep2 & Hio2 & Hd2) & Hcoh2). wp_rule.
    assert (same_disk (disk s) (disk s2)) as Hsame2 by (intros k x; by rewrite Hd2).
    constructor; [by eapply block_step_trans|done| | |done].
    + intros Hdr Hcoh. apply Hcoh2; [by apply Hcoh1|]. intros Hin%(block_in_same s s1); [|done].
      rewrite (disk_block_same s s1) by done. by apply Hblk.
    + intros Hdr _ Hin _. rewrite <- Hblk by done. unfold io_block. rewrite Hio2.
      by destruct (block_step_same s1 s2 Hstep2) as (-> & _).
Qed.

(** ** [ext2_write_block] *)

(** A disk that never fails to write a sector. *)
Definition writes_succeed : Prop :=
  forall (d : D) (k x : Z) (bs : list Z), fst (ata_write_sector k x bs d) = true.

Lemma wp_write_sectors drive start n : forall i s,
  inv s -> 0 <= i -> (i + Z.of_nat n) * 512 <= 8192 ->
  wp (write_sectors drive start Io n i) s (fun ok s' =>
    inv s' /\ s' = with_disk (disk s') s /\ (writes_succeed -> ok = true) /\
    (0 <= start -> start + i + Z.of_nat n <= dev_limit ->
     (ok = true -> sectors (disk s') drive (start + i) n = slice (i * 512) (Z.of_nat n * 512) (io s)) /\
     (forall k x, 0 <= x < dev_limit -> k <> drive \/ x < start + i \/ start + i + Z.of_nat n <= x ->
                  dev_sector (disk s') k x = dev_sector (disk s) k x))).
Proof.
  induction n as [|n IH]; intros i s Hs Hi Hn.
  { apply wp_ret. split_and!; [done|by destruct s|done|]. by split. }
  cbn [write_sectors]. apply wp_bind.
  assert (u32 (i * 512) = i * 512) as -> by (apply wrap_small; lia).
  apply wp_load_io; [done|lia..|]. set (bytes := slice _ _ _).
  destruct (inv_io_eq s Hs) as (_ & Hzio & Hokio).
  assert (sector_ok bytes) as Hbytes.
  { split; [subst bytes; rewrite length_slice; lia|by apply slice_bytes_ok]. }
  apply wp_bind. unfold wp at 1. rewrite call_disk_eq.
  destruct (ata_write_sector drive (u32 (start + i)) bytes (disk s)) as [ok d] eqn:Hw. cbn [fst snd].
  pose proof (wrap_range 32 (start + i) ltac:(lia)) as Hrange.
  destruct (dev_write _ _ _ _ _ _ (inv_dev s Hs) Hrange Hbytes Hw) as (Hd & Hval).
  change (Ext2State _ _ _ _ _ d) with (with_disk d s).
  pose proof (inv_with_disk s d Hs Hd) as Hs1. pose proof dev_limit_range as Hlim32.
  assert (0 <= start -> start + i + Z.of_nat (S n) <= dev_limit -> u32 (start + i) = start + i)
    as Hsec by (intros; apply wrap_small; lia).
  destruct ok.
  - eapply wp_mono; [apply IH; [done|lia|lia]|]. intros ok s' (Hi' & Heq & Hall' & Hrest).
    split; [done|]. split; [rewrite Heq at 1; done|]. split; [done|]. intros Hst Hlim.
    rewrite Hsec in Hval by done. destruct Hval as [Hnew Hframe]; [lia|].
    destruct Hrest as [Hall Hother]; [lia..|]. split.
    + intros Hok. replace (Z.of_nat (S n) * 512) with (512 + Z.of_nat n * 512) by lia.
      rewrite slice_app by lia. cbn [sectors]. f_equal.
      * rewrite Hother by lia. by apply Hnew.
      * replace (start + i + 1) with (start + (i + 1)) by lia. rewrite Hall by done.
        f_equal. lia.
    + intros k x Hx Hk. rewrite Hother by lia. apply Hframe; [done|]. intros [= -> ->]. lia.
  - apply wp_ret. split; [done|]. split; [done|].
    split. { intros Hall. specialize (Hall (disk s) drive (u32 (start + i)) bytes). by rewrite Hw in Hall. }
    intros Hst Hlim. split; [done|].
    rewrite Hsec in Hval by done. destruct Hval as [_ Hframe]; [lia|].
    intros k x Hx Hk. apply Hframe; [done|]. intros [= -> ->]. lia.
Qed.

(** The cache entries of block [b] once it is overwritten with [l]. *)
Definition updated_entry (b : Z) (l : list Z) (e : cache_entry) : cache_entry :=
  if bool_decide (cached b e)
  then CacheEntry (block_no e) ((fun p => page_with (splice 0 l (page_bytes p)) p) <$> data e) true (valid e)
  else e.

Lemma wp_cache_update b s j :
  inv s -> 0 <= j ->
  wp (cache_update b Io j) s (fun _ s' =>
    cache_step s s' /\ cache (fs s') = alter (updated_entry b (io_block s)) (Z.to_nat j) (cache (fs s))).
Proof.
  intros Hs Hj. unfold cache_update. do 2 wp_rule.
  destruct (cache (fs s) !! Z.to_nat j) as [e|] eqn:He; cycle 1.
  { apply wp_ret. split; [by apply cache_step_refl|]. apply list_eq. intros i.
    destruct (decide (i = Z.to_nat j)) as [->|Hne].
    - by rewrite list_lookup_alter_eq, He.
    - by rewrite list_lookup_alter_ne. }
  assert (forall x, cache (fs s) !! Z.to_nat j = Some x -> x = e) as Huniq by (intros; congruence).
  case_bool_decide as Hc; cycle 1.
  { apply wp_ret. split; [by apply cache_step_refl|]. rewrite <- (list_alter_id id (cache (fs s)) (Z.to_nat j)) at 1 by done.
    apply list_alter_ext; [|done]. intros x ->%Huniq. unfold updated_entry. by rewrite bool_decide_false. }
  pose proof (block_size_le s Hs) as [Hbs _]. pose proof (zlen_io_block s Hs) as Hz.
  destruct (entry_valid _ (inv_entry s _ e Hs He) (proj1 Hc)) as [[p Hp] _].
  wp_rule. apply wp_load_io; [done|lia..|]. fold (io_block s).
  wp_rule. eapply wp_store_data; [done..|lia|by apply io_block_ok|]. cbv zeta. intros Hs1.
  set (s1 := on_cache _ s) in *. wp_rule.
  assert (inv (on_cache (alter (set_dirty true) (Z.to_nat j)) s1)) as Hs2.
  { apply inv_alter; [done|]. intros x Hx. destruct (inv_entry s1 _ x Hs1 Hx). by constructor. }
  split; [split_and!; [by constructor|done..]|].
  subst s1. cbn. rewrite list_alter_alter_eq. apply list_alter_ext; [|done].
  intros x ->%Huniq. unfold updated_entry. rewrite bool_decide_true by done. cbn. by rewrite Hp.
Qed.

Lemma wp_cache_updates b s :
  inv s ->
  wp (mfor EXT2_CACHE_SIZE 0 (cache_update b Io)) s (fun _ s' =>
    cache_step s s' /\ cache (fs s') = updated_entry b (io_block s) <$> cache (fs s)).
Proof.
  intros Hs.
  apply (wp_for (fun j s' => cache_step s s' /\ forall i,
    cache (fs s') !! i = (if decide (i < Z.to_nat j)%nat then updated_entry b (io_block s) <$> cache (fs s) !! i
                          else cache (fs s) !! i))).
  - split; [by apply cache_step_refl|]. intros i. rewrite decide_False by lia. done.
  - intros j s0 Hj (Hstep & Hc). pose proof Hstep as (Hb & Hio & _).
    eapply wp_mono; [apply wp_cache_update; [apply Hb|lia]|]. intros [] s1 (Hstep1 & Hc1).
    split; [by eapply cache_step_trans|]. intros i. rewrite Hc1.
    assert (io_block s0 = io_block s) as ->.
    { unfold io_block. rewrite Hio. by destruct (block_step_same s s0 Hb) as (-> & _). }
    destruct (decide (i = Z.to_nat j)) as [->|Hne].
    + rewrite list_lookup_alter_eq, Hc, decide_False, decide_True by lia. done.
    + rewrite list_lookup_alter_ne, Hc by done.
      destruct (decide (i < Z.to_nat j)%nat); [rewrite decide_True by lia|rewrite decide_False by lia]; done.
  - intros s' (Hstep & Hc). split; [done|]. apply list_eq. intros i. rewrite Hc, list_lookup_fmap.
    case_decide as Hi; [done|]. destruct (ok_cache _ (inv_fs s Hs)) as [Hl _].
    rewrite lookup_ge_None_2 by (unfold EXT2_CACHE_SIZE in *; lia). done.
Qed.

(** What [ext2_write_block] does for a caller. *)
Record write_post (drive b : Z) s (ok : bool) s' : Prop := {
  write_step : block_step s s';
  write_io : io s' = io s;
  write_cache : cache (fs s') = updated_entry b (io_block s) <$> cache (fs s);
  write_frame : drive = drive_index (fs s) -> block_in s b ->
                forall b', block_in s b' -> b' <> b -> disk_block s' b' = disk_block s b';
  write_contents : drive = drive_index (fs s) -> block_in s b -> ok = true ->
                   disk_block s' b = io_block s;
  write_coherent : drive = drive_index (fs s) -> block_in s b -> ok = true ->
                   coherent s -> coherent s';
  write_succeeds : writes_succeed -> ok = true;
}.

Lemma sectors_frame d d' k start n :
  (forall x, start <= x < start + Z.of_nat n -> dev_sector d' k x = dev_sector d k x) ->
  sectors d' k start n = sectors d k start n.
Proof.
  revert start. induction n as [|n IH]; intros start H; [done|]. cbn [sectors].
  rewrite (H start) by lia. f_equal. apply IH. intros x Hx. apply H. lia.
Qed.

Lemma wp_write_block drive b s :
  inv s -> 0 <= b < 2 ^ 32 -> wp (ext2_write_block drive b Io) s (write_post drive b s).
Proof.
  intros Hs Hb. unfold ext2_write_block. do 2 wp_rule. apply wp_guard_io; [done..|].
  rewrite (inv_mounted s Hs). wp_rule.
  eapply wp_mono; [by apply wp_cache_updates|]. intros [] s1 ((Hstep1 & Hio1 & Hd1) & Hc1).
  destruct (sectors_per_block_cases s Hs) as [Hspb Hcases]. cbv zeta. fold (sectors_per_block s).
  eapply wp_mono; [apply wp_write_sectors; [apply Hstep1|lia|lia]|].
  intros ok s2 (Hs2 & Heq & Hall & Hw). rewrite Z.add_0_r, Hd1, Hio1, Z2Nat.id in Hw by lia.
  pose proof dev_limit_range as Hlim32.
  assert (fs s2 = fs s1) as Hfs2 by by rewrite Heq.
  assert (block_step s s2) as Hstep2.
  { constructor; [done|]. rewrite Hfs2. apply Hstep1. }
  destruct (block_step_same s s2 Hstep2) as (Hbs2 & Hdr2 & Hspb2).
  assert (block_in s b -> u32 (b * sectors_per_block s) = b * sectors_per_block s) as Hu.
  { intros [Hb0 Hlim]. apply wrap_small. nia. }
  assert (drive = drive_index (fs s) -> block_in s b ->
          forall b', block_in s b' -> b' <> b -> disk_block s2 b' = disk_block s b') as Hframe.
  { intros -> Hin b' [Hb'0 Hb'] Hne. rewrite Hu in Hw by done. destruct Hin as [Hb0 Hlim].
    destruct Hw as [_ Hother]; [nia..|]. unfold disk_block. rewrite Hdr2, Hspb2.
    apply sectors_frame. intros x Hx. rewrite Z2Nat.id in Hx by lia. apply Hother; [nia|].
    right. destruct (Z.lt_trichotomy b' b) as [?|[?|?]]; nia. }
  assert (drive = drive_index (fs s) -> block_in s b -> ok = true -> disk_block s2 b = io_block s) as Hnew.
  { intros -> Hin Hok. rewrite Hu in Hw by done. destruct Hin as [Hb0 Hlim].
    destruct Hw as [Hsec _]; [nia..|]. unfold disk_block. rewrite Hdr2, Hspb2, Hsec by done.
    unfold io_block. by rewrite Hspb. }
  constructor; [done| |by rewrite Hfs2|done|done| |done].
  { rewrite Heq. cbn. change (io s1 = io s). done. }
  intros Hdr Hin Hok Hcoh. unfold coherent. rewrite Hfs2, Hc1. apply Forall_fmap.
  apply Forall_lookup_2. intros i e He. cbn.
  pose proof (Forall_lookup_1 _ _ _ _ Hcoh He) as Hce. unfold updated_entry.
  case_bool_decide as Hcached.
  - intros p' Hp' Hv _. cbn in *. apply fmap_Some in Hp' as (p & Hp & ->). cbn.
    destruct Hcached as [Hv' Hbe]. rewrite Hbe, Hbs2. rewrite Hnew by done.
    destruct (entry_page _ (inv_entry s _ e Hs He) p Hp) as [Hzp _].
    pose proof (zlen_io_block s Hs). pose proof (block_size_le s Hs).
    apply slice_splice_same; lia.
  - intros p Hp Hv Hin'%(block_in_same s s2); [|done]. rewrite Hbs2.
    rewrite Hframe; [by apply Hce|done..|]. intros Hbe. by apply Hcached.
Qed.

End block.
