(* ===== verification/Ext2Inode.v ===== *)
(** Inodes of fs/ext2.c: their representation on the disk and the inode table
    as [ext2_read_inode] and [ext2_write_inode] use it. *)
From S2P Require Import Prelude Wp PageAllocator Bytes BlockDevice Ext2 Ext2Inv Ext2Block.
Import Ext2.

(** ** The representation of an inode *)

Lemma length_inode_layout : length inode_layout = 43%nat.
Proof. done. Qed.

Lemma inode_values_of_values vs :
  length vs = 43%nat -> inode_values (inode_of_values vs) = vs.
Proof.
  intros Hl. unfold inode_of_values, inode_values.
  do 43 (destruct vs as [|? vs]; [done|]). by destruct vs.
Qed.

Lemma fields_length ws vs : fields_ok ws vs -> length vs = length ws.
Proof. intros H. symmetry. by apply Forall2_length in H. Qed.

Lemma inode_of_values_values i : inode_ok i -> inode_of_values (inode_values i) = i.
Proof.
  intros [Hb Hok%fields_length]. destruct i as [? ? ? ? ? ? ? ? ? ? ? ? blk ? ? ? ? osd].
  cbn [i_block] in Hb. unfold inode_values in Hok. cbn in Hok. rewrite length_app in Hok.
  do 15 (destruct blk as [|? blk]; [done|]). destruct blk; [|done].
  cbn in Hok. do 12 (destruct osd as [|? osd]; [done|]). by destruct osd.
Qed.

Lemma inode_ok_of_bytes l : bytes_ok l -> zlen l = 128 -> inode_ok (inode_of_bytes l).
Proof.
  intros Hl Hz. unfold inode_of_bytes.
  pose proof (fields_ok_unpack inode_layout l Hl) as Hf.
  assert (sum_list inode_layout <= length l)%nat as Hle.
  { change (sum_list inode_layout) with (Z.to_nat 128). unfold zlen in Hz. lia. }
  specialize (Hf Hle). pose proof (fields_length _ _ Hf) as Hlen. rewrite length_inode_layout in Hlen.
  split; [|by rewrite inode_values_of_values].
  unfold inode_of_values. cbn [i_block]. rewrite length_take, length_drop. lia.
Qed.

Lemma zlen_inode_bytes i : inode_ok i -> zlen (inode_bytes i) = 128.
Proof.
  intros [_ Hok%fields_length]. unfold inode_bytes, zlen. rewrite length_pack by done. reflexivity.
Qed.

Lemma inode_bytes_ok i : bytes_ok (inode_bytes i).
Proof. apply pack_bytes_ok. Qed.

Lemma inode_of_bytes_bytes i : inode_ok i -> inode_of_bytes (inode_bytes i) = i.
Proof.
  intros Hi. unfold inode_of_bytes, inode_bytes. rewrite <- (app_nil_r (pack _ _)).
  rewrite unpack_pack by apply Hi. by apply inode_of_values_values.
Qed.

Lemma inode_bytes_of_bytes l : bytes_ok l -> zlen l = 128 -> inode_bytes (inode_of_bytes l) = l.
Proof.
  intros Hl Hz. unfold inode_bytes, inode_of_bytes.
  rewrite inode_values_of_values by (by rewrite length_unpack).
  apply pack_unpack; [done|]. change (sum_list inode_layout) with (Z.to_nat 128).
  unfold zlen in Hz. lia.
Qed.

Section inode.
Context {A D : Type} `{!PageAllocator A, !BlockDevice D, !BlockDeviceSpec D}.
Abbreviation state := (ext2_state A D).
Implicit Types s : state.

(** ** Where an inode is *)

Definition gd_bytes s : list Z := match group_descs (fs s) with Some p => page_bytes p | None => [] end.

(** The value of a field of a group descriptor. *)
Definition gd_field s (n : nat) (bg field : Z) : Z :=
  un_le (slice (32 * bg + field) (Z.of_nat n) (gd_bytes s)).

Lemma gd_bytes_ok s : inv s -> 32 * groups_count (fs s) <= zlen (gd_bytes s) /\ bytes_ok (gd_bytes s).
Proof.
  intros Hs. destruct (ok_group_descs _ (inv_fs s Hs)) as (p & Hp & Hl & Hok).
  unfold gd_bytes. by rewrite Hp.
Qed.

Lemma gd_field_range s n bg field :
  inv s -> 0 <= bg < groups_count (fs s) -> 0 <= field -> field + Z.of_nat n <= 32 ->
  0 <= gd_field s n bg field < 256 ^ Z.of_nat n.
Proof.
  intros Hs Hbg Hf Hn. destruct (gd_bytes_ok s Hs) as [Hl Hok].
  pose proof (un_le_range _ (slice_bytes_ok (32 * bg + field) (Z.of_nat n) _ Hok)) as H.
  rewrite length_slice, Nat2Z.id in H by lia. done.
Qed.

Lemma wp_gd_get s n bg field (Q : Z -> state -> Prop) :
  inv s -> 0 <= bg < groups_count (fs s) -> 0 <= field -> field + Z.of_nat n <= 32 ->
  Q (gd_field s n bg field) s -> wp (gd_get n bg field) s Q.
Proof.
  intros Hs Hbg Hf Hn HQ. destruct (gd_bytes_ok s Hs) as [Hl Hok].
  destruct (ok_group_descs _ (inv_fs s Hs)) as (p & Hp & _).
  unfold gd_get. apply wp_bind. unfold wp, load. cbn [buffer_bytes]. rewrite Hp.
  unfold gd_field, gd_bytes in *. rewrite Hp in *. cbn [fmap option_fmap option_map compose].
  change (drop (Z.to_nat 0) (page_bytes p)) with (page_bytes p).
  rewrite (proj2 (Z.leb_le _ _)) by lia. done.
Qed.

Lemma wp_mdiv s a b (Q : Z -> state -> Prop) : b <> 0 -> Q (a / b) s -> wp (mdiv a b) s Q.
Proof. intros Hb HQ. unfold mdiv. by destruct (Z.eqb_spec b 0). Qed.

Lemma wp_mmod s a b (Q : Z -> state -> Prop) : b <> 0 -> Q (a mod b) s -> wp (mmod a b) s Q.
Proof. intros Hb HQ. unfold mmod. by destruct (Z.eqb_spec b 0). Qed.

Definition inode_group s (n : Z) : Z := u32 (n - 1) / inodes_per_group (fs s).
Definition inode_index s (n : Z) : Z := u32 (n - 1) mod inodes_per_group (fs s).
Definition inodes_per_block s : Z := block_size (fs s) / inode_size (fs s).

(** The block of the inode table that holds inode [n], and the offset in it. *)
Definition inode_block s (n : Z) : Z :=
  u32 (gd_field s 4 (inode_group s n) bg_inode_table + inode_index s n / inodes_per_block s).
Definition inode_offset s (n : Z) : Z := inode_index s n mod inodes_per_block s * inode_size (fs s).
Definition inode_exists s (n : Z) : Prop := n <> 0 /\ inode_group s n < groups_count (fs s).

Lemma inode_geometry s n :
  inv s -> 0 < inodes_per_block s /\ 0 <= inode_group s n /\ 0 <= inode_index s n /\
           0 <= inode_offset s n /\ inode_offset s n + 128 <= block_size (fs s).
Proof.
  intros Hs. destruct (inv_fs s Hs). pose proof (block_size_le s Hs).
  assert (0 < inodes_per_block s) by (apply Z.div_str_pos; lia).
  assert (inodes_per_block s * inode_size (fs s) <= block_size (fs s)).
  { unfold inodes_per_block. rewrite Z.mul_comm. apply Z.mul_div_le. lia. }
  pose proof (wrap_range 32 (n - 1) ltac:(lia)).
  pose proof (Z.mod_pos_bound (inode_index s n) (inodes_per_block s) ltac:(lia)).
  unfold inode_group, inode_offset in *.
  split_and!; [lia|apply Z.div_pos; lia|unfold inode_index; apply Z.mod_pos_bound; lia| |].
  - apply Z.mul_nonneg_nonneg; lia.
  - set (k := _ mod inodes_per_block s) in *.
    assert ((k + 1) * inode_size (fs s) <= inodes_per_block s * inode_size (fs s))
      by (apply Z.mul_le_mono_nonneg_r; lia). lia.
Qed.

Lemma wp_inode_location s n :
  inv s -> n <> 0 ->
  wp (inode_location n) s (fun r s' => s' = s /\
    ((inode_exists s n /\ r = Some (inode_block s n, inode_offset s n)) \/
     (~ inode_exists s n /\ r = None))).
Proof.
  intros Hs Hn. unfold inode_location. destruct (inv_fs s Hs).
  destruct (inode_geometry s n Hs) as (Hipb & Hg & Hi & Ho & Hfit). pose proof (block_size_le s Hs).
  do 2 wp_rule. wp_rule. apply wp_mdiv; [lia|]. wp_rule. apply wp_mmod; [lia|].
  change (u32 (n - 1) / inodes_per_group (fs s)) with (inode_group s n).
  change (u32 (n - 1) mod inodes_per_group (fs s)) with (inode_index s n).
  destruct (Z.leb_spec (groups_count (fs s)) (inode_group s n)).
  { apply wp_ret. split; [done|]. right. split; [|done]. intros [_ ?]. lia. }
  wp_rule. apply wp_gd_get; [done|lia|unfold bg_inode_table; lia..|].
  wp_rule. apply wp_mdiv; [lia|]. change (block_size (fs s) / inode_size (fs s)) with (inodes_per_block s).
  wp_rule. apply wp_mdiv; [lia|]. wp_rule. apply wp_mmod; [lia|]. wp_rule.
  split; [done|]. left. split; [done|].
  change (inode_index s n mod inodes_per_block s * inode_size (fs s)) with (inode_offset s n).
  rewrite (wrap_small 32 (inode_offset s n)) by lia. done.
Qed.

(** ** The inode table *)

(** Inode [n], as the disk has it. *)
Definition inode_at s (n : Z) : ext2_inode_t :=
  inode_of_bytes (slice (inode_offset s n) 128 (disk_block s (inode_block s n))).

Lemma inode_block_range s n : 0 <= inode_block s n < 2 ^ 32.
Proof. apply wrap_range. lia. Qed.

Lemma slice_io_block s off n :
  inv s -> 0 <= off -> 0 <= n -> off + n <= block_size (fs s) ->
  slice off n (io_block s) = slice off n (io s).
Proof. intros. unfold io_block. by rewrite slice_slice by lia. Qed.

Record read_inode_post (drive n : Z) s (r : option ext2_inode_t) s' : Prop := {
  ri_step : block_step s s';
  ri_disk : same_disk (disk s) (disk s');
  ri_coherent : drive = drive_index (fs s) -> coherent s -> coherent s';
  ri_ok i : r = Some i -> inode_exists s n /\ inode_ok i /\
            (drive = drive_index (fs s) -> coherent s -> block_in s (inode_block s n) -> i = inode_at s n);
  ri_succeeds : reads_succeed (D := D) -> inode_exists s n -> is_Some r;
}.

Lemma wp_read_inode drive n s :
  inv s -> wp (ext2_read_inode drive n) s (read_inode_post drive n s).
Proof.
  intros Hs. unfold ext2_read_inode. destruct (Z.eqb_spec n 0) as [->|Hn].
  { apply wp_ret. constructor; [by apply block_step_refl|done..|by intros _ []]. }
  wp_rule. eapply wp_mono; [by apply wp_inode_location|].
  intros r s0 (-> & [[Hex ->]|[Hex ->]]); cycle 1.
  { apply wp_ret. constructor; [by apply block_step_refl|done..]. }
  wp_rule. eapply wp_mono; [apply wp_read_block; [done|apply inode_block_range]|].
  intros ok s1 [Hstep Hdisk Hcoh Hblk Hall]. pose proof (step_inv _ _ Hstep) as Hs1.
  destruct (inode_geometry s n Hs) as (Hipb & Hg & Hi & Ho & Hfit). pose proof (block_size_le s Hs).
  destruct ok; cycle 1.
  { apply wp_ret. constructor; [done..|]. intros Hr. by specialize (Hall Hr). }
  wp_rule. apply wp_load_io; [done|lia..|]. apply wp_ret.
  constructor; [done|done|done| |done]. intros i [= <-].
  destruct (inv_io_eq s1 Hs1) as (_ & Hz & Hok). split_and!; [done| |].
  - apply inode_ok_of_bytes; [by apply slice_bytes_ok|]. apply zlen_slice; lia.
  - intros Hdr Hc Hin. unfold inode_at. rewrite <- Hblk by done. f_equal.
    destruct (block_step_same s s1 Hstep) as (Hbs & _). symmetry. apply slice_io_block; lia || done.
Qed.

Record write_inode_post (drive n : Z) i s (ok : bool) s' : Prop := {
  wi_step : block_step s s';
  wi_frame : drive = drive_index (fs s) -> block_in s (inode_block s n) ->
             forall b, block_in s b -> b <> inode_block s n -> disk_block s' b = disk_block s b;
  wi_ok : drive = drive_index (fs s) -> block_in s (inode_block s n) -> coherent s -> ok = true ->
          inode_exists s n /\ coherent s' /\
          disk_block s' (inode_block s n) =
            splice (inode_offset s n) (inode_bytes i) (disk_block s (inode_block s n));
}.

Lemma wp_write_inode drive n i s :
  inv s -> inode_ok i -> wp (ext2_write_inode drive n i) s (write_inode_post drive n i s).
Proof.
  intros Hs Hi. unfold ext2_write_inode. destruct (Z.eqb_spec n 0) as [->|Hn].
  { apply wp_ret. by constructor; [apply block_step_refl|..]. }
  wp_rule. eapply wp_mono; [by apply wp_inode_location|].
  intros r s0 (-> & [[Hex ->]|[Hex ->]]); cycle 1.
  { apply wp_ret. by constructor; [apply block_step_refl|..]. }
  wp_rule. eapply wp_mono; [apply wp_read_block; [done|apply inode_block_range]|].
  intros ok s1 [Hstep Hdisk Hcoh Hblk Hall]. pose proof (step_inv _ _ Hstep) as Hs1.
  destruct (inode_geometry s n Hs) as (Hipb & Hg & Hidx & Ho & Hfit). pose proof (block_size_le s Hs).
  pose proof (zlen_inode_bytes i Hi) as Hzi.
  destruct ok; cycle 1.
  { apply wp_ret. constructor; [done| |done]. intros _ _ b _ _. by apply disk_block_same. }
  wp_rule. apply wp_store_io; [done|lia|lia|apply inode_bytes_ok|]. intros Hs2.
  set (s2 := set_io _ s1) in *.
  assert (block_step s1 s2) as Hstep2.
  { constructor; [done|]. by destruct s1 as [[]]. }
  assert (block_step s s2) as Hstep12 by by eapply block_step_trans.
  eapply wp_mono; [apply wp_write_block; [done|apply inode_block_range]|].
  intros ok s3 [Hstep3 Hio _ Hframe Hcont Hcoh3 _].
  pose proof (block_step_same s s2 Hstep12) as (Hbs2 & Hdr2 & Hspb2).
  assert (forall b, disk_block s2 b = disk_block s b) as Hdb.
  { intros b. by apply disk_block_same. }
  rewrite Hdr2 in *. constructor.
  - by eapply block_step_trans.
  - intros Hdr Hin b Hb Hne. rewrite Hframe; [apply Hdb|done|..]; by apply (block_in_same s s2) || done.
  - intros Hdr Hin Hc Hok. apply (block_in_same s s2) in Hin as Hin2; [|done].
    assert (coherent s2) as Hc2.
    { unfold coherent. change (cache (fs s2)) with (cache (fs s1)).
      eapply Forall_impl; [by apply Hcoh|]. intros e. by apply coherent_entry_same. }
    split_and!; [done|by apply Hcoh3|]. rewrite Hcont by done. unfold io_block.
    rewrite Hbs2. change (io s2) with (splice (inode_offset s n) (inode_bytes i) (io s1)).
    rewrite <- Hblk by done. unfold io_block.
    destruct (block_step_same s s1 Hstep) as (-> & _).
    destruct (inv_io_eq s1 Hs1) as (_ & Hz & _). apply slice_0_splice; lia.
Qed.
End inode.
