(* ===== verification/Ext2Safe.v ===== *)
(** A mounted ext2 file system stays well formed: the operations of fs/ext2.c
    on inodes, bitmaps and file blocks return, whatever the disk holds. *)
From S2P Require Import Prelude Wp PageAllocator Bytes BlockDevice Ext2 Ext2Inv Ext2Block.
From S2P Require Import Ext2Inode.
Import Ext2.

(** ** Updating an inode *)

Definition u32_ok (v : Z) : Prop := 0 <= v < 2 ^ 32.
Definition u16_ok (v : Z) : Prop := 0 <= v < 2 ^ 16.

Lemma wrap32_ok v : u32_ok (u32 v).
Proof. apply wrap_range. lia. Qed.
Lemma wrap16_ok v : u16_ok (u16 v).
Proof. apply wrap_range. lia. Qed.

Lemma fields_ok_replicate n w vs :
  fields_ok (replicate n w) vs <-> length vs = n /\ Forall (fun v => 0 <= v < 256 ^ Z.of_nat w) vs.
Proof.
  unfold fields_ok. split.
  - intros H. split; [apply Forall2_length in H; by rewrite length_replicate in H|].
    revert n H. induction vs as [|v vs IH]; intros [|n] H; inversion H; subst; constructor; eauto.
  - intros [<- H]. induction H; cbn; by constructor.
Qed.

Lemma inode_ok_alt i :
  inode_ok i <->
  fields_ok [2; 2; 4; 4; 4; 4; 4; 2; 2; 4; 4; 4]%nat
    [i_mode i; i_uid i; i_size i; i_atime i; i_ctime i; i_mtime i; i_dtime i; i_gid i;
     i_links_count i; i_blocks i; i_flags i; i_osd1 i] /\
  (length (i_block i) = 15%nat /\ Forall u32_ok (i_block i)) /\
  fields_ok [4; 4; 4; 4]%nat [i_generation i; i_file_acl i; i_dir_acl i; i_faddr i] /\
  fields_ok (replicate 12 1%nat) (i_osd2 i).
Proof.
  unfold inode_ok, inode_layout, inode_values. change u32_ok with (fun v => 0 <= v < 256 ^ Z.of_nat 4).
  rewrite <- fields_ok_replicate. unfold fields_ok. split.
  - intros [Hb H]. apply Forall2_app_inv in H as [H1 H]; [|done].
    apply Forall2_app_inv in H as [H2 H]; [|by rewrite length_replicate].
    by apply Forall2_app_inv in H as [H3 H4].
  - intros (H1 & H2 & H3 & H4). split; [apply Forall2_length in H2; by rewrite length_replicate in H2|].
    by repeat apply Forall2_app.
Qed.

Ltac inode_ok_setter :=
  rewrite !inode_ok_alt; unfold fields_ok; cbn; rewrite !Forall2_cons;
  unfold u32_ok, u16_ok in *; cbn; intros [? ?] ?; destruct_and!; split_and!; done.

Lemma inode_ok_size v i : inode_ok i -> u32_ok v -> inode_ok (set_i_size v i).
Proof. inode_ok_setter. Qed.
Lemma inode_ok_atime v i : inode_ok i -> u32_ok v -> inode_ok (set_i_atime v i).
Proof. inode_ok_setter. Qed.
Lemma inode_ok_mtime v i : inode_ok i -> u32_ok v -> inode_ok (set_i_mtime v i).
Proof. inode_ok_setter. Qed.
Lemma inode_ok_dtime v i : inode_ok i -> u32_ok v -> inode_ok (set_i_dtime v i).
Proof. inode_ok_setter. Qed.
Lemma inode_ok_blocks v i : inode_ok i -> u32_ok v -> inode_ok (set_i_blocks v i).
Proof. inode_ok_setter. Qed.
Lemma inode_ok_links v i : inode_ok i -> u16_ok v -> inode_ok (set_i_links_count v i).
Proof. inode_ok_setter. Qed.
Lemma inode_ok_mode v i : inode_ok i -> u16_ok v -> inode_ok (set_i_mode v i).
Proof. inode_ok_setter. Qed.

Lemma inode_ok_block k v i : inode_ok i -> u32_ok v -> inode_ok (set_i_block_at k v i).
Proof.
  rewrite !inode_ok_alt. intros (H1 & [H2 H3] & H4 & H5) Hv. split_and!; try done; cbn.
  - by rewrite length_array_set.
  - by apply Forall_array_set.
Qed.

Lemma inode_ok_zero : inode_ok zero_inode.
Proof.
  split; [done|]. unfold fields_ok, inode_layout, inode_values, zero_inode. cbn.
  repeat (constructor; [done|]). constructor.
Qed.

Lemma i_block_at_ok k i : inode_ok i -> u32_ok (i_block_at k i).
Proof.
  rewrite inode_ok_alt. intros (_ & [_ H] & _). unfold i_block_at. apply Forall_array_get; [done|]. unfold u32_ok. lia.
Qed.

Lemma i_size_ok i : inode_ok i -> u32_ok (i_size i).
Proof.
  rewrite inode_ok_alt. intros (H & _). unfold fields_ok in H. rewrite !Forall2_cons in H.
  by destruct_and!.
Qed.

#[export] Hint Resolve wrap32_ok wrap16_ok inode_ok_size inode_ok_atime inode_ok_mtime inode_ok_dtime
  inode_ok_blocks inode_ok_links inode_ok_mode inode_ok_block inode_ok_zero i_block_at_ok : wp.

Section safe.
Context {A D : Type} `{!PageAllocator A, !BlockDevice D, !BlockDeviceSpec D}.
Abbreviation state := (ext2_state A D).
Implicit Types s : state.

(** ** Steps of a mounted file system *)

(** What the operations on one file or directory leave alone. *)
Record fs_step s s' : Prop := {
  fstep_inv : inv s';
  fstep_drive : drive_index (fs s') = drive_index (fs s);
  fstep_block_size : block_size (fs s') = block_size (fs s);
  fstep_ipg : inodes_per_group (fs s') = inodes_per_group (fs s);
  fstep_groups : groups_count (fs s') = groups_count (fs s);
  fstep_files : open_files (fs s') = open_files (fs s);
  fstep_dir : current_dir (fs s') = current_dir (fs s);
}.

Lemma fs_step_refl s : inv s -> fs_step s s.
Proof. by constructor. Qed.

Lemma fs_step_trans s1 s2 s3 : fs_step s1 s2 -> fs_step s2 s3 -> fs_step s1 s3.
Proof. intros [] []. constructor; congruence. Qed.

Lemma fs_step_block s0 s s' : fs_step s0 s -> block_step s s' -> fs_step s0 s'.
Proof. intros H [Hi Hf]. eapply fs_step_trans; [done|]. constructor; [done|by rewrite Hf..]. Qed.

Lemma fs_step_io s0 s l : fs_step s0 s -> inv (set_io l s) -> fs_step s0 (set_io l s).
Proof. intros H Hi. eapply fs_step_trans; [done|]. by constructor. Qed.

Lemma safe_read_block drive b s0 s :
  fs_step s0 s -> u32_ok b -> wp (ext2_read_block drive b Io) s (fun _ s' => fs_step s0 s').
Proof.
  intros H Hb. eapply wp_mono; [apply wp_read_block; [apply H|done]|]. intros ok s' [].
  by eapply fs_step_block.
Qed.

Lemma safe_write_block drive b s0 s :
  fs_step s0 s -> u32_ok b -> wp (ext2_write_block drive b Io) s (fun _ s' => fs_step s0 s').
Proof.
  intros H Hb. eapply wp_mono; [apply wp_write_block; [apply H|done]|]. intros ok s' [].
  by eapply fs_step_block.
Qed.

Lemma safe_read_inode drive n s0 s :
  fs_step s0 s ->
  wp (ext2_read_inode drive n) s (fun r s' =>
    fs_step s0 s' /\ forall i, r = Some i -> inode_ok i /\ inode_exists s0 n).
Proof.
  intros H. eapply wp_mono; [apply wp_read_inode, H|]. intros r s' [Hs _ _ Hr].
  split; [by eapply fs_step_block|]. intros i Hi. destruct (Hr i Hi) as ([Hn Hex] & ? & _).
  split; [done|]. unfold inode_exists, inode_group in *.
  by rewrite (fstep_ipg _ _ H), (fstep_groups _ _ H) in Hex.
Qed.

Lemma safe_write_inode drive n i s0 s :
  fs_step s0 s -> inode_ok i -> wp (ext2_write_inode drive n i) s (fun _ s' => fs_step s0 s').
Proof.
  intros H Hi. eapply wp_mono; [by apply wp_write_inode; [apply H|]|]. intros ok s' [].
  by eapply fs_step_block.
Qed.

(** ** Access to buffers and descriptors *)

Lemma safe_store_io off src s0 s :
  fs_step s0 s -> 0 <= off -> off + zlen src <= 8192 -> bytes_ok src ->
  wp (store Io off src) s (fun _ s' => fs_step s0 s').
Proof.
  intros H Ho Hl Hok. apply wp_store_io; [apply H|done..|]. intros Hi. by apply fs_step_io.
Qed.

Lemma safe_io_zero s0 s : fs_step s0 s -> wp io_zero s (fun _ s' => fs_step s0 s').
Proof.
  intros H. unfold io_zero. do 2 wp_rule. pose proof (block_size_le s (fstep_inv _ _ H)).
  apply safe_store_io; [done|lia| |apply zeros_ok]. unfold zlen. rewrite length_replicate. lia.
Qed.

Lemma safe_io_get n off s0 s :
  fs_step s0 s -> 0 <= off -> off + Z.of_nat n <= 8192 ->
  wp (io_get n off) s (fun v s' => fs_step s0 s' /\ 0 <= v < 256 ^ Z.of_nat n).
Proof.
  intros H Ho Hn. unfold io_get. wp_rule. apply wp_load_io; [apply H|lia..|]. wp_rule.
  split; [done|]. destruct (inv_io_eq s (fstep_inv _ _ H)) as (_ & Hz & Hok).
  pose proof (un_le_range _ (slice_bytes_ok off (Z.of_nat n) _ Hok)) as Hr.
  by rewrite length_slice, Nat2Z.id in Hr by lia.
Qed.

Lemma safe_io_put n off v s0 s :
  fs_step s0 s -> 0 <= off -> off + Z.of_nat n <= 8192 ->
  wp (io_put n off v) s (fun _ s' => fs_step s0 s').
Proof.
  intros H Ho Hn. apply safe_store_io; [done|lia| |apply le_bytes_ok].
  unfold zlen. rewrite length_le. lia.
Qed.

Lemma safe_gd_get n bg field s0 s :
  fs_step s0 s -> 0 <= bg < groups_count (fs s) -> 0 <= field -> field + Z.of_nat n <= 32 ->
  wp (gd_get n bg field) s (fun v s' => s' = s /\ 0 <= v < 256 ^ Z.of_nat n).
Proof.
  intros H Hbg Hf Hn. apply wp_gd_get; [apply H|done..|]. split; [done|].
  apply gd_field_range; [apply H|done..].
Qed.

Lemma fs_ok_group_descs f p p' :
  fs_ok f -> group_descs f = Some p -> zlen (page_bytes p') = zlen (page_bytes p) ->
  bytes_ok (page_bytes p') -> fs_ok (set_group_descs (Some p') f).
Proof.
  intros [] Hp Hl Hok. constructor; cbn; try done. exists p'. split_and!; [done| |done].
  rewrite Hl. destruct ok_group_descs as (q & Hq & ? & _). congruence.
Qed.

Lemma safe_gd_put n bg field v s0 s :
  fs_step s0 s -> 0 <= bg < groups_count (fs s) -> 0 <= field -> field + Z.of_nat n <= 32 ->
  wp (gd_put n bg field v) s (fun _ s' => fs_step s0 s').
Proof.
  intros H Hbg Hf Hn. pose proof (fstep_inv _ _ H) as Hs.
  destruct (ok_group_descs _ (inv_fs s Hs)) as (p & Hp & Hl & Hok).
  unfold gd_put, wp, store. cbn [buffer_bytes]. rewrite Hp. cbn [fmap option_fmap option_map compose].
  change (drop (Z.to_nat 0) (page_bytes p)) with (page_bytes p).
  assert (zlen (le n v) = Z.of_nat n) as Hz by (unfold zlen; by rewrite length_le).
  rewrite (proj2 (Z.leb_le _ _)) by lia. unfold set_buffer. set (l := splice _ _ _).
  assert (zlen l = zlen (page_bytes p)) as Hzl by (apply zlen_splice; lia).
  eapply fs_step_trans; [done|]. constructor; [|done..].
  apply inv_on_fs; [done|]. rewrite Hp. cbn [fmap option_fmap option_map].
  eapply fs_ok_group_descs; [apply inv_fs, Hs|done|done|].
  apply splice_bytes_ok; [apply le_bytes_ok|done].
Qed.

Lemma safe_sb_get field s0 s :
  fs_step s0 s -> 0 <= field -> field + 4 <= 4096 ->
  wp (sb_get field) s (fun v s' => s' = s /\ u32_ok v).
Proof.
  intros H Hf Hle. destruct (ok_superblock _ (inv_fs s (fstep_inv _ _ H))) as (p & Hp & Hl & Hok).
  unfold sb_get, wp. rewrite Hp. split; [done|]. unfold get32, u32_ok.
  pose proof (un_le_range _ (slice_bytes_ok field 4 _ Hok)) as Hr. by rewrite length_slice in Hr by lia.
Qed.

Lemma safe_sb_put field v s0 s :
  fs_step s0 s -> 0 <= field -> field + 4 <= 4096 ->
  wp (sb_put field v) s (fun _ s' => fs_step s0 s').
Proof.
  intros H Hf Hle. pose proof (fstep_inv _ _ H) as Hs.
  destruct (ok_superblock _ (inv_fs s Hs)) as (p & Hp & Hl & Hok).
  apply wp_modify. eapply fs_step_trans; [done|]. constructor; [|done..].
  apply inv_on_fs; [done|]. rewrite Hp. cbn [fmap option_fmap option_map].
  destruct (inv_fs s Hs). constructor; try done. eexists. split; [done|].
  assert (zlen (le 4 v) = 4) as Hz by (unfold zlen; by rewrite length_le).
  split; [unfold put32; cbn [page_bytes page_with]; rewrite zlen_splice; lia|].
  apply splice_bytes_ok; [apply le_bytes_ok|done].
Qed.
End safe.
