(* ===== verification/Ext2Alloc.v ===== *)
(** Allocation of blocks and inodes in fs/ext2.c: the first clear bit of a
    bitmap, and what the allocators do to the disk. *)
From S2P Require Import Prelude Wp PageAllocator Bytes BlockDevice Ext2 Ext2Inv Ext2Block.
From S2P Require Import Ext2Inode Ext2Safe.
Import Ext2.

(** ** [find_free_bit] *)

(** Bit [k] of a bitmap. *)
Definition bit_of (l : list Z) (k : Z) : bool := Z.testbit (array_get 0 l (k / 8)) (k mod 8).

Lemma find_zero_bit_spec byte n : forall j,
  0 <= j ->
  match find_zero_bit byte n j with
  | Some k => j <= k < j + Z.of_nat n /\ Z.testbit byte k = false /\
              (forall i, j <= i < k -> Z.testbit byte i = true)
  | None => forall i, j <= i < j + Z.of_nat n -> Z.testbit byte i = true
  end.
Proof.
  induction n as [|n IH]; intros j Hj; cbn [find_zero_bit]; [intros; lia|].
  rewrite land_pow2_testbit by done. destruct (Z.testbit byte j) eqn:E; cbn [negb].
  - specialize (IH (j + 1) ltac:(lia)). destruct (find_zero_bit byte n (j + 1)) as [k|].
    + destruct IH as (Hk & Hz & Hlow). split_and!; [lia|lia|done|].
      intros i Hi. destruct (decide (i = j)) as [->|]; [done|]. apply Hlow. lia.
    + intros i Hi. destruct (decide (i = j)) as [->|]; [done|]. apply IH. lia.
  - split_and!; [lia|lia|done|cbv beta]. intros i Hi. lia.
Qed.

Lemma bit_of_cons_lt byte l k : 0 <= k < 8 -> bit_of (byte :: l) k = Z.testbit byte k.
Proof. intros Hk. unfold bit_of. by rewrite Z.div_small, Z.mod_small by lia. Qed.

Lemma bit_of_cons_ge byte l k : 8 <= k -> bit_of (byte :: l) k = bit_of l (k - 8).
Proof.
  intros Hk. unfold bit_of. replace k with (k - 8 + 1 * 8) at 1 2 by lia.
  rewrite Z.div_add, Z.mod_add by lia. unfold array_get.
  assert (0 <= (k - 8) / 8) by (apply Z.div_pos; lia).
  replace (Z.to_nat ((k - 8) / 8 + 1)) with (S (Z.to_nat ((k - 8) / 8))) by lia. done.
Qed.

Lemma testbit_255 i : 0 <= i < 8 -> Z.testbit 255 i = true.
Proof. intros Hi. change 255 with (Z.ones 8). by apply Z.ones_spec_low. Qed.

Lemma find_free_bit_from_spec l : forall i,
  0 <= i ->
  let r := find_free_bit_from i l in
  (r = -1 /\ forall k, 0 <= k < 8 * zlen l -> bit_of l k = true) \/
  (exists k, r = 8 * i + k /\ 0 <= k < 8 * zlen l /\ bit_of l k = false /\
             forall k', 0 <= k' < k -> bit_of l k' = true).
Proof.
  induction l as [|byte l IH]; intros i Hi r.
  { left. split; [done|]. unfold zlen. cbn. lia. }
  assert (zlen (byte :: l) = zlen l + 1) as Hz by (unfold zlen; cbn; lia).
  assert (r = find_free_bit_from i (byte :: l)) as Hr by done. clearbody r. cbn [find_free_bit_from] in Hr.
  assert (0 <= zlen l) by (unfold zlen; lia).
  specialize (IH (i + 1) ltac:(lia)). cbv zeta in IH.
  assert ((forall k, 0 <= k < 8 -> Z.testbit byte k = true) -> r = find_free_bit_from (i + 1) l ->
    (r = -1 /\ (forall k, 0 <= k < 8 * zlen (byte :: l) -> bit_of (byte :: l) k = true)) \/
    (exists k, r = 8 * i + k /\ 0 <= k < 8 * zlen (byte :: l) /\ bit_of (byte :: l) k = false /\
               forall k', 0 <= k' < k -> bit_of (byte :: l) k' = true)) as Hnext.
  { intros Hfull Hr'. rewrite <- Hr' in IH. destruct IH as [[-> Hall]|(k & -> & Hk & Hb & Hlow)].
    - left. split; [done|cbv beta]. intros k Hk. destruct (decide (k < 8)).
      + rewrite bit_of_cons_lt by lia. apply Hfull. lia.
      + rewrite bit_of_cons_ge by lia. apply Hall. lia.
    - right. exists (k + 8). split_and!; [lia|lia|lia| |].
      + rewrite bit_of_cons_ge by lia. by replace (k + 8 - 8) with k by lia.
      + intros k' Hk'. destruct (decide (k' < 8)).
        * rewrite bit_of_cons_lt by lia. apply Hfull. lia.
        * rewrite bit_of_cons_ge by lia. apply Hlow. lia. }
  revert Hr. destruct (Z.eqb_spec byte 255) as [->|Hne]; intros Hr.
  { apply Hnext; [apply testbit_255|done]. }
  pose proof (find_zero_bit_spec byte 8 0 ltac:(lia)) as Hbit.
  revert Hr. destruct (find_zero_bit byte 8 0) as [j|]; intros Hr; cycle 1.
  { apply Hnext; [|done]. intros k Hk. apply Hbit. lia. }
  destruct Hbit as (Hj & Hb & Hlow). right. exists j. split_and!; [lia|lia|lia| |].
  - by rewrite bit_of_cons_lt by lia.
  - intros k' Hk'. rewrite bit_of_cons_lt by lia. apply Hlow. lia.
Qed.

(** The result is the lowest clear bit, [-1] when there is none. *)
Lemma find_free_bit_spec l :
  let r := find_free_bit l in
  (r = -1 /\ forall k, 0 <= k < 8 * zlen l -> bit_of l k = true) \/
  (0 <= r < 8 * zlen l /\ bit_of l r = false /\ forall k, 0 <= k < r -> bit_of l k = true).
Proof.
  cbv zeta. destruct (find_free_bit_from_spec l 0 ltac:(lia)) as [H|(k & Hr & Hk & Hb & Hlow)]; [by left|].
  right. replace (find_free_bit l) with k by (unfold find_free_bit; lia). split_and!; [lia|lia|done|done].
Qed.

Section alloc.
Context {A D : Type} `{!PageAllocator A, !BlockDevice D, !BlockDeviceSpec D}.
Abbreviation state := (ext2_state A D).
Implicit Types s : state.

(** ** The allocators return *)

Lemma safe_allocate_in_groups drive fc bf finish n : forall bg s0 s,
  fs_step s0 s -> 0 <= bg -> bg + Z.of_nat n <= groups_count (fs s0) ->
  (fc = bg_free_blocks_count \/ fc = bg_free_inodes_count) ->
  (bf = bg_block_bitmap \/ bf = bg_inode_bitmap) ->
  (forall bg bit s1, fs_step s0 s1 -> 0 <= bg < groups_count (fs s0) ->
     wp (finish bg bit) s1 (fun b s' => fs_step s0 s' /\ u32_ok b)) ->
  wp (allocate_in_groups drive fc bf finish n bg) s (fun b s' => fs_step s0 s' /\ u32_ok b).
Proof.
  induction n as [|n IH]; intros bg s0 s H Hbg Hn Hfc Hbf Hfin.
  { by apply wp_ret. }
  cbn [allocate_in_groups]. cbv zeta.
  assert (forall s1, fs_step s0 s1 ->
    wp (allocate_in_groups drive fc bf finish n (bg + 1)) s1 (fun b s' => fs_step s0 s' /\ u32_ok b)) as Hcont.
  { intros s1 H1. apply IH; try done; lia. }
  pose proof (fstep_groups _ _ H) as Hg.
  unfold bg_free_blocks_count, bg_free_inodes_count, bg_block_bitmap, bg_inode_bitmap in *.
  wp_rule. eapply wp_mono; [eapply safe_gd_get; [done|lia..]|cbv beta]. intros count s1 [-> _].
  wp_rule; [by apply Hcont|].
  wp_rule. eapply wp_mono; [eapply safe_gd_get; [done|lia..]|cbv beta]. intros b s1 [-> Hb].
  wp_rule. eapply wp_mono; [eapply safe_read_block; [done|apply Hb]|cbv beta]. intros ok s1 H1.
  wp_rule; [by apply Hcont|].
  do 2 wp_rule. pose proof (fstep_inv _ _ H1) as Hs1. destruct (block_size_le s1 Hs1) as [Hbs _].
  wp_rule. apply wp_load_io; [done|lia..|]. fold (io_block s1).
  wp_rule; [by apply Hcont|]. rename Heqb1 into Hbit.
  destruct (find_free_bit_spec (io_block s1)) as [[Hf _]|(Hrange & _)]; [rewrite Hf in Hbit; done|].
  rewrite zlen_io_block in Hrange by done.
  set (bit := find_free_bit _) in *.
  assert (0 <= bit / 8 < block_size (fs s1)).
  { split; [apply Z.div_pos; lia|]. apply Z.div_lt_upper_bound; lia. }
  wp_rule. eapply wp_mono; [eapply safe_io_get; [done|lia..]|cbv beta]. intros byte s2 [H2 _].
  wp_rule. eapply wp_mono; [eapply safe_io_put; [done|lia..]|cbv beta]. intros ? s3 H3.
  wp_rule. eapply wp_mono; [eapply safe_write_block; [done|apply Hb]|cbv beta]. intros ok' s4 H4.
  wp_rule; [by apply wp_ret|]. apply Hfin; [done|lia].
Qed.

Lemma safe_finish_block drive bg bit s0 s :
  fs_step s0 s -> 0 <= bg < groups_count (fs s0) ->
  wp (finish_block drive bg bit) s (fun b s' => fs_step s0 s' /\ u32_ok b).
Proof.
  intros H Hbg. unfold finish_block, s_first_data_block, s_free_blocks_count, bg_free_blocks_count.
  do 2 wp_rule. wp_rule. eapply wp_mono; [eapply safe_sb_get; [done|lia..]|cbv beta]. intros first s1 [-> _].
  cbv zeta. wp_rule. eapply wp_mono; [eapply safe_sb_get; [done|lia..]|cbv beta]. intros free s1 [-> _].
  wp_rule. eapply wp_mono; [eapply safe_sb_put; [done|lia..]|cbv beta]. intros ? s1 H1.
  pose proof (fstep_groups _ _ H1) as Hg.
  wp_rule. eapply wp_mono; [eapply safe_gd_get; [done|lia..]|cbv beta]. intros count s2 [-> _].
  wp_rule. eapply wp_mono; [eapply safe_gd_put; [done|lia..]|cbv beta]. intros ? s2 H2.
  wp_rule. eapply wp_mono; [by eapply safe_io_zero|cbv beta]. intros ? s3 H3.
  wp_rule. eapply wp_mono; [eapply safe_write_block; [done|apply wrap32_ok]|cbv beta]. intros ? s4 H4.
  wp_rule. split; [done|apply wrap32_ok].
Qed.

Lemma safe_finish_inode drive bg bit s0 s :
  fs_step s0 s -> 0 <= bg < groups_count (fs s0) ->
  wp (finish_inode drive bg bit) s (fun n s' => fs_step s0 s' /\ u32_ok n).
Proof.
  intros H Hbg. unfold finish_inode, s_free_inodes_count, bg_free_inodes_count.
  do 2 wp_rule. cbv zeta. wp_rule. eapply wp_mono; [eapply safe_sb_get; [done|lia..]|cbv beta]. intros free s1 [-> _].
  wp_rule. eapply wp_mono; [eapply safe_sb_put; [done|lia..]|cbv beta]. intros ? s1 H1.
  pose proof (fstep_groups _ _ H1) as Hg.
  wp_rule. eapply wp_mono; [eapply safe_gd_get; [done|lia..]|cbv beta]. intros count s2 [-> _].
  wp_rule. eapply wp_mono; [eapply safe_gd_put; [done|lia..]|cbv beta]. intros ? s2 H2.
  wp_rule. eapply wp_mono; [eapply safe_write_inode; [done|apply inode_ok_zero]|cbv beta]. intros ? s4 H4.
  wp_rule. split; [done|apply wrap32_ok].
Qed.

Lemma safe_allocate_block drive s0 s :
  fs_step s0 s -> wp (ext2_allocate_block drive) s (fun b s' => fs_step s0 s' /\ u32_ok b).
Proof.
  intros H. unfold ext2_allocate_block, s_free_blocks_count. do 2 wp_rule.
  rewrite (inv_mounted s (fstep_inv _ _ H)). cbn [negb].
  wp_rule. eapply wp_mono; [eapply safe_sb_get; [done|lia..]|cbv beta]. intros free s1 [-> _].
  wp_rule; [by apply wp_ret|]. do 2 wp_rule. rewrite (fstep_groups _ _ H).
  pose proof (ok_groups_count _ (inv_fs s (fstep_inv _ _ H))) as Hg. rewrite (fstep_groups _ _ H) in Hg.
  apply safe_allocate_in_groups; [done|lia|lia|by left|by left|].
  intros. by apply safe_finish_block.
Qed.

Lemma safe_allocate_inode drive s0 s :
  fs_step s0 s -> wp (ext2_allocate_inode drive) s (fun n s' => fs_step s0 s' /\ u32_ok n).
Proof.
  intros H. unfold ext2_allocate_inode, s_free_inodes_count. do 2 wp_rule.
  rewrite (inv_mounted s (fstep_inv _ _ H)). cbn [negb].
  wp_rule. eapply wp_mono; [eapply safe_sb_get; [done|lia..]|cbv beta]. intros free s1 [-> _].
  wp_rule; [by apply wp_ret|]. do 2 wp_rule. rewrite (fstep_groups _ _ H).
  pose proof (ok_groups_count _ (inv_fs s (fstep_inv _ _ H))) as Hg. rewrite (fstep_groups _ _ H) in Hg.
  apply safe_allocate_in_groups; [done|lia|lia|by right|by right|].
  intros. by apply safe_finish_inode.
Qed.
End alloc.
