(* ===== verification/Ext2Map.v ===== *)
(** The blocks of a file in fs/ext2.c: [get_block_from_inode] and
    [set_block_in_inode] against the direct and indirect pointers of the
    inode. *)
From S2P Require Import Prelude Wp PageAllocator Bytes BlockDevice Ext2 Ext2Inv Ext2Block.
From S2P Require Import Ext2Inode Ext2Safe Ext2Alloc.
Import Ext2.

(** ** Equations of the monad *)

Section monad.
Context {S : Type}.

Lemma bind_ext {R1 R2} (m : M S R1) (f g : R1 -> M S R2) s :
  (forall a s', f a s' = g a s') -> (m ≫= f) s = (m ≫= g) s.
Proof. intros H. unfold mbind, m_bind. by destruct (m s) as [[] s']. Qed.

Lemma bind_ret_r {R} (m : M S R) s : (m ≫= mret) s = m s.
Proof. unfold mbind, m_bind. by destruct (m s) as [[] s']. Qed.

Lemma bind_gets {R1 R2} (f : S -> R1) (k : R1 -> M S R2) s : (mgets f ≫= k) s = k (f s) s.
Proof. done. Qed.
End monad.

Lemma bind_mdiv {A D R} a b (k : Z -> M (ext2_state A D) R) s :
  b <> 0 -> (mdiv a b ≫= k) s = k (a / b) s.
Proof. intros Hb. unfold mdiv. by destruct (Z.eqb_spec b 0). Qed.

Section map.
Context {A D : Type} `{!PageAllocator A, !BlockDevice D, !BlockDeviceSpec D}.
Abbreviation state := (ext2_state A D).
Implicit Types s : state.

(** ** The reference: walking the pointer blocks *)

(** Pointer [k] of block [b]; block number zero is no block. *)
Definition ptr s (b k : Z) : Z :=
  if b =? 0 then 0 else un_le (slice (4 * k) 4 (disk_block s b)).

(** Block [idx] of a file: the slot of [i_block] and the pointers to follow,
    [p] pointers to a block. *)
Definition block_path (p idx : Z) : option (Z * list Z) :=
  if idx <? 12 then Some (idx, [])
  else
    let i := idx - 12 in
    if i <? p then Some (12, [i])
    else
      let i := i - p in
      if i <? p * p then Some (13, [i / p; i mod p])
      else
        let i := i - p * p in
        if i <? p * p * p then Some (14, [i / (p * p); (i / p) mod p; i mod p]) else None.

Fixpoint walk s (b : Z) (ks : list Z) : Z :=
  match ks with
  | [] => b
  | k :: ks => walk s (ptr s b k) ks
  end.

(** The blocks on the way are blocks the drive can address. *)
Fixpoint walk_in s (b : Z) (ks : list Z) : Prop :=
  match ks with
  | [] => True
  | k :: ks => (b = 0 \/ block_in s b) /\ walk_in s (ptr s b k) ks
  end.

Definition pointers s : Z := block_size (fs s) / 4.

(** Block [idx] according to the pointers; zero for a hole. *)
Definition mapped_block s (ino : ext2_inode_t) (idx : Z) : Z :=
  match block_path (pointers s) idx with
  | Some (r, ks) => walk s (i_block_at r ino) ks
  | None => 0
  end.

(** The block that holds byte [idx * block_size] of a file; zero for a hole
    and beyond the end of the file. *)
Definition file_block s (ino : ext2_inode_t) (idx : Z) : Z :=
  if i_size ino <=? idx * block_size (fs s) then 0 else mapped_block s ino idx.

Definition file_block_in s (ino : ext2_inode_t) (idx : Z) : Prop :=
  match block_path (pointers s) idx with
  | Some (r, ks) => walk_in s (i_block_at r ino) ks
  | None => True
  end.

Lemma pointers_cases s : inv s ->
  block_size (fs s) = 4 * pointers s /\ (pointers s = 256 \/ pointers s = 512 \/ pointers s = 1024).
Proof.
  intros Hs. unfold pointers.
  destruct (block_size_cases s Hs) as [H|[H|H]]; rewrite H; (split; [reflexivity|]);
    [left|right; left|right; right]; reflexivity.
Qed.

Lemma walk_0 s ks : walk s 0 ks = 0.
Proof. induction ks as [|k ks IH]; [done|]. cbn. apply IH. Qed.

(** ** Steps that change [io_buffer] and the cache only *)

Record load_step s s' : Prop := {
  load_block_step : block_step s s';
  load_disk : same_disk (disk s) (disk s');
  load_coherent : coherent s -> coherent s';
}.

Lemma load_step_refl s : inv s -> load_step s s.
Proof. intros Hs. constructor; [by apply block_step_refl|done..]. Qed.

Lemma load_step_trans s1 s2 s3 : load_step s1 s2 -> load_step s2 s3 -> load_step s1 s3.
Proof.
  intros [Ha Hb Hc] [Hd He Hf]. constructor; [by eapply block_step_trans| |by auto].
  intros k x. by rewrite He.
Qed.

Lemma ptr_same s s' b k : load_step s s' -> ptr s' b k = ptr s b k.
Proof. intros [Hs Hd _]. unfold ptr. by rewrite (disk_block_same s s'). Qed.

Lemma walk_same s s' ks b : load_step s s' -> walk s' b ks = walk s b ks.
Proof.
  intros H. revert b. induction ks as [|k ks IH]; intros b; [done|]. cbn. by rewrite IH, (ptr_same s s').
Qed.

Lemma walk_in_same s s' ks b : load_step s s' -> walk_in s b ks -> walk_in s' b ks.
Proof.
  intros H. revert b. induction ks as [|k ks IH]; intros b; [done|]. cbn. intros [Hb Hw].
  rewrite (ptr_same s s') by done. split; [|by apply IH].
  destruct Hb; [by left|right]. by apply (block_in_same s s' b (load_block_step _ _ H)).
Qed.

(** A block number that was looked up: [v] is the reference value [w], or zero
    after a failed read. *)
Definition looked_up (v w : Z) : Prop := v <> 0 \/ reads_succeed (D := D) -> v = w.

Lemma wp_read_ptr b k s :
  inv s -> u32_ok b -> 0 <= k < pointers s ->
  wp (read_ptr b k) s (fun v s' =>
    load_step s s' /\ u32_ok v /\ (b = 0 -> v = 0) /\
    (coherent s -> b = 0 \/ block_in s b -> looked_up v (ptr s b k))).
Proof.
  intros Hs Hb Hk. unfold read_ptr. destruct (Z.eqb_spec b 0) as [->|Hne].
  { apply wp_ret. split_and!; [by apply load_step_refl|done..|]. intros _ _ _. done. }
  destruct (pointers_cases s Hs) as [Hbs Hp]. pose proof (block_size_le s Hs) as [Hle _].
  do 2 wp_rule. wp_rule. eapply wp_mono; [by apply wp_read_block|cbv beta].
  intros ok s1 [Hstep Hd Hc Hval Hok]. pose proof (step_inv _ _ Hstep) as Hs1.
  assert (load_step s s1) as Hl by (constructor; [done|done|]; by apply Hc).
  destruct ok; cycle 1.
  { apply wp_ret. split_and!; [done..|]. intros _ _ [Hx|Hr]; [done|]. by specialize (Hok Hr). }
  unfold io_get. wp_rule. apply wp_load_io; [done|lia..|]. wp_rule.
  destruct (inv_io_eq s1 Hs1) as (_ & Hz & Hbok).
  pose proof (un_le_range _ (slice_bytes_ok (4 * k) 4 _ Hbok)) as Hr. rewrite length_slice in Hr by lia.
  split_and!; [done|apply Hr..|done|]. intros Hcoh [?|Hin] _; [done|]. unfold ptr.
  rewrite (proj2 (Z.eqb_neq _ _) Hne). rewrite <- Hval by done.
  destruct (block_step_same s s1 Hstep) as (Hb1 & _). by rewrite slice_io_block by (done || lia).
Qed.

(** Following pointers one after the other. *)
Fixpoint read_ptrs (b : Z) (ks : list Z) : M state Z :=
  match ks with
  | [] => mret b
  | k :: ks => v ← read_ptr b k; read_ptrs v ks
  end.

Lemma wp_read_ptrs ks : forall b s,
  inv s -> u32_ok b -> Forall (fun k => 0 <= k < pointers s) ks ->
  wp (read_ptrs b ks) s (fun v s' =>
    load_step s s' /\ u32_ok v /\ (b = 0 -> v = 0) /\
    (coherent s -> walk_in s b ks -> looked_up v (walk s b ks))).
Proof.
  induction ks as [|k ks IH]; intros b s Hs Hb Hks.
  { apply wp_ret. split_and!; [by apply load_step_refl|apply Hb..|done|]. by intros _ _ _. }
  apply Forall_cons in Hks as [Hk Hks]. cbn [read_ptrs]. wp_rule.
  eapply wp_mono; [by apply wp_read_ptr|cbv beta]. intros v s1 (Hl1 & Hv & Hv0 & Hval).
  pose proof (load_block_step _ _ Hl1) as Hstep1.
  eapply wp_mono.
  { apply IH; [apply Hstep1|done|]. unfold pointers. by destruct (block_step_same s s1 Hstep1) as (-> & _). }
  cbv beta. intros w s2 (Hl2 & Hw & Hw0 & Hval2).
  split_and!; [by eapply load_step_trans|apply Hw..|auto|].
  cbn. intros Hcoh [Hin Hwalk] Hor.
  assert (v = ptr s b k) as Hvp.
  { apply Hval; [done|done|]. destruct Hor as [Hne|Hr]; [left|by right]. intros Hz. apply Hne. auto. }
  subst v. rewrite <- (walk_same s s1) by done. apply Hval2; [by apply Hl1| |done].
  by apply (walk_in_same s s1).
Qed.

(** ** [get_block_from_inode] *)

(** The function as a walk along [block_path]. *)
Lemma get_block_path ino idx s :
  inv s -> inode_ok ino -> 0 <= idx ->
  get_block_from_inode ino idx s =
  (if u32 (i_size ino + block_size (fs s) - 1) / block_size (fs s) <=? idx then mret 0
   else match block_path (pointers s) idx with
        | Some (r, ks) => read_ptrs (i_block_at r ino) ks
        | None => mret 0
        end) s.
Proof.
  intros Hs Hi Hidx. destruct (pointers_cases s Hs) as [Hbs Hp].
  unfold get_block_from_inode. rewrite bind_gets, bind_mdiv by lia. fold (pointers s).
  unfold EXT2_NDIR_BLOCKS, EXT2_IND_BLOCK, EXT2_DIND_BLOCK, EXT2_TIND_BLOCK. cbv zeta.
  assert (u32 (pointers s * pointers s) = pointers s * pointers s) as ->
    by (apply wrap_small; destruct Hp as [-> | [-> | ->]]; lia).
  assert (u32 (pointers s * pointers s * pointers s) = pointers s * pointers s * pointers s) as ->
    by (apply wrap_small; destruct Hp as [-> | [-> | ->]]; lia).
  unfold block_path. cbv zeta.
  destruct (Z.leb_spec (u32 (i_size ino + block_size (fs s) - 1) / block_size (fs s)) idx) as [|Hmax]; [done|].
  pose proof (wrap_range 32 (i_size ino + block_size (fs s) - 1) ltac:(lia)) as Hu.
  assert (idx < 2 ^ 32) as Hidx32.
  { eapply Z.lt_le_trans; [exact Hmax|]. apply Z.div_le_upper_bound; lia. }
  destruct (Z.ltb_spec idx 12); [done|].
  destruct (Z.ltb_spec (idx - 12) (pointers s)); [by rewrite <- bind_ret_r|].
  destruct (Z.ltb_spec (idx - 12 - pointers s) (pointers s * pointers s)).
  { apply bind_ext. intros v s'. cbn [read_ptrs]. by rewrite <- bind_ret_r. }
  rewrite (wrap_small 32 (idx - 12 - pointers s - pointers s * pointers s)) by lia.
  destruct (Z.ltb_spec (idx - 12 - pointers s - pointers s * pointers s)
             (pointers s * pointers s * pointers s)); [|done].
  set (i := idx - 12 - pointers s - pointers s * pointers s) in *.
  assert (i mod (pointers s * pointers s) = i mod pointers s + pointers s * ((i / pointers s) mod pointers s))
    as Hmod by (apply Z.rem_mul_r; lia).
  pose proof (Z.mod_pos_bound i (pointers s) ltac:(lia)).
  assert (i mod (pointers s * pointers s) / pointers s = (i / pointers s) mod pointers s) as ->
    by (symmetry; apply (Z.div_unique_pos _ _ _ (i mod pointers s)); lia).
  assert ((i mod (pointers s * pointers s)) mod pointers s = i mod pointers s) as ->
    by (symmetry; apply (Z.mod_unique_pos _ _ ((i / pointers s) mod pointers s)); lia).
  apply bind_ext. intros v s'. cbn [read_ptrs]. apply bind_ext. intros w s2. by rewrite <- bind_ret_r.
Qed.

(** The indices on a path are inside a pointer block, the slot inside
    [i_block]. *)
Lemma block_path_ok p idx r ks :
  0 < p -> 0 <= idx -> block_path p idx = Some (r, ks) ->
  0 <= r < 15 /\ Forall (fun k => 0 <= k < p) ks.
Proof.
  intros Hp Hidx. unfold block_path. cbv zeta.
  assert (forall a, 0 <= a mod p < p) as Hmod by (intros a; apply Z.mod_pos_bound; lia).
  destruct (Z.ltb_spec idx 12); [intros [= <- <-]; split; [lia|constructor]|].
  destruct (Z.ltb_spec (idx - 12) p); [intros [= <- <-]; split; [lia|repeat constructor; lia]|].
  destruct (Z.ltb_spec (idx - 12 - p) (p * p)).
  { intros [= <- <-]. split; [lia|]. repeat constructor; try apply Hmod.
    - apply Z.div_pos; lia.
    - apply Z.div_lt_upper_bound; lia. }
  destruct (Z.ltb_spec (idx - 12 - p - p * p) (p * p * p)); [|done].
  intros [= <- <-]. split; [lia|]. repeat constructor; try apply Hmod.
  - apply Z.div_pos; nia.
  - apply Z.div_lt_upper_bound; nia.
Qed.

Lemma wp_get_block ino idx s :
  inv s -> inode_ok ino -> 0 <= idx ->
  wp (get_block_from_inode ino idx) s (fun b s' =>
    load_step s s' /\ u32_ok b /\
    (b <> 0 -> i_size ino + block_size (fs s) <= 2 ^ 32 /\ idx * block_size (fs s) < i_size ino) /\
    (coherent s -> i_size ino + block_size (fs s) <= 2 ^ 32 -> file_block_in s ino idx ->
     looked_up b (file_block s ino idx))).
Proof.
  intros Hs Hi Hidx. unfold wp. rewrite (get_block_path ino idx s Hs Hi Hidx).
  pose proof (i_size_ok ino Hi) as Hsize. unfold u32_ok in Hsize.
  pose proof (block_size_le s Hs) as [Hle Hbs].
  assert (i_size ino + block_size (fs s) <= 2 ^ 32 ->
          u32 (i_size ino + block_size (fs s) - 1) = i_size ino + block_size (fs s) - 1) as Hsmall
    by (intros; apply wrap_small; lia).
  assert (forall m, (u32 (i_size ino + block_size (fs s) - 1) / block_size (fs s) <=? idx) = m ->
    i_size ino + block_size (fs s) <= 2 ^ 32 ->
    (i_size ino <=? idx * block_size (fs s)) = m) as Hend.
  { intros m <- Hfit. rewrite Hsmall by done. apply Bool.eq_iff_eq_true. rewrite !Z.leb_le. split.
    - intros H. apply Z.lt_succ_r. apply Z.div_lt_upper_bound; lia.
    - intros H. pose proof (Z.div_mod (i_size ino + block_size (fs s) - 1) (block_size (fs s)) ltac:(lia)).
      pose proof (Z.mod_pos_bound (i_size ino + block_size (fs s) - 1) (block_size (fs s)) ltac:(lia)). nia. }
  destruct (_ <=? idx) eqn:Hm.
  { cbn. split_and!; [by apply load_step_refl|unfold u32_ok; lia..|done|].
    intros _ Hfit _ _. unfold file_block. by rewrite (Hend true). }
  destruct (pointers_cases s Hs) as [Hbp Hp].
  assert (i_size ino + block_size (fs s) <= 2 ^ 32) as Hfit.
  { destruct (decide (i_size ino + block_size (fs s) <= 2 ^ 32)) as [|Hbig]; [done|]. exfalso.
    apply Z.leb_gt in Hm. assert (u32 (i_size ino + block_size (fs s) - 1) < block_size (fs s)).
    { unfold wrap. rewrite <- (Z_mod_plus_full _ (-1)). rewrite Z.mod_small; lia. }
    rewrite Z.div_small in Hm; [lia|]. pose proof (wrap_range 32 (i_size ino + block_size (fs s) - 1)). lia. }
  specialize (Hend false eq_refl Hfit). pose proof Hend as Hlt%Z.leb_gt.
  fold (wp (match block_path (pointers s) idx with
            | Some (r, ks) => read_ptrs (i_block_at r ino) ks
            | None => mret 0
            end) s (fun b s' =>
    load_step s s' /\ u32_ok b /\
    (b <> 0 -> i_size ino + block_size (fs s) <= 2 ^ 32 /\ idx * block_size (fs s) < i_size ino) /\
    (coherent s -> i_size ino + block_size (fs s) <= 2 ^ 32 -> file_block_in s ino idx ->
     looked_up b (file_block s ino idx)))).
  unfold file_block, mapped_block, file_block_in. rewrite Hend.
  destruct (block_path (pointers s) idx) as [[r ks]|] eqn:Hpath; cycle 1.
  { apply wp_ret. split_and!; [by apply load_step_refl|unfold u32_ok; lia..|done|by intros _ _ _ _]. }
  apply block_path_ok in Hpath as [Hr Hks]; [|lia|done].
  eapply wp_mono; [apply wp_read_ptrs; [done|by apply i_block_at_ok|done]|cbv beta].
  intros b s' (Hl & Hb & _ & Hval). split_and!; [done|apply Hb..|done|]. intros Hc _ Hin. by apply Hval.
Qed.

Lemma safe_get_block ino idx s0 s :
  fs_step s0 s -> inode_ok ino -> 0 <= idx ->
  wp (get_block_from_inode ino idx) s (fun b s' =>
    fs_step s0 s' /\ u32_ok b /\
    (b <> 0 -> i_size ino + block_size (fs s0) <= 2 ^ 32 /\ idx * block_size (fs s0) < i_size ino)).
Proof.
  intros H Hi Hidx. eapply wp_mono; [apply wp_get_block; [apply H|done..]|cbv beta].
  intros b s' (Hl & Hb & Hlt & _). rewrite (fstep_block_size _ _ H) in Hlt.
  split_and!; [eapply fs_step_block; [done|apply Hl]|apply Hb..|done].
Qed.

(** ** [set_block_in_inode] *)

Lemma safe_set_block ino idx b s0 s :
  fs_step s0 s -> inode_ok ino -> 0 <= idx -> u32_ok b ->
  wp (set_block_in_inode ino idx b) s (fun r s' =>
    fs_step s0 s' /\ inode_ok (snd r) /\ i_size (snd r) = i_size ino).
Proof.
  intros H Hi Hidx Hb. unfold set_block_in_inode, EXT2_NDIR_BLOCKS.
  wp_rule. { apply wp_ret. split_and!; [done|by apply inode_ok_block|done]. }
  rename Heqb0 into Hge. apply Z.ltb_ge in Hge.
  pose proof (block_size_le s (fstep_inv _ _ H)) as [Hle _].
  do 2 wp_rule. cbv zeta. wp_rule; [|by apply wp_ret]. rename Heqb0 into Hlt. apply Z.ltb_lt in Hlt.
  assert (4 * (block_size (fs s) / 4) <= block_size (fs s)) as H4 by (apply Z.mul_div_le; lia).
  wp_rule.
  eapply (wp_mono _ _ (fun r s' => fs_step s0 s' /\ inode_ok (snd r) /\ i_size (snd r) = i_size ino)).
  { wp_rule; [|by apply wp_ret]. wp_rule. eapply wp_mono; [by eapply safe_allocate_block|cbv beta].
    intros ind s1 [H1 Hind]. cbv zeta.
    assert (inode_ok (set_i_block_at EXT2_IND_BLOCK ind ino)) by by apply inode_ok_block.
    wp_rule; [by apply wp_ret|]. wp_rule. eapply wp_mono; [by eapply safe_io_zero|cbv beta]. intros [] s2 H2.
    wp_rule. eapply wp_mono; [by eapply safe_write_block|cbv beta]. intros ok s3 H3. by apply wp_ret. }
  intros [ok ino'] s1 (H1 & Hi1 & Hsz). cbn [snd] in *.
  pose proof (i_block_at_ok EXT2_IND_BLOCK ino' Hi1) as Hind.
  wp_rule; [by apply wp_ret|]. wp_rule. eapply wp_mono; [by eapply safe_read_block|cbv beta]. intros ok2 s2 H2.
  wp_rule; [by apply wp_ret|]. wp_rule. eapply wp_mono; [eapply safe_io_put; [done|lia..]|cbv beta].
  intros [] s3 H3. wp_rule. eapply wp_mono; [by eapply safe_write_block|cbv beta]. intros ok3 s4 H4'.
  by apply wp_ret.
Qed.

(** Storing a pointer in an indirect block that is there: the block gets the
    pointer, the other blocks and the inode are unchanged. *)
Lemma wp_set_block_indirect ino idx b s :
  inv s -> inode_ok ino -> coherent s -> 12 <= idx < 12 + pointers s ->
  i_block_at 12 ino <> 0 -> block_in s (i_block_at 12 ino) ->
  wp (set_block_in_inode ino idx b) s (fun r s' =>
    block_step s s' /\ snd r = ino /\
    (fst r = true -> coherent s' /\
     disk_block s' (i_block_at 12 ino) =
       splice (4 * (idx - 12)) (le 4 b) (disk_block s (i_block_at 12 ino)) /\
     forall b', block_in s b' -> b' <> i_block_at 12 ino -> disk_block s' b' = disk_block s b')).
Proof.
  intros Hs Hi Hcoh Hidx Hne Hin. unfold set_block_in_inode, EXT2_NDIR_BLOCKS.
  rewrite (proj2 (Z.ltb_ge _ _)) by lia. do 2 wp_rule. cbv zeta. fold (pointers s).
  rewrite (proj2 (Z.ltb_lt _ _)) by lia. unfold EXT2_IND_BLOCK.
  rewrite (proj2 (Z.eqb_neq _ _) Hne). wp_rule. apply wp_ret. cbv beta zeta. cbn [negb].
  pose proof (i_block_at_ok 12 ino Hi) as Hind. destruct (pointers_cases s Hs) as [Hbs Hp].
  pose proof (block_size_le s Hs) as [Hle _].
  wp_rule. eapply wp_mono; [by apply wp_read_block|cbv beta]. intros ok s1 [Hstep1 Hd1 Hc1 Hv1 _].
  destruct ok; cbn [negb]; [|by apply wp_ret].
  specialize (Hv1 eq_refl Hcoh Hin eq_refl). pose proof (step_inv _ _ Hstep1) as Hs1.
  assert (zlen (le 4 b) = 4) as Hz4 by (unfold zlen; by rewrite length_le).
  wp_rule. unfold io_put. apply wp_store_io; [done|lia|lia|apply le_bytes_ok|]. intros Hs2.
  set (s2 := set_io _ s1) in *.
  assert (block_step s1 s2) as Hstep12 by (constructor; [done|]; by destruct s1 as [[]]).
  assert (block_step s s2) as Hstep2 by by eapply block_step_trans.
  assert (coherent s2) as Hc2.
  { unfold coherent. change (cache (fs s2)) with (cache (fs s1)).
    eapply Forall_impl; [by apply Hc1|]. intros e. by apply coherent_entry_same. }
  pose proof (block_step_same s s2 Hstep2) as (Hbs2 & Hdr2 & _).
  wp_rule. eapply wp_mono; [by apply wp_write_block|cbv beta]. intros ok s3 [Hstep3 _ _ Hframe Hcont Hcoh3 _].
  rewrite Hdr2 in *. apply wp_ret. cbn [fst snd].
  apply (block_in_same s s2) in Hin as Hin2; [|done].
  assert (forall b', disk_block s2 b' = disk_block s b') as Hdb.
  { intros b'. rewrite (disk_block_same s1 s2) by done. by apply disk_block_same. }
  split_and!; [by eapply block_step_trans|done|]. intros ->. split_and!; [by apply Hcoh3| |].
  - rewrite Hcont by done. unfold io_block. rewrite Hbs2.
    change (io s2) with (splice (4 * (idx - 12)) (le 4 b) (io s1)).
    destruct (inv_io_eq s1 Hs1) as (_ & Hz & _). rewrite slice_0_splice by lia. f_equal.
    rewrite <- Hv1. unfold io_block. by destruct (block_step_same s s1 Hstep1) as (-> & _).
  - intros b' Hb' Hneb. rewrite <- Hdb. apply Hframe; try done. by apply (block_in_same s s2).
Qed.
End map.
