(* ===== verification/Ext2Spec.v ===== *)
(** Correctness of the lower half of fs/ext2.c: blocks, inodes and the blocks
    of a file. *)
From S2P Require Import Prelude Wp PageAllocator Bytes BlockDevice Ext2 Ext2Inv Ext2Block.
From S2P Require Import Ext2Inode Ext2Safe Ext2Alloc Ext2Map.
Import Ext2.

Section spec.
Context {A D : Type} `{!PageAllocator A, !BlockDevice D, !BlockDeviceSpec D}.
Abbreviation state := (ext2_state A D).
Implicit Types s : state.

(** C4: The block layer of a mounted file system refines the disk.  As long
    as the cache agrees with the disk, reading a block of the mounted drive
    returns, leaves every block of the disk as it is, and on success puts the
    contents of the block in [io_buffer]; writing it returns, changes no other
    block, and on success the disk holds the bytes of [io_buffer].  The cache
    agrees with the disk after every read and every successful write. *)
Theorem block_layer_refines_disk s b :
  inv s -> coherent s -> block_in s b -> u32_ok b ->
  (exists ok s', ext2_read_block (drive_index (fs s)) b Io s = (Ret ok, s') /\
     inv s' /\ coherent s' /\ (forall b', disk_block s' b' = disk_block s b') /\
     (ok = true -> io_block s' = disk_block s b)) /\
  (exists ok s', ext2_write_block (drive_index (fs s)) b Io s = (Ret ok, s') /\
     inv s' /\ (forall b', block_in s b' -> b' <> b -> disk_block s' b' = disk_block s b') /\
     (ok = true -> coherent s' /\ disk_block s' b = io_block s)).
Proof.
  intros Hs Hcoh Hin Hb. split.
  - pose proof (wp_read_block (drive_index (fs s)) b s Hs Hb) as (ok & s' & Hrun & [Hstep Hd Hc Hv _])%wp_run.
    exists ok, s'. split_and!; [done|apply Hstep|by apply Hc| |by apply Hv].
    intros b'. by apply disk_block_same.
  - pose proof (wp_write_block (drive_index (fs s)) b s Hs Hb) as (ok & s' & Hrun & [Hstep _ _ Hf Hv Hc _])%wp_run.
    exists ok, s'. split_and!; [done|apply Hstep|by apply Hf|]. intros Hok. split; [by apply Hc|by apply Hv].
Qed.

(** Reading a block whose cache entries hold the bytes of [io_buffer]. *)
Lemma wp_cached_read s b e drive :
  inv s -> e ∈ cache (fs s) -> cached b e ->
  (forall e' p, e' ∈ cache (fs s) -> cached b e' -> data e' = Some p ->
     slice 0 (block_size (fs s)) (page_bytes p) = io_block s) ->
  wp (ext2_read_block drive b Io) s (fun ok s' => ok = true /\ io_block s' = io_block s /\ disk s' = disk s).
Proof.
  intros Hs He Hc Hall. unfold ext2_read_block. do 2 wp_rule. apply wp_guard_io; [done|].
  rewrite (inv_mounted s Hs). pose proof (block_size_le s Hs) as [Hbs _].
  destruct (inv_io_eq s Hs) as (_ & Hzio & _).
  assert (exists i e', cache_find b (cache (fs s)) = Some i /\ cache (fs s) !! i = Some e' /\ cached b e')
    as (i & e' & -> & He' & Hc').
  { destruct (list_find_elem_of (cached b) _ _ He Hc) as [[i e'] Hfind].
    exists i, e'. unfold cache_find. rewrite Hfind. apply list_find_Some in Hfind. by destruct_and!. }
  destruct (entry_valid _ (inv_entry s _ e' Hs He') (proj1 Hc')) as [[p Hp] _].
  destruct (entry_page _ (inv_entry s _ e' Hs He') p Hp) as [Hzp Hokp].
  wp_rule. eapply wp_load_data; [done..|lia|]. wp_rule.
  rewrite (Hall e' p) by (done || by eapply list_elem_of_lookup_2).
  pose proof (zlen_io_block s Hs) as Hz.
  apply wp_store_io; [done|lia|lia|by apply io_block_ok|]. intros Hs1. wp_rule.
  split_and!; [done| |done]. unfold io_block at 1. rewrite io_set_io.
  change (fs (set_io _ s)) with (fs s). rewrite slice_splice_same by lia. done.
Qed.

(** A write of a cached block that fails on the disk returns [false], but
    leaves the new bytes in the cache: the next read of the block succeeds and
    returns bytes the disk does not hold. *)
Theorem failed_write_stays_in_cache s b drive s' :
  inv s -> u32_ok b -> Exists (cached b) (cache (fs s)) ->
  ext2_write_block drive b Io s = (Ret false, s') ->
  exists s'', ext2_read_block drive b Io s' = (Ret true, s'') /\ io_block s'' = io_block s /\ disk s'' = disk s'.
Proof.
  intros Hs Hb [e [He Hc]]%Exists_exists Hrun.
  pose proof (wp_write_block drive b s Hs Hb) as Hw. unfold wp in Hw. rewrite Hrun in Hw.
  destruct Hw as [Hstep Hio Hcache _ _ _ _].
  assert (io_block s' = io_block s) as Hblk.
  { unfold io_block. rewrite Hio. by destruct (block_step_same s s' Hstep) as (-> & _). }
  assert (forall e0, cached b (updated_entry b (io_block s) e0) -> cached b e0) as Hback.
  { intros e0. unfold updated_entry. case_bool_decide; [done|]. done. }
  assert (forall e' p, e' ∈ cache (fs s') -> cached b e' -> data e' = Some p ->
          slice 0 (block_size (fs s')) (page_bytes p) = io_block s') as Hall.
  { intros e' p He' Hc' Hp. rewrite Hcache in He'.
    apply list_elem_of_fmap in He' as (e0 & -> & He0). pose proof (Hback e0 Hc') as Hc0.
    unfold updated_entry in Hp. rewrite bool_decide_true in Hp by done. cbn in Hp.
    apply fmap_Some in Hp as (q & Hq & ->). cbn [page_bytes page_with].
    apply list_elem_of_lookup_1 in He0 as [i Hi].
    destruct (entry_page _ (inv_entry s i e0 Hs Hi) q Hq) as [Hzq _].
    pose proof (zlen_io_block s Hs). pose proof (block_size_le s Hs).
    destruct (block_step_same s s' Hstep) as (-> & _). rewrite Hblk. apply slice_splice_same; lia. }
  destruct (proj1 (wp_run _ _ _) (wp_cached_read s' b (updated_entry b (io_block s) e) drive
    (step_inv _ _ Hstep) ltac:(rewrite Hcache; by apply list_elem_of_fmap_2)
    ltac:(unfold updated_entry; by rewrite bool_decide_true) Hall)) as (ok & s'' & Hread & -> & Hblk' & Hd).
  exists s''. split_and!; [done| |done]. by rewrite Hblk', Hblk.
Qed.

(** ** Inodes *)

(** Inode [m] does not share bytes with inode [n]: it is in another block, or
    in the same group. *)
Definition apart s (n m : Z) : Prop :=
  inode_block s m <> inode_block s n \/
  inode_group s m = inode_group s n /\ inode_index s m <> inode_index s n.

Lemma apart_offsets s n m :
  inv s -> apart s n m -> inode_block s m = inode_block s n ->
  inode_offset s m + 128 <= inode_offset s n \/ inode_offset s n + 128 <= inode_offset s m.
Proof.
  intros Hs [?|[Hg Hi]] Hb; [done|].
  destruct (inode_geometry s n Hs) as (Hipb & _ & Hin & _). destruct (inode_geometry s m Hs) as (_ & _ & Him & _).
  destruct (inv_fs s Hs). unfold inode_block in Hb. rewrite Hg in Hb.
  assert (forall k, inode_index s k / inodes_per_block s < 2 ^ 32) as Hlt.
  { intros k. unfold inode_index. eapply Z.le_lt_trans; [apply Z.div_le_upper_bound; [lia|]|apply ok_inodes_per_group].
    pose proof (Z.mod_pos_bound (u32 (k - 1)) (inodes_per_group (fs s)) ltac:(lia)). nia. }
  assert (inode_index s m / inodes_per_block s = inode_index s n / inodes_per_block s) as Hq.
  { pose proof (Hlt n). pose proof (Hlt m).
    pose proof (Z.div_pos (inode_index s n) (inodes_per_block s) ltac:(lia) ltac:(lia)).
    pose proof (Z.div_pos (inode_index s m) (inodes_per_block s) ltac:(lia) ltac:(lia)).
    set (t := gd_field _ _ _ _) in Hb. set (x := _ / _) in *. set (y := inode_index s n / _) in *.
    unfold wrap in Hb. apply (f_equal (fun z => (z - t) mod 2 ^ 32)) in Hb.
    rewrite !Zminus_mod_idemp_l in Hb. replace (t + x - t) with x in Hb by lia.
    replace (t + y - t) with y in Hb by lia. by rewrite !Z.mod_small in Hb by lia. }
  unfold inode_offset.
  pose proof (Z.div_mod (inode_index s m) (inodes_per_block s) ltac:(lia)) as Hdm.
  pose proof (Z.div_mod (inode_index s n) (inodes_per_block s) ltac:(lia)) as Hdn.
  rewrite Hq in Hdm.
  assert (inode_index s m mod inodes_per_block s <> inode_index s n mod inodes_per_block s) as Hr by lia.
  destruct (Z.lt_total (inode_index s m mod inodes_per_block s) (inode_index s n mod inodes_per_block s))
    as [?|[?|?]]; [left| |right]; nia.
Qed.

(** C11: The inode table is a map from inode numbers to inodes.
    [ext2_write_inode] returns, and on success the disk holds the inode at its
    number, every other inode (in another block, or of the same group) is
    unchanged, and so is every block that does not hold the inode;
    [ext2_read_inode] returns, changes nothing on the disk, and delivers the
    inode the disk holds, so it delivers an inode just written. *)
Theorem inode_table_is_map s n i :
  inv s -> coherent s -> inode_ok i -> block_in s (inode_block s n) ->
  (exists ok s', ext2_write_inode (drive_index (fs s)) n i s = (Ret ok, s') /\ inv s' /\
     (forall b, block_in s b -> b <> inode_block s n -> disk_block s' b = disk_block s b) /\
     (ok = true -> coherent s' /\ inode_at s' n = i /\
        forall m, apart s n m -> block_in s (inode_block s m) -> inode_at s' m = inode_at s m)) /\
  (exists r s', ext2_read_inode (drive_index (fs s)) n s = (Ret r, s') /\ inv s' /\ coherent s' /\
     (forall b, disk_block s' b = disk_block s b) /\
     (forall j, r = Some j -> j = inode_at s n) /\
     (reads_succeed (D := D) -> inode_exists s n -> r = Some (inode_at s n))).
Proof.
  intros Hs Hcoh Hi Hin. split.
  - pose proof (wp_write_inode (drive_index (fs s)) n i s Hs Hi) as (ok & s' & Hrun & [Hstep Hf Hok])%wp_run.
    exists ok, s'. split_and!; [done|apply Hstep|by apply Hf|]. intros Hr.
    destruct (Hok eq_refl Hin Hcoh Hr) as (Hex & Hcoh' & Hblk).
    assert (forall m, inode_block s' m = inode_block s m /\ inode_offset s' m = inode_offset s m) as Hloc.
    { intros m. unfold inode_block, inode_offset, gd_field, gd_bytes, inode_group, inode_index, inodes_per_block.
      by rewrite (step_fs _ _ Hstep). }
    destruct (inode_geometry s n Hs) as (_ & _ & _ & Ho & Hfit).
    pose proof (zlen_inode_bytes i Hi) as Hz.
    assert (forall b, zlen (disk_block s b) = block_size (fs s)) as Hzb.
    { intros b. unfold zlen, disk_block. rewrite length_sectors by apply Hs.
      destruct (sectors_per_block_cases s Hs). lia. }
    split_and!; [done| |].
    + unfold inode_at. destruct (Hloc n) as [-> ->]. rewrite Hblk.
      rewrite slice_splice_same by (rewrite ?Hzb; lia). by apply inode_of_bytes_bytes.
    + intros m Hap Hinm. unfold inode_at. destruct (Hloc m) as [-> ->]. f_equal.
      destruct (decide (inode_block s m = inode_block s n)) as [Heq|Hne]; [|by rewrite Hf].
      rewrite Heq, Hblk. destruct (inode_geometry s m Hs) as (_ & _ & _ & Hom & Hfitm).
      destruct (apart_offsets s n m Hs Hap Heq).
      * apply slice_splice_before; rewrite ?Hzb; lia.
      * apply slice_splice_after; rewrite ?Hzb; lia.
  - pose proof (wp_read_inode (drive_index (fs s)) n s Hs) as (r & s' & Hrun & [Hstep Hd Hc Hr Hall])%wp_run.
    exists r, s'. split_and!; [done|apply Hstep|by apply Hc| | |].
    + intros b. by apply disk_block_same.
    + intros j Hj. by destruct (Hr j Hj) as (_ & _ & ?); auto.
    + intros Hrel Hex. destruct (Hall Hrel Hex) as [j ->]. f_equal. by destruct (Hr j eq_refl) as (_ & _ & ?); auto.
Qed.

(** ** The blocks of a file *)


(** C16: [set_block_in_inode] and [get_block_from_inode] agree.  For a
    block that a direct pointer or a present indirect block maps, a call that
    succeeds maps the block and leaves the mapping of every other such block
    alone; a block beyond the indirect block is always refused, so a file
    cannot be written past its first 12 + [block_size] / 4 blocks. *)
Theorem set_block_maps_block s ino idx b :
  inv s -> coherent s -> inode_ok ino -> 0 <= idx -> u32_ok b ->
  (12 <= idx < 12 + pointers s -> i_block_at 12 ino <> 0 /\ block_in s (i_block_at 12 ino)) ->
  exists ok ino' s', set_block_in_inode ino idx b s = (Ret (ok, ino'), s') /\
    (ok = true -> idx < 12 + pointers s /\ coherent s' /\ mapped_block s' ino' idx = b /\
       forall j, 0 <= j < 12 + pointers s -> j <> idx -> mapped_block s' ino' j = mapped_block s ino j) /\
    (12 + pointers s <= idx -> ok = false /\ ino' = ino /\ s' = s).
Proof.
  intros Hs Hcoh Hi Hidx Hb Hind. destruct (pointers_cases s Hs) as [Hbs Hp].
  destruct (Z.ltb_spec idx 12) as [Hlt|Hge].
  { exists true, (set_i_block_at idx b ino), s.
    assert (set_block_in_inode ino idx b s = (Ret (true, set_i_block_at idx b ino), s)) as ->.
    { unfold set_block_in_inode, EXT2_NDIR_BLOCKS. by rewrite (proj2 (Z.ltb_lt _ _) Hlt). }
    split_and!; [done| |lia]. intros _. split_and!; [lia|done| |].
    - unfold mapped_block, block_path. rewrite (proj2 (Z.ltb_lt _ _) Hlt). cbn.
      apply array_get_set_eq. destruct Hi. lia.
    - intros j Hj Hne. unfold mapped_block, block_path. cbv zeta.
      assert (forall k, 0 <= k -> k <> idx -> i_block_at k (set_i_block_at idx b ino) = i_block_at k ino) as Hsame.
      { intros k Hk Hki. apply array_get_set_ne; lia. }
      destruct (Z.ltb_spec j 12); cbn; [apply Hsame; lia|].
      rewrite (proj2 (Z.ltb_lt _ _)) by lia. cbn. by rewrite Hsame by lia. }
  destruct (Z.ltb_spec idx (12 + pointers s)) as [Hlt|Hbig]; cycle 1.
  { exists false, ino, s. split_and!; [|done|done].
    unfold set_block_in_inode, EXT2_NDIR_BLOCKS. rewrite (proj2 (Z.ltb_ge _ _) Hge).
    unfold mbind, m_bind, mgets. cbv zeta. fold (pointers s). by rewrite (proj2 (Z.ltb_ge _ _)) by lia. }
  destruct (Hind ltac:(lia)) as [Hne Hin].
  pose proof (wp_set_block_indirect ino idx b s Hs Hi Hcoh ltac:(lia) Hne Hin)
    as ([ok ino'] & s' & Hrun & Hstep & Hino & Hok)%wp_run. cbn [fst snd] in *. subst ino'.
  exists ok, ino, s'. split_and!; [done| |lia]. intros ->. destruct (Hok eq_refl) as (Hcoh' & Hblk & Hother).
  assert (pointers s' = pointers s) as Hps.
  { unfold pointers. by destruct (block_step_same s s' Hstep) as (-> & _). }
  assert (zlen (disk_block s (i_block_at 12 ino)) = block_size (fs s)) as Hzb.
  { unfold zlen, disk_block. rewrite length_sectors by apply Hs.
    destruct (sectors_per_block_cases s Hs). lia. }
  assert (zlen (le 4 b) = 4) as Hz4 by (unfold zlen; by rewrite length_le).
  unfold mapped_block, block_path. rewrite Hps. cbv zeta.
  split_and!; [lia|done| |].
  - rewrite (proj2 (Z.ltb_ge _ _) Hge), (proj2 (Z.ltb_lt _ _)) by lia. cbn [walk]. unfold ptr.
    rewrite (proj2 (Z.eqb_neq _ _) Hne), Hblk. rewrite slice_splice_same by lia.
    rewrite un_le_le. apply Z.mod_small. apply Hb.
  - intros j Hj Hji. destruct (Z.ltb_spec j 12); [done|].
    rewrite (proj2 (Z.ltb_lt _ _)) by lia. cbn [walk]. unfold ptr.
    rewrite (proj2 (Z.eqb_neq _ _) Hne), Hblk. f_equal.
    destruct (Z.lt_total j idx) as [?|[?|?]]; [|done|].
    + apply slice_splice_before; lia.
    + apply slice_splice_after; lia.
Qed.

End spec.
