(* ===== verification/Ext2DirSafe.v ===== *)
(** The scans of directory blocks of fs/ext2.c stay inside [io_buffer] and end,
    and the operations on names return and keep the file system well formed,
    whatever the blocks of the directories hold. *)
From S2P Require Import Prelude Wp PageAllocator Bytes BlockDevice CStringSpec Ext2 Ext2Dir.
From S2P Require Import Ext2Inv Ext2Block Ext2Inode Ext2Safe Ext2Alloc Ext2Map.
Import Ext2 Ext2Dir.

(** ** The scans of one block *)

(** [io_buffer] as the scans find it. *)
Definition io_ok (l : list Z) : Prop := zlen l = 8192 /\ bytes_ok l.

Lemma field_some n off l :
  io_ok l -> 0 <= off -> off + Z.of_nat n <= 8192 ->
  field n off l = Some (un_le (slice off (Z.of_nat n) l)) /\
  0 <= un_le (slice off (Z.of_nat n) l) < 256 ^ Z.of_nat n.
Proof.
  intros [Hz Hok] Ho Hn. unfold field. rewrite (proj2 (Z.leb_le _ _)) by lia. split; [done|].
  pose proof (un_le_range _ (slice_bytes_ok off (Z.of_nat n) _ Hok)) as H.
  by rewrite length_slice, Nat2Z.id in H by lia.
Qed.

(** The integer a field inside the buffer holds. *)
Lemma field_exists n off l :
  io_ok l -> 0 <= off -> off + Z.of_nat n <= 8192 ->
  exists v, field n off l = Some v /\ 0 <= v < 256 ^ Z.of_nat n.
Proof. intros Hl Ho Hn. eexists. by apply field_some. Qed.

Tactic Notation "read_field" constr(n) constr(off) "as" ident(v) :=
  match goal with
  | Hl : io_ok ?l |- context [field n off ?l] =>
      let Hv := fresh "Hv" in let Hr := fresh "Hr" in
      destruct (field_exists n off l Hl ltac:(lia) ltac:(lia)) as (v & Hv & Hr); rewrite Hv;
      cbn [mbind option_bind];
      change (256 ^ Z.of_nat 1) with 256 in Hr
  end.

Lemma name_eq_some name : forall off l,
  io_ok l -> 0 <= off -> off + zlen name <= 8192 -> is_Some (name_eq name off l).
Proof.
  induction name as [|c name IH]; intros off l Hl Ho Hn; [done|].
  unfold zlen in *. cbn [length] in Hn. cbn [name_eq]. read_field 1%nat off as x.
  destruct (_ =? c); [|done]. apply IH; [done|lia|lia].
Qed.

Lemma entry_named_some name off l :
  io_ok l -> 0 <= off < 4096 -> is_Some (entry_named name off l).
Proof.
  intros Hl Ho. unfold entry_named, d_name_len. read_field 1%nat (off + 6) as n.
  destruct (Z.eqb_spec n (zlen name)) as [Heq|]; [|by eexists]. apply name_eq_some; [done|lia|lia].
Qed.

Lemma find_entry_some fuel bs name : forall off l,
  io_ok l -> bs <= 4096 -> 0 <= off -> exists v, find_entry fuel bs name off l = Some v /\ u32_ok v.
Proof.
  unfold u32_ok. induction fuel as [|fuel IH]; intros off l Hl Hbs Ho; [by exists 0|].
  cbn [find_entry]. destruct (Z.leb_spec bs off); [by exists 0|].
  unfold d_rec_len, d_inode. read_field 2%nat (off + 4) as rl. destruct (rl =? 0); [by exists 0|].
  read_field 4%nat off as i.
  assert (exists b, (if i =? 0 then Some false else entry_named name off l) = Some b) as [b ->].
  { destruct (i =? 0); [by exists false|]. apply entry_named_some; [done|lia]. }
  cbn [mbind option_bind]. destruct b; [by exists i|]. apply IH; [done|done|lia].
Qed.

Lemma block_is_empty_some fuel bs : forall off l,
  io_ok l -> bs <= 4096 -> 0 <= off -> is_Some (block_is_empty fuel bs off l).
Proof.
  induction fuel as [|fuel IH]; intros off l Hl Hbs Ho; [done|].
  cbn [block_is_empty]. destruct (Z.leb_spec bs off); [done|].
  unfold d_rec_len, d_inode, d_name_len, d_name. read_field 2%nat (off + 4) as rl. destruct (rl =? 0); [done|].
  read_field 4%nat off as i. read_field 1%nat (off + 6) as n.
  destruct (i =? 0); cbn [mbind option_bind]; [apply IH; [done|done|lia]|].
  destruct (n =? 1).
  { read_field 1%nat (off + 8 + 0) as c. destruct (c =? 46); [apply IH; [done|done|lia]|done]. }
  destruct (n =? 2); [|done]. read_field 1%nat (off + 8 + 0) as c. destruct (c =? 46); [|done].
  read_field 1%nat (off + 8 + 1) as c'. destruct (c' =? 46); [apply IH; [done|done|lia]|done].
Qed.

Lemma io_ok_splice off src l :
  io_ok l -> 0 <= off -> off + zlen src <= 8192 -> bytes_ok src -> io_ok (splice off src l).
Proof. intros [Hz Hok] Ho Hs Hsrc. split; [by rewrite zlen_splice; lia|by apply splice_bytes_ok]. Qed.

Lemma io_ok_put16 off v l : io_ok l -> 0 <= off -> off + 2 <= 8192 -> io_ok (put16 off v l).
Proof.
  intros. apply io_ok_splice; [done|done| |apply le_bytes_ok]. unfold zlen. rewrite length_le. lia.
Qed.

Lemma io_ok_put32 off v l : io_ok l -> 0 <= off -> off + 4 <= 8192 -> io_ok (put32 off v l).
Proof.
  intros. apply io_ok_splice; [done|done| |apply le_bytes_ok]. unfold zlen. rewrite length_le. lia.
Qed.

Lemma write_entry_some off ino rec_len type name l :
  io_ok l -> 0 <= off -> off + 8 + zlen name <= 8192 -> bytes_ok name ->
  exists l', write_entry off ino rec_len type name l = Some l' /\ io_ok l'.
Proof.
  intros Hl Ho Hn Hname. unfold write_entry. pose proof (proj1 Hl) as Hz.
  rewrite (proj2 (Z.leb_le _ _)) by lia. eexists. split; [done|].
  apply io_ok_splice; [done|done| |].
  - unfold zlen. rewrite length_app, length_pack by done. unfold zlen in Hn. cbn. lia.
  - apply Forall_app. split; [apply pack_bytes_ok|done].
Qed.

(** [entry_size n] is 8 + n rounded up to a multiple of 8. *)
Lemma entry_size_eq n : 0 <= n <= 255 -> entry_size n = 8 * ((n + 15) / 8).
Proof.
  intros Hn. unfold entry_size. rewrite (wrap_small 16 (8 + n)) by lia.
  rewrite <- Z.ldiff_land. change 7 with (Z.ones 3) at 2. rewrite Z.ldiff_ones_r by lia.
  rewrite Z.shiftl_mul_pow2, Z.shiftr_div_pow2 by lia. change (2 ^ 3) with 8.
  replace (8 + n + 7) with (n + 15) by lia. rewrite Z.mul_comm.
  apply wrap_small. pose proof (Z.mul_div_le (n + 15) 8 ltac:(lia)).
  pose proof (Z.div_pos (n + 15) 8 ltac:(lia) ltac:(lia)). lia.
Qed.

Lemma entry_size_bounds n : 0 <= n <= 255 -> 8 + n <= entry_size n <= n + 15 /\ entry_size n mod 8 = 0.
Proof.
  intros Hn. rewrite entry_size_eq by done. pose proof (Z.mul_div_le (n + 15) 8 ltac:(lia)).
  pose proof (Z.mul_succ_div_gt (n + 15) 8 ltac:(lia)). split; [lia|].
  rewrite Z.mul_comm. apply Z.mod_mul. lia.
Qed.

Definition edit_ok (r : option (option (list Z))) : Prop :=
  exists o, r = Some o /\ forall l, o = Some l -> io_ok l.

Lemma edit_ok_none : edit_ok (Some None).
Proof. by exists None. Qed.
Lemma edit_ok_some l : io_ok l -> edit_ok (Some (Some l)).
Proof. intros Hl. exists (Some l). split; [done|]. by intros ? [= <-]. Qed.

Lemma edit_ok_write off ino rec_len type name l :
  io_ok l -> 0 <= off -> off + 8 + zlen name <= 8192 -> bytes_ok name ->
  edit_ok (Some <$> write_entry off ino rec_len type name l).
Proof.
  intros Hl Ho Hn Hname. destruct (write_entry_some off ino rec_len type name l) as (l' & -> & Hl'); [done..|].
  by apply edit_ok_some.
Qed.

Lemma add_entry_ok fuel bs ino type name : forall off l,
  io_ok l -> bs <= 4096 -> 0 <= off -> zlen name <= 255 -> bytes_ok name ->
  edit_ok (add_entry fuel bs ino type name off l).
Proof.
  induction fuel as [|fuel IH]; intros off l Hl Hbs Ho Hn Hname; [apply edit_ok_none|].
  cbn [add_entry]. cbv zeta. destruct (Z.leb_spec bs off); [apply edit_ok_none|].
  assert (0 <= zlen name) as Hn0 by (unfold zlen; lia).
  pose proof (entry_size_bounds (zlen name) ltac:(lia)) as [Hsize _].
  unfold d_rec_len, d_inode, d_name_len. read_field 2%nat (off + 4) as rl.
  assert (exists u, (if rl =? 0 then Some true
                     else i ← field 4 off l; Some ((i =? 0) && (entry_size (zlen name) <=? rl))) = Some u)
    as [u ->].
  { destruct (rl =? 0); [by exists true|]. read_field 4%nat off as i. by eexists. }
  cbn [mbind option_bind]. destruct u; [apply edit_ok_write; [done|lia|lia|done]|].
  read_field 1%nat (off + 6) as n.
  pose proof (entry_size_bounds n ltac:(lia)) as [Hact _].
  destruct (_ <=? rl - _).
  - apply edit_ok_write; [apply io_ok_put16; [done|lia|lia]|lia|lia|done].
  - apply IH; [done|done|lia|done|done].
Qed.

Lemma remove_entry_ok fuel bs ino name : forall prev off l,
  io_ok l -> bs <= 4096 -> 0 <= off -> (forall p, prev = Some p -> 0 <= p < 4096) ->
  edit_ok (remove_entry fuel bs ino name prev off l).
Proof.
  induction fuel as [|fuel IH]; intros prev off l Hl Hbs Ho Hprev; [apply edit_ok_none|].
  cbn [remove_entry]. destruct (Z.leb_spec bs off); [apply edit_ok_none|].
  unfold d_rec_len, d_inode. read_field 2%nat (off + 4) as rl. destruct (rl =? 0); [apply edit_ok_none|].
  read_field 4%nat off as i.
  assert (exists b, (if i =? ino then entry_named name off l else Some false) = Some b) as [b ->].
  { destruct (i =? ino); [|by exists false]. apply entry_named_some; [done|lia]. }
  cbn [mbind option_bind]. destruct b.
  - destruct prev as [p|].
    + specialize (Hprev p eq_refl). read_field 2%nat (p + 4) as m. apply edit_ok_some, io_ok_put16; [done|lia|lia].
    + apply edit_ok_some, io_ok_put32; [done|lia|lia].
  - apply IH; [done|done|lia|]. intros p [= <-]. lia.
Qed.

(** ** Paths *)

Lemma bytes_ok_take n l : bytes_ok l -> bytes_ok (take n l).
Proof. apply Forall_take. Qed.
Lemma bytes_ok_drop n l : bytes_ok l -> bytes_ok (drop n l).
Proof. apply Forall_drop. Qed.

Lemma slash_ok : bytes_ok ROOT.
Proof. constructor; [unfold byte_ok, SLASH; lia|by apply Forall_nil]. Qed.

Lemma split_from_bytes_ok ds w : forall cur,
  bytes_ok cur -> bytes_ok w -> Forall (fun t => bytes_ok t) (split_from ds cur w).
Proof.
  induction w as [|c w IH]; intros cur Hcur Hw; cbn [split_from].
  { destruct cur; [by apply Forall_nil|]. constructor; [done|by apply Forall_nil]. }
  apply Forall_cons in Hw as [Hc Hw]. case_decide.
  - destruct cur; [by apply IH|]. constructor; [done|]. by apply IH.
  - apply IH; [|done]. apply Forall_app. split; [done|]. constructor; [done|by apply Forall_nil].
Qed.

Lemma normalize_bytes_ok m cwd path :
  bytes_ok cwd -> bytes_ok path -> bytes_ok (ext2_normalize_path m cwd path).
Proof.
  intros Hc Hp. unfold ext2_normalize_path.
  assert (bytes_ok (absolute_path m cwd path)) as Habs.
  { apply bytes_ok_take. pose proof slash_ok as Hs. unfold ROOT in Hs.
    destruct path as [|c path]; destruct m; try case_match; try done; by rewrite ?Forall_app. }
  assert (forall ts acc, Forall (fun t => bytes_ok t) ts -> bytes_ok acc -> bytes_ok (foldl normalize_step acc ts)) as Hfold.
  { induction ts as [|t ts IH]; intros acc Hts Hacc; [done|]. apply Forall_cons in Hts as [Ht Hts].
    cbn. apply IH; [done|]. unfold normalize_step. repeat case_decide; [done| |].
    - destruct (last_index SLASH acc) as [[|i]|]; [done|by apply bytes_ok_take|done].
    - rewrite !Forall_app. split; [done|]. split; [apply slash_ok|done]. }
  specialize (Hfold _ [] (split_from_bytes_ok [SLASH] _ [] (Forall_nil_2 _) Habs) (Forall_nil_2 _)).
  unfold split_on. case_match; [apply slash_ok|done].
Qed.

Lemma split_path_ok norm dir name :
  bytes_ok norm -> split_path norm = Some (dir, name) ->
  bytes_ok dir /\ bytes_ok name /\ zlen name <= 255.
Proof.
  intros Hn. unfold split_path. destruct (last_index SLASH norm) as [i|]; [|done]. intros [= <- <-].
  split_and!.
  - case_decide; [apply slash_ok|by apply bytes_ok_take].
  - by apply bytes_ok_take, bytes_ok_drop.
  - unfold zlen, EXT2_NAME_LEN. rewrite length_take. lia.
Qed.
