(* ===== verification/Ext2NameSafe.v ===== *)
(** The operations on names of fs/ext2.c return, and keep a mounted file system
    well formed, whatever the disk holds. *)
From S2P Require Import Prelude Wp PageAllocator Bytes BlockDevice Ext2 Ext2Dir Ext2Inv Ext2Block.
From S2P Require Import Ext2Inode Ext2Safe Ext2Alloc Ext2Map Ext2DirSafe.
Import Ext2 Ext2Dir.

(** [wp_call L] runs the next command by the lemma [L]. *)
Tactic Notation "wp_call" uconstr(L) :=
  cbv beta zeta; try apply wp_bind; eapply wp_mono; [eapply L|cbv beta].

Section names.
Context {A D : Type} `{!PageAllocator A, !BlockDevice D, !BlockDeviceSpec D}.
Abbreviation state := (ext2_state A D).
Implicit Types s : state.

Lemma fs_step_io_ok s0 s : fs_step s0 s -> io_buffer s = Some (io s) /\ io_ok (io s).
Proof.
  intros H. destruct (inv_io_eq s (fstep_inv _ _ H)) as (Hio & Hz & Hok). by split.
Qed.

Lemma safe_scan_io {R} (f : list Z -> option R) (P : R -> Prop) s0 s :
  fs_step s0 s -> (forall l, io_ok l -> exists r, f l = Some r /\ P r) ->
  wp (scan_io f) s (fun r s' => fs_step s0 s' /\ P r).
Proof.
  intros H Hf. destruct (fs_step_io_ok s0 s H) as [Hio Hl]. destruct (Hf _ Hl) as (r & Hr & HP).
  unfold wp, scan_io. rewrite Hio. cbn. by rewrite Hr.
Qed.

Lemma safe_edit_io f s0 s :
  fs_step s0 s -> (forall l, io_ok l -> edit_ok (f l)) ->
  wp (edit_io f) s (fun _ s' => fs_step s0 s').
Proof.
  intros H Hf. destruct (fs_step_io_ok s0 s H) as [Hio Hl]. destruct (Hf _ Hl) as (o & Ho & Hok).
  unfold wp, edit_io. rewrite Hio. cbn. rewrite Ho. destruct o as [l|]; [|done].
  destruct (Hok l eq_refl). apply fs_step_io; [done|]. apply inv_set_io; [apply H|done|done].
Qed.

(** Scanning a directory ends: every round but the last finds a block of the
    directory. *)
Lemma safe_scan_dir {R} drive dir (body : Z -> M state (option R)) (P : R -> Prop) s0 fuel : forall idx s,
  fs_step s0 s -> inode_ok dir -> 0 <= idx ->
  (i_size dir < idx * block_size (fs s0) + (Z.of_nat fuel - 1) * block_size (fs s0)) -> (0 < fuel)%nat ->
  idx * block_size (fs s0) < 2 ^ 32 ->
  (forall b s1, fs_step s0 s1 -> u32_ok b ->
     wp (body b) s1 (fun r s' => fs_step s0 s' /\ forall x, r = Some x -> P x)) ->
  wp (scan_dir drive dir body fuel (idx * block_size (fs s0)) idx) s (fun r s' =>
    fs_step s0 s' /\ match r with inl x => P x | inr i => 0 <= i end).
Proof.
  induction fuel as [|fuel IH]; intros idx s H Hdir Hidx Hfuel Hpos Hidx32 Hbody; [lia|].
  cbn [scan_dir]. pose proof (block_size_le s (fstep_inv _ _ H)) as [Hle Hbs].
  rewrite (fstep_block_size _ _ H) in Hle, Hbs.
  destruct (Z.leb_spec (i_size dir) (idx * block_size (fs s0))); [by apply wp_ret|].
  wp_call safe_get_block; [done..|]. intros b s1 (H1 & Hb & Hlt).
  destruct (Z.eqb_spec b 0) as [|Hb0]; [by apply wp_ret|]. destruct (Hlt Hb0) as [Hfit Hin].
  wp_call safe_read_block; [done..|]. intros ok s2 H2.
  destruct ok; cbn [negb]; [|by apply wp_ret].
  wp_call Hbody; [done..|]. intros r s3 [H3 HP]. wp_rule. wp_rule.
  destruct r as [x|]; [apply wp_ret; split; [done|by apply HP]|].
  rewrite (fstep_block_size _ _ H3).
  rewrite (wrap_small 32) by lia.
  replace (idx * block_size (fs s0) + block_size (fs s0)) with ((idx + 1) * block_size (fs s0)) by lia.
  apply IH; try done; try lia.
Qed.

Lemma dir_fuel_enough dir bs : inode_ok dir -> 0 < bs -> i_size dir < (Z.of_nat (dir_fuel dir bs) - 1) * bs.
Proof.
  intros Hd Hbs. unfold dir_fuel. pose proof (i_size_ok dir Hd) as Hs. unfold u32_ok in Hs.
  pose proof (Z.div_pos (i_size dir) bs ltac:(lia) Hbs).
  pose proof (Z.mul_succ_div_gt (i_size dir) bs Hbs). nia.
Qed.

(** The loop as the callers start it. *)
Lemma safe_scan {R} drive dir (body : Z -> M state (option R)) (P : R -> Prop) s0 s bs :
  fs_step s0 s -> inode_ok dir -> bs = block_size (fs s0) ->
  (forall b s1, fs_step s0 s1 -> u32_ok b ->
     wp (body b) s1 (fun r s' => fs_step s0 s' /\ forall x, r = Some x -> P x)) ->
  wp (scan_dir drive dir body (dir_fuel dir bs) 0 0) s (fun r s' =>
    fs_step s0 s' /\ match r with inl x => P x | inr i => 0 <= i end).
Proof.
  intros H Hdir -> Hbody. pose proof (block_size_le s (fstep_inv _ _ H)) as [Hle Hbs].
  rewrite (fstep_block_size _ _ H) in Hle, Hbs.
  apply (safe_scan_dir drive dir body P s0 _ 0 s); try done.
  - pose proof (dir_fuel_enough dir (block_size (fs s0)) Hdir ltac:(lia)). lia.
  - unfold dir_fuel. lia.
Qed.

Lemma safe_find_file drive dir_ino name s0 s :
  fs_step s0 s -> wp (find_file_in_dir drive dir_ino name) s (fun v s' => fs_step s0 s' /\ u32_ok v).
Proof.
  intros H. unfold find_file_in_dir. wp_rule; [by apply wp_ret|].
  wp_call safe_read_inode; [done|]. intros r s1 [H1 Hr].
  destruct r as [dir|]; [|by apply wp_ret]. destruct (Hr dir eq_refl) as [Hdir _].
  wp_rule; [by apply wp_ret|]. do 2 wp_rule. cbn [compose]. rewrite (fstep_block_size _ _ H1).
  pose proof (block_size_le s1 (fstep_inv _ _ H1)) as [Hle _]. rewrite (fstep_block_size _ _ H1) in Hle.
  wp_call (safe_scan drive dir _ u32_ok s0); [done..| |].
  - intros b s2 H2 Hb. wp_call (safe_scan_io _ u32_ok); [done| |].
    + intros l Hl. apply find_entry_some; [done|lia|lia].
    + intros ino s3 [H3 Hino]. apply wp_ret. split; [done|]. intros x. destruct (ino =? 0); congruence.
  - intros [ino|i] s2 [H2 Hres]; by apply wp_ret.
Qed.

Lemma safe_lookup_loop drive p : forall ino component s0 s,
  fs_step s0 s -> u32_ok ino ->
  wp (lookup_loop drive ino component p) s (fun v s' => fs_step s0 s' /\ u32_ok v).
Proof.
  induction p as [|c p IH]; intros ino component s0 s H Hino; cbn [lookup_loop]; cbv zeta.
  - wp_rule; [by apply wp_ret|by apply safe_find_file].
  - wp_rule; [|by apply IH]. wp_rule; [by apply IH|].
    wp_call safe_find_file; [done|]. intros next s1 [H1 Hnext].
    wp_rule; [by apply wp_ret|by apply IH].
Qed.

Lemma safe_lookup drive path s0 s :
  fs_step s0 s -> wp (ext2_lookup_path drive path) s (fun v s' => fs_step s0 s' /\ u32_ok v).
Proof.
  intros H. unfold ext2_lookup_path, normalize. do 2 wp_rule.
  assert (u32_ok EXT2_ROOT_INO) by (unfold u32_ok, EXT2_ROOT_INO; lia).
  wp_rule; [by apply wp_ret|by apply safe_lookup_loop].
Qed.

Lemma safe_normalize path s0 s :
  fs_step s0 s -> bytes_ok path -> wp (normalize path) s (fun n s' => s' = s /\ bytes_ok n).
Proof.
  intros H Hp. unfold normalize. wp_rule. split; [done|]. apply normalize_bytes_ok; [|done].
  apply ok_current_dir, inv_fs, H.
Qed.

Lemma safe_edit_block drive f s0 s b :
  fs_step s0 s -> u32_ok b -> (forall l, io_ok l -> edit_ok (f l)) ->
  wp (added ← edit_io f;
      if (added : bool) then ok ← ext2_write_block drive b Io; mret (Some ok) else mret None) s
    (fun r s' => fs_step s0 s' /\ forall x, r = Some x -> True).
Proof.
  intros H Hb Hf. wp_call safe_edit_io; [done..|]. intros [] s1 H1; [|by apply wp_ret].
  wp_call safe_write_block; [done..|]. intros ok s2 H2. by apply wp_ret.
Qed.

Lemma safe_add_entry drive dir_ino name ino type s0 s :
  fs_step s0 s -> bytes_ok name ->
  wp (add_dir_entry drive dir_ino name ino type) s (fun _ s' => fs_step s0 s').
Proof.
  intros H Hname. unfold add_dir_entry. wp_rule; [by apply wp_ret|].
  destruct (Z.ltb_spec EXT2_NAME_LEN (zlen name)) as [|Hlen]; [by apply wp_ret|]. unfold EXT2_NAME_LEN in Hlen.
  wp_call safe_read_inode; [done|]. intros r s1 [H1 Hr].
  destruct r as [dir|]; [|by apply wp_ret]. destruct (Hr dir eq_refl) as [Hdir _].
  wp_rule; [by apply wp_ret|]. do 2 wp_rule. cbn [compose]. rewrite (fstep_block_size _ _ H1).
  pose proof (block_size_le s1 (fstep_inv _ _ H1)) as [Hle _]. rewrite (fstep_block_size _ _ H1) in Hle.
  wp_call (safe_scan drive dir _ (fun _ => True) s0); [done..| |].
  { intros b s2 H2 Hb. apply safe_edit_block; [done..|]. intros l Hl. apply add_entry_ok; [done|lia..|done]. }
  intros [ok|idx] s2 [H2 Hidx]; [by apply wp_ret|].
  wp_call safe_allocate_block; [done|]. intros b s3 [H3 Hb]. wp_rule; [by apply wp_ret|].
  wp_call safe_io_zero; [done|]. intros [] s4 H4.
  wp_call safe_edit_io; [done| |].
  { intros l Hl. apply edit_ok_write; [done|lia|lia|done]. }
  intros ? s5 H5. wp_call safe_write_block; [done..|]. intros ok s6 H6. wp_rule; [by apply wp_ret|].
  wp_call safe_set_block; [done..|]. intros [ok' dir'] s7 (H7 & Hdir' & _). cbn [snd] in *.
  cbv beta zeta. wp_rule; [by apply wp_ret|].
  apply safe_write_inode; [done|].
  apply inode_ok_mtime; [|unfold u32_ok; lia]. apply inode_ok_blocks; [|apply wrap32_ok].
  by apply inode_ok_size; [|apply wrap32_ok].
Qed.

Lemma safe_remove_entry drive dir name ino s0 s :
  fs_step s0 s -> inode_ok dir ->
  wp (remove_dir_entry drive dir name ino) s (fun _ s' => fs_step s0 s').
Proof.
  intros H Hdir. unfold remove_dir_entry. do 2 wp_rule. cbn [compose]. rewrite (fstep_block_size _ _ H).
  pose proof (block_size_le s (fstep_inv _ _ H)) as [Hle _]. rewrite (fstep_block_size _ _ H) in Hle.
  wp_call (safe_scan drive dir _ (fun _ => True) s0); [done..| |].
  { intros b s2 H2 Hb. apply safe_edit_block; [done..|]. intros l Hl. apply remove_entry_ok; [done|lia|lia|done]. }
  intros [ok|idx] s2 [H2 Hidx]; by apply wp_ret.
Qed.

(** Counting a directory in the group of an inode that exists. *)
Lemma safe_count_dir ino d s0 s :
  fs_step s0 s -> inode_exists s0 ino -> wp (count_dir ino d) s (fun _ s' => fs_step s0 s').
Proof.
  intros H [Hne Hex]. unfold count_dir, bg_used_dirs_count. do 2 wp_rule. cbn [compose].
  pose proof (ok_inodes_per_group _ (inv_fs s (fstep_inv _ _ H))) as Hipg.
  wp_rule. apply wp_mdiv; [lia|]. rewrite (fstep_ipg _ _ H). fold (inode_group s0 ino).
  assert (0 <= inode_group s0 ino).
  { apply Z.div_pos; [pose proof (wrap_range 32 (ino - 1)); lia|]. rewrite <- (fstep_ipg _ _ H). lia. }
  pose proof (fstep_groups _ _ H).
  wp_call safe_gd_get; [done|lia..|]. intros count s1 [-> _]. eapply safe_gd_put; [done|lia..].
Qed.

Lemma file_type_mode_ok type m : file_type_mode type = Some m -> u16_ok m.
Proof.
  unfold file_type_mode, u16_ok. repeat case_match; intros [= <-];
    unfold EXT2_S_IFREG, EXT2_S_IFDIR, EXT2_S_IFCHR, EXT2_S_IFBLK; lia.
Qed.

Lemma mode_ok m p : u16_ok m -> u16_ok (Z.lor m (Z.land p 0x1FF)).
Proof.
  intros Hm. apply lor_range; [lia|done|]. rewrite Z.land_comm. apply land_range_l; lia.
Qed.

Lemma safe_create_file drive path mode type s0 s :
  fs_step s0 s -> bytes_ok path -> wp (create_file drive path mode type) s (fun _ s' => fs_step s0 s').
Proof.
  intros H Hpath. unfold create_file.
  wp_call safe_normalize; [done..|]. intros norm s1 [-> Hnorm].
  destruct (split_path norm) as [[dir_path name]|] eqn:Hsplit; [|by apply wp_ret].
  destruct (split_path_ok _ _ _ Hnorm Hsplit) as (_ & Hname & _).
  wp_call safe_lookup; [done|]. intros dir_ino s1 [H1 Hdir]. wp_rule; [by apply wp_ret|].
  wp_call safe_find_file; [done|]. intros found s2 [H2 _]. wp_rule; [by apply wp_ret|].
  wp_call safe_allocate_inode; [done|]. intros ino s3 [H3 Hino]. wp_rule; [by apply wp_ret|].
  destruct (file_type_mode type) as [m|] eqn:Hm; [|by apply wp_ret].
  wp_call safe_write_inode; [done| |].
  { apply inode_ok_links; [|unfold u16_ok; lia]. apply inode_ok_mode; [apply inode_ok_zero|].
    by eapply mode_ok, file_type_mode_ok. }
  intros ok s4 H4. wp_rule; [by apply wp_ret|]. by apply safe_add_entry.
Qed.

Lemma safe_create_device drive path mode dev s0 s :
  fs_step s0 s -> bytes_ok path -> u32_ok dev ->
  wp (ext2_create_device drive path mode dev) s (fun _ s' => fs_step s0 s').
Proof.
  intros H Hpath Hdev. unfold ext2_create_device. do 2 wp_rule. wp_rule; [by apply wp_ret|].
  destruct (device_type mode) as [type|]; [|by apply wp_ret].
  wp_call safe_create_file; [done..|]. intros ok s1 H1. wp_rule; [by apply wp_ret|].
  wp_call safe_lookup; [done|]. intros ino s2 [H2 _]. wp_rule; [by apply wp_ret|].
  wp_call safe_read_inode; [done|]. intros r s3 [H3 Hr]. destruct r as [i|]; [|by apply wp_ret].
  apply safe_write_inode; [done|]. apply inode_ok_block; [|done]. by apply (Hr i).
Qed.

Lemma safe_mkdir path mode s0 s :
  fs_step s0 s -> bytes_ok path -> wp (ext2_mkdir path mode) s (fun _ s' => fs_step s0 s').
Proof.
  intros H Hpath. unfold ext2_mkdir. do 2 wp_rule. wp_rule; [by apply wp_ret|]. do 2 wp_rule.
  wp_call safe_create_file; [done..|]. intros ok s1 H1. wp_rule; [by apply wp_ret|].
  wp_call safe_lookup; [done|]. intros ino s2 [H2 _]. wp_rule; [by apply wp_ret|].
  wp_call safe_normalize; [done..|]. intros norm s3 [-> Hnorm].
  destruct (split_path norm) as [[dir_path name]|] eqn:Hsplit; [|by apply wp_ret].
  wp_call safe_lookup; [done|]. intros parent_ino s3 [H3 _]. wp_rule; [by apply wp_ret|].
  wp_call safe_read_inode; [done|]. intros r s4 [H4 Hr]. destruct r as [i|]; [|by apply wp_ret].
  destruct (Hr i eq_refl) as [Hi Hex].
  wp_call safe_allocate_block; [done|]. intros b s5 [H5 Hb]. wp_rule; [by apply wp_ret|].
  do 2 wp_rule. cbn [compose]. pose proof (block_size_le s5 (fstep_inv _ _ H5)) as [Hle _].
  wp_call safe_io_zero; [done|]. intros [] s6 H6.
  assert (bytes_ok DOT /\ bytes_ok DOTDOT) as [Hdot Hdots].
  { split; repeat (apply Forall_cons_2; [unfold byte_ok; lia|]); by apply Forall_nil. }
  wp_call safe_edit_io; [done| |].
  { intros l Hl. apply edit_ok_write; [done|lia| |done]. unfold zlen, DOT. cbn. lia. }
  intros ? s7 H7. wp_call safe_edit_io; [done| |].
  { intros l Hl. apply edit_ok_write; [done|lia| |done]. unfold zlen, DOTDOT. cbn. lia. }
  intros ? s8 H8. wp_call safe_write_block; [done..|]. intros ok' s9 H9. wp_rule; [by apply wp_ret|].
  wp_call safe_write_inode; [done| |].
  { apply inode_ok_links; [|unfold u16_ok; lia]. apply inode_ok_blocks.
    2:{ unfold u32_ok. split; [apply Z.div_pos; lia|]. apply Z.div_lt_upper_bound; lia. }
    apply inode_ok_size; [|unfold u32_ok; lia]. by apply inode_ok_block. }
  intros ok2 s10 H10. wp_rule; [by apply wp_ret|].
  wp_call safe_read_inode; [done|]. intros p s11 [H11 Hp]. destruct p as [parent|]; [|by apply wp_ret].
  wp_call safe_count_dir; [done..|]. intros [] s12 H12.
  apply safe_write_inode; [done|]. apply inode_ok_links; [by apply (Hp parent)|apply wrap16_ok].
Qed.

Lemma safe_unlink path s0 s :
  fs_step s0 s -> bytes_ok path -> wp (ext2_unlink path) s (fun _ s' => fs_step s0 s').
Proof.
  intros H Hpath. unfold ext2_unlink. do 2 wp_rule. wp_rule; [by apply wp_ret|]. do 2 wp_rule.
  wp_call safe_normalize; [done..|]. intros norm s1 [-> Hnorm].
  destruct (split_path norm) as [[dir_path name]|] eqn:Hsplit; [|by apply wp_ret].
  wp_call safe_lookup; [done|]. intros dir_ino s1 [H1 _]. wp_rule; [by apply wp_ret|].
  wp_call safe_find_file; [done|]. intros file_ino s2 [H2 _]. wp_rule; [by apply wp_ret|].
  wp_call safe_read_inode; [done|]. intros r s3 [H3 Hr]. destruct r as [i|]; [|by apply wp_ret].
  destruct (Hr i eq_refl) as [Hi _]. wp_rule; [by apply wp_ret|].
  wp_call safe_read_inode; [done|]. intros d s4 [H4 Hd]. destruct d as [dir|]; [|by apply wp_ret].
  destruct (Hd dir eq_refl) as [Hdir _].
  wp_call safe_remove_entry; [done..|]. intros removed s5 H5. wp_rule; [by apply wp_ret|].
  apply safe_write_inode; [done|].
  assert (inode_ok (set_i_links_count (u16 (i_links_count i - 1)) i)) as Hl
    by (apply inode_ok_links; [done|apply wrap16_ok]).
  case_match; [|done]. apply inode_ok_dtime; [done|unfold u32_ok; lia].
Qed.

Lemma safe_rmdir path s0 s :
  fs_step s0 s -> bytes_ok path -> wp (ext2_rmdir path) s (fun _ s' => fs_step s0 s').
Proof.
  intros H Hpath. unfold ext2_rmdir. do 2 wp_rule. wp_rule; [by apply wp_ret|]. do 2 wp_rule.
  wp_call safe_normalize; [done..|]. intros norm s1 [-> Hnorm].
  destruct (split_path norm) as [[dir_path name]|] eqn:Hsplit; [|by apply wp_ret].
  wp_rule; [by apply wp_ret|].
  wp_call safe_lookup; [done|]. intros parent_ino s1 [H1 _]. wp_rule; [by apply wp_ret|].
  wp_call safe_find_file; [done|]. intros dir_ino s2 [H2 _]. wp_rule; [by apply wp_ret|].
  wp_call safe_read_inode; [done|]. intros r s3 [H3 Hr]. destruct r as [dir|]; [|by apply wp_ret].
  destruct (Hr dir eq_refl) as [Hdir Hex]. wp_rule; [by apply wp_ret|].
  do 2 wp_rule. cbn [compose]. rewrite (fstep_block_size _ _ H3).
  pose proof (block_size_le s3 (fstep_inv _ _ H3)) as [Hle _]. rewrite (fstep_block_size _ _ H3) in Hle.
  wp_call (safe_scan _ dir _ (fun _ => True) s0); [done..| |].
  { intros b s4 H4 Hb. wp_call (safe_scan_io _ (fun _ => True)); [done| |].
    - intros l Hl. destruct (block_is_empty_some (block_fuel (block_size (fs s0))) (block_size (fs s0)) 0 l Hl)
        as [e He]; [lia|lia|by exists e].
    - intros e s5 [H5 _]. apply wp_ret. by split. }
  intros [x|i] s4 [H4 _]; [by apply wp_ret|].
  wp_call safe_read_inode; [done|]. intros p s5 [H5 Hp]. destruct p as [parent|]; [|by apply wp_ret].
  destruct (Hp parent eq_refl) as [Hparent _].
  wp_call safe_remove_entry; [done..|]. intros removed s6 H6. wp_rule; [by apply wp_ret|].
  wp_call safe_count_dir; [done..|]. intros [] s7 H7.
  wp_call safe_write_inode; [done| |].
  { apply inode_ok_links; [done|apply wrap16_ok]. }
  intros ok s8 H8. wp_rule; [by apply wp_ret|].
  apply safe_write_inode; [done|]. apply inode_ok_dtime; [|unfold u32_ok; lia].
  apply inode_ok_links; [done|unfold u16_ok; lia].
Qed.
End names.
