(* ===== verification/Ext2FileSafe.v ===== *)
(** The whole interface of fs/ext2.c: every call on a mounted file system
    returns and keeps it well formed, whatever the disk holds. *)
From S2P Require Import Prelude Wp PageAllocator Bytes BlockDevice Ext2 Ext2Dir Ext2File Ext2Inv.
From S2P Require Import Ext2Block Ext2Inode Ext2Safe Ext2Alloc Ext2Map Ext2DirSafe Ext2NameSafe.
Import Ext2 Ext2Dir Ext2File.

Section files.
Context {A D : Type} `{!PageAllocator A, !BlockDevice D, !BlockDeviceSpec D}.
Abbreviation state := (ext2_state A D).
Implicit Types s : state.

(** ** Open files *)

Lemma fs_ok_files f l :
  fs_ok f -> length l = EXT2_MAX_FILES -> Forall (fun o => inode_ok (inode o)) l ->
  fs_ok (set_open_files l f).
Proof. intros [] Hl Hall. by constructor. Qed.

Lemma safe_set_file fd f s :
  inv s -> inode_ok (inode f) -> wp (set_file fd f) s (fun _ s' => inv s').
Proof.
  intros Hs Hf. apply wp_modify, inv_on_fs; [done|]. destruct (ok_files _ (inv_fs s Hs)) as [Hl Hall].
  apply fs_ok_files; [apply inv_fs, Hs|by rewrite length_insert|by apply Forall_insert].
Qed.

Lemma safe_open_file fd s :
  inv s ->
  wp (open_file fd) s (fun o s' => s' = s /\ forall f, o = Some f ->
    0 <= fd < 64 /\ open_files (fs s) !! Z.to_nat fd = Some f /\ is_open f = true /\ inode_ok (inode f)).
Proof.
  intros Hs. unfold open_file. do 2 wp_rule. rewrite (inv_mounted s Hs). cbn [negb orb].
  apply wp_ret. split; [done|]. intros f.
  destruct (Z.ltb_spec fd 0); [done|]. destruct (Z.leb_spec (Z.of_nat EXT2_MAX_FILES) fd); [done|].
  cbn [orb]. destruct (open_files (fs s) !! Z.to_nat fd) as [g|] eqn:Hg; [|done].
  destruct (is_open g) eqn:Ho; [|done]. intros [= <-]. unfold EXT2_MAX_FILES in *.
  split_and!; [lia|lia|done|done|]. destruct (ok_files _ (inv_fs s Hs)) as [_ Hall].
  by apply (Forall_lookup_1 _ _ _ _ Hall Hg).
Qed.

Lemma safe_open path flags s :
  inv s -> bytes_ok path -> wp (ext2_open path flags) s (fun _ s' => inv s').
Proof.
  intros Hs Hpath. unfold ext2_open. do 2 wp_rule. rewrite (inv_mounted s Hs). cbn [negb].
  destruct (list_find _ _) as [[fd f]|]; [|by apply wp_ret].
  pose proof (fs_step_refl s Hs) as H.
  wp_call safe_lookup; [done|]. intros n s1 [H1 _].
  wp_rule. eapply (wp_mono _ _ (fun _ s' => fs_step s s')).
  { wp_rule; [|by apply wp_ret]. wp_rule; [|by apply wp_ret].
    wp_call safe_create_file; [done..|]. intros ok s2 H2. wp_rule; [|by apply wp_ret].
    eapply wp_mono; [by apply safe_lookup|]. by intros ? ? []. }
  intros n' s2 H2. wp_rule; [apply wp_ret, H2|].
  wp_call safe_read_inode; [done|]. intros r s3 [H3 Hr]. destruct r as [i|]; [|apply wp_ret, H3].
  wp_rule; [apply wp_ret, H3|].
  wp_call safe_set_file; [apply H3|by apply (Hr i)|]. intros [] s4 H4. by apply wp_ret.
Qed.

Lemma safe_close fd s : inv s -> wp (ext2_close fd) s (fun _ s' => inv s').
Proof.
  intros Hs. unfold ext2_close. wp_call safe_open_file; [done|]. intros o s1 [-> Ho].
  destruct o as [f|]; [|by apply wp_ret]. destruct (Ho f eq_refl) as (_ & _ & _ & Hi).
  wp_call safe_set_file; [done|done|]. intros [] s1 H1. by apply wp_ret.
Qed.

(** ** Read *)

Lemma safe_read_loop ino s0 fuel : forall start off remaining acc s,
  fs_step s0 s -> inode_ok ino -> 0 <= start -> 0 <= off < block_size (fs s0) ->
  i_size ino < (start + Z.of_nat fuel - 1) * block_size (fs s0) -> (0 < fuel)%nat ->
  wp (read_loop fuel ino start off remaining acc) s (fun _ s' => fs_step s0 s').
Proof.
  induction fuel as [|fuel IH]; intros start off remaining acc s H Hi Hst Hoff Hfuel Hpos; [lia|].
  cbn [read_loop]. destruct (Z.leb_spec remaining 0); [by apply wp_ret|].
  wp_call safe_get_block; [done..|]. intros b s1 (H1 & Hb & Hlt).
  destruct (Z.eqb_spec b 0) as [|Hb0]; [by apply wp_ret|]. destruct (Hlt Hb0) as [Hfit Hin].
  do 2 wp_rule. wp_call safe_read_block; [done..|]. intros ok s2 H2.
  destruct ok; cbn [negb]; [|by apply wp_ret]. rewrite (fstep_block_size _ _ H1).
  pose proof (block_size_le s2 (fstep_inv _ _ H2)) as [Hle Hbs].
  rewrite (fstep_block_size _ _ H2) in Hle, Hbs.
  wp_rule. apply wp_load_io; [apply H2|lia..|].
  rewrite (wrap_small 32) by nia. apply IH; [done|done|lia|lia|lia|].
  destruct fuel; [nia|lia].
Qed.

Lemma read_fuel_enough ino bs start :
  inode_ok ino -> 0 < bs -> 0 <= start -> i_size ino < (start + Z.of_nat (read_fuel ino bs) - 1) * bs.
Proof.
  intros Hi Hbs Hst. unfold read_fuel. pose proof (i_size_ok ino Hi) as Hs. unfold u32_ok in Hs.
  pose proof (Z.div_pos (i_size ino) bs ltac:(lia) Hbs).
  pose proof (Z.mul_succ_div_gt (i_size ino) bs Hbs). nia.
Qed.

Lemma safe_read fd null size s : inv s -> wp (ext2_read fd null size) s (fun _ s' => inv s').
Proof.
  intros Hs. unfold ext2_read. wp_call safe_open_file; [done|]. intros o s1 [-> Ho].
  destruct o as [file|]; [|by apply wp_ret]. destruct (Ho file eq_refl) as (_ & _ & _ & Hi).
  wp_rule; [by apply wp_ret|]. wp_rule; [by apply wp_ret|]. cbv zeta.
  do 2 wp_rule. pose proof (block_size_le s Hs) as [Hle Hbs].
  wp_rule. apply wp_mdiv; [lia|]. wp_rule. apply wp_mmod; [lia|].
  pose proof (Z.mod_pos_bound (position file) (block_size (fs s)) ltac:(lia)).
  pose proof (wrap_range 32 (position file / block_size (fs s)) ltac:(lia)).
  wp_call (safe_read_loop (inode file) s); [by apply fs_step_refl|done|lia|lia|apply read_fuel_enough; [done|lia|lia]|
    unfold read_fuel; lia|].
  intros bytes s1 H1. cbv zeta. set (file' := set_inode _ _).
  assert (inode_ok (inode file')) as Hi'.
  { apply inode_ok_atime; [done|unfold u32_ok; lia]. }
  wp_call safe_set_file; [apply H1|done|]. intros [] s2 Hs2.
  wp_call safe_write_inode; [by apply fs_step_refl|done|]. intros ok s3 H3. apply wp_ret, H3.
Qed.

(** ** Write *)

Lemma safe_write_loop s0 fuel : forall ino start off buf written s,
  fs_step s0 s -> inode_ok ino -> 0 <= start -> 0 <= off < block_size (fs s0) -> bytes_ok buf ->
  off + zlen buf <= (Z.of_nat fuel - 1) * block_size (fs s0) -> (0 < fuel)%nat ->
  wp (write_loop fuel ino start off buf written) s (fun r s' => fs_step s0 s' /\ inode_ok (snd r)).
Proof.
  induction fuel as [|fuel IH]; intros ino start off buf written s H Hi Hst Hoff Hbuf Hfuel Hpos; [lia|].
  cbn [write_loop]. case_decide as Hnil; [by apply wp_ret|].
  assert (0 < zlen buf) as Hlen by (destruct buf; [done|unfold zlen; cbn; lia]).
  do 2 wp_rule. cbv zeta.
  wp_call safe_get_block; [done..|]. intros b s1 (H1 & Hb & _).
  pose proof (block_size_le s (fstep_inv _ _ H)) as [Hle Hbs]. rewrite (fstep_block_size _ _ H) in *.
  wp_rule. eapply (wp_mono _ _ (fun r s' => fs_step s0 s' /\ inode_ok (snd r) /\
    forall b, fst r = Some b -> u32_ok b)).
  { wp_rule; [|apply wp_ret; split_and!; [done|done|]; by intros ? [= <-]].
    wp_call safe_allocate_block; [done|]. intros b2 s2 [H2 Hb2]. wp_rule; [by apply wp_ret|].
    wp_call safe_io_zero; [done|]. intros [] s3 H3.
    wp_call safe_write_block; [done..|]. intros ? s4 H4.
    wp_call safe_set_block; [done..|]. intros [ok ino'] s5 (H5 & Hi' & _). cbn [snd] in *. cbv beta zeta.
    wp_rule; [by apply wp_ret|]. apply wp_ret. split_and!; [done| |by intros ? [= <-]].
    apply inode_ok_blocks; [done|apply wrap32_ok]. }
  intros [ob ino'] s2 (H2 & Hi' & Hob). cbn [fst snd] in *. cbv beta zeta.
  destruct ob as [b'|]; [|by apply wp_ret]. specialize (Hob b' eq_refl).
  wp_rule. eapply (wp_mono _ _ (fun _ s' => fs_step s0 s')).
  { wp_rule; [by apply safe_read_block|by apply wp_ret]. }
  intros ok s3 H3. wp_rule; [by apply wp_ret|].
  set (to_copy := Z.min _ _). assert (zlen (take (Z.to_nat to_copy) buf) = to_copy) as Hcopy.
  { unfold zlen in *. rewrite length_take. lia. }
  wp_call safe_store_io; [done|lia|lia|by apply bytes_ok_take|]. intros [] s4 H4.
  wp_call safe_write_block; [done..|]. intros ok' s5 H5. wp_rule; [by apply wp_ret|].
  assert (zlen (drop (Z.to_nat to_copy) buf) = zlen buf - to_copy) as Hrest.
  { unfold zlen in *. rewrite length_drop. lia. }
  apply IH; [done|done|apply wrap_range; lia|lia|by apply bytes_ok_drop| |].
  - rewrite Hrest. destruct fuel; nia.
  - destruct fuel; nia.
Qed.

Lemma safe_write fd buffer s :
  inv s -> (forall buf, buffer = Some buf -> bytes_ok buf) ->
  wp (ext2_write fd buffer) s (fun _ s' => inv s').
Proof.
  intros Hs Hbuf. unfold ext2_write. wp_call safe_open_file; [done|]. intros o s1 [-> Ho].
  destruct o as [file|]; [|by apply wp_ret]. destruct (Ho file eq_refl) as (_ & _ & _ & Hi).
  destruct buffer as [buf|]; [|by apply wp_ret]. specialize (Hbuf buf eq_refl).
  wp_rule; [by apply wp_ret|].
  do 2 wp_rule. pose proof (block_size_le s Hs) as [Hle Hbs].
  wp_rule. apply wp_mdiv; [lia|]. wp_rule. apply wp_mmod; [lia|].
  pose proof (Z.mod_pos_bound (position file) (block_size (fs s)) ltac:(lia)) as Hoff.
  pose proof (wrap_range 32 (position file / block_size (fs s)) ltac:(lia)) as Hstart.
  assert (0 <= zlen buf) as Hlen by (unfold zlen; lia).
  wp_call (safe_write_loop s); [by apply fs_step_refl|done|lia|lia|done| |unfold write_fuel; lia|].
  { unfold write_fuel. pose proof (Z.mul_succ_div_gt (zlen buf) (block_size (fs s)) ltac:(lia)).
    pose proof (Z.div_pos (zlen buf) (block_size (fs s)) ltac:(lia) ltac:(lia)). nia. }
  intros [written ino] s1 [H1 Hi1]. cbn [snd] in *. cbv beta zeta. set (ino' := set_i_mtime _ _).
  assert (inode_ok ino') as Hi'.
  { apply inode_ok_mtime; [|unfold u32_ok; lia]. case_match; [|done]. apply inode_ok_size; [done|apply wrap32_ok]. }
  wp_call safe_set_file; [apply H1|done|]. intros [] s2 Hs2.
  wp_call safe_write_inode; [by apply fs_step_refl|done|]. intros ok s3 H3. apply wp_ret, H3.
Qed.

(** ** The interface *)

Inductive call : Type :=
| Open (path : list Z) (flags : Z)
| Close (fd : Z)
| Read (fd : Z) (null : bool) (size : Z)
| Write (fd : Z) (buffer : option (list Z))
| Mkdir (path : list Z) (mode : Z)
| Rmdir (path : list Z)
| Unlink (path : list Z)
| CreateDevice (drive : Z) (path : list Z) (mode dev : Z)
| Lookup (drive : Z) (path : list Z).

Definition run_call (c : call) : M state Z :=
  match c with
  | Open path flags => ext2_open path flags
  | Close fd => b ← ext2_close fd; mret (Z.b2z b)
  | Read fd null size => r ← ext2_read fd null size; mret (fst r)
  | Write fd buffer => ext2_write fd buffer
  | Mkdir path mode => b ← ext2_mkdir path mode; mret (Z.b2z b)
  | Rmdir path => b ← ext2_rmdir path; mret (Z.b2z b)
  | Unlink path => b ← ext2_unlink path; mret (Z.b2z b)
  | CreateDevice drive path mode dev => b ← ext2_create_device drive path mode dev; mret (Z.b2z b)
  | Lookup drive path => ext2_lookup_path drive path
  end.

Fixpoint run_calls (cs : list call) : M state (list Z) :=
  match cs with
  | [] => mret []
  | c :: cs => r ← run_call c; rs ← run_calls cs; mret (r :: rs)
  end.

(** The arguments are C objects: strings and buffers of bytes, a 32-bit
    device number. *)
Definition call_ok (c : call) : Prop :=
  match c with
  | Open path _ | Mkdir path _ | Rmdir path | Unlink path => bytes_ok path
  | Write _ buffer => forall buf, buffer = Some buf -> bytes_ok buf
  | CreateDevice _ path _ dev => bytes_ok path /\ u32_ok dev
  | Close _ | Read _ _ _ | Lookup _ _ => True
  end.

Lemma safe_call c s : inv s -> call_ok c -> wp (run_call c) s (fun _ s' => inv s').
Proof.
  intros Hs Hc. pose proof (fs_step_refl s Hs) as H.
  destruct c; cbn [run_call call_ok] in *.
  - by apply safe_open.
  - wp_call safe_close; [done|]. intros r s1 H1. by apply wp_ret.
  - wp_call safe_read; [done|]. intros r s1 H1. by apply wp_ret.
  - by apply safe_write.
  - wp_call safe_mkdir; [done..|]. intros r s1 H1. apply wp_ret, H1.
  - wp_call safe_rmdir; [done..|]. intros r s1 H1. apply wp_ret, H1.
  - wp_call safe_unlink; [done..|]. intros r s1 H1. apply wp_ret, H1.
  - wp_call safe_create_device; [done|apply Hc|apply Hc|]. intros r s1 H1. apply wp_ret, H1.
  - eapply wp_mono; [by eapply safe_lookup|]. intros r s1 [H1 _]. apply H1.
Qed.

(** C2: No disk contents can make a mounted file system fault, run
    forever or lose its invariant: any sequence of calls (open, close, read,
    write, mkdir, rmdir, unlink, create device, path lookup) with any
    descriptors, flags, paths and buffers returns a result for each call and
    ends in a well-formed file system.  Every loop over directory entries,
    directory blocks, file blocks, bitmaps and path components ends, and every
    access stays inside [io_buffer], the cache pages and the group
    descriptors. *)
Theorem calls_return cs s :
  inv s -> Forall call_ok cs ->
  exists rs s', run_calls cs s = (Ret rs, s') /\ length rs = length cs /\ inv s'.
Proof.
  intros Hs Hcs. apply wp_run. revert s Hs. induction Hcs as [|c cs Hc _ IH]; intros s Hs.
  { by apply wp_ret. }
  cbn [run_calls]. wp_call safe_call; [done|done|]. intros r s1 Hs1.
  wp_call IH; [done|]. intros rs s2 [Hl Hs2]. apply wp_ret. split; [cbn; by rewrite Hl|done].
Qed.
End files.
