(* ===== verification/Ext2Path.v ===== *)
(** Paths in fs/ext2.c: what [ext2_normalize_path] makes of a path, and path
    lookup as a walk along its components. *)
From S2P Require Import Prelude PageAllocator Bytes BlockDevice CStringSpec Ext2 Ext2Dir.
Import Ext2 Ext2Dir.

(** ** Canonical paths *)

(** The name of a file or directory in a path. *)
Definition component (t : list Z) : Prop :=
  t <> [] /\ (SLASH ∉ t) /\ t <> DOT /\ t <> DOTDOT.

Definition joined (cs : list (list Z)) : list Z := concat (map (cons SLASH) cs).

Definition render (cs : list (list Z)) : list Z := match cs with [] => ROOT | _ => joined cs end.

(** The effect of a component on the path so far, as the code has it: ".."
    drops the last component, unless it is the only one. *)
Definition resolve (cs : list (list Z)) (t : list Z) : list (list Z) :=
  if decide (t = DOT) then cs
  else if decide (t = DOTDOT) then match cs with [] | [_] => cs | _ => removelast cs end
  else cs ++ [t].

Definition components (m : bool) (cwd path : list Z) : list (list Z) :=
  foldl resolve [] (split_on [SLASH] (absolute_path m cwd path)).

Lemma last_index_app c l r : c ∉ r -> last_index c (l ++ c :: r) = Some (length l).
Proof.
  intros Hr. induction l as [|x l IH]; cbn.
  - assert (last_index c r = None) as ->.
    { induction r as [|y r IHr]; [done|]. cbn. apply not_elem_of_cons in Hr as [Hy Hr].
      rewrite IHr by done. destruct (Z.eqb_spec y c); [by subst|done]. }
    by rewrite Z.eqb_refl.
  - by rewrite IH.
Qed.

Lemma joined_app cs ds : joined (cs ++ ds) = joined cs ++ joined ds.
Proof. unfold joined. by rewrite map_app, concat_app. Qed.

Lemma joined_snoc cs t : joined (cs ++ [t]) = joined cs ++ SLASH :: t.
Proof. rewrite joined_app. cbn. by rewrite app_nil_r. Qed.

Lemma normalize_step_joined cs t :
  Forall component cs -> normalize_step (joined cs) t = joined (resolve cs t).
Proof.
  intros Hcs. unfold normalize_step, resolve. case_decide; [done|].
  case_decide; [|by rewrite joined_snoc].
  destruct cs as [|c cs _] using rev_ind; [done|].
  apply Forall_app in Hcs as [_ Hc]. apply Forall_cons in Hc as [(_ & Hc & _) _].
  rewrite joined_snoc, last_index_app by done.
  destruct cs as [|d cs]; [cbn; by rewrite app_nil_r|].
  assert (match (d :: cs) ++ [c] with [] | [_] => (d :: cs) ++ [c] | _ => removelast ((d :: cs) ++ [c]) end
          = d :: cs) as ->.
  { destruct cs as [|d' cs]; [done|]. change (removelast ((d :: d' :: cs) ++ [c]) = d :: d' :: cs).
    apply removelast_last. }
  change (joined (d :: cs)) with (SLASH :: d ++ joined cs). cbn [length app].
  change (SLASH :: (d ++ joined cs) ++ SLASH :: c) with ((SLASH :: d ++ joined cs) ++ SLASH :: c).
  by rewrite take_app_length'.
Qed.

Lemma resolve_components cs t :
  Forall component cs -> t <> [] -> SLASH ∉ t -> Forall component (resolve cs t).
Proof.
  intros Hcs Ht Hs. unfold resolve. case_decide; [done|]. case_decide.
  - destruct cs as [|c [|d cs]]; [done|done|].
    destruct (@exists_last _ (c :: d :: cs)) as (cs' & x & Hx); [done|]. rewrite Hx in *.
    rewrite removelast_last. by apply Forall_app in Hcs as [? _].
  - apply Forall_app. split; [done|]. constructor; [by split_and!|by apply Forall_nil].
Qed.

Lemma fold_normalize ts : forall cs,
  Forall component cs -> Forall (fun t => t <> [] /\ SLASH ∉ t) ts ->
  foldl normalize_step (joined cs) ts = joined (foldl resolve cs ts) /\
  Forall component (foldl resolve cs ts).
Proof.
  induction ts as [|t ts IH]; intros cs Hcs Hts; [done|].
  apply Forall_cons in Hts as [[Ht Hs] Hts]. cbn [foldl].
  rewrite normalize_step_joined by done. apply IH; [by apply resolve_components|done].
Qed.

(** The tokens of a path are not empty and hold no slash. *)
Lemma split_from_tokens w : forall cur,
  SLASH ∉ cur -> Forall (fun t => t <> [] /\ SLASH ∉ t) (split_from [SLASH] cur w).
Proof.
  induction w as [|c w IH]; intros cur Hcur; cbn [split_from].
  - destruct cur; [by apply Forall_nil|]. constructor; [done|by apply Forall_nil].
  - case_decide as Hc.
    + destruct cur; [apply IH; apply not_elem_of_nil|]. constructor; [done|].
      apply IH; apply not_elem_of_nil.
    + apply IH. rewrite elem_of_app. intros [?|Hin]; [done|]. apply Hc.
      apply list_elem_of_singleton in Hin as ->. by apply list_elem_of_singleton.
Qed.

(** ** Lengths *)

(** The room the components take, with a slash before each. *)
Fixpoint room (ts : list (list Z)) : nat :=
  match ts with [] => 0%nat | t :: ts => (S (length t) + room ts)%nat end.

Lemma length_joined cs : length (joined cs) = room cs.
Proof.
  induction cs as [|c cs IH]; [done|]. change (joined (c :: cs)) with (SLASH :: (c ++ joined cs)).
  cbn [length room]. by rewrite length_app, IH.
Qed.

Lemma room_app cs ds : room (cs ++ ds) = (room cs + room ds)%nat.
Proof. by rewrite <- !length_joined, joined_app, length_app. Qed.

Lemma room_split_from w : forall cur,
  (room (split_from [SLASH] cur w) <= length cur + length w + 1)%nat.
Proof.
  induction w as [|c w IH]; intros cur; cbn [split_from].
  - destruct cur; cbn [room length]; lia.
  - case_decide.
    + specialize (IH []). destruct cur; cbn [room length] in *; lia.
    + specialize (IH (cur ++ [c])). rewrite length_app in IH. cbn [length] in *. lia.
Qed.

Lemma room_resolve ts : forall cs, (room (foldl resolve cs ts) <= room cs + room ts)%nat.
Proof.
  induction ts as [|t ts IH]; intros cs; [cbn; lia|]. cbn [foldl].
  assert (room (resolve cs t) <= room cs + S (length t))%nat as Hstep.
  { unfold resolve. case_decide; [lia|]. case_decide.
    - destruct cs as [|c [|d cs]]; [lia|lia|].
      destruct (@exists_last _ (c :: d :: cs)) as (cs' & x & Hx); [done|]. rewrite Hx.
      rewrite removelast_last, room_app. lia.
    - rewrite room_app. cbn [room]. lia. }
  specialize (IH (resolve cs t)). cbn [room]. lia.
Qed.

Lemma absolute_path_slash m cwd path :
  (m = true -> head cwd = Some SLASH) ->
  exists w, absolute_path m cwd path = SLASH :: w /\ (length w <= 254)%nat.
Proof.
  intros Hcwd. unfold absolute_path, EXT2_MAX_PATH. change (Z.to_nat (256 - 1)) with (S 254).
  assert (forall w, exists w', take (S 254) (SLASH :: w) = SLASH :: w' /\ (length w' <= 254)%nat) as Htake.
  { intros w. exists (take 254 w). split; [done|]. rewrite length_take. lia. }
  assert (forall w, m = true -> exists w', take (S 254) (cwd ++ w) = SLASH :: w' /\ (length w' <= 254)%nat) as Hrel.
  { intros w Hm. specialize (Hcwd Hm). destruct cwd as [|c cwd]; [done|]. injection Hcwd as ->. apply Htake. }
  destruct path as [|c path].
  - destruct m; [by apply Hrel|apply Htake].
  - destruct (Z.eqb_spec c SLASH) as [->|]; [apply Htake|].
    destruct m; [by apply Hrel|apply Htake].
Qed.

(** ** Tokens of a canonical path *)

Lemma split_on_joined cs : Forall component cs -> split_on [SLASH] (joined cs) = cs.
Proof.
  induction cs as [|c cs IH]; [done|]. intros [(Hne & Hs & _) Hcs]%Forall_cons.
  change (joined (c :: cs)) with ([SLASH] ++ c ++ joined cs).
  destruct c as [|a c]; [done|].
  rewrite split_on_token.
  - f_equal. destruct cs as [|d cs]; [done|].
    transitivity (split_on [SLASH] (joined (d :: cs))); [|by apply IH].
    change (joined (d :: cs)) with (SLASH :: d ++ joined cs). cbn [tail].
    unfold split_on. cbn [split_from]. by rewrite decide_True by by apply list_elem_of_singleton.
  - constructor; [|by apply Forall_nil]. apply bool_decide_eq_true. by apply list_elem_of_singleton.
  - apply Forall_forall. intros x Hx. apply bool_decide_eq_false. intros Hin.
    apply list_elem_of_singleton in Hin as ->. done.
  - destruct cs as [|d cs]; [done|]. apply bool_decide_eq_true. by apply list_elem_of_singleton.
Qed.

Lemma resolve_canonical ds : forall cs, Forall component ds -> foldl resolve cs ds = cs ++ ds.
Proof.
  induction ds as [|d ds IH]; intros cs Hds; [by rewrite app_nil_r|].
  apply Forall_cons in Hds as [(_ & _ & H1 & H2) Hds]. cbn [foldl]. rewrite IH by done.
  unfold resolve. by rewrite !decide_False, <- app_assoc by done.
Qed.

Lemma normalize_render m cwd path :
  ext2_normalize_path m cwd path = render (components m cwd path) /\
  Forall component (components m cwd path).
Proof.
  unfold ext2_normalize_path, components, split_on.
  destruct (fold_normalize (split_from [SLASH] [] (absolute_path m cwd path)) [] (Forall_nil_2 _)
    (split_from_tokens _ [] (not_elem_of_nil _))) as [H Hcs].
  change (joined []) with (@nil Z) in H. rewrite H. split; [|done].
  destruct (foldl resolve [] _) as [|c cs]; done.
Qed.

Lemma room_components m cwd path :
  (m = true -> head cwd = Some SLASH) -> (room (components m cwd path) <= 255)%nat.
Proof.
  intros Hcwd. destruct (absolute_path_slash m cwd path Hcwd) as (w & Hw & Hlen).
  unfold components. rewrite Hw. etransitivity; [apply room_resolve|].
  unfold split_on. cbn [split_from]. rewrite decide_True by by apply list_elem_of_singleton.
  pose proof (room_split_from w []). cbn [room length] in *. lia.
Qed.


Section lookup.
Context {A D : Type} `{!PageAllocator A, !BlockDevice D}.
Abbreviation state := (ext2_state A D).

(** Looking up one component after the other; [0] ends the walk. *)
Fixpoint lookup_components (drive ino : Z) (cs : list (list Z)) : M state Z :=
  match cs with
  | [] => mret ino
  | c :: cs =>
      next ← find_file_in_dir drive ino c;
      if next =? 0 then mret 0 else lookup_components drive next cs
  end.

Lemma lookup_loop_component drive ino c cur (p : list Z) :
  SLASH ∉ c -> lookup_loop (A := A) (D := D) drive ino cur (c ++ p) = lookup_loop drive ino (cur ++ c) p.
Proof.
  revert cur. induction c as [|x c IH]; intros cur Hc; [by rewrite app_nil_r|].
  apply not_elem_of_cons in Hc as [Hx Hc]. cbn [app lookup_loop]. cbv zeta.
  destruct (Z.eqb_spec x SLASH); [by subst|]. by rewrite IH, <- app_assoc.
Qed.

Lemma lookup_loop_joined drive cs : forall ino c s,
  component c -> Forall component cs -> (length c <= 255)%nat -> Forall (fun t => length t <= 255)%nat cs ->
  lookup_loop (A := A) (D := D) drive ino [] (c ++ joined cs) s = lookup_components drive ino (c :: cs) s.
Proof.
  induction cs as [|d cs IH]; intros ino c s (Hne & Hs & _) Hcs Hlen Hlens;
    rewrite lookup_loop_component by done; cbn [app].
  - cbn [joined map concat lookup_loop lookup_components]. cbv zeta. rewrite decide_False by done.
    rewrite take_ge by (unfold EXT2_NAME_LEN; lia).
    unfold mbind, m_bind. destruct (find_file_in_dir drive ino c s) as [[next| | | |] s']; try done.
    by destruct (Z.eqb_spec next 0) as [->|].
  - apply Forall_cons in Hcs as [Hd Hcs]. apply Forall_cons in Hlens as [Hld Hlens].
    change (joined (d :: cs)) with (SLASH :: (d ++ joined cs)).
    cbn [lookup_loop]. cbv zeta. rewrite Z.eqb_refl, decide_False by done.
    rewrite take_ge by (unfold EXT2_NAME_LEN; lia).
    change (lookup_components drive ino (c :: d :: cs)) with
      (next ← find_file_in_dir drive ino c;
       if next =? 0 then mret 0 else lookup_components drive next (d :: cs)).
    unfold mbind, m_bind. destruct (find_file_in_dir drive ino c s) as [[next| | | |] s']; try done.
    destruct (next =? 0); [done|]. by apply IH.
Qed.

(** C17: Path lookup is a walk: [ext2_lookup_path] starts at the root
    directory and looks up the components of the normalized path one after the
    other, each in the directory the one before led to; it returns zero as soon
    as one is missing, and the root's inode number for "/". *)
Theorem lookup_walks_components drive path s :
  (mounted s = true -> head (current_dir (fs s)) = Some SLASH) ->
  ext2_lookup_path drive path s =
  lookup_components drive EXT2_ROOT_INO (components (mounted s) (current_dir (fs s)) path) s.
Proof.
  intros Hcwd. unfold ext2_lookup_path, normalize. unfold mbind at 1, m_bind at 1, mgets at 1.
  destruct (normalize_render (mounted s) (current_dir (fs s)) path) as [-> Hc].
  pose proof (room_components _ _ path Hcwd) as Hroom.
  destruct (components _ _ path) as [|c cs]; [done|].
  assert (Forall (fun t => length t <= 255)%nat (c :: cs)) as Hlens.
  { clear Hc. revert Hroom. induction (c :: cs) as [|t ts IH]; intros Hroom; [by apply Forall_nil|].
    cbn [room] in Hroom.
    constructor; [lia|]. apply IH. lia. }
  apply Forall_cons in Hc as [Hc Hcs]. apply Forall_cons in Hlens as [Hl Hls].
  cbn [render]. change (joined (c :: cs)) with (SLASH :: (c ++ joined cs)).
  rewrite decide_False, Z.eqb_refl.
  2:{ intros [= Heq%app_eq_nil]. by destruct Heq, Hc. }
  by apply lookup_loop_joined.
Qed.
End lookup.
