(* ===== verification/Ext2DirSpec.v ===== *)
(** Directory blocks of fs/ext2.c as lists of entries: what the scans for
    finding, adding and removing a name do to the list. *)
From S2P Require Import Prelude PageAllocator Bytes BlockDevice Ext2 Ext2Dir Ext2DirSafe.
Import Ext2 Ext2Dir.

(** ** Entries and blocks *)

(** An entry: the inode (zero if unused), the type, the name, and the bytes up
    to the next entry. *)
Record dent : Type := Dent {
  d_ino : Z;
  d_type : Z;
  d_nm : list Z;
  d_pad : list Z;
}.

Definition dent_len (e : dent) : Z := 8 + zlen (d_nm e) + zlen (d_pad e).

Definition dent_bytes (e : dent) : list Z :=
  pack [4; 2; 1; 1]%nat [d_ino e; dent_len e; zlen (d_nm e); d_type e] ++ d_nm e ++ d_pad e.

Record dent_ok (e : dent) : Prop := {
  dent_ino : 0 <= d_ino e < 2 ^ 32;
  dent_name : zlen (d_nm e) <= 255 /\ bytes_ok (d_nm e);
  dent_pad : bytes_ok (d_pad e);
  dent_size : dent_len e < 2 ^ 16;
}.

Definition block_bytes (es : list dent) : list Z := concat (map dent_bytes es).

Lemma zlen_app l1 l2 : zlen (l1 ++ l2) = zlen l1 + zlen l2.
Proof. unfold zlen. rewrite length_app. lia. Qed.

Lemma zlen_nonneg l : 0 <= zlen l.
Proof. unfold zlen. lia. Qed.

Lemma zlen_dent_bytes e : zlen (dent_bytes e) = dent_len e.
Proof. unfold dent_bytes, dent_len. rewrite !zlen_app. unfold zlen at 1. rewrite length_pack by done. cbn. lia. Qed.

Lemma dent_len_pos e : 8 <= dent_len e.
Proof. unfold dent_len. pose proof (zlen_nonneg (d_nm e)). pose proof (zlen_nonneg (d_pad e)). lia. Qed.

Lemma block_bytes_app es fs : block_bytes (es ++ fs) = block_bytes es ++ block_bytes fs.
Proof. unfold block_bytes. by rewrite map_app, concat_app. Qed.

Lemma block_bytes_cons e es : block_bytes (e :: es) = dent_bytes e ++ block_bytes es.
Proof. done. Qed.

Lemma block_bytes_bound es : 8 * Z.of_nat (length es) <= zlen (block_bytes es).
Proof.
  induction es as [|e es IH]; [done|]. rewrite block_bytes_cons, zlen_app, zlen_dent_bytes.
  pose proof (dent_len_pos e). cbn [length]. lia.
Qed.

(** ** Reading an entry inside a block *)

Lemma slice_middle pre x post k n :
  0 <= k -> 0 <= n -> k + n <= zlen x -> slice (zlen pre + k) n (pre ++ x ++ post) = slice k n x.
Proof.
  intros Hk Hn Hle. unfold slice, zlen in *.
  replace (Z.to_nat (Z.of_nat (length pre) + k)) with (length pre + Z.to_nat k)%nat by lia.
  rewrite <- drop_drop, drop_app_length. rewrite drop_app_le by lia.
  by rewrite take_app_le by (rewrite length_drop; lia).
Qed.

Lemma field_middle n pre x post k :
  0 <= k -> k + Z.of_nat n <= zlen x ->
  field n (zlen pre + k) (pre ++ x ++ post) = Some (un_le (slice k (Z.of_nat n) x)).
Proof.
  intros Hk Hle. unfold field. rewrite !zlen_app. pose proof (zlen_nonneg post).
  rewrite (proj2 (Z.leb_le _ _)) by lia. by rewrite slice_middle by lia.
Qed.

Lemma le_header e : dent_bytes e =
  le 4 (d_ino e) ++ le 2 (dent_len e) ++ le 1 (zlen (d_nm e)) ++ le 1 (d_type e) ++ d_nm e ++ d_pad e.
Proof. unfold dent_bytes. cbn [pack]. rewrite <- !app_assoc. done. Qed.

Lemma entry_fields pre e post :
  dent_ok e ->
  d_inode (zlen pre) (pre ++ dent_bytes e ++ post) = Some (d_ino e) /\
  d_rec_len (zlen pre) (pre ++ dent_bytes e ++ post) = Some (dent_len e) /\
  d_name_len (zlen pre) (pre ++ dent_bytes e ++ post) = Some (zlen (d_nm e)).
Proof.
  intros [Hino [Hn _] _ Hsize]. pose proof (dent_len_pos e). pose proof (zlen_nonneg (d_nm e)).
  unfold d_inode, d_rec_len, d_name_len. rewrite <- (Z.add_0_r (zlen pre)) at 1.
  rewrite !field_middle by (rewrite ?zlen_dent_bytes; lia). rewrite le_header.
  split_and!; f_equal.
  - change (slice 0 (Z.of_nat 4) _) with (le 4 (d_ino e)). rewrite un_le_le. by apply Z.mod_small.
  - change (slice 4 (Z.of_nat 2) _) with (le 2 (dent_len e)). rewrite un_le_le. apply Z.mod_small. lia.
  - change (slice 6 (Z.of_nat 1) _) with (le 1 (zlen (d_nm e))). rewrite un_le_le. apply Z.mod_small. lia.
Qed.

Lemma name_eq_spec name : forall x pre post,
  zlen x = zlen name -> name_eq name (zlen pre) (pre ++ x ++ post) = Some (bool_decide (name = x)).
Proof.
  induction name as [|c name IH]; intros [|b x] pre post Hl; try done.
  cbn [name_eq]. rewrite <- (Z.add_0_r (zlen pre)) at 1.
  change (pre ++ (b :: x) ++ post) with (pre ++ ([b] ++ x) ++ post). rewrite <- (app_assoc [b]).
  rewrite field_middle by (unfold zlen; cbn; lia).
  change (un_le (slice 0 (Z.of_nat 1) [b])) with (b + 256 * 0). rewrite Z.mul_0_r, Z.add_0_r.
  cbn [mbind option_bind].
  destruct (Z.eqb_spec b c) as [->|Hne].
  - rewrite app_assoc. replace (zlen pre + 1) with (zlen (pre ++ [c])) by (rewrite zlen_app; done).
    rewrite IH by (unfold zlen in *; cbn in Hl; lia). f_equal. apply bool_decide_ext.
    split; [by intros ->|by intros [=]].
  - rewrite bool_decide_false; [done|]. by intros [= -> _].
Qed.

Lemma entry_named_spec name pre e post :
  dent_ok e -> entry_named name (zlen pre) (pre ++ dent_bytes e ++ post) = Some (bool_decide (name = d_nm e)).
Proof.
  intros He. unfold entry_named. destruct (entry_fields pre e post He) as (_ & _ & ->).
  cbn [mbind option_bind]. destruct (Z.eqb_spec (zlen (d_nm e)) (zlen name)) as [Heq|Hne].
  - rewrite le_header. set (h := le 4 _). set (l2 := le 2 _). set (n1 := le 1 (zlen _)). set (t := le 1 (d_type e)).
    replace (pre ++ (h ++ l2 ++ n1 ++ t ++ d_nm e ++ d_pad e) ++ post)
      with ((pre ++ h ++ l2 ++ n1 ++ t) ++ d_nm e ++ (d_pad e ++ post)) by (by rewrite <- !app_assoc).
    replace (zlen pre + 8) with (zlen (pre ++ h ++ l2 ++ n1 ++ t)) by (rewrite !zlen_app; done).
    by apply name_eq_spec.
  - rewrite bool_decide_false; [done|]. by intros ->.
Qed.

(** ** Finding a name *)

(** The inode of the first used entry with the name; zero if there is none. *)
Fixpoint dir_lookup (name : list Z) (es : list dent) : Z :=
  match es with
  | [] => 0
  | e :: es => if negb (d_ino e =? 0) && bool_decide (name = d_nm e) then d_ino e else dir_lookup name es
  end.

Lemma find_entry_from fuel bs name post : forall es pre,
  Forall dent_ok es -> (length es < fuel)%nat -> bs = zlen (pre ++ block_bytes es) ->
  find_entry fuel bs name (zlen pre) (pre ++ block_bytes es ++ post) = Some (dir_lookup name es).
Proof.
  induction fuel as [|fuel IH]; intros es pre Hes Hfuel Hbs; [lia|]. cbn [find_entry].
  destruct es as [|e es].
  { rewrite (proj2 (Z.leb_le _ _)); [done|]. subst bs. rewrite zlen_app. unfold block_bytes. cbn. unfold zlen. cbn. lia. }
  apply Forall_cons in Hes as [He Hes]. pose proof (dent_len_pos e).
  rewrite (proj2 (Z.leb_gt _ _)).
  2:{ subst bs. rewrite zlen_app, block_bytes_cons, zlen_app, zlen_dent_bytes.
      pose proof (zlen_nonneg (block_bytes es)). lia. }
  rewrite block_bytes_cons, <- app_assoc. destruct (entry_fields pre e (block_bytes es ++ post) He) as (-> & -> & _).
  cbn [mbind option_bind]. rewrite (proj2 (Z.eqb_neq _ _)) by lia.
  assert (find_entry fuel bs name (zlen pre + dent_len e) (pre ++ dent_bytes e ++ block_bytes es ++ post)
          = Some (dir_lookup name es)) as Hnext.
  { rewrite app_assoc. replace (zlen pre + dent_len e) with (zlen (pre ++ dent_bytes e))
      by (by rewrite zlen_app, zlen_dent_bytes).
    apply IH; [done|cbn in Hfuel; lia|]. by rewrite <- app_assoc. }
  cbn [dir_lookup]. rewrite entry_named_spec by done.
  destruct (d_ino e =? 0); cbn [mbind option_bind negb andb]; [done|].
  by destruct (bool_decide (name = d_nm e)).
Qed.

(** ** Adding a name *)

(** The entry [e] is cut after its name, and the rest becomes the new entry. *)
Definition split_dent (e : dent) (ino type : Z) (name : list Z) : list dent :=
  let keep := Z.to_nat (entry_size (zlen (d_nm e)) - 8 - zlen (d_nm e)) in
  [Dent (d_ino e) (d_type e) (d_nm e) (take keep (d_pad e));
   Dent ino type name (drop (8 + length name) (drop keep (d_pad e)))].

(** The first entry with room behind its name is split. *)
Fixpoint dir_add (ino type : Z) (name : list Z) (es : list dent) : option (list dent) :=
  match es with
  | [] => None
  | e :: es =>
      if entry_size (zlen name) <=? dent_len e - entry_size (zlen (d_nm e))
      then Some (split_dent e ino type name ++ es)
      else (fun r => e :: r) <$> dir_add ino type name es
  end.

Lemma splice_middle pre x y z post :
  length x = length y ->
  splice (zlen pre + zlen z) y (pre ++ (z ++ x) ++ post) = pre ++ (z ++ y) ++ post.
Proof.
  intros Hl. unfold splice, zlen. rewrite <- !(app_assoc z), !(app_assoc pre), <- Nat2Z.inj_add, <- length_app, Nat2Z.id.
  rewrite take_app_length'  by done. f_equal. rewrite <- drop_drop, drop_app_length' by done.
  by rewrite drop_app_length' by done.
Qed.

Lemma split_bytes e ino type name pre post :
  dent_ok e -> zlen name <= 255 -> entry_size (zlen name) <= dent_len e - entry_size (zlen (d_nm e)) ->
  write_entry (zlen pre + entry_size (zlen (d_nm e))) ino (dent_len e - entry_size (zlen (d_nm e))) type name
    (put16 (zlen pre + 4) (entry_size (zlen (d_nm e))) (pre ++ dent_bytes e ++ post)) =
  Some (pre ++ block_bytes (split_dent e ino type name) ++ post).
Proof.
  intros [Hino [Hn Hnb] Hpad Hsize] Hname Hroom. pose proof (zlen_nonneg (d_nm e)). pose proof (zlen_nonneg name).
  destruct (entry_size_bounds (zlen (d_nm e)) ltac:(lia)) as [Hact _].
  destruct (entry_size_bounds (zlen name) ltac:(lia)) as [Hnew _].
  set (act := entry_size (zlen (d_nm e))) in *.
  set (keep := Z.to_nat (act - 8 - zlen (d_nm e))).
  assert (zlen (d_pad e) = dent_len e - 8 - zlen (d_nm e)) as Hzp by (unfold dent_len; lia).
  assert (keep + (8 + length name) <= length (d_pad e))%nat as Hfit by (unfold keep, zlen in *; lia).
  set (tail := drop (8 + length name) (drop keep (d_pad e))).
  set (mid := take (8 + length name) (drop keep (d_pad e))).
  assert (d_pad e = take keep (d_pad e) ++ mid ++ tail) as Hpadeq by (unfold mid, tail; by rewrite !take_drop).
  assert (length mid = (8 + length name)%nat) as Hmid by (unfold mid; rewrite length_take, length_drop; lia).
  assert (length (take keep (d_pad e)) = keep) as Hkeep by (rewrite length_take; lia).
  set (e1 := Dent (d_ino e) (d_type e) (d_nm e) (take keep (d_pad e))).
  set (e2 := Dent ino type name tail).
  assert (dent_len e1 = act) as He1.
  { unfold dent_len, e1. cbn [d_nm d_pad]. unfold zlen at 2. rewrite Hkeep. unfold keep. lia. }
  assert (dent_len e2 = dent_len e - act) as He2.
  { unfold dent_len at 1. unfold e2. cbn [d_nm d_pad]. unfold tail, zlen. rewrite !length_drop.
    unfold dent_len, keep, zlen in *. lia. }
  assert (put16 (zlen pre + 4) act (pre ++ dent_bytes e ++ post) = pre ++ (dent_bytes e1 ++ mid ++ tail) ++ post) as ->.
  { rewrite !le_header, He1. change (d_ino e1) with (d_ino e). change (d_type e1) with (d_type e).
    change (d_nm e1) with (d_nm e). change (d_pad e1) with (take keep (d_pad e)). unfold put16.
    rewrite Hpadeq at 1.
    set (r := le 1 (zlen (d_nm e)) ++ le 1 (d_type e) ++ d_nm e ++ take keep (d_pad e) ++ mid ++ tail).
    replace (pre ++ (le 4 (d_ino e) ++ le 2 (dent_len e) ++ r) ++ post)
      with (pre ++ (le 4 (d_ino e) ++ le 2 (dent_len e)) ++ (r ++ post)) by (by rewrite <- !app_assoc).
    change 4 with (zlen (le 4 (d_ino e))) at 1. rewrite splice_middle by (by rewrite !length_le).
    unfold r. by rewrite <- !app_assoc. }
  unfold write_entry. rewrite !zlen_app, zlen_dent_bytes, He1.
  pose proof (zlen_nonneg post). pose proof (zlen_nonneg tail).
  assert (zlen mid = 8 + zlen name) as Hzm by (unfold zlen; lia).
  rewrite (proj2 (Z.leb_le _ _)) by lia. f_equal.
  rewrite <- He1 at 1. rewrite <- zlen_dent_bytes.
  replace (pre ++ (dent_bytes e1 ++ mid ++ tail) ++ post) with (pre ++ (dent_bytes e1 ++ mid) ++ (tail ++ post))
    by (by rewrite <- !app_assoc).
  rewrite splice_middle.
  2:{ rewrite length_app, length_pack by done. rewrite Hmid. done. }
  unfold split_dent. fold act. fold keep. fold tail. fold e1. fold e2.
  rewrite !block_bytes_cons. change (block_bytes []) with (@nil Z). rewrite app_nil_r.
  unfold dent_bytes at 3. rewrite He2. change (d_ino e2) with ino. change (d_nm e2) with name.
  change (d_type e2) with type. change (d_pad e2) with tail. by rewrite <- !app_assoc.
Qed.

Lemma add_entry_from fuel bs ino type name post : forall es pre,
  Forall dent_ok es -> Forall (fun e => d_ino e <> 0) es -> zlen name <= 255 ->
  (length es < fuel)%nat -> bs = zlen (pre ++ block_bytes es) ->
  add_entry fuel bs ino type name (zlen pre) (pre ++ block_bytes es ++ post) =
  Some ((fun es' => pre ++ block_bytes es' ++ post) <$> dir_add ino type name es).
Proof.
  induction fuel as [|fuel IH]; intros es pre Hes Hused Hname Hfuel Hbs; [lia|]. cbn [add_entry]. cbv zeta.
  destruct es as [|e es].
  { rewrite (proj2 (Z.leb_le _ _)); [done|]. subst bs. rewrite zlen_app. unfold block_bytes. cbn. unfold zlen. cbn. lia. }
  apply Forall_cons in Hes as [He Hes]. apply Forall_cons in Hused as [Hu Hused]. pose proof (dent_len_pos e).
  rewrite (proj2 (Z.leb_gt _ _)).
  2:{ subst bs. rewrite zlen_app, block_bytes_cons, zlen_app, zlen_dent_bytes.
      pose proof (zlen_nonneg (block_bytes es)). lia. }
  rewrite block_bytes_cons, <- app_assoc. destruct (entry_fields pre e (block_bytes es ++ post) He) as (Hi & Hr & Hn).
  rewrite Hr. cbn [mbind option_bind]. rewrite (proj2 (Z.eqb_neq (dent_len e) 0)) by lia.
  rewrite Hi. cbn [mbind option_bind]. rewrite (proj2 (Z.eqb_neq _ _) Hu). cbn [andb].
  rewrite Hn. cbn [mbind option_bind dir_add].
  destruct (Z.leb_spec (entry_size (zlen name)) (dent_len e - entry_size (zlen (d_nm e)))).
  - rewrite split_bytes by done. cbn [fmap option_fmap option_map].
    by rewrite block_bytes_app, <- app_assoc.
  - assert (add_entry fuel bs ino type name (zlen pre + dent_len e) (pre ++ dent_bytes e ++ block_bytes es ++ post)
            = Some ((fun es' => (pre ++ dent_bytes e) ++ block_bytes es' ++ post) <$> dir_add ino type name es)) as ->.
    { rewrite app_assoc. replace (zlen pre + dent_len e) with (zlen (pre ++ dent_bytes e))
        by (by rewrite zlen_app, zlen_dent_bytes).
      apply IH; [done|done|done|cbn in Hfuel; lia|]. by rewrite <- app_assoc. }
    f_equal. destruct (dir_add ino type name es) as [es'|]; [|done].
    cbn [fmap option_fmap option_map]. by rewrite block_bytes_cons, <- !app_assoc.
Qed.

(** Splitting makes two entries that fill the room of the first. *)
Lemma split_dent_ok e ino type name :
  dent_ok e -> 0 <= ino < 2 ^ 32 -> zlen name <= 255 -> bytes_ok name ->
  entry_size (zlen name) <= dent_len e - entry_size (zlen (d_nm e)) ->
  Forall dent_ok (split_dent e ino type name) /\
  zlen (block_bytes (split_dent e ino type name)) = dent_len e.
Proof.
  intros [Hino [Hn Hnb] Hpad Hsize] Hi Hname Hnameb Hroom.
  pose proof (zlen_nonneg (d_nm e)). pose proof (zlen_nonneg name).
  destruct (entry_size_bounds (zlen (d_nm e)) ltac:(lia)) as [Hact _].
  destruct (entry_size_bounds (zlen name) ltac:(lia)) as [Hnew _].
  unfold split_dent. set (keep := Z.to_nat _). set (p1 := take keep (d_pad e)).
  set (p2 := drop (8 + length name) (drop keep (d_pad e))).
  assert (zlen p1 = entry_size (zlen (d_nm e)) - 8 - zlen (d_nm e)) as H1.
  { unfold p1, zlen. rewrite length_take. unfold dent_len, keep, zlen in *. lia. }
  assert (zlen p2 = dent_len e - entry_size (zlen (d_nm e)) - 8 - zlen name) as H2.
  { unfold p2, zlen. rewrite !length_drop. unfold dent_len, keep, zlen in *. lia. }
  split.
  - constructor; [|constructor; [|by apply Forall_nil]]; constructor; cbn [d_ino d_nm d_pad]; try done.
    + by apply Forall_take.
    + unfold dent_len. cbn [d_nm d_pad]. lia.
    + by do 2 apply Forall_drop.
    + unfold dent_len at 1. cbn [d_nm d_pad]. lia.
  - rewrite !block_bytes_cons, !zlen_app, !zlen_dent_bytes. unfold dent_len at 1 2. cbn [d_nm d_pad].
    change (zlen (block_bytes [])) with 0. lia.
Qed.

Lemma dir_add_ok ino type name : forall es es',
  dir_add ino type name es = Some es' -> 0 < ino < 2 ^ 32 -> zlen name <= 255 -> bytes_ok name ->
  Forall dent_ok es ->
  Forall dent_ok es' /\ zlen (block_bytes es') = zlen (block_bytes es) /\
  (dir_lookup name es = 0 -> dir_lookup name es' = ino) /\
  (forall n, n <> name -> dir_lookup n es' = dir_lookup n es).
Proof.
  induction es as [|e es IH]; intros es' Hadd Hino Hname Hnameb Hes; [done|].
  apply Forall_cons in Hes as [He Hes]. cbn [dir_add] in Hadd. revert Hadd.
  destruct (Z.leb_spec (entry_size (zlen name)) (dent_len e - entry_size (zlen (d_nm e)))) as [Hroom|]; intros Hadd.
  - apply Some_inj in Hadd as <-. destruct (split_dent_ok e ino type name) as [Hok Hlen]; [done|lia|done..|].
    split; [by apply Forall_app|]. split_and!.
    + by rewrite block_bytes_app, zlen_app, Hlen, block_bytes_cons, zlen_app, zlen_dent_bytes.
    + cbn [app split_dent dir_lookup d_ino d_nm]. destruct (negb (d_ino e =? 0) && bool_decide (name = d_nm e)) eqn:Hh.
      * intros H0. rewrite H0 in Hh. cbn in Hh. done.
      * intros _. rewrite (proj2 (Z.eqb_neq ino 0)) by lia. by rewrite bool_decide_true.
    + intros n Hne. cbn [app split_dent dir_lookup d_ino d_nm]. rewrite (bool_decide_false (n = name)) by done.
      rewrite andb_false_r. by destruct (_ && _).
  - destruct (dir_add ino type name es) as [r|] eqn:Hr; [|done]. injection Hadd as <-.
    destruct (IH r eq_refl Hino Hname Hnameb Hes) as (Hok & Hlen & Hnew & Hold). split_and!.
    + by constructor.
    + by rewrite !block_bytes_cons, !zlen_app, Hlen.
    + cbn [dir_lookup]. destruct (negb (d_ino e =? 0) && bool_decide (name = d_nm e)) eqn:Hh; [|done].
      intros H0. rewrite H0 in Hh. done.
    + intros n Hne. cbn [dir_lookup]. by rewrite Hold.
Qed.

(** ** Removing a name *)

Definition hit (name : list Z) (ino : Z) (e : dent) : bool :=
  (d_ino e =? ino) && bool_decide (name = d_nm e).

(** The room of [e] is added to the entry before it. *)
Definition absorb (p e : dent) : dent := Dent (d_ino p) (d_type p) (d_nm p) (d_pad p ++ dent_bytes e).

Fixpoint remove_after (name : list Z) (ino : Z) (p : dent) (es : list dent) : option (list dent) :=
  match es with
  | [] => None
  | e :: es =>
      if hit name ino e then Some (absorb p e :: es)
      else (fun r => p :: r) <$> remove_after name ino e es
  end.

(** The first entry of a block keeps its room and becomes unused. *)
Definition dir_remove (name : list Z) (ino : Z) (es : list dent) : option (list dent) :=
  match es with
  | [] => None
  | e :: es =>
      if hit name ino e then Some (Dent 0 (d_type e) (d_nm e) (d_pad e) :: es)
      else remove_after name ino e es
  end.

Lemma dent_len_absorb p e : dent_len (absorb p e) = dent_len p + dent_len e.
Proof. unfold dent_len at 1. cbn [absorb d_nm d_pad]. rewrite zlen_app, zlen_dent_bytes. unfold dent_len. lia. Qed.

Lemma put_rec_len pre e v post pad' :
  8 + zlen (d_nm e) + zlen pad' = v ->
  put16 (zlen pre + 4) v (pre ++ dent_bytes e ++ post) =
  pre ++ (le 4 (d_ino e) ++ le 2 v ++ le 1 (zlen (d_nm e)) ++ le 1 (d_type e) ++ d_nm e ++ d_pad e) ++ post.
Proof.
  intros _. rewrite le_header. unfold put16.
  set (r := le 1 (zlen (d_nm e)) ++ le 1 (d_type e) ++ d_nm e ++ d_pad e).
  replace (pre ++ (le 4 (d_ino e) ++ le 2 (dent_len e) ++ r) ++ post)
    with (pre ++ (le 4 (d_ino e) ++ le 2 (dent_len e)) ++ (r ++ post)) by (by rewrite <- !app_assoc).
  change 4 with (zlen (le 4 (d_ino e))) at 1. rewrite splice_middle by (by rewrite !length_le).
  by rewrite <- !app_assoc.
Qed.

Lemma absorb_bytes pre p e post :
  put16 (zlen pre + 4) (dent_len p + dent_len e) (pre ++ dent_bytes p ++ dent_bytes e ++ post) =
  pre ++ dent_bytes (absorb p e) ++ post.
Proof.
  rewrite (put_rec_len pre p _ _ (d_pad p ++ dent_bytes e)).
  2:{ rewrite zlen_app, zlen_dent_bytes. unfold dent_len. lia. }
  rewrite (le_header (absorb p e)), dent_len_absorb. cbn [absorb d_ino d_type d_nm d_pad].
  by rewrite <- !app_assoc.
Qed.

Lemma remove_entry_after fuel bs ino name post : forall es p pre,
  Forall dent_ok (p :: es) -> (length es < fuel)%nat -> bs = zlen (pre ++ dent_bytes p ++ block_bytes es) ->
  bs < 2 ^ 16 ->
  remove_entry fuel bs ino name (Some (zlen pre)) (zlen pre + dent_len p)
    (pre ++ dent_bytes p ++ block_bytes es ++ post) =
  Some ((fun es' => pre ++ block_bytes es' ++ post) <$> remove_after name ino p es).
Proof.
  induction fuel as [|fuel IH]; intros es p pre Hes Hfuel Hbs Hsmall; [lia|]. cbn [remove_entry].
  apply Forall_cons in Hes as [Hp Hes]. pose proof (dent_len_pos p).
  destruct es as [|e es].
  { rewrite (proj2 (Z.leb_le _ _)); [done|]. subst bs. rewrite !zlen_app, zlen_dent_bytes.
    change (zlen (block_bytes [])) with 0. lia. }
  pose proof Hes as Hees. apply Forall_cons in Hes as [He Hes]. pose proof (dent_len_pos e).
  assert (bs = zlen pre + dent_len p + dent_len e + zlen (block_bytes es)) as Hbs'.
  { subst bs. rewrite block_bytes_cons, !zlen_app, !zlen_dent_bytes. lia. }
  pose proof (zlen_nonneg (block_bytes es)). pose proof (zlen_nonneg pre).
  rewrite (proj2 (Z.leb_gt _ _)) by lia.
  rewrite block_bytes_cons, <- (app_assoc (dent_bytes e)).
  set (rest := block_bytes es ++ post).
  assert (forall f, f (zlen pre + dent_len p) (pre ++ dent_bytes p ++ dent_bytes e ++ rest) =
    f (zlen (pre ++ dent_bytes p)) ((pre ++ dent_bytes p) ++ dent_bytes e ++ rest) :> option Z) as Hat.
  { intros f. by rewrite zlen_app, zlen_dent_bytes, <- app_assoc. }
  destruct (entry_fields (pre ++ dent_bytes p) e rest He) as (Hi & Hr & _).
  rewrite (Hat d_rec_len), Hr. cbn [mbind option_bind]. rewrite (proj2 (Z.eqb_neq (dent_len e) 0)) by lia.
  rewrite (Hat d_inode), Hi. cbn [mbind option_bind remove_after].
  assert (entry_named name (zlen pre + dent_len p) (pre ++ dent_bytes p ++ dent_bytes e ++ rest)
          = Some (bool_decide (name = d_nm e))) as Hnm.
  { rewrite app_assoc. replace (zlen pre + dent_len p) with (zlen (pre ++ dent_bytes p))
      by (by rewrite zlen_app, zlen_dent_bytes). by apply entry_named_spec. }
  assert (remove_entry fuel bs ino name (Some (zlen pre + dent_len p)) (zlen pre + dent_len p + dent_len e)
            (pre ++ dent_bytes p ++ dent_bytes e ++ rest) =
          Some ((fun es' => (pre ++ dent_bytes p) ++ block_bytes es' ++ post) <$> remove_after name ino e es)) as Hnext.
  { rewrite app_assoc. replace (zlen pre + dent_len p) with (zlen (pre ++ dent_bytes p))
      by (by rewrite zlen_app, zlen_dent_bytes).
    apply IH; [by constructor|cbn in Hfuel; lia| |done].
    rewrite Hbs'. rewrite !zlen_app, !zlen_dent_bytes. lia. }
  unfold hit. destruct (d_ino e =? ino); cbn [andb mbind option_bind].
  - rewrite Hnm. cbn [mbind option_bind]. destruct (bool_decide (name = d_nm e)).
    + destruct (entry_fields pre p (dent_bytes e ++ rest) Hp) as (_ & Hrp & _). rewrite Hrp.
      cbn [mbind option_bind fmap option_fmap option_map]. do 2 f_equal. rewrite wrap_small by lia.
      rewrite absorb_bytes, block_bytes_cons. unfold rest. by rewrite <- !app_assoc.
    + rewrite Hnext. f_equal. destruct (remove_after name ino e es); [|done].
      cbn [fmap option_fmap option_map]. by rewrite block_bytes_cons, <- !app_assoc.
  - rewrite Hnext. f_equal. destruct (remove_after name ino e es); [|done].
    cbn [fmap option_fmap option_map]. by rewrite block_bytes_cons, <- !app_assoc.
Qed.

Lemma unused_bytes pre e post :
  put32 (zlen pre) 0 (pre ++ dent_bytes e ++ post) =
  pre ++ dent_bytes (Dent 0 (d_type e) (d_nm e) (d_pad e)) ++ post.
Proof.
  rewrite !le_header. unfold put32. cbn [d_ino d_type d_nm d_pad].
  change (dent_len (Dent 0 (d_type e) (d_nm e) (d_pad e))) with (dent_len e).
  set (r := le 2 (dent_len e) ++ _). rewrite <- !(app_assoc (le 4 _)).
  replace (zlen pre) with (zlen pre + zlen []) by (unfold zlen; cbn; lia).
  replace (pre ++ le 4 (d_ino e) ++ r ++ post) with (pre ++ ([] ++ le 4 (d_ino e)) ++ (r ++ post)) by done.
  by rewrite splice_middle by (by rewrite !length_le).
Qed.

Lemma remove_entry_block fuel bs ino name es post :
  Forall dent_ok es -> (length es < fuel)%nat -> bs = zlen (block_bytes es) -> bs < 2 ^ 16 ->
  remove_entry fuel bs ino name None 0 (block_bytes es ++ post) =
  Some ((fun es' => block_bytes es' ++ post) <$> dir_remove name ino es).
Proof.
  intros Hes Hfuel Hbs Hsmall. destruct fuel as [|fuel]; [lia|]. cbn [remove_entry].
  destruct es as [|e es].
  { rewrite (proj2 (Z.leb_le _ _)); [done|]. subst bs. done. }
  pose proof Hes as Hees. apply Forall_cons in Hes as [He Hes]. pose proof (dent_len_pos e).
  pose proof (zlen_nonneg (block_bytes es)).
  rewrite (proj2 (Z.leb_gt _ _)) by (subst bs; rewrite block_bytes_cons, zlen_app, zlen_dent_bytes; lia).
  rewrite block_bytes_cons, <- app_assoc. set (rest := block_bytes es ++ post).
  destruct (entry_fields [] e rest He) as (Hi & Hr & _). pose proof (entry_named_spec name [] e rest He) as Hnm.
  change (zlen []) with 0 in *. cbn [app] in *.
  rewrite Hr. cbn [mbind option_bind]. rewrite (proj2 (Z.eqb_neq (dent_len e) 0)) by lia.
  rewrite Hi. cbn [mbind option_bind dir_remove].
  pose proof (remove_entry_after fuel bs ino name post es e [] Hees) as Hnext.
  change (zlen []) with 0 in Hnext. cbn [app] in Hnext. rewrite Z.add_0_l in Hnext |- *.
  specialize (Hnext ltac:(cbn in Hfuel; lia) Hbs Hsmall). fold rest in Hnext.
  unfold hit. destruct (d_ino e =? ino); cbn [andb mbind option_bind]; [|done].
  rewrite Hnm. cbn [mbind option_bind]. destruct (bool_decide (name = d_nm e)); [|done].
  pose proof (unused_bytes [] e rest) as Hu. change (zlen []) with 0 in Hu. cbn [app] in Hu. rewrite Hu.
  cbn [fmap option_fmap option_map]. by rewrite block_bytes_cons, <- app_assoc.
Qed.

Lemma absorb_ok p e : dent_ok p -> dent_ok e -> dent_len p + dent_len e < 2 ^ 16 -> dent_ok (absorb p e).
Proof.
  intros [] [? ? ? ?] Hlen. constructor; cbn [absorb d_ino d_nm d_pad]; [done|done| |by rewrite dent_len_absorb].
  apply Forall_app. split; [done|]. unfold dent_bytes. apply Forall_app. split; [apply pack_bytes_ok|].
  apply Forall_app. by destruct_and!.
Qed.

Lemma remove_after_ok name ino : forall es p es',
  remove_after name ino p es = Some es' -> Forall dent_ok (p :: es) ->
  dent_len p + zlen (block_bytes es) < 2 ^ 16 ->
  Forall dent_ok es' /\ zlen (block_bytes es') = dent_len p + zlen (block_bytes es) /\
  (forall n, n <> name -> dir_lookup n es' = dir_lookup n (p :: es)).
Proof.
  induction es as [|e es IH]; intros p es' Hrem Hes Hlen; [done|]. cbn [remove_after] in Hrem.
  apply Forall_cons in Hes as [Hp Hes]. pose proof Hes as Hees. apply Forall_cons in Hes as [He Hes].
  rewrite block_bytes_cons, zlen_app, zlen_dent_bytes in *. pose proof (zlen_nonneg (block_bytes es)).
  destruct (hit name ino e) eqn:Hhit.
  - injection Hrem as <-. split_and!.
    + constructor; [apply absorb_ok; [done|done|lia]|done].
    + rewrite block_bytes_cons, zlen_app, zlen_dent_bytes, dent_len_absorb. lia.
    + intros n Hne. cbn [dir_lookup absorb d_ino d_nm]. unfold hit in Hhit.
      apply andb_true_iff in Hhit as [_ Hnm%bool_decide_eq_true]. rewrite <- Hnm.
      rewrite (bool_decide_false (n = name)) by done. by rewrite andb_false_r.
  - destruct (remove_after name ino e es) as [r|] eqn:Hr; [|done]. injection Hrem as <-.
    pose proof (dent_len_pos p). destruct (IH e r Hr Hees ltac:(lia)) as (Hok & Hl & Hlook). split_and!.
    + by constructor.
    + rewrite block_bytes_cons, zlen_app, zlen_dent_bytes. lia.
    + intros n Hne. cbn [dir_lookup]. rewrite Hlook by done. done.
Qed.

Lemma dir_remove_ok name ino es es' :
  dir_remove name ino es = Some es' -> Forall dent_ok es -> zlen (block_bytes es) < 2 ^ 16 ->
  Forall dent_ok es' /\ zlen (block_bytes es') = zlen (block_bytes es) /\
  (forall n, n <> name -> dir_lookup n es' = dir_lookup n es).
Proof.
  intros Hrem Hes Hlen. destruct es as [|e es]; [done|]. cbn [dir_remove] in Hrem.
  rewrite block_bytes_cons, zlen_app, zlen_dent_bytes in *.
  destruct (hit name ino e) eqn:Hhit.
  - injection Hrem as <-. apply Forall_cons in Hes as [He Hes]. split_and!.
    + constructor; [|done]. destruct He. by constructor.
    + by rewrite block_bytes_cons, zlen_app, zlen_dent_bytes.
    + intros n Hne. cbn [dir_lookup d_ino d_nm]. unfold hit in Hhit.
      apply andb_true_iff in Hhit as [_ Hnm%bool_decide_eq_true]. rewrite <- Hnm.
      rewrite (bool_decide_false (n = name)) by done. by rewrite !andb_false_r.
  - by eapply remove_after_ok.
Qed.

(** ** The scans of [io_buffer] on a well-formed block *)

Lemma block_fuel_enough es bs : zlen (block_bytes es) = bs -> (length es < block_fuel bs)%nat.
Proof. intros <-. unfold block_fuel. pose proof (block_bytes_bound es). lia. Qed.

Lemma find_entry_block es bs name post :
  Forall dent_ok es -> zlen (block_bytes es) = bs ->
  find_entry (block_fuel bs) bs name 0 (block_bytes es ++ post) = Some (dir_lookup name es).
Proof.
  intros Hes Hbs. apply (find_entry_from _ bs name post es []); [done|by apply block_fuel_enough|done].
Qed.

Lemma add_entry_block es bs ino type name post :
  Forall dent_ok es -> Forall (fun e => d_ino e <> 0) es -> zlen name <= 255 -> zlen (block_bytes es) = bs ->
  add_entry (block_fuel bs) bs ino type name 0 (block_bytes es ++ post) =
  Some ((fun es' => block_bytes es' ++ post) <$> dir_add ino type name es).
Proof.
  intros Hes Hu Hn Hbs. apply (add_entry_from _ bs ino type name post es []); [done..| |done].
  by apply block_fuel_enough.
Qed.

(** Finding a name in a directory block is a lookup in its list of
    entries: the scan ends and returns the inode of the first used entry whose
    name is exactly the name, zero if there is none. *)
Theorem find_entry_is_lookup es bs name post :
  Forall dent_ok es -> zlen (block_bytes es) = bs ->
  find_entry (block_fuel bs) bs name 0 (block_bytes es ++ post) = Some (dir_lookup name es).
Proof. apply find_entry_block. Qed.

(** Adding and removing names are updates of the list.  In a block
    without unused entries, [add_dir_entry]'s scan either finds no room and
    changes nothing, or leaves a well-formed block of the same size where the
    new name is found, if it was not there, and every other name as before;
    the removal scan leaves a well-formed block of the same size where every
    other name is found as before. *)
Theorem directory_block_updates es bs ino type name post :
  Forall dent_ok es -> zlen (block_bytes es) = bs -> bs < 2 ^ 16 ->
  0 < ino < 2 ^ 32 -> zlen name <= 255 -> bytes_ok name ->
  (Forall (fun e => d_ino e <> 0) es ->
   add_entry (block_fuel bs) bs ino type name 0 (block_bytes es ++ post) = Some None \/
   exists l, add_entry (block_fuel bs) bs ino type name 0 (block_bytes es ++ post) = Some (Some (l ++ post)) /\
     zlen l = bs /\
     (find_entry (block_fuel bs) bs name 0 (block_bytes es ++ post) = Some 0 ->
      find_entry (block_fuel bs) bs name 0 (l ++ post) = Some ino) /\
     forall n, n <> name -> find_entry (block_fuel bs) bs n 0 (l ++ post) =
                            find_entry (block_fuel bs) bs n 0 (block_bytes es ++ post)) /\
  (remove_entry (block_fuel bs) bs ino name None 0 (block_bytes es ++ post) = Some None \/
   exists l, remove_entry (block_fuel bs) bs ino name None 0 (block_bytes es ++ post) = Some (Some (l ++ post)) /\
     zlen l = bs /\
     forall n, n <> name -> find_entry (block_fuel bs) bs n 0 (l ++ post) =
                            find_entry (block_fuel bs) bs n 0 (block_bytes es ++ post)).
Proof.
  intros Hes Hbs Hsmall Hino Hname Hnameb. split.
  - intros Hu. rewrite add_entry_block by done. destruct (dir_add ino type name es) as [es'|] eqn:Hadd; [|by left].
    right. destruct (dir_add_ok ino type name es es' Hadd) as (Hok & Hlen & Hnew & Hold); [done..|].
    exists (block_bytes es'). split_and!; [done|congruence| |].
    + rewrite !find_entry_block by (done || congruence). intros [= H0]. f_equal. by apply Hnew.
    + intros n Hn. rewrite !find_entry_block by (done || congruence). f_equal. by apply Hold.
  - rewrite remove_entry_block by (done || by apply block_fuel_enough).
    destruct (dir_remove name ino es) as [es'|] eqn:Hrem; [|by left].
    right. destruct (dir_remove_ok name ino es es' Hrem Hes) as (Hok & Hlen & Hold); [lia|].
    exists (block_bytes es'). split_and!; [done|congruence|].
    intros n Hn. rewrite !find_entry_block by (done || congruence). f_equal. by apply Hold.
Qed.

(** Reusing an unused entry hides the names behind it.  The scan of
    [add_dir_entry] sets [rec_len] to the size of the new entry and loses the
    rest of the room of the old one; when what follows there is zero, every
    entry behind it in the block is out of reach: no other name is found any
    more, and names that exist can be created again. *)
Theorem reused_entry_hides_others e es bs ino type name post :
  dent_ok e -> zlen (block_bytes (e :: es)) = bs -> d_ino e = 0 -> Forall (fun b => b = 0) (d_pad e) ->
  0 < ino < 2 ^ 32 -> 0 <= type < 256 -> zlen name <= 255 -> bytes_ok name ->
  zlen (d_nm e) + 4 <= entry_size (zlen name) -> entry_size (zlen name) + 8 <= dent_len e ->
  exists l, add_entry (block_fuel bs) bs ino type name 0 (block_bytes (e :: es) ++ post) = Some (Some l) /\
    find_entry (block_fuel bs) bs name 0 l = Some ino /\
    forall n, n <> name -> find_entry (block_fuel bs) bs n 0 l = Some 0.
Proof.
  intros He Hbs Hu Hpad Hino Htype Hname Hnameb Hsize Hroom.
  set (size := entry_size (zlen name)) in *. pose proof (zlen_nonneg name). pose proof (zlen_nonneg (d_nm e)).
  destruct (entry_size_bounds (zlen name) ltac:(lia)) as [Hsz _]. fold size in Hsz.
  rewrite block_bytes_cons, zlen_app, zlen_dent_bytes in Hbs. pose proof (zlen_nonneg (block_bytes es)).
  rewrite block_bytes_cons, <- app_assoc. set (rest := block_bytes es ++ post).
  pose proof (zlen_dent_bytes e) as Hze.
  set (e' := Dent ino type name (slice (8 + zlen name) (size - 8 - zlen name) (dent_bytes e))).
  set (more := slice size (dent_len e - size) (dent_bytes e)).
  assert (zlen more = dent_len e - size) as Hzm by (apply zlen_slice; lia).
  assert (dent_len e' = size) as Hlen'.
  { unfold dent_len, e'. cbn [d_nm d_pad]. rewrite zlen_slice by lia. lia. }
  assert (dent_ok e') as He'.
  { constructor; cbn [e' d_ino d_nm d_pad]; [lia|done| |rewrite Hlen'; destruct He; lia].
    apply slice_bytes_ok. unfold dent_bytes. apply Forall_app. split; [apply pack_bytes_ok|].
    apply Forall_app. destruct He. by destruct_and!. }
  assert (write_entry 0 ino size type name (dent_bytes e ++ rest) = Some (dent_bytes e' ++ more ++ rest)) as Hwrite.
  { unfold write_entry. rewrite zlen_app. pose proof (zlen_nonneg rest). rewrite (proj2 (Z.leb_le _ _)) by lia.
    f_equal. unfold dent_bytes at 2. rewrite Hlen'. cbn [e' d_ino d_type d_nm d_pad].
    set (h := pack _ _). assert (zlen h = 8) as Hh by done. unfold splice.
    change (take (Z.to_nat 0) (dent_bytes e ++ rest)) with (@nil Z). cbn [app].
    rewrite <- !app_assoc. do 2 f_equal. change (Z.to_nat 0) with 0%nat.
    rewrite length_app. change (length h) with 8%nat. cbn [plus].
    assert (drop (8 + length name) (dent_bytes e) =
            slice (8 + zlen name) (size - 8 - zlen name) (dent_bytes e) ++ more) as Hd.
    { unfold more. replace size with ((8 + zlen name) + (size - 8 - zlen name)) at 2 by lia.
      rewrite <- slice_app by lia. unfold slice. rewrite take_ge.
      - f_equal. unfold zlen. lia.
      - rewrite length_drop. unfold zlen in *. lia. }
    rewrite app_assoc, <- Hd. unfold zlen in *. rewrite drop_app_le by lia. done. }
  exists (dent_bytes e' ++ more ++ rest).
  destruct (entry_fields [] e rest He) as (Hi & Hr & _). change (zlen []) with 0 in *. cbn [app] in Hi, Hr.
  destruct (entry_fields [] e' (more ++ rest) He') as (Hi' & Hr' & _). change (zlen []) with 0 in *. cbn [app] in Hi', Hr'.
  assert (forall n, entry_named n 0 (dent_bytes e' ++ more ++ rest) = Some (bool_decide (n = name))) as Hnm
    by (intros n; apply (entry_named_spec n [] e' (more ++ rest) He')).
  assert (d_rec_len size (dent_bytes e' ++ more ++ rest) = Some 0) as Hend.
  { unfold d_rec_len. rewrite <- Hlen' at 1. rewrite <- zlen_dent_bytes. rewrite field_middle by lia.
    f_equal. unfold more. rewrite slice_slice by lia.
    assert (slice (size + 4) (Z.of_nat 2) (dent_bytes e) = [0; 0]) as ->; [|done].
    assert (exists a b, slice (size + 4) 2 (dent_bytes e) = [a; b]) as (a & b & Hab).
    { pose proof (length_slice (size + 4) 2 (dent_bytes e) ltac:(lia) ltac:(lia) ltac:(lia)) as Hl.
      change (Z.to_nat 2) with 2%nat in Hl. revert Hl.
      destruct (slice (size + 4) 2 (dent_bytes e)) as [|a [|b [|? ?]]]; try done. intros _. by exists a, b. }
    change (Z.of_nat 2) with 2. rewrite Hab.
    assert (forall i x, slice (size + 4) 2 (dent_bytes e) !! i = Some x -> x = 0) as Hz.
    { intros i x. unfold slice. intros (Hlk & Hlt)%lookup_take_Some. rewrite lookup_drop in Hlk.
      unfold dent_bytes in Hlk. rewrite !lookup_app_r in Hlk.
      - by apply (Forall_lookup_1 _ _ _ _ Hpad Hlk).
      - rewrite length_pack by done. cbn. unfold zlen in *. lia.
      - rewrite length_pack by done. cbn. lia. }
    rewrite Hab in Hz. by rewrite (Hz 0%nat a eq_refl), (Hz 1%nat b eq_refl). }
  unfold block_fuel. destruct (Z.to_nat bs) as [|k] eqn:Hk; [lia|]. cbn [add_entry find_entry]. cbv zeta.
  rewrite !(proj2 (Z.leb_gt _ _)) by lia. rewrite Hr, Hi, Hr', Hi'. cbn [mbind option_bind d_ino e']. fold size.
  assert (0 + dent_len e' = size) as -> by lia.
  rewrite (proj2 (Z.eqb_neq (dent_len e) 0)), (proj2 (Z.eqb_neq (dent_len e') 0)) by lia.
  cbn [mbind option_bind]. rewrite Hu, (proj2 (Z.eqb_neq ino 0)) by lia.
  rewrite (proj2 (Z.leb_le size (dent_len e))) by lia. cbn [Z.eqb andb mbind option_bind].
  rewrite Hwrite, Hend. split_and!; [done| |].
  - rewrite Hnm. by rewrite bool_decide_true.
  - intros n Hn. rewrite Hnm. rewrite bool_decide_false by done. cbn [mbind option_bind].
    by destruct (bs <=? size).
Qed.
