(* ===== verification/Ext2ReadSpec.v ===== *)
(** [ext2_read] of fs/ext2.c returns the bytes of the file. *)
From S2P Require Import Prelude Wp PageAllocator Bytes BlockDevice Ext2 Ext2Dir Ext2File Ext2Inv.
From S2P Require Import Ext2Block Ext2Inode Ext2Safe Ext2Alloc Ext2Map Ext2DirSafe Ext2NameSafe.
From S2P Require Import Ext2FileSafe.
Import Ext2 Ext2Dir Ext2File.

Section read.
Context {A D : Type} `{!PageAllocator A, !BlockDevice D, !BlockDeviceSpec D}.
Abbreviation state := (ext2_state A D).
Implicit Types s : state.

(** ** The contents of a file *)

(** The [n] blocks of a file from block [i] on. *)
Fixpoint blocks s (ino : ext2_inode_t) (i : Z) (n : nat) : list Z :=
  match n with
  | O => []
  | S n => disk_block s (file_block s ino i) ++ blocks s ino (i + 1) n
  end.

Definition block_count s (ino : ext2_inode_t) : nat :=
  Z.to_nat ((i_size ino + block_size (fs s) - 1) / block_size (fs s)).

Definition contents s (ino : ext2_inode_t) : list Z :=
  take (Z.to_nat (i_size ino)) (blocks s ino 0 (block_count s ino)).

(** Every block of the file is there, and the disk can read it. *)
Record readable s (ino : ext2_inode_t) : Prop := {
  readable_disk : reads_succeed (D := D);
  readable_size : i_size ino + block_size (fs s) <= 2 ^ 32;
  readable_block idx : 0 <= idx -> idx * block_size (fs s) < i_size ino ->
    file_block_in s ino idx /\ file_block s ino idx <> 0 /\ block_in s (file_block s ino idx);
}.

Lemma zlen_disk_block s b : inv s -> zlen (disk_block s b) = block_size (fs s).
Proof.
  intros Hs. unfold zlen, disk_block. rewrite length_sectors by apply Hs.
  destruct (sectors_per_block_cases s Hs). lia.
Qed.

Lemma zlen_blocks s ino n : forall i, inv s -> zlen (blocks s ino i n) = Z.of_nat n * block_size (fs s).
Proof.
  induction n as [|n IH]; intros i Hs; [done|]. cbn [blocks]. unfold zlen in *. rewrite length_app.
  rewrite Nat2Z.inj_add, IH by done. pose proof (zlen_disk_block s (file_block s ino i) Hs). unfold zlen in *. lia.
Qed.

Lemma slice_in_app1 a m l1 l2 : 0 <= a -> 0 <= m -> a + m <= zlen l1 -> slice a m (l1 ++ l2) = slice a m l1.
Proof.
  intros. unfold slice, zlen in *. rewrite drop_app_le by lia. rewrite take_app_le; [done|].
  rewrite length_drop. lia.
Qed.

Lemma slice_in_app2 a m l1 l2 : zlen l1 <= a -> slice a m (l1 ++ l2) = slice (a - zlen l1) m l2.
Proof.
  intros. unfold slice, zlen in *. rewrite drop_app_ge by lia. do 2 f_equal. lia.
Qed.

Lemma slice_blocks s ino n : forall i j off m,
  inv s -> 0 <= j < Z.of_nat n -> 0 <= off -> 0 <= m -> off + m <= block_size (fs s) ->
  slice (j * block_size (fs s) + off) m (blocks s ino i n) =
  slice off m (disk_block s (file_block s ino (i + j))).
Proof.
  induction n as [|n IH]; intros i j off m Hs Hj Hoff Hm Hle; [lia|]. cbn [blocks].
  pose proof (zlen_disk_block s (file_block s ino i) Hs) as Hz. pose proof (block_size_le s Hs).
  destruct (decide (j = 0)) as [->|Hne].
  - rewrite Z.mul_0_l, Z.add_0_l, Z.add_0_r. apply slice_in_app1; lia.
  - rewrite slice_in_app2 by nia. rewrite Hz.
    replace (j * block_size (fs s) + off - block_size (fs s)) with ((j - 1) * block_size (fs s) + off) by lia.
    rewrite IH by (done || lia). by replace (i + 1 + (j - 1)) with (i + j) by lia.
Qed.

Lemma slice_contents s ino i off m :
  inv s -> inode_ok ino -> 0 <= i -> 0 <= off -> 0 <= m -> off + m <= block_size (fs s) ->
  i * block_size (fs s) + off + m <= i_size ino -> 0 < m ->
  slice (i * block_size (fs s) + off) m (contents s ino) = slice off m (disk_block s (file_block s ino i)).
Proof.
  intros Hs Hi Hi0 Hoff Hm Hle Hend Hpos. pose proof (block_size_le s Hs) as [Hb1 Hb2].
  unfold contents. unfold slice at 1. rewrite skipn_firstn_comm, take_take, Nat.min_l by lia.
  change (take (Z.to_nat m) (drop (Z.to_nat (i * block_size (fs s) + off)) (blocks s ino 0 (block_count s ino))))
    with (slice (i * block_size (fs s) + off) m (blocks s ino 0 (block_count s ino))).
  rewrite slice_blocks; [done|done| |lia|lia|lia].
  split; [lia|]. unfold block_count.
  pose proof (Z.mul_succ_div_gt (i_size ino + block_size (fs s) - 1) (block_size (fs s)) ltac:(lia)).
  assert (i < (i_size ino + block_size (fs s) - 1) / block_size (fs s)) by nia. lia.
Qed.

Lemma zlen_contents s ino : inv s -> 0 <= i_size ino -> zlen (contents s ino) = i_size ino.
Proof.
  intros Hs Hi. pose proof (block_size_le s Hs). unfold contents. unfold zlen at 1. rewrite length_take.
  pose proof (zlen_blocks s ino (block_count s ino) 0 Hs) as Hzb. unfold zlen in Hzb. unfold block_count in *.
  pose proof (Z.mul_succ_div_gt (i_size ino + block_size (fs s) - 1) (block_size (fs s)) ltac:(lia)).
  pose proof (Z.div_pos (i_size ino + block_size (fs s) - 1) (block_size (fs s)) ltac:(lia) ltac:(lia)). nia.
Qed.

Lemma file_block_same s s' ino i : load_step s s' -> file_block s' ino i = file_block s ino i.
Proof.
  intros H. unfold file_block, mapped_block, pointers.
  destruct (block_step_same s s' (load_block_step _ _ H)) as (-> & _).
  destruct (block_path _ i) as [[r ks]|]; [|done]. by rewrite (walk_same s s').
Qed.

Lemma file_block_in_same s s' ino i : load_step s s' -> file_block_in s ino i -> file_block_in s' ino i.
Proof.
  intros H. unfold file_block_in, pointers.
  destruct (block_step_same s s' (load_block_step _ _ H)) as (-> & _).
  destruct (block_path _ i) as [[r ks]|]; [|done]. by apply walk_in_same.
Qed.

(** ** The loop *)

Lemma wp_read_loop ino s0 fuel : forall start off remaining acc s,
  inv s0 -> coherent s0 -> readable s0 ino -> inode_ok ino -> load_step s0 s -> coherent s ->
  0 <= start -> 0 <= off < block_size (fs s0) -> 0 <= remaining ->
  (0 < remaining -> start * block_size (fs s0) + off + remaining <= i_size ino) ->
  i_size ino < (start + Z.of_nat fuel - 1) * block_size (fs s0) -> (0 < fuel)%nat ->
  wp (read_loop fuel ino start off remaining acc) s (fun l s' =>
    load_step s0 s' /\ coherent s' /\
    l = acc ++ slice (start * block_size (fs s0) + off) remaining (contents s0 ino)).
Proof.
  induction fuel as [|fuel IH]; intros start off remaining acc s H0 Hc0 Hread Hi H Hcoh Hst Hoff Hrem Hend Hfuel Hpos;
    [lia|]. cbn [read_loop].
  pose proof (step_inv _ _ (load_block_step _ _ H)) as Hs.
  pose proof (block_step_same s0 s (load_block_step _ _ H)) as (Hbs & Hdr & _).
  destruct (Z.leb_spec remaining 0) as [|Hr].
  { apply wp_ret. split_and!; [done|done|]. replace remaining with 0 by lia. by rewrite slice_0, app_nil_r. }
  specialize (Hend Hr). destruct (readable_block _ _ Hread start Hst ltac:(lia)) as (Hin & Hne & Hblk).
  pose proof (readable_size _ _ Hread) as Hsz.
  wp_call wp_get_block; [done..|]. intros b s1 (H1 & Hb & _ & Hval).
  assert (b = file_block s0 ino start) as ->.
  { rewrite <- (file_block_same s0 s) by done. apply Hval; [done|by rewrite Hbs|by apply (file_block_in_same s0)|].
    right. apply Hread. }
  rewrite (proj2 (Z.eqb_neq _ _) Hne). pose proof (step_inv _ _ (load_block_step _ _ H1)) as Hs1.
  pose proof (load_step_trans _ _ _ H H1) as H01.
  pose proof (block_step_same s0 s1 (load_block_step _ _ H01)) as (Hbs1 & Hdr1 & _).
  pose proof (load_coherent _ _ H1 Hcoh) as Hc1.
  do 2 wp_rule. wp_call wp_read_block; [done|apply Hb|]. intros ok s2 [Hstep2 Hd2 Hc2 Hv2 Hok2].
  specialize (Hok2 (readable_disk _ _ Hread)). subst ok. cbn [negb].
  assert (load_step s0 s2) as H02.
  { eapply load_step_trans; [exact H01|]. constructor; [done|done|]. by apply Hc2. }
  pose proof (step_inv _ _ Hstep2) as Hs2. pose proof (block_size_le s0 H0) as [Hle _].
  pose proof (block_step_same s0 s2 (load_block_step _ _ H02)) as (Hbs2 & _ & _).
  rewrite Hbs1. wp_rule. apply wp_load_io; [done|lia..|].
  set (to_copy := Z.min _ _) in *.
  assert (to_copy <= block_size (fs s0) - off /\ 0 < to_copy <= remaining /\
    (0 < remaining - to_copy -> to_copy = block_size (fs s0) - off)) as Hcopy by lia.
  assert (slice off to_copy (io s2) = slice (start * block_size (fs s0) + off) to_copy (contents s0 ino)) as Hbytes.
  { rewrite slice_contents by (done || lia). rewrite <- slice_io_block by (done || lia). f_equal.
    apply (block_in_same s0 s1 _ (load_block_step _ _ H01)) in Hblk as Hblk1.
    rewrite (Hv2 eq_refl Hc1 Hblk1 eq_refl).
    apply disk_block_same; apply H01. }
  rewrite Hbytes. pose proof (readable_size _ _ Hread).
  rewrite (wrap_small 32) by nia.
  eapply wp_mono; [apply IH; try done; try lia|].
  - by apply Hc2.
  - cbv beta. intros l s' (Hl & Hc & ->). split_and!; [done|done|]. rewrite <- app_assoc. f_equal.
    destruct (decide (remaining <= block_size (fs s0) - off)) as [Hlast|Hmore].
    + replace to_copy with remaining by lia. rewrite Z.sub_diag, slice_0, app_nil_r. done.
    + replace to_copy with (block_size (fs s0) - off) by lia.
      replace remaining with ((block_size (fs s0) - off) + (remaining - (block_size (fs s0) - off))) at 2 by lia.
      rewrite slice_app by lia. do 2 f_equal. lia.
Qed.

(** Reading an open descriptor: see [ext2_read_returns_contents]. *)
Lemma read_contents s fd f size :
  inv s -> coherent s -> 0 <= fd < 64 -> open_files (fs s) !! Z.to_nat fd = Some f -> is_open f = true ->
  refuses_read (flags f) = false -> readable s (inode f) ->
  0 <= position f < 2 ^ 32 -> 0 <= size < 2 ^ 63 ->
  let n := Z.max 0 (Z.min size (i_size (inode f) - position f)) in
  exists s' g, ext2_read fd false size s = (Ret (n, slice (position f) n (contents s (inode f))), s') /\ inv s' /\
    open_files (fs s') !! Z.to_nat fd = Some g /\ position g = position f + n.
Proof.
  intros Hs Hcoh Hfd Hf Hopen Hflags Hread Hpos Hsize n.
  assert (inode_ok (inode f)) as Hi.
  { destruct (ok_files _ (inv_fs s Hs)) as [_ Hall]. by apply (Forall_lookup_1 _ _ _ _ Hall Hf). }
  cut (wp (ext2_read fd false size) s (fun r s' =>
    r = (n, slice (position f) n (contents s (inode f))) /\ inv s' /\
    exists g, open_files (fs s') !! Z.to_nat fd = Some g /\ position g = position f + n)).
  { intros (r & s' & Hrun & -> & Hinv & g & Hg & Hp)%wp_run. by exists s', g. }
  unfold ext2_read. pose proof (block_size_le s Hs) as [Hle Hbs].
  apply wp_bind. eapply wp_mono.
  { instantiate (1 := fun o s1 => o = Some f /\ s1 = s). unfold open_file. do 2 wp_rule.
    rewrite (inv_mounted s Hs). cbn [negb orb]. apply wp_ret.
    rewrite (proj2 (Z.ltb_ge _ _)), (proj2 (Z.leb_gt _ _)) by (unfold EXT2_MAX_FILES; lia).
    cbn [orb]. by rewrite Hf, Hopen. }
  intros o s1 [-> ->]. cbv beta iota. rewrite Hflags. cbn [orb].
  destruct (Z.leb_spec (i_size (inode f)) (position f)).
  { apply wp_ret. replace n with 0 by lia. rewrite slice_0. split_and!; [done|done|].
    exists f. split; [done|]. lia. }
  pose proof (i_size_ok _ Hi) as Hisz. unfold u32_ok in Hisz.
  cbv zeta. rewrite (wrap_small 64) by lia.
  assert ((if i_size (inode f) <? position f + size then i_size (inode f) - position f else size) = n) as ->.
  { destruct (Z.ltb_spec (i_size (inode f)) (position f + size)); lia. }
  do 2 wp_rule. wp_rule. apply wp_mdiv; [lia|]. wp_rule. apply wp_mmod; [lia|].
  pose proof (Z.mod_pos_bound (position f) (block_size (fs s)) ltac:(lia)) as Hoff.
  pose proof (Z.div_mod (position f) (block_size (fs s)) ltac:(lia)) as Hdm.
  pose proof (Z.div_pos (position f) (block_size (fs s)) ltac:(lia) ltac:(lia)) as Hst.
  assert (position f / block_size (fs s) < 2 ^ 32) as Hst32 by (apply Z.div_lt_upper_bound; lia).
  rewrite (wrap_small 32) by lia.
  wp_call (wp_read_loop (inode f) s); try done; try lia.
  { by apply load_step_refl. }
  { by apply read_fuel_enough; [|lia|]. }
  { unfold read_fuel. lia. }
  intros bytes s1 (H1 & Hc1 & ->). cbn [app].
  replace (position f / block_size (fs s) * block_size (fs s) + position f mod block_size (fs s))
    with (position f) by lia.
  set (bytes := slice (position f) n (contents s (inode f))).
  assert (zlen bytes = n) as Hzn.
  { apply zlen_slice; [lia|lia|]. rewrite zlen_contents by (done || lia). lia. }
  cbv zeta. set (file' := set_inode _ _).
  assert (inode_ok (inode file')) as Hi' by (apply inode_ok_atime; [done|unfold u32_ok; lia]).
  pose proof (step_inv _ _ (load_block_step _ _ H1)) as Hs1.
  apply wp_bind. eapply wp_mono.
  { instantiate (1 := fun _ s2 => inv s2 /\ open_files (fs s2) !! Z.to_nat fd = Some file').
    apply wp_modify. destruct (ok_files _ (inv_fs s1 Hs1)) as [Hl Hall]. split.
    - apply inv_on_fs; [done|]. apply fs_ok_files; [apply inv_fs, Hs1|by rewrite length_insert|by apply Forall_insert].
    - cbn. apply list_lookup_insert_eq. unfold EXT2_MAX_FILES in *. lia. }
  intros [] s2 [Hs2 Hf2]. wp_call safe_write_inode; [by apply fs_step_refl|done|].
  intros ok s3 H3. apply wp_ret. split_and!; [by rewrite Hzn|apply H3|].
  exists file'. rewrite (fstep_files _ _ H3). split; [done|]. cbn. rewrite Hzn. apply wrap_small. lia.
Qed.
(** Reading returns the bytes of the file.  For an open descriptor of
    a file whose blocks are all mapped and readable, [ext2_read] returns the
    bytes from the file's position on, as many as were asked for and the file
    has, whichever direct or indirect blocks they are in; it returns their
    number and moves the position behind them. *)
Theorem ext2_read_returns_contents s fd f size :
  inv s -> coherent s -> 0 <= fd < 64 -> open_files (fs s) !! Z.to_nat fd = Some f -> is_open f = true ->
  refuses_read (flags f) = false -> readable s (inode f) ->
  0 <= position f < 2 ^ 32 -> 0 <= size < 2 ^ 63 ->
  let n := Z.max 0 (Z.min size (i_size (inode f) - position f)) in
  exists s' g, ext2_read fd false size s = (Ret (n, slice (position f) n (contents s (inode f))), s') /\ inv s' /\
    open_files (fs s') !! Z.to_nat fd = Some g /\ position g = position f + n.
Proof. exact (read_contents s fd f size). Qed.
End read.
