(* ===== verification/Ext2AllocSpec.v ===== *)
(** What [ext2_allocate_block] of fs/ext2.c does to the disk. *)
From S2P Require Import Prelude Wp PageAllocator Bytes BlockDevice Ext2 Ext2Inv Ext2Block.
From S2P Require Import Ext2Inode Ext2Safe Ext2Alloc Ext2Map.
Import Ext2.

Section alloc.
Context {A D : Type} `{!PageAllocator A, !BlockDevice D, !BlockDeviceSpec D}.
Abbreviation state := (ext2_state A D).
Implicit Types s : state.

(** ** Steps that leave the disk and the cache alone *)

Record quiet s s' : Prop := {
  quiet_inv : inv s';
  quiet_disk : disk s' = disk s;
  quiet_cache : cache (fs s') = cache (fs s);
  quiet_drive : drive_index (fs s') = drive_index (fs s);
  quiet_size : block_size (fs s') = block_size (fs s);
}.

Lemma quiet_trans s1 s2 s3 : quiet s1 s2 -> quiet s2 s3 -> quiet s1 s3.
Proof. intros [] []. constructor; congruence. Qed.

Lemma quiet_disk_block s s' b : quiet s s' -> disk_block s' b = disk_block s b.
Proof. intros [_ Hd _ Hdr Hbs]. unfold disk_block, sectors_per_block. by rewrite Hd, Hdr, Hbs. Qed.

Lemma quiet_block_in s s' b : quiet s s' -> block_in s' b <-> block_in s b.
Proof. intros [_ _ _ _ Hbs]. unfold block_in, sectors_per_block. by rewrite Hbs. Qed.

Lemma quiet_coherent s s' : quiet s s' -> coherent s -> coherent s'.
Proof.
  intros H Hc. unfold coherent. rewrite (quiet_cache _ _ H). eapply Forall_impl; [apply Hc|].
  intros e He p Hp Hv Hin%(quiet_block_in s s' _ H). rewrite (quiet_disk_block s s') by done.
  rewrite (quiet_size _ _ H). by apply He.
Qed.

Lemma quiet_set_io s l : inv (set_io l s) -> quiet s (set_io l s).
Proof. intros H. by constructor. Qed.

Lemma wp_io_zero s (Q : unit -> state -> Prop) :
  inv s ->
  (forall s', quiet s s' -> fs s' = fs s -> io_block s' = replicate (Z.to_nat (block_size (fs s))) 0 -> Q tt s') ->
  wp io_zero s Q.
Proof.
  intros Hs HQ. unfold io_zero. do 2 wp_rule. pose proof (block_size_le s Hs) as [Hle _].
  destruct (inv_io_eq s Hs) as (_ & Hz & _).
  assert (zlen (replicate (Z.to_nat (block_size (fs s))) 0) = block_size (fs s)) as Hzr
    by (unfold zlen; rewrite length_replicate; lia).
  apply wp_store_io; [done|lia|lia|apply zeros_ok|]. intros Hs1. apply HQ; [by apply quiet_set_io|done|].
  unfold io_block. rewrite io_set_io. change (fs (set_io _ s)) with (fs s). apply slice_splice_same; lia.
Qed.

(** Replacing the descriptors of the groups. *)
Definition with_gd (l : list Z) s : state :=
  on_fs (fun r => set_group_descs ((fun p => page_with l p) <$> group_descs r) r) s.

Lemma wp_gd_put s n bg field v (Q : unit -> state -> Prop) :
  inv s -> 0 <= bg < groups_count (fs s) -> 0 <= field -> field + Z.of_nat n <= 32 ->
  (let s' := with_gd (splice (32 * bg + field) (le n v) (gd_bytes s)) s in
   quiet s s' -> gd_field s' n bg field = v mod 256 ^ Z.of_nat n -> Q tt s') ->
  wp (gd_put n bg field v) s Q.
Proof.
  intros Hs Hbg Hf Hn HQ. pose proof Hs as Hstep%fs_step_refl.
  pose proof (safe_gd_put n bg field v s s Hstep Hbg Hf Hn) as Hsafe.
  destruct (gd_bytes_ok s Hs) as [Hl Hok].
  destruct (ok_group_descs _ (inv_fs s Hs)) as (p & Hp & _).
  assert (zlen (le n v) = Z.of_nat n) as Hz by (unfold zlen; by rewrite length_le).
  assert (gd_put n bg field v s = (Ret tt, with_gd (splice (32 * bg + field) (le n v) (gd_bytes s)) s)) as Heq.
  { unfold gd_put, store, gd_bytes, with_gd in *. rewrite Hp in *. cbn [buffer_bytes].
    rewrite Hp. cbn [fmap option_fmap option_map compose].
    change (drop (Z.to_nat 0) (page_bytes p)) with (page_bytes p).
    rewrite (proj2 (Z.leb_le _ _)) by lia. unfold set_buffer, on_fs. by rewrite Hp. }
  unfold wp in *. rewrite Heq in *. apply HQ.
  - by constructor; [apply Hsafe|..].
  - unfold gd_field, gd_bytes, with_gd. cbn. rewrite Hp. cbn.
    unfold gd_bytes in *. rewrite Hp in *. rewrite slice_splice_same by lia. apply un_le_le.
Qed.

Definition sb_field s (field : Z) : Z :=
  match superblock (fs s) with Some p => get32 (page_bytes p) field | None => 0 end.

Lemma wp_sb_get s field (Q : Z -> state -> Prop) :
  inv s -> Q (sb_field s field) s -> wp (sb_get field) s Q.
Proof.
  intros Hs HQ. destruct (ok_superblock _ (inv_fs s Hs)) as (p & Hp & _).
  unfold wp, sb_get, sb_field in *. by rewrite Hp in *.
Qed.

Lemma wp_sb_put s field v (Q : unit -> state -> Prop) :
  inv s -> 0 <= field -> field + 4 <= 4096 ->
  (forall s', quiet s s' -> group_descs (fs s') = group_descs (fs s) ->
     groups_count (fs s') = groups_count (fs s) -> Q tt s') ->
  wp (sb_put field v) s Q.
Proof.
  intros Hs Hf Hle HQ. pose proof (fs_step_refl s Hs) as Hstep.
  pose proof (safe_sb_put field v s s Hstep Hf Hle) as Hsafe. unfold wp, sb_put in *.
  apply HQ; [|done|done]. by constructor; [apply Hsafe|..].
Qed.

(** ** Marking a block and clearing it *)

Lemma wp_finish_block bg bit s :
  inv s -> coherent s -> 0 <= bg < groups_count (fs s) ->
  wp (finish_block (drive_index (fs s)) bg bit) s (fun b s' =>
    b = u32 (bg * blocks_per_group (fs s) + bit + sb_field s s_first_data_block) /\
    gd_field s' 2 bg bg_free_blocks_count = u16 (gd_field s 2 bg bg_free_blocks_count - 1) /\
    (block_in s b ->
     (forall b', block_in s b' -> b' <> b -> disk_block s' b' = disk_block s b') /\
     (writes_succeed (D := D) ->
      coherent s' /\ disk_block s' b = replicate (Z.to_nat (block_size (fs s))) 0))).
Proof.
  intros Hs Hcoh Hbg. unfold finish_block. do 2 wp_rule.
  wp_rule. apply wp_sb_get; [done|]. cbv zeta. wp_rule. apply wp_sb_get; [done|].
  wp_rule. apply wp_sb_put; [done|unfold s_free_blocks_count; lia..|]. intros s1 H1 Hgd1 Hg1.
  assert (gd_field s1 2 bg bg_free_blocks_count = gd_field s 2 bg bg_free_blocks_count) as Hf1.
  { unfold gd_field, gd_bytes. by rewrite Hgd1. }
  wp_rule. apply wp_gd_get; [apply H1|by rewrite Hg1|unfold bg_free_blocks_count; lia..|].
  wp_rule. apply wp_gd_put; [apply H1|by rewrite Hg1|unfold bg_free_blocks_count; lia..|].
  cbv zeta. set (s2 := with_gd _ s1). intros H2 Hf2.
  wp_rule. apply wp_io_zero; [apply H2|]. intros s3 H3 Hfs3 Hio3.
  pose proof (quiet_trans _ _ _ H1 H2) as H12. pose proof (quiet_trans _ _ _ H12 H3) as H13.
  set (b := u32 _).
  wp_rule. eapply wp_mono; [apply wp_write_block; [apply H13|apply wrap32_ok]|cbv beta].
  intros ok s4 [Hstep4 _ _ Hframe Hcont Hcoh4 Hall]. rewrite (quiet_drive _ _ H13) in *.
  apply wp_ret. split; [done|]. split.
  { unfold gd_field, gd_bytes. rewrite (step_fs _ _ Hstep4). cbn [set_cache group_descs]. rewrite Hfs3.
    change (gd_field s2 2 bg bg_free_blocks_count = u16 (gd_field s 2 bg bg_free_blocks_count - 1)).
    rewrite Hf2, Hf1. change (256 ^ Z.of_nat 2) with (2 ^ 16).
    change (u16 (gd_field s 2 bg bg_free_blocks_count - 1) mod 2 ^ 16)
      with (u16 (u16 (gd_field s 2 bg bg_free_blocks_count - 1))). apply wrap_idem. }
  intros Hin. apply (quiet_block_in s s3 _ H13) in Hin as Hin3. specialize (Hframe eq_refl Hin3).
  split.
  - intros b' Hb' Hne. rewrite Hframe; [by apply quiet_disk_block| |done]. by apply (quiet_block_in s s3 _ H13).
  - intros Hw. specialize (Hall Hw). split.
    + apply Hcoh4; [done|done|done|]. by apply (quiet_coherent s s3).
    + rewrite Hcont by done. rewrite Hio3. do 2 f_equal. apply H12.
Qed.

(** Bit [bit] of byte [bit / 8] is set. *)
Definition set_bit (l : list Z) (bit : Z) : list Z :=
  splice (bit / 8) [Z.lor (array_get 0 l (bit / 8)) (Z.shiftl 1 (bit mod 8))] l.

Lemma bit_of_set_bit l bit k :
  0 <= bit < 8 * zlen l -> 0 <= k < 8 * zlen l ->
  bit_of (set_bit l bit) k = (k =? bit) || bit_of l k.
Proof.
  intros Hbit Hk. unfold bit_of, set_bit, array_get.
  pose proof (Z.div_mod k 8 ltac:(lia)) as Hdk. pose proof (Z.div_mod bit 8 ltac:(lia)) as Hdb.
  pose proof (Z.mod_pos_bound k 8 ltac:(lia)). pose proof (Z.mod_pos_bound bit 8 ltac:(lia)).
  assert (0 <= bit / 8 < zlen l) as Hb by (split; [apply Z.div_pos; lia|apply Z.div_lt_upper_bound; lia]).
  assert (0 <= k / 8 < zlen l) as Hkl by (split; [apply Z.div_pos; lia|apply Z.div_lt_upper_bound; lia]).
  unfold splice, zlen in *. destruct (Z.lt_total (k / 8) (bit / 8)) as [Hlt|[Heq|Hgt]].
  - rewrite lookup_app_l by (rewrite length_take; lia). rewrite lookup_take_lt by lia.
    destruct (Z.eqb_spec k bit); [subst; lia|done].
  - rewrite Heq. rewrite lookup_app_r by (rewrite length_take; lia). rewrite length_take.
    replace (Z.to_nat (bit / 8) - Z.to_nat (bit / 8) `min` length l)%nat with 0%nat by lia.
    cbn [app lookup list_lookup from_option id]. rewrite Z.lor_spec, shiftl1_testbit by lia.
    rewrite orb_comm. f_equal. destruct (Z.eqb_spec (bit mod 8) (k mod 8)), (Z.eqb_spec k bit); try done; lia.
  - rewrite lookup_app_r by (rewrite length_take; lia). rewrite length_take.
    rewrite lookup_app_r by (cbn; lia). cbn [length]. rewrite lookup_drop.
    destruct (Z.eqb_spec k bit); [subst; lia|]. cbn [orb]. do 3 f_equal. lia.
Qed.

(** ** The search *)

(** Block [b] is claimed: its bit, the lowest clear one of the bitmap of a
    group, is set; the group has one free block less; no block but the bitmap
    and [b] changes, and [b] is cleared if the disk writes without errors. *)
Definition claimed s0 (b : Z) s' : Prop :=
  exists g bit,
    let bm := gd_field s0 4 g bg_block_bitmap in
    0 <= g < groups_count (fs s0) /\ 0 <= bit < 8 * block_size (fs s0) /\
    b = u32 (g * blocks_per_group (fs s0) + bit + sb_field s0 s_first_data_block) /\
    bit_of (disk_block s0 bm) bit = false /\
    (forall k, 0 <= k < bit -> bit_of (disk_block s0 bm) k = true) /\
    gd_field s' 2 g bg_free_blocks_count = u16 (gd_field s0 2 g bg_free_blocks_count - 1) /\
    (block_in s0 b -> b <> bm ->
     (forall k, 0 <= k < 8 * block_size (fs s0) ->
        bit_of (disk_block s' bm) k = (k =? bit) || bit_of (disk_block s0 bm) k) /\
     (forall b', block_in s0 b' -> b' <> bm -> b' <> b -> disk_block s' b' = disk_block s0 b') /\
     (writes_succeed (D := D) ->
      coherent s' /\ disk_block s' b = replicate (Z.to_nat (block_size (fs s0))) 0)).

Lemma block_step_gd s s' n bg field : block_step s s' -> gd_field s' n bg field = gd_field s n bg field.
Proof. intros H. unfold gd_field, gd_bytes. by rewrite (step_fs _ _ H). Qed.

Lemma block_step_sb s s' field : block_step s s' -> sb_field s' field = sb_field s field.
Proof. intros H. unfold sb_field. by rewrite (step_fs _ _ H). Qed.

(** Marking bit [bit] of the bitmap in [io_buffer]. *)
Lemma wp_mark_bit s bit (Q : unit -> state -> Prop) :
  inv s -> 0 <= bit < 8 * block_size (fs s) ->
  (forall s', quiet s s' -> fs s' = fs s -> io_block s' = set_bit (io_block s) bit -> Q tt s') ->
  wp (byte ← io_get 1 (bit / 8); io_put 1 (bit / 8) (Z.lor byte (Z.shiftl 1 (bit mod 8)))) s Q.
Proof.
  intros Hs Hbit HQ. pose proof (block_size_le s Hs) as [Hle _].
  assert (0 <= bit / 8 < block_size (fs s)) as Hb by (split; [apply Z.div_pos; lia|apply Z.div_lt_upper_bound; lia]).
  pose proof (Z.mod_pos_bound bit 8 ltac:(lia)) as Hm. destruct (inv_io_eq s Hs) as (_ & Hz & Hok).
  unfold io_get, io_put. wp_rule. wp_rule. apply wp_load_io; [done|lia..|]. wp_rule.
  set (byte := un_le _). assert (byte = array_get 0 (io_block s) (bit / 8) /\ 0 <= byte < 2 ^ 8) as [Hbyte Hrange].
  { subst byte. pose proof (un_le_range _ (slice_bytes_ok (bit / 8) (Z.of_nat 1) _ Hok)) as Hr.
    rewrite length_slice in Hr by lia. split; [|apply Hr].
    unfold io_block, array_get, slice. rewrite drop_0, lookup_take_lt by lia.
    change (Z.to_nat (Z.of_nat 1)) with 1%nat.
    destruct (lookup_lt_is_Some_2 (io s) (Z.to_nat (bit / 8))) as [x Hx]; [unfold zlen in *; lia|].
    rewrite Hx, (drop_S _ _ _ Hx). cbn [take un_le from_option id]. rewrite take_0. cbn [un_le]. lia. }
  set (v := Z.lor byte _). assert (0 <= v < 2 ^ 8) as Hv.
  { apply lor_range; [lia|done|]. rewrite Z.shiftl_1_l. split; [lia|]. apply Z.pow_lt_mono_r; lia. }
  assert (le 1 v = [v]) as Hle1 by (cbn [le]; by rewrite Z.mod_small).
  apply wp_store_io; [done|lia|rewrite Hle1; unfold zlen; cbn; lia|apply le_bytes_ok|]. intros Hs1.
  apply HQ; [by apply quiet_set_io|done|]. unfold io_block at 1. rewrite io_set_io.
  change (fs (set_io _ s)) with (fs s). rewrite Hle1, slice_0_splice by (unfold zlen in *; cbn; lia).
  fold (io_block s). unfold set_bit. by rewrite <- Hbyte.
Qed.

Lemma wp_claim n s0 :
  inv s0 -> coherent s0 ->
  (forall g, 0 <= g < groups_count (fs s0) -> block_in s0 (gd_field s0 4 g bg_block_bitmap)) ->
  forall bg s, load_step s0 s -> 0 <= bg -> bg + Z.of_nat n <= groups_count (fs s0) ->
  wp (allocate_in_groups (drive_index (fs s0)) bg_free_blocks_count bg_block_bitmap
        (finish_block (drive_index (fs s0))) n bg) s (fun b s' => b <> 0 -> claimed s0 b s').
Proof.
  intros H0 Hc0 Hbitmaps. induction n as [|n IH]; intros bg s H Hbg Hn; [by apply wp_ret|].
  cbn [allocate_in_groups]. cbv zeta.
  assert (forall s1, load_step s0 s1 ->
    wp (allocate_in_groups (drive_index (fs s0)) bg_free_blocks_count bg_block_bitmap
          (finish_block (drive_index (fs s0))) n (bg + 1)) s1 (fun b s' => b <> 0 -> claimed s0 b s')) as Hcont
    by (intros s1 H1; apply IH; [done|lia|lia]).
  pose proof (load_block_step _ _ H) as Hb. pose proof (step_inv _ _ Hb) as Hs.
  assert (groups_count (fs s) = groups_count (fs s0)) as Hg by by apply (block_step_fs groups_count).
  wp_rule. apply wp_gd_get; [done|lia|unfold bg_free_blocks_count; lia..|]. wp_rule; [by apply Hcont|].
  wp_rule. apply wp_gd_get; [done|lia|unfold bg_block_bitmap; lia..|].
  rewrite (block_step_gd s0 s 4) by done. set (bm := gd_field s0 4 bg bg_block_bitmap).
  specialize (Hbitmaps bg ltac:(lia)). fold bm in Hbitmaps.
  assert (u32_ok bm) as Hbm by (apply (gd_field_range s0 4); [done|lia|unfold bg_block_bitmap; lia..]).
  wp_rule. eapply wp_mono; [apply wp_read_block; [done|apply Hbm]|cbv beta].
  intros ok s1 [Hstep1 Hd1 Hc1 Hv1 _]. pose proof (block_step_same s0 s Hb) as (Hbs & Hdr & _).
  pose proof (load_coherent _ _ H Hc0) as Hc.
  assert (load_step s0 s1) as H1.
  { eapply load_step_trans; [done|]. constructor; [done|done|]. by apply Hc1. }
  wp_rule; [by apply Hcont|]. apply negb_false_iff in Heqb0 as ->.
  pose proof (load_block_step _ _ H1) as Hb1. pose proof (step_inv _ _ Hb1) as Hs1.
  pose proof (block_step_same s0 s1 Hb1) as (Hbs1 & Hdr1 & _). pose proof (block_size_le s0 H0) as [Hle _].
  assert (io_block s1 = disk_block s0 bm) as Hio1.
  { pose proof (proj2 (block_in_same s0 s bm Hb) Hbitmaps) as Hin.
    rewrite (Hv1 (eq_sym Hdr) Hc Hin eq_refl). apply disk_block_same; apply H. }
  do 2 wp_rule. wp_rule. apply wp_load_io; [done|lia..|]. fold (io_block s1). rewrite Hio1.
  wp_rule; [by apply Hcont|]. rename Heqb0 into Hfound.
  assert (zlen (disk_block s0 bm) = block_size (fs s0)) as Hzb by (rewrite <- Hio1, <- Hbs1; by apply zlen_io_block).
  destruct (find_free_bit_spec (disk_block s0 bm)) as [[Hf _]|(Hrange & Hclear & Hlow)]; [by rewrite Hf in Hfound|].
  set (bit := find_free_bit (disk_block s0 bm)) in *. rewrite Hzb in Hrange.
  assert (forall (k : M state Z) (Q : Z -> state -> Prop),
    wp (byte ← io_get 1 (bit / 8); io_put 1 (bit / 8) (Z.lor byte (Z.shiftl 1 (bit mod 8)))) s1
       (fun _ s2 => wp k s2 Q) ->
    wp (byte ← io_get 1 (bit / 8); io_put 1 (bit / 8) (Z.lor byte (Z.shiftl 1 (bit mod 8)));; k) s1 Q) as Hassoc.
  { intros k Q. unfold wp, mbind, m_bind. destruct (io_get 1 (bit / 8) s1) as [[byte| | | |] s2]; try done.
    by destruct (io_put _ _ _ s2) as [[[]| | | |] s3]. }
  apply Hassoc. apply wp_mark_bit; [done|lia|]. intros s2 H2 Hfs2 Hio2. rewrite Hio1 in Hio2.
  rewrite <- Hdr1. rewrite <- (quiet_drive _ _ H2).
  wp_rule. eapply wp_mono; [apply wp_write_block; [apply H2|apply Hbm]|cbv beta].
  intros ok s3 [Hstep3 _ _ Hframe3 Hcont3 Hcoh3 _]. wp_rule; [by apply wp_ret|]. apply negb_false_iff in Heqb0 as ->.
  assert (drive_index (fs s3) = drive_index (fs s2)) as <- by apply (block_step_same s2 s3 Hstep3).
  apply (block_in_same s0 s1 bm Hb1) in Hbitmaps as Hin1. apply (quiet_block_in s1 s2 bm H2) in Hin1 as Hin2.
  specialize (Hframe3 eq_refl Hin2). specialize (Hcont3 eq_refl Hin2 eq_refl).
  assert (coherent s3) as Hc3.
  { apply Hcoh3; [done..|]. apply (quiet_coherent s1 s2 H2). by apply H1. }
  assert (fs s3 = set_cache (cache (fs s3)) (fs s0)) as Hfs3.
  { rewrite (step_fs _ _ Hstep3), Hfs2, (step_fs _ _ Hb1). done. }
  assert (block_step s0 s3) as Hb3 by (constructor; [apply Hstep3|done]).
  eapply wp_mono; [apply wp_finish_block; [apply Hstep3|done|rewrite (block_step_fs groups_count s0 s3) by done; lia]|cbv beta].
  intros b s4 (Hval & Hcount & Hrest) _. exists bg, bit. cbv zeta. fold bm.
  pose proof (block_step_same s0 s3 Hb3) as (Hbs3 & _ & _).
  assert (forall b', block_in s0 b' <-> block_in s3 b') as Hin by (intros b'; symmetry; by apply block_in_same).
  assert (forall b', block_in s0 b' -> b' <> bm -> disk_block s3 b' = disk_block s0 b') as Hother.
  { intros b' Hb' Hne. rewrite Hframe3; [|by apply (quiet_block_in s1 s2 _ H2), (block_in_same s0 s1 _ Hb1)|done].
    rewrite (quiet_disk_block s1 s2) by done. apply disk_block_same; apply H1. }
  split_and!; [lia|lia|lia|lia| |done|done| |].
  - rewrite Hval, (block_step_fs blocks_per_group s0 s3), (block_step_sb s0 s3); done.
  - by rewrite Hcount, (block_step_gd s0 s3).
  - intros Hinb Hne. destruct (Hrest (proj1 (Hin b) Hinb)) as [Hframe4 Hw4]. split_and!.
    + intros k Hk. rewrite Hframe4; [|by apply Hin|done]. rewrite Hcont3, Hio2. apply bit_of_set_bit; lia.
    + intros b' Hb' Hnb Hnbb. rewrite Hframe4; [by apply Hother|by apply Hin|done].
    + intros Hw. rewrite <- Hbs3. by apply Hw4.
Qed.

(** C15: Allocating a block claims one free block.  When
    [ext2_allocate_block] returns a block number, the block's bit was the
    lowest clear bit in the bitmap of its group and is now set, so that the
    block cannot be handed out again; the other bits are as before, the
    group's count of free blocks is one less, no other block of the disk has
    changed, and the block is all zeros if the disk writes without errors. *)
Theorem allocate_block_claims_clear_bit s b s' :
  inv s -> coherent s ->
  (forall g, 0 <= g < groups_count (fs s) -> block_in s (gd_field s 4 g bg_block_bitmap)) ->
  ext2_allocate_block (drive_index (fs s)) s = (Ret b, s') -> b <> 0 -> claimed s b s'.
Proof.
  intros Hs Hcoh Hbm Hrun Hb.
  cut (wp (ext2_allocate_block (drive_index (fs s))) s (fun b s' => b <> 0 -> claimed s b s')).
  { unfold wp. rewrite Hrun. auto. }
  unfold ext2_allocate_block. do 2 wp_rule. rewrite (inv_mounted s Hs). cbn [negb].
  wp_rule. apply wp_sb_get; [done|]. wp_rule; [by apply wp_ret|]. do 2 wp_rule.
  pose proof (ok_groups_count _ (inv_fs s Hs)).
  apply wp_claim; [done|done|done|by apply load_step_refl|lia|lia].
Qed.
End alloc.
