(* ===== verification/Ext2Mount.v ===== *)
(** Mounting in fs/ext2.c: a volume with a sane superblock gives a well-formed
    file system, with a cache that agrees with the disk. *)
From S2P Require Import Prelude Wp PageAllocator Bytes BlockDevice Ext2 Ext2Dir Ext2File Ext2Inv.
From S2P Require Import Ext2Block Ext2Inode Ext2Safe Ext2DirSafe Ext2NameSafe.
Import Ext2 Ext2Dir Ext2File.

Lemma slice_splice_inside off src l o n :
  0 <= off -> off <= o -> 0 <= n -> o + n <= off + zlen src -> off + zlen src <= zlen l ->
  slice o n (splice off src l) = slice (o - off) n src.
Proof.
  intros. transitivity (slice (o - off) n (slice off (zlen src) (splice off src l))).
  - rewrite slice_slice by lia. f_equal. lia.
  - by rewrite slice_splice_same by lia.
Qed.

(** The fields of the superblock that [ext2_mount] uses, of a volume it can
    work with: blocks of 1, 2 or 4 KiB, inodes that fit in a block, at least
    one block and one inode per group, and not too many groups. *)
Record sane_superblock (sb : list Z) : Prop := {
  sane_log : 0 <= get32 sb s_log_block_size <= 2;
  sane_blocks_per_group : 0 < get32 sb s_blocks_per_group;
  sane_inodes_per_group : 0 < get32 sb s_inodes_per_group;
  sane_inode_size : get16 sb s_inode_size = 0 \/
                    128 <= get16 sb s_inode_size <= 1024 * 2 ^ get32 sb s_log_block_size;
  sane_blocks : get32 sb s_blocks_count + get32 sb s_blocks_per_group <= 2 ^ 31;
  sane_groups : get32 sb s_blocks_count <= 2 ^ 20 * get32 sb s_blocks_per_group;
}.

Section mount.
Context {A D : Type} `{!PageAllocator A, !BlockDevice D, !BlockDeviceSpec D}.
Abbreviation state := (ext2_state A D).
Implicit Types s : state.

(** An initialised driver without a file system. *)
Record unmounted s : Prop := {
  un_initialized : initialized s = true;
  un_mounted : mounted s = false;
  un_io : exists l, io_buffer s = Some l /\ io_ok l;
  un_cache : length (cache (fs s)) = EXT2_CACHE_SIZE /\
             Forall (fun e => valid e = false /\ forall p, data e = Some p -> page_ok p) (cache (fs s));
  un_files : length (open_files (fs s)) = EXT2_MAX_FILES /\
             Forall (fun o => inode_ok (inode o)) (open_files (fs s));
  un_dev : dev_inv (disk s);
}.

(** ** The driver after [ext2_init] *)

Lemma init_unmounted s :
  dev_inv (disk s) -> mounted s = false ->
  wp ext2_init s (fun ok s' => disk s' = disk s /\ (ok = true -> unmounted s')).
Proof.
  intros Hd Hm. unfold ext2_init. do 2 wp_rule. wp_rule. unfold alloc_data. wp_rule.
  unfold wp at 1, call_pmm. cbn [pmm on_fs]. destruct (pmm_alloc_pages 2 (pmm s)) as [p a].
  apply wp_ret. do 2 wp_rule. destruct (p =? NULL); cbn [fmap option_fmap option_map]; [by apply wp_ret|].
  do 2 wp_rule. do 2 wp_rule. apply wp_ret. split; [done|].
  intros _. constructor; cbn [fs io_buffer disk initialized mounted set_flags on_fs]; try done.
  - eexists. split; [reflexivity|]. cbn [page_bytes]. split; [|apply zeros_ok].
    unfold zlen. rewrite length_replicate. lia.
  - split; [done|]. apply Forall_replicate. split; [done|]. by intros ? [=].
  - split; [done|]. apply Forall_replicate. apply inode_ok_zero.
Qed.

(** ** Reading the group descriptors *)

(** While [ext2_mount] reads, only the group descriptors and the disk
    change. *)
Record desc_step s s' : Prop := {
  ds_group : exists p l, group_descs (fs s) = Some p /\ fs s' = set_group_descs (Some (page_with l p)) (fs s) /\
             zlen l = zlen (page_bytes p) /\ bytes_ok l;
  ds_flags : initialized s' = initialized s /\ mounted s' = mounted s /\ io_buffer s' = io_buffer s;
  ds_dev : dev_inv (disk s');
}.

Lemma desc_step_trans s1 s2 s3 : desc_step s1 s2 -> desc_step s2 s3 -> desc_step s1 s3.
Proof.
  intros [(p & l & Hp & Hf & Hz & Hok) (Hi & Hm & Ho) Hd] [(q & l' & Hq & Hf' & Hz' & Hok') (Hi' & Hm' & Ho') Hd'].
  constructor; [|by split_and!; congruence|done]. exists p, l'.
  rewrite Hf in Hq. cbn in Hq. injection Hq as <-. split_and!; [done| |by rewrite Hz'|done].
  by rewrite Hf', Hf.
Qed.

Lemma wp_read_desc_sectors drive start off p n : forall i s,
  dev_inv (disk s) -> group_descs (fs s) = Some p -> bytes_ok (page_bytes p) ->
  0 <= off -> 0 <= i -> off + (i + Z.of_nat n) * 512 <= zlen (page_bytes p) -> (i + Z.of_nat n) * 512 < 2 ^ 32 ->
  wp (read_sectors drive start (GroupDescs off) n i) s (fun _ s' => desc_step s s').
Proof.
  revert p. induction n as [|n IH]; intros p i s Hd Hp Hok Hoff Hi Hle Hsm.
  { apply wp_ret. constructor; [|done|done]. exists p, (page_bytes p). split_and!; [done| |done|done].
    destruct (fs s), p. cbn in *. by subst. }
  cbn [read_sectors]. apply wp_bind. unfold wp at 1. rewrite call_disk_eq.
  destruct (ata_read_sector drive (u32 (start + i)) (disk s)) as [r d] eqn:Hr. cbn [fst snd].
  pose proof (wrap_range 32 (start + i) ltac:(lia)) as Hrange.
  destruct (dev_read _ _ _ _ _ Hd Hrange Hr) as (Hd' & _ & Hbytes).
  set (s1 := Ext2State _ _ _ _ _ d).
  assert (desc_step s s1) as Hstep1.
  { constructor; [|done|done]. exists p, (page_bytes p). split_and!; [done| |done|done].
    subst s1. cbn. destruct (fs s), p. cbn in *. by subst. }
  destruct r as [bytes|]; [|by apply wp_ret].
  destruct (Hbytes bytes eq_refl) as [[Hlen Hbok] _]. assert (zlen bytes = 512) as Hz by (unfold zlen; lia).
  rewrite (wrap_small 32 (i * 512)) by lia.
  assert (zlen (drop (Z.to_nat off) (page_bytes p)) = zlen (page_bytes p) - off) as Hzd.
  { unfold zlen in *. rewrite length_drop. lia. }
  set (l := take (Z.to_nat off) (page_bytes p) ++ splice (i * 512) bytes (drop (Z.to_nat off) (page_bytes p))).
  assert (zlen l = zlen (page_bytes p)) as Hzl.
  { unfold l, zlen in *. rewrite length_app, length_take, length_splice; [rewrite length_drop; lia|lia|].
    unfold zlen. rewrite length_drop. lia. }
  assert (bytes_ok l) as Hlok.
  { apply Forall_app. split; [by apply Forall_take|]. apply splice_bytes_ok; [done|by apply Forall_drop]. }
  wp_rule. apply wp_run. exists tt, (on_fs (set_group_descs (Some (page_with l p))) s1). split.
  { unfold store. cbn [buffer_bytes]. change (fs s1) with (fs s). rewrite Hp.
    cbn [fmap option_fmap option_map compose]. rewrite Hzd, (proj2 (Z.leb_le _ _)) by lia.
    f_equal. unfold set_buffer, on_fs. change (fs s1) with (fs s). rewrite Hp. cbn [fmap option_fmap option_map].
    unfold l. by rewrite take_take, Nat.min_id || done. }
  set (s2 := on_fs _ s1). assert (desc_step s s2) as Hstep2.
  { constructor; [|done|done]. exists p, l. by split_and!. }
  eapply wp_mono; [apply (IH (page_with l p)); try done; cbn [page_bytes page_with]; lia|].
  intros ok s' Hs'. by eapply desc_step_trans.
Qed.

Lemma wp_read_desc_block drive b off p s :
  mounted s = false -> dev_inv (disk s) -> group_descs (fs s) = Some p -> bytes_ok (page_bytes p) ->
  0 <= off -> 0 <= block_size (fs s) < 2 ^ 32 -> off + block_size (fs s) <= zlen (page_bytes p) ->
  wp (ext2_read_block drive b (GroupDescs off)) s (fun _ s' => desc_step s s').
Proof.
  intros Hm Hd Hp Hok Hoff Hbs Hle. unfold ext2_read_block. do 2 wp_rule. cbn [nonnull negb]. rewrite Hm.
  cbv zeta. pose proof (Z.mul_div_le (block_size (fs s)) 512 ltac:(lia)).
  pose proof (Z.div_pos (block_size (fs s)) 512 ltac:(lia) ltac:(lia)).
  wp_rule. eapply wp_mono; [eapply wp_read_desc_sectors; [done..|lia|lia|lia|lia]|cbv beta].
  intros [] s1 H1; [|by apply wp_ret]. wp_rule. apply wp_ret. by apply wp_ret.
Qed.

Lemma wp_read_group_descs drive b bs p n : forall i s,
  mounted s = false -> dev_inv (disk s) -> group_descs (fs s) = Some p -> bytes_ok (page_bytes p) ->
  block_size (fs s) = bs -> 0 < bs -> 0 <= i -> (i + Z.of_nat n) * bs <= zlen (page_bytes p) ->
  (i + Z.of_nat n) * bs < 2 ^ 32 ->
  wp (read_group_descs drive b bs n i) s (fun _ s' => desc_step s s').
Proof.
  revert p. induction n as [|n IH]; intros p i s Hm Hd Hp Hok Hbs Hpos Hi Hle Hsm.
  { apply wp_ret. constructor; [|done|done]. exists p, (page_bytes p). split_and!; [done| |done|done].
    destruct (fs s), p. cbn in *. by subst. }
  cbn [read_group_descs]. rewrite (wrap_small 32 (i * bs)) by nia.
  wp_rule. eapply wp_mono; [eapply wp_read_desc_block; [done..|nia|rewrite Hbs; nia|rewrite Hbs; nia]|cbv beta].
  intros [] s1 H1; [|by apply wp_ret].
  pose proof (ds_group _ _ H1) as (q & l & Hq & Hf & Hz & Hl). assert (q = p) as -> by congruence.
  eapply wp_mono.
  { apply (IH (page_with l p)).
    - destruct (ds_flags _ _ H1) as (_ & -> & _). done.
    - apply H1.
    - by rewrite Hf.
    - done.
    - by rewrite Hf.
    - done.
    - lia.
    - cbn [page_bytes page_with]. nia.
    - nia. }
  intros ok s2 H2. by eapply desc_step_trans.
Qed.

(** ** Mounting *)

Lemma wp_io_get_raw n off s l (Q : Z -> state -> Prop) :
  io_buffer s = Some l -> off + Z.of_nat n <= zlen l ->
  Q (un_le (slice off (Z.of_nat n) l)) s -> wp (io_get n off) s Q.
Proof.
  intros Hl Hle HQ. unfold io_get. apply wp_bind. unfold wp at 1, load. cbn [buffer_bytes].
  rewrite Hl, (proj2 (Z.leb_le _ _)) by done. by apply wp_ret.
Qed.

(** A fresh allocation, whatever the allocator answers. *)
Lemma wp_alloc_data n (f : A -> Z * A) s (Q : option page -> state -> Prop) :
  (forall q a, (forall p, q = Some p -> page_bytes p = replicate (Z.to_nat n) 0) ->
     Q q (Ext2State (fs s) (initialized s) (mounted s) (io_buffer s) a (disk s))) ->
  wp (alloc_data n f) s Q.
Proof.
  intros HQ. unfold alloc_data. apply wp_bind. unfold wp at 1, call_pmm.
  destruct (f (pmm s)) as [p a]. apply wp_ret, HQ. intros q. destruct (p =? NULL); [done|].
  intros Hq. apply Some_inj in Hq. by subst q.
Qed.

Lemma wp_free_page p s (Q : unit -> state -> Prop) :
  (forall a, Q tt (Ext2State (fs s) (initialized s) (mounted s) (io_buffer s) a (disk s))) ->
  wp (free_page p) s Q.
Proof. intros HQ. destruct p; [apply HQ|]. destruct s. apply HQ. Qed.

(** What the driver's cache holds before the file system is mounted. *)
Definition empty_cache (c : list cache_entry) : Prop :=
  length c = EXT2_CACHE_SIZE /\
  Forall (fun e => valid e = false /\ forall p, data e = Some p -> page_ok p) c.

Lemma wp_alloc_cache s :
  empty_cache (cache (fs s)) ->
  wp (mfor EXT2_CACHE_SIZE 0 alloc_cache_entry) s (fun _ s' =>
    exists c a, empty_cache c /\
      s' = Ext2State (set_cache c (fs s)) (initialized s) (mounted s) (io_buffer s) a (disk s)).
Proof.
  intros Hc.
  apply (wp_for (fun _ s' => exists c a, empty_cache c /\
      s' = Ext2State (set_cache c (fs s)) (initialized s) (mounted s) (io_buffer s) a (disk s))).
  - exists (cache (fs s)), (pmm s). split; [done|]. by destruct s as [[]].
  - intros j s1 _ (c & a & [Hl Hall] & ->). unfold alloc_cache_entry. do 2 wp_rule.
    case_bool_decide; [apply wp_ret; by exists c, a|].
    wp_rule. apply wp_alloc_data. intros q a' Hq. apply wp_modify.
    exists (alter (set_data q) (Z.to_nat j) c), a'. split; [|done]. split; [by rewrite length_alter|].
    apply Forall_alter; [done|]. intros e _ [Hv _]. split; [done|]. intros p Hp. cbn in Hp.
    unfold page_ok. rewrite (Hq p Hp). split; [|apply zeros_ok].
    unfold zlen. rewrite length_replicate. lia.
  - done.
Qed.

(** The geometry [ext2_mount] takes from the first sector of the superblock. *)
Record mounted_geometry (drive : Z) (sb : list Z) s : Prop := {
  geo_drive : drive_index (fs s) = drive;
  geo_block_size : block_size (fs s) = 1024 * 2 ^ get32 sb s_log_block_size;
  geo_blocks_per_group : Ext2.blocks_per_group (fs s) = get32 sb s_blocks_per_group;
  geo_inodes_per_group : Ext2.inodes_per_group (fs s) = get32 sb s_inodes_per_group;
  geo_inode_size : Ext2.inode_size (fs s) = (if 0 <? get16 sb s_inode_size then get16 sb s_inode_size else 128);
  geo_groups : (Ext2.groups_count (fs s) - 1) * get32 sb s_blocks_per_group <
                 get32 sb s_blocks_count <= Ext2.groups_count (fs s) * get32 sb s_blocks_per_group;
  geo_current_dir : current_dir (fs s) = ROOT;
}.

Lemma get32_range l off : bytes_ok l -> (Z.to_nat off + 4 <= length l)%nat -> 0 <= get32 l off < 2 ^ 32.
Proof.
  intros Hl Hlen. unfold get32. pose proof (un_le_range (slice off 4 l) (slice_bytes_ok _ _ _ Hl)) as H.
  assert (length (slice off 4 l) = 4%nat) as Hs by (unfold slice; rewrite length_take, length_drop; lia).
  rewrite Hs in H. apply H.
Qed.

(** A number of units of size [b], rounded up. *)
Lemma round_up a b : 0 <= a -> 0 < b -> let n := (a + b - 1) / b in (n - 1) * b < a <= n * b /\ 0 <= n.
Proof.
  intros Ha Hb n. pose proof (Z.div_mod (a + b - 1) b ltac:(lia)) as Hdm.
  pose proof (Z.mod_pos_bound (a + b - 1) b Hb). fold n in Hdm.
  pose proof (Z.div_pos (a + b - 1) b ltac:(lia) Hb). nia.
Qed.


(** The pages that hold the group descriptors. *)
Lemma desc_pages groups bs :
  0 <= groups <= 2 ^ 20 -> bs = 1024 \/ bs = 2048 \/ bs = 4096 ->
  let blocks := u32 (u32 (32 * groups) + bs - 1) / bs in
  let pages := u32 (blocks * bs + 4095) / 4096 in
  0 <= blocks /\ blocks * bs <= pages * 4096 /\ 32 * groups <= pages * 4096 /\ pages * 4096 < 2 ^ 31.
Proof.
  intros Hg Hbs blocks pages. subst blocks pages.
  rewrite (wrap_small 32 (32 * groups)) by lia. rewrite (wrap_small 32 (32 * groups + bs - 1)) by lia.
  pose proof (round_up (32 * groups) bs ltac:(lia) ltac:(lia)) as [Hb Hb0].
  set (blocks := (32 * groups + bs - 1) / bs) in *.
  rewrite (wrap_small 32 (blocks * bs + 4095)) by lia.
  replace (blocks * bs + 4095) with (blocks * bs + 4096 - 1) by lia.
  pose proof (round_up (blocks * bs) 4096 ltac:(lia) ltac:(lia)) as [Hp Hp0]. lia.
Qed.

Lemma sane_block_size sb :
  sane_superblock sb ->
  shifted_block_size (get32 sb s_log_block_size) = 1024 * 2 ^ get32 sb s_log_block_size /\
  (let bs := 1024 * 2 ^ get32 sb s_log_block_size in bs = 1024 \/ bs = 2048 \/ bs = 4096).
Proof.
  intros []. set (n := get32 sb s_log_block_size) in *. unfold shifted_block_size.
  assert (n = 0 \/ n = 1 \/ n = 2) as [-> | [-> | ->]] by lia; split; (reflexivity || auto).
Qed.

(** The end of [ext2_mount]: the cache, the root directory, the counters. *)
Lemma wp_mount_tail s (Q : bool -> state -> Prop) :
  (forall c a blocks inodes, empty_cache c ->
     let f := fs s in
     Q true (Ext2State (Fs (drive_index f) (block_size f) (Ext2.blocks_per_group f)
                        (Ext2.inodes_per_group f) (Ext2.inode_size f) (Ext2.groups_count f)
                        blocks inodes (superblock f) (group_descs f) (open_files f)
                        ROOT c) (initialized s) true (io_buffer s) a (disk s))) ->
  empty_cache (cache (fs s)) -> is_Some (superblock (fs s)) ->
  wp (mfor EXT2_CACHE_SIZE 0 alloc_cache_entry;;
      mmodify (fun s => set_flags (initialized s) true s);;
      mmodify (on_fs (set_current_dir ROOT));;
      blocks ← sb_get s_blocks_count;
      inodes ← sb_get s_inodes_count;
      mmodify (on_fs (fun f =>
        Fs (drive_index f) (block_size f) (Ext2.blocks_per_group f)
          (Ext2.inodes_per_group f) (Ext2.inode_size f) (Ext2.groups_count f)
          blocks inodes (superblock f) (group_descs f) (open_files f)
          (current_dir f) (cache f)));;
      mret true) s Q.
Proof.
  intros HQ Hc [p Hp]. wp_rule. eapply wp_mono; [by apply wp_alloc_cache|].
  intros [] s1 (c & a & Hc' & ->). do 4 wp_rule. wp_rule.
  unfold wp at 1, sb_get. cbn [fs superblock set_flags on_fs set_current_dir set_cache]. rewrite Hp.
  wp_rule. unfold wp at 1, sb_get. cbn [fs superblock set_flags on_fs set_current_dir set_cache]. rewrite Hp.
  wp_rule. wp_rule. apply wp_ret. by apply HQ.
Qed.

(** [load_tables] leaves the geometry alone. *)
Definition same_geometry (f f' : ext2_fs_t) : Prop :=
  drive_index f' = drive_index f /\ block_size f' = block_size f /\
  Ext2.blocks_per_group f' = Ext2.blocks_per_group f /\
  Ext2.inodes_per_group f' = Ext2.inodes_per_group f /\
  Ext2.inode_size f' = Ext2.inode_size f /\ Ext2.groups_count f' = Ext2.groups_count f.

Record geometry_ok (f : ext2_fs_t) : Prop := {
  go_block_size : block_size f = 1024 \/ block_size f = 2048 \/ block_size f = 4096;
  go_inodes : 0 < Ext2.inodes_per_group f < 2 ^ 32;
  go_inode_size : 128 <= Ext2.inode_size f <= block_size f;
  go_groups : 0 <= Ext2.groups_count f <= 2 ^ 20;
}.

Lemma empty_cache_entries c : empty_cache c -> Forall entry_ok c.
Proof.
  intros [_ H]. eapply Forall_impl; [apply H|]. intros e [Hv Hp]. constructor; [done|]. by rewrite Hv.
Qed.

Lemma wp_load_tables drive first s :
  unmounted s -> geometry_ok (fs s) ->
  wp (load_tables drive (block_size (fs s)) (Ext2.groups_count (fs s)) first) s (fun ok s' => ok = true ->
    inv s' /\ coherent s' /\ same_geometry (fs s) (fs s') /\ current_dir (fs s') = ROOT).
Proof.
  intros Hs [Hbs Hin His Hg]. set (bs := block_size (fs s)) in *. set (groups := Ext2.groups_count (fs s)) in *.
  destruct (un_io s Hs) as (io & Hio & Hzio & Hiok).
  pose proof (desc_pages groups bs Hg Hbs) as Hpages. cbv zeta in Hpages.
  unfold load_tables. wp_rule. apply wp_alloc_data. intros sbp a1 Hsb. do 2 wp_rule.
  destruct sbp as [q|]; [|by apply wp_ret]. pose proof (Hsb q eq_refl) as Hq.
  wp_rule. apply wp_run. eexists (slice 0 1024 io), _. split.
  { unfold load. cbn [buffer_bytes io_buffer on_fs]. rewrite Hio, (proj2 (Z.leb_le _ _)) by lia. reflexivity. }
  do 2 wp_rule. unfold mdiv. rewrite (proj2 (Z.eqb_neq bs 0)) by lia. wp_rule. wp_rule.
  set (blocks := u32 _ / bs) in *. set (pages := u32 _ / 4096) in *.
  destruct Hpages as (Hb0 & Hbp & Hgp & Hsm).
  wp_rule. apply wp_alloc_data. intros gd a2 Hgd. do 2 wp_rule.
  destruct gd as [g|]; [|wp_rule; apply wp_free_page; intros a3; by apply wp_ret].
  pose proof (Hgd g eq_refl) as Hgz.
  assert (zlen (page_bytes g) = pages * 4096) as Hzg.
  { rewrite Hgz. unfold zlen. rewrite length_replicate. lia. }
  set (sbl := splice 0 (slice 0 1024 io) (page_bytes q)).
  assert (page_ok (page_with sbl q)) as Hsbok.
  { assert (zlen (slice 0 1024 io) = 1024) as Hz by (apply zlen_slice; lia). split; cbn [page_bytes page_with].
    - subst sbl. rewrite Hq, zlen_splice; rewrite ?Hz; unfold zlen; rewrite ?length_replicate; lia.
    - apply splice_bytes_ok; [by apply slice_bytes_ok|]. rewrite Hq. apply zeros_ok. }
  wp_rule. set (s2 := on_fs _ _). eapply wp_mono.
  { apply (wp_read_group_descs drive _ bs g (Z.to_nat blocks) 0 s2).
    - apply (un_mounted s Hs).
    - apply (un_dev s Hs).
    - done.
    - rewrite Hgz. apply zeros_ok.
    - done.
    - lia.
    - lia.
    - rewrite Z2Nat.id by lia. lia.
    - rewrite Z2Nat.id by lia. lia. }
  cbv beta. intros [] s3 H3; cbn [negb].
  2:{ wp_rule. apply wp_free_page. intros a3. wp_rule. apply wp_free_page. intros a4. by apply wp_ret. }
  pose proof (ds_group _ _ H3) as (g' & gl & Hg' & Hfs3 & Hzgl & Hgl).
  assert (g' = g) as -> by (cbn in Hg'; congruence).
  pose proof (ds_flags _ _ H3) as (_ & _ & Hio3).
  assert (empty_cache (cache (fs s3))) as Hcache by (rewrite Hfs3; apply (un_cache s Hs)).
  apply wp_mount_tail; [|done|by rewrite Hfs3].
  intros c a blocks' inodes' Hc f _. subst f. rewrite Hfs3.
  assert (cache_ok : length c = EXT2_CACHE_SIZE /\ Forall entry_ok c).
  { split; [apply Hc|by apply empty_cache_entries]. }
  split_and!; [| |by split_and!|done].
  - constructor; [done| | |apply H3].
    + exists io. split; [|done]. cbn [io_buffer]. by rewrite Hio3.
    + constructor; cbn -[Z.mul Z.pow Z.le Z.lt].
      * apply Hbs.
      * apply Hin.
      * apply His.
      * apply Hg.
      * by eexists.
      * eexists. split; [done|]. cbn [page_bytes page_with]. split; [change (32 * groups <= zlen gl); lia|done].
      * done.
      * apply (un_files s Hs).
      * repeat constructor; done.
  - unfold coherent. cbn [fs cache]. destruct Hc as [_ Hc]. eapply Forall_impl; [apply Hc|].
    intros e [Hv _] p _ Hv'. by rewrite Hv in Hv'.
Qed.

(** What [ext2_mount] does on a volume with a sane superblock. *)
Lemma wp_mount drive s :
  unmounted s -> 2 < dev_limit -> sane_superblock (dev_sector (disk s) drive 2) ->
  wp (ext2_mount drive) s (fun ok s' => ok = true ->
    inv s' /\ coherent s' /\ mounted_geometry drive (dev_sector (disk s) drive 2) s').
Proof.
  intros Hs Hlim Hsane. unfold ext2_mount. do 2 wp_rule. rewrite (un_initialized s Hs), (un_mounted s Hs).
  cbn [negb orb]. destruct (ata_drive_present drive (disk s)); [|by apply wp_ret]. cbn [negb].
  do 2 wp_rule. wp_rule. unfold wp at 1. rewrite call_disk_eq. cbn [disk on_fs].
  destruct (ata_read_sector drive 2 (disk s)) as [r d] eqn:Hr. cbn [fst snd].
  destruct (dev_read (disk s) drive 2 r d (un_dev s Hs) ltac:(lia) Hr) as (Hd & _ & Hbytes).
  destruct r as [sb|]; [|by apply wp_ret].
  destruct (Hbytes sb eq_refl) as [[Hlen Hsb] Heq]. rewrite <- Heq in * by lia. clear Heq Hbytes Hr.
  assert (zlen sb = 512) as Hz by (unfold zlen; lia).
  destruct (un_io s Hs) as (l & Hl & Hzl & Hlok). wp_rule.
  apply wp_run. eexists tt, _. split.
  { unfold store. cbn [buffer_bytes io_buffer on_fs]. rewrite Hl, (proj2 (Z.leb_le _ _)) by lia. reflexivity. }
  cbn [set_buffer]. set (s1 := set_io _ _). set (l1 := splice 0 sb l) in *.
  assert (io_buffer s1 = Some l1) as Hl1 by done.
  assert (zlen l1 = 8192) as Hzl1 by (subst l1; rewrite zlen_splice; lia).
  assert (forall off n, 0 <= off -> off + Z.of_nat n <= 512 ->
    slice off (Z.of_nat n) l1 = slice off (Z.of_nat n) sb) as Hget.
  { intros off n Hoff Hn. subst l1. rewrite slice_splice_inside by lia. f_equal. lia. }
  assert (bytes_ok l1) as Hl1ok by by apply splice_bytes_ok.
  wp_rule. eapply wp_io_get_raw; [done|unfold s_magic; lia|].
  destruct (negb _); [by apply wp_ret|].
  do 6 (wp_rule; (eapply wp_io_get_raw; [done|unfold s_log_block_size, s_blocks_per_group, s_inodes_per_group, s_inode_size, s_blocks_count, s_first_data_block; lia|]); rewrite Hget by (vm_compute; congruence)).
  change (Z.of_nat 4) with 4. change (Z.of_nat 2) with 2.
  fold (get32 sb s_log_block_size) (get32 sb s_blocks_per_group) (get32 sb s_inodes_per_group)
    (get16 sb s_inode_size) (get32 sb s_blocks_count) (get32 sb s_first_data_block).
  pose proof (sane_block_size sb Hsane) as [Hshift Hbs]. cbv zeta in Hbs. rewrite Hshift.
  destruct Hsane as [Hlog Hbpg Hipg Hisz Hblocks Hgroups].
  pose proof (get32_range sb s_blocks_count Hsb ltac:(rewrite Hlen; by apply (bool_decide_unpack _))) as Hb32.
  pose proof (get32_range sb s_inodes_per_group Hsb ltac:(rewrite Hlen; by apply (bool_decide_unpack _))) as Hi32.
  wp_rule. unfold mdiv. rewrite (proj2 (Z.eqb_neq _ 0)) by lia. apply wp_ret. do 2 wp_rule.
  rewrite wrap_small by lia. set (groups := (_ + _ - 1) / _).
  pose proof (round_up (get32 sb s_blocks_count) (get32 sb s_blocks_per_group) ltac:(lia) ltac:(lia)) as [Hr Hr0].
  fold groups in Hr, Hr0.
  set (s2 := on_fs _ s1). eapply wp_mono.
  { apply (wp_load_tables drive (get32 sb s_first_data_block) s2).
    - destruct Hs. constructor; try done. by exists l1.
    - constructor; cbn -[Z.pow Z.mul]; [done|lia| |nia]. destruct (Z.ltb_spec 0 (get16 sb s_inode_size)); lia. }
  cbv beta. intros ok s3 H3 Hok. destruct (H3 Hok) as (Hinv & Hcoh & (Hd1 & Hd2 & Hd3 & Hd4 & Hd5 & Hd6) & Hcur).
  split_and!; [done|done|]. constructor; rewrite ?Hd1, ?Hd2, ?Hd3, ?Hd4, ?Hd5, ?Hd6; done.
Qed.

(** C14: Start-up.  [ext2_init] returns, and when it succeeds [ext2_mount] of a
    volume whose superblock is sane returns without a fault: every read of the
    superblock and of the group descriptors stays inside the buffers.  A mount
    that succeeds gives a well-formed file system with the geometry the
    superblock describes (block size, inode size, as many groups as the blocks
    need), the root as the current directory, and a cache that agrees with the
    disk. *)
Theorem mount_establishes_invariant drive s :
  dev_inv (disk s) -> mounted s = false -> 2 < dev_limit ->
  sane_superblock (dev_sector (disk s) drive 2) ->
  exists ready s1, ext2_init s = (Ret ready, s1) /\
    (ready = true -> exists ok s2, ext2_mount drive s1 = (Ret ok, s2) /\
       (ok = true -> inv s2 /\ coherent s2 /\ mounted_geometry drive (dev_sector (disk s) drive 2) s2)).
Proof.
  intros Hd Hm Hlim Hsane.
  destruct (proj1 (wp_run _ _ _) (init_unmounted s Hd Hm)) as (ready & s1 & Hrun & Hdisk & Hun).
  exists ready, s1. split; [done|]. intros Hr. apply wp_run. rewrite <- Hdisk in *.
  by apply wp_mount; [apply Hun|..].
Qed.
End mount.
