(* ===== verification/Ext2Witness.v ===== *)
(** Concrete volumes on which the hypotheses of the theorems about fs/ext2.c
    hold, and the theorems applied to them. *)
From S2P Require Import Prelude Wp PageAllocator Bytes BlockDevice Ext2 Ext2Dir Ext2File.
From S2P Require Import Ext2Examples Ext2Inv Ext2Block Ext2Inode Ext2Safe Ext2Alloc Ext2Map.
From S2P Require Import Ext2Spec Ext2DirSafe Ext2NameSafe Ext2FileSafe Ext2Path Ext2DirSpec.
From S2P Require Import Ext2ReadSpec Ext2AllocSpec Ext2Mount.
Import Ext2 Ext2Dir Ext2File.

Abbreviation volume := (ext2_state Z ram_disk).

(** ** The disk of the volume *)

Definition bytes_okb (l : list Z) : bool := forallb (fun b => (0 <=? b) && (b <? 256)) l.

Lemma bytes_okb_ok l : bytes_okb l = true -> bytes_ok l.
Proof.
  intros H. apply Forall_forall. intros b Hb%list_elem_of_In.
  apply (proj1 (forallb_forall _ _) H) in Hb. unfold byte_ok. lia.
Qed.

Lemma put_block_ok b l m :
  map_Forall (fun _ => sector_ok) m -> length l = 1024%nat -> bytes_ok l ->
  map_Forall (fun _ => sector_ok) (put_block b l m).
Proof.
  intros Hm Hl Hb. unfold put_block.
  assert (forall off, off = 0 \/ off = 512 -> sector_ok (slice off 512 l)) as Hs.
  { intros off Hoff. split; [|by apply slice_bytes_ok]. apply length_slice; unfold zlen; lia. }
  repeat apply map_Forall_insert_2; auto.
Qed.

Lemma image_ok bad : dev_inv (RamDisk 1 (rd_sectors image) bad).
Proof.
  change (map_Forall (fun _ => sector_ok) (rd_sectors image)). unfold image. cbn [rd_sectors].
  repeat (apply put_block_ok; [|vm_compute; reflexivity|apply bytes_okb_ok; vm_compute; reflexivity]).
  apply map_Forall_empty.
Qed.

Lemma image_sane bad : sane_superblock (dev_sector (RamDisk 1 (rd_sectors image) bad) 0 2).
Proof.
  change (dev_sector _ 0 2) with (rd_sector image 0 2).
  assert (forall P : Prop, P -> P) as _ by done.
  constructor; vm_compute; (split; congruence) || (right; split; congruence) || congruence.
Qed.

Section mounted.
Context {D : Type} `{!BlockDevice D, !BlockDeviceSpec D}.

Definition boot_on (d : D) : ext2_state Z D := Ext2State zero_fs false false None 1 d.
Definition mount_volume : M (ext2_state Z D) bool :=
  ready ← ext2_init; if (ready : bool) then ext2_mount 0 else mret false.

(** The mounted volume. *)
Definition mounted_on (d : D) : ext2_state Z D := snd (mount_volume (boot_on d)).
Definition is_true (o : outcome bool) : bool := match o with Ret b => b | _ => false end.

Lemma mounted_ok d :
  dev_inv d -> 2 < dev_limit -> sane_superblock (dev_sector d 0 2) ->
  is_true (fst (mount_volume (boot_on d))) = true ->
  inv (mounted_on d) /\ coherent (mounted_on d).
Proof.
  intros Hd Hlim Hsane Hret.
  assert (wp mount_volume (boot_on d) (fun ok s' => ok = true -> inv s' /\ coherent s')) as H.
  { unfold mount_volume. apply wp_bind. eapply wp_mono; [by apply (init_unmounted (boot_on d))|].
    cbv beta. intros ready s1 [Hd1 Hun]. destruct ready.
    - eapply wp_mono.
      + apply (wp_mount 0 s1); [by apply Hun|done|]. by rewrite Hd1.
      + cbv beta. intros ok s2 H Hok. by destruct (H Hok) as (? & ? & _).
    - by apply wp_ret. }
  unfold mounted_on. apply wp_run in H as (ok & s' & Hrun & H). rewrite Hrun in *. by apply H.
Qed.
End mounted.

(** A volume, and one whose block 9 can be read but not written. *)
Definition vol : volume := mounted_on image.
Definition bad_image : ram_disk := RamDisk 1 (rd_sectors image) [(0, 18)].
Definition bad_vol : volume := mounted_on bad_image.

Lemma vol_ok : inv vol /\ coherent vol.
Proof.
  apply mounted_ok; [apply (image_ok [])|reflexivity|apply (image_sane [])|]. vm_compute. reflexivity.
Qed.

Lemma bad_vol_ok : inv bad_vol /\ coherent bad_vol.
Proof.
  apply mounted_ok; [apply (image_ok [(0, 18)])|reflexivity|apply (image_sane [(0, 18)])|]. vm_compute. reflexivity.
Qed.

#[local] Opaque vol bad_vol mounted_on.

Lemma vol_drive : drive_index (fs vol) = 0.
Proof. vm_compute. reflexivity. Qed.

Lemma vol_block_in b : 0 <= b < 2 ^ 31 -> block_in vol b.
Proof.
  intros Hb. unfold block_in. assert (sectors_per_block vol = 2) as -> by (vm_compute; reflexivity).
  change dev_limit with (2 ^ 32). lia.
Qed.

Lemma ram_reads_succeed : reads_succeed (D := ram_disk).
Proof. by eexists. Qed.

#[local] Instance inode_ok_dec i : Decision (inode_ok i).
Proof. unfold inode_ok, fields_ok. apply _. Defined.

Lemma root_inode_ok : inode_ok root_inode.
Proof. apply (bool_decide_unpack _). vm_compute. exact I. Qed.

(** ** Blocks, inodes, pointers *)

Lemma block_layer_refines_disk_witness :
  exists ok s', ext2_read_block (drive_index (fs vol)) 9 Io vol = (Ret ok, s') /\
    (ok = true -> io_block s' = disk_block vol 9).
Proof.
  destruct (block_layer_refines_disk vol 9 (proj1 vol_ok) (proj2 vol_ok) (vol_block_in 9 ltac:(lia)) ltac:(unfold u32_ok; lia))
    as [(ok & s' & Hrun & _ & _ & _ & Hv) _].
  exists ok, s'. exact (conj Hrun Hv).
Defined.

(** Block 9 in the cache, and zeros in [io_buffer]. *)
Definition read_bad : volume := snd (ext2_read_block 0 9 Io bad_vol).
Definition zeroed_bad : volume := snd (io_zero read_bad).

Lemma run_fst {A B} (p : A * B) a : fst p = a -> p = (a, snd p).
Proof. intros <-. apply surjective_pairing. Qed.

Lemma wp_snd {R} (m : M volume R) (s : volume) : wp m s (fun _ (s' : volume) => inv s') -> inv (snd (m s)).
Proof. intros (r & s' & -> & Hs')%wp_run. exact Hs'. Qed.

Lemma read_block_inv k b (s : volume) : inv s -> 0 <= b < 2 ^ 32 -> inv (snd (ext2_read_block k b Io s)).
Proof.
  intros Hs Hb. apply wp_snd. eapply wp_mono; [by apply wp_read_block|]. intros ok s1 [Hstep _ _ _ _]. apply Hstep.
Qed.

Lemma io_zero_inv (s : volume) : inv s -> inv (snd (io_zero s)).
Proof. intros Hs. apply wp_snd. apply wp_io_zero; [done|]. by intros s' [? _ _ _ _] _ _. Qed.

Lemma zeroed_bad_ok : inv zeroed_bad.
Proof. exact (io_zero_inv _ (read_block_inv 0 9 bad_vol (proj1 bad_vol_ok) ltac:(lia))). Qed.

Lemma failed_write_stays_in_cache_witness :
  exists s', ext2_read_block 0 9 Io (snd (ext2_write_block 0 9 Io zeroed_bad)) = (Ret true, s') /\
    io_block s' = io_block zeroed_bad.
Proof.
  assert (ext2_write_block 0 9 Io zeroed_bad = (Ret false, snd (ext2_write_block 0 9 Io zeroed_bad))) as Hrun.
  { apply run_fst. vm_compute. reflexivity. }
  destruct (failed_write_stays_in_cache zeroed_bad 9 0 _ zeroed_bad_ok ltac:(unfold u32_ok; lia)
    ltac:(apply (bool_decide_unpack _); vm_compute; exact I) Hrun) as (s' & Hread & Hio & _).
  exists s'. exact (conj Hread Hio).
Defined.

Lemma inode_table_is_map_witness :
  exists ok s', ext2_write_inode (drive_index (fs vol)) 12 root_inode vol = (Ret ok, s') /\
    (ok = true -> inode_at s' 12 = root_inode).
Proof.
  destruct (inode_table_is_map vol 12 root_inode (proj1 vol_ok) (proj2 vol_ok) root_inode_ok
    ltac:(apply vol_block_in; vm_compute; split; congruence)) as [(ok & s' & Hrun & _ & _ & Hok) _].
  exists ok, s'. split; [exact Hrun|]. intros H. destruct (Hok H) as (_ & Hat & _). exact Hat.
Defined.


Lemma set_block_maps_block_witness :
  exists ok ino s', set_block_in_inode root_inode 3 20 vol = (Ret (ok, ino), s') /\
    (ok = true -> mapped_block s' ino 3 = 20).
Proof.
  destruct (set_block_maps_block vol root_inode 3 20 (proj1 vol_ok) (proj2 vol_ok) root_inode_ok ltac:(lia)
    ltac:(unfold u32_ok; lia) ltac:(lia)) as (ok & ino & s' & Hrun & Hok & _).
  exists ok, ino, s'. split; [exact Hrun|]. intros H. destruct (Hok H) as (_ & _ & Hat & _). exact Hat.
Defined.

Lemma allocate_block_claims_clear_bit_witness : claimed vol 10 (snd (ext2_allocate_block (drive_index (fs vol)) vol)).
Proof.
  apply (allocate_block_claims_clear_bit vol 10 _ (proj1 vol_ok) (proj2 vol_ok)).
  - intros g Hg. assert (g = 0) as ->.
    { assert (groups_count (fs vol) = 1) as H1 by (vm_compute; reflexivity). lia. }
    apply vol_block_in. vm_compute. split; congruence.
  - apply run_fst. vm_compute. reflexivity.
  - lia.
Defined.

(** ** Calls *)

Definition path_f : list Z := [47; 102].
Definition hello : list Z := [104; 101; 108; 108; 111].

(** Creating, writing, closing and opening "/f". *)
Definition session : list call :=
  [Open path_f (Z.lor EXT2_O_CREAT EXT2_O_RDWR); Write 0 (Some hello); Close 0; Open path_f EXT2_O_RDWR].

Lemma session_ok : Forall call_ok session.
Proof.
  repeat constructor; try lia. intros buf Hbuf. apply Some_inj in Hbuf. subst buf. by apply bytes_okb_ok.
Qed.

Lemma calls_return_witness : exists rs s', run_calls session vol = (Ret rs, s') /\ length rs = 4%nat /\ inv s'.
Proof. apply (calls_return session vol (proj1 vol_ok) session_ok). Defined.

(** The volume after the session, with "/f" open at position 0. *)
Definition opened : volume := snd (run_calls session vol).

Lemma run_calls_inv cs (s : volume) : inv s -> Forall call_ok cs -> inv (snd (run_calls cs s)).
Proof.
  intros Hs Hcs. apply wp_snd. revert s Hs. induction Hcs as [|c cs Hc _ IH]; intros s Hs; [by apply wp_ret|].
  cbn [run_calls]. wp_call safe_call; [done|done|]. intros r s1 Hs1. wp_call IH; [done|].
  intros rs s2 Hs2. by apply wp_ret.
Qed.

(** The cache of a volume agrees with its disk, as a computation. *)
Definition coherentb (s : volume) : bool :=
  forallb (fun e => match data e with
                    | Some p => negb (valid e) ||
                                bool_decide (slice 0 (block_size (fs s)) (page_bytes p) = disk_block s (block_no e))
                    | None => true
                    end) (cache (fs s)).

Lemma coherentb_ok s : coherentb s = true -> coherent s.
Proof.
  intros H. unfold coherent. apply Forall_forall. intros e He%list_elem_of_In p Hp Hv _.
  apply (proj1 (forallb_forall _ _) H) in He. rewrite Hp, Hv in He. by apply bool_decide_eq_true in He.
Qed.

Lemma opened_ok : inv opened /\ coherent opened.
Proof.
  split; [exact (run_calls_inv _ vol (proj1 vol_ok) session_ok)|].
  apply coherentb_ok. vm_compute. reflexivity.
Qed.

Definition opened_file : ext2_file_t := default no_file (open_files (fs opened) !! 0%nat).

Lemma opened_file_readable : readable opened (inode opened_file).
Proof.
  constructor; [exact ram_reads_succeed|vm_compute; congruence|].
  intros idx Hidx Hlt. assert (idx = 0) as ->.
  { assert (i_size (inode opened_file) = 5) as H5 by (vm_compute; reflexivity).
    assert (block_size (fs opened) = 1024) as Hb by (vm_compute; reflexivity). rewrite H5, Hb in Hlt. lia. }
  split; [vm_compute; exact I|]. split; [vm_compute; congruence|]. vm_compute. split; congruence.
Qed.

Lemma ext2_read_returns_contents_witness :
  exists s', ext2_read 0 false 100 opened = (Ret (5, hello), s').
Proof.
  destruct (ext2_read_returns_contents opened 0 opened_file 100 (proj1 opened_ok) (proj2 opened_ok) ltac:(lia)
    ltac:(vm_compute; reflexivity) ltac:(vm_compute; reflexivity) ltac:(vm_compute; reflexivity)
    opened_file_readable ltac:(vm_compute; split; congruence) ltac:(lia)) as (s' & g & Hrun & _).
  exists s'. etransitivity; [exact Hrun|]. vm_compute. reflexivity.
Defined.

Lemma mount_establishes_invariant_witness :
  exists ready s1, ext2_init (boot_on image) = (Ret ready, s1) /\
    (ready = true -> exists ok s2, ext2_mount 0 s1 = (Ret ok, s2) /\ (ok = true -> inv s2 /\ coherent s2)).
Proof.
  destruct (mount_establishes_invariant 0 (boot_on image) (image_ok []) ltac:(reflexivity) ltac:(reflexivity) (image_sane []))
    as (ready & s1 & Hinit & Hmount).
  exists ready, s1. split; [exact Hinit|]. intros Hr. destruct (Hmount Hr) as (ok & s2 & Hrun & H).
  exists ok, s2. split; [exact Hrun|]. intros Hok. destruct (H Hok) as (Hi & Hc & _). exact (conj Hi Hc).
Defined.

(** ** Paths and directories *)


Lemma lookup_walks_components_witness :
  ext2_lookup_path 0 path_f opened = lookup_components 0 EXT2_ROOT_INO [[102]] opened.
Proof. exact (lookup_walks_components 0 path_f opened ltac:(intros _; vm_compute; reflexivity)). Defined.

(** A block of 64 bytes with "." and "..", and one whose first entry is
    unused. *)
Definition two_entries : list dent := [Dent 2 2 [46] (zeros 3); Dent 2 2 [46; 46] (zeros 42)].
Definition unused_entry : dent := Dent 0 0 [] (zeros 32).
Definition entry_a : dent := Dent 5 1 [97] (zeros 15).

Lemma small_dent_ok ino type name n :
  0 <= ino < 2 ^ 32 -> zlen name <= 255 -> bytes_ok name -> Z.of_nat n <= 1024 -> dent_ok (Dent ino type name (zeros n)).
Proof.
  intros. constructor; cbn [d_ino d_nm d_pad]; [done|done|apply zeros_ok|].
  unfold dent_len. cbn [d_nm d_pad]. unfold zlen, zeros in *. rewrite length_replicate. lia.
Qed.

Lemma two_entries_ok : Forall dent_ok two_entries.
Proof.
  repeat (apply Forall_cons; split); [..|by apply Forall_nil]; apply small_dent_ok;
    (lia || (by vm_compute) || by apply bytes_okb_ok).
Qed.

Lemma find_entry_is_lookup_witness :
  find_entry (block_fuel 64) 64 [46; 46] 0 (block_bytes two_entries ++ zeros 10) = Some (dir_lookup [46; 46] two_entries).
Proof. exact (find_entry_is_lookup two_entries 64 [46; 46] (zeros 10) two_entries_ok ltac:(vm_compute; reflexivity)). Defined.

Lemma directory_block_updates_witness :
  exists l, add_entry (block_fuel 64) 64 12 1 [102] 0 (block_bytes two_entries ++ zeros 10) = Some (Some (l ++ zeros 10)) /\
    find_entry (block_fuel 64) 64 [102] 0 (l ++ zeros 10) = Some 12.
Proof.
  destruct (directory_block_updates two_entries 64 12 1 [102] (zeros 10) two_entries_ok ltac:(vm_compute; reflexivity)
    ltac:(lia) ltac:(lia) ltac:(vm_compute; congruence) ltac:(by apply bytes_okb_ok)) as [Hadd _].
  destruct (Hadd ltac:(repeat constructor; vm_compute; congruence)) as [Hnone|(l & Hl & _ & Hnew & _)].
  - exfalso. revert Hnone. vm_compute. congruence.
  - exists l. split; [exact Hl|]. apply Hnew. vm_compute. reflexivity.
Defined.

Lemma reused_entry_hides_others_witness :
  exists l, add_entry (block_fuel 64) 64 12 1 [102] 0 (block_bytes [unused_entry; entry_a] ++ zeros 10) = Some (Some l) /\
    find_entry (block_fuel 64) 64 [97] 0 l = Some 0.
Proof.
  destruct (reused_entry_hides_others unused_entry [entry_a] 64 12 1 [102] (zeros 10)
    ltac:(apply small_dent_ok; (lia || (by vm_compute) || by apply bytes_okb_ok))
    ltac:(vm_compute; reflexivity) ltac:(reflexivity) ltac:(by apply Forall_replicate) ltac:(lia) ltac:(lia)
    ltac:(vm_compute; congruence) ltac:(by apply bytes_okb_ok) ltac:(vm_compute; congruence) ltac:(vm_compute; congruence))
    as (l & Hl & _ & Hother).
  exists l. split; [exact Hl|]. apply Hother. congruence.
Defined.
