(* ===== verification/Ports.v ===== *)
(** The port accesses of lib/io.c at all three widths, over the state of the
    devices.  Bytes go through the interface of Interrupts.v; words and double
    words through the two interfaces below. *)
From S2P Require Import Prelude Interrupts.

(** What the devices do on an access of 16 and of 32 bits. *)
Class PortIO16 (D : Type) : Type := {
  port_in16 : Z -> D -> Z * D;
  port_out16 : Z -> Z -> D -> D;
}.
Class PortIO32 (D : Type) : Type := {
  port_in32 : Z -> D -> Z * D;
  port_out32 : Z -> Z -> D -> D;
}.

Module Ports.
Section ports.
Context {D : Type} `{!PortIO D, !PortIO16 D, !PortIO32 D}.
Abbreviation K := (M D).

Definition inb (port : Z) : K Z := mlift (fun d => let '(v, d) := port_in port d in (u8 v, d)).
Definition outb (port v : Z) : K unit := mmodify (port_out port (u8 v)).
Definition inw (port : Z) : K Z := mlift (fun d => let '(v, d) := port_in16 port d in (u16 v, d)).
Definition outw (port v : Z) : K unit := mmodify (port_out16 port (u16 v)).
Definition inl (port : Z) : K Z := mlift (fun d => let '(v, d) := port_in32 port d in (u32 v, d)).
Definition outl (port v : Z) : K unit := mmodify (port_out32 port (u32 v)).
End ports.
End Ports.
