(* ===== verification/Pci.v ===== *)
(** The PCI bus driver, drivers/pci/pci.c: access to the configuration space
    through the address and data ports, the scan of the buses, and the queries.
    Logging is left out. *)
From S2P Require Import Prelude Interrupts Ports.

Module Pci.

Definition PCI_CONFIG_ADDR : Z := 0xCF8.
Definition PCI_CONFIG_DATA : Z := 0xCFC.
Definition PCI_VENDOR_ID : Z := 0x00.
Definition PCI_COMMAND : Z := 0x04.
Definition PCI_REVISION_ID : Z := 0x08.
Definition PCI_CACHE_LINE_SIZE : Z := 0x0C.
Definition PCI_BASE_ADDRESS_0 : Z := 0x10.
Definition MAX_PCI_DEVICES : Z := 256.

Record pci_device_t : Type := PciDevice {
  bus : Z;
  device : Z;
  function : Z;
  vendor_id : Z;
  device_id : Z;
  class_code : Z;
  subclass : Z;
  prog_if : Z;
}.
Definition no_device : pci_device_t := PciDevice 0 0 0 0 0 0 0 0.

(** The static variables, and the devices behind the ports. *)
Record pci_state (D : Type) : Type := PciState {
  pci_devices : list pci_device_t;
  detected_device_count : Z;
  dev : D;
}.
Arguments PciState {D}.
Arguments pci_devices {D}.
Arguments detected_device_count {D}.
Arguments dev {D}.

Definition pci_get_config_addr (bus device function offset : Z) : Z :=
  Z.lor (Z.lor (Z.lor (Z.lor (Z.shiftl 1 31) (Z.shiftl (Z.land bus 0xFF) 16))
                      (Z.shiftl (Z.land device 0x1F) 11))
               (Z.shiftl (Z.land function 0x07) 8))
        (Z.land offset 0xFC).

Section pci.
Context {D : Type} `{!PortIO32 D}.
Abbreviation K := (M (pci_state D)).

Definition run_dev {A} (m : M D A) : K A :=
  mzoom dev (fun d s => PciState (pci_devices s) (detected_device_count s) d) m.

Definition pci_read_config_dword (bus device function offset : Z) : K Z :=
  let offset := Z.land offset 0xFC in
  run_dev (Ports.outl PCI_CONFIG_ADDR (pci_get_config_addr bus device function offset));;
  run_dev (Ports.inl PCI_CONFIG_DATA).

Definition pci_write_config_dword (bus device function offset value : Z) : K unit :=
  let offset := Z.land offset 0xFC in
  run_dev (Ports.outl PCI_CONFIG_ADDR (pci_get_config_addr bus device function offset));;
  run_dev (Ports.outl PCI_CONFIG_DATA value).

(** Storing a device, if there is room for it. *)
Definition record_device (d : pci_device_t) : K unit :=
  mmodify (fun s =>
    if detected_device_count s <? MAX_PCI_DEVICES
    then PciState (array_set (pci_devices s) (detected_device_count s) d) (detected_device_count s + 1) (dev s)
    else s).

(** The body of the loop over the functions of a device. *)
Definition scan_function (bus device vendor_id function : Z) : K unit :=
  class_rev ← pci_read_config_dword bus device function PCI_REVISION_ID;
  id ← pci_read_config_dword bus device function PCI_VENDOR_ID;
  if id =? 0xFFFFFFFF then mret tt
  else
    record_device
      (PciDevice bus device function (Z.land vendor_id 0xFFFF) (Z.land (Z.shiftr vendor_id 16) 0xFFFF)
         (Z.land (Z.shiftr class_rev 24) 0xFF) (Z.land (Z.shiftr class_rev 16) 0xFF)
         (Z.land (Z.shiftr class_rev 8) 0xFF)).

(** The body of the loop over the devices of a bus. *)
Definition scan_device (bus device : Z) : K unit :=
  vendor_id ← pci_read_config_dword bus device 0 PCI_VENDOR_ID;
  if vendor_id =? 0xFFFFFFFF then mret tt
  else
    r ← pci_read_config_dword bus device 0 PCI_CACHE_LINE_SIZE;
    let header_type := Z.shiftr r 16 in
    let max_functions := if truthy (Z.land header_type 0x80) then 8%nat else 1%nat in
    mfor max_functions 0 (scan_function bus device vendor_id).

Definition pci_scan_bus (bus : Z) : K unit := mfor 32 0 (scan_device bus).

Definition pci_init : K unit :=
  mmodify (fun s => PciState (pci_devices s) 0 (dev s));;
  mfor 256 0 pci_scan_bus.

(** The loop of [pci_find_device_by_class]; [None] for [false]. *)
Definition pci_find_device_by_class (class sub : Z) : K (option pci_device_t) :=
  mgets (fun s =>
    snd <$> list_find (fun d => class_code d = class /\ subclass d = sub)
              (take (Z.to_nat (detected_device_count s)) (pci_devices s))).

Definition pci_get_bar (d : pci_device_t) (bar_index : Z) : K Z :=
  if 5 <? bar_index then mret 0
  else
    let bar_offset := u8 (PCI_BASE_ADDRESS_0 + bar_index * 4) in
    bar_low ← pci_read_config_dword (bus d) (device d) (function d) bar_offset;
    if (bar_index <? 5) && truthy (Z.land bar_low 0x04) then
      bar_high ← pci_read_config_dword (bus d) (device d) (function d) (u8 (bar_offset + 4));
      mret (Z.lor (Z.shiftl bar_high 32) (Z.land bar_low 0xFFFFFFF0))
    else mret (Z.land bar_low 0xFFFFFFF0).
End pci.
End Pci.
