(* ===== verification/PciSpec.v ===== *)
(** Correctness of drivers/pci/pci.c against the configuration mechanism of the
    host bridge: the scan finds every function that answers, in order, and the
    queries return what the configuration space holds. *)
From S2P Require Import Prelude Interrupts Ports Wp Pci.
Import Pci.

(** The configuration mechanism: the address port selects a register of the
    configuration space, the data port reads it. *)
Class PciHost (D : Type) `{PortIO32 D} : Type := {
  pci_config : D -> Z -> Z;
  pci_selected : D -> Z;
  pci_config_range d a : 0 <= pci_config d a < 2 ^ 32;
  pci_select d a :
    pci_selected (port_out32 PCI_CONFIG_ADDR a d) = a /\
    forall a', pci_config (port_out32 PCI_CONFIG_ADDR a d) a' = pci_config d a';
  pci_data d v d' :
    port_in32 PCI_CONFIG_DATA d = (v, d') ->
    v = pci_config d (pci_selected d) /\ forall a', pci_config d' a' = pci_config d a';
}.

Lemma shifted_field_range x n k : 0 <= n -> 0 <= k -> n + k <= 32 -> 0 <= Z.shiftl (Z.land x (Z.ones n)) k < 2 ^ 32.
Proof.
  intros Hn Hk Hnk. rewrite Z.land_ones, Z.shiftl_mul_pow2 by lia.
  pose proof (Z.mod_pos_bound x (2 ^ n) ltac:(lia)) as Hm.
  assert (2 ^ n * 2 ^ k <= 2 ^ 32) by (rewrite <- Z.pow_add_r by lia; apply Z.pow_le_mono_r; lia).
  assert (0 < 2 ^ k) by lia. nia.
Qed.

Lemma config_addr_range b d f reg : 0 <= pci_get_config_addr b d f reg < 2 ^ 32.
Proof.
  unfold pci_get_config_addr. repeat apply lor_range; try lia.
  - change (Z.shiftl 1 31) with (2 ^ 31). lia.
  - change 0xFF with (Z.ones 8). apply shifted_field_range; lia.
  - change 0x1F with (Z.ones 5). apply shifted_field_range; lia.
  - change 0x07 with (Z.ones 3). apply shifted_field_range; lia.
  - rewrite Z.land_comm. apply (land_range_l 32); lia.
Qed.

Lemma low_bits_cleared x : 0 <= x < 2 ^ 32 -> Z.land x 0xFFFFFFF0 = x - x mod 16.
Proof. intros Hx. change 0xFFFFFFF0 with (u32 (Z.lnot (2 ^ 4 - 1))). by rewrite (land_mask_align x 4 32) by lia. Qed.

Lemma lor_high hi lo : 0 <= lo < 2 ^ 32 -> Z.lor (Z.shiftl hi 32) lo = hi * 2 ^ 32 + lo.
Proof.
  intros Hlo. pose proof (Z.add_lor_land (Z.shiftl hi 32) lo) as Hadd.
  assert (Z.land (Z.shiftl hi 32) lo = 0) as H0.
  { apply Z.bits_inj'. intros i Hi. rewrite Z.land_spec, Z.bits_0.
    destruct (Z.ltb_spec i 32); [by rewrite Z.shiftl_spec_low|]. by rewrite (testbit_high lo 32), andb_false_r by lia. }
  rewrite Z.shiftl_mul_pow2 in * by lia. lia.
Qed.

(** ** What the scan finds *)

Section scan.
Variable cfg : Z -> Z.

Definition config (b d f reg : Z) : Z := cfg (pci_get_config_addr b d f reg).

Definition present (b d f : Z) : bool := negb (config b d f PCI_VENDOR_ID =? 0xFFFFFFFF).
Definition multifunction (b d : Z) : bool := Z.testbit (config b d 0 PCI_CACHE_LINE_SIZE) 23.

(** The record of a function; the identifiers are those of function 0. *)
Definition found_device (b d f : Z) : pci_device_t :=
  let id := config b d 0 PCI_VENDOR_ID in
  let class_rev := config b d f PCI_REVISION_ID in
  PciDevice b d f (Z.land id 0xFFFF) (Z.land (Z.shiftr id 16) 0xFFFF)
    (Z.land (Z.shiftr class_rev 24) 0xFF) (Z.land (Z.shiftr class_rev 16) 0xFF)
    (Z.land (Z.shiftr class_rev 8) 0xFF).

Definition found_function (b d f : Z) : list pci_device_t :=
  if present b d f then [found_device b d f] else [].
Definition found_on_device (b d : Z) : list pci_device_t :=
  if present b d 0 then
    flat_map (found_function b d) (seqZ 0 (if multifunction b d then 8 else 1))
  else [].
Definition found_on_bus (b : Z) : list pci_device_t := flat_map (found_on_device b) (seqZ 0 32).
Definition found_devices : list pci_device_t := flat_map found_on_bus (seqZ 0 256).
End scan.

Lemma multifunction_bit v : truthy (Z.land (Z.shiftr v 16) 0x80) = Z.testbit v 23.
Proof.
  unfold truthy. change 0x80 with (Z.shiftl 1 7). rewrite land_pow2_testbit, negb_involutive by lia.
  by rewrite Z.shiftr_spec by lia.
Qed.

Section spec.
Context {D : Type} `{PciHost D}.
Abbreviation state := (pci_state D).
Implicit Types s : state.

Variable cfg : Z -> Z.

(** The table holds the first 256 devices of a list, and the configuration
    space is [cfg]. *)
Record holds (ds : list pci_device_t) s : Prop := {
  holds_config a : pci_config (dev s) a = cfg a;
  holds_length : length (pci_devices s) = 256%nat;
  holds_count : detected_device_count s = Z.min 256 (Z.of_nat (length ds));
  holds_devices : take (Z.to_nat (detected_device_count s)) (pci_devices s) = take 256 ds;
}.

Lemma read_config_eq b d f reg s :
  Z.land reg 0xFC = reg ->
  exists dv, pci_read_config_dword b d f reg s =
    (Ret (config (pci_config (dev s)) b d f reg), PciState (pci_devices s) (detected_device_count s) dv) /\
    forall a, pci_config dv a = pci_config (dev s) a.
Proof.
  intros Hreg. unfold pci_read_config_dword. rewrite Hreg.
  set (a := pci_get_config_addr b d f reg).
  destruct (pci_select (dev s) (u32 a)) as [Hsel Hcfg].
  unfold mbind, m_bind, run_dev, mzoom, Ports.outl, Ports.inl, mlift, mmodify. cbn [dev pci_devices detected_device_count].
  destruct (port_in32 _ _) as [v dv] eqn:Hin. destruct (pci_data _ _ _ Hin) as [-> Hsame].
  exists dv. rewrite Hsel, Hcfg. rewrite (wrap_small 32 (pci_config _ _)) by apply pci_config_range.
  rewrite (wrap_small 32 a) by apply config_addr_range. split; [done|]. intros a'. by rewrite Hsame, Hcfg.
Qed.

Lemma wp_read_config b d f reg ds s (Q : Z -> state -> Prop) :
  Z.land reg 0xFC = reg -> holds ds s ->
  (forall s', holds ds s' -> Q (config cfg b d f reg) s') ->
  wp (pci_read_config_dword b d f reg) s Q.
Proof.
  intros Hreg [Hc Hl Hn Ht] HQ. destruct (read_config_eq b d f reg s Hreg) as (dv & Hrun & Hdv).
  unfold wp. rewrite Hrun. replace (config (pci_config (dev s)) b d f reg) with (config cfg b d f reg) by (symmetry; apply Hc).
  apply HQ. constructor; [|done..]. intros a. cbn [dev]. by rewrite Hdv.
Qed.

(** ** The scan *)

(** A loop whose rounds append [g j] to the list the table holds. *)
Lemma wp_scan_loop (g : Z -> list pci_device_t) n body : forall i ds s,
  holds ds s ->
  (forall j ds' s', i <= j < i + Z.of_nat n -> holds ds' s' -> wp (body j) s' (fun _ s'' => holds (ds' ++ g j) s'')) ->
  wp (mfor n i body) s (fun _ s' => holds (ds ++ flat_map g (seqZ i (Z.of_nat n))) s').
Proof.
  induction n as [|n IH]; intros i ds s Hds Hbody.
  { apply wp_ret. by rewrite app_nil_r. }
  cbn [mfor]. wp_rule. eapply wp_mono; [apply Hbody; [lia|done]|cbv beta].
  intros _ s1 H1. rewrite seqZ_cons by lia. cbn [flat_map]. rewrite app_assoc.
  replace (Z.pred (Z.of_nat (Datatypes.S n))) with (Z.of_nat n) by lia. replace (Z.succ i) with (i + 1) by lia.
  apply IH; [done|]. intros j ds' s' Hj. apply Hbody. lia.
Qed.

Lemma wp_record ds s d : holds ds s -> wp (record_device d) s (fun _ s' => holds (ds ++ [d]) s').
Proof.
  intros [Hcfg Hl Hc Ht]. apply wp_modify. unfold MAX_PCI_DEVICES.
  destruct (Z.ltb_spec (detected_device_count s) 256) as [Hlt|Hge].
  - assert (Z.to_nat (detected_device_count s) = length ds) as Hn by lia. rewrite Hn in Ht.
    constructor; cbn [pci_devices detected_device_count dev]; [done| | |].
    + unfold array_set. by rewrite length_insert.
    + rewrite length_app. cbn. lia.
    + replace (Z.to_nat (detected_device_count s + 1)) with (S (length ds)) by lia.
      unfold array_set. rewrite Hn. rewrite (take_S_r _ _ d) by (apply list_lookup_insert_eq; lia).
      rewrite take_insert_ge by lia. rewrite Ht.
      rewrite !take_ge by (rewrite ?length_app; cbn; lia). done.
  - constructor; [done|done|rewrite length_app; lia|]. rewrite Ht, take_app_le; [done|lia].
Qed.

Lemma wp_scan_function b d f ds s :
  holds ds s ->
  wp (scan_function b d (config cfg b d 0 PCI_VENDOR_ID) f) s (fun _ s' => holds (ds ++ found_function cfg b d f) s').
Proof.
  intros Hds. unfold scan_function. wp_rule. eapply wp_read_config; [done|done|]. intros s1 H1.
  wp_rule. eapply wp_read_config; [done|done|]. intros s2 H2. unfold found_function, present.
  destruct (_ =? _); cbn [negb]; [apply wp_ret; by rewrite app_nil_r|]. by apply wp_record.
Qed.

Lemma wp_scan_device b d ds s :
  holds ds s -> wp (scan_device b d) s (fun _ s' => holds (ds ++ found_on_device cfg b d) s').
Proof.
  intros Hds. unfold scan_device. wp_rule. eapply wp_read_config; [done|done|]. intros s1 H1.
  unfold found_on_device, present. destruct (_ =? _); cbn [negb]; [apply wp_ret; by rewrite app_nil_r|].
  wp_rule. eapply wp_read_config; [done|done|]. intros s2 H2. cbv zeta. rewrite multifunction_bit. fold (multifunction cfg b d).
  replace (if multifunction cfg b d then 8 else 1) with (Z.of_nat (if multifunction cfg b d then 8%nat else 1%nat))
    by (by destruct (multifunction cfg b d)).
  apply wp_scan_loop; [done|]. intros f ds' s' _ H'. by apply wp_scan_function.
Qed.

Lemma wp_scan_bus b ds s : holds ds s -> wp (pci_scan_bus b) s (fun _ s' => holds (ds ++ found_on_bus cfg b) s').
Proof. intros Hds. apply (wp_scan_loop (found_on_device cfg b) 32); [done|]. intros d ds' s' _. apply wp_scan_device. Qed.

Lemma wp_pci_init s :
  (forall a, pci_config (dev s) a = cfg a) -> length (pci_devices s) = 256%nat ->
  wp pci_init s (fun _ s' => holds (found_devices cfg) s').
Proof.
  intros Hc Hl. unfold pci_init. do 2 wp_rule.
  apply (wp_scan_loop (found_on_bus cfg) 256 _ 0 []).
  - by constructor.
  - intros b ds s' _. apply wp_scan_bus.
Qed.
End spec.

Section theorems.
Context {D : Type} `{PciHost D}.
Implicit Types s : pci_state D.

(** C21: The bus scan.  [pci_init] returns; afterwards the table holds the functions
    of the configuration space that answer, in the order of bus, device and
    function, up to the 256 there is room for; a function other than 0 is
    looked at only on a device whose header says it has several.  A search
    returns the first device of the class, and fails exactly if the table has
    none. *)
Theorem pci_scan_finds_functions s class sub :
  length (pci_devices s) = 256%nat ->
  let found := take 256 (found_devices (pci_config (dev s))) in
  exists s', pci_init s = (Ret tt, s') /\
    detected_device_count s' = Z.of_nat (length found) /\
    (forall i, 0 <= i < detected_device_count s' -> pci_devices s' !! Z.to_nat i = found !! Z.to_nat i) /\
    pci_find_device_by_class class sub s' =
      (Ret (snd <$> list_find (fun d => class_code d = class /\ subclass d = sub) found), s').
Proof.
  intros Hl found. destruct (proj1 (wp_run _ _ _) (wp_pci_init (pci_config (dev s)) s (fun _ => eq_refl) Hl))
    as ([] & s' & Hrun & [_ Hl' Hc Ht]).
  exists s'. split; [done|]. subst found. split_and!.
  - rewrite length_take. lia.
  - intros i Hi. rewrite <- Ht. symmetry. apply lookup_take_lt. lia.
  - unfold pci_find_device_by_class, mgets. by rewrite Ht.
Qed.

(** A base address register: the query reads a 32-bit register, or two for the
    64-bit kind, and masks the flag bits; an index above 5 gives zero. *)
Theorem pci_get_bar_reads_registers s d bar :
  0 <= bar ->
  let reg k := config (pci_config (dev s)) (bus d) (device d) (function d) (PCI_BASE_ADDRESS_0 + 4 * k) in
  exists v s', pci_get_bar d bar s = (Ret v, s') /\ (forall a, pci_config (dev s') a = pci_config (dev s) a) /\
    (5 < bar -> v = 0) /\
    (bar <= 5 -> v = (reg bar - reg bar mod 16) + (if (bar <? 5) && Z.testbit (reg bar) 2 then reg (bar + 1) * 2 ^ 32 else 0)).
Proof.
  intros Hbar reg. unfold pci_get_bar. destruct (Z.ltb_spec 5 bar) as [Hgt|Hle].
  { exists 0, s. by split_and!; [..|lia]. }
  rewrite (wrap_small 8 (PCI_BASE_ADDRESS_0 + bar * 4)) by (unfold PCI_BASE_ADDRESS_0; lia).
  replace (PCI_BASE_ADDRESS_0 + bar * 4) with (PCI_BASE_ADDRESS_0 + 4 * bar) by lia.
  assert (forall k, 0 <= k <= 6 -> Z.land (PCI_BASE_ADDRESS_0 + 4 * k) 0xFC = PCI_BASE_ADDRESS_0 + 4 * k) as Hreg.
  { intros k Hk. assert (k = 0 \/ k = 1 \/ k = 2 \/ k = 3 \/ k = 4 \/ k = 5 \/ k = 6) as Hcases by lia.
    repeat destruct Hcases as [->|Hcases]; try subst k; reflexivity. }
  destruct (read_config_eq (bus d) (device d) (function d) (PCI_BASE_ADDRESS_0 + 4 * bar) s (Hreg bar ltac:(lia)))
    as (d1 & Hrun1 & Hd1).
  cbv zeta. erewrite run_bind by apply Hrun1. fold (reg bar).
  pose proof (pci_config_range (dev s) (pci_get_config_addr (bus d) (device d) (function d) (PCI_BASE_ADDRESS_0 + 4 * bar))) as Hr.
  fold (config (pci_config (dev s)) (bus d) (device d) (function d) (PCI_BASE_ADDRESS_0 + 4 * bar)) in Hr. fold (reg bar) in Hr.
  rewrite low_bits_cleared by done. unfold truthy. change 4 with (Z.shiftl 1 2). rewrite land_pow2_testbit, negb_involutive by lia.
  destruct ((bar <? 5) && Z.testbit (reg bar) 2) eqn:H64; cycle 1.
  { eexists _, _. split; [reflexivity|]. split; [exact Hd1|]. lia. }
  apply andb_prop in H64 as [Hlt _]. apply Z.ltb_lt in Hlt. change (Z.shiftl 1 2) with 4.
  rewrite (wrap_small 8) by (unfold PCI_BASE_ADDRESS_0; lia).
  replace (PCI_BASE_ADDRESS_0 + 4 * bar + 4) with (PCI_BASE_ADDRESS_0 + 4 * (bar + 1)) by lia.
  destruct (read_config_eq (bus d) (device d) (function d) (PCI_BASE_ADDRESS_0 + 4 * (bar + 1))
    (PciState (pci_devices s) (detected_device_count s) d1) (Hreg (bar + 1) ltac:(lia))) as (d2 & Hrun2 & Hd2).
  erewrite run_bind by apply Hrun2. eexists _, _. split; [reflexivity|]. cbn [dev] in *.
  split; [intros a; by rewrite Hd2, Hd1|]. split; [lia|]. intros _.
  assert (config (pci_config d1) (bus d) (device d) (function d) (PCI_BASE_ADDRESS_0 + 4 * (bar + 1)) = reg (bar + 1)) as ->
    by apply Hd1.
  rewrite lor_high by (pose proof (Z.mod_pos_bound (reg bar) 16 ltac:(lia)); pose proof (Z.mod_le (reg bar) 16); lia). lia.
Qed.
End theorems.

(** ** A host bridge with a table of registers *)

Record table_host : Type := TableHost { th_config : gmap Z Z; th_selected : Z }.

#[export] Instance table_host_ports : PortIO32 table_host := {
  port_in32 p d := (if p =? PCI_CONFIG_DATA then u32 (default 0xFFFFFFFF (th_config d !! th_selected d)) else 0, d);
  port_out32 p v d := if p =? PCI_CONFIG_ADDR then TableHost (th_config d) v else d;
}.

#[export] Program Instance table_host_spec : PciHost table_host := {
  pci_config d a := u32 (default 0xFFFFFFFF (th_config d !! a));
  pci_selected := th_selected;
}.
Next Obligation. intros. apply wrap_range. lia. Qed.
Next Obligation. done. Qed.
Next Obligation. by intros d v d' [= <- <-]. Qed.

(** A disk controller with two functions at device 1 of bus 0, and a 64-bit
    register. *)
Definition example_host : table_host :=
  TableHost
    (<[pci_get_config_addr 0 1 0 0 := 0x12348086]> (<[pci_get_config_addr 0 1 0 8 := 0x06010000]>
    (<[pci_get_config_addr 0 1 0 12 := 0x00800000]> (<[pci_get_config_addr 0 1 1 0 := 0x70108086]>
    (<[pci_get_config_addr 0 1 1 8 := 0x01018000]> (<[pci_get_config_addr 0 1 1 0x10 := 0xFEBC0004]>
    (<[pci_get_config_addr 0 1 1 0x14 := 0x1]> ∅))))))) 0.
Definition example_pci : pci_state table_host := PciState (replicate 256 no_device) 0 example_host.

Lemma pci_scan_finds_functions_witness :
  exists s', pci_init example_pci = (Ret tt, s') /\ detected_device_count s' = 2 /\
    pci_find_device_by_class 1 1 s' = (Ret (Some (PciDevice 0 1 1 0x8086 0x1234 1 1 0x80)), s').
Proof.
  destruct (pci_scan_finds_functions example_pci 1 1 ltac:(reflexivity)) as (s' & Hrun & Hcount & _ & Hfind).
  exists s'. split; [exact Hrun|]. split; [rewrite Hcount; vm_compute; reflexivity|].
  rewrite Hfind. reflexivity.
Defined.

Lemma pci_get_bar_reads_registers_witness :
  exists s', pci_get_bar (PciDevice 0 1 1 0x8086 0x1234 1 1 0x80) 0 example_pci = (Ret (0x1FEBC0000), s').
Proof.
  destruct (pci_get_bar_reads_registers example_pci (PciDevice 0 1 1 0x8086 0x1234 1 1 0x80) 0 ltac:(lia))
    as (v & s' & Hrun & _ & _ & Hv).
  exists s'. rewrite Hrun, (Hv ltac:(lia)). do 2 f_equal.
Defined.
