(* ===== verification/Ata.v ===== *)
(** The ATA disk driver, drivers/ata/ata.c: detection of the drives and
    programmed input and output of sectors, over the ports of Ports.v and the
    PCI driver of Pci.v.  Logging, the delay loops and the table that
    [ata_print_info] prints are left out. *)
From S2P Require Import Prelude Bytes Interrupts Ports Pci.
Import Pci.

Module Ata.

Definition ATA_MAX_DRIVES : Z := 8.
Definition ATA_PRIMARY_DATA : Z := 0x1F0.
Definition ATA_PRIMARY_STATUS : Z := 0x1F7.
Definition ATA_SECONDARY_DATA : Z := 0x170.
Definition ATA_SECONDARY_STATUS : Z := 0x177.
Definition ATA_PRIMARY_CONTROL : Z := 0x3F6.
Definition ATA_SECONDARY_CONTROL : Z := 0x376.
Definition ATA_CMD_READ_PIO : Z := 0x20.
Definition ATA_CMD_WRITE_PIO : Z := 0x30.
Definition ATA_CMD_IDENTIFY : Z := 0xEC.
Definition ATA_CMD_CACHE_FLUSH : Z := 0xE7.
Definition ATA_STATUS_ERR : Z := 0x01.
Definition ATA_STATUS_DRQ : Z := 0x08.
Definition ATA_STATUS_DF : Z := 0x20.
Definition ATA_STATUS_BSY : Z := 0x80.
Definition ATA_CONTROL_SRST : Z := 0x04.
Definition ATA_DEVICE_MASTER : Z := 0x00.
Definition ATA_DEVICE_SLAVE : Z := 0x10.
Definition ATA_DEVICE_LBA : Z := 0x40.
Definition ATA_TIMEOUT : nat := 1000.
Definition DRIVE_TYPE_PATA : Z := 0x01.
Definition DRIVE_TYPE_SATA : Z := 0x02.

Record ata_drive_t : Type := Drive {
  type : Z;
  signature : Z;
  capabilities : Z;
  command_sets : Z;
  size : Z;
  model : list Z;
  serial : list Z;
  cylinders : Z;
  heads : Z;
  sectors : Z;
}.
Definition no_drive : ata_drive_t := Drive 0 0 0 0 0 (replicate 41 0) (replicate 21 0) 0 0 0.

(** The static variables of ata.c and of pci.c, and the devices. *)
Record ata_state (D : Type) : Type := AtaState {
  detected_drives : list ata_drive_t;
  drive_count : Z;
  pci : pci_state D;
}.
Arguments AtaState {D}.
Arguments detected_drives {D}.
Arguments drive_count {D}.
Arguments pci {D}.

Definition ata_get_data_port (drive_idx : Z) : Z :=
  if drive_idx <? 2 then ATA_PRIMARY_DATA else ATA_SECONDARY_DATA.
Definition ata_is_master (drive_idx : Z) : bool := drive_idx mod 2 =? 0.
Definition device_bit (master : bool) : Z := if master then ATA_DEVICE_MASTER else ATA_DEVICE_SLAVE.

(** The two loops of [ata_extract_string]: the words with their bytes swapped,
    and spaces turned into NULs from the end up to the first other byte. *)
Definition swap_words (src : list Z) : list Z :=
  flat_map (fun w => [Z.land (Z.shiftr w 8) 0xFF; Z.land w 0xFF]) src.
Fixpoint trim_end (l : list Z) : list Z :=
  match l with
  | [] => []
  | c :: l => if c =? 32 then 0 :: trim_end l else if c =? 0 then 0 :: trim_end l else c :: l
  end.
Definition ata_extract_string (src : list Z) (length : nat) : list Z :=
  reverse (trim_end (reverse (swap_words (take (length / 2) src)))).

(** The copy of a string of [n] bytes into a field of [n + 1] bytes: it stops
    behind the first NUL, and the last byte is set to NUL. *)
Fixpoint copy_string (src dst : list Z) : list Z :=
  match src, dst with
  | c :: src, _ :: dst => c :: (if c =? 0 then dst else copy_string src dst)
  | _, _ => dst
  end.
Definition store_string (n : nat) (src dst : list Z) : list Z := <[n := 0]> (copy_string src dst).

(** The fields [ata_detect_drive] sets from the 256 words of IDENTIFY. *)
Definition identify (id : list Z) (drive_type lba_mid lba_high : Z) (old : ata_drive_t) : ata_drive_t :=
  let word i := array_get 0 id i in
  Drive drive_type (Z.lor (Z.shiftl lba_high 8) lba_mid) (word 49) (word 83)
    (if truthy (Z.land (word 83) (Z.shiftl 1 10))
     then Z.lor (Z.shiftl (word 101) 16) (word 100)
     else Z.lor (Z.shiftl (word 61) 16) (word 60))
    (store_string 40 (ata_extract_string (drop 27 id) 40) (model old))
    (store_string 20 (ata_extract_string (drop 10 id) 20) (serial old))
    (word 1) (word 3) (word 6).

Section ata.
Context {D : Type} `{!PortIO D, !PortIO16 D, !PortIO32 D}.
Abbreviation K := (M (ata_state D)).

Definition run_pci {A} (m : M (pci_state D) A) : K A :=
  mzoom pci (fun p s => AtaState (detected_drives s) (drive_count s) p) m.
Definition inb (port : Z) : K Z := run_pci (run_dev (Ports.inb port)).
Definition outb (port v : Z) : K unit := run_pci (run_dev (Ports.outb port v)).
Definition inw (port : Z) : K Z := run_pci (run_dev (Ports.inw port)).
Definition outw (port v : Z) : K unit := run_pci (run_dev (Ports.outw port v)).

(** ** Waiting *)

(** The polling loops make at most [n] rounds. *)
Fixpoint ata_wait_not_busy (port : Z) (n : nat) : K bool :=
  match n with
  | O => mret false
  | S n =>
      status ← inb port;
      if negb (truthy (Z.land status ATA_STATUS_BSY)) then mret true else ata_wait_not_busy port n
  end.

Fixpoint ata_wait_drq (port : Z) (n : nat) : K bool :=
  match n with
  | O => mret false
  | S n =>
      status ← inb port;
      if truthy (Z.land status ATA_STATUS_ERR) then _ ← inb (port - 7); mret false
      else if (status =? 0) || (status =? 0xFF) then mret false
      else if truthy (Z.land status ATA_STATUS_DF) then mret false
      else if negb (truthy (Z.land status ATA_STATUS_BSY)) && truthy (Z.land status ATA_STATUS_DRQ)
      then mret true
      else ata_wait_drq port n
  end.

Definition ata_400ns_delay (port : Z) : K unit := mfor 4 0 (fun _ => _ ← inb (port + 7); mret tt).

Definition ata_software_reset (control_port : Z) : K unit :=
  outb control_port ATA_CONTROL_SRST;;
  outb control_port 0;;
  let status_port := if control_port =? ATA_PRIMARY_CONTROL then ATA_PRIMARY_STATUS else ATA_SECONDARY_STATUS in
  _ ← ata_wait_not_busy status_port 100;
  mret tt.

(** ** Words *)

Fixpoint read_words (port : Z) (n : nat) : K (list Z) :=
  match n with
  | O => mret []
  | S n => w ← inw port; ws ← read_words port n; mret (w :: ws)
  end.
Fixpoint write_words (port : Z) (ws : list Z) : K unit :=
  match ws with
  | [] => mret tt
  | w :: ws => outw port w;; write_words port ws
  end.

(** The bytes of a buffer of words, and the words of a buffer of bytes. *)
Definition word_bytes (ws : list Z) : list Z := flat_map (le 2) ws.
Fixpoint bytes_words (l : list Z) : list Z :=
  match l with
  | a :: b :: l => un_le [a; b] :: bytes_words l
  | _ => []
  end.

(** ** Detection *)

Definition drive_at (i : Z) (s : ata_state D) : ata_drive_t := array_get no_drive (detected_drives s) i.

(** The type by the signature; [None] where the function returns. *)
Definition classify (status lba_mid lba_high : Z) : option Z :=
  if (status =? 0) || (status =? 0xFF) then None
  else if (lba_mid =? 0x14) && (lba_high =? 0xEB) then None
  else if (lba_mid =? 0x3C) && (lba_high =? 0xC3) then Some DRIVE_TYPE_SATA
  else if (lba_mid =? 0) && (lba_high =? 0) then Some DRIVE_TYPE_PATA
  else if Z.land status (Z.lor ATA_STATUS_BSY ATA_STATUS_DRQ) =? ATA_STATUS_DRQ then Some DRIVE_TYPE_PATA
  else None.

Definition ata_detect_drive (base control : Z) (master : bool) : K unit :=
  count ← mgets drive_count;
  if ATA_MAX_DRIVES <=? count then mret tt
  else
    ata_software_reset control;;
    outb (base + 6) (Z.lor (device_bit master) ATA_DEVICE_LBA);;
    ata_400ns_delay base;;
    outb (base + 7) ATA_CMD_IDENTIFY;;
    ata_400ns_delay base;;
    status ← inb (base + 7);
    if status =? 0 then mret tt
    else
      ok ← ata_wait_not_busy (base + 7) ATA_TIMEOUT;
      if negb ok then mret tt
      else
        lba_mid ← inb (base + 4);
        lba_high ← inb (base + 5);
        match classify status lba_mid lba_high with
        | None => mret tt
        | Some drive_type =>
            ok ← ata_wait_drq (base + 7) ATA_TIMEOUT;
            if negb ok then mret tt
            else
              id ← read_words base 256;
              mmodify (fun s =>
                AtaState (array_set (detected_drives s) (drive_count s)
                            (identify id drive_type lba_mid lba_high (drive_at (drive_count s) s)))
                  (drive_count s + 1) (pci s))
        end.

(** The search for a controller: SATA, or else IDE; the I/O space and bus
    mastering of one that is found are enabled. *)
Definition setup_controller : K unit :=
  run_pci pci_init;;
  sata ← run_pci (pci_find_device_by_class 0x01 0x06);
  controller ← match sata with
               | Some c => mret (Some c)
               | None => run_pci (pci_find_device_by_class 0x01 0x01)
               end;
  match controller with
  | None => mret tt
  | Some c =>
      command ← run_pci (pci_read_config_dword (bus c) (device c) (function c) PCI_COMMAND);
      run_pci (pci_write_config_dword (bus c) (device c) (function c) PCI_COMMAND (Z.lor command 0x5));;
      _ ← run_pci (pci_get_bar c 4);
      mret tt
  end.

Definition ata_init : K unit :=
  mmodify (fun s => AtaState (replicate (Z.to_nat ATA_MAX_DRIVES) no_drive) 0 (pci s));;
  setup_controller;;
  ata_detect_drive ATA_PRIMARY_DATA ATA_PRIMARY_CONTROL true;;
  ata_detect_drive ATA_PRIMARY_DATA ATA_PRIMARY_CONTROL false;;
  ata_detect_drive ATA_SECONDARY_DATA ATA_SECONDARY_CONTROL true;;
  ata_detect_drive ATA_SECONDARY_DATA ATA_SECONDARY_CONTROL false.

(** ** Queries *)

Definition ata_drive_present (drive_index : Z) (s : ata_state D) : bool :=
  if drive_count s <=? drive_index then false else negb (type (drive_at drive_index s) =? 0).

Definition ata_get_drive_info (drive_index : Z) (s : ata_state D) : option ata_drive_t :=
  if drive_count s <=? drive_index then None else Some (drive_at drive_index s).

(** ** Transfer *)

(** The registers for a transfer, and the command: the same lines in
    [ata_read_sectors] and [ata_write_sectors]. *)
Definition send_command (drive_index lba count command : Z) : K unit :=
  let data_port := ata_get_data_port drive_index in
  outb (data_port + 6)
    (Z.lor (Z.lor (device_bit (ata_is_master drive_index)) ATA_DEVICE_LBA) (Z.land (Z.shiftr lba 24) 0x0F));;
  outb (data_port + 1) 0;;
  outb (data_port + 2) count;;
  outb (data_port + 3) (Z.land lba 0xFF);;
  outb (data_port + 4) (Z.land (Z.shiftr lba 8) 0xFF);;
  outb (data_port + 5) (Z.land (Z.shiftr lba 16) 0xFF);;
  outb (data_port + 7) command.

(** The loop over the sectors: the result, and the words stored in the buffer. *)
Fixpoint read_loop (data_port : Z) (n : nat) : K (bool * list Z) :=
  match n with
  | O => mret (true, [])
  | S n =>
      ok ← ata_wait_drq (data_port + 7) ATA_TIMEOUT;
      if negb ok then mret (false, [])
      else
        ws ← read_words data_port 256;
        r ← read_loop data_port n;
        mret (fst r, ws ++ snd r)
  end.

(** The result, and the bytes stored from the start of the buffer on. *)
Definition ata_read_sectors (drive_index lba count : Z) : K (bool * list Z) :=
  s ← mget;
  if negb (ata_drive_present drive_index s) || (count =? 0) then mret (false, [])
  else
    let data_port := ata_get_data_port drive_index in
    ok ← ata_wait_not_busy (data_port + 7) ATA_TIMEOUT;
    if negb ok then mret (false, [])
    else
      send_command drive_index lba count ATA_CMD_READ_PIO;;
      r ← read_loop data_port (Z.to_nat count);
      mret (fst r, word_bytes (snd r)).

Fixpoint write_loop (data_port : Z) (n : nat) (buf : list Z) : K bool :=
  match n with
  | O => mret true
  | S n =>
      ok ← ata_wait_drq (data_port + 7) ATA_TIMEOUT;
      if negb ok then mret false
      else
        write_words data_port (take 256 buf);;
        outb (data_port + 7) ATA_CMD_CACHE_FLUSH;;
        ok ← ata_wait_not_busy (data_port + 7) ATA_TIMEOUT;
        if negb ok then mret false else write_loop data_port n (drop 256 buf)
  end.

(** [buffer]: the [512 * count] bytes to be written. *)
Definition ata_write_sectors (drive_index lba count : Z) (buffer : list Z) : K bool :=
  s ← mget;
  if negb (ata_drive_present drive_index s) || (count =? 0) then mret false
  else
    let data_port := ata_get_data_port drive_index in
    ok ← ata_wait_not_busy (data_port + 7) ATA_TIMEOUT;
    if negb ok then mret false
    else
      send_command drive_index lba count ATA_CMD_WRITE_PIO;;
      write_loop data_port (Z.to_nat count) (bytes_words buffer).

Definition ata_flush_cache (drive_index : Z) : K bool :=
  s ← mget;
  if negb (ata_drive_present drive_index s) then mret false
  else
    let data_port := ata_get_data_port drive_index in
    ok ← ata_wait_not_busy (data_port + 7) ATA_TIMEOUT;
    if negb ok then mret false
    else
      outb (data_port + 6) (Z.lor (device_bit (ata_is_master drive_index)) ATA_DEVICE_LBA);;
      outb (data_port + 7) ATA_CMD_CACHE_FLUSH;;
      ata_wait_not_busy (data_port + 7) ATA_TIMEOUT.
End ata.
End Ata.
