(* ===== verification/AtaSpec.v ===== *)
(** Correctness of the transfers of drivers/ata/ata.c against the programmed
    input/output protocol of an ATA channel, and the driver as an
    implementation of the disk interface of BlockDevice.v. *)
From S2P Require Import Prelude Bytes Wp Interrupts Ports Pci Ata BlockDevice.
Import Pci Ata.

(** ** The protocol of a channel *)

(** The command block registers. *)
Record registers : Type := Registers { r_count : Z; r_low : Z; r_mid : Z; r_high : Z; r_head : Z }.

Definition set_register (r v : Z) (c : registers) : registers :=
  if r =? 2 then Registers v (r_low c) (r_mid c) (r_high c) (r_head c)
  else if r =? 3 then Registers (r_count c) v (r_mid c) (r_high c) (r_head c)
  else if r =? 4 then Registers (r_count c) (r_low c) v (r_high c) (r_head c)
  else if r =? 5 then Registers (r_count c) (r_low c) (r_mid c) v (r_head c)
  else if r =? 6 then Registers (r_count c) (r_low c) (r_mid c) (r_high c) v
  else c.

(** The 28-bit block address, and the selected drive. *)
Definition r_lba (c : registers) : Z :=
  r_low c + r_mid c * 2 ^ 8 + r_high c * 2 ^ 16 + r_head c mod 16 * 2 ^ 24.
Definition r_slave (c : registers) : bool := Z.testbit (r_head c) 4.
Definition r_use_lba (c : registers) : bool := Z.testbit (r_head c) 6.

(** What the channel is doing: nothing, handing out words, or taking the words
    of [n] sectors from [lba] on, of which it has [ws] of the first. *)
Inductive phase : Type :=
| Idle
| DataIn (ws : list Z)
| DataOut (slave : bool) (lba : Z) (n : nat) (ws : list Z).

(** A channel as its host sees it; [ch_busy] is the number of times that the
    status will still show BSY. *)
Record channel : Type := Channel {
  ch_registers : registers;
  ch_phase : phase;
  ch_busy : nat;
  ch_sector : bool -> Z -> list Z;
}.

Definition same_sectors (c c' : channel) : Prop := forall sl lba, ch_sector c' sl lba = ch_sector c sl lba.

(** The words of [n] sectors. *)
Fixpoint sector_words (c : channel) (sl : bool) (lba : Z) (n : nat) : list Z :=
  match n with
  | O => []
  | S n => bytes_words (ch_sector c sl lba) ++ sector_words c sl (lba + 1) n
  end.

(** A read of the status register. *)
Record status_read (c : channel) (v : Z) (c' : channel) : Prop := {
  sr_busy : ch_busy c' = pred (ch_busy c);
  sr_phase : ch_phase c' = ch_phase c;
  sr_sectors : same_sectors c c';
  sr_bsy : Z.testbit v 7 = bool_decide (ch_busy c <> O);
  sr_data : ch_phase c <> Idle -> Z.testbit v 0 = false /\ Z.testbit v 5 = false /\ v <> 0xFF /\
            (ch_busy c = O -> Z.testbit v 3 = true);
  sr_idle : ch_phase c = Idle -> ch_busy c = O -> Z.testbit v 3 = false;
}.

(** A command, written to an idle channel: READ SECTORS hands out the sectors
    the registers name, WRITE SECTORS takes them, and either may be aborted;
    FLUSH CACHE ends without data. *)
Record command_written (c : channel) (cmd : Z) (c' : channel) : Prop := {
  cw_sectors : same_sectors c c';
  cw_read : cmd = ATA_CMD_READ_PIO -> r_use_lba (ch_registers c) = true -> 0 < r_count (ch_registers c) ->
    ch_phase c' = Idle \/
    ch_phase c' = DataIn (sector_words c (r_slave (ch_registers c)) (r_lba (ch_registers c))
                            (Z.to_nat (r_count (ch_registers c))));
  cw_write : cmd = ATA_CMD_WRITE_PIO -> r_use_lba (ch_registers c) = true -> 0 < r_count (ch_registers c) ->
    ch_phase c' = Idle \/
    ch_phase c' = DataOut (r_slave (ch_registers c)) (r_lba (ch_registers c))
                    (Z.to_nat (r_count (ch_registers c))) [];
  cw_flush : cmd = ATA_CMD_CACHE_FLUSH -> ch_phase c' = Idle;
}.

(** A word read from the data register: the channel may be busy again after
    the last word of a sector. *)
Record word_read (c : channel) (ws : list Z) (c' : channel) : Prop := {
  wr_sectors : same_sectors c c';
  wr_phase : ch_phase c' = match ws with [] => Idle | _ => DataIn ws end;
  wr_busy : (length ws mod 256 <> 0)%nat -> ch_busy c' = O;
}.

(** A word written to the data register; the last word of a sector stores it. *)
Record word_written (c : channel) (sl : bool) (lba : Z) (n : nat) (ws : list Z) (c' : channel) : Prop := {
  ww_more : (length ws < 256)%nat ->
    ch_phase c' = DataOut sl lba n ws /\ ch_busy c' = O /\ same_sectors c c';
  ww_last : length ws = 256%nat ->
    ch_phase c' = match n with S (S n) => DataOut sl (lba + 1) (S n) [] | _ => Idle end /\
    ch_sector c' sl lba = word_bytes ws /\
    forall sl' lba', (sl', lba') <> (sl, lba) -> ch_sector c' sl' lba' = ch_sector c sl' lba';
}.

Definition is_base (base : Z) : Prop := base = ATA_PRIMARY_DATA \/ base = ATA_SECONDARY_DATA.

(** Hardware with two such channels.  A channel that works on a command is
    ready again within 999 looks at its status, stores the sectors it has taken,
    and ignores a command written while it is busy, which the driver's FLUSH
    CACHE after the data of a sector can be. *)
Class AtaHardware (D : Type) `{!PortIO D, !PortIO16 D} : Type := {
  hw_ok : D -> Prop;
  hw_channel : D -> Z -> channel;

  hw_busy d base : hw_ok d -> is_base base -> (ch_busy (hw_channel d base) < 1000)%nat;
  hw_sector d base sl lba : hw_ok d -> is_base base -> sector_ok (ch_sector (hw_channel d base) sl lba);

  hw_status d base v d' :
    hw_ok d -> is_base base -> port_in (base + 7) d = (v, d') ->
    hw_ok d' /\ status_read (hw_channel d base) (u8 v) (hw_channel d' base) /\
    (forall b, is_base b -> b <> base -> hw_channel d' b = hw_channel d b);
  hw_data_byte d base v d' :
    hw_ok d -> is_base base -> ch_phase (hw_channel d base) = Idle -> port_in base d = (v, d') ->
    hw_ok d' /\ (forall b, is_base b -> hw_channel d' b = hw_channel d b);
  hw_register d base r v :
    hw_ok d -> is_base base -> 1 <= r <= 6 -> 0 <= v < 2 ^ 8 ->
    ch_phase (hw_channel d base) = Idle -> ch_busy (hw_channel d base) = O ->
    let d' := port_out (base + r) v d in
    hw_ok d' /\ (forall b, is_base b -> b <> base -> hw_channel d' b = hw_channel d b) /\
    ch_phase (hw_channel d' base) = Idle /\ ch_busy (hw_channel d' base) = O /\
    same_sectors (hw_channel d base) (hw_channel d' base) /\
    ch_registers (hw_channel d' base) = set_register r v (ch_registers (hw_channel d base));
  hw_command d base cmd :
    hw_ok d -> is_base base -> cmd = ATA_CMD_READ_PIO \/ cmd = ATA_CMD_WRITE_PIO \/ cmd = ATA_CMD_CACHE_FLUSH ->
    ch_phase (hw_channel d base) = Idle -> ch_busy (hw_channel d base) = O ->
    let d' := port_out (base + 7) cmd d in
    hw_ok d' /\ (forall b, is_base b -> b <> base -> hw_channel d' b = hw_channel d b) /\
    command_written (hw_channel d base) cmd (hw_channel d' base);
  hw_ignored d base :
    hw_ok d -> is_base base -> ch_phase (hw_channel d base) = Idle -> ch_busy (hw_channel d base) <> O ->
    let d' := port_out (base + 7) ATA_CMD_CACHE_FLUSH d in
    hw_ok d' /\ (forall b, is_base b -> b <> base -> hw_channel d' b = hw_channel d b) /\
    same_sectors (hw_channel d base) (hw_channel d' base) /\ ch_phase (hw_channel d' base) = Idle;
  hw_read_word d base w ws v d' :
    hw_ok d -> is_base base -> ch_phase (hw_channel d base) = DataIn (w :: ws) -> ch_busy (hw_channel d base) = O ->
    port_in16 base d = (v, d') ->
    hw_ok d' /\ u16 v = w /\ word_read (hw_channel d base) ws (hw_channel d' base) /\
    (forall b, is_base b -> b <> base -> hw_channel d' b = hw_channel d b);
  hw_write_word d base sl lba n ws v :
    hw_ok d -> is_base base -> 0 <= v < 2 ^ 16 ->
    ch_phase (hw_channel d base) = DataOut sl lba n ws -> ch_busy (hw_channel d base) = O ->
    let d' := port_out16 base v d in
    hw_ok d' /\ (forall b, is_base b -> b <> base -> hw_channel d' b = hw_channel d b) /\
    word_written (hw_channel d base) sl lba n (ws ++ [v]) (hw_channel d' base);
}.

(** Drives that abort no transfer. *)
Definition never_aborts {D} `{AtaHardware D} : Prop :=
  forall d base cmd, hw_ok d -> is_base base -> cmd = ATA_CMD_READ_PIO \/ cmd = ATA_CMD_WRITE_PIO ->
    ch_phase (hw_channel d base) = Idle -> ch_busy (hw_channel d base) = O ->
    r_use_lba (ch_registers (hw_channel d base)) = true -> 0 < r_count (ch_registers (hw_channel d base)) ->
    ch_phase (hw_channel (port_out (base + 7) cmd d) base) <> Idle.

(** ** Steps of the driver *)

Section steps.
Context {D : Type} `{!PortIO D, !PortIO16 D, !PortIO32 D, !AtaHardware D}.
Abbreviation state := (ata_state D).
Implicit Types s : state.

Definition devices s : D := dev (pci s).
Definition chan s (base : Z) : channel := hw_channel (devices s) base.

(** A step that uses one channel and leaves the rest alone. *)
Record io_step (base : Z) s s' : Prop := {
  io_ok : hw_ok (devices s');
  io_other b : is_base b -> b <> base -> chan s' b = chan s b;
  io_drives : detected_drives s' = detected_drives s;
  io_count : drive_count s' = drive_count s;
}.

Lemma io_step_refl base s : hw_ok (devices s) -> io_step base s s.
Proof. by constructor. Qed.

Lemma io_step_trans base s1 s2 s3 : io_step base s1 s2 -> io_step base s2 s3 -> io_step base s1 s3.
Proof.
  intros [_ Ho1 Hd1 Hc1] [Hk Ho2 Hd2 Hc2]. constructor; [done| |congruence|congruence].
  intros b Hb Hne. by rewrite Ho2, Ho1.
Qed.

Definition with_devices (d : D) s : state :=
  AtaState (detected_drives s) (drive_count s) (PciState (pci_devices (pci s)) (detected_device_count (pci s)) d).

Lemma inb_eq port s :
  inb port s = (Ret (u8 (port_in port (devices s)).1), with_devices (port_in port (devices s)).2 s).
Proof.
  unfold inb, run_pci, run_dev, mzoom, Ports.inb, mlift, devices. by destruct (port_in port _).
Qed.
Lemma inw_eq port s :
  inw port s = (Ret (u16 (port_in16 port (devices s)).1), with_devices (port_in16 port (devices s)).2 s).
Proof.
  unfold inw, run_pci, run_dev, mzoom, Ports.inw, mlift, devices. by destruct (port_in16 port _).
Qed.
Lemma outb_eq port v s : 0 <= v < 2 ^ 8 -> outb port v s = (Ret tt, with_devices (port_out port v (devices s)) s).
Proof. intros Hv. unfold outb, run_pci, run_dev, mzoom, Ports.outb, mmodify. by rewrite (wrap_small 8 v) by done. Qed.
Lemma outw_eq port v s : 0 <= v < 2 ^ 16 -> outw port v s = (Ret tt, with_devices (port_out16 port v (devices s)) s).
Proof. intros Hv. unfold outw, run_pci, run_dev, mzoom, Ports.outw, mmodify. by rewrite (wrap_small 16 v) by done. Qed.

Lemma wp_status base s (Q : Z -> state -> Prop) :
  hw_ok (devices s) -> is_base base ->
  (forall v s', 0 <= v < 2 ^ 8 -> io_step base s s' -> status_read (chan s base) v (chan s' base) -> Q v s') ->
  wp (inb (base + 7)) s Q.
Proof.
  intros Hok Hb HQ. unfold wp. rewrite inb_eq. destruct (port_in (base + 7) (devices s)) as [v d] eqn:Hin.
  destruct (hw_status _ _ _ _ Hok Hb Hin) as (Hok' & Hr & Ho). apply HQ; [apply wrap_range; lia| |done].
  by constructor.
Qed.

(** ** Waiting *)

Lemma truthy_bit v i : 0 <= i -> truthy (Z.land v (Z.shiftl 1 i)) = Z.testbit v i.
Proof. intros Hi. unfold truthy. by rewrite land_pow2_testbit, negb_involutive. Qed.

(** The channel after waiting: ready, otherwise as before. *)
Definition ready (c c' : channel) : Prop :=
  ch_busy c' = O /\ ch_phase c' = ch_phase c /\ same_sectors c c'.

Lemma same_sectors_trans c1 c2 c3 : same_sectors c1 c2 -> same_sectors c2 c3 -> same_sectors c1 c3.
Proof. intros H1 H2 sl lba. by rewrite H2, H1. Qed.

Lemma ready_step c v c1 c2 : status_read c v c1 -> ready c1 c2 -> ready c c2.
Proof.
  intros [_ Hp Hs _ _ _] (Hb & Hp' & Hs'). split_and!; [done|congruence|by eapply same_sectors_trans].
Qed.

Lemma wp_wait_not_busy base n : forall s,
  hw_ok (devices s) -> is_base base -> (ch_busy (chan s base) < n)%nat ->
  wp (ata_wait_not_busy (base + 7) n) s (fun ok s' => ok = true /\ io_step base s s' /\ ready (chan s base) (chan s' base)).
Proof.
  induction n as [|n IH]; intros s Hok Hb Hn; [lia|]. cbn [ata_wait_not_busy].
  wp_rule. apply wp_status; [done..|]. intros v s1 _ H1 Hr. change ATA_STATUS_BSY with (Z.shiftl 1 7).
  rewrite truthy_bit, (sr_bsy _ _ _ Hr) by done. case_bool_decide as Hbusy; cbn [negb].
  - eapply wp_mono; [apply IH; [apply H1|done|rewrite (sr_busy _ _ _ Hr); lia]|cbv beta].
    intros ok s2 (-> & H2 & Hready). split_and!; [done|by eapply io_step_trans|by eapply ready_step].
  - apply wp_ret. split_and!; [done|done|]. split_and!; [rewrite (sr_busy _ _ _ Hr); lia|apply Hr|apply Hr].
Qed.

(** Waiting for data: it ends with the channel ready if there is some. *)
Lemma wp_wait_drq_data base n : forall s,
  hw_ok (devices s) -> is_base base -> (ch_busy (chan s base) < n)%nat -> ch_phase (chan s base) <> Idle ->
  wp (ata_wait_drq (base + 7) n) s (fun ok s' => ok = true /\ io_step base s s' /\ ready (chan s base) (chan s' base)).
Proof.
  induction n as [|n IH]; intros s Hok Hb Hn Hph; [lia|]. cbn [ata_wait_drq].
  wp_rule. apply wp_status; [done..|]. intros v s1 _ H1 Hr.
  destruct (sr_data _ _ _ Hr Hph) as (Herr & Hdf & Hff & Hdrq).
  change ATA_STATUS_ERR with (Z.shiftl 1 0). change ATA_STATUS_DF with (Z.shiftl 1 5).
  change ATA_STATUS_BSY with (Z.shiftl 1 7). change ATA_STATUS_DRQ with (Z.shiftl 1 3).
  rewrite !truthy_bit, Herr, Hdf by lia. rewrite (proj2 (Z.eqb_neq v 0xFF) Hff), orb_false_r.
  assert ((v =? 0) = false) as ->.
  { apply Z.eqb_neq. intros ->. pose proof (sr_bsy _ _ _ Hr) as Hb0. rewrite Z.bits_0 in Hb0.
    case_bool_decide as Hbusy; [done|]. destruct (Nat.eq_dec (ch_busy (chan s base)) 0) as [H0|]; [|done].
    specialize (Hdrq H0). by rewrite Z.bits_0 in Hdrq. }
  rewrite (sr_bsy _ _ _ Hr). case_bool_decide as Hbusy; cbn [negb andb].
  - eapply wp_mono; [apply IH; [apply H1|done|rewrite (sr_busy _ _ _ Hr); lia|by rewrite (sr_phase _ _ _ Hr)]|cbv beta].
    intros ok s2 (-> & H2 & Hready). split_and!; [done|by eapply io_step_trans|by eapply ready_step].
  - rewrite Hdrq by lia. apply wp_ret. split_and!; [done|done|].
    split_and!; [rewrite (sr_busy _ _ _ Hr); lia|apply Hr|apply Hr].
Qed.

(** Waiting on an idle channel fails. *)
Lemma wp_wait_drq_idle base n : forall s,
  hw_ok (devices s) -> is_base base -> ch_phase (chan s base) = Idle ->
  wp (ata_wait_drq (base + 7) n) s (fun ok s' =>
    ok = false /\ io_step base s s' /\ ch_phase (chan s' base) = Idle /\ same_sectors (chan s base) (chan s' base)).
Proof.
  induction n as [|n IH]; intros s Hok Hb Hph; cbn [ata_wait_drq].
  { apply wp_ret. split_and!; [done|by apply io_step_refl|done|done]. }
  wp_rule. apply wp_status; [done..|]. intros v s1 _ H1 Hr.
  assert (ch_phase (chan s1 base) = Idle) as Hph1 by (rewrite (sr_phase _ _ _ Hr); done).
  pose proof (sr_sectors _ _ _ Hr) as Hs1.
  assert (wp (mret false : M state bool) s1 (fun ok s' =>
    ok = false /\ io_step base s s' /\ ch_phase (chan s' base) = Idle /\ same_sectors (chan s base) (chan s' base))) as Hfail.
  { by apply wp_ret. }
  destruct (truthy (Z.land v ATA_STATUS_ERR)).
  { wp_rule. unfold wp. rewrite inb_eq. replace (base + 7 - 7) with base by lia.
    destruct (port_in base (devices s1)) as [e d] eqn:Hin.
    destruct (hw_data_byte _ _ _ _ (io_ok _ _ _ H1) Hb Hph1 Hin) as [Hok2 Hch].
    assert (chan (with_devices d s1) base = chan s1 base) as Heq by by apply Hch.
    split_and!; [done| |by cbn; rewrite Heq|by cbn; rewrite Heq].
    eapply io_step_trans; [exact H1|]. constructor; [done| |done|done]. intros b Hbb _. by apply Hch. }
  destruct (_ || _); [done|]. destruct (truthy (Z.land v ATA_STATUS_DF)); [done|].
  change ATA_STATUS_BSY with (Z.shiftl 1 7). change ATA_STATUS_DRQ with (Z.shiftl 1 3).
  rewrite !truthy_bit, (sr_bsy _ _ _ Hr) by lia. case_bool_decide as Hbusy; cbn [negb andb].
  2: rewrite (sr_idle _ _ _ Hr Hph) by lia.
  all: eapply wp_mono; [apply IH; [apply H1|done|done]|cbv beta];
    intros ok s2 (-> & H2 & Hp2 & Hs2); split_and!; [done|by eapply io_step_trans|done|by eapply same_sectors_trans].
Qed.

(** ** Commands *)

(** An idle channel that is ready, with its registers. *)
Record at_rest (c0 : channel) (rs : registers) (c : channel) : Prop := {
  ar_phase : ch_phase c = Idle;
  ar_busy : ch_busy c = O;
  ar_sectors : same_sectors c0 c;
  ar_registers : ch_registers c = rs;
}.

Lemma wp_out_register base r v s c0 rs (Q : unit -> state -> Prop) :
  hw_ok (devices s) -> is_base base -> 1 <= r <= 6 -> 0 <= v < 2 ^ 8 -> at_rest c0 rs (chan s base) ->
  (forall s', io_step base s s' -> at_rest c0 (set_register r v rs) (chan s' base) -> Q tt s') ->
  wp (outb (base + r) v) s Q.
Proof.
  intros Hok Hb Hr Hv [Hph Hbusy Hsec <-] HQ. unfold wp. rewrite outb_eq by done.
  destruct (hw_register (devices s) base r v Hok Hb Hr Hv Hph Hbusy) as (Hok' & Ho & Hph' & Hbusy' & Hsec' & Hrs).
  apply HQ; [by constructor|]. constructor; [done|done|by eapply same_sectors_trans|done].
Qed.

(** The registers for a transfer. *)
Definition transfer_registers (master : bool) (lba count : Z) : registers :=
  Registers count (Z.land lba 0xFF) (Z.land (Z.shiftr lba 8) 0xFF) (Z.land (Z.shiftr lba 16) 0xFF)
    (Z.lor (Z.lor (device_bit master) ATA_DEVICE_LBA) (Z.land (Z.shiftr lba 24) 0x0F)).

Lemma land_ones_range x n : 0 <= n -> 0 <= Z.land x (Z.ones n) < 2 ^ n.
Proof. intros. rewrite Z.land_ones by done. apply Z.mod_pos_bound. lia. Qed.

Lemma head_range master lba :
  0 <= Z.lor (Z.lor (device_bit master) ATA_DEVICE_LBA) (Z.land (Z.shiftr lba 24) 0x0F) < 2 ^ 8.
Proof.
  apply lor_range; [lia|by destruct master|]. change 0x0F with (Z.ones 4).
  pose proof (land_ones_range (Z.shiftr lba 24) 4). lia.
Qed.

Lemma head_bit master lba i : 4 <= i ->
  Z.testbit (r_head (transfer_registers master lba 0)) i = Z.testbit (Z.lor (device_bit master) ATA_DEVICE_LBA) i.
Proof.
  intros Hi. cbn. change 0x0F with (Z.ones 4). rewrite Z.lor_spec, (testbit_high (Z.land _ _) 4), orb_false_r; [done| |done].
  apply land_ones_range. lia.
Qed.

Lemma head_low master lba : r_head (transfer_registers master lba 0) mod 16 = Z.shiftr lba 24 mod 16.
Proof.
  cbn. change 0x0F with (Z.ones 4). rewrite Z.land_ones by lia. change 16 with (2 ^ 4).
  apply Z.bits_inj'. intros i Hi. destruct (Z.ltb_spec i 4).
  - rewrite !Z.mod_pow2_bits_low, Z.lor_spec, Z.mod_pow2_bits_low by lia.
    assert (Z.testbit (Z.lor (device_bit master) ATA_DEVICE_LBA) i = false) as ->; [|done].
    assert (i = 0 \/ i = 1 \/ i = 2 \/ i = 3) as Hcases by lia.
    repeat destruct Hcases as [->|Hcases]; try subst i; by destruct master.
  - by rewrite !Z.mod_pow2_bits_high by lia.
Qed.

(** The channel gets the low 28 bits of the block address. *)
Lemma transfer_lba master lba count :
  r_lba (transfer_registers master lba count) = lba mod 2 ^ 28 /\
  r_slave (transfer_registers master lba count) = negb master /\
  r_use_lba (transfer_registers master lba count) = true.
Proof.
  split_and!.
  - unfold r_lba. change (r_head (transfer_registers master lba count)) with (r_head (transfer_registers master lba 0)).
    rewrite head_low. cbn. change 0xFF with (Z.ones 8). rewrite !Z.land_ones, !Z.shiftr_div_pow2 by lia.
    change (2 ^ 28) with (2 ^ 8 * (2 ^ 8 * (2 ^ 8 * 16))). rewrite !Z.rem_mul_r by lia.
    change (2 ^ 16) with (2 ^ 8 * 2 ^ 8). change (2 ^ 24) with (2 ^ 8 * 2 ^ 8 * 2 ^ 8).
    rewrite <- !Z.div_div by lia. lia.
  - unfold r_slave. change (r_head (transfer_registers master lba count)) with (r_head (transfer_registers master lba 0)).
    rewrite head_bit by lia. by destruct master.
  - unfold r_use_lba. change (r_head (transfer_registers master lba count)) with (r_head (transfer_registers master lba 0)).
    rewrite head_bit by lia. by destruct master.
Qed.

Lemma data_port_base drive_index : is_base (ata_get_data_port drive_index).
Proof. unfold ata_get_data_port. destruct (_ <? _); [by left|by right]. Qed.

(** Sending a command to an idle channel that is ready. *)
Lemma wp_send_command k lba count cmd s (Q : unit -> state -> Prop) :
  let base := ata_get_data_port k in
  hw_ok (devices s) -> ch_phase (chan s base) = Idle -> ch_busy (chan s base) = O -> 0 <= count < 2 ^ 8 ->
  cmd = ATA_CMD_READ_PIO \/ cmd = ATA_CMD_WRITE_PIO ->
  (forall s' c, io_step base s s' -> command_written c cmd (chan s' base) -> same_sectors (chan s base) c ->
     ch_registers c = transfer_registers (ata_is_master k) lba count ->
     (never_aborts (D := D) -> 0 < count -> ch_phase (chan s' base) <> Idle) -> Q tt s') ->
  wp (send_command k lba count cmd) s Q.
Proof.
  intros base Hok Hph Hbusy Hcount Hcmd HQ. pose proof (data_port_base k) as Hb. fold base in Hb.
  unfold send_command. fold base. cbv zeta.
  assert (at_rest (chan s base) (ch_registers (chan s base)) (chan s base)) as H0 by by constructor.
  set (c0 := chan s base) in *. generalize dependent (ch_registers c0). intros rs0 H0.
  assert (forall v, 0 <= Z.land v 0xFF < 2 ^ 8) as Hbyte by (intros v; change 0xFF with (Z.ones 8); by apply land_ones_range).
  wp_rule. apply (wp_out_register base 6 _ s c0 rs0); [done..|lia|apply head_range|done|]. intros s1 S1 H1.
  wp_rule. eapply (wp_out_register base 1); [apply S1|done|lia|lia|done|]. intros s2 S2 H2.
  wp_rule. eapply (wp_out_register base 2); [apply S2|done|lia|done|done|]. intros s3 S3 H3.
  wp_rule. eapply (wp_out_register base 3); [apply S3|done|lia|done|done|]. intros s4 S4 H4.
  wp_rule. eapply (wp_out_register base 4); [apply S4|done|lia|done|done|]. intros s5 S5 H5.
  wp_rule. eapply (wp_out_register base 5); [apply S5|done|lia|done|done|]. intros s6 S6 H6.
  destruct H6 as [Hph6 Hbusy6 Hsec6 Hrs6].
  unfold wp. rewrite outb_eq by (by destruct Hcmd as [->| ->]).
  destruct (hw_command (devices s6) base cmd (io_ok _ _ _ S6) Hb ltac:(tauto) Hph6 Hbusy6) as (Hok7 & Ho7 & Hw).
  assert (ch_registers (chan s6 base) = transfer_registers (ata_is_master k) lba count) as Hrs by (rewrite Hrs6; by destruct rs0).
  eapply HQ; [|exact Hw|exact Hsec6|exact Hrs|].
  - do 6 (eapply io_step_trans; [eassumption|]). by constructor.
  - intros Hna Hpos. apply (Hna (devices s6) base cmd (io_ok _ _ _ S6) Hb Hcmd Hph6 Hbusy6).
    + change (r_use_lba (ch_registers (chan s6 base)) = true). rewrite Hrs. apply transfer_lba.
    + change (0 < r_count (ch_registers (chan s6 base))). by rewrite Hrs.
Qed.

(** ** Words *)

Definition phase_in (ws : list Z) : phase := match ws with [] => Idle | _ => DataIn ws end.

Lemma wp_read_words base ws : forall rest s,
  hw_ok (devices s) -> is_base base -> (length ws <= 256)%nat -> (length rest mod 256 = 0)%nat ->
  ch_phase (chan s base) = phase_in (ws ++ rest) -> (ws <> [] -> ch_busy (chan s base) = O) ->
  wp (read_words base (length ws)) s (fun r s' =>
    r = ws /\ io_step base s s' /\ same_sectors (chan s base) (chan s' base) /\ ch_phase (chan s' base) = phase_in rest).
Proof.
  induction ws as [|w ws IH]; intros rest s Hok Hb Hlen Hrest Hph Hbusy.
  { apply wp_ret. by split_and!; [|apply io_step_refl|..]. }
  cbn [length read_words]. wp_rule. unfold wp at 1. rewrite inw_eq.
  destruct (port_in16 base (devices s)) as [v d] eqn:Hin.
  destruct (hw_read_word _ _ _ _ _ _ Hok Hb Hph (Hbusy ltac:(done)) Hin) as (Hok1 & Hv & [Hs1 Hp1 Hb1] & Ho1). cbn [fst snd].
  rewrite Hv. cbn in Hlen. wp_rule.
  eapply wp_mono; [apply (IH rest (with_devices d s)); [done|done|lia|done|done|]|cbv beta].
  - intros Hne. apply Hb1. rewrite length_app. rewrite Nat.Div0.add_mod, Hrest, Nat.add_0_r, Nat.Div0.mod_mod.
    rewrite Nat.mod_small by lia. by destruct ws.
  - intros r s2 (-> & H2 & Hs2 & Hp2). apply wp_ret. split_and!; [done| |by eapply same_sectors_trans|done].
    eapply io_step_trans; [|exact H2]. by constructor.
Qed.

Lemma length_bytes_words n : forall l, length l = (2 * n)%nat -> length (bytes_words l) = n.
Proof.
  induction n as [|n IH]; intros l Hl; [by destruct l|].
  destruct l as [|a [|b l]]; cbn in Hl; try lia. cbn. rewrite IH; lia.
Qed.

Lemma bytes_words_ok l : bytes_ok l -> Forall (fun w => 0 <= w < 2 ^ 16) (bytes_words l).
Proof.
  remember (length l) as n eqn:Hn. revert l Hn. induction n as [n IH] using lt_wf_ind. intros l Hn Hl.
  destruct l as [|a [|b l]]; [by constructor..|]. apply Forall_cons in Hl as [Ha Hl]. apply Forall_cons in Hl as [Hb Hl].
  cbn [bytes_words]. constructor; [|eapply IH; [|reflexivity|done]; cbn in Hn; lia].
  cbn. unfold byte_ok in *. lia.
Qed.

Lemma word_bytes_words n : forall l, length l = (2 * n)%nat -> bytes_ok l -> word_bytes (bytes_words l) = l.
Proof.
  induction n as [|n IH]; intros l Hl Hok; [by destruct l|].
  destruct l as [|a [|b l]]; cbn in Hl; try lia. apply Forall_cons in Hok as [Ha Hok]. apply Forall_cons in Hok as [Hb Hok].
  assert (le 2 (un_le [a; b]) = [a; b]) as Hab by (apply (le_un_le [a; b]); apply Forall_cons; split; [done|]; apply Forall_cons; split; [done|by apply Forall_nil]).
  cbn [bytes_words]. change (word_bytes (un_le [a; b] :: bytes_words l)) with (le 2 (un_le [a; b]) ++ word_bytes (bytes_words l)).
  rewrite Hab, IH by (done || lia). done.
Qed.

Definition sectors_of (c : channel) (sl : bool) (lba : Z) (n : nat) : list Z := word_bytes (sector_words c sl lba n).

Lemma length_sector_words s base sl n : forall lba, hw_ok (devices s) -> is_base base ->
  length (sector_words (chan s base) sl lba n) = (256 * n)%nat.
Proof.
  induction n as [|n IH]; intros lba Hok Hb; [done|]. cbn [sector_words]. rewrite length_app, IH by done.
  destruct (hw_sector _ _ sl lba Hok Hb) as [Hl _]. rewrite (length_bytes_words 256) by (unfold chan; lia). lia.
Qed.

Lemma sector_words_same c c' sl n : forall lba, same_sectors c c' -> sector_words c' sl lba n = sector_words c sl lba n.
Proof. induction n as [|n IH]; intros lba Hs; [done|]. cbn. by rewrite Hs, IH. Qed.

Lemma wp_ata_read_loop base n : forall ws s,
  hw_ok (devices s) -> is_base base -> length ws = (256 * n)%nat -> ch_phase (chan s base) = phase_in ws ->
  wp (read_loop base n) s (fun r s' =>
    r = (true, ws) /\ io_step base s s' /\ same_sectors (chan s base) (chan s' base) /\ ch_phase (chan s' base) = Idle).
Proof.
  induction n as [|n IH]; intros ws s Hok Hb Hlen Hph.
  { destruct ws; [|done]. apply wp_ret. by split_and!; [|apply io_step_refl|..]. }
  cbn [read_loop]. wp_rule. eapply wp_mono.
  { apply wp_wait_drq_data; [done|done|unfold ATA_TIMEOUT; by apply hw_busy|].
    rewrite Hph. destruct ws; [cbn in Hlen; lia|done]. }
  cbv beta. intros ok s1 (-> & H1 & Hb1 & Hp1 & Hs1). cbn [negb].
  rewrite <- (take_drop 256 ws) in Hph.
  wp_rule. replace 256%nat with (length (take 256 ws)) at 1 by (rewrite length_take; lia).
  eapply wp_mono; [apply (wp_read_words base (take 256 ws) (drop 256 ws)); [apply H1|done| | | |done]|cbv beta].
  { rewrite length_take. lia. }
  { rewrite length_drop, Hlen. replace (256 * S n - 256)%nat with (n * 256)%nat by lia. apply Nat.Div0.mod_mul. }
  { by rewrite Hp1. }
  intros r s2 (-> & H2 & Hs2 & Hp2). wp_rule.
  eapply wp_mono; [apply (IH (drop 256 ws)); [apply H2|done|rewrite length_drop; lia|done]|cbv beta].
  intros r s3 (-> & H3 & Hs3 & Hp3). apply wp_ret. cbn [fst snd]. rewrite take_drop.
  split_and!; [done| |by do 2 (eapply same_sectors_trans; [eassumption|])|done].
  do 2 (eapply io_step_trans; [eassumption|]). done.
Qed.

(** ** Reading and writing sectors *)

Record ata_ok s : Prop := {
  ok_hw : hw_ok (devices s);
  ok_idle base : is_base base -> ch_phase (chan s base) = Idle;
  ok_count : 0 <= drive_count s <= 4;
}.

Lemma ata_ok_step base s s' : ata_ok s -> io_step base s s' -> ch_phase (chan s' base) = Idle -> ata_ok s'.
Proof.
  intros [Hok Hidle Hcount] [Hok' Ho _ Hc] Hph. constructor; [done| |by rewrite Hc].
  intros b Hb. destruct (decide (b = base)) as [->|Hne]; [done|]. rewrite Ho by done. by apply Hidle.
Qed.

(** The drive an index stands for. *)
Definition drive_chan s (k : Z) : channel := chan s (ata_get_data_port k).
Definition drive_slave (k : Z) : bool := negb (ata_is_master k).

Lemma drive_present_count k s : Ata.ata_drive_present k s = true -> k < drive_count s.
Proof. unfold Ata.ata_drive_present. by destruct (Z.leb_spec (drive_count s) k). Qed.

Lemma wp_ata_read_sectors k lba count s :
  ata_ok s -> 0 <= count < 2 ^ 8 ->
  wp (ata_read_sectors k lba count) s (fun r s' =>
    ata_ok s' /\ io_step (ata_get_data_port k) s s' /\ same_sectors (drive_chan s k) (drive_chan s' k) /\
    (fst r = true -> 0 < count /\ k < drive_count s /\ snd r = sectors_of (drive_chan s k) (drive_slave k) (lba mod 2 ^ 28) (Z.to_nat count)) /\
    (fst r = false -> snd r = []) /\
    (never_aborts (D := D) -> Ata.ata_drive_present k s = true -> 0 < count -> fst r = true)).
Proof.
  intros Hs Hcount. unfold ata_read_sectors, drive_chan. set (base := ata_get_data_port k).
  pose proof (data_port_base k) as Hb. fold base in Hb. destruct (Hs) as [Hok Hidle _].
  do 2 wp_rule. destruct (_ || _) eqn:Hguard.
  { apply wp_ret. split_and!; [done|by apply io_step_refl|done|done|done|].
    intros _ Hp Hc. rewrite Hp in Hguard. cbn in Hguard. lia. }
  apply orb_false_iff in Hguard as [Hpres%negb_false_iff Hne%Z.eqb_neq]. apply drive_present_count in Hpres. cbv zeta. fold base. wp_rule.
  eapply wp_mono; [apply wp_wait_not_busy; [done|done|unfold ATA_TIMEOUT; by apply hw_busy]|cbv beta].
  intros ok s1 (-> & H1 & Hb1 & Hp1 & Hs1). cbn [negb]. rewrite Hidle in Hp1 by done. wp_rule.
  apply wp_send_command; [apply H1|done|done|lia|by left|]. fold base. intros s2 c H2 Hw Hc Hrs Hna.
  destruct (transfer_lba (ata_is_master k) lba count) as (Hl & Hsl & Huse).
  destruct (cw_read _ _ _ Hw eq_refl) as [Hp2|Hp2]; rewrite ?Hrs; [done|cbn; lia| |].
  - wp_rule. eapply wp_mono.
    { instantiate (1 := fun r s' => r = (false, []) /\ io_step base s2 s' /\ ch_phase (chan s' base) = Idle /\
        same_sectors (chan s2 base) (chan s' base)).
      destruct (Z.to_nat count) as [|n] eqn:Hn; [lia|]. cbn [read_loop]. wp_rule.
      eapply wp_mono; [apply wp_wait_drq_idle; [apply H2|done|done]|cbv beta].
      intros ok s3 (-> & H3). by apply wp_ret. }
    cbv beta. intros r s3 (-> & H3 & Hp3 & Hs3). apply wp_ret. cbn [fst snd].
    assert (io_step base s s3) as H by (do 2 (eapply io_step_trans; [eassumption|]); done).
    split_and!; [by eapply ata_ok_step|done| |done|done|intros Hn _ Hp; by destruct (Hna Hn Hp)].
    do 2 (eapply same_sectors_trans; [eassumption|]). eapply same_sectors_trans; [apply Hw|done].
  - assert (same_sectors (chan s base) c) as Hsc by (by eapply same_sectors_trans).
    rewrite Hrs, Hl, Hsl in Hp2. cbn [r_count transfer_registers] in Hp2.
    rewrite (sector_words_same (chan s base) c _ _ _ Hsc) in Hp2. set (ws := sector_words _ _ _ _) in Hp2.
    assert (length ws = (256 * Z.to_nat count)%nat) as Hlen by by apply length_sector_words.
    wp_rule. eapply wp_mono; [apply (wp_ata_read_loop base (Z.to_nat count) ws); [apply H2|done|done|]|cbv beta].
    { rewrite Hp2. destruct ws; [cbn in Hlen; lia|done]. }
    intros r s3 (-> & H3 & Hs3 & Hp3). apply wp_ret. cbn [fst snd].
    assert (io_step base s s3) as H by (do 2 (eapply io_step_trans; [eassumption|]); done).
    split_and!; [by eapply ata_ok_step|done| |intros _; by split_and!; [lia|..]|done|done].
    eapply same_sectors_trans; [exact Hsc|]. eapply same_sectors_trans; [apply Hw|done].
Qed.

(** What a channel holds after a sector has been stored. *)
Record stored (sl : bool) (lba : Z) (l : list Z) (c c' : channel) : Prop := {
  st_sector : ch_sector c' sl lba = l;
  st_others sl' lba' : (sl', lba') <> (sl, lba) -> ch_sector c' sl' lba' = ch_sector c sl' lba';
}.

Lemma stored_same sl lba l c1 c2 c3 c4 :
  same_sectors c1 c2 -> stored sl lba l c2 c3 -> same_sectors c3 c4 -> stored sl lba l c1 c4.
Proof.
  intros H12 [Hs Ho] H34. constructor; [by rewrite H34|]. intros sl' lba' Hne. by rewrite H34, Ho, H12.
Qed.

Lemma wp_write_words base sl lba ws : forall ws0 s,
  hw_ok (devices s) -> is_base base -> Forall (fun w => 0 <= w < 2 ^ 16) ws -> ws <> [] ->
  (length ws0 + length ws = 256)%nat ->
  ch_phase (chan s base) = DataOut sl lba 1 ws0 -> ch_busy (chan s base) = O ->
  wp (write_words base ws) s (fun _ s' =>
    io_step base s s' /\ ch_phase (chan s' base) = Idle /\
    stored sl lba (word_bytes (ws0 ++ ws)) (chan s base) (chan s' base)).
Proof.
  induction ws as [|w ws IH]; intros ws0 s Hok Hb Hws Hne Hlen Hph Hbusy; [done|].
  apply Forall_cons in Hws as [Hw Hws]. cbn in Hlen. cbn [write_words]. wp_rule. unfold wp at 1. rewrite outw_eq by done.
  destruct (hw_write_word _ _ _ _ _ _ w Hok Hb Hw Hph Hbusy) as (Hok1 & Ho1 & [Hmore Hlast]).
  set (s1 := with_devices _ s). assert (io_step base s s1) as H1 by by constructor.
  rewrite length_app in Hmore, Hlast. cbn [length] in Hmore, Hlast.
  destruct ws as [|w' ws].
  - cbn in Hlen. destruct (Hlast ltac:(lia)) as (Hp1 & Hs1 & Hr1). apply wp_ret.
    split_and!; [done|done|]. by constructor.
  - cbn in Hlen. destruct (Hmore ltac:(lia)) as (Hp1 & Hb1 & Hs1).
    replace (ws0 ++ w :: w' :: ws) with ((ws0 ++ [w]) ++ w' :: ws) by (by rewrite <- app_assoc).
    eapply wp_mono; [apply (IH (ws0 ++ [w]) s1); [done|done|done|done|rewrite length_app; cbn; lia|done|done]|cbv beta].
    intros _ s2 (H2 & Hp2 & Hst). split_and!; [by eapply io_step_trans|done|].
    by eapply stored_same; [exact Hs1|exact Hst|].
Qed.

Lemma wp_flush_command base s (Q : unit -> state -> Prop) :
  hw_ok (devices s) -> is_base base -> ch_phase (chan s base) = Idle ->
  (forall s', io_step base s s' -> ch_phase (chan s' base) = Idle -> same_sectors (chan s base) (chan s' base) -> Q tt s') ->
  wp (outb (base + 7) ATA_CMD_CACHE_FLUSH) s Q.
Proof.
  intros Hok Hb Hph HQ. unfold wp. rewrite outb_eq by done.
  destruct (Nat.eq_dec (ch_busy (chan s base)) 0) as [H0|Hne].
  - destruct (hw_command (devices s) base ATA_CMD_CACHE_FLUSH Hok Hb ltac:(tauto) Hph H0) as (Hok1 & Ho1 & [Hs1 _ _ Hf]).
    apply HQ; [by constructor|by apply Hf|done].
  - destruct (hw_ignored (devices s) base Hok Hb Hph Hne) as (Hok1 & Ho1 & Hs1 & Hp1). apply HQ; [by constructor|done|done].
Qed.

Lemma wp_write_sector k lba buf s :
  ata_ok s -> sector_ok buf ->
  wp (ata_write_sectors k lba 1 buf) s (fun ok s' =>
    ata_ok s' /\ io_step (ata_get_data_port k) s s' /\
    (ok = true -> k < drive_count s /\ stored (drive_slave k) (lba mod 2 ^ 28) buf (drive_chan s k) (drive_chan s' k)) /\
    (ok = false -> same_sectors (drive_chan s k) (drive_chan s' k)) /\
    (never_aborts (D := D) -> Ata.ata_drive_present k s = true -> ok = true)).
Proof.
  intros Hs [Hlen Hbuf]. unfold ata_write_sectors, drive_chan. set (base := ata_get_data_port k).
  pose proof (data_port_base k) as Hb. fold base in Hb. destruct (Hs) as [Hok Hidle _].
  do 2 wp_rule. destruct (_ || _) eqn:Hguard.
  { apply wp_ret. split_and!; [done|by apply io_step_refl|done|done|].
    intros _ Hp. rewrite Hp in Hguard. done. }
  apply orb_false_iff in Hguard as [Hpres%negb_false_iff _]. apply drive_present_count in Hpres.
  cbv zeta. fold base. wp_rule.
  eapply wp_mono; [apply wp_wait_not_busy; [done|done|unfold ATA_TIMEOUT; by apply hw_busy]|cbv beta].
  intros ok s1 (-> & H1 & Hb1 & Hp1 & Hs1). cbn [negb]. rewrite Hidle in Hp1 by done. wp_rule.
  apply wp_send_command; [apply H1|done|done|lia|by right|]. fold base. intros s2 c H2 Hw Hc Hrs Hna.
  destruct (transfer_lba (ata_is_master k) lba 1) as (Hl & Hsl & Huse).
  assert (io_step base s s2) as H02 by by eapply io_step_trans.
  assert (same_sectors (chan s base) (chan s2 base)) as Hs02.
  { do 2 (eapply same_sectors_trans; [eassumption|]). apply Hw. }
  change (Z.to_nat 1) with 1%nat. cbn [write_loop]. wp_rule.
  destruct (cw_write _ _ _ Hw eq_refl) as [Hp2|Hp2]; rewrite ?Hrs; [done|cbn; lia| |].
  - eapply wp_mono; [apply wp_wait_drq_idle; [apply H2|done|done]|cbv beta].
    intros ok s3 (-> & H3 & Hp3 & Hs3). apply wp_ret.
    assert (io_step base s s3) as H by by eapply io_step_trans.
    split_and!; [by eapply ata_ok_step|done|done|intros _; by eapply same_sectors_trans|].
    intros Hn _. by destruct (Hna Hn ltac:(lia)).
  - rewrite Hrs, Hl, Hsl in Hp2. cbn [r_count transfer_registers] in Hp2. change (Z.to_nat 1) with 1%nat in Hp2.
    eapply wp_mono; [apply wp_wait_drq_data; [apply H2|done|unfold ATA_TIMEOUT; apply hw_busy; [apply H2|done]|by rewrite Hp2]|cbv beta].
    intros ok s3 (-> & H3 & Hb3 & Hp3 & Hs3). cbn [negb]. rewrite Hp2 in Hp3.
    pose proof (length_bytes_words 256 buf Hlen) as Hlw.
    rewrite (take_ge (bytes_words buf)) by lia. wp_rule.
    eapply wp_mono; [eapply (wp_write_words base _ _ (bytes_words buf) []); [apply H3|done|by apply bytes_words_ok|intros Hnil; by rewrite Hnil in Hlw|by rewrite Hlw|done|done]|cbv beta].
    intros _ s4 (H4 & Hp4 & Hst). cbn [app] in Hst. rewrite (word_bytes_words 256) in Hst by done.
    wp_rule. apply wp_flush_command; [apply H4|done|done|]. intros s5 H5 Hp5 Hs5. wp_rule.
    eapply wp_mono; [apply wp_wait_not_busy; [apply H5|done|unfold ATA_TIMEOUT; apply hw_busy; [apply H5|done]]|cbv beta].
    intros ok s6 (-> & H6 & Hb6 & Hp6 & Hs6). apply wp_ret.
    assert (io_step base s s6) as H by (do 4 (eapply io_step_trans; [eassumption|]); done).
    split_and!; [eapply ata_ok_step; [done|done|by rewrite Hp6]|done| |done|done]. intros _. split; [done|].
    eapply stored_same; [|exact Hst|by eapply same_sectors_trans]. by eapply same_sectors_trans.
Qed.
End steps.

(** ** The disk interface *)

#[export] Instance ata_block_device {D} `{!PortIO D, !PortIO16 D, !PortIO32 D} : BlockDevice (ata_state D) := {
  ata_drive_present k s := (0 <=? k) && (k <? 256) && Ata.ata_drive_present k s;
  ata_read_sector k lba s :=
    if (0 <=? k) && (k <? 256) then
      match ata_read_sectors k lba 1 s with
      | (Ret (true, l), s') => (Some l, s')
      | (_, s') => (None, s')
      end
    else (None, s);
  ata_write_sector k lba l s :=
    if (0 <=? k) && (k <? 256) then
      match ata_write_sectors k lba 1 l s with
      | (Ret ok, s') => (ok, s')
      | (_, s') => (false, s')
      end
    else (false, s);
}.

Section device.
Context {D : Type} `{!PortIO D, !PortIO16 D, !PortIO32 D, !AtaHardware D}.
Implicit Types s : ata_state D.

(** Sector [lba] of drive [k], of the four there can be. *)
Definition drive_sector s (k lba : Z) : list Z :=
  if (0 <=? k) && (k <? 4) then ch_sector (drive_chan s k) (drive_slave k) lba else zero_sector.

Lemma drive_sector_step s s' k k' lba :
  io_step (ata_get_data_port k) s s' ->
  (0 <= k' < 4 -> ata_get_data_port k' = ata_get_data_port k ->
   ch_sector (drive_chan s' k') (drive_slave k') lba = ch_sector (drive_chan s k') (drive_slave k') lba) ->
  drive_sector s' k' lba = drive_sector s k' lba.
Proof.
  intros Hstep Hsame. unfold drive_sector. destruct (Z.leb_spec 0 k'), (Z.ltb_spec k' 4); cbn [andb]; try done.
  destruct (decide (ata_get_data_port k' = ata_get_data_port k)); [by apply Hsame|].
  unfold drive_chan. by rewrite (io_other _ _ _ Hstep) by (done || apply data_port_base).
Qed.

Lemma same_drive k k' :
  0 <= k < 4 -> 0 <= k' < 4 -> ata_get_data_port k' = ata_get_data_port k -> drive_slave k' = drive_slave k -> k' = k.
Proof.
  unfold ata_get_data_port, drive_slave, ata_is_master. intros Hk Hk' Hp Hs.
  assert (k = 0 \/ k = 1 \/ k = 2 \/ k = 3) as Hc by lia. assert (k' = 0 \/ k' = 1 \/ k' = 2 \/ k' = 3) as Hc' by lia.
  repeat destruct Hc as [->|Hc]; repeat destruct Hc' as [->|Hc']; try subst k; try subst k'; done.
Qed.

Lemma ata_read_law s k lba r s' :
  ata_ok s -> 0 <= lba < 2 ^ 32 -> ata_read_sector k lba s = (r, s') ->
  ata_ok s' /\ (forall k' x, drive_sector s' k' x = drive_sector s k' x) /\
  (forall bs, r = Some bs -> sector_ok bs /\ (lba < 2 ^ 28 -> bs = drive_sector s k lba)).
Proof.
  intros Hs Hlba. cbn. destruct ((0 <=? k) && (k <? 256)) eqn:Hk; [|by intros [= <- <-]].
  apply andb_prop in Hk as [Hk0%Z.leb_le Hk1%Z.ltb_lt].
  destruct (proj1 (wp_run _ _ _) (wp_ata_read_sectors k lba 1 s Hs ltac:(lia))) as ([ok l] & s1 & -> & Hs1 & Hstep & Hsame & Htrue & _ & _).
  cbn [fst snd] in Htrue. intros Heq. assert (s' = s1 /\ (forall bs, r = Some bs -> ok = true /\ bs = l)) as [-> Hr].
  { destruct ok; injection Heq as <- <-; split; [done|by intros bs [= <-]|done|done]. }
  split_and!; [done| |].
  - intros k' x. apply (drive_sector_step s s1 k); [done|]. intros _ Hp. unfold drive_chan. rewrite Hp. apply Hsame.
  - intros bs Hbs. destruct (Hr bs Hbs) as [-> ->]. destruct (Htrue eq_refl) as (_ & Hlt & ->).
    destruct Hs as [Hok _ Hcount].
    destruct (hw_sector _ _ (drive_slave k) (lba mod 2 ^ 28) Hok (data_port_base k)) as [Hl Hb].
    change (hw_channel _ _) with (drive_chan s k) in Hl, Hb.
    assert (sectors_of (drive_chan s k) (drive_slave k) (lba mod 2 ^ 28) (Z.to_nat 1) =
            ch_sector (drive_chan s k) (drive_slave k) (lba mod 2 ^ 28)) as ->.
    { change (Z.to_nat 1) with 1%nat. unfold sectors_of. cbn [sector_words]. rewrite app_nil_r.
      by apply (word_bytes_words 256). }
    split; [done|]. intros Hsmall. rewrite Z.mod_small by lia. unfold drive_sector.
    by rewrite (proj2 (Z.leb_le _ _)), (proj2 (Z.ltb_lt _ _)) by lia.
Qed.

Lemma ata_write_law s k lba bs r s' :
  ata_ok s -> 0 <= lba < 2 ^ 32 -> sector_ok bs -> ata_write_sector k lba bs s = (r, s') ->
  ata_ok s' /\
  (lba < 2 ^ 28 ->
   (r = true -> drive_sector s' k lba = bs) /\
   (forall k' x, 0 <= x < 2 ^ 28 -> (k', x) <> (k, lba) -> drive_sector s' k' x = drive_sector s k' x)).
Proof.
  intros Hs Hlba Hbs. cbn. destruct ((0 <=? k) && (k <? 256)) eqn:Hk; [|by intros [= <- <-]].
  apply andb_prop in Hk as [Hk0%Z.leb_le Hk1%Z.ltb_lt].
  destruct (proj1 (wp_run _ _ _) (wp_write_sector k lba bs s Hs Hbs)) as (ok & s1 & -> & Hs1 & Hstep & Htrue & Hfalse & _).
  intros [= <- <-]. split; [done|]. intros Hsmall. rewrite Z.mod_small in Htrue by lia.
  destruct Hs as [_ _ Hcount]. split.
  - intros ->. destruct (Htrue eq_refl) as [Hlt [Hst _]]. unfold drive_sector.
    by rewrite (proj2 (Z.leb_le _ _)), (proj2 (Z.ltb_lt _ _)) by lia.
  - intros k' x Hx Hne. apply (drive_sector_step s s1 k); [done|]. intros Hk' Hp. unfold drive_chan. rewrite Hp.
    destruct ok; [|by apply Hfalse]. destruct (Htrue eq_refl) as [Hlt [_ Hother]]. apply Hother.
    intros [= Hsl ->]. apply Hne. f_equal. apply same_drive; [lia|done..].
Qed.
End device.

#[export] Program Instance ata_block_device_spec {D} `{!PortIO D, !PortIO16 D, !PortIO32 D, !AtaHardware D} :
    BlockDeviceSpec (ata_state D) := {
  dev_inv := ata_ok;
  dev_limit := 2 ^ 28;
  dev_sector := drive_sector;
}.
Next Obligation. intros. lia. Qed.
Next Obligation.
  intros D ???? s k lba Hs. unfold drive_sector. destruct (_ && _); [|apply zero_sector_ok].
  apply hw_sector; [apply Hs|apply data_port_base].
Qed.
Next Obligation. intros D ???? s k lba r s'. apply ata_read_law. Qed.
Next Obligation. intros D ???? s k lba bs r s'. apply ata_write_law. Qed.
