(* ===== verification/AtaInit.v ===== *)
(** Initialisation of the ATA driver: whatever the devices answer, [ata_init]
    returns and leaves a well-formed table of at most four drives. *)
From S2P Require Import Prelude Bytes Wp Interrupts Ports Pci Ata.
Import Pci Ata.

(** ** Strings of the identification *)

Definition word_ok (w : Z) : Prop := 0 <= w < 2 ^ 16.

Lemma swap_words_ok src : bytes_ok (swap_words src).
Proof.
  unfold swap_words. induction src as [|w src IH]; [constructor|]. cbn.
  assert (forall v, byte_ok (Z.land v 0xFF)) as Hb.
  { intros v. change 0xFF with (Z.ones 8). rewrite Z.land_ones by lia. apply Z.mod_pos_bound. lia. }
  repeat constructor; try apply Hb. apply IH.
Qed.

Lemma trim_end_ok l : bytes_ok l -> bytes_ok (trim_end l).
Proof.
  assert (byte_ok 0) as H0 by (unfold byte_ok; lia).
  induction 1 as [|c l Hc Hl IH]; [constructor|]. cbn. destruct (_ =? _); [by constructor|].
  destruct (_ =? _); by constructor.
Qed.

Lemma extract_string_ok src n : bytes_ok (ata_extract_string src n).
Proof. apply Forall_reverse, trim_end_ok, Forall_reverse, swap_words_ok. Qed.

Lemma copy_string_ok src : forall dst, bytes_ok src -> bytes_ok dst -> bytes_ok (copy_string src dst).
Proof.
  induction src as [|c src IH]; intros [|d dst] Hs Hd; try done. apply Forall_cons in Hs as [Hc Hs].
  apply Forall_cons in Hd as [_ Hd]. cbn. constructor; [done|]. destruct (_ =? _); [done|]. by apply IH.
Qed.

Lemma length_copy_string src : forall dst, length (copy_string src dst) = length dst.
Proof.
  induction src as [|c src IH]; intros [|d dst]; try done. cbn. destruct (_ =? _); [done|]. by rewrite IH.
Qed.

(** ** The table of drives *)

(** A field that holds a C string. *)
Definition string_field (n : nat) (l : list Z) : Prop := length l = S n /\ l !! n = Some 0 /\ bytes_ok l.

Lemma store_string_ok n src dst :
  bytes_ok src -> string_field n dst -> string_field n (store_string n src dst).
Proof.
  intros Hsrc (Hlen & _ & Hdst). unfold store_string. split_and!.
  - by rewrite length_insert, length_copy_string.
  - apply list_lookup_insert_eq. rewrite length_copy_string. lia.
  - apply Forall_insert; [by apply copy_string_ok|]. unfold byte_ok. lia.
Qed.

Record drive_ok (e : ata_drive_t) : Prop := {
  drive_size : 0 <= size e < 2 ^ 32;
  drive_model : string_field 40 (model e);
  drive_serial : string_field 20 (serial e);
}.

Definition supported (e : ata_drive_t) : Prop := type e = DRIVE_TYPE_PATA \/ type e = DRIVE_TYPE_SATA.

Record table_ok (l : list ata_drive_t) (count : Z) : Prop := {
  table_length : length l = Z.to_nat ATA_MAX_DRIVES;
  table_count : 0 <= count <= ATA_MAX_DRIVES;
  table_drives : Forall drive_ok l;
  table_supported i e : 0 <= i < count -> l !! Z.to_nat i = Some e -> supported e;
}.

Lemma drive_ok_none : drive_ok no_drive.
Proof.
  assert (bytes_ok (replicate 41 0) /\ bytes_ok (replicate 21 0)) as [H1 H2]
    by (split; apply Forall_replicate; unfold byte_ok; lia).
  constructor; [cbn; lia|by split_and!..].
Qed.

Lemma word_in id i : Forall word_ok id -> word_ok (array_get 0 id i).
Proof. intros Hid. apply Forall_array_get; [done|]. unfold word_ok. lia. Qed.

Lemma two_words_range hi lo : word_ok hi -> word_ok lo -> 0 <= Z.lor (Z.shiftl hi 16) lo < 2 ^ 32.
Proof.
  intros Hhi Hlo. unfold word_ok in *. apply lor_range; [lia| |lia]. rewrite Z.shiftl_mul_pow2 by lia. lia.
Qed.

Lemma identify_ok id t mid high old : Forall word_ok id -> drive_ok old -> drive_ok (identify id t mid high old).
Proof.
  intros Hid [_ Hm Hs]. constructor; unfold identify; cbn [size model serial].
  - destruct (truthy _); apply two_words_range; by apply word_in.
  - apply store_string_ok; [apply extract_string_ok|done].
  - apply store_string_ok; [apply extract_string_ok|done].
Qed.

Lemma classify_supported st mid high t : classify st mid high = Some t -> t = DRIVE_TYPE_PATA \/ t = DRIVE_TYPE_SATA.
Proof.
  unfold classify. repeat (destruct (_ : bool); try done); intros [= <-]; auto.
Qed.

Lemma table_add l count e :
  table_ok l count -> count < ATA_MAX_DRIVES -> drive_ok e -> supported e ->
  table_ok (array_set l count e) (count + 1).
Proof.
  intros [Hl Hc Hd Hs] Hlt He Hsup. constructor.
  - by rewrite length_array_set.
  - lia.
  - by apply Forall_array_set.
  - intros i e' Hi. unfold array_set. destruct (decide (i = count)) as [->|Hne].
    + rewrite list_lookup_insert_eq by (unfold ATA_MAX_DRIVES in *; lia). by intros [= <-].
    + rewrite list_lookup_insert_ne by lia. apply Hs. lia.
Qed.

Section init.
Context {D : Type} `{!PortIO D, !PortIO16 D, !PortIO32 D}.
Abbreviation state := (ata_state D).
Implicit Types s : state.

(** A step of the devices alone. *)
Definition quiet s s' : Prop := detected_drives s' = detected_drives s /\ drive_count s' = drive_count s.

Lemma init_quiet_trans s1 s2 s3 : quiet s1 s2 -> quiet s2 s3 -> quiet s1 s3.
Proof. intros [H1 H2] [H3 H4]. split; congruence. Qed.

Lemma wp_quiet {R} (m : M state R) s0 s (Q : R -> state -> Prop) :
  wp m s (fun _ s' => quiet s s') -> quiet s0 s -> (forall r s', quiet s0 s' -> Q r s') -> wp m s Q.
Proof. intros Hm H0 HQ. eapply wp_mono; [exact Hm|]. intros r s' H. apply HQ. by eapply init_quiet_trans. Qed.

Lemma quiet_run_pci {R} (m : M (pci_state D) R) s :
  wp m (pci s) (fun _ _ => True) -> wp (run_pci m) s (fun _ s' => quiet s s').
Proof.
  unfold wp, run_pci, mzoom. destruct (m (pci s)) as [[] p]; done.
Qed.

Lemma pci_returns_dev {R} (m : M D R) p : wp m (dev p) (fun _ _ => True) -> wp (run_dev m) p (fun _ _ => True).
Proof. unfold wp, run_dev, mzoom. destruct (m (dev p)) as [[] d]; done. Qed.

Lemma quiet_inb port s : wp (inb port) s (fun _ s' => quiet s s').
Proof.
  apply quiet_run_pci, pci_returns_dev. unfold Ports.inb, mlift, wp. by destruct (port_in _ _).
Qed.
Lemma quiet_inw port s : wp (inw port) s (fun w s' => word_ok w /\ quiet s s').
Proof.
  unfold inw, run_pci, run_dev, mzoom, Ports.inw, mlift, wp. destruct (port_in16 _ _).
  split; [apply wrap_range; lia|done].
Qed.
Lemma quiet_outb port v s : wp (outb port v) s (fun _ s' => quiet s s').
Proof. by apply quiet_run_pci, pci_returns_dev. Qed.

Lemma quiet_wait_not_busy port n : forall s, wp (ata_wait_not_busy port n) s (fun _ s' => quiet s s').
Proof.
  induction n as [|n IH]; intros s; [done|]. cbn [ata_wait_not_busy]. wp_rule.
  eapply wp_quiet; [apply quiet_inb|done|]. intros v s1 H1. destruct (negb _); [done|].
  by eapply wp_quiet; [apply IH|done|].
Qed.

Lemma quiet_wait_drq port n : forall s, wp (ata_wait_drq port n) s (fun _ s' => quiet s s').
Proof.
  induction n as [|n IH]; intros s; [done|]. cbn [ata_wait_drq]. wp_rule.
  eapply wp_quiet; [apply quiet_inb|done|]. intros v s1 H1. destruct (truthy _).
  { wp_rule. by eapply wp_quiet; [apply quiet_inb|done|]. }
  destruct (_ || _); [done|]. destruct (truthy _); [done|]. destruct (_ && _); [done|].
  by eapply wp_quiet; [apply IH|done|].
Qed.

Lemma quiet_delay port s : wp (ata_400ns_delay port) s (fun _ s' => quiet s s').
Proof.
  apply (wp_for (fun _ s' => quiet s s')); [done| |done]. intros j s1 _ H1. wp_rule.
  by eapply wp_quiet; [apply quiet_inb|done|].
Qed.

Lemma quiet_reset port s : wp (ata_software_reset port) s (fun _ s' => quiet s s').
Proof.
  unfold ata_software_reset. wp_rule. eapply wp_quiet; [apply quiet_outb|done|]. intros _ s1 H1.
  wp_rule. eapply wp_quiet; [apply quiet_outb|done|]. intros _ s2 H2. wp_rule.
  by eapply wp_quiet; [apply quiet_wait_not_busy|done|].
Qed.

Lemma quiet_read_words port n : forall s,
  wp (read_words port n) s (fun ws s' => Forall word_ok ws /\ quiet s s').
Proof.
  induction n as [|n IH]; intros s; [by apply wp_ret|]. cbn [read_words]. wp_rule.
  eapply wp_mono; [apply quiet_inw|cbv beta]. intros w s1 [Hw H1]. wp_rule.
  eapply wp_mono; [apply IH|cbv beta]. intros ws s2 [Hws H2]. apply wp_ret.
  split; [by constructor|by eapply init_quiet_trans].
Qed.

(** ** Detection *)

Lemma wp_detect_drive base control master s :
  table_ok (detected_drives s) (drive_count s) ->
  wp (ata_detect_drive base control master) s (fun _ s' =>
    table_ok (detected_drives s') (drive_count s') /\ drive_count s <= drive_count s' <= drive_count s + 1).
Proof.
  intros Hs. unfold ata_detect_drive. do 2 wp_rule.
  destruct (Z.leb_spec ATA_MAX_DRIVES (drive_count s)) as [|Hroom]; [apply wp_ret; split; [done|lia]|].
  assert (forall s', quiet s s' -> table_ok (detected_drives s') (drive_count s') /\
    drive_count s <= drive_count s' <= drive_count s + 1) as Hquit.
  { intros s' [-> ->]. split; [done|lia]. }
  wp_rule. eapply wp_quiet; [apply quiet_reset|done|]. intros _ s1 H1.
  wp_rule. eapply wp_quiet; [apply quiet_outb|done|]. intros _ s2 H2.
  wp_rule. eapply wp_quiet; [apply quiet_delay|done|]. intros _ s3 H3.
  wp_rule. eapply wp_quiet; [apply quiet_outb|done|]. intros _ s4 H4.
  wp_rule. eapply wp_quiet; [apply quiet_delay|done|]. intros _ s5 H5.
  wp_rule. eapply wp_quiet; [apply quiet_inb|done|]. intros status s6 H6.
  destruct (status =? 0); [by apply Hquit|].
  wp_rule. eapply wp_quiet; [apply quiet_wait_not_busy|done|]. intros ok s7 H7. destruct ok; cbn [negb]; [|by apply Hquit].
  wp_rule. eapply wp_quiet; [apply quiet_inb|done|]. intros mid s8 H8.
  wp_rule. eapply wp_quiet; [apply quiet_inb|done|]. intros high s9 H9.
  destruct (classify status mid high) as [t|] eqn:Ht; [|by apply Hquit].
  wp_rule. eapply wp_quiet; [apply quiet_wait_drq|done|]. intros ok s10 H10. destruct ok; cbn [negb]; [|by apply Hquit].
  wp_rule. eapply wp_mono; [apply quiet_read_words|cbv beta]. intros id s11 [Hid H11'].
  assert (quiet s s11) as [Hd Hc] by by eapply init_quiet_trans. apply wp_modify. cbn [detected_drives drive_count].
  rewrite Hd, Hc. split; [|lia]. apply table_add; [done|done| |by apply (classify_supported status mid high)].
  apply identify_ok; [done|]. unfold drive_at. rewrite Hd. apply Forall_array_get; [apply Hs|apply drive_ok_none].
Qed.

(** The search for a controller leaves the table alone. *)
Lemma pci_returns_read b d f o p : wp (pci_read_config_dword (D := D) b d f o) p (fun _ _ => True).
Proof.
  unfold pci_read_config_dword. wp_rule. eapply wp_mono; [by apply pci_returns_dev|]. intros _ p1 _.
  apply pci_returns_dev. unfold Ports.inl, mlift, wp. by destruct (port_in32 _ _).
Qed.

Lemma pci_returns_for n body : (forall i (p : pci_state D), wp (body i) p (fun _ _ => True)) ->
  forall i p, wp (mfor n i body) p (fun _ _ => True).
Proof. intros Hbody i p. by apply (wp_for (fun _ _ => True)). Qed.

Lemma pci_returns_init (p : pci_state D) : wp pci_init p (fun _ _ => True).
Proof.
  unfold pci_init. do 2 wp_rule. apply pci_returns_for. intros b p1. apply pci_returns_for. intros d p2.
  unfold scan_device. wp_rule. eapply wp_mono; [apply pci_returns_read|]. intros v p3 _. destruct (_ =? _); [done|].
  wp_rule. eapply wp_mono; [apply pci_returns_read|]. intros h p4 _. cbv zeta. apply pci_returns_for. intros f p5.
  unfold scan_function. wp_rule. eapply wp_mono; [apply pci_returns_read|]. intros c p6 _.
  wp_rule. eapply wp_mono; [apply pci_returns_read|]. intros i p7 _. by destruct (_ =? _).
Qed.

Lemma pci_returns_bar d i (p : pci_state D) : wp (pci_get_bar d i) p (fun _ _ => True).
Proof.
  unfold pci_get_bar. destruct (_ <? _); [done|]. cbv zeta. wp_rule. eapply wp_mono; [apply pci_returns_read|].
  intros l p1 _. destruct (_ && _); [|done]. wp_rule. by eapply wp_mono; [apply pci_returns_read|].
Qed.

Lemma quiet_setup s : wp setup_controller s (fun _ s' => quiet s s').
Proof.
  unfold setup_controller. wp_rule.
  eapply wp_quiet; [by apply quiet_run_pci, pci_returns_init|done|]. intros _ s1 H1.
  wp_rule. eapply wp_quiet; [by apply quiet_run_pci|done|]. intros sata s2 H2.
  wp_rule. eapply (wp_mono _ _ (fun _ s' => quiet s s')).
  { destruct sata; [done|]. by eapply wp_quiet; [by apply quiet_run_pci|done|]. }
  intros [c|] s3 H3; [|done].
  wp_rule. eapply wp_quiet; [by apply quiet_run_pci, pci_returns_read|done|]. intros v s4 H4.
  wp_rule. eapply wp_quiet; [apply quiet_run_pci|done|].
  { unfold pci_write_config_dword. cbv zeta. wp_rule. eapply wp_mono; [by apply pci_returns_dev|]. intros _ p _. by apply pci_returns_dev. }
  intros _ s5 H5. wp_rule. by eapply wp_quiet; [apply quiet_run_pci, pci_returns_bar|done|].
Qed.

Lemma wp_ata_init s :
  wp ata_init s (fun _ s' => table_ok (detected_drives s') (drive_count s') /\ drive_count s' <= 4).
Proof.
  unfold ata_init. do 2 wp_rule. set (s0 := AtaState _ _ _).
  assert (table_ok (detected_drives s0) (drive_count s0)) as H0.
  { constructor; [done|cbn; unfold ATA_MAX_DRIVES; lia|apply Forall_replicate, drive_ok_none|cbn; lia]. }
  wp_rule. eapply wp_quiet; [apply quiet_setup|done|]. intros _ s1 [Hd1 Hc1]. rewrite <- Hd1, <- Hc1 in H0.
  assert (drive_count s1 = 0) as Hz by by rewrite Hc1.
  wp_rule. eapply wp_mono; [by apply wp_detect_drive|cbv beta]. intros _ s2 [H2 Hc2].
  wp_rule. eapply wp_mono; [by apply wp_detect_drive|cbv beta]. intros _ s3 [H3 Hc3].
  wp_rule. eapply wp_mono; [by apply wp_detect_drive|cbv beta]. intros _ s4 [H4 Hc4].
  eapply wp_mono; [by apply wp_detect_drive|cbv beta]. intros _ s5 [H5 Hc5]. split; [done|lia].
Qed.

(** C22: Initialisation of the disk driver.  Whatever the controller and the ports
    answer, [ata_init] returns, with at most four drives in the table; each of
    them is of a supported type, so that it counts as present and its record
    can be had, its size is a 32-bit number, and its model and serial number
    are NUL-terminated strings in their fields; no other index counts as
    present. *)
Theorem ata_init_fills_table s :
  exists s', ata_init s = (Ret tt, s') /\ 0 <= drive_count s' <= 4 /\
    forall k, 0 <= k ->
      (Ata.ata_drive_present k s' = true <-> k < drive_count s') /\
      (ata_get_drive_info k s' = None <-> drive_count s' <= k) /\
      (forall e, ata_get_drive_info k s' = Some e -> supported e /\ drive_ok e).
Proof.
  destruct (proj1 (wp_run _ _ _) (wp_ata_init s)) as ([] & s' & Hrun & [Hl Hc Hd Hs] & H4).
  exists s'. split; [done|]. split; [lia|]. intros k Hk.
  assert (k < drive_count s' -> supported (drive_at k s') /\ drive_ok (drive_at k s')) as Hat.
  { intros Hlt. unfold drive_at, array_get.
    destruct (lookup_lt_is_Some_2 (detected_drives s') (Z.to_nat k)) as [e He]; [unfold ATA_MAX_DRIVES in *; lia|].
    rewrite He. split; [by apply (Hs k)|]. by apply (Forall_lookup_1 _ _ _ _ Hd He). }
  unfold Ata.ata_drive_present, ata_get_drive_info. destruct (Z.leb_spec (drive_count s') k) as [Hge|Hlt].
  - split_and!; [split; [done|lia]|done|done].
  - destruct (Hat Hlt) as [Hsup Hok]. split_and!.
    + split; [done|intros _]. by destruct Hsup as [-> | ->].
    + split; [done|lia].
    + by intros e [= <-].
Qed.
End init.
