(* ===== verification/AtaSim.v ===== *)
(** A simulated pair of ATA channels that follows the protocol of AtaSpec.v,
    for the concrete runs of the disk driver. *)
From S2P Require Import Prelude Bytes Wp Interrupts Ports Pci Ata BlockDevice AtaSpec AtaInit.
Import Pci Ata.

Record sim_channel : Type := SimChannel {
  sc_registers : registers;
  sc_phase : phase;
  sc_busy : nat;
  sc_sectors : gmap (bool * Z) (list Z);
}.
Record sim : Type := Sim { primary : sim_channel; secondary : sim_channel }.

Definition view (c : sim_channel) : channel :=
  Channel (sc_registers c) (sc_phase c) (sc_busy c) (fun sl lba => default zero_sector (sc_sectors c !! (sl, lba))).

(** The channel and the register of a port. *)
Definition decode (port : Z) : option (bool * Z) :=
  if (ATA_PRIMARY_DATA <=? port) && (port <=? ATA_PRIMARY_DATA + 7) then Some (true, port - ATA_PRIMARY_DATA)
  else if (ATA_SECONDARY_DATA <=? port) && (port <=? ATA_SECONDARY_DATA + 7)
  then Some (false, port - ATA_SECONDARY_DATA) else None.

Definition get_channel (p : bool) (d : sim) : sim_channel := if p then primary d else secondary d.
Definition set_channel (p : bool) (c : sim_channel) (d : sim) : sim :=
  if p then Sim c (secondary d) else Sim (primary d) c.

(** Busy for two looks at the status. *)
Definition with_phase (ph : phase) (busy : nat) (c : sim_channel) : sim_channel :=
  SimChannel (sc_registers c) ph busy (sc_sectors c).

Definition status_of (c : sim_channel) : Z :=
  if decide (sc_busy c = O) then match sc_phase c with Idle => 0x50 | _ => 0x58 end else 0xD0.

Definition on_command (cmd : Z) (c : sim_channel) : sim_channel :=
  let rs := sc_registers c in
  let n := Z.to_nat (r_count rs) in
  if cmd =? ATA_CMD_READ_PIO then
    with_phase (phase_in (sector_words (view c) (r_slave rs) (r_lba rs) n)) 2 c
  else if cmd =? ATA_CMD_WRITE_PIO then
    with_phase (DataOut (r_slave rs) (r_lba rs) n []) 2 c
  else with_phase Idle 2 c.

Definition ready_idle (c : sim_channel) : bool :=
  match sc_phase c, sc_busy c with Idle, O => true | _, _ => false end.

Definition on_word (v : Z) (c : sim_channel) : sim_channel :=
  match sc_phase c with
  | DataOut sl lba n ws =>
      let ws := ws ++ [v] in
      if decide (length ws < 256)%nat then with_phase (DataOut sl lba n ws) 0 c
      else SimChannel (sc_registers c) (match n with S (S n) => DataOut sl (lba + 1) (S n) [] | _ => Idle end) 2
             (<[(sl, lba) := word_bytes ws]> (sc_sectors c))
  | _ => c
  end.

Definition sim_in8 (port : Z) (d : sim) : Z * sim :=
  match decode port with
  | Some (p, r) =>
      let c := get_channel p d in
      if r =? 7 then (status_of c, set_channel p (with_phase (sc_phase c) (pred (sc_busy c)) c) d) else (0, d)
  | None => (0xFF, d)
  end.

Definition sim_out8 (port v : Z) (d : sim) : sim :=
  match decode port with
  | Some (p, r) =>
      let c := get_channel p d in
      if negb (ready_idle c) then d
      else if r =? 7 then set_channel p (on_command v c) d
      else set_channel p (SimChannel (set_register r v (sc_registers c)) Idle 0 (sc_sectors c)) d
  | None => d
  end.

Definition sim_in16 (port : Z) (d : sim) : Z * sim :=
  match decode port with
  | Some (p, r) =>
      let c := get_channel p d in
      match sc_phase c with
      | DataIn (w :: ws) =>
          (w, set_channel p (with_phase (phase_in ws) (if decide (length ws mod 256 = 0)%nat then 2 else 0) c) d)
      | _ => (0, d)
      end
  | None => (0, d)
  end.

Definition sim_out16 (port v : Z) (d : sim) : sim :=
  match decode port with
  | Some (p, r) => set_channel p (on_word v (get_channel p d)) d
  | None => d
  end.

#[export] Instance sim_ports : PortIO sim := { port_in := sim_in8; port_out := sim_out8 }.
#[export] Instance sim_ports16 : PortIO16 sim := { port_in16 := sim_in16; port_out16 := sim_out16 }.
(** No PCI devices. *)
#[export] Instance sim_ports32 : PortIO32 sim := { port_in32 _ d := (0xFFFFFFFF, d); port_out32 _ _ d := d }.

(** ** The simulation follows the protocol *)

Definition phase_ok (ph : phase) : Prop :=
  match ph with
  | Idle => True
  | DataIn ws => ws <> [] /\ Forall word_ok ws
  | DataOut _ _ n ws => Forall word_ok ws /\ (length ws < 256)%nat
  end.

Record sim_channel_ok (c : sim_channel) : Prop := {
  sim_phase : phase_ok (sc_phase c);
  sim_busy : (sc_busy c < 1000)%nat;
  sim_sectors : map_Forall (fun _ l => sector_ok l) (sc_sectors c);
}.
Definition sim_ok (d : sim) : Prop := forall p, sim_channel_ok (get_channel p d).

Definition is_primary (base : Z) : bool := base =? ATA_PRIMARY_DATA.
Definition sim_view (d : sim) (base : Z) : channel := view (get_channel (is_primary base) d).

Lemma decode_base base r : is_base base -> 0 <= r <= 7 -> decode (base + r) = Some (is_primary base, r).
Proof.
  intros Hb Hr. unfold decode, is_primary, ATA_PRIMARY_DATA, ATA_SECONDARY_DATA in *.
  destruct Hb as [-> | ->]; cbn [Z.eqb Pos.eqb]; unfold ATA_PRIMARY_DATA, ATA_SECONDARY_DATA in *; range_cases;
    do 2 f_equal; lia.
Qed.

Lemma decode_data base : is_base base -> decode base = Some (is_primary base, 0).
Proof. intros Hb. rewrite <- (decode_base base 0) by (done || lia). by rewrite Z.add_0_r. Qed.

Lemma get_set p q c d : get_channel q (set_channel p c d) = if bool_decide (p = q) then c else get_channel q d.
Proof. by destruct p, q. Qed.

Lemma sim_ok_set p c d : sim_ok d -> sim_channel_ok c -> sim_ok (set_channel p c d).
Proof. intros Hd Hc q. rewrite get_set. case_bool_decide; [done|apply Hd]. Qed.

Lemma view_set_same base c d : sim_view (set_channel (is_primary base) c d) base = view c.
Proof. unfold sim_view. by rewrite get_set, bool_decide_true. Qed.

Lemma view_set_other base c d b :
  is_base base -> is_base b -> b <> base -> sim_view (set_channel (is_primary base) c d) b = sim_view d b.
Proof.
  intros Hbase Hb Hne. unfold sim_view. rewrite get_set, bool_decide_false; [done|].
  destruct Hbase as [-> | ->], Hb as [-> | ->]; done.
Qed.

Lemma with_phase_ok ph busy c : sim_channel_ok c -> phase_ok ph -> (busy < 1000)%nat -> sim_channel_ok (with_phase ph busy c).
Proof. intros [] Hph Hb. by constructor. Qed.

Lemma phase_in_ok ws : Forall word_ok ws -> phase_ok (phase_in ws).
Proof. intros H. by destruct ws. Qed.

Lemma view_sector_ok c sl lba : sim_channel_ok c -> sector_ok (ch_sector (view c) sl lba).
Proof.
  intros [_ _ Hs]. cbn. destruct (_ !! _) eqn:E; [by apply (Hs _ _ E)|apply zero_sector_ok].
Qed.

Lemma sector_words_ok c sl n : forall lba, sim_channel_ok c -> Forall word_ok (sector_words (view c) sl lba n).
Proof.
  induction n as [|n IH]; intros lba Hc; [constructor|]. cbn [sector_words]. apply Forall_app. split; [|by apply IH].
  apply bytes_words_ok. by destruct (view_sector_ok c sl lba Hc).
Qed.

Lemma length_word_bytes ws : length (word_bytes ws) = (2 * length ws)%nat.
Proof.
  induction ws as [|w ws IH]; [done|]. unfold word_bytes in *. cbn [flat_map]. rewrite length_app, IH, length_le. cbn. lia.
Qed.

Lemma word_bytes_ok ws : bytes_ok (word_bytes ws).
Proof.
  induction ws as [|w ws IH]; [constructor|]. unfold word_bytes in *. cbn [flat_map]. apply Forall_app.
  split; [apply le_bytes_ok|apply IH].
Qed.

Lemma on_command_ok cmd c : sim_channel_ok c -> sim_channel_ok (on_command cmd c).
Proof.
  intros Hc. unfold on_command. cbv zeta. destruct (_ =? _); [|destruct (_ =? _)]; apply with_phase_ok; try done; try lia.
  - by apply phase_in_ok, sector_words_ok.
  - cbn. split; [constructor|lia].
Qed.

Lemma on_word_ok v c : sim_channel_ok c -> word_ok v -> sim_channel_ok (on_word v c).
Proof.
  intros Hc Hv. unfold on_word. destruct (sc_phase c) as [|ws|sl lba n ws] eqn:Hph; [done..|]. cbv zeta.
  destruct Hc as [Hphase Hb Hs]. rewrite Hph in Hphase. destruct Hphase as [Hws Hlen].
  assert (Forall word_ok (ws ++ [v])) as Hws' by (apply Forall_app; split; [done|by apply Forall_singleton]).
  destruct (decide _) as [Hmore|Hlast]; [apply with_phase_ok; [constructor; [by rewrite Hph|done|done]|by split|lia]|].
  rewrite length_app in Hlast. cbn in Hlast. constructor; cbn [sc_phase sc_busy sc_sectors].
  - destruct n as [|[|n]]; try exact I. cbn. split; [constructor|lia].
  - lia.
  - apply map_Forall_insert_2; [|done]. split; [|apply word_bytes_ok]. rewrite length_word_bytes, length_app. cbn. lia.
Qed.

Lemma status_bits c :
  Z.testbit (status_of c) 7 = bool_decide (sc_busy c <> O) /\ Z.testbit (status_of c) 0 = false /\
  Z.testbit (status_of c) 5 = false /\ status_of c <> 0xFF /\ 0 <= status_of c < 2 ^ 8 /\
  (sc_busy c = O -> Z.testbit (status_of c) 3 = match sc_phase c with Idle => false | _ => true end).
Proof.
  unfold status_of. destruct (decide (sc_busy c = O)) as [H0|H0].
  - rewrite bool_decide_false by tauto. destruct (sc_phase c); by split_and!.
  - rewrite bool_decide_true by done. split_and!; try done.
Qed.

#[export] Program Instance sim_hardware : AtaHardware sim := {
  hw_ok := sim_ok;
  hw_channel := sim_view;
}.
Next Obligation. intros d base Hd _. apply Hd. Qed.
Next Obligation. intros d base sl lba Hd _. by apply view_sector_ok. Qed.
Next Obligation.
  intros d base v d' Hd Hb Hin. cbn in Hin. unfold sim_in8 in Hin. rewrite decode_base in Hin by (done || lia).
  cbn [Z.eqb Pos.eqb] in Hin. set (c := get_channel _ d) in Hin. injection Hin as <- <-.
  destruct (Hd (is_primary base)) as [Hph Hbusy Hsec]. fold c in Hph, Hbusy, Hsec.
  destruct (status_bits c) as (H7 & H0 & H5 & Hff & Hr & H3). rewrite (wrap_small 8) by done. split_and!.
  - apply sim_ok_set; [done|]. apply with_phase_ok; [by constructor|done|lia].
  - rewrite view_set_same. constructor; [done|done|done|exact H7| |].
    + intros Hne. split_and!; [exact H0|exact H5|exact Hff|]. intros Hz. rewrite (H3 Hz).
      change (sc_phase c <> Idle) in Hne. by destruct (sc_phase c).
    + intros Hidle Hz. rewrite (H3 Hz). change (sc_phase c = Idle) in Hidle. by rewrite Hidle.
  - intros b Hbb Hne. by apply view_set_other.
Qed.
Next Obligation.
  intros d base v d' Hd Hb Hidle Hin. cbn in Hin. unfold sim_in8 in Hin.
  rewrite (decode_data base Hb) in Hin.
  cbn [Z.eqb] in Hin. injection Hin as <- <-. done.
Qed.
Next Obligation.
  intros d base r v Hd Hb Hr Hv Hidle Hbusy d'. subst d'. unfold port_out, sim_ports, sim_out8. rewrite decode_base by (done || lia).
  set (c := get_channel _ d). change (sc_phase c = Idle) in Hidle. change (sc_busy c = O) in Hbusy.
  unfold ready_idle. rewrite Hidle, Hbusy. cbn [negb].
  rewrite (proj2 (Z.eqb_neq r 7)) by lia. rewrite view_set_same. split_and!; try done.
  - apply sim_ok_set; [done|]. constructor; cbn; [done|lia|apply Hd].
  - intros b Hbb Hne. by apply view_set_other.
Qed.
Next Obligation.
  intros d base cmd Hd Hb Hcmd Hidle Hbusy d'. subst d'. unfold port_out, sim_ports, sim_out8. rewrite decode_base by (done || lia).
  set (c := get_channel _ d). change (sc_phase c = Idle) in Hidle. change (sc_busy c = O) in Hbusy.
  unfold ready_idle. rewrite Hidle, Hbusy. cbn [negb Z.eqb Pos.eqb]. rewrite view_set_same.
  change (hw_channel d base) with (view c). change (sim_view d base) with (view c). split_and!.
  - apply sim_ok_set; [done|]. apply on_command_ok, Hd.
  - intros b Hbb Hne. by apply view_set_other.
  - unfold on_command. cbv zeta. constructor.
    + intros sl lba. destruct (_ =? _); [done|]. by destruct (_ =? _).
    + intros -> _ Hn. cbn [Z.eqb Pos.eqb]. rewrite Z.eqb_refl. right. cbn [view with_phase ch_phase sc_phase ch_registers] in *.
      destruct (Z.to_nat (r_count (sc_registers c))) as [|n] eqn:En; [lia|]. cbn [sector_words].
      destruct (view_sector_ok c (r_slave (sc_registers c)) (r_lba (sc_registers c)) (Hd _)) as [Hl _].
      pose proof (length_bytes_words 256 _ Hl) as Hw. by destruct (bytes_words _).
    + intros -> _ Hn. right. done.
    + intros ->. done.
Qed.
Next Obligation.
  intros d base Hd Hb Hidle Hbusy d'. subst d'. unfold port_out, sim_ports, sim_out8. rewrite decode_base by (done || lia).
  set (c := get_channel _ d). change (sc_phase c = Idle) in Hidle. change (sc_busy c <> O) in Hbusy.
  unfold ready_idle. rewrite Hidle. destruct (sc_busy c); [done|]. cbn [negb]. done.
Qed.
Next Obligation.
  intros d base w ws v d' Hd Hb Hph Hbusy Hin. cbn in Hin. unfold sim_in16 in Hin.
  rewrite (decode_data base Hb) in Hin.
  set (c := get_channel _ d) in Hin. change (sc_phase c = DataIn (w :: ws)) in Hph. rewrite Hph in Hin. injection Hin as <- <-.
  destruct (Hd (is_primary base)) as [Hphase Hbu Hsec]. fold c in Hphase. rewrite Hph in Hphase.
  destruct Hphase as [_ [Hw Hws]%Forall_cons]. rewrite view_set_same. split_and!.
  - apply sim_ok_set; [done|]. apply with_phase_ok; [apply Hd|by apply phase_in_ok|destruct (decide _); lia].
  - by apply wrap_small.
  - constructor; cbn; [done|by destruct ws|]. intros Hne. by rewrite decide_False.
  - intros b Hbb Hne. by apply view_set_other.
Qed.
Next Obligation.
  intros d base sl lba n ws v Hd Hb Hv Hph Hbusy d'. subst d'. unfold port_out16, sim_ports16, sim_out16.
  rewrite (decode_data base Hb).
  set (c := get_channel _ d). change (sc_phase c = DataOut sl lba n ws) in Hph. rewrite view_set_same.
  split_and!.
  - apply sim_ok_set; [done|]. apply on_word_ok; [apply Hd|done].
  - intros b Hbb Hne. by apply view_set_other.
  - unfold on_word. rewrite Hph. cbv zeta. constructor; intros Hlen.
    + rewrite decide_True by done. done.
    + rewrite decide_False by lia. cbn. split_and!; [by destruct n as [|[|n]]|by rewrite lookup_insert_eq|].
      intros sl' lba' Hne. by rewrite lookup_insert_ne by congruence.
Qed.

(** It aborts no transfer. *)
Lemma sim_never_aborts : never_aborts (D := sim).
Proof.
  intros d base cmd Hd Hb Hcmd Hidle Hbusy _ Hpos. unfold port_out, sim_ports, sim_out8.
  rewrite decode_base by (done || lia). set (c := get_channel _ d).
  change (sc_phase c = Idle) in Hidle. change (sc_busy c = O) in Hbusy. change (0 < r_count (sc_registers c)) in Hpos.
  unfold ready_idle. rewrite Hidle, Hbusy. cbn [negb Z.eqb Pos.eqb]. change (hw_channel ?x base) with (sim_view x base).
  rewrite view_set_same. destruct Hcmd as [-> | ->]; cbn; [|done].
  destruct (Z.to_nat (r_count (sc_registers c))) as [|n] eqn:En; [lia|]. cbn [sector_words].
  destruct (view_sector_ok c (r_slave (sc_registers c)) (r_lba (sc_registers c)) (Hd _)) as [Hl _].
  pose proof (length_bytes_words 256 _ Hl) as Hw. cbn in Hw. by destruct (bytes_words _).
Qed.
