(* ===== verification/Ext2OnAta.v ===== *)
(** The disk driver's transfers as theorems, and the ext2 file system on top of
    the disk driver: what a block written through both leaves on the drive. *)
From S2P Require Import Prelude Bytes Wp PageAllocator Interrupts Ports Pci Ata BlockDevice.
From S2P Require Import AtaSpec AtaInit AtaSim.
From S2P Require Import Ext2 Ext2Dir Ext2File Ext2Examples Ext2Inv Ext2Block Ext2Witness.
Import Pci Ata.

Section transfers.
Context {D : Type} `{!PortIO D, !PortIO16 D, !PortIO32 D, !AtaHardware D}.
Implicit Types s : ata_state D.

(** [n] sectors of a drive. *)
Fixpoint drive_sectors s (k lba : Z) (n : nat) : list Z :=
  match n with
  | O => []
  | S n => drive_sector s k lba ++ drive_sectors s k (lba + 1) n
  end.

Lemma sectors_of_drive s k n : forall lba,
  ata_ok s -> 0 <= k < 4 -> sectors_of (drive_chan s k) (drive_slave k) lba n = drive_sectors s k lba n.
Proof.
  induction n as [|n IH]; intros lba Hs Hk; [done|]. cbn [drive_sectors]. rewrite <- IH by done.
  unfold sectors_of, word_bytes. cbn [sector_words]. rewrite flat_map_app. f_equal.
  unfold drive_sector. rewrite (proj2 (Z.leb_le _ _)), (proj2 (Z.ltb_lt _ _)) by lia. cbn [andb].
  destruct (hw_sector _ _ (drive_slave k) lba (ok_hw s Hs) (data_port_base k)) as [Hl Hb].
  by apply (word_bytes_words 256).
Qed.


End transfers.

Section stack.
Context {A D : Type} `{!PageAllocator A, !PortIO D, !PortIO16 D, !PortIO32 D, !AtaHardware D}.
Implicit Types s : Ext2.ext2_state A (ata_state D).

Lemma sectors_slice s k start n : forall i,
  dev_inv (Ext2.disk s) -> 0 <= i < Z.of_nat n ->
  slice (i * 512) 512 (Ext2Block.sectors (Ext2.disk s) k start n) = drive_sector (Ext2.disk s) k (start + i).
Proof.
  revert start. induction n as [|n IH]; intros start i Hd Hi; [lia|]. cbn [Ext2Block.sectors].
  destruct (dev_sector_ok (Ext2.disk s) k start Hd) as [Hl _].
  destruct (decide (i = 0)) as [->|Hne].
  - unfold slice. rewrite drop_0. rewrite take_app_le by lia. rewrite take_ge by lia. by rewrite Z.add_0_r.
  - unfold slice. rewrite drop_app_ge by lia.
    replace (Z.to_nat (i * 512) - length (dev_sector (Ext2.disk s) k start))%nat with (Z.to_nat ((i - 1) * 512)) by lia.
    fold (slice ((i - 1) * 512) 512 (Ext2Block.sectors (Ext2.disk s) k (start + 1) n)).
    rewrite IH by (done || lia). f_equal. lia.
Qed.

End stack.

(** ** Concrete runs *)

(** The volume of Ext2Examples.v on the first drive of the simulated channels. *)
Definition sim_sectors : gmap (bool * Z) (list Z) :=
  foldr (fun x m => <[(false, x.1.2) := x.2]> m) ∅ (map_to_list (rd_sectors image)).
Definition idle_channel (m : gmap (bool * Z) (list Z)) : sim_channel := SimChannel (Registers 0 0 0 0 0) Idle 0 m.
Definition sim_image : sim := Sim (idle_channel sim_sectors) (idle_channel ∅).
Definition pata_drive : ata_drive_t :=
  Drive DRIVE_TYPE_PATA 0 0 0 128 (replicate 41 0) (replicate 21 0) 0 0 0.
Definition ata_disk : ata_state sim :=
  AtaState (pata_drive :: replicate 7 no_drive) 1 (PciState [] 0 sim_image).

Lemma sim_sectors_ok : map_Forall (fun _ l => sector_ok l) sim_sectors.
Proof.
  pose proof (image_ok []) as Himage. change (map_Forall (fun _ => sector_ok) (rd_sectors image)) in Himage.
  rewrite map_Forall_to_list in Himage. unfold sim_sectors. revert Himage. generalize (map_to_list (rd_sectors image)).
  induction 1 as [|[[k x] l] ls Hl _ IH]; [apply map_Forall_empty|]. cbn. by apply map_Forall_insert_2.
Qed.

Lemma ata_disk_ok : ata_ok ata_disk.
Proof.
  constructor; [|by intros base [-> | ->]|cbn; lia].
  intros [|]; (constructor; [exact I|cbn; lia|]); [apply sim_sectors_ok|apply map_Forall_empty].
Qed.

#[local] Opaque sim_sectors.



Definition ata_vol : Ext2.ext2_state Z (ata_state sim) := mounted_on ata_disk.

Lemma ata_vol_ok : inv ata_vol /\ coherent ata_vol.
Proof.
  apply mounted_ok; [exact ata_disk_ok|reflexivity| |vm_compute; reflexivity].
  assert (dev_sector ata_disk 0 2 = rd_sector image 0 2) as -> by (vm_compute; reflexivity). apply (image_sane []).
Qed.

#[local] Opaque ata_vol.

