(* ===== verification/Memory.v ===== *)
(** Byte accesses to the memory of Vmm.v: what a C pointer to bytes or to a
    packed structure does, through the processor's address translation, with
    [memset] and [memcpy] of lib/string.c.  The lemmas run them on addresses
    the processor maps to themselves, and say which bytes and words of physical
    memory they change. *)
From S2P Require Import Prelude PmmSpec PageAllocator Bytes Vmm.

Module Memory.

(** Byte [k] of a word, and the word with byte [k] replaced. *)
Definition word_byte (w k : Z) : Z := (w / 256 ^ k) mod 256.
Definition set_word_byte (w k b : Z) : Z := w + (b - word_byte w k) * 256 ^ k.

(** The byte at physical address [a]. *)
Definition mem_byte (m : gmap Z Z) (a : Z) : Z := word_byte (mem_read m (a - a mod 8)) (a mod 8).
Definition put_mem_byte (m : gmap Z Z) (a b : Z) : gmap Z Z :=
  <[a - a mod 8 := set_word_byte (mem_read m (a - a mod 8)) (a mod 8) b]> m.

Definition mem_bytes (m : gmap Z Z) (a n : Z) : list Z := (fun i => mem_byte m (a + i)) <$> seqZ 0 n.

(** The [n]-byte integer at [a]. *)
Definition mem_int (m : gmap Z Z) (n : nat) (a : Z) : Z := un_le (mem_bytes m a (Z.of_nat n)).

Section ops.
  Context {A : Type} `{!Mmu}.
  Local Abbreviation V := (M (Vmm.vmm_state A)).

(** The byte a pointer points to. *)
Definition load8 (va : Z) : V Z := fun s =>
  match mmu_translate (Vmm.mem s) (Vmm.cr3 s) va with
  | Some pa => (Ret (mem_byte (Vmm.mem s) pa), s)
  | None => (Fault, s)
  end.

Definition store8 (va b : Z) : V unit := fun s =>
  match mmu_translate (Vmm.mem s) (Vmm.cr3 s) va with
  | Some pa => (Ret tt, Vmm.set_mem (put_mem_byte (Vmm.mem s) pa (u8 b)) s)
  | None => (Fault, s)
  end.

(** [n] bytes from [va] on, and their value as an unsigned integer. *)
Fixpoint load_bytes (n : nat) (va : Z) : V (list Z) :=
  match n with
  | O => mret []
  | S n => b ← load8 va; l ← load_bytes n (u64 (va + 1)); mret (b :: l)
  end.
Definition load_int (n : nat) (va : Z) : V Z := l ← load_bytes n va; mret (un_le l).

Fixpoint store_bytes (va : Z) (l : list Z) : V unit :=
  match l with
  | [] => mret tt
  | b :: l => store8 va b;; store_bytes (u64 (va + 1)) l
  end.
Definition store_int (n : nat) (va v : Z) : V unit := store_bytes va (le n v).

Definition memset (va c n : Z) : V unit := mfor (Z.to_nat n) 0 (fun i => store8 (u64 (va + i)) c).

Definition memcpy (dest src n : Z) : V unit :=
  mfor (Z.to_nat n) 0 (fun i => b ← load8 (u64 (src + i)); store8 (u64 (dest + i)) b).
End ops.

End Memory.

(** ** Bytes of words *)
Import Memory.

Lemma word_byte_ok w k : byte_ok (word_byte w k).
Proof. unfold byte_ok, word_byte. apply Z.mod_pos_bound. lia. Qed.

Lemma word_byte_set_eq w k b : 0 <= k -> byte_ok b -> word_byte (set_word_byte w k b) k = b.
Proof.
  intros Hk Hb. unfold word_byte at 1, set_word_byte. rewrite Z.div_add by lia.
  unfold word_byte, byte_ok in *. pose proof (Z.div_mod (w / 256 ^ k) 256 ltac:(lia)).
  symmetry. apply (Z.mod_unique _ _ (w / 256 ^ k / 256)); lia.
Qed.

Lemma pow256_split j k : 0 <= j < k -> 256 ^ k = 256 ^ j * (256 * 256 ^ (k - j - 1)).
Proof. intros. rewrite <- Z.pow_succ_r, <- Z.pow_add_r by lia. f_equal. lia. Qed.

Lemma word_byte_set_ne w k j b : 0 <= k -> 0 <= j -> byte_ok b -> j <> k ->
  word_byte (set_word_byte w k b) j = word_byte w j.
Proof.
  intros Hk Hj Hb Hne. unfold word_byte at 1, set_word_byte.
  set (d := b - word_byte w k). destruct (decide (j < k)).
  - rewrite (pow256_split j k) by lia.
    replace (w + d * (256 ^ j * (256 * 256 ^ (k - j - 1))))
      with (w + (d * 256 ^ (k - j - 1) * 256) * 256 ^ j) by ring.
    rewrite Z.div_add by lia. by rewrite Z_mod_plus_full.
  - unfold word_byte. rewrite (pow256_split k j) by lia.
    rewrite <- !(Z.div_div _ (256 ^ k)) by lia.
    rewrite Z.div_add by lia. rewrite <- !(Z.div_div _ 256) by lia.
    do 2 f_equal. unfold d, word_byte, byte_ok in *.
    pose proof (Z.div_mod (w / 256 ^ k) 256 ltac:(lia)).
    symmetry. apply (Z.div_unique _ _ _ b); lia.
Qed.

Lemma set_word_byte_range w k b :
  0 <= w < 2 ^ 64 -> 0 <= k < 8 -> byte_ok b -> 0 <= set_word_byte w k b < 2 ^ 64.
Proof.
  intros Hw Hk Hb. unfold set_word_byte, word_byte, byte_ok in *.
  assert (0 < 256 ^ k) by lia.
  pose proof (Z.div_mod w (256 ^ k) ltac:(lia)) as D1.
  pose proof (Z.mod_pos_bound w (256 ^ k) ltac:(lia)) as D2.
  set (q := w / 256 ^ k) in *. set (r := w mod 256 ^ k) in *.
  pose proof (Z.div_mod q 256 ltac:(lia)) as D3. pose proof (Z.mod_pos_bound q 256 ltac:(lia)).
  set (q' := q / 256) in *. set (b0 := q mod 256) in *.
  replace (w + (b - b0) * 256 ^ k) with (256 ^ k * (256 * q' + b) + r) by (rewrite D1, D3; ring).
  assert (0 <= q' < 256 ^ (7 - k)) as Hq.
  { assert (2 ^ 64 = 256 ^ k * (256 * 256 ^ (7 - k))) as E.
    { change (2 ^ 64) with (256 ^ 8). rewrite (pow256_split k 8) by lia. do 3 f_equal. lia. }
    split; [unfold q', q; apply Z.div_pos; [apply Z.div_pos|]; lia|].
    apply Z.div_lt_upper_bound; [lia|]. apply Z.div_lt_upper_bound; [lia|]. lia. }
  assert (2 ^ 64 = 256 ^ k * (256 * 256 ^ (7 - k))) as E.
  { change (2 ^ 64) with (256 ^ 8). rewrite (pow256_split k 8) by lia. do 3 f_equal. lia. }
  rewrite E. split; [nia|].
  assert (256 * q' + b <= 256 * 256 ^ (7 - k) - 1) by lia. nia.
Qed.

Lemma mem_byte_ok m a : byte_ok (mem_byte m a).
Proof. apply word_byte_ok. Qed.

(** ** What an operation writes *)

(** From [m] to [m'] only bytes of the region [R] change. *)
Record writes (R : Z -> Prop) (m m' : gmap Z Z) : Prop := {
  wr_byte a : ~ R a -> mem_byte m' a = mem_byte m a;
  wr_word a : (forall k, 0 <= k < 8 -> ~ R (a + k)) -> mem_read m' a = mem_read m a;
  wr_range : (forall a, 0 <= mem_read m a < 2 ^ 64) -> forall a, 0 <= mem_read m' a < 2 ^ 64;
}.

(** The [n] addresses from [a] on. *)
Definition span (a n x : Z) : Prop := a <= x < a + n.

Lemma writes_refl R m : writes R m m.
Proof. by constructor. Qed.

Lemma writes_trans (R : Z -> Prop) m1 m2 m3 : writes R m1 m2 -> writes R m2 m3 -> writes R m1 m3.
Proof.
  intros H1 H2. constructor.
  - intros a Ha. by rewrite (wr_byte _ _ _ H2), (wr_byte _ _ _ H1).
  - intros a Ha. by rewrite (wr_word _ _ _ H2), (wr_word _ _ _ H1).
  - intros Hr. by apply (wr_range _ _ _ H2), (wr_range _ _ _ H1).
Qed.

Lemma writes_mono (R R' : Z -> Prop) m m' : (forall a, R a -> R' a) -> writes R m m' -> writes R' m m'.
Proof.
  intros HR H. constructor; [intros a Ha; apply H; auto| |apply H].
  intros a Ha. apply H. intros k Hk Hr. by apply (Ha k), HR.
Qed.

Lemma mem_byte_put_eq m a b : byte_ok b -> mem_byte (put_mem_byte m a b) a = b.
Proof.
  intros Hb. unfold mem_byte, put_mem_byte, mem_read. rewrite lookup_insert_eq. simpl.
  apply word_byte_set_eq; [apply Z.mod_pos_bound; lia|done].
Qed.

Lemma writes_put m a b : byte_ok b -> writes (eq a) m (put_mem_byte m a b).
Proof.
  intros Hb. pose proof (Z.mod_pos_bound a 8 ltac:(lia)). constructor.
  - intros x Hx. unfold mem_byte, put_mem_byte, mem_read.
    destruct (decide (a - a mod 8 = x - x mod 8)) as [E|E]; [|by rewrite lookup_insert_ne].
    rewrite E, lookup_insert_eq. simpl. pose proof (Z.mod_pos_bound x 8 ltac:(lia)).
    apply word_byte_set_ne; lia || done.
  - intros x Hx. unfold put_mem_byte, mem_read. rewrite lookup_insert_ne; [done|].
    intros E. apply (Hx (a mod 8)); [lia|]. lia.
  - intros Hr x. unfold put_mem_byte, mem_read. destruct (decide (a - a mod 8 = x)) as [<-|E].
    + rewrite lookup_insert_eq. simpl. apply set_word_byte_range; [apply Hr|lia|done].
    + rewrite lookup_insert_ne by done. apply Hr.
Qed.

(** ** Byte strings in memory *)

Lemma length_mem_bytes m a n : length (mem_bytes m a n) = Z.to_nat n.
Proof. unfold mem_bytes. by rewrite length_fmap, length_seqZ. Qed.

Lemma zlen_mem_bytes m a n : 0 <= n -> zlen (mem_bytes m a n) = n.
Proof. intros. unfold zlen. rewrite length_mem_bytes. lia. Qed.

Lemma lookup_mem_bytes m a n i :
  (i < Z.to_nat n)%nat -> mem_bytes m a n !! i = Some (mem_byte m (a + Z.of_nat i)).
Proof.
  intros Hi. unfold mem_bytes. rewrite list_lookup_fmap, lookup_seqZ_lt by lia. simpl.
  by rewrite Z.add_0_l.
Qed.

Lemma mem_bytes_ok m a n : bytes_ok (mem_bytes m a n).
Proof. apply Forall_fmap, Forall_true. intros i. apply mem_byte_ok. Qed.

Lemma mem_bytes_ext m m' a n :
  (forall x, span a n x -> mem_byte m' x = mem_byte m x) -> mem_bytes m' a n = mem_bytes m a n.
Proof.
  intros H. unfold mem_bytes. apply list_fmap_ext. intros i x Hi%lookup_seqZ. apply H.
  unfold span. lia.
Qed.

Lemma mem_bytes_frame R m m' a n :
  writes R m m' -> (forall x, span a n x -> ~ R x) -> mem_bytes m' a n = mem_bytes m a n.
Proof. intros H HR. apply mem_bytes_ext. intros x Hx. by apply H, HR. Qed.

Lemma mem_bytes_cons m a n : 0 < n -> mem_bytes m a n = mem_byte m a :: mem_bytes m (a + 1) (n - 1).
Proof.
  intros Hn. apply list_eq. intros [|i].
  - rewrite lookup_mem_bytes by lia. simpl. by rewrite Z.add_0_r.
  - destruct (decide (S i < Z.to_nat n)%nat).
    + cbn [lookup list_lookup]. rewrite lookup_mem_bytes by lia.
      etrans; [|symmetry; apply lookup_mem_bytes; lia]. do 2 f_equal. lia.
    + rewrite !lookup_ge_None_2; [done|cbn [length]|]; rewrite length_mem_bytes; lia.
Qed.

Lemma slice_mem_bytes m a n i k :
  0 <= i -> 0 <= k -> i + k <= n -> slice i k (mem_bytes m a n) = mem_bytes m (a + i) k.
Proof.
  intros Hi Hk Hn. apply list_eq. intros j. destruct (decide (j < Z.to_nat k)%nat).
  - rewrite lookup_slice, !lookup_mem_bytes by lia. do 2 f_equal. lia.
  - rewrite !lookup_ge_None_2; [done|rewrite length_mem_bytes; lia|].
    rewrite length_slice by (rewrite ?zlen_mem_bytes; lia). lia.
Qed.

Lemma mem_int_slice m n a k off :
  0 <= off -> off + Z.of_nat k <= n ->
  mem_int m k (a + off) = un_le (slice off (Z.of_nat k) (mem_bytes m a n)).
Proof. intros. unfold mem_int. by rewrite slice_mem_bytes by lia. Qed.

Lemma mem_int_range m n a : 0 <= mem_int m n a < 256 ^ Z.of_nat n.
Proof.
  pose proof (un_le_range _ (mem_bytes_ok m a (Z.of_nat n))) as Hr.
  rewrite length_mem_bytes, Nat2Z.id in Hr. done.
Qed.

Lemma mem_int_frame R m m' n a :
  writes R m m' -> (forall x, span a (Z.of_nat n) x -> ~ R x) -> mem_int m' n a = mem_int m n a.
Proof. intros H HR. unfold mem_int. by rewrite (mem_bytes_frame R m m'). Qed.

(** ** Running the accesses *)

(** The processor maps the addresses of [W] to themselves, whatever the tables
    hold elsewhere. *)
Class IdentityMap `{Mmu} (W : Z -> Prop) : Prop :=
  identity_translate m cr3 a : W a -> mmu_translate m cr3 a = Some a.

Section run.
  Context {A : Type} `{!Mmu} (W : Z -> Prop) `{!IdentityMap W}.
  Implicit Types s : Vmm.vmm_state A.

(** [n] bytes at [a] can be accessed. *)
Definition window (a n : Z) : Prop := 0 <= a /\ a + n <= 2 ^ 64 /\ forall x, span a n x -> W x.

Lemma window_sub a n a' n' : window a n -> a <= a' -> a' + n' <= a + n -> window a' n'.
Proof using Type.
  intros (H0 & H1 & HW) Ha Hn. split_and!; [lia|lia|]. intros x Hx. apply HW. unfold span in *. lia.
Qed.

Lemma run_load8 a s : W a -> load8 a s = (Ret (mem_byte (Vmm.mem s) a), s).
Proof using Type*. intros Ha. unfold load8. by rewrite identity_translate. Qed.

Lemma run_store8 a b s : W a -> store8 a b s = (Ret tt, Vmm.set_mem (put_mem_byte (Vmm.mem s) a (u8 b)) s).
Proof using Type*. intros Ha. unfold store8. by rewrite identity_translate. Qed.

Lemma run_load_bytes n a s :
  window a (Z.of_nat n) -> load_bytes n a s = (Ret (mem_bytes (Vmm.mem s) a (Z.of_nat n)), s).
Proof using Type*.
  revert a. induction n as [|n IH]; intros a Ha; [done|]. cbn [load_bytes].
  destruct Ha as (H0 & H1 & HW).
  mstep run_load8; [|apply HW; unfold span; lia].
  destruct (decide (n = 0%nat)) as [->|Hn].
  { cbn [load_bytes]. mstep. rewrite run_ret. by rewrite mem_bytes_cons by lia. }
  rewrite wrap_small by lia. mstep (IH (a + 1)).
  2:{ split_and!; [lia..|]. intros x Hx. apply HW. unfold span in *. lia. }
  rewrite run_ret, (mem_bytes_cons _ a) by lia. do 3 f_equal. f_equal. lia.
Qed.

Lemma run_load_int n a s :
  window a (Z.of_nat n) -> load_int n a s = (Ret (mem_int (Vmm.mem s) n a), s).
Proof using Type*. intros Ha. unfold load_int. by mstep (run_load_bytes n a s Ha). Qed.

Lemma u8_byte_ok b : byte_ok (u8 b).
Proof using Type. unfold byte_ok. apply (wrap_range 8). lia. Qed.

Lemma run_store_bytes l a s :
  window a (zlen l) -> bytes_ok l ->
  exists m, store_bytes a l s = (Ret tt, Vmm.set_mem m s) /\
    writes (span a (zlen l)) (Vmm.mem s) m /\ mem_bytes m a (zlen l) = l.
Proof using Type*.
  revert a s. induction l as [|b l IH]; intros a s Ha Hl.
  { exists (Vmm.mem s). split_and!; [by destruct s|apply writes_refl|done]. }
  apply Forall_cons in Hl as [Hb Hl]. destruct Ha as (H0 & H1 & HW).
  unfold zlen in *. cbn [length store_bytes] in *.
  mstep run_store8; [|apply HW; unfold span; lia].
  assert (u8 b = b) as -> by (apply wrap_small; unfold byte_ok in Hb; lia).
  set (s1 := Vmm.set_mem _ s).
  destruct (decide (l = [])) as [->|Hne].
  { exists (put_mem_byte (Vmm.mem s) a b). split_and!; [done| |].
    - eapply writes_mono; [|by apply writes_put]. intros x <-. unfold span. cbn. lia.
    - rewrite mem_bytes_cons by (cbn; lia). by rewrite mem_byte_put_eq. }
  assert (0 < Z.of_nat (length l)) by (destruct l; [done|cbn; lia]).
  rewrite wrap_small by lia.
  destruct (IH (a + 1) s1) as (m & R & Hw & Hm); [|done|].
  { split_and!; [lia..|]. intros x Hx. apply HW. unfold span in *. lia. }
  exists m. split_and!.
  - rewrite R. by destruct s.
  - eapply writes_trans; [eapply writes_mono; [|by apply writes_put]|eapply writes_mono; [|exact Hw]].
    + intros x <-. unfold span. lia.
    + intros x. unfold span. lia.
  - rewrite mem_bytes_cons by lia. rewrite (wr_byte _ _ _ Hw) by (unfold span; lia).
    replace (Z.of_nat (S (length l)) - 1) with (Z.of_nat (length l)) by lia. rewrite Hm. f_equal.
    by apply mem_byte_put_eq.
Qed.

Lemma run_store_int n a v s :
  window a (Z.of_nat n) ->
  exists m, store_int n a v s = (Ret tt, Vmm.set_mem m s) /\
    writes (span a (Z.of_nat n)) (Vmm.mem s) m /\ mem_int m n a = v mod 256 ^ Z.of_nat n.
Proof using Type*.
  intros Ha. unfold store_int. assert (Hl : zlen (le n v) = Z.of_nat n) by (unfold zlen; by rewrite length_le).
  rewrite <- Hl in *. destruct (run_store_bytes (le n v) a s Ha (le_bytes_ok n v)) as (m & R & Hw & Hm).
  exists m. split_and!; [done|done|]. rewrite Hl in Hm. unfold mem_int. rewrite Hm, un_le_le.
  by rewrite Hl.
Qed.

Lemma run_memset a c n s :
  0 <= n -> window a n ->
  exists m, memset a c n s = (Ret tt, Vmm.set_mem m s) /\
    writes (span a n) (Vmm.mem s) m /\ forall x, span a n x -> mem_byte m x = u8 c.
Proof using Type*.
  intros Hn (H0 & H1 & HW).
  destruct (run_for_inv (fun j s0 => exists m, s0 = Vmm.set_mem m s /\
      writes (span a n) (Vmm.mem s) m /\ forall x, span a j x -> mem_byte m x = u8 c)
    (Z.to_nat n) 0 (fun i => store8 (u64 (a + i)) c) s) as (s' & R & m & -> & Hw & Hm).
  - exists (Vmm.mem s). split_and!; [by destruct s|apply writes_refl|unfold span; lia].
  - intros j s0 Hj (m & -> & Hw & Hm). rewrite wrap_small by lia.
    eexists. split; [apply run_store8, HW; unfold span; lia|].
    eexists. split_and!; [done| |].
    + eapply writes_trans; [exact Hw|]. eapply writes_mono; [|apply writes_put, u8_byte_ok].
      intros x <-. unfold span. lia.
    + intros x Hx. destruct (decide (x = a + j)) as [->|Hne].
      * apply mem_byte_put_eq, u8_byte_ok.
      * rewrite (wr_byte _ _ _ (writes_put _ _ _ (u8_byte_ok c))) by done.
        apply Hm. unfold span in *. lia.
  - exists m. split_and!; [exact R|done|]. intros x Hx. apply Hm. unfold span in *. lia.
Qed.

Lemma run_memcpy d a n s :
  0 <= n -> window d n -> window a n -> (forall x, span a n x -> ~ span d n x) ->
  exists m, memcpy d a n s = (Ret tt, Vmm.set_mem m s) /\
    writes (span d n) (Vmm.mem s) m /\
    forall i, 0 <= i < n -> mem_byte m (d + i) = mem_byte (Vmm.mem s) (a + i).
Proof using Type*.
  intros Hn (D0 & D1 & DW) (A0 & A1 & AW) Hdis.
  destruct (run_for_inv (fun j s0 => exists m, s0 = Vmm.set_mem m s /\
      writes (span d n) (Vmm.mem s) m /\
      forall i, 0 <= i < j -> mem_byte m (d + i) = mem_byte (Vmm.mem s) (a + i))
    (Z.to_nat n) 0 (fun i => b ← load8 (u64 (a + i)); store8 (u64 (d + i)) b) s)
    as (s' & R & m & -> & Hw & Hm).
  - exists (Vmm.mem s). split_and!; [by destruct s|apply writes_refl|lia].
  - intros j s0 Hj (m & -> & Hw & Hm). rewrite !wrap_small by lia.
    eexists. split.
    { mstep run_load8; [|apply AW; unfold span; lia]. apply run_store8, DW. unfold span; lia. }
    cbn [Vmm.mem Vmm.set_mem]. rewrite (wr_byte _ _ _ Hw) by (apply Hdis; unfold span; lia).
    set (b := mem_byte (Vmm.mem s) (a + j)).
    assert (Hb : byte_ok b) by apply mem_byte_ok.
    assert (u8 b = b) as -> by (apply wrap_small; unfold byte_ok in Hb; lia).
    eexists. split_and!; [done| |].
    + eapply writes_trans; [exact Hw|]. eapply writes_mono; [|by apply writes_put].
      intros x <-. unfold span. lia.
    + intros i Hi. destruct (decide (i = j)) as [->|Hne]; [by apply mem_byte_put_eq|].
      rewrite (wr_byte _ _ _ (writes_put m (d + j) b Hb)) by lia. apply Hm. lia.
  - exists m. split_and!; [exact R|done|]. intros i Hi. apply Hm. lia.
Qed.
End run.
