(* ===== verification/Elf.v ===== *)
(** The ELF loader, core/exec/elf.c: parsing an image in memory, loading and
    unloading its segments, and looking up symbols.

    Everything is in the memory of Vmm.v: an [elf_file_t *] is an address, and
    so are the pointers into the image.  A field is its offset in the packed
    structure.  Logging is left out; [elf_parse_file], which also needs the file
    system, is in Kernel.v. *)
From S2P Require Import Prelude PmmSpec PageAllocator Bytes Vmm Memory.
Import Memory.

Module Elf.

(** ** Constants of core/exec/elf.h *)

Definition ELF_MAGIC : Z := 0x464C457F.
Definition ELFCLASS64 : Z := 2.
Definition ELFDATA2LSB : Z := 1.
Definition ET_EXEC : Z := 2.
Definition ET_DYN : Z := 3.
Definition EM_X86_64 : Z := 62.
Definition PT_LOAD : Z := 1.
Definition PF_X : Z := 1.
Definition PF_W : Z := 2.
Definition SHT_SYMTAB : Z := 2.
Definition SHT_STRTAB : Z := 3.

(** [elf64_ehdr_t] *)
Definition e_ident : Z := 0.
Definition e_type : Z := 16.
Definition e_machine : Z := 18.
Definition e_entry : Z := 24.
Definition e_phoff : Z := 32.
Definition e_shoff : Z := 40.
Definition e_phentsize : Z := 54.
Definition e_phnum : Z := 56.
Definition e_shentsize : Z := 58.
Definition e_shnum : Z := 60.
Definition e_shstrndx : Z := 62.
Definition sizeof_ehdr : Z := 64.

(** [elf64_phdr_t] *)
Definition p_type : Z := 0.
Definition p_flags : Z := 4.
Definition p_offset : Z := 8.
Definition p_vaddr : Z := 16.
Definition p_filesz : Z := 32.
Definition p_memsz : Z := 40.
Definition sizeof_phdr : Z := 56.

(** [elf64_shdr_t] *)
Definition sh_name : Z := 0.
Definition sh_type : Z := 4.
Definition sh_offset : Z := 24.
Definition sh_size : Z := 32.
Definition sh_link : Z := 40.
Definition sizeof_shdr : Z := 64.

(** [elf64_sym_t] *)
Definition st_name : Z := 0.
Definition st_value : Z := 8.
Definition sizeof_sym : Z := 24.

(** [elf_file_t] *)
Definition data : Z := 0.
Definition size : Z := 8.
Definition header : Z := 16.
Definition program_headers : Z := 80.
Definition section_headers : Z := 88.
Definition symtab : Z := 96.
Definition symtab_entries : Z := 104.
Definition strtab : Z := 112.
Definition strtab_size : Z := 120.
Definition entry_point : Z := 128.
Definition base_addr : Z := 136.
Definition top_addr : Z := 144.
Definition sizeof_elf : Z := 152.

Definition PAGE_SIZE_4K : Z := 4096.

Section elf.
  Context {A : Type} `{PageAllocator A} `{!Mmu}.
  Local Abbreviation V := (M (Vmm.vmm_state A)).

(** [p->field], a field of [n] bytes. *)
Definition get (n : nat) (p field : Z) : V Z := load_int n (u64 (p + field)).
Definition put (n : nat) (p field v : Z) : V unit := store_int n (u64 (p + field)) v.

(** [elf->header.field] *)
Definition get_header (n : nat) (elf field : Z) : V Z := get n elf (header + field).

Definition alloc_pages (n : Z) : V Z :=
  mlift (fun s => let '(p, a) := pmm_alloc_pages n (Vmm.pmm s) in (p, Vmm.set_pmm a s)).
Definition free_pages (p n : Z) : V unit :=
  mmodify (fun s => Vmm.set_pmm (pmm_free_pages p n (Vmm.pmm s)) s).

(** [(n + PAGE_SIZE_4K - 1) / PAGE_SIZE_4K] *)
Definition pages_of (n : Z) : Z := u64 (n + PAGE_SIZE_4K - 1) / PAGE_SIZE_4K.

(** ** Parsing *)

(** [if (c) return false;] and the rest. *)
Definition refuse_unless (c : bool) (rest : V bool) : V bool := if c then rest else mret false.

Definition elf_validate_header (ehdr : Z) : V bool :=
  magic ← get 4 ehdr e_ident;
  refuse_unless (magic =? ELF_MAGIC) (
  class ← get 1 ehdr (e_ident + 4);
  refuse_unless (class =? ELFCLASS64) (
  encoding ← get 1 ehdr (e_ident + 5);
  refuse_unless (encoding =? ELFDATA2LSB) (
  machine ← get 2 ehdr e_machine;
  refuse_unless (machine =? EM_X86_64) (
  type ← get 2 ehdr e_type;
  refuse_unless ((type =? ET_EXEC) || (type =? ET_DYN)) (
  phentsize ← get 2 ehdr e_phentsize;
  refuse_unless (phentsize =? sizeof_phdr) (
  shentsize ← get 2 ehdr e_shentsize;
  refuse_unless (shentsize =? sizeof_shdr) (
  mret true))))))).

Definition elf_load_program_headers (elf : Z) : V bool :=
  phnum ← get_header 2 elf e_phnum;
  if phnum =? 0 then put 8 elf program_headers NULL;; mret true
  else
    phoff ← get_header 8 elf e_phoff;
    sz ← get 8 elf size;
    if sz <? u64 (phoff + phnum * sizeof_phdr) then mret false
    else
      d ← get 8 elf data;
      put 8 elf program_headers (u64 (d + phoff));;
      mret true.

(** One turn of the loop over the sections. *)
Definition find_tables_in (elf i : Z) : V unit :=
  sections ← get 8 elf section_headers;
  let section := u64 (sections + i * sizeof_shdr) in
  type ← get 4 section sh_type;
  if negb (type =? SHT_SYMTAB) then mret tt
  else
    d ← get 8 elf data;
    offset ← get 8 section sh_offset;
    put 8 elf symtab (u64 (d + offset));;
    sz ← get 8 section sh_size;
    put 4 elf symtab_entries (u32 (sz / sizeof_sym));;
    link ← get 4 section sh_link;
    shnum ← get_header 2 elf e_shnum;
    if negb (link <? shnum) then mret tt
    else
      sections ← get 8 elf section_headers;
      let strtab_section := u64 (sections + link * sizeof_shdr) in
      type ← get 4 strtab_section sh_type;
      if negb (type =? SHT_STRTAB) then mret tt
      else
        d ← get 8 elf data;
        offset ← get 8 strtab_section sh_offset;
        put 8 elf strtab (u64 (d + offset));;
        sz ← get 8 strtab_section sh_size;
        put 8 elf strtab_size sz.

Definition elf_find_symbol_tables (elf : Z) : V bool :=
  sections ← get 8 elf section_headers;
  shnum ← get_header 2 elf e_shnum;
  if (sections =? NULL) || (shnum =? 0) then mret false
  else
    mfor (Z.to_nat shnum) 0 (find_tables_in elf);;
    sym ← get 8 elf symtab;
    str ← get 8 elf strtab;
    mret (negb (sym =? NULL) && negb (str =? NULL)).

Definition elf_load_section_headers (elf : Z) : V bool :=
  shnum ← get_header 2 elf e_shnum;
  if shnum =? 0 then put 8 elf section_headers NULL;; mret true
  else
    shoff ← get_header 8 elf e_shoff;
    sz ← get 8 elf size;
    if sz <? u64 (shoff + shnum * sizeof_shdr) then mret false
    else
      d ← get 8 elf data;
      put 8 elf section_headers (u64 (d + shoff));;
      _ ← elf_find_symbol_tables elf;
      mret true.

Definition elf_parse_memory (image sz elf : Z) : V bool :=
  if (image =? NULL) || (elf =? NULL) || (sz <? sizeof_ehdr) then mret false
  else
    memset elf 0 sizeof_elf;;
    put 8 elf data image;;
    put 8 elf size sz;;
    valid ← elf_validate_header image;
    if negb valid then mret false
    else
      memcpy (u64 (elf + header)) image sizeof_ehdr;;
      ok ← elf_load_program_headers elf;
      if negb ok then mret false
      else
        ok ← elf_load_section_headers elf;
        if negb ok then mret false else mret true.

(** ** Loading *)

(** [vaddr] of a segment: relative to the base for a shared object. *)
Definition segment_vaddr (elf phdr base : Z) : V Z :=
  vaddr ← get 8 phdr p_vaddr;
  type ← get_header 2 elf e_type;
  mret (if type =? ET_DYN then u64 (vaddr + base) else vaddr).

Definition segment_flags (flags : Z) : Z :=
  let f := Vmm.VMM_FLAG_PRESENT in
  let f := if Vmm.has flags PF_W then Z.lor f Vmm.VMM_FLAG_WRITABLE else f in
  if negb (Vmm.has flags PF_X) then Z.lor f Vmm.VMM_FLAG_NO_EXECUTE else f.

(** [vaddr & ~(page_size - 1)] *)
Definition page_start (vaddr : Z) : Z := Z.land vaddr (u64 (Z.lnot (PAGE_SIZE_4K - 1))).

(** The loop that maps the pages of a segment; [false] at the first failure. *)
Fixpoint map_segment (n : nat) (j memory vaddr flags : Z) : V bool :=
  match n with
  | O => mret true
  | S n =>
      ok ← Vmm.vmm_map_page (u64 (vaddr + u64 (j * PAGE_SIZE_4K)))
             (u64 (memory + u64 (j * PAGE_SIZE_4K))) flags;
      if negb ok then mret false else map_segment n (j + 1) memory vaddr flags
  end.

(** The copy of the file's part of a segment; [false] when it is outside the
    file. *)
Definition copy_segment (elf phdr memory pages : Z) : V bool :=
  filesz ← get 8 phdr p_filesz;
  if negb (0 <? filesz) then mret true
  else
    offset ← get 8 phdr p_offset;
    sz ← get 8 elf size;
    if sz <? u64 (offset + filesz) then free_pages memory pages;; mret false
    else
      d ← get 8 elf data;
      memcpy memory (u64 (d + offset)) filesz;;
      mret true.

(** One turn of the loop over the segments. *)
Definition load_segment (elf base i : Z) : V bool :=
  headers ← get 8 elf program_headers;
  let phdr := u64 (headers + i * sizeof_phdr) in
  type ← get 4 phdr p_type;
  if negb (type =? PT_LOAD) then mret true
  else
    vaddr ← segment_vaddr elf phdr base;
    memsz ← get 8 phdr p_memsz;
    let pages := pages_of memsz in
    memory ← alloc_pages pages;
    if memory =? NULL then mret false
    else
      memset memory 0 (u64 (pages * PAGE_SIZE_4K));;
      ok ← copy_segment elf phdr memory pages;
      if negb ok then mret false
      else
        flags ← get 4 phdr p_flags;
        ok ← map_segment (Z.to_nat pages) 0 memory (page_start vaddr) (segment_flags flags);
        if negb ok then mret false
        else
          top ← get 8 elf top_addr;
          (if top <? u64 (vaddr + memsz) then put 8 elf top_addr (u64 (vaddr + memsz)) else mret tt);;
          mret true.

Fixpoint load_loop (n : nat) (elf base i : Z) : V bool :=
  match n with
  | O => mret true
  | S n =>
      ok ← load_segment elf base i;
      if negb ok then mret false else load_loop n elf base (i + 1)
  end.

Definition elf_load_segments (elf base : Z) : V bool :=
  put 8 elf top_addr 0;;
  phnum ← get_header 2 elf e_phnum;
  load_loop (Z.to_nat phnum) elf base 0.

Definition elf_load (elf base : Z) : V bool :=
  if elf =? NULL then mret false
  else
    headers ← get 8 elf program_headers;
    if headers =? NULL then mret false
    else
      put 8 elf base_addr base;;
      ok ← elf_load_segments elf base;
      if negb ok then mret false
      else
        entry ← get_header 8 elf e_entry;
        type ← get_header 2 elf e_type;
        put 8 elf entry_point (u64 (entry + (if type =? ET_DYN then base else 0)));;
        mret true.

(** ** Unloading *)

Definition unload_page (vaddr j : Z) : V unit :=
  let page_virt := u64 (vaddr + u64 (j * PAGE_SIZE_4K)) in
  page_phys ← Vmm.vmm_get_physical_address page_virt;
  if page_phys =? 0 then mret tt
  else
    _ ← Vmm.vmm_unmap_page page_virt;
    free ← (if j =? 0 then mret true
            else before ← Vmm.vmm_get_physical_address (u64 (page_virt - PAGE_SIZE_4K));
                 mret (negb (before =? u64 (page_phys - PAGE_SIZE_4K))));
    if (free : bool) then Vmm.free_page page_phys else mret tt.

Definition unload_segment (elf i : Z) : V unit :=
  headers ← get 8 elf program_headers;
  let phdr := u64 (headers + i * sizeof_phdr) in
  type ← get 4 phdr p_type;
  if negb (type =? PT_LOAD) then mret tt
  else
    base ← get 8 elf base_addr;
    vaddr ← segment_vaddr elf phdr base;
    memsz ← get 8 phdr p_memsz;
    mfor (Z.to_nat (pages_of memsz)) 0 (unload_page (page_start vaddr)).

Definition elf_unload (elf : Z) : V bool :=
  if elf =? NULL then mret false
  else
    base ← get 8 elf base_addr;
    if base =? 0 then mret false
    else
      phnum ← get_header 2 elf e_phnum;
      mfor (Z.to_nat phnum) 0 (unload_segment elf);;
      put 8 elf base_addr 0;;
      put 8 elf top_addr 0;;
      mret true.

Definition elf_free (elf : Z) : V unit :=
  if elf =? NULL then mret tt
  else
    base ← get 8 elf base_addr;
    (if base =? 0 then mret tt else _ ← elf_unload elf; mret tt);;
    d ← get 8 elf data;
    (if d =? NULL then mret tt
     else sz ← get 8 elf size;
          free_pages d (pages_of sz);;
          put 8 elf data NULL);;
    memset elf 0 sizeof_elf.

(** ** Symbols and names *)

(** [strcmp] of lib/string.c over this memory, at most [fuel] characters. *)
Fixpoint strcmp (fuel : nat) (s1 s2 : Z) : V Z :=
  a ← load8 s1;
  b ← (if a =? 0 then mret 0 else load8 s2);
  if negb (a =? 0) && (a =? b)
  then match fuel with O => mspin | S fuel => strcmp fuel (u64 (s1 + 1)) (u64 (s2 + 1)) end
  else b ← load8 s2; mret (a - b).

Definition elf_get_string (elf string_table_offset offset : Z) : V Z :=
  sz ← get 8 elf size;
  if sz <=? u64 (string_table_offset + offset) then mret NULL
  else d ← get 8 elf data; mret (u64 (d + string_table_offset + offset)).

Definition elf_get_section_name (elf section : Z) : V Z :=
  if (elf =? NULL) || (section =? NULL) then mret NULL
  else
    shstrndx ← get_header 2 elf e_shstrndx;
    shnum ← get_header 2 elf e_shnum;
    if shnum <=? shstrndx then mret NULL
    else
      sections ← get 8 elf section_headers;
      offset ← get 8 (u64 (sections + shstrndx * sizeof_shdr)) sh_offset;
      name ← get 4 section sh_name;
      elf_get_string elf offset name.

(** The loop over the symbols, from symbol [i] on. *)
Fixpoint find_symbol (fuel n : nat) (elf symbol_name i : Z) : V Z :=
  match n with
  | O => mret NULL
  | S n =>
      syms ← get 8 elf symtab;
      let sym := u64 (syms + i * sizeof_sym) in
      str ← get 8 elf strtab;
      d ← get 8 elf data;
      offset ← get 4 sym st_name;
      name ← elf_get_string elf (u64 (str - d)) offset;
      differs ← (if name =? NULL then mret true
                 else c ← strcmp fuel name symbol_name; mret (negb (c =? 0)));
      if (differs : bool) then find_symbol fuel n elf symbol_name (i + 1)
      else
        addr ← get 8 sym st_value;
        type ← get_header 2 elf e_type;
        if type =? ET_DYN then base ← get 8 elf base_addr; mret (u64 (addr + base))
        else mret addr
  end.

Definition elf_get_symbol_address (fuel : nat) (elf symbol_name : Z) : V Z :=
  if (elf =? NULL) || (symbol_name =? NULL) then mret NULL
  else
    syms ← get 8 elf symtab;
    str ← get 8 elf strtab;
    if (syms =? NULL) || (str =? NULL) then mret NULL
    else
      n ← get 4 elf symtab_entries;
      find_symbol fuel (Z.to_nat n) elf symbol_name 0.

End elf.

End Elf.
