(* ===== verification/ElfSpec.v ===== *)
(** Parsing an ELF image with core/exec/elf.c: what [elf_parse_memory] accepts
    and what it leaves in the [elf_file_t]. *)
From S2P Require Import Prelude PmmSpec PageAllocator Bytes Vmm Memory Elf.
Import Memory.
Import Elf.

(** ** An image as bytes, and an [elf_file_t] as its fields *)

(** The [n]-byte field at offset [off] of an image. *)
Definition fld (n : nat) (off : Z) (l : list Z) : Z := un_le (slice off (Z.of_nat n) l).

(** The header's checks. *)
Definition header_ok (l : list Z) : bool :=
  (fld 4 e_ident l =? ELF_MAGIC) && (fld 1 (e_ident + 4) l =? ELFCLASS64) &&
  (fld 1 (e_ident + 5) l =? ELFDATA2LSB) && (fld 2 e_machine l =? EM_X86_64) &&
  ((fld 2 e_type l =? ET_EXEC) || (fld 2 e_type l =? ET_DYN)) &&
  (fld 2 e_phentsize l =? sizeof_phdr) && (fld 2 e_shentsize l =? sizeof_shdr).

Definition phnum (l : list Z) : Z := fld 2 e_phnum l.
Definition phoff (l : list Z) : Z := fld 8 e_phoff l.
Definition shnum (l : list Z) : Z := fld 2 e_shnum l.
Definition shoff (l : list Z) : Z := fld 8 e_shoff l.

Definition phdrs_ok (l : list Z) : bool :=
  (phnum l =? 0) || (u64 (phoff l + phnum l * sizeof_phdr) <=? zlen l).
Definition shdrs_ok (l : list Z) : bool :=
  (shnum l =? 0) || (u64 (shoff l + shnum l * sizeof_shdr) <=? zlen l).

Definition image_ok (l : list Z) : bool :=
  (sizeof_ehdr <=? zlen l) && header_ok l && phdrs_ok l && shdrs_ok l.

(** The symbol table and its strings: addresses and sizes. *)
Record tables : Type := Tables { t_sym : Z; t_entries : Z; t_str : Z; t_str_size : Z }.

(** The fields of an [elf_file_t]. *)
Record elf_view : Type := View {
  v_data : Z; v_size : Z; v_header : list Z; v_ph : Z; v_sh : Z; v_tables : tables;
  v_entry : Z; v_base : Z; v_top : Z;
}.

Definition view (m : gmap Z Z) (elf : Z) : elf_view :=
  View (mem_int m 8 (elf + data)) (mem_int m 8 (elf + size)) (mem_bytes m (elf + header) sizeof_ehdr)
    (mem_int m 8 (elf + program_headers)) (mem_int m 8 (elf + section_headers))
    (Tables (mem_int m 8 (elf + symtab)) (mem_int m 4 (elf + symtab_entries))
       (mem_int m 8 (elf + strtab)) (mem_int m 8 (elf + strtab_size)))
    (mem_int m 8 (elf + entry_point)) (mem_int m 8 (elf + base_addr)) (mem_int m 8 (elf + top_addr)).

(** What section [i] of the image [l] at address [d] adds. *)
Definition section_tables (d : Z) (l : list Z) (t : tables) (i : Z) : tables :=
  let o := shoff l + i * sizeof_shdr in
  if negb (fld 4 (o + sh_type) l =? SHT_SYMTAB) then t
  else
    let sym := u64 (d + fld 8 (o + sh_offset) l) in
    let entries := u32 (fld 8 (o + sh_size) l / sizeof_sym) in
    let link := fld 4 (o + sh_link) l in
    let o' := shoff l + link * sizeof_shdr in
    if (link <? shnum l) && (fld 4 (o' + sh_type) l =? SHT_STRTAB)
    then Tables sym entries (u64 (d + fld 8 (o' + sh_offset) l)) (fld 8 (o' + sh_size) l)
    else Tables sym entries (t_str t) (t_str_size t).

Definition image_tables (d : Z) (l : list Z) : tables :=
  foldl (section_tables d l) (Tables 0 0 0 0) (seqZ 0 (shnum l)).

(** The fields after parsing the image [l] at address [d]. *)
Definition parsed_view (d : Z) (l : list Z) : elf_view :=
  View d (zlen l) (slice 0 sizeof_ehdr l) (if phnum l =? 0 then NULL else d + phoff l)
    (if shnum l =? 0 then NULL else d + shoff l) (image_tables d l) 0 0 0.

(** Storing [v] in the field at offset [f]. *)
Definition view_put (f v : Z) (w : elf_view) : elf_view :=
  let at_ o x := if f =? o then v else x in
  View (at_ data (v_data w)) (at_ size (v_size w)) (v_header w) (at_ program_headers (v_ph w))
    (at_ section_headers (v_sh w))
    (Tables (at_ symtab (t_sym (v_tables w))) (at_ symtab_entries (t_entries (v_tables w)))
       (at_ strtab (t_str (v_tables w))) (at_ strtab_size (t_str_size (v_tables w))))
    (at_ entry_point (v_entry w)) (at_ base_addr (v_base w)) (at_ top_addr (v_top w)).

Definition fields : list (Z * nat) :=
  [(data, 8); (size, 8); (program_headers, 8); (section_headers, 8); (symtab, 8);
   (symtab_entries, 4); (strtab, 8); (strtab_size, 8); (entry_point, 8); (base_addr, 8);
   (top_addr, 8)]%nat.

Ltac field_in := solve [unfold fields; repeat constructor].

Ltac unfold_fields := unfold data, size, header, program_headers, section_headers, symtab,
  symtab_entries, strtab, strtab_size, entry_point, base_addr, top_addr, sizeof_elf, sizeof_ehdr,
  sizeof_phdr, sizeof_shdr, sizeof_sym, e_ident, e_type, e_machine, e_entry, e_phoff, e_shoff,
  e_phentsize, e_phnum, e_shentsize, e_shnum, e_shstrndx, p_type, p_flags, p_offset, p_vaddr,
  p_filesz, p_memsz, sh_name, sh_type, sh_offset, sh_size, sh_link, st_name, st_value, NULL in *.

Lemma fld_range n off l : bytes_ok l -> 0 <= fld n off l < 256 ^ Z.of_nat n.
Proof.
  intros Hl. unfold fld. pose proof (un_le_range _ (slice_bytes_ok off (Z.of_nat n) l Hl)) as Hr.
  split; [apply Hr|]. eapply Z.lt_le_trans; [apply Hr|]. apply Z.pow_le_mono_r; [lia|].
  unfold slice. rewrite length_take. lia.
Qed.

Lemma fld_slice n off k l :
  0 <= off -> off + Z.of_nat n <= k -> fld n off (slice 0 k l) = fld n off l.
Proof. intros. unfold fld. by rewrite slice_slice by lia. Qed.

Section parse.
  Context {A : Type} `{PageAllocatorSpec A} `{!Mmu} (W : Z -> Prop) `{!IdentityMap W}.
  Implicit Types s : Vmm.vmm_state A.
  Local Abbreviation window := (window W).

Lemma run_get n p f s :
  (0 < n)%nat -> window (p + f) (Z.of_nat n) -> get n p f s = (Ret (mem_int (Vmm.mem s) n (p + f)), s).
Proof using Type*.
  intros Hn Hw. unfold get. rewrite wrap_small by (destruct Hw; lia). by apply (run_load_int W).
Qed.

Lemma run_put n p f v s :
  (0 < n)%nat -> window (p + f) (Z.of_nat n) -> 0 <= v < 256 ^ Z.of_nat n ->
  exists m, put n p f v s = (Ret tt, Vmm.set_mem m s) /\
    writes (span (p + f) (Z.of_nat n)) (Vmm.mem s) m /\ mem_int m n (p + f) = v.
Proof using Type*.
  intros Hn Hw Hv. unfold put. rewrite wrap_small by (destruct Hw; lia).
  destruct (run_store_int W n (p + f) v s Hw) as (m & R & Hm & E). exists m.
  rewrite Z.mod_small in E by done. done.
Qed.

(** ** Reading an image *)

(** The bytes [l] at address [d]. *)
Record image_at (d : Z) (l : list Z) (m : gmap Z Z) : Prop := {
  ia_window : window d (zlen l);
  ia_bytes : mem_bytes m d (zlen l) = l;
}.

Lemma image_bytes_ok d l m : image_at d l m -> bytes_ok l.
Proof using Type. intros [_ <-]. apply mem_bytes_ok. Qed.

Lemma image_frame R d l m m' :
  image_at d l m -> writes R m m' -> (forall x, span d (zlen l) x -> ~ R x) -> image_at d l m'.
Proof using Type. intros [Hw Hb] Hwr HR. split; [done|]. by rewrite (mem_bytes_frame R m m'). Qed.

Lemma run_get_image n d l p f s :
  image_at d l (Vmm.mem s) -> (0 < n)%nat -> d <= p + f -> p + f + Z.of_nat n <= d + zlen l ->
  get n p f s = (Ret (fld n (p + f - d) l), s).
Proof using Type*.
  intros Hi Hn Hlo Hhi. rewrite run_get; [|done|].
  2:{ eapply window_sub; [apply Hi|lia|lia]. }
  do 2 f_equal. unfold fld. rewrite <- (ia_bytes _ _ _ Hi).
  replace (p + f) with (d + (p + f - d)) by lia.
  rewrite (mem_int_slice _ (zlen l)) by lia. do 2 f_equal. lia.
Qed.

Lemma run_validate d l s :
  image_at d l (Vmm.mem s) -> sizeof_ehdr <= zlen l ->
  elf_validate_header d s = (Ret (header_ok l), s).
Proof using Type*.
  intros Hi Hl. unfold elf_validate_header, refuse_unless, header_ok. unfold_fields.
  repeat (mstep (run_get_image _ d l); [|done|lia|lia|lia]; rewrite Z.add_simpl_l;
    match goal with |- (if ?c then _ else _) _ = _ => destruct c; [cbn [andb]|by rewrite ?andb_false_r] end).
  done.
Qed.

(** ** The fields of an [elf_file_t] *)

Lemma view_after f n m m' elf v :
  (f, n) ∈ fields -> writes (span (elf + f) (Z.of_nat n)) m m' -> mem_int m' n (elf + f) = v ->
  view m' elf = view_put f v (view m elf).
Proof using Type.
  intros Hf Hw E. unfold view, view_put. cbn [v_data v_size v_header v_ph v_sh v_tables v_entry
    v_base v_top t_sym t_entries t_str t_str_size].
  unfold fields in Hf. repeat (apply elem_of_cons in Hf as [[= -> ->]|Hf]; [
    repeat match goal with |- context [?a =? ?b] => let r := eval vm_compute in (a =? b) in
      change (a =? b) with r end; cbv iota;
    f_equal; [..|f_equal|idtac|idtac|idtac];
    first [exact E
          |eapply mem_int_frame; [exact Hw|unfold span; unfold_fields; lia]
          |eapply mem_bytes_frame; [exact Hw|unfold span; unfold_fields; lia]]|]).
  by apply elem_of_nil in Hf.
Qed.

Lemma field_bounds f n : (f, n) ∈ fields -> (0 < n)%nat /\ 0 <= f /\ f + Z.of_nat n <= sizeof_elf.
Proof using Type.
  unfold fields. intros Hf.
  repeat (apply elem_of_cons in Hf as [[= -> ->]|Hf]; [unfold_fields; lia|]).
  by apply elem_of_nil in Hf.
Qed.

Lemma run_put_view f n elf v s :
  window elf sizeof_elf -> (f, n) ∈ fields -> 0 <= v < 256 ^ Z.of_nat n ->
  exists m, put n elf f v s = (Ret tt, Vmm.set_mem m s) /\
    writes (span elf sizeof_elf) (Vmm.mem s) m /\ view m elf = view_put f v (view (Vmm.mem s) elf).
Proof using Type*.
  intros Hw Hf Hv. destruct (field_bounds f n Hf) as (Hn & Hlo & Hhi).
  destruct (run_put n elf f v s Hn) as (m & R & Hm & E); [|done|].
  { eapply window_sub; [exact Hw|lia|lia]. }
  exists m. split_and!; [done| |by eapply view_after].
  eapply writes_mono; [|exact Hm]. unfold span. lia.
Qed.

Lemma run_get_field f n elf s :
  window elf sizeof_elf -> (f, n) ∈ fields -> get n elf f s = (Ret (mem_int (Vmm.mem s) n (elf + f)), s).
Proof using Type*.
  intros Hw Hf. destruct (field_bounds f n Hf) as (Hn & Hlo & Hhi). apply run_get; [done|].
  eapply window_sub; [exact Hw|lia|lia].
Qed.

Lemma run_get_header n elf f s :
  window elf sizeof_elf -> (0 < n)%nat -> 0 <= f -> f + Z.of_nat n <= sizeof_ehdr ->
  get_header n elf f s = (Ret (fld n f (v_header (view (Vmm.mem s) elf))), s).
Proof using Type*.
  intros Hw Hn Hlo Hhi. unfold get_header. unfold_fields. rewrite run_get; [|done|].
  2:{ eapply window_sub; [exact Hw|lia|lia]. }
  do 2 f_equal. cbn [view v_header]. unfold fld. rewrite <- (mem_int_slice _ 64) by lia.
  f_equal. unfold_fields. lia.
Qed.
(** ** Parsing *)

(** The bounds checks are not defeated by a wrap-around. *)
Definition no_wrap (l : list Z) : Prop :=
  phoff l + phnum l * sizeof_phdr < 2 ^ 64 /\ shoff l + shnum l * sizeof_shdr < 2 ^ 64.

Lemma phdrs_bounds l : no_wrap l -> bytes_ok l -> phdrs_ok l = true -> phnum l <> 0 ->
  0 <= phoff l /\ 0 < phnum l /\ phoff l + phnum l * sizeof_phdr <= zlen l.
Proof using Type.
  intros [Hw _] Hl Hok Hn. unfold phdrs_ok in Hok.
  pose proof (fld_range 8 e_phoff l Hl). pose proof (fld_range 2 e_phnum l Hl).
  fold (phoff l) in *. fold (phnum l) in *. unfold_fields. rewrite wrap_small in Hok by lia. lia.
Qed.

Lemma shdrs_bounds l : no_wrap l -> bytes_ok l -> shdrs_ok l = true -> shnum l <> 0 ->
  0 <= shoff l /\ 0 < shnum l /\ shoff l + shnum l * sizeof_shdr <= zlen l.
Proof using Type.
  intros [_ Hw] Hl Hok Hn. unfold shdrs_ok in Hok.
  pose proof (fld_range 8 e_shoff l Hl). pose proof (fld_range 2 e_shnum l Hl).
  fold (shoff l) in *. fold (shnum l) in *. unfold_fields. rewrite wrap_small in Hok by lia. lia.
Qed.

(** The image [l] at [d], and the structure at [elf] apart from it, with the
    fields [w]. *)
Record elf_at (d : Z) (l : list Z) (elf : Z) (w : elf_view) (m : gmap Z Z) : Prop := {
  ea_image : image_at d l m;
  ea_window : window elf sizeof_elf;
  ea_apart x : span d (zlen l) x -> ~ span elf sizeof_elf x;
  ea_view : view m elf = w;
}.

(** The fields that parsing sets first. *)
Definition parsing (d : Z) (l : list Z) (w : elf_view) : Prop :=
  v_data w = d /\ v_size w = zlen l /\ v_header w = slice 0 sizeof_ehdr l.

Lemma elf_at_after d l elf w w' m m' :
  elf_at d l elf w m -> writes (span elf sizeof_elf) m m' -> view m' elf = w' -> elf_at d l elf w' m'.
Proof using Type. intros [Hi Hw Ha _] Hm Hv. constructor; [|done..]. by eapply image_frame. Qed.

Lemma run_get_header_at n d l elf f w s :
  elf_at d l elf w (Vmm.mem s) -> parsing d l w -> (0 < n)%nat -> 0 <= f -> f + Z.of_nat n <= sizeof_ehdr ->
  get_header n elf f s = (Ret (fld n f l), s).
Proof using Type*.
  intros He (_ & _ & Hh) Hn Hlo Hhi. rewrite run_get_header by (done || apply He).
  by rewrite (ea_view _ _ _ _ _ He), Hh, fld_slice.
Qed.

Lemma run_load_program_headers d l elf w s :
  elf_at d l elf w (Vmm.mem s) -> parsing d l w -> no_wrap l ->
  exists m, elf_load_program_headers elf s = (Ret (phdrs_ok l), Vmm.set_mem m s) /\
    writes (span elf sizeof_elf) (Vmm.mem s) m /\
    view m elf = if phdrs_ok l
                 then view_put program_headers (if phnum l =? 0 then NULL else d + phoff l) w else w.
Proof using Type*.
  intros He Hp Hnw. pose proof (image_bytes_ok _ _ _ (ea_image _ _ _ _ _ He)) as Hl.
  unfold elf_load_program_headers.
  mstep (run_get_header_at 2 d l elf e_phnum w); [|done|done|lia|done|done].
  change (fld 2 e_phnum l) with (phnum l). unfold phdrs_ok.
  destruct (Z.eqb_spec (phnum l) 0) as [E|E]; cbn [orb].
  { destruct (run_put_view program_headers 8 elf NULL s) as (m & R & Hm & Hv);
      [apply He|field_in|done|].
    exists m. mstep R. split; [done|]. split; [done|]. by rewrite Hv, (ea_view _ _ _ _ _ He). }
  mstep (run_get_header_at 8 d l elf e_phoff w); [|done|done|lia|done|done].
  change (fld 8 e_phoff l) with (phoff l).
  mstep (run_get_field size 8 elf); [|apply He|field_in].
  destruct Hp as (Hd & Hs & Hh).
  change (mem_int (Vmm.mem s) 8 (elf + size)) with (v_size (view (Vmm.mem s) elf)).
  rewrite (ea_view _ _ _ _ _ He), Hs.
  destruct (Z.ltb_spec (zlen l) (u64 (phoff l + phnum l * sizeof_phdr))) as [Hlt|Hge].
  { rewrite (proj2 (Z.leb_gt _ _)) by done. exists (Vmm.mem s).
    split_and!; [by destruct s|apply writes_refl|apply He]. }
  rewrite (proj2 (Z.leb_le _ _)) by done.
  destruct (phdrs_bounds l Hnw Hl) as (B0 & B1 & B2); [unfold phdrs_ok; lia|done|].
  mstep (run_get_field data 8 elf); [|apply He|field_in].
  change (mem_int (Vmm.mem s) 8 (elf + data)) with (v_data (view (Vmm.mem s) elf)).
  rewrite (ea_view _ _ _ _ _ He), Hd.
  destruct (ia_window _ _ _ (ea_image _ _ _ _ _ He)) as (D0 & D1 & _).
  unfold sizeof_phdr in B2. rewrite (wrap_small 64 (d + phoff l)) by lia.
  destruct (run_put_view program_headers 8 elf (d + phoff l) s) as (m & R & Hm & Hv);
      [apply He|field_in|lia|].
  exists m. mstep R. split; [done|]. split; [done|]. by rewrite Hv, (ea_view _ _ _ _ _ He).
Qed.
Definition set_tables (t : tables) (w : elf_view) : elf_view :=
  View (v_data w) (v_size w) (v_header w) (v_ph w) (v_sh w) t (v_entry w) (v_base w) (v_top w).

(** Storing in a field of the structure. *)
Lemma run_put_at f n d l elf w v s :
  elf_at d l elf w (Vmm.mem s) -> (f, n) ∈ fields -> 0 <= v < 256 ^ Z.of_nat n ->
  exists m, put n elf f v s = (Ret tt, Vmm.set_mem m s) /\
    writes (span elf sizeof_elf) (Vmm.mem s) m /\ elf_at d l elf (view_put f v w) m.
Proof using Type*.
  intros He Hf Hv. destruct (run_put_view f n elf v s) as (m & R & Hm & E); [apply He|done|done|].
  exists m. split_and!; [done|done|]. eapply elf_at_after; [done|done|].
  by rewrite E, (ea_view _ _ _ _ _ He).
Qed.

(** The field of section [i] at offset [f]. *)
Lemma run_get_section n d l elf w i f s :
  elf_at d l elf w (Vmm.mem s) -> no_wrap l -> shdrs_ok l = true -> shnum l <> 0 -> 0 <= i < shnum l ->
  (0 < n)%nat -> 0 <= f -> f + Z.of_nat n <= sizeof_shdr -> v_sh w = d + shoff l ->
  get n (u64 (v_sh w + i * sizeof_shdr)) f s = (Ret (fld n (shoff l + i * sizeof_shdr + f) l), s).
Proof using Type*.
  intros He Hnw Hok Hn Hi Hn0 Hlo Hhi ->.
  destruct (shdrs_bounds l Hnw (image_bytes_ok _ _ _ (ea_image _ _ _ _ _ He)) Hok Hn) as (B0 & B1 & B2).
  destruct (ia_window _ _ _ (ea_image _ _ _ _ _ He)) as (D0 & D1 & _). unfold_fields.
  rewrite wrap_small by lia. rewrite (run_get_image n d l) by (apply He || lia).
  do 3 f_equal. lia.
Qed.

Ltac get_header_step He Hp :=
  mstep (run_get_header_at _ _ _ _ _ _ _ He Hp); [|lia|unfold_fields; lia|unfold_fields; lia].
Ltac get_section_step He Hi :=
  mstep (run_get_section _ _ _ _ _ _ _ _ He); [|done|done|done|exact Hi|lia|unfold_fields; lia|
    unfold_fields; lia|done].

(** Loading a field of the structure. *)
Lemma run_get_at f n d l elf w s :
  elf_at d l elf w (Vmm.mem s) -> (f, n) ∈ fields ->
  get n elf f s = (Ret (mem_int (Vmm.mem s) n (elf + f)), s).
Proof using Type*. intros He Hf. apply run_get_field; [apply He|done]. Qed.

Lemma run_find_tables_in d l elf w i s :
  elf_at d l elf w (Vmm.mem s) -> parsing d l w -> no_wrap l -> shdrs_ok l = true -> shnum l <> 0 ->
  0 <= i < shnum l -> v_sh w = d + shoff l ->
  exists m, find_tables_in elf i s = (Ret tt, Vmm.set_mem m s) /\
    writes (span elf sizeof_elf) (Vmm.mem s) m /\
    elf_at d l elf (set_tables (section_tables d l (v_tables w) i) w) m.
Proof using Type*.
  intros He Hp Hnw Hok Hn Hi Hsh. unfold find_tables_in, section_tables.
  assert (Hsec : forall s w, elf_at d l elf w (Vmm.mem s) -> mem_int (Vmm.mem s) 8 (elf + section_headers) = v_sh w)
    by (intros ? ? H'; by rewrite <- (ea_view _ _ _ _ _ H')).
  assert (Hdat : forall s w, elf_at d l elf w (Vmm.mem s) -> mem_int (Vmm.mem s) 8 (elf + data) = v_data w)
    by (intros ? ? H'; by rewrite <- (ea_view _ _ _ _ _ H')).
  mstep (run_get_at section_headers 8 _ _ _ _ _ He); [|field_in]. rewrite (Hsec _ _ He).
  get_section_step He Hi.
  destruct (_ =? SHT_SYMTAB); cbn [negb].
  2:{ exists (Vmm.mem s). split_and!; [by destruct s|apply writes_refl|]. by destruct w. }
  mstep (run_get_at data 8 _ _ _ _ _ He); [|field_in]. rewrite (Hdat _ _ He), (proj1 Hp).
  get_section_step He Hi.
  destruct (run_put_at symtab 8 d l elf w (u64 (d + fld 8 (shoff l + i * sizeof_shdr + sh_offset) l)) s He)
    as (m1 & R1 & W1 & E1); [field_in|apply (wrap_range 64); lia|].
  mstep R1. set (s1 := Vmm.set_mem m1 s) in *. change m1 with (Vmm.mem s1) in E1.
  get_section_step E1 Hi.
  destruct (run_put_at symtab_entries 4 d l elf _
    (u32 (fld 8 (shoff l + i * sizeof_shdr + sh_size) l / sizeof_sym)) s1 E1)
    as (m2 & R2 & W2 & E2); [field_in|apply (wrap_range 32); lia|].
  mstep R2. set (s2 := Vmm.set_mem m2 s1) in *. change m2 with (Vmm.mem s2) in E2.
  get_section_step E2 Hi.
  get_header_step E2 Hp. change (fld 2 e_shnum l) with (shnum l).
  destruct (Z.ltb_spec (fld 4 (shoff l + i * sizeof_shdr + sh_link) l) (shnum l)) as [Hlink|Hlink]; cbn [negb andb].
  2:{ exists m2. split_and!; [by destruct s|by eapply writes_trans|].
      destruct w as [? ? ? ? ? [] ? ? ?]. exact E2. }
  assert (Hlink' : 0 <= fld 4 (shoff l + i * sizeof_shdr + sh_link) l < shnum l).
  { split; [|done]. apply fld_range. by eapply image_bytes_ok, He. }
  mstep (run_get_at section_headers 8 _ _ _ _ _ E2); [|field_in]. rewrite (Hsec _ _ E2).
  get_section_step E2 Hlink'.
  destruct (_ =? SHT_STRTAB); cbn [negb].
  2:{ exists m2. split_and!; [by destruct s|by eapply writes_trans|].
      destruct w as [? ? ? ? ? [] ? ? ?]. exact E2. }
  mstep (run_get_at data 8 _ _ _ _ _ E2); [|field_in]. rewrite (Hdat _ _ E2).
  change (v_data (view_put _ _ (view_put _ _ w))) with (v_data w). rewrite (proj1 Hp).
  get_section_step E2 Hlink'.
  set (o' := shoff l + fld 4 (shoff l + i * sizeof_shdr + sh_link) l * sizeof_shdr) in *.
  destruct (run_put_at strtab 8 d l elf _ (u64 (d + fld 8 (o' + sh_offset) l)) s2 E2)
    as (m3 & R3 & W3 & E3); [field_in|apply (wrap_range 64); lia|].
  mstep R3. set (s3 := Vmm.set_mem m3 s2) in *. change m3 with (Vmm.mem s3) in E3.
  get_section_step E3 Hlink'. fold o'.
  destruct (run_put_at strtab_size 8 d l elf _ (fld 8 (o' + sh_size) l) s3 E3)
    as (m4 & R4 & W4 & E4); [field_in|apply fld_range; by eapply image_bytes_ok, He|].
  exists m4. split_and!; [rewrite R4; by destruct s|..].
  - eapply writes_trans; [exact W1|]. eapply writes_trans; [exact W2|]. by eapply writes_trans.
  - destruct w as [? ? ? ? ? [] ? ? ?]. exact E4.
Qed.
Lemma run_find_symbol_tables d l elf w s :
  elf_at d l elf w (Vmm.mem s) -> parsing d l w -> no_wrap l -> shdrs_ok l = true -> shnum l <> 0 ->
  v_sh w = d + shoff l -> 0 < d -> v_tables w = Tables 0 0 0 0 ->
  exists b m, elf_find_symbol_tables elf s = (Ret b, Vmm.set_mem m s) /\
    writes (span elf sizeof_elf) (Vmm.mem s) m /\ elf_at d l elf (set_tables (image_tables d l) w) m.
Proof using Type*.
  intros He Hp Hnw Hok Hn Hsh Hd Ht. unfold elf_find_symbol_tables.
  destruct (shdrs_bounds l Hnw (image_bytes_ok _ _ _ (ea_image _ _ _ _ _ He)) Hok Hn) as (B0 & B1 & B2).
  mstep (run_get_at section_headers 8 _ _ _ _ _ He); [|field_in].
  replace (mem_int (Vmm.mem s) 8 (elf + section_headers)) with (d + shoff l)
    by (by rewrite <- Hsh, <- (ea_view _ _ _ _ _ He)).
  get_header_step He Hp. change (fld 2 e_shnum l) with (shnum l).
  rewrite (proj2 (Z.eqb_neq (d + shoff l) NULL)) by (unfold NULL; lia).
  rewrite (proj2 (Z.eqb_neq (shnum l) 0)) by done. cbn [orb].
  destruct (run_for_inv (fun j s0 => exists m, s0 = Vmm.set_mem m s /\
      writes (span elf sizeof_elf) (Vmm.mem s) m /\
      elf_at d l elf (set_tables (foldl (section_tables d l) (v_tables w) (seqZ 0 j)) w) m)
    (Z.to_nat (shnum l)) 0 (find_tables_in elf) s) as (s' & R & m & -> & Hw & He').
  - exists (Vmm.mem s). split_and!; [by destruct s|apply writes_refl|]. by destruct w.
  - intros j s0 Hj (m & -> & Hw & He').
    change m with (Vmm.mem (Vmm.set_mem m s)) in He'.
    destruct (run_find_tables_in d l elf _ j _ He' Hp Hnw Hok Hn ltac:(lia) Hsh) as (m' & R & Hw' & He'').
    exists (Vmm.set_mem m' s). split; [exact R|]. exists m'. split_and!; [done| |].
    + by eapply writes_trans.
    + rewrite seqZ_snoc by lia. rewrite foldl_app. exact He''.
  - rewrite Z2Nat.id in He' by lia. mstep R. change m with (Vmm.mem (Vmm.set_mem m s)) in He'.
    mstep (run_get_at symtab 8 _ _ _ _ _ He'); [|field_in].
    mstep (run_get_at strtab 8 _ _ _ _ _ He'); [|field_in].
    eexists _, m. split; [reflexivity|]. split; [done|]. cbn [Z.add] in He'. by rewrite Ht in He'.
Qed.

Lemma run_load_section_headers d l elf w s :
  elf_at d l elf w (Vmm.mem s) -> parsing d l w -> no_wrap l -> 0 < d -> v_tables w = Tables 0 0 0 0 ->
  exists m, elf_load_section_headers elf s = (Ret (shdrs_ok l), Vmm.set_mem m s) /\
    writes (span elf sizeof_elf) (Vmm.mem s) m /\
    (shdrs_ok l = true -> elf_at d l elf (set_tables (image_tables d l)
      (view_put section_headers (if shnum l =? 0 then NULL else d + shoff l) w)) m).
Proof using Type*.
  intros He Hp Hnw Hd0 Ht. pose proof (image_bytes_ok _ _ _ (ea_image _ _ _ _ _ He)) as Hl.
  unfold elf_load_section_headers.
  get_header_step He Hp. change (fld 2 e_shnum l) with (shnum l). unfold shdrs_ok.
  destruct (Z.eqb_spec (shnum l) 0) as [E|E]; cbn [orb].
  { destruct (run_put_at section_headers 8 d l elf w NULL s He) as (m & R & Hm & Hv);
      [field_in|done|].
    exists m. mstep R. split; [done|]. split; [done|]. intros _. unfold image_tables. rewrite E.
    destruct w as [? ? ? ? ? tw ? ? ?]. cbn in Ht. subst tw. exact Hv. }
  get_header_step He Hp. change (fld 8 e_shoff l) with (shoff l).
  mstep (run_get_at size 8 _ _ _ _ _ He); [|field_in].
  replace (mem_int (Vmm.mem s) 8 (elf + size)) with (zlen l)
    by (destruct Hp as (_ & <- & _); by rewrite <- (ea_view _ _ _ _ _ He)).
  destruct (Z.ltb_spec (zlen l) (u64 (shoff l + shnum l * sizeof_shdr))) as [Hlt|Hge].
  { rewrite (proj2 (Z.leb_gt _ _)) by done. exists (Vmm.mem s).
    split_and!; [by destruct s|apply writes_refl|done]. }
  rewrite (proj2 (Z.leb_le _ _)) by done.
  assert (Hok : shdrs_ok l = true) by (unfold shdrs_ok; lia).
  destruct (shdrs_bounds l Hnw Hl Hok E) as (B0 & B1 & B2).
  mstep (run_get_at data 8 _ _ _ _ _ He); [|field_in].
  replace (mem_int (Vmm.mem s) 8 (elf + data)) with d
    by (destruct Hp as (<- & _); by rewrite <- (ea_view _ _ _ _ _ He)).
  destruct (ia_window _ _ _ (ea_image _ _ _ _ _ He)) as (D0 & D1 & _).
  unfold sizeof_shdr in B2. rewrite (wrap_small 64 (d + shoff l)) by lia.
  destruct (run_put_at section_headers 8 d l elf w (d + shoff l) s He) as (m & R & Hm & Hv);
    [field_in|lia|].
  mstep R. set (s1 := Vmm.set_mem m s) in *. change m with (Vmm.mem s1) in Hv.
  destruct (run_find_symbol_tables d l elf _ s1 Hv Hp Hnw Hok E eq_refl Hd0) as (b & m' & R' & Hm' & Hv');
    [by destruct w as [? ? ? ? ? [] ? ? ?]|].
  mstep R'. exists m'. split; [by destruct s|]. split; [by eapply writes_trans|done].
Qed.
(** The structure after [memset] and the first two stores. *)
Lemma run_parse_start d l elf s :
  image_at d l (Vmm.mem s) -> window elf sizeof_elf ->
  (forall x, span d (zlen l) x -> ~ span elf sizeof_elf x) -> sizeof_ehdr <= zlen l -> 0 < d ->
  exists m, (memset elf 0 sizeof_elf;; put 8 elf data d;; put 8 elf size (zlen l)) s
      = (Ret tt, Vmm.set_mem m s) /\
    writes (span elf sizeof_elf) (Vmm.mem s) m /\
    elf_at d l elf (View d (zlen l) (replicate 64 0) 0 0 (Tables 0 0 0 0) 0 0 0) m.
Proof using Type*.
  intros Hi Hw Ha Hl Hd. destruct (ia_window _ _ _ Hi) as (D0 & D1 & _).
  destruct (run_memset W elf 0 sizeof_elf s) as (m & R & Hm & Hz); [done|done|].
  mstep R. set (s1 := Vmm.set_mem m s) in *.
  assert (He : elf_at d l elf (View 0 0 (replicate 64 0) 0 0 (Tables 0 0 0 0) 0 0 0) (Vmm.mem s1)).
  { constructor; [by eapply image_frame|done|done|]. unfold view.
    assert (Hb : forall a n, elf <= a -> 0 <= n -> a + n <= elf + sizeof_elf ->
      mem_bytes m a n = replicate (Z.to_nat n) 0).
    { intros a n Hlo Hn Hhi. apply list_eq. intros i. destruct (decide (i < Z.to_nat n)%nat).
      - rewrite lookup_mem_bytes by done. rewrite lookup_replicate_2 by done. f_equal.
        apply Hz. unfold span. lia.
      - rewrite !lookup_ge_None_2; [done|rewrite length_replicate; lia|rewrite length_mem_bytes; lia]. }
    unfold mem_int. cbn [Vmm.mem Vmm.set_mem s1]. unfold_fields. by rewrite !Hb by lia. }
  destruct (run_put_at data 8 d l elf _ d s1 He) as (m1 & R1 & W1 & E1); [field_in|unfold_fields; lia|].
  mstep R1. set (s2 := Vmm.set_mem m1 s1) in *. change m1 with (Vmm.mem s2) in E1.
  destruct (run_put_at size 8 d l elf _ (zlen l) s2 E1) as (m2 & R2 & W2 & E2); [field_in|unfold_fields; lia|].
  exists m2. split; [rewrite R2; by destruct s|]. split; [|exact E2].
  eapply writes_trans; [exact Hm|]. by eapply writes_trans.
Qed.

(** Copying the header of the image. *)
Lemma run_copy_header d l elf w s :
  elf_at d l elf w (Vmm.mem s) -> sizeof_ehdr <= zlen l ->
  exists m, memcpy (u64 (elf + header)) d sizeof_ehdr s = (Ret tt, Vmm.set_mem m s) /\
    writes (span elf sizeof_elf) (Vmm.mem s) m /\
    elf_at d l elf (View (v_data w) (v_size w) (slice 0 sizeof_ehdr l) (v_ph w) (v_sh w)
      (v_tables w) (v_entry w) (v_base w) (v_top w)) m.
Proof using Type*.
  intros He Hl. destruct (ea_window _ _ _ _ _ He) as (E0 & E1 & EW).
  unfold_fields. rewrite wrap_small by lia.
  destruct (run_memcpy W (elf + 16) d 64 s) as (m & R & Hm & Hc); [done| | | |].
  { eapply window_sub; [exact (ea_window _ _ _ _ _ He)|unfold_fields; lia..]. }
  { eapply window_sub; [apply (ia_window _ _ _ (ea_image _ _ _ _ _ He))|lia..]. }
  { intros x Hx Hs. apply (ea_apart _ _ _ _ _ He x); unfold span in *; unfold_fields; lia. }
  exists m. split; [done|].
  assert (Hm' : writes (span elf sizeof_elf) (Vmm.mem s) m).
  { eapply writes_mono; [|exact Hm]. unfold span; unfold_fields. lia. }
  split; [exact Hm'|]. eapply elf_at_after; [exact He|exact Hm'|].
  rewrite <- (ea_view _ _ _ _ _ He). unfold view. cbn [v_data v_size v_header v_ph v_sh v_tables
    v_entry v_base v_top]. f_equal; [..|f_equal|idtac|idtac|idtac];
    try (eapply mem_int_frame; [exact Hm|unfold span; unfold_fields; lia]).
  rewrite <- (ia_bytes _ _ _ (ea_image _ _ _ _ _ He)), slice_mem_bytes by (unfold_fields; lia).
  unfold_fields. apply list_eq. intros i. destruct (decide (i < 64)%nat).
  - rewrite !lookup_mem_bytes by lia. f_equal. rewrite Hc by lia. f_equal. lia.
  - rewrite !lookup_ge_None_2; [done|rewrite length_mem_bytes; lia|rewrite length_mem_bytes; lia].
Qed.

Lemma parse_memory_run d l elf s :
  image_at d l (Vmm.mem s) -> window elf sizeof_elf ->
  (forall x, span d (zlen l) x -> ~ span elf sizeof_elf x) -> no_wrap l -> 0 < d -> 0 < elf ->
  exists m, elf_parse_memory d (zlen l) elf s = (Ret (image_ok l), Vmm.set_mem m s) /\
    writes (span elf sizeof_elf) (Vmm.mem s) m /\
    (image_ok l = true -> elf_at d l elf (parsed_view d l) m).
Proof using Type*.
  intros Hi Hw Ha Hnw Hd Helf. unfold elf_parse_memory, image_ok.
  rewrite (proj2 (Z.eqb_neq d NULL)), (proj2 (Z.eqb_neq elf NULL)) by (unfold NULL; lia). cbn [orb].
  destruct (Z.ltb_spec (zlen l) sizeof_ehdr) as [Hlt|Hl].
  { rewrite (proj2 (Z.leb_gt _ _)) by done. exists (Vmm.mem s).
    split_and!; [by destruct s|apply writes_refl|done]. }
  rewrite (proj2 (Z.leb_le _ _)) by done. cbn [andb].
  destruct (run_parse_start d l elf s Hi Hw Ha Hl Hd) as (m1 & R1 & W1 & E1).
  set (w0 := View d (zlen l) _ _ _ _ _ _ _) in E1. set (s1 := Vmm.set_mem m1 s) in *.
  assert (Hstart : forall (k : M (Vmm.vmm_state A) bool),
    (memset elf 0 sizeof_elf;; put 8 elf data d;; put 8 elf size (zlen l);; k) s = k s1).
  { intros k. rewrite <- (run_bind _ (fun _ => k) _ _ _ R1). unfold mbind, m_bind.
    destruct (memset elf 0 sizeof_elf s) as [[] ?]; try done.
    by destruct (put 8 elf data d _) as [[] ?]. }
  rewrite Hstart. change m1 with (Vmm.mem s1) in E1.
  mstep (run_validate d l s1); [|apply E1|done].
  destruct (header_ok l); cbn [negb andb].
  2:{ exists m1. by split_and!. }
  destruct (run_copy_header d l elf w0 s1 E1 Hl) as (m2 & R2 & W2 & E2).
  mstep R2. set (s2 := Vmm.set_mem m2 s1) in *. change m2 with (Vmm.mem s2) in E2.
  set (w1 := View _ _ _ _ _ _ _ _ _) in E2.
  assert (Hp : parsing d l w1) by done.
  destruct (run_load_program_headers d l elf w1 s2 E2 Hp Hnw) as (m3 & R3 & W3 & E3).
  mstep R3. set (s3 := Vmm.set_mem m3 s2) in *.
  pose proof (writes_trans _ _ _ _ W1 (writes_trans _ _ _ _ W2 W3)) as W13.
  destruct (phdrs_ok l); cbn [negb andb].
  2:{ exists m3. by split_and!; [by destruct s|..]. }
  assert (E3' : elf_at d l elf _ (Vmm.mem s3)) by (eapply elf_at_after; [exact E2|exact W3|exact E3]).
  destruct (run_load_section_headers d l elf _ s3 E3' Hp Hnw Hd eq_refl) as (m4 & R4 & W4 & E4).
  mstep R4. exists m4. split_and!.
  - destruct (shdrs_ok l); by destruct s.
  - by eapply writes_trans.
  - intros Hok. exact (E4 Hok).
Qed.
End parse.
