(* ===== verification/ElfLoad.v ===== *)
(** Loading the segments of an ELF image with core/exec/elf.c: what
    [elf_load] leaves in the page tables and in memory. *)
From S2P Require Import Prelude PmmSpec PageAllocator Bytes Vmm VmmTables VmmRun VmmUpdate VmmSpec VmmAlloc.
From S2P Require Import Memory Elf ElfSpec.
Import Memory.
Import Elf.

(** ** The segments of an image *)

(** The [n]-byte field at offset [f] of program header [i]. *)
Definition seg_fld (n : nat) (f i : Z) (l : list Z) : Z := fld n (phoff l + i * sizeof_phdr + f) l.

Definition seg_load (l : list Z) (i : Z) : Prop := seg_fld 4 p_type i l = PT_LOAD.
Definition seg_filesz (l : list Z) (i : Z) : Z := seg_fld 8 p_filesz i l.
Definition seg_memsz (l : list Z) (i : Z) : Z := seg_fld 8 p_memsz i l.
Definition seg_offset (l : list Z) (i : Z) : Z := seg_fld 8 p_offset i l.
Definition seg_pages (l : list Z) (i : Z) : Z := pages_of (seg_memsz l i).

(** Where the segment is to be, with [base] for a shared object. *)
Definition seg_vaddr (l : list Z) (base i : Z) : Z :=
  if fld 2 e_type l =? ET_DYN then u64 (seg_fld 8 p_vaddr i l + base) else seg_fld 8 p_vaddr i l.
Definition seg_start (l : list Z) (base i : Z) : Z := page_start (seg_vaddr l base i).

(** Byte [o] of the memory of segment [i]: the file's bytes, then zeros. *)
Definition seg_byte (l : list Z) (i o : Z) : Z :=
  if o <? seg_filesz l i then fld 1 (seg_offset l i + o) l else 0.

(** Page number [pg] belongs to segment [i]. *)
Definition covers (l : list Z) (base i pg : Z) : Prop :=
  seg_load l i /\ seg_start l base i / 4096 <= pg < seg_start l base i / 4096 + seg_pages l i.

(** A segment in the user half, whose file part is in the file and in its
    memory. *)
Definition seg_ok (l : list Z) (base i : Z) : Prop :=
  seg_load l i ->
  0 < seg_memsz l i /\ 4096 <= seg_vaddr l base i /\
  seg_vaddr l base i + seg_memsz l i + 4096 <= 2 ^ 47 /\
  seg_filesz l i <= seg_pages l i * 4096 /\ seg_offset l i + seg_filesz l i <= zlen l.

Lemma pages_of_spec n : 0 < n < 2 ^ 47 -> 0 < pages_of n /\ n <= pages_of n * 4096 < n + 4096.
Proof.
  intros Hn. unfold pages_of, PAGE_SIZE_4K. rewrite wrap_small by lia.
  pose proof (Z.div_mod (n + 4096 - 1) 4096 ltac:(lia)).
  pose proof (Z.mod_pos_bound (n + 4096 - 1) 4096 ltac:(lia)). lia.
Qed.

Lemma page_start_spec v : 0 <= v < 2 ^ 64 -> page_start v = v - v mod 4096.
Proof. exact (mask_round v). Qed.

Section load.
  Context {A : Type} `{PageAllocatorSpec A} `{!Mmu} (hhdm : Z) `{!HhdmWindow hhdm}.
  Context (W : Z -> Prop) `{!IdentityMap W}.
  Implicit Types s : Vmm.vmm_state A.
  Local Abbreviation pt_inv := (pt_inv hhdm).
  Local Abbreviation window := (window W).
  Local Abbreviation elf_at := (elf_at W).
  Local Abbreviation image_at := (image_at W).

(** ** Memory that loading leaves alone *)

(** The byte at [x] is neither in a table nor in a free page. *)
Definition kept (T : gmap Z nat) s (x : Z) : Prop :=
  (forall p lvl, T !! p = Some lvl -> ~ span p 4096 x) /\
  (forall p, p ∈ pa_free (Vmm.pmm s) -> ~ span p 4096 x).

(** From [s] to [s'] the tables grow into free pages, the free pages shrink, and
    the kept bytes outside [R] stay. *)
Record extends (R : Z -> Prop) (T : gmap Z nat) s (T' : gmap Z nat) s' : Prop := {
  ex_config : same_config s s';
  ex_inv : pt_inv T' s';
  ex_types : T ⊆ T';
  ex_free : pa_free (Vmm.pmm s') ⊆ pa_free (Vmm.pmm s);
  ex_managed : pa_managed (Vmm.pmm s') = pa_managed (Vmm.pmm s);
  ex_new p : is_Some (T' !! p) -> T !! p = None -> p ∈ pa_free (Vmm.pmm s);
  ex_kept x : kept T s x -> ~ R x -> mem_byte (Vmm.mem s') x = mem_byte (Vmm.mem s) x;
}.

Lemma extends_refl R T s : pt_inv T s -> extends R T s T s.
Proof using Type. intros Hi. constructor; try done. - apply same_config_refl. - intros p [] ?. congruence. Qed.

Lemma kept_extends R T s T' s' x : extends R T s T' s' -> kept T s x -> kept T' s' x.
Proof using Type.
  intros E [H1' H2']. split.
  - intros p lvl Hp. destruct (T !! p) as [k|] eqn:Hn; [by apply (H1' p k)|].
    apply H2', (ex_new _ _ _ _ _ E); [by eexists|done].
  - intros p Hp. by apply H2', (ex_free _ _ _ _ _ E).
Qed.

Lemma extends_trans R T1 s1 T2 s2 T3 s3 :
  extends R T1 s1 T2 s2 -> extends R T2 s2 T3 s3 -> extends R T1 s1 T3 s3.
Proof using Type.
  intros E1 E2. constructor.
  - eapply same_config_trans; [apply E1|apply E2].
  - apply E2.
  - etrans; [apply E1|apply E2].
  - etrans; [apply E2|apply E1].
  - etrans; [apply E2|apply E1].
  - intros p Hp Hn. destruct (T2 !! p) as [k|] eqn:E.
    + by apply (ex_new _ _ _ _ _ E1); [eexists|].
    + by apply (ex_free _ _ _ _ _ E1), (ex_new _ _ _ _ _ E2).
  - intros x Hx HR. rewrite (ex_kept _ _ _ _ _ E2); [|by eapply kept_extends|done].
    by apply (ex_kept _ _ _ _ _ E1).
Qed.

(** Writing bytes outside the tables. *)
Lemma page_span p x : page_ok p -> span p 4096 x <-> x - x mod 4096 = p.
Proof using Type.
  intros (Hp & Hm & _). unfold span. pose proof (Z.mod_pos_bound x 4096 ltac:(lia)).
  pose proof (Z.div_mod x 4096 ltac:(lia)). pose proof (Z.div_mod p 4096 ltac:(lia)). lia.
Qed.

Lemma pt_inv_writes T s m R :
  pt_inv T s -> writes R (Vmm.mem s) m -> (forall p lvl x, T !! p = Some lvl -> span p 4096 x -> ~ R x) ->
  pt_inv T (Vmm.set_mem m s) /\ forall w, user_addr w -> pte (Vmm.set_mem m s) w = pte s w.
Proof using Type*.
  intros Hi Hw HR. apply (pt_inv_outside hhdm T s m Hi).
  - apply (wr_range _ _ _ Hw), (pi_tree _ _ _ Hi).
  - intros q lvl i Hq Hr. apply (wr_word _ _ _ Hw). intros k Hk. apply (HR q lvl); [done|].
    unfold span. lia.
Qed.

Lemma extends_writes R T s m :
  pt_inv T s -> writes R (Vmm.mem s) m -> (forall p lvl x, T !! p = Some lvl -> span p 4096 x -> ~ R x) ->
  extends R T s T (Vmm.set_mem m s).
Proof using Type*.
  intros Hi Hw HR. constructor; try done.
  - exists (Vmm.pmm s), m, (Vmm.tlb s). done.
  - by apply (pt_inv_writes T s m R).
  - intros p [] ?. congruence.
  - intros x _ Hx. by apply (wr_byte _ _ _ Hw).
Qed.

(** An update of the user half keeps the bytes that are kept. *)
Lemma mem_byte_word m m' x : mem_read m' (x - x mod 8) = mem_read m (x - x mod 8) -> mem_byte m' x = mem_byte m x.
Proof using Type. unfold mem_byte. by intros ->. Qed.

Lemma extends_updates R f n T s T' s' : updates hhdm f n T s T' s' -> extends R T s T' s'.
Proof using Type*.
  intros U. constructor; try apply U.
  intros x [Ht Hf] _. apply mem_byte_word, (up_data _ _ _ _ _ _ _ U). intros p lvl Hp Hin.
  pose proof (proj1 (tw_page _ _ (pi_tree _ _ _ (up_inv _ _ _ _ _ _ _ U)) p lvl Hp)) as Hok.
  assert (Hs : span p 4096 x).
  { unfold span. destruct Hok as (_ & Hm & _). pose proof (Z.mod_pos_bound x 8 ltac:(lia)).
    pose proof (Z.div_mod x 8 ltac:(lia)). pose proof (Z.div_mod p 4096 ltac:(lia)). lia. }
  destruct (T !! p) as [k|] eqn:E; [by apply (Ht p k)|].
  by apply (Hf p); [apply (up_new _ _ _ _ _ _ _ U); [eexists|]|].
Qed.

(** ** Mapping the pages of a segment *)

Lemma map_segment_loop n j memory v f s :
  map_segment n j memory v f s =
  match Vmm.map_loop n j v memory Vmm.PAGE_SIZE_4K f s with
  | (Ret r, s') => (Ret (match r with None => true | Some _ => false end), s')
  | (Switched, s') => (Switched, s') | (Spin, s') => (Spin, s')
  | (Fault, s') => (Fault, s') | (Halted, s') => (Halted, s')
  end.
Proof using Type.
  revert j s. induction n as [|n IH]; intros j s; [done|]. cbn [map_segment Vmm.map_loop].
  unfold mbind, m_bind, PAGE_SIZE_4K, Vmm.PAGE_SIZE_4K in *.
  destruct (Vmm.vmm_map_page _ _ f s) as [[[]| | | |] s']; try done. cbn [negb]. apply IH.
Qed.

Lemma run_map_segment T s n v q f :
  pt_inv T s -> range_ok v 0 (Z.of_nat n) -> 0 < q -> q + Z.of_nat n * 4096 <= 2 ^ 64 ->
  exists T' s' b, map_segment n 0 q v f s = (Ret b, s') /\ extends (fun _ => False) T s T' s' /\
    (forall w, user_addr w -> ~ (v / 4096 <= w / 4096 < v / 4096 + Z.of_nat n) -> pte s' w = pte s w) /\
    (b = true -> forall k, 0 <= k < Z.of_nat n ->
       pte s' (v + k * 4096) = leaf_pte (Vmm.using_nx (Vmm.vmm_config s)) (q + k * 4096) f).
Proof using Type*.
  intros Hi Hr Hq Hq64.
  destruct (run_map_loop hhdm T s n 0 v q f Hi Hr Hq) as (T' & s' & r & R & Hres); [lia|].
  exists T', s', (match r with None => true | Some _ => false end).
  rewrite map_segment_loop, R. split; [done|].
  assert (HU : exists g j k, updates hhdm (set_range v 0 j g) k T s T' s' /\ j <= Z.of_nat n).
  { destruct r as [j|].
    - destruct Hres as (Hj & _ & U). eexists _, j, _. split; [exact U|lia].
    - eexists _, _, _. split; [exact Hres|lia]. }
  destruct HU as (g & j & k & U & Hj). split; [by eapply extends_updates|]. split.
  - intros w Hw Hout. rewrite (up_pte _ _ _ _ _ _ _ U w Hw). unfold set_range.
    cbv zeta. destruct (_ && _) eqn:E; [|done]. apply andb_true_iff in E as [? ?]. lia.
  - destruct r; [done|]. intros _ k' Hk'. rewrite (up_pte _ _ _ _ _ _ _ Hres).
    + unfold set_range. rewrite page_of. replace (v / 4096 + k' - v / 4096) with k' by lia.
      replace ((0 <=? k') && (k' <? 0 + Z.of_nat n)) with true by lia. done.
    + unfold user_addr, range_ok in *. lia.
Qed.
(** ** The state while segments are loaded *)

(** The image [l] at [d] and its [elf_file_t] with the fields [w], in memory
    that the allocator and the tables do not use. *)
Record loading (d : Z) (l : list Z) (elf : Z) (w : elf_view) (T : gmap Z nat) s : Prop := {
  ld_inv : pt_inv T s;
  ld_elf : elf_at d l elf w (Vmm.mem s);
  ld_parsing : parsing d l w;
  ld_ph : v_ph w = d + phoff l;
  ld_image x : span d (zlen l) x -> kept T s x;
  ld_struct x : span elf sizeof_elf x -> kept T s x;
  ld_frames p : p ∈ pa_managed (Vmm.pmm s) -> window p 4096;
}.

Lemma view_ext m m' elf :
  (forall x, span elf sizeof_elf x -> mem_byte m' x = mem_byte m x) -> view m' elf = view m elf.
Proof using Type.
  intros Hx. unfold view, mem_int. unfold_fields.
  by repeat match goal with |- context [mem_bytes m' ?a ?n] =>
    rewrite (mem_bytes_ext m m' a n) by (intros x Hs; apply Hx; unfold span in *; lia) end.
Qed.

(** Steps that leave the structure alone but for the top address. *)
Lemma loading_extends d l elf w w' T s T' s' :
  loading d l elf w T s -> extends (span elf sizeof_elf) T s T' s' ->
  view (Vmm.mem s') elf = w' -> parsing d l w' -> v_ph w' = v_ph w -> loading d l elf w' T' s'.
Proof using Type*.
  intros L E Hv Hp Hph. pose proof (ld_elf _ _ _ _ _ _ L) as [[Hw Hb] Hwe Ha _].
  constructor; try done.
  - apply E.
  - constructor; try done. split; [done|]. etrans; [|exact Hb].
    apply mem_bytes_ext. intros x Hx. apply (ex_kept _ _ _ _ _ E); [by apply (ld_image _ _ _ _ _ _ L)|by apply Ha].
  - rewrite Hph. apply L.
  - intros x Hx. eapply kept_extends; [exact E|]. by apply (ld_image _ _ _ _ _ _ L).
  - intros x Hx. eapply kept_extends; [exact E|]. by apply (ld_struct _ _ _ _ _ _ L).
  - intros p. rewrite (ex_managed _ _ _ _ _ E). apply L.
Qed.

Lemma extends_mono (R R' : Z -> Prop) T s T' s' :
  (forall x, R x -> R' x) -> extends R T s T' s' -> extends R' T s T' s'.
Proof using Type. intros HR E. constructor; try apply E. intros x Hk Hx. apply (ex_kept _ _ _ _ _ E); auto. Qed.

Lemma loading_silent d l elf w T s T' s' :
  loading d l elf w T s -> extends (fun _ => False) T s T' s' -> loading d l elf w T' s'.
Proof using Type*.
  intros L E. apply (loading_extends d l elf w w T s T' s' L); [| |by apply L|done].
  - eapply extends_mono; [|exact E]. done.
  - rewrite <- (ea_view _ _ _ _ _ _ (ld_elf _ _ _ _ _ _ L)).
    apply view_ext. intros x Hx. apply (ex_kept _ _ _ _ _ E); [by apply (ld_struct _ _ _ _ _ _ L)|auto].
Qed.

(** The table of program headers is in the image. *)
Definition phdrs_in (l : list Z) : Prop := sizeof_ehdr <= zlen l /\ phoff l + phnum l * sizeof_phdr <= zlen l.

Lemma run_get_phdr n f i d l elf w T s :
  loading d l elf w T s -> phdrs_in l -> 0 <= i < phnum l -> (0 < n)%nat -> 0 <= f ->
  f + Z.of_nat n <= sizeof_phdr ->
  get n (u64 (v_ph w + i * sizeof_phdr)) f s = (Ret (seg_fld n f i l), s).
Proof using Type*.
  intros L [_ Hin] Hi Hn Hlo Hhi. rewrite (ld_ph _ _ _ _ _ _ L).
  pose proof (ea_image _ _ _ _ _ _ (ld_elf _ _ _ _ _ _ L)) as Him.
  destruct (ia_window _ _ _ _ Him) as (D0 & D1 & _).
  pose proof (fld_range 8 e_phoff l (image_bytes_ok _ _ _ _ Him)) as Hp. fold (phoff l) in Hp.
  unfold sizeof_phdr in *. rewrite wrap_small by lia.
  rewrite (run_get_image W n d l) by (done || lia). unfold seg_fld, sizeof_phdr. do 3 f_equal. lia.
Qed.

Lemma fld_byte d l m o : image_at d l m -> 0 <= o < zlen l -> fld 1 o l = mem_byte m (d + o).
Proof using Type.
  intros Hi Ho. unfold fld. rewrite <- (ia_bytes _ _ _ _ Hi), slice_mem_bytes by lia.
  rewrite mem_bytes_cons by lia. change (mem_bytes m _ (Z.of_nat 1 - 1)) with (@nil Z).
  cbn [un_le]. lia.
Qed.

(** ** The contents of a segment *)

Lemma run_copy_segment d l elf w T s i q :
  loading d l elf w T s -> phdrs_in l -> 0 <= i < phnum l ->
  seg_offset l i + seg_filesz l i <= zlen l -> seg_filesz l i <= seg_pages l i * 4096 ->
  window q (seg_pages l i * 4096) ->
  (forall x, span d (zlen l) x -> ~ span q (seg_pages l i * 4096) x) ->
  exists m, copy_segment elf (u64 (v_ph w + i * sizeof_phdr)) q (seg_pages l i) s
      = (Ret true, Vmm.set_mem m s) /\
    writes (span q (seg_pages l i * 4096)) (Vmm.mem s) m /\
    forall o, 0 <= o < seg_pages l i * 4096 ->
      mem_byte m (q + o) = if o <? seg_filesz l i then fld 1 (seg_offset l i + o) l
                           else mem_byte (Vmm.mem s) (q + o).
Proof using Type*.
  intros L Hin Hi Hoff Hfs Hq Hdis. pose proof (ea_image _ _ _ _ _ _ (ld_elf _ _ _ _ _ _ L)) as Him.
  pose proof (image_bytes_ok _ _ _ _ Him) as Hl. unfold copy_segment.
  mstep (run_get_phdr 8 p_filesz i d l elf w T s L Hin Hi); [|lia|done|done].
  change (seg_fld 8 p_filesz i l) with (seg_filesz l i).
  pose proof (fld_range 8 (phoff l + i * sizeof_phdr + p_filesz) l Hl) as Hr1.
  pose proof (fld_range 8 (phoff l + i * sizeof_phdr + p_offset) l Hl) as Hr2.
  change (fld 8 (phoff l + i * sizeof_phdr + p_filesz) l) with (seg_filesz l i) in Hr1.
  change (fld 8 (phoff l + i * sizeof_phdr + p_offset) l) with (seg_offset l i) in Hr2.
  destruct (Z.ltb_spec 0 (seg_filesz l i)) as [Hpos|Hzero]; cbn [negb].
  2:{ exists (Vmm.mem s). split_and!; [by destruct s|apply writes_refl|].
      intros o Ho. by rewrite (proj2 (Z.ltb_ge _ _)) by lia. }
  mstep (run_get_phdr 8 p_offset i d l elf w T s L Hin Hi); [|lia|done|done].
  change (seg_fld 8 p_offset i l) with (seg_offset l i).
  mstep (run_get_at W size 8 _ _ _ _ _ (ld_elf _ _ _ _ _ _ L)); [|field_in].
  destruct (ld_parsing _ _ _ _ _ _ L) as (Hd & Hs & Hh).
  replace (mem_int (Vmm.mem s) 8 (elf + size)) with (zlen l)
    by (rewrite <- Hs; by rewrite <- (ea_view _ _ _ _ _ _ (ld_elf _ _ _ _ _ _ L))).
  destruct (ia_window _ _ _ _ Him) as (D0 & D1 & _).
  destruct (decide (zlen l = 2 ^ 64)) as [Hbig|Hbig].
  { exfalso. destruct Hq as (Q0 & Q1 & _). apply (Hdis q); unfold span; lia. }
  rewrite (wrap_small 64 (seg_offset l i + _)) by lia.
  rewrite (proj2 (Z.ltb_ge _ _)) by lia.
  mstep (run_get_at W data 8 _ _ _ _ _ (ld_elf _ _ _ _ _ _ L)); [|field_in].
  replace (mem_int (Vmm.mem s) 8 (elf + data)) with d
    by (rewrite <- Hd; by rewrite <- (ea_view _ _ _ _ _ _ (ld_elf _ _ _ _ _ _ L))).
  rewrite (wrap_small 64 (d + _)) by lia.
  destruct (run_memcpy W q (d + seg_offset l i) (seg_filesz l i) s) as (m & R & Hm & Hc); [lia| | | |].
  { eapply window_sub; [exact Hq|lia..]. }
  { eapply window_sub; [apply Him|lia..]. }
  { intros x Hx Hs'. apply (Hdis x); unfold span in *; lia. }
  exists m. mstep R. split; [done|]. split.
  { eapply writes_mono; [|exact Hm]. unfold span. lia. }
  intros o Ho. destruct (Z.ltb_spec o (seg_filesz l i)).
  - rewrite Hc by lia. rewrite (fld_byte d l (Vmm.mem s)) by (done || lia). f_equal. lia.
  - apply (wr_byte _ _ _ Hm). unfold span. lia.
Qed.
(** The [pages] frames from [q], just allocated. *)
Lemma run_alloc_run T s n :
  pt_inv T s -> 0 <= n < 2 ^ 64 ->
  (exists s', alloc_pages n s = (Ret NULL, s') /\ extends (fun _ => False) T s T s' /\
     Vmm.mem s' = Vmm.mem s /\ forall u, pte s' u = pte s u) \/
  (exists q s', alloc_pages n s = (Ret q, s') /\ extends (fun _ => False) T s T s' /\ q <> NULL /\
     Vmm.mem s' = Vmm.mem s /\ (forall u, pte s' u = pte s u) /\
     frame_run q n ⊆ pa_free (Vmm.pmm s) /\ pa_free (Vmm.pmm s') = pa_free (Vmm.pmm s) ∖ frame_run q n).
Proof using Type*.
  intros Hi Hn. unfold alloc_pages, mlift. destruct (pmm_alloc_pages n (Vmm.pmm s)) as [q a] eqn:Ha.
  destruct (pa_alloc_pages _ _ _ _ (pi_pmm _ _ _ Hi) Hn Ha) as (Hia & Hm & Hcase).
  assert (Hsub : pa_free a ⊆ pa_free (Vmm.pmm s)) by (destruct Hcase as [[_ ->]|(_ & _ & _ & ->)]; set_solver).
  assert (E : extends (fun _ => False) T s T (Vmm.set_pmm a s)).
  { constructor; try done.
    - exists a, (Vmm.mem s), (Vmm.tlb s). done.
    - apply (pt_inv_pmm hhdm); [done|done|]. intros p lvl Hp Hin. apply (pi_used _ _ _ Hi p lvl Hp). set_solver.
    - intros p [] ?. congruence. }
  destruct Hcase as [[-> _]|(Hq & _ & Hrun & Hf)].
  - left. exists (Vmm.set_pmm a s). done.
  - right. exists q, (Vmm.set_pmm a s). done.
Qed.

(** The frames are apart from what is kept, and can be accessed. *)
Lemma frames_apart T s q n x : frame_run q n ⊆ pa_free (Vmm.pmm s) -> kept T s x -> ~ span q (n * 4096) x.
Proof using Type.
  intros Hrun [_ Hk] Hx. unfold span in Hx.
  apply (Hk (q + (x - q) / 4096 * 4096)).
  - apply Hrun, elem_frame_run. exists ((x - q) / 4096). split; [|done].
    pose proof (Z.div_mod (x - q) 4096 ltac:(lia)). pose proof (Z.mod_pos_bound (x - q) 4096 ltac:(lia)).
    split; [apply Z.div_pos; lia|]. apply Z.div_lt_upper_bound; lia.
  - unfold span. pose proof (Z.div_mod (x - q) 4096 ltac:(lia)).
    pose proof (Z.mod_pos_bound (x - q) 4096 ltac:(lia)). lia.
Qed.

Lemma frames_window d l elf w T s q n :
  loading d l elf w T s -> frame_run q n ⊆ pa_free (Vmm.pmm s) -> 0 < n ->
  window q (n * 4096) /\ 0 < q /\ q + n * 4096 <= PHYS_LIMIT.
Proof using Type*.
  intros L Hrun Hn.
  assert (Hp : forall k, 0 <= k < n -> page_ok (q + k * 4096) /\ window (q + k * 4096) 4096).
  { intros k Hk. assert (Hin : q + k * 4096 ∈ pa_free (Vmm.pmm s)) by (apply Hrun, elem_frame_run; eauto).
    split; [by apply (fresh_page hhdm T s); [apply L|]|].
    apply (ld_frames _ _ _ _ _ _ L), pa_free_managed; [apply (pi_pmm _ _ _ (ld_inv _ _ _ _ _ _ L))|done]. }
  destruct (Hp 0) as [(H1' & _ & _) _]; [lia|]. destruct (Hp (n - 1)) as [(_ & _ & H2') _]; [lia|].
  unfold PHYS_LIMIT in *. split; [|lia]. split_and!; [lia|lia|]. intros x Hx. unfold span in Hx.
  pose proof (Z.div_mod (x - q) 4096 ltac:(lia)). pose proof (Z.mod_pos_bound (x - q) 4096 ltac:(lia)).
  destruct (Hp ((x - q) / 4096)) as [_ (_ & _ & Hw)].
  { split; [apply Z.div_pos; lia|]. apply Z.div_lt_upper_bound; lia. }
  apply Hw. unfold span. lia.
Qed.

(** Segment [i] is in the frames from [q] on, which are mapped where it is to
    be. *)
Definition placed (elf : Z) (T : gmap Z nat) s (l : list Z) (base i q : Z) : Prop :=
  forall k, 0 <= k < seg_pages l i ->
    (forall x, span (q + k * 4096) 4096 x -> kept T s x /\ ~ span elf sizeof_elf x) /\
    pte s (seg_start l base i + k * 4096) =
      leaf_pte (Vmm.using_nx (Vmm.vmm_config s)) (q + k * 4096) (segment_flags (seg_fld 4 p_flags i l)) /\
    forall j, 0 <= j < 4096 -> mem_byte (Vmm.mem s) (q + k * 4096 + j) = seg_byte l i (k * 4096 + j).

(** Filling the frames of segment [i]. *)
Lemma run_fill d l elf w T s i q s1 :
  loading d l elf w T s -> phdrs_in l -> 0 <= i < phnum l -> 0 < seg_pages l i ->
  seg_offset l i + seg_filesz l i <= zlen l -> seg_filesz l i <= seg_pages l i * 4096 ->
  frame_run q (seg_pages l i) ⊆ pa_free (Vmm.pmm s) ->
  extends (fun _ => False) T s T s1 -> Vmm.mem s1 = Vmm.mem s -> (forall u, pte s1 u = pte s u) ->
  exists m, (memset q 0 (u64 (seg_pages l i * PAGE_SIZE_4K));;
             copy_segment elf (u64 (v_ph w + i * sizeof_phdr)) q (seg_pages l i)) s1
      = (Ret true, Vmm.set_mem m s1) /\
    extends (fun _ => False) T s T (Vmm.set_mem m s1) /\
    (forall u, user_addr u -> pte (Vmm.set_mem m s1) u = pte s u) /\
    forall o, 0 <= o < seg_pages l i * 4096 -> mem_byte m (q + o) = seg_byte l i o.
Proof using Type*.
  intros L Hin Hi Hn Hoff Hfs Hrun E1 Hm1 Hp1. pose proof (loading_silent _ _ _ _ _ _ _ _ L E1) as L1.
  destruct (frames_window _ _ _ _ _ _ _ _ L Hrun Hn) as (Hw & Hq & Hq'). unfold PHYS_LIMIT in Hq'.
  unfold PAGE_SIZE_4K. rewrite (wrap_small 64 (seg_pages l i * 4096)) by lia.
  destruct (run_memset W q 0 (seg_pages l i * 4096) s1) as (m2 & R2 & W2 & Z2); [lia|done|].
  mstep R2. set (s2 := Vmm.set_mem m2 s1).
  assert (Htab : forall p lvl x, T !! p = Some lvl -> span p 4096 x -> ~ span q (seg_pages l i * 4096) x).
  { intros p lvl x Hp Hx Hs. unfold span in Hs.
    assert (Hpf : q + (x - q) / 4096 * 4096 ∈ pa_free (Vmm.pmm s)).
    { apply Hrun, elem_frame_run. exists ((x - q) / 4096). split; [|done].
      split; [apply Z.div_pos; lia|]. apply Z.div_lt_upper_bound; lia. }
    destruct (fresh_page hhdm T s _ (ld_inv _ _ _ _ _ _ L) Hpf) as [Hok Hnone].
    pose proof (proj1 (tw_page _ _ (pi_tree _ _ _ (ld_inv _ _ _ _ _ _ L)) p lvl Hp)) as Hokp.
    apply (page_span p x Hokp) in Hx.
    assert (Hx' : span (q + (x - q) / 4096 * 4096) 4096 x).
    { unfold span. pose proof (Z.div_mod (x - q) 4096 ltac:(lia)).
      pose proof (Z.mod_pos_bound (x - q) 4096 ltac:(lia)). lia. }
    apply (page_span _ x Hok) in Hx'. rewrite Hx in Hx'. congruence. }
  assert (Hwr : forall m, writes (span q (seg_pages l i * 4096)) (Vmm.mem s1) m ->
    extends (fun _ => False) T s T (Vmm.set_mem m s1)).
  { intros m Hm. pose proof (extends_writes _ T s1 m (ld_inv _ _ _ _ _ _ L1) Hm Htab) as E2.
    constructor; try apply E2.
    - eapply same_config_trans; [apply E1|apply E2].
    - apply E1.
    - apply E1.
    - apply E1.
    - intros x Hk _. rewrite (ex_kept _ _ _ _ _ E2); [by rewrite Hm1|by eapply kept_extends|].
      by eapply frames_apart. }
  pose proof (loading_silent _ _ _ _ _ _ _ _ L (Hwr m2 W2)) as L2. fold s2 in L2.
  destruct (run_copy_segment d l elf w T s2 i q L2 Hin Hi Hoff Hfs Hw) as (m & R & Hm & Hc).
  { intros x Hx. eapply frames_apart; [exact Hrun|by apply (ld_image _ _ _ _ _ _ L)]. }
  assert (Hm' : writes (span q (seg_pages l i * 4096)) (Vmm.mem s1) m) by (eapply writes_trans; [exact W2|exact Hm]).
  exists m. split_and!.
  - rewrite R. unfold s2. by destruct s1.
  - by apply Hwr.
  - intros u Hu. rewrite <- Hp1. by apply (pt_inv_writes T s1 m _ (ld_inv _ _ _ _ _ _ L1) Hm' Htab).
  - intros o Ho. rewrite Hc by done. unfold seg_byte. destruct (_ <? _); [done|].
    apply Z2. unfold span. lia.
Qed.
(** ** One segment *)

Lemma run_seq {B C} (a : M (Vmm.vmm_state A) unit) (b : M _ B) (k : B -> M _ C) s x s' :
  (a;; b) s = (Ret x, s') -> (a;; (y ← b; k y)) s = k x s'.
Proof using Type.
  unfold mbind, m_bind. destruct (a s) as [[]]; try done. by intros ->.
Qed.

Lemma run_segment_vaddr d l elf w T s i base :
  loading d l elf w T s -> phdrs_in l -> 0 <= i < phnum l ->
  segment_vaddr elf (u64 (v_ph w + i * sizeof_phdr)) base s = (Ret (seg_vaddr l base i), s).
Proof using Type*.
  intros L Hin Hi. unfold segment_vaddr.
  mstep (run_get_phdr 8 p_vaddr i d l elf w T s L Hin Hi); [|lia|done|done].
  mstep (run_get_header_at W 2 d l elf e_type w s (ld_elf _ _ _ _ _ _ L) (ld_parsing _ _ _ _ _ _ L));
    [|lia|done|done].
  done.
Qed.

(** What loading segment [i] does. *)
Record loaded (d : Z) (l : list Z) (elf : Z) (w : elf_view) (base i : Z) (T : gmap Z nat) s (b : bool)
    (T' : gmap Z nat) s' : Prop := {
  lo_extends : extends (span elf sizeof_elf) T s T' s';
  lo_loading : exists t, loading d l elf (view_put top_addr t w) T' s';
  lo_other u : user_addr u -> ~ covers l base i (u / 4096) -> pte s' u = pte s u;
  lo_placed : b = true -> seg_load l i -> exists q, placed elf T' s' l base i q;
}.

Lemma view_put_top w : view_put top_addr (v_top w) w = w.
Proof using Type. by destruct w as [? ? ? ? ? [] ? ? ?]. Qed.

Lemma loaded_failed d l elf w base i T s T' s' :
  loading d l elf w T s -> extends (fun _ => False) T s T' s' ->
  (forall u, user_addr u -> ~ covers l base i (u / 4096) -> pte s' u = pte s u) ->
  loaded d l elf w base i T s false T' s'.
Proof using Type*.
  intros L E Ho. constructor; try done.
  - eapply extends_mono; [|exact E]. done.
  - exists (v_top w). rewrite view_put_top. by eapply loading_silent.
Qed.

(** The update of the top address. *)
Lemma run_set_top d l elf w T s a :
  loading d l elf w T s -> 0 <= a < 2 ^ 64 ->
  exists s', (top ← get 8 elf top_addr; (if top <? a then put 8 elf top_addr a else mret tt);; mret true) s
      = (Ret true, s') /\ extends (span elf sizeof_elf) T s T s' /\
    (exists t, loading d l elf (view_put top_addr t w) T s') /\
    (forall u, user_addr u -> pte s' u = pte s u) /\
    forall x, ~ span elf sizeof_elf x -> mem_byte (Vmm.mem s') x = mem_byte (Vmm.mem s) x.
Proof using Type*.
  intros L Ha. mstep (run_get_at W top_addr 8 _ _ _ _ _ (ld_elf _ _ _ _ _ _ L)); [|field_in].
  destruct (_ <? a).
  2:{ mstep. rewrite run_ret. exists s. split_and!; [done|apply extends_refl, L| |done|done].
      exists (v_top w). by rewrite view_put_top. }
  destruct (run_put_at W top_addr 8 d l elf w a s (ld_elf _ _ _ _ _ _ L)) as (m & R & Hm & He);
    [field_in|done|].
  mstep R. rewrite run_ret.
  assert (Htab : forall p lvl x, T !! p = Some lvl -> span p 4096 x -> ~ span elf sizeof_elf x).
  { intros p lvl x Hp Hx Hs. by apply (proj1 (ld_struct _ _ _ _ _ _ L x Hs) p lvl). }
  pose proof (extends_writes _ T s m (ld_inv _ _ _ _ _ _ L) Hm Htab) as E.
  exists (Vmm.set_mem m s). split_and!; [done|done| | |].
  - exists a. eapply loading_extends; [exact L|exact E|apply He|apply L|done].
  - apply (pt_inv_writes T s m _ (ld_inv _ _ _ _ _ _ L) Hm Htab).
  - intros x Hx. by apply (wr_byte _ _ _ Hm).
Qed.

Lemma seg_start_spec l base i :
  4096 <= seg_vaddr l base i < 2 ^ 47 ->
  4096 <= seg_start l base i <= seg_vaddr l base i /\ seg_start l base i mod 4096 = 0.
Proof using Type.
  intros Hv. unfold seg_start. rewrite page_start_spec by lia.
  pose proof (Z.div_mod (seg_vaddr l base i) 4096 ltac:(lia)).
  pose proof (Z.mod_pos_bound (seg_vaddr l base i) 4096 ltac:(lia)).
  replace (seg_vaddr l base i - seg_vaddr l base i mod 4096)
    with (4096 * (seg_vaddr l base i / 4096)) by lia.
  rewrite Z.mul_comm, Z.mod_mul by lia. lia.
Qed.

Lemma run_load_segment d l elf w T s i base :
  loading d l elf w T s -> phdrs_in l -> 0 <= i < phnum l -> seg_ok l base i ->
  exists T' s' b, load_segment elf base i s = (Ret b, s') /\ loaded d l elf w base i T s b T' s'.
Proof using Type*.
  intros L Hin Hi Hok. unfold load_segment.
  mstep (run_get_at W program_headers 8 _ _ _ _ _ (ld_elf _ _ _ _ _ _ L)); [|field_in].
  replace (mem_int (Vmm.mem s) 8 (elf + program_headers)) with (v_ph w)
    by (by rewrite <- (ea_view _ _ _ _ _ _ (ld_elf _ _ _ _ _ _ L))).
  mstep (run_get_phdr 4 p_type i d l elf w T s L Hin Hi); [|lia|done|done].
  destruct (Z.eqb_spec (seg_fld 4 p_type i l) PT_LOAD) as [Hld|Hld]; cbn [negb].
  2:{ exists T, s, true. split; [done|]. constructor; [apply extends_refl, L| |done|done].
      exists (v_top w). by rewrite view_put_top. }
  destruct (Hok Hld) as (Hms & Hv & Hv2 & Hfs & Hoff).
  assert (Hmr : 0 < seg_memsz l i < 2 ^ 47) by lia.
  destruct (pages_of_spec _ Hmr) as (Hn & Hnp). change (pages_of (seg_memsz l i)) with (seg_pages l i) in *.
  destruct (seg_start_spec l base i) as (Hst & Hsm); [lia|].
  mstep (run_segment_vaddr d l elf w T s i base L Hin Hi).
  mstep (run_get_phdr 8 p_memsz i d l elf w T s L Hin Hi); [|lia|done|done].
  change (pages_of (seg_fld 8 p_memsz i l)) with (seg_pages l i).
  change (seg_fld 8 p_memsz i l) with (seg_memsz l i).
  destruct (run_alloc_run T s (seg_pages l i) (ld_inv _ _ _ _ _ _ L)) as
    [(s1 & R1 & E1 & M1 & P1)|(q & s1 & R1 & E1 & Hq & M1 & P1 & Hrun & Hf)]; [lia| |].
  { exists T, s1, false. mstep R1. split; [done|]. apply loaded_failed; [done|done|]. intros u _ _. apply P1. }
  mstep R1. rewrite (proj2 (Z.eqb_neq q NULL)) by done.
  destruct (frames_window _ _ _ _ _ _ _ _ L Hrun Hn) as (Hw & Hq0 & Hq1). unfold PHYS_LIMIT in Hq1.
  destruct (run_fill d l elf w T s i q s1 L Hin Hi Hn Hoff Hfs Hrun E1 M1 P1) as (m & R2 & E2 & P2 & B2).
  rewrite (run_seq _ _ _ _ _ _ R2). cbn [negb]. set (s2 := Vmm.set_mem m s1) in *.
  pose proof (loading_silent _ _ _ _ _ _ _ _ L E2) as L2.
  mstep (run_get_phdr 4 p_flags i d l elf w T s2 L2 Hin Hi); [|lia|done|done].
  change (page_start (seg_vaddr l base i)) with (seg_start l base i).
  set (f := segment_flags (seg_fld 4 p_flags i l)).
  destruct (run_map_segment T s2 (Z.to_nat (seg_pages l i)) (seg_start l base i) q f) as
    (T3 & s3 & b & R3 & E3 & O3 & P3); [apply L2|unfold range_ok; lia|lia|lia|].
  rewrite Z2Nat.id in O3, P3 by lia. mstep R3.
  pose proof (extends_trans _ _ _ _ _ _ _ E2 E3) as E13.
  assert (Hother : forall u, user_addr u -> ~ covers l base i (u / 4096) -> pte s3 u = pte s u).
  { intros u Hu Hc. rewrite O3; [by apply P2|done|]. intros Hin'. by apply Hc. }
  destruct b; cbn [negb].
  2:{ exists T3, s3, false. split; [done|]. by apply loaded_failed. }
  pose proof (loading_silent _ _ _ _ _ _ _ _ L E13) as L3.
  rewrite wrap_small by lia.
  destruct (run_set_top d l elf w T3 s3 (seg_vaddr l base i + seg_memsz l i) L3) as
    (s4 & R4 & E4 & Hl4 & P4 & B4); [lia|].
  exists T3, s4, true. split; [exact R4|].
  assert (E14 : extends (span elf sizeof_elf) T s T3 s4).
  { eapply extends_trans; [|exact E4]. eapply extends_mono; [|exact E13]. done. }
  constructor; [done|done|intros u Hu Hc; rewrite P4 by done; by apply Hother|].
  intros _ _. exists q. intros k Hk.
  assert (Hkept : forall x, span (q + k * 4096) 4096 x -> kept T s2 x).
  { assert (Hpf : q + k * 4096 ∈ frame_run q (seg_pages l i)) by (apply elem_frame_run; eauto).
    destruct (fresh_page hhdm T s (q + k * 4096) (ld_inv _ _ _ _ _ _ L) (Hrun _ Hpf)) as [Hpok Hnone].
    intros x Hx. apply (page_span _ x Hpok) in Hx. split.
    - intros p lvl Hp Hs.
      pose proof (proj1 (tw_page _ _ (pi_tree _ _ _ (ld_inv _ _ _ _ _ _ L)) p lvl Hp)) as Hokp.
      apply (page_span p x Hokp) in Hs. congruence.
    - intros p Hp Hs. change (Vmm.pmm s2) with (Vmm.pmm s1) in Hp. rewrite Hf in Hp.
      apply elem_of_difference in Hp as [Hpfree Hpn].
      destruct (fresh_page hhdm T s p (ld_inv _ _ _ _ _ _ L) Hpfree) as [Hokp _].
      apply (page_span p x Hokp) in Hs. rewrite Hx in Hs. by rewrite <- Hs in Hpn. }
  assert (Hapart : forall x, span (q + k * 4096) 4096 x -> ~ span elf sizeof_elf x).
  { intros x Hx Hs. apply (frames_apart T s q (seg_pages l i) x Hrun);
      [by apply (ld_struct _ _ _ _ _ _ L)|unfold span in *; lia]. }
  split_and!.
  - intros x Hx. split; [|by apply Hapart].
    eapply kept_extends; [exact E4|]. eapply kept_extends; [exact E3|]. by apply Hkept.
  - rewrite P4, P3 by (unfold user_addr; lia).
    destruct (ex_config _ _ _ _ _ E2) as (? & ? & ? & ->). destruct (ex_config _ _ _ _ _ E14) as (? & ? & ? & ->).
    done.
  - intros j Hj. assert (Hx : span (q + k * 4096) 4096 (q + k * 4096 + j)) by (unfold span; lia).
    rewrite B4, (ex_kept _ _ _ _ _ E3) by auto.
    rewrite <- Z.add_assoc. apply B2. lia.
Qed.
(** ** All segments *)

(** Page [pg] of segment [i] is in the frame [p]. *)
Definition in_frame s (l : list Z) (base i pg p : Z) : Prop :=
  pte s (pg * 4096) =
    leaf_pte (Vmm.using_nx (Vmm.vmm_config s)) p (segment_flags (seg_fld 4 p_flags i l)) /\
  forall o, 0 <= o < 4096 ->
    mem_byte (Vmm.mem s) (p + o) = seg_byte l i ((pg - seg_start l base i / 4096) * 4096 + o).

Definition page_loaded (elf : Z) (T : gmap Z nat) s (l : list Z) (base i pg : Z) : Prop :=
  exists p, in_frame s l base i pg p /\ forall x, span p 4096 x -> kept T s x /\ ~ span elf sizeof_elf x.

Lemma placed_page elf T s l base i q pg :
  placed elf T s l base i q -> seg_start l base i mod 4096 = 0 -> covers l base i pg ->
  page_loaded elf T s l base i pg.
Proof using Type.
  intros Hp Hm [_ Hpg]. set (k := pg - seg_start l base i / 4096).
  destruct (Hp k) as (Hk & He & Hb); [lia|]. exists (q + k * 4096). split; [|exact Hk]. split; [|exact Hb].
  rewrite <- He. f_equal. pose proof (Z.div_mod (seg_start l base i) 4096 ltac:(lia)). lia.
Qed.

Lemma page_loaded_extends elf T s T' s' l base i pg :
  page_loaded elf T s l base i pg -> extends (span elf sizeof_elf) T s T' s' ->
  pte s' (pg * 4096) = pte s (pg * 4096) -> page_loaded elf T' s' l base i pg.
Proof using Type.
  intros (p & [He Hb] & Hk) E Hp. exists p. split; [split|].
  - rewrite Hp, He. by destruct (ex_config _ _ _ _ _ E) as (? & ? & ? & ->).
  - intros o Ho. destruct (Hk (p + o)) as [Hk1 Hk2]; [unfold span; lia|].
    by rewrite (ex_kept _ _ _ _ _ E), Hb.
  - intros x Hx. destruct (Hk x Hx) as [Hk1 Hk2]. split; [|done]. by eapply kept_extends.
Qed.

Lemma covers_user l base i pg :
  seg_ok l base i -> covers l base i pg -> user_addr (pg * 4096) /\ seg_start l base i mod 4096 = 0.
Proof using Type.
  intros Hok [Hl Hpg]. destruct (Hok Hl) as (Hms & Hv & Hv2 & _ & _).
  destruct (pages_of_spec (seg_memsz l i)) as (Hn & Hnp); [lia|].
  change (pages_of (seg_memsz l i)) with (seg_pages l i) in *.
  destruct (seg_start_spec l base i) as (Hst & Hsm); [lia|]. split; [|done].
  pose proof (Z.div_mod (seg_start l base i) 4096 ltac:(lia)). unfold user_addr. lia.
Qed.

Lemma view_put_top_top t t' w : view_put top_addr t (view_put top_addr t' w) = view_put top_addr t w.
Proof using Type. by destruct w as [? ? ? ? ? [] ? ? ?]. Qed.

Lemma run_load_loop d l elf base n : forall i w T s,
  loading d l elf w T s -> phdrs_in l -> 0 <= i -> i + Z.of_nat n <= phnum l ->
  (forall j, i <= j < i + Z.of_nat n -> seg_ok l base j) ->
  exists T' s' b, load_loop n elf base i s = (Ret b, s') /\
    extends (span elf sizeof_elf) T s T' s' /\
    (exists t, loading d l elf (view_put top_addr t w) T' s') /\
    (forall u, user_addr u -> (forall j, i <= j < i + Z.of_nat n -> ~ covers l base j (u / 4096)) ->
       pte s' u = pte s u) /\
    (b = true -> forall j pg, i <= j < i + Z.of_nat n -> covers l base j pg ->
       (forall j', j < j' < i + Z.of_nat n -> ~ covers l base j' pg) ->
       page_loaded elf T' s' l base j pg).
Proof using Type*.
  induction n as [|n IH]; intros i w T s L Hin Hi Hn Hok.
  { exists T, s, true. split_and!; [done|apply extends_refl, L| |done|lia].
    exists (v_top w). by rewrite view_put_top. }
  cbn [load_loop].
  destruct (run_load_segment d l elf w T s i base L Hin) as (T1 & s1 & b & R1 & [E1 (t1 & L1) O1 P1]);
    [lia|apply Hok; lia|].
  mstep R1. destruct b; cbn [negb].
  2:{ exists T1, s1, false. split_and!; [done|done|by exists t1| |done].
      intros u Hu Hc. apply O1; [done|]. apply Hc. lia. }
  destruct (IH (i + 1) _ T1 s1 L1 Hin) as (T2 & s2 & b & R2 & E2 & (t2 & L2) & O2 & P2);
    [lia|lia|intros j Hj; apply Hok; lia|].
  exists T2, s2, b. split_and!; [done|by eapply extends_trans| | |].
  - exists t2. by rewrite view_put_top_top in L2.
  - intros u Hu Hc. rewrite O2; [|done|intros j Hj; apply Hc; lia]. apply O1; [done|]. apply Hc. lia.
  - intros Hb j pg Hj Hc Hlast. destruct (decide (j = i)) as [->|Hne].
    2:{ apply P2; [done|lia|done|]. intros j' Hj'. apply Hlast. lia. }
    destruct (covers_user l base i pg (Hok i ltac:(lia)) Hc) as [Hu Hm].
    destruct (P1 eq_refl (proj1 Hc)) as (q & Hq).
    eapply page_loaded_extends; [by eapply placed_page|exact E2|].
    apply O2; [done|]. intros j' Hj'. rewrite Z.div_mul by lia. apply Hlast. lia.
Qed.

Lemma elf_load_run d l elf base w T s :
  loading d l elf w T s -> phdrs_in l -> 0 < elf -> v_ph w <> NULL -> 0 <= base < 2 ^ 64 ->
  (forall i, 0 <= i < phnum l -> seg_ok l base i) ->
  exists T' s' b, elf_load elf base s = (Ret b, s') /\
    extends (span elf sizeof_elf) T s T' s' /\
    (exists w', loading d l elf w' T' s' /\ v_base w' = base /\
       (b = true -> v_entry w' = u64 (fld 8 e_entry l + (if fld 2 e_type l =? ET_DYN then base else 0)))) /\
    (forall u, user_addr u -> (forall i, 0 <= i < phnum l -> ~ covers l base i (u / 4096)) -> pte s' u = pte s u) /\
    (b = true -> forall i pg, 0 <= i < phnum l -> covers l base i pg ->
       (forall i', i < i' < phnum l -> ~ covers l base i' pg) -> page_loaded elf T' s' l base i pg).
Proof using Type*.
  intros L Hin Helf Hph Hbase Hok. unfold elf_load.
  rewrite (proj2 (Z.eqb_neq elf NULL)) by (unfold NULL; lia).
  mstep (run_get_at W program_headers 8 _ _ _ _ _ (ld_elf _ _ _ _ _ _ L)); [|field_in].
  replace (mem_int (Vmm.mem s) 8 (elf + program_headers)) with (v_ph w)
    by (by rewrite <- (ea_view _ _ _ _ _ _ (ld_elf _ _ _ _ _ _ L))).
  rewrite (proj2 (Z.eqb_neq _ _)) by done.
  assert (Hput : forall f v w0 T0 s0, loading d l elf w0 T0 s0 -> (f, 8%nat) ∈ fields -> f <> data ->
    f <> size -> f <> program_headers -> 0 <= v < 2 ^ 64 ->
    exists s1, put 8 elf f v s0 = (Ret tt, s1) /\ extends (span elf sizeof_elf) T0 s0 T0 s1 /\
      loading d l elf (view_put f v w0) T0 s1 /\ (forall u, user_addr u -> pte s1 u = pte s0 u)).
  { intros f v w0 T0 s0 L0 Hf Hd Hs Hp Hv.
    destruct (run_put_at W f 8 d l elf w0 v s0 (ld_elf _ _ _ _ _ _ L0) Hf) as (m & R & Hm & He); [done|].
    assert (Htab : forall p lvl x, T0 !! p = Some lvl -> span p 4096 x -> ~ span elf sizeof_elf x).
    { intros p lvl x Hpp Hx Hss. by apply (proj1 (ld_struct _ _ _ _ _ _ L0 x Hss) p lvl). }
    pose proof (extends_writes _ T0 s0 m (ld_inv _ _ _ _ _ _ L0) Hm Htab) as E.
    exists (Vmm.set_mem m s0). split_and!; [done|done| |].
    - destruct (ld_parsing _ _ _ _ _ _ L0) as (Q1 & Q2 & Q3).
      eapply loading_extends; [exact L0|exact E|apply He| |].
      + unfold parsing, view_put. cbn [v_data v_size v_header].
        rewrite (proj2 (Z.eqb_neq f data)), (proj2 (Z.eqb_neq f size)) by done. done.
      + unfold view_put. cbn [v_ph]. by rewrite (proj2 (Z.eqb_neq f program_headers)) by done.
    - apply (pt_inv_writes T0 s0 m _ (ld_inv _ _ _ _ _ _ L0) Hm Htab). }
  destruct (Hput base_addr base w T s L) as (s1 & R1 & E1 & L1 & P1); [field_in|done..|].
  mstep R1. unfold elf_load_segments.
  destruct (Hput top_addr 0 _ T s1 L1) as (s2 & R2 & E2 & L2 & P2); [field_in|done..|].
  assert (Hnum : get_header 2 elf e_phnum s2 = (Ret (phnum l), s2)).
  { apply (run_get_header_at W 2 d l elf e_phnum _ s2 (ld_elf _ _ _ _ _ _ L2) (ld_parsing _ _ _ _ _ _ L2)); [lia|done|done]. }
  pose proof (fld_range 2 e_phnum l (image_bytes_ok _ _ _ _ (ea_image _ _ _ _ _ _ (ld_elf _ _ _ _ _ _ L)))) as Hnr.
  fold (phnum l) in Hnr.
  destruct (run_load_loop d l elf base (Z.to_nat (phnum l)) 0 _ T s2 L2 Hin) as
    (T3 & s3 & b & R3 & E3 & (t3 & L3) & O3 & P3); [lia|lia|intros j Hj; apply Hok; lia|].
  replace (0 + Z.of_nat (Z.to_nat (phnum l))) with (phnum l) in O3, P3 by lia.
  assert (R23 : (put 8 elf top_addr 0;; phnum ← get_header 2 elf e_phnum; load_loop (Z.to_nat phnum) elf base 0) s1
    = (Ret b, s3)) by (mstep R2; by mstep Hnum).
  mstep R23.
  pose proof (extends_trans _ _ _ _ _ _ _ (extends_trans _ _ _ _ _ _ _ E1 E2) E3) as E13.
  assert (Hother : forall u, user_addr u -> (forall i, 0 <= i < phnum l -> ~ covers l base i (u / 4096)) ->
    pte s3 u = pte s u) by (intros u Hu Hc; by rewrite O3, P2, P1).
  destruct b; cbn [negb].
  2:{ exists T3, s3, false. split_and!; [done|done| |done|done]. eexists. split; [exact L3|].
      split; [|done]. by destruct w as [? ? ? ? ? [] ? ? ?]. }
  mstep (run_get_header_at W 8 d l elf e_entry _ s3 (ld_elf _ _ _ _ _ _ L3) (ld_parsing _ _ _ _ _ _ L3)); [|lia|done|done].
  mstep (run_get_header_at W 2 d l elf e_type _ s3 (ld_elf _ _ _ _ _ _ L3) (ld_parsing _ _ _ _ _ _ L3)); [|lia|done|done].
  set (entry := u64 _). assert (Hentry : 0 <= entry < 2 ^ 64) by (apply (wrap_range 64); lia).
  destruct (Hput entry_point entry _ T3 s3 L3) as (s4 & R4 & E4 & L4 & P4); [field_in|done..|].
  mstep R4. rewrite run_ret. exists T3, s4, true. split_and!; [done|by eapply extends_trans| | |].
  - eexists. split; [exact L4|]. by destruct w as [? ? ? ? ? [] ? ? ?].
  - intros u Hu Hc. rewrite P4 by done. by apply Hother.
  - intros _ i pg Hi Hc Hlast. eapply page_loaded_extends; [by apply P3|exact E4|].
    apply P4. by apply (covers_user l base i pg (Hok i Hi)).
Qed.
End load.
