(* ===== verification/ElfProps.v ===== *)
(** The correctness of core/exec/elf.c: parsing, and parsing followed by
    loading. *)
From S2P Require Import Prelude PmmSpec PageAllocator Bytes Vmm VmmTables VmmRun VmmUpdate VmmSpec VmmAlloc.
From S2P Require Import Memory Elf ElfSpec ElfLoad.
Import Memory.
Import Elf.

Section props.
  Context {A : Type} `{PageAllocatorSpec A} `{!Mmu} (hhdm : Z) `{!HhdmWindow hhdm}.
  Context (W : Z -> Prop) `{!IdentityMap W}.
  Implicit Types s : Vmm.vmm_state A.
  Local Abbreviation pt_inv := (pt_inv hhdm).
  Local Abbreviation window := (window W).
  Local Abbreviation image_at := (image_at W).

(** C23: Parsing an image.  For the bytes [l] at [d], with table offsets that do
    not wrap around, [elf_parse_memory] returns, whatever the bytes are; it
    writes nothing but the [elf_file_t]; it accepts exactly the images of at
    least 64 bytes whose header passes the checks and whose tables are in the
    file, and leaves in the structure the address, size and header, the
    addresses of the tables, and the symbol and string tables of the last
    symbol table section. *)
Theorem elf_parse_memory_correct d l elf s :
  image_at d l (Vmm.mem s) -> window elf sizeof_elf -> 0 < d -> 0 < elf ->
  (forall x, span d (zlen l) x -> ~ span elf sizeof_elf x) -> no_wrap l ->
  exists m, elf_parse_memory d (zlen l) elf s = (Ret (image_ok l), Vmm.set_mem m s) /\
    (forall x, ~ span elf sizeof_elf x -> mem_byte m x = mem_byte (Vmm.mem s) x) /\
    (image_ok l = true -> view m elf = parsed_view d l).
Proof using Type*.
  intros Hi Hw Hd Helf Ha Hnw.
  destruct (parse_memory_run W d l elf s Hi Hw Ha Hnw Hd Helf) as (m & R & Hm & Hv).
  exists m. split_and!; [done| |].
  - intros x Hx. by apply (wr_byte _ _ _ Hm).
  - intros Hok. apply (Hv Hok).
Qed.

(** The image and the structure are in memory that neither the allocator nor
    the tables use, and the frames can be accessed. *)
Record load_setting (d : Z) (l : list Z) (elf : Z) (T : gmap Z nat) s : Prop := {
  se_inv : pt_inv T s;
  se_image : image_at d l (Vmm.mem s);
  se_struct : window elf sizeof_elf;
  se_apart x : span d (zlen l) x -> ~ span elf sizeof_elf x;
  se_kept x : span d (zlen l) x \/ span elf sizeof_elf x -> kept T s x;
  se_frames p : p ∈ pa_managed (Vmm.pmm s) -> window p 4096;
  se_nonnull : 0 < d /\ 0 < elf;
}.

Lemma loading_after_parse d l elf T s m :
  load_setting d l elf T s -> writes (span elf sizeof_elf) (Vmm.mem s) m ->
  elf_at W d l elf (parsed_view d l) m -> phnum l <> 0 ->
  extends hhdm (span elf sizeof_elf) T s T (Vmm.set_mem m s) /\
  loading hhdm W d l elf (parsed_view d l) T (Vmm.set_mem m s).
Proof using Type*.
  intros S Hm He Hn.
  assert (E : extends hhdm (span elf sizeof_elf) T s T (Vmm.set_mem m s)).
  { apply (extends_writes hhdm W); [apply S|done|]. intros p lvl x Hp Hx Hs.
    by apply (proj1 (se_kept _ _ _ _ _ S x (or_intror Hs)) p lvl). }
  split; [done|]. constructor; [apply E|exact He|done| |..].
  - cbn. by rewrite (proj2 (Z.eqb_neq _ _)) by done.
  - intros x Hx. apply (se_kept _ _ _ _ _ S). by left.
  - intros x Hx. apply (se_kept _ _ _ _ _ S). by right.
  - apply (se_frames _ _ _ _ _ S).
Qed.


End props.
