(* ===== verification/ElfExamples.v ===== *)
(** A machine that maps physical memory to itself, an ELF image in its memory,
    and instances of the properties of ElfProps.v on them. *)
From S2P Require Import Prelude Pmm PmmSpec PmmInit PageAllocator Bytes Vmm VmmTables VmmRun VmmUpdate VmmSpec VmmAlloc.
From S2P Require Import VmmExamples Memory Elf ElfSpec ElfLoad ElfProps.
Import Memory.
Import Elf.

(** ** The machine *)

Definition low_memory (x : Z) : Prop := 0 <= x < PHYS_LIMIT.

#[export] Instance ident_mmu : Mmu := fun m cr3 va =>
  if (example_hhdm <=? va) && (va <? example_hhdm + PHYS_LIMIT) then Some (va - example_hhdm)
  else if (0 <=? va) && (va <? PHYS_LIMIT) then Some va
  else None.

#[export] Instance ident_window : HhdmWindow example_hhdm.
Proof.
  split; [done|done|]. intros m c p Hp. unfold mmu_translate, ident_mmu.
  replace ((example_hhdm <=? example_hhdm + p) && (example_hhdm + p <? example_hhdm + PHYS_LIMIT))
    with true by lia.
  f_equal. lia.
Qed.

#[export] Instance ident_identity : IdentityMap low_memory.
Proof.
  intros m c a Ha. unfold low_memory, mmu_translate, ident_mmu, example_hhdm, PHYS_LIMIT in *.
  replace ((0xffff800000000000 <=? a) && (a <? 0xffff800000000000 + 2 ^ 47)) with false by lia.
  by replace ((0 <=? a) && (a <? 2 ^ 47)) with true by lia.
Qed.

(** ** An image *)

(** One segment to read and execute: 8 bytes of the file at 0x400000, 4104 bytes
    of memory. *)
Definition example_image : list Z :=
  le 4 ELF_MAGIC ++ [2; 1; 1; 0] ++ le 8 0 ++ le 2 2 ++ le 2 62 ++ le 4 1 ++ le 8 0x400000 ++ le 8 64 ++
  le 8 0 ++ le 4 0 ++ le 2 64 ++ le 2 56 ++ le 2 1 ++ le 2 64 ++ le 2 0 ++ le 2 0 ++
  le 4 1 ++ le 4 5 ++ le 8 120 ++ le 8 0x400000 ++ le 8 0x400000 ++ le 8 8 ++ le 8 4104 ++ le 8 4096 ++
  [0xB8; 0x3C; 0; 0; 0; 0x0F; 0x05; 0x90].

Definition image_addr : Z := 0x6000.
Definition elf_addr : Z := 0x7000.

Definition load_state : Vmm.vmm_state Pmm.pmm_state := snd (store_bytes image_addr example_image example_vmm).

Lemma example_image_ok : bytes_ok example_image.
Proof.
  apply Forall_forall. intros b Hb%list_elem_of_In.
  assert (H : forallb (fun b => (0 <=? b) && (b <? 256)) example_image = true) by by vm_compute.
  rewrite forallb_forall in H. specialize (H b Hb). unfold byte_ok. lia.
Qed.

Lemma low_window a n : 0 <= a -> a + n <= PHYS_LIMIT -> window low_memory a n.
Proof. unfold PHYS_LIMIT. intros Ha Hn. split_and!; [done|lia|]. unfold span, low_memory, PHYS_LIMIT. lia. Qed.

#[local] Opaque example_vmm example_image store_bytes.

Lemma load_state_spec :
  exists m, load_state = Vmm.set_mem m example_vmm /\
    writes (span image_addr (zlen example_image)) (Vmm.mem example_vmm) m /\
    mem_bytes m image_addr (zlen example_image) = example_image.
Proof.
  destruct (run_store_bytes low_memory example_image image_addr example_vmm) as (m & R & Hm & Hb);
    [by apply low_window|apply example_image_ok|].
  exists m. split; [unfold load_state; rewrite R; reflexivity|]. exact (conj Hm Hb).
Qed.

Lemma example_managed p : p ∈ pa_managed (Vmm.pmm example_vmm) -> 0x100000 <= p.
Proof.
  intros (i & Hi & ->)%elem_managed. unfold frame_at.
  assert (Pmm.kernel_start (Pmm.pmm_config (Vmm.pmm example_vmm)) = 0x100000) as -> by by vm_compute.
  lia.
Qed.

Lemma example_types_root p lvl : example_types !! p = Some lvl -> p = 0x5000.
Proof. unfold example_types. by intros [<- _]%lookup_singleton_Some. Qed.

Lemma example_setting : load_setting example_hhdm low_memory image_addr example_image elf_addr example_types load_state.
Proof.
  destruct load_state_spec as (m & -> & Hm & Hb).
  assert (Htab : forall p lvl x, example_types !! p = Some lvl -> span p 4096 x ->
    ~ span image_addr (zlen example_image) x).
  { intros p lvl x ->%example_types_root. unfold span, image_addr.
    change (zlen example_image) with 128. lia. }
  constructor.
  - by apply (pt_inv_writes example_hhdm low_memory example_types example_vmm m _ example_pt_inv Hm).
  - split; [by apply low_window|done].
  - by apply low_window.
  - intros x. unfold span, image_addr, elf_addr. change (zlen example_image) with 128. unfold sizeof_elf. lia.
  - intros x Hx. assert (Hr : 0x6000 <= x < 0x8000).
    { unfold span, image_addr, elf_addr, sizeof_elf in Hx. change (zlen example_image) with 128 in Hx. lia. }
    split.
    + intros p lvl ->%example_types_root. unfold span. lia.
    + intros p Hp Hs. apply pa_free_managed in Hp; [|apply example_pt_inv].
      apply example_managed in Hp. unfold span in Hs. lia.
  - intros p Hp. apply (pa_managed_page (Vmm.pmm example_vmm)) in Hp; [|apply example_pt_inv].
    apply low_window; lia.
  - done.
Qed.

Lemma example_seg_ok i : 0 <= i < phnum example_image -> seg_ok example_image 0 i.
Proof.
  change (phnum example_image) with 1. intros Hi. assert (i = 0) as -> by lia. intros _.
  by vm_compute.
Qed.

(** ** Instances *)

Lemma elf_parse_memory_correct_witness :
  image_ok example_image = true /\
  exists m, elf_parse_memory image_addr (zlen example_image) elf_addr load_state
      = (Ret true, Vmm.set_mem m load_state) /\
    (forall x, ~ span elf_addr sizeof_elf x -> mem_byte m x = mem_byte (Vmm.mem load_state) x) /\
    (true = true -> view m elf_addr = parsed_view image_addr example_image).
Proof.
  split; [by vm_compute|].
  exact (elf_parse_memory_correct example_hhdm low_memory image_addr example_image elf_addr load_state
    (se_image _ _ _ _ _ _ _ example_setting) (se_struct _ _ _ _ _ _ _ example_setting) eq_refl eq_refl
    (se_apart _ _ _ _ _ _ _ example_setting) (conj eq_refl eq_refl)).
Defined.


(** The load succeeds, and the first page is in the first free frame. *)
Definition example_load : option (bool * list Z) :=
  match elf_parse_memory image_addr (zlen example_image) elf_addr load_state with
  | (Ret true, s1) =>
      match elf_load elf_addr 0 s1 with
      | (Ret b, s') => Some (b, mem_bytes (Vmm.mem s') (fst (pmm_alloc_pages 2 (Vmm.pmm load_state))) 9)
      | _ => None
      end
  | _ => None
  end.

Lemma example_loads : example_load = Some (true, [0xB8; 0x3C; 0; 0; 0; 0x0F; 0x05; 0x90; 0]).
Proof. by vm_compute. Qed.

(** A table offset that wraps around passes the bounds check. *)
Definition wrapping_image : list Z :=
  take 32 example_image ++ le 8 (2 ^ 64 - 56) ++ take 24 (drop 40 example_image).

Lemma wrapping_image_ok :
  image_ok wrapping_image = true /\ phnum wrapping_image = 1 /\ zlen wrapping_image < phoff wrapping_image.
Proof. by vm_compute. Qed.
