(* ===== verification/Task.v ===== *)
(** Creating a task in core/exec/scheduler.c: [scheduler_create_task] and the
    initial context and stack of [init_task_context], over the scheduler of
    Sched.v and the loader of Elf.v.

    The strings and pointer arrays are in memory; a loop that looks for the end
    of one runs [fuel] times at most and is then still running ([Spin]).  The
    local [entry_point] of [scheduler_create_task] is never assigned: what it
    happens to hold is an argument. *)
From S2P Require Import Prelude PageAllocator Bytes Vmm Interrupts Sched Memory Elf.
Import Memory.
Import Sched.

Module Task.

(** [scheduler_config.user_stack_size] *)
Definition USER_STACK_SIZE : Z := 65536.
(** [sizeof(task->name)] *)
Definition NAME_SIZE : nat := 32.

(** The words of [cpu_context_t]. *)
Definition CONTEXT_RAX : nat := 0.
Definition CONTEXT_RSP : nat := 7.
Definition CONTEXT_RIP : nat := 16.
Definition CONTEXT_RFLAGS : nat := 17.
Definition CONTEXT_CS : nat := 18.
Definition CONTEXT_SS : nat := 19.

Definition set_stack_size (x : Z) (t : task_t) : task_t :=
  Task (tid t) (name t) (state t) (base_priority t) (dynamic_priority t) (quantum t) (cpu_time t)
    (last_schedule t) (start_time t) (exit_code t) (context t) (page_table t) (stack_top t)
    x (argc t) (argv t) (envp t) (next t) (prev t).

Section memory.
  Context {A : Type} `{!Mmu}.
  Local Abbreviation V := (M (Vmm.vmm_state A)).

(** [p[i]] for an array of pointers. *)
Definition nth_ptr (p i : Z) : V Z := load_int 8 (u64 (p + 8 * i)).

(** [strlen], from character [n] on. *)
Fixpoint strlen (fuel : nat) (p n : Z) : V Z :=
  c ← load8 (u64 (p + n));
  if c =? 0 then mret n
  else match fuel with O => mspin | S fuel => strlen fuel p (n + 1) end.

Fixpoint strcpy (fuel : nat) (d src : Z) : V unit :=
  c ← load8 src;
  store8 d c;;
  if c =? 0 then mret tt
  else match fuel with O => mspin | S fuel => strcpy fuel (u64 (d + 1)) (u64 (src + 1)) end.

(** [while (envp[envc] != NULL) envc++;] *)
Fixpoint count_pointers (fuel : nat) (p n : Z) : V Z :=
  x ← nth_ptr p n;
  if x =? NULL then mret n
  else match fuel with O => mspin | S fuel => count_pointers fuel p (n + 1) end.

(** The sizes of the strings [p[i]], [p[i + 1]], ..., with their NULs. *)
Fixpoint strings_size (fuel n : nat) (p i total : Z) : V Z :=
  match n with
  | O => mret total
  | S n =>
      x ← nth_ptr p i;
      len ← strlen fuel x 0;
      strings_size fuel n p (i + 1) (u64 (total + len + 1))
  end.

(** Copying the strings to [string_ptr] and pointing the array at the copies;
    the result is the address behind the last one. *)
Fixpoint copy_strings (fuel n : nat) (p i string_ptr : Z) : V Z :=
  match n with
  | O => mret string_ptr
  | S n =>
      x ← nth_ptr p i;
      strcpy fuel string_ptr x;;
      store_int 8 (u64 (p + 8 * i)) string_ptr;;
      x ← nth_ptr p i;
      len ← strlen fuel x 0;
      copy_strings fuel n p (i + 1) (u64 (string_ptr + len + 1))
  end.

(** Writing the pointers of an array, and then a null pointer, from [to_] on. *)
Fixpoint push_pointers (n : nat) (p i to_ : Z) : V Z :=
  match n with
  | O => store_int 8 to_ 0;; mret (u64 (to_ + 8))
  | S n =>
      x ← nth_ptr p i;
      store_int 8 to_ x;;
      push_pointers n p (i + 1) (u64 (to_ + 8))
  end.

(** The stack of a new task; the result is its stack pointer. *)
Definition build_stack (fuel : nat) (stack_top argc argv envp : Z) : V Z :=
  envc ← count_pointers fuel envp 0;
  argv_size ← strings_size fuel (Z.to_nat argc) argv 0 0;
  envp_size ← strings_size fuel (Z.to_nat envc) envp 0 0;
  let stack_ptr := Z.land (u64 (stack_top - (argc + envc + 2) * 8 - argv_size - envp_size)) (u64 (Z.lnot 0xF)) in
  string_ptr ← copy_strings fuel (Z.to_nat argc) argv 0 stack_ptr;
  _ ← copy_strings fuel (Z.to_nat envc) envp 0 string_ptr;
  p ← push_pointers (Z.to_nat argc) argv 0 stack_ptr;
  p ← push_pointers (Z.to_nat envc) envp 0 p;
  store_int 8 p 0;;
  store_int 8 (u64 (p + 8)) 0;;
  store_int 8 (u64 (p + 16)) argc;;
  mret (u64 (p + 24)).
End memory.

Section task.
  Context {A D : Type} `{PageAllocator A} `{!Mmu} `{PortIO D} `{ContextSwitch}.
  Local Abbreviation K := (M (sched_state A D)).

(** The registers [init_task_context] sets first. *)
Definition first_context (entry_point page_table : Z) : list Z :=
  let c := replicate 25 0 in
  let c := <[CONTEXT_RIP := entry_point]> c in
  let c := <[CONTEXT_RFLAGS := 0x202]> c in
  let c := <[CONTEXT_CS := Z.lor 0x1B 3]> c in
  let c := foldl (fun c k => <[(CONTEXT_SS + k)%nat := Z.lor 0x23 3]> c) c (seq 0 5) in
  <[CONTEXT_CR3 := page_table]> c.

Definition init_task_context (fuel : nat) (t entry_point stack_top argc argv envp : Z) : K unit :=
  s ← mget;
  update t (Sched.set_context (first_context entry_point (page_table (the_task s t))));;
  rsp ← run_vm (build_stack fuel stack_top argc argv envp);
  mmodify (fun s => upd_task t (Sched.set_context (<[CONTEXT_RSP := rsp]> (context (the_task s t)))) s).

(** The first task from index [i] on that is new or terminated. *)
Fixpoint find_slot (n : nat) (i : Z) (tbl : list task_t) : option Z :=
  match n with
  | O => None
  | S n =>
      let st := state (array_get zero_task tbl i) in
      if decide (st = TASK_STATE_TERMINATED \/ st = TASK_STATE_NEW) then Some i
      else find_slot n (i + 1) tbl
  end.

Definition scheduler_create_task (fuel : nat) (entry_point : Z) (elf_data elf_size : Z) (task_name : list Z)
    (priority argc argv envp : Z) : K Z :=
  spinlock_acquire;;
  slot ← mgets (fun s => find_slot (Z.to_nat TASK_MAX_COUNT) 0 (task_table s));
  match slot with
  | None => spinlock_release;; mret 0
  | Some t =>
      update t (fun _ => zero_task);;
      id ← allocate_tid;
      s ← mget;
      update t (fun _ => Task id (take (NAME_SIZE - 1) task_name) TASK_STATE_NEW priority priority
        DEFAULT_TIME_QUANTUM 0 0 (ticks_since_boot (scheduler_stats s)) 0 (replicate 25 0) 0 0 0 0 0 0 None None);;
      table ← create_task_address_space;
      update t (set_page_table table);;
      if table =? 0 then spinlock_release;; mret 0
      else
        update t (set_stack_size USER_STACK_SIZE);;
        stack ← create_task_stack USER_STACK_SIZE table;
        update t (set_stack_top stack);;
        if stack =? NULL then
          run_vm (Vmm.vmm_delete_address_space table);;
          spinlock_release;;
          mret 0
        else
          ok ← run_vm (Elf.elf_load elf_data elf_size);
          if negb ok then
            free_task_resources (Some t);;
            spinlock_release;;
            mret 0
          else
            init_task_context fuel t entry_point stack argc argv envp;;
            add_to_ready_queue (Some t);;
            mmodify (fun s =>
              let st := scheduler_stats s in
              Sched.set_stats (Stats (u64 (total_tasks_created st + 1)) (ticks_since_boot st)
                                 (u32 (current_task_count st + 1))) s);;
            spinlock_release;;
            s ← mget;
            mret (tid (the_task s t))
  end.
End task.

End Task.
