(* ===== verification/Kernel.v ===== *)
(** The state the system calls work on: the scheduler with the memory below it,
    and the file system, which share the page allocator; and
    [elf_parse_file] of core/exec/elf.c, which reads an image through the file
    system into memory. *)
From S2P Require Import Prelude PageAllocator Bytes BlockDevice Vmm Interrupts Sched Ext2 Ext2Dir Ext2File Memory Elf.
Import Memory.

Module Kernel.

(** [ext2_fs] is the variable of that name in core/exec/syscalls.c: not the
    state of the file system, which is in [files].  [msrs] holds the
    model-specific registers.  The page allocator both parts use is the one of
    the memory manager; the copy in [files] is replaced by it at every call. *)
Record kernel (A P D : Type) : Type := MkKernel {
  sched : Sched.sched_state A P;
  files : Ext2.ext2_state A D;
  ext2_fs : Ext2.ext2_fs_t;
  msrs : gmap Z Z;
}.
Arguments MkKernel {A P D}.
Arguments sched {A P D}.
Arguments files {A P D}.
Arguments ext2_fs {A P D}.
Arguments msrs {A P D}.

Section kernel.
  Context {A P D : Type} `{!PageAllocator A, !Mmu, !PortIO P, !Sched.ContextSwitch, !BlockDevice D}.
  Local Abbreviation K := (M (kernel A P D)).
  Implicit Types k : kernel A P D.

Definition set_sched (x : Sched.sched_state A P) k : kernel A P D :=
    MkKernel x (files k) (ext2_fs k) (msrs k).
Definition set_files (x : Ext2.ext2_state A D) k : kernel A P D :=
    MkKernel (sched k) x (ext2_fs k) (msrs k).
Definition set_ext2_fs (x : Ext2.ext2_fs_t) k : kernel A P D :=
    MkKernel (sched k) (files k) x (msrs k).
Definition set_msr (r v : Z) k : kernel A P D :=
    MkKernel (sched k) (files k) (ext2_fs k) (<[r := v]> (msrs k)).

(** The allocator, and the file system with it. *)
Definition allocator k : A := Vmm.pmm (Sched.vm (sched k)).
Definition set_allocator (a : A) k : kernel A P D :=
    set_sched (Sched.set_vm (Vmm.set_pmm a (Sched.vm (sched k))) (sched k)) k.
Definition with_pmm (a : A) (f : Ext2.ext2_state A D) : Ext2.ext2_state A D :=
    Ext2.Ext2State (Ext2.fs f) (Ext2.initialized f) (Ext2.mounted f) (Ext2.io_buffer f) a (Ext2.disk f).
Definition file_system k : Ext2.ext2_state A D := with_pmm (allocator k) (files k).

(** Calls of the scheduler, of the memory manager and of the file system. *)
Definition run_sched {X} (m : M (Sched.sched_state A P) X) : K X := mzoom sched set_sched m.
Definition run_mem {X} (m : M (Vmm.vmm_state A) X) : K X := run_sched (Sched.run_vm m).
Definition run_files {X} (m : M (Ext2.ext2_state A D) X) : K X :=
  mzoom file_system (fun f k => set_allocator (Ext2.pmm f) (set_files f k)) m.

(** The string at [p], without its NUL. *)
Fixpoint read_string (fuel : nat) (p : Z) : M (Vmm.vmm_state A) (list Z) :=
  c ← load8 p;
  if c =? 0 then mret []
  else match fuel with
       | O => mspin
       | S fuel => l ← read_string fuel (u64 (p + 1)); mret (c :: l)
       end.

(** [ext2_read(fd, buffer, size)], which stores the bytes at [buffer]. *)
Definition read_to (fd buffer size : Z) : K Z :=
  r ← run_files (Ext2File.ext2_read fd (buffer =? NULL) size);
  let '(n, bytes) := (r : Z * list Z) in
  run_mem (store_bytes buffer bytes);;
  mret n.

(** ** elf_parse_file *)

Definition CHUNK : Z := 64 * 1024.

(** The loop that reads the file: at most [fuel] rounds; [None] when the buffer
    cannot be made larger, else its address and the number of bytes read. *)
Fixpoint read_file (fuel : nat) (fd file_data buffer_size total_read : Z) : K (option (Z * Z)) :=
  n ← read_to fd (u64 (file_data + total_read)) (u64 (buffer_size - total_read));
  if negb (0 <? n) then mret (Some (file_data, total_read))
  else
    match fuel with
    | O => mspin
    | S fuel =>
        let total_read := u64 (total_read + n) in
        if negb (buffer_size <=? total_read) then read_file fuel fd file_data buffer_size total_read
        else
          let new_size := u64 (buffer_size + CHUNK) in
          new_data ← run_mem (Elf.alloc_pages (Elf.pages_of new_size));
          if new_data =? NULL then
            run_mem (Elf.free_pages file_data (Elf.pages_of buffer_size));;
            _ ← run_files (Ext2File.ext2_close fd);
            mret None
          else
            run_mem (memcpy new_data file_data total_read);;
            run_mem (Elf.free_pages file_data (Elf.pages_of buffer_size));;
            read_file fuel fd new_data new_size total_read
    end.

(** [header] is the address of the local variable of that name. *)
Definition elf_parse_file (fuel : nat) (header filename elf : Z) : K bool :=
  if (filename =? NULL) || (elf =? NULL) then mret false
  else
    path ← run_mem (read_string fuel filename);
    fd ← run_files (Ext2File.ext2_open path Ext2.EXT2_O_RDONLY);
    if fd <? 0 then mret false
    else
      header_bytes ← read_to fd header Elf.sizeof_ehdr;
      if negb (header_bytes =? Elf.sizeof_ehdr) then
        _ ← run_files (Ext2File.ext2_close fd); mret false
      else
        valid ← run_mem (Elf.elf_validate_header header);
        _ ← run_files (Ext2File.ext2_close fd);
        if negb valid then mret false
        else
          fd ← run_files (Ext2File.ext2_open path Ext2.EXT2_O_RDONLY);
          if fd <? 0 then mret false
          else
            file_data ← run_mem (Elf.alloc_pages (Elf.pages_of CHUNK));
            if file_data =? NULL then
              _ ← run_files (Ext2File.ext2_close fd); mret false
            else
              r ← read_file fuel fd file_data CHUNK 0;
              match r with
              | None => mret false
              | Some (file_data, total_read) =>
                  _ ← run_files (Ext2File.ext2_close fd);
                  ok ← run_mem (Elf.elf_parse_memory file_data total_read elf);
                  (if (ok : bool) then mret tt
                   else run_mem (Elf.free_pages file_data (Elf.pages_of total_read)));;
                  mret ok
              end.
End kernel.

End Kernel.
