(* ===== verification/Syscalls.v ===== *)
(** The system calls, core/exec/syscalls.c: their set-up, the dispatcher and
    every call, over the kernel of Kernel.v.

    A string or buffer argument is an address; the strings and the bytes to be
    written are read before the call of the file system that uses them, and
    the bytes that were read are stored after it.  A string is at most [fuel]
    characters long; with a longer one the call is still running ([Spin]).
    Logging is left out. *)
From S2P Require Import Prelude PageAllocator Bytes BlockDevice Vmm Interrupts Sched Ext2 Ext2Dir Ext2File Memory Task Kernel.
Import Memory Kernel.

Module Syscalls.

(** ** Constants of core/exec/syscalls.h *)

Definition SEEK_SET : Z := 0.
Definition SEEK_CUR : Z := 1.
Definition SEEK_END : Z := 2.

Definition SYS_READ : Z := 0.
Definition SYS_WRITE : Z := 1.
Definition SYS_OPEN : Z := 2.
Definition SYS_CLOSE : Z := 3.
Definition SYS_FSTAT : Z := 5.
Definition SYS_LSEEK : Z := 8.
Definition SYS_MMAP : Z := 9.
Definition SYS_MUNMAP : Z := 11.
Definition SYS_BRK : Z := 12.
Definition SYS_GETPID : Z := 39.
Definition SYS_FORK : Z := 57.
Definition SYS_EXECVE : Z := 59.
Definition SYS_EXIT : Z := 60.
Definition SYS_WAITPID : Z := 61.
Definition SYS_GETDENTS : Z := 78.
Definition SYS_GETCWD : Z := 79.
Definition SYS_CHDIR : Z := 80.
Definition SYS_MKDIR : Z := 83.
Definition SYS_RMDIR : Z := 84.
Definition SYS_UNLINK : Z := 87.

Definition IA32_EFER : Z := 0xC0000080.
Definition IA32_STAR : Z := 0xC0000081.
Definition IA32_LSTAR : Z := 0xC0000082.
Definition IA32_FMASK : Z := 0xC0000084.

(** [sizeof(ext2_dir_entry_t)] and [sizeof(struct stat)]. *)
Definition DIR_ENTRY_SIZE : Z := 263.
Definition STAT_SIZE : Z := 52.

(** The bytes of "forked_task". *)
Definition fork_name : list Z := [102; 111; 114; 107; 101; 100; 95; 116; 97; 115; 107].

Section syscalls.
  Context {A P D : Type} `{!PageAllocator A, !Mmu, !PortIO P, !Sched.ContextSwitch, !BlockDevice D}.
  Local Abbreviation K := (M (kernel A P D)).

(** ** Set-up *)

Definition read_msr (r : Z) : K Z := mgets (fun k => default 0 (msrs k !! r)).
Definition write_msr (r v : Z) : K unit := mmodify (set_msr r v).

(** [syscall_entry] is the address of the entry point. *)
Definition syscalls_init (syscall_entry : Z) : K unit :=
  write_msr IA32_STAR (Z.lor (Z.shiftl 0x18 48) (Z.shiftl 0x08 32));;
  write_msr IA32_LSTAR syscall_entry;;
  write_msr IA32_FMASK (Z.lor (Z.shiftl 1 9) (Z.shiftl 1 10));;
  efer ← read_msr IA32_EFER;
  write_msr IA32_EFER (Z.lor efer (Z.shiftl 1 0)).

(** ** Files *)

Definition sys_read (fd buf count : Z) : K Z :=
  if (fd <? 0) || (buf =? NULL) || (count =? 0) then mret (-1)
  else n ← read_to fd buf count; if n <? 0 then mret (-1) else mret n.

Definition sys_write (fd buf count : Z) : K Z :=
  if (fd <? 0) || (buf =? NULL) || (count =? 0) then mret (-1)
  else
    bytes ← run_mem (load_bytes (Z.to_nat count) buf);
    n ← run_files (Ext2File.ext2_write fd (Some bytes));
    if n <? 0 then mret (-1) else mret n.

Definition sys_open (fuel : nat) (filename flags mode : Z) : K Z :=
  if filename =? NULL then mret (-1)
  else
    path ← run_mem (read_string fuel filename);
    fd ← run_files (Ext2File.ext2_open path (u32 flags));
    if fd <? 0 then mret (-1) else mret fd.

Definition sys_close (fd : Z) : K Z :=
  if fd <? 0 then mret (-1)
  else ok ← run_files (Ext2File.ext2_close fd); if negb ok then mret (-1) else mret 0.

(** ** Memory *)

Definition USER_WRITABLE : Z := Z.lor Vmm.VMM_FLAG_USER Vmm.VMM_FLAG_WRITABLE.

Definition sys_brk (addr : Z) : K Z :=
  new_brk ← run_mem (Vmm.vmm_allocate addr USER_WRITABLE);
  if new_brk =? NULL then mret (-1) else mret (s64 new_brk).

Definition sys_mmap (addr length : Z) : K Z :=
  if (addr =? NULL) || (length =? 0) then mret (-1)
  else
    mapped_addr ← run_mem (Vmm.vmm_map_physical addr length USER_WRITABLE);
    if mapped_addr =? NULL then mret (-1) else mret (s64 mapped_addr).

Definition sys_munmap (addr length : Z) : K Z :=
  if (addr =? NULL) || (length =? 0) then mret (-1)
  else run_mem (Vmm.vmm_unmap_physical addr length);; mret 0.

(** ** Tasks *)

Definition sys_exit (status : Z) : K unit :=
  current ← run_sched Sched.scheduler_get_current_task;
  match current with
  | Some t =>
      k ← mget;
      _ ← run_sched (Sched.scheduler_terminate_task (Sched.tid (Sched.the_task (sched k) t)) status);
      mret tt
  | None => mret tt
  end;;
  run_sched Sched.scheduler_yield.

Definition sys_getpid : K Z :=
  current ← run_sched Sched.scheduler_get_current_task;
  match current with
  | None => mret (-1)
  | Some t => mgets (fun k => Sched.tid (Sched.the_task (sched k) t))
  end.

(** [entry_point] is what the uninitialised variable of
    [scheduler_create_task] holds. *)
Definition sys_fork (fuel : nat) (entry_point : Z) : K Z :=
  current ← run_sched Sched.scheduler_get_current_task;
  match current with
  | None => mret (u32 (-1))
  | Some c =>
      k ← mget;
      let parent := Sched.the_task (sched k) c in
      new_tid ← run_sched (Task.scheduler_create_task fuel entry_point NULL 0 fork_name
        (Sched.base_priority parent) (Sched.argc parent) (Sched.argv parent) (Sched.envp parent));
      if new_tid =? 0 then mret (u32 (-1))
      else
        new_task ← run_sched (Sched.scheduler_get_task_by_id new_tid);
        match new_task with
        | None => mret (u32 (-1))
        | Some n =>
            run_sched (mmodify (fun s => Sched.upd_task n (Sched.set_context
              (<[Task.CONTEXT_RAX := 0]> (Sched.context (Sched.the_task s c)))) s));;
            mret new_tid
        end
  end.

Definition sys_execve (filename argv envp : Z) : K Z :=
  if filename =? NULL then mret (-1)
  else
    current ← run_sched Sched.scheduler_get_current_task;
    match current with
    | None => mret (-1)
    | Some t =>
        k ← mget;
        ok ← run_sched (Sched.scheduler_execute_task (Sched.tid (Sched.the_task (sched k) t)) 0 argv envp);
        if negb ok then mret (-1) else mret 0
    end.

(** [while (task->state != TASK_STATE_TERMINATED) scheduler_yield();] *)
Fixpoint wait_terminated (fuel : nat) (t : Z) : K unit :=
  k ← mget;
  if Sched.task_state_eq_dec (Sched.state (Sched.the_task (sched k) t)) Sched.TASK_STATE_TERMINATED
  then mret tt
  else
    run_sched Sched.scheduler_yield;;
    match fuel with O => mspin | S fuel => wait_terminated fuel t end.

Definition sys_waitpid (fuel : nat) (pid status options : Z) : K Z :=
  if (pid <? 0) || (status =? NULL) then mret (-1)
  else
    task ← run_sched (Sched.scheduler_get_task_by_id pid);
    match task with
    | None => mret (-1)
    | Some t =>
        wait_terminated fuel t;;
        k ← mget;
        run_mem (store_int 4 status (Sched.exit_code (Sched.the_task (sched k) t)));;
        mret pid
    end.

(** ** Calls on the variable [ext2_fs] *)

(** [&ext2_fs.open_files[fd]]; an index outside the array faults. *)
Definition fs_file (fd : Z) : K Ext2.ext2_file_t :=
  k ← mget;
  match Ext2.open_files (ext2_fs k) !! Z.to_nat fd with
  | Some f => mret f
  | None => mfault
  end.

(** One entry as [struct linux_dirent64] at [dirp]. *)
Definition store_dirent (dirp : Z) (entry : list Z) : K unit :=
  let rec_len := get16 entry 4 in
  let name_len := get8 entry 6 in
  let name := take (Z.to_nat name_len) (drop 8 entry) in
  let name := take (default (length name) (fst <$> list_find (fun c => c = 0) name)) name in
  run_mem (store_int 8 (u64 dirp) (get32 entry 0));;
  run_mem (store_int 8 (u64 (dirp + 8)) rec_len);;
  run_mem (store_int 2 (u64 (dirp + 16)) rec_len);;
  run_mem (store_bytes (u64 (dirp + 19)) (name ++ replicate (Z.to_nat name_len - length name) 0));;
  run_mem (store8 (u64 (dirp + 19 + name_len)) 0).

(** The loop of [sys_getdents], at most [fuel] rounds; [entry] is the local
    variable. *)
Fixpoint getdents_loop (fuel : nat) (fd dirp count : Z) (entry : list Z) (bytes_read : Z) : K Z :=
  if count <=? bytes_read then mret bytes_read
  else
    r ← run_files (Ext2File.ext2_read fd false DIR_ENTRY_SIZE);
    let '(n, bytes) := (r : Z * list Z) in
    let entry := splice 0 bytes entry in
    if n =? 0 then mret bytes_read
    else
      match fuel with
      | O => mspin
      | S fuel =>
          if get32 entry 0 =? 0 then getdents_loop fuel fd dirp count entry bytes_read
          else
            store_dirent (dirp + bytes_read) entry;;
            getdents_loop fuel fd dirp count entry (u32 (bytes_read + get16 entry 4))
      end.

(** [entry] is what the local variable of that name holds at first. *)
Definition sys_getdents (fuel : nat) (entry : list Z) (fd dirp count : Z) : K Z :=
  if (fd <? 0) || (dirp =? NULL) || (count =? 0) then mret (-1)
  else
    file ← fs_file fd;
    if negb (Ext2.is_open file) || negb (Ext2.EXT2_S_ISDIR (Ext2.i_mode (Ext2.inode file))) then mret (-1)
    else getdents_loop fuel fd dirp count entry 0.

Definition sys_getcwd (fuel : nat) (buf size : Z) : K Z :=
  if (buf =? NULL) || (size =? 0) then mret (-1)
  else
    k ← mget;
    run_mem (store_bytes buf (take (Z.to_nat size)
      (Ext2.current_dir (ext2_fs k) ++ replicate (Z.to_nat size) 0)));;
    run_mem (store8 (u64 (buf + size - 1)) 0);;
    run_mem (Task.strlen fuel buf 0).

Definition sys_chdir (fuel : nat) (path : Z) : K Z :=
  if path =? NULL then mret (-1)
  else
    path ← run_mem (read_string fuel path);
    k ← mget;
    let drive := Ext2.drive_index (ext2_fs k) in
    inode_num ← run_files (Ext2Dir.ext2_lookup_path drive path);
    if inode_num =? 0 then mret (-1)
    else
      inode ← run_files (Ext2.ext2_read_inode drive inode_num);
      match inode with
      | None => mret (-1)
      | Some i =>
          if negb (Ext2.EXT2_S_ISDIR (Ext2.i_mode i)) then mret (-1)
          else
            mmodify (fun k => set_ext2_fs (Ext2.set_current_dir
              (take (Z.to_nat (Ext2.EXT2_MAX_PATH - 1)) path) (ext2_fs k)) k);;
            mret 0
      end.

Definition sys_fstat (fd statbuf : Z) : K Z :=
  if (fd <? 0) || (statbuf =? NULL) then mret (-1)
  else
    file ← fs_file fd;
    if negb (Ext2.is_open file) then mret (-1)
    else
      k ← mget;
      run_mem (memset statbuf 0 STAT_SIZE);;
      run_mem (store_int 4 (u64 (statbuf + 4)) (Ext2.inode_num file));;
      run_mem (store_int 4 (u64 (statbuf + 8)) (Ext2.i_mode (Ext2.inode file)));;
      run_mem (store_int 4 (u64 (statbuf + 28)) (Ext2.i_size (Ext2.inode file)));;
      run_mem (store_int 4 (u64 (statbuf + 36)) (Ext2.i_blocks (Ext2.inode file)));;
      run_mem (store_int 4 (u64 (statbuf + 32)) (Ext2.block_size (ext2_fs k)));;
      mret 0.

Definition sys_lseek (fd offset whence : Z) : K Z :=
  if fd <? 0 then mret (-1)
  else
    file ← fs_file fd;
    if negb (Ext2.is_open file) then mret (-1)
    else
      let position :=
        if whence =? SEEK_SET then Some (u64 offset)
        else if whence =? SEEK_CUR then Some (u64 (Ext2.position file + offset))
        else if whence =? SEEK_END then Some (u64 (Ext2.i_size (Ext2.inode file) + offset))
        else None in
      match position with
      | None => mret (-1)
      | Some p =>
          mmodify (fun k => set_ext2_fs (Ext2.set_open_files
            (<[Z.to_nat fd := Ext2File.set_position p file]> (Ext2.open_files (ext2_fs k))) (ext2_fs k)) k);;
          mret (s64 p)
      end.

(** ** Names *)

(** A call of the file system on the string at [pathname]. *)
Definition on_path (fuel : nat) (pathname : Z) (f : list Z -> M (Ext2.ext2_state A D) bool) : K Z :=
  if pathname =? NULL then mret (-1)
  else
    path ← run_mem (read_string fuel pathname);
    ok ← run_files (f path);
    if negb ok then mret (-1) else mret 0.

Definition sys_mkdir (fuel : nat) (pathname mode : Z) : K Z :=
  on_path fuel pathname (fun path => Ext2Dir.ext2_mkdir path (u32 mode)).
Definition sys_rmdir (fuel : nat) (pathname : Z) : K Z := on_path fuel pathname Ext2Dir.ext2_rmdir.
Definition sys_unlink (fuel : nat) (pathname : Z) : K Z := on_path fuel pathname Ext2Dir.ext2_unlink.

(** ** The dispatcher *)

(** The [long] arguments are cast to the types of the calls: [int] ([s32]),
    [unsigned int] ([u32]), [size_t] and pointers ([u64]). *)
Definition handle_syscall (fuel : nat) (entry_point : Z) (entry : list Z)
    (syscall_number arg1 arg2 arg3 arg4 arg5 arg6 : Z) : K Z :=
  let call n := syscall_number =? n in
  if call SYS_READ then sys_read (s32 arg1) (u64 arg2) (u64 arg3)
  else if call SYS_WRITE then sys_write (s32 arg1) (u64 arg2) (u64 arg3)
  else if call SYS_OPEN then sys_open fuel (u64 arg1) (s32 arg2) (s32 arg3)
  else if call SYS_CLOSE then sys_close (s32 arg1)
  else if call SYS_BRK then sys_brk (u64 arg1)
  else if call SYS_EXIT then sys_exit (s32 arg1);; mret 0
  else if call SYS_GETPID then sys_getpid
  else if call SYS_FORK then sys_fork fuel entry_point
  else if call SYS_EXECVE then sys_execve (u64 arg1) (u64 arg2) (u64 arg3)
  else if call SYS_WAITPID then sys_waitpid fuel (s32 arg1) (u64 arg2) (s32 arg3)
  else if call SYS_MMAP then sys_mmap (u64 arg1) (u64 arg2)
  else if call SYS_MUNMAP then sys_munmap (u64 arg1) (u64 arg2)
  else if call SYS_GETDENTS then sys_getdents fuel entry (s32 arg1) (u64 arg2) (u32 arg3)
  else if call SYS_GETCWD then sys_getcwd fuel (u64 arg1) (u64 arg2)
  else if call SYS_CHDIR then sys_chdir fuel (u64 arg1)
  else if call SYS_FSTAT then sys_fstat (s32 arg1) (u64 arg2)
  else if call SYS_LSEEK then sys_lseek (s32 arg1) arg2 (s32 arg3)
  else if call SYS_MKDIR then sys_mkdir fuel (u64 arg1) (s32 arg2)
  else if call SYS_RMDIR then sys_rmdir fuel (u64 arg1)
  else if call SYS_UNLINK then sys_unlink fuel (u64 arg1)
  else mret (-1).

(** The assembly at [syscall_entry] moves R10 to RCX, where the C function
    expects its fourth argument, and calls [handle_syscall]: its first argument
    is taken from RDI; the seventh one, on the stack, is the RAX pushed last. *)
Definition syscall_entry (fuel : nat) (entry_point : Z) (entry : list Z) (rax rdi rsi rdx r10 r8 r9 : Z) : K Z :=
  handle_syscall fuel entry_point entry (s64 rdi) (s64 rsi) (s64 rdx) (s64 r10) (s64 r8) (s64 r9) (s64 rax).

End syscalls.

End Syscalls.
