(* ===== verification/SyscallSpec.v ===== *)
(** The system calls of core/exec/syscalls.c: what reading gives the caller,
    and the calls that can never succeed. *)
From S2P Require Import Prelude PageAllocator Bytes Wp BlockDevice Vmm Interrupts Sched SchedLock Ext2.
From S2P Require Import Ext2Dir Ext2File Ext2Inv Ext2Block Ext2Inode Ext2Safe Ext2Map Ext2FileSafe Ext2ReadSpec Memory Task Kernel Syscalls.
Import Memory Kernel Syscalls.

(** ** Runs of the parts *)

Section parts.
  Context {A P D : Type} `{!PageAllocator A, !Mmu, !PortIO P, !Sched.ContextSwitch, !BlockDevice D}.
  Implicit Types k : kernel A P D.

(** The memory manager of the kernel, and the kernel with another one. *)
Definition memory_manager k : Vmm.vmm_state A := Sched.vm (sched k).
Definition set_memory_manager (v : Vmm.vmm_state A) k : kernel A P D :=
  set_sched (Sched.set_vm v (sched k)) k.

Lemma run_in_sched {X} (m : M (Sched.sched_state A P) X) k r s :
  m (sched k) = (r, s) -> run_sched m k = (r, set_sched s k).
Proof using Type. apply (run_zoom sched set_sched). Qed.

Lemma run_in_mem {X} (m : M (Vmm.vmm_state A) X) k r v :
  m (memory_manager k) = (r, v) -> run_mem m k = (r, set_memory_manager v k).
Proof using Type. intros Hm. apply run_in_sched, (run_zoom Sched.vm). exact Hm. Qed.

Lemma run_in_files {X} (m : M (Ext2.ext2_state A D) X) k r f :
  m (file_system k) = (r, f) -> run_files m k = (r, set_allocator (Ext2.pmm f) (set_files f k)).
Proof using Type. apply (run_zoom file_system (fun f k => set_allocator (Ext2.pmm f) (set_files f k))). Qed.

(** Changing one part leaves the others alone. *)
Lemma file_system_set_files f k : file_system (set_allocator (Ext2.pmm f) (set_files f k)) = f.
Proof using Type. by destruct f. Qed.

Lemma memory_set_files f k :
  Vmm.mem (memory_manager (set_allocator (Ext2.pmm f) (set_files f k))) = Vmm.mem (memory_manager k).
Proof using Type. done. Qed.

Lemma file_system_set_mem m k :
  file_system (set_memory_manager (Vmm.set_mem m (memory_manager k)) k) = file_system k.
Proof using Type. done. Qed.

Lemma call_spins {X Y} (m : M (Sched.sched_state A P) X) (f : X -> M (kernel A P D) Y) k :
  fst (m (sched k)) = Spin -> fst ((run_sched m ≫= f) k) = Spin.
Proof using Type.
  intros Hm. unfold mbind, m_bind, run_sched, mzoom. destruct (m (sched k)) as [[] s]; done.
Qed.
End parts.

(** ** Reading a file *)

Section read.
  Context {A P D : Type} `{!PageAllocator A, !Mmu, !PortIO P, !Sched.ContextSwitch}.
  Context `{!BlockDevice D, !BlockDeviceSpec D} (W : Z -> Prop) `{!IdentityMap W}.
  Implicit Types k : kernel A P D.

Lemma contents_ok s ino : inv s -> bytes_ok (contents (A := A) (D := D) s ino).
Proof using Type*.
  intros Hs. unfold contents. apply Forall_take.
  generalize 0, (block_count s ino). intros i n. revert i.
  induction n as [|n IH]; intros i; [constructor|]. cbn [blocks]. apply Forall_app. split; [|apply IH].
  unfold disk_block. generalize (file_block s ino i * sectors_per_block s), (Z.to_nat (sectors_per_block s)).
  intros x c. revert x. induction c as [|c IHc]; intros x; [constructor|]. cbn [sectors].
  apply Forall_app. split; [|apply IHc]. apply (dev_sector_ok _ _ _ (inv_dev s Hs)).
Qed.

End read.
