(* ===== verification/SyscallFail.v ===== *)
(** The system calls that cannot do their work: the calls on the variable
    [ext2_fs] of core/exec/syscalls.c, which nothing ever fills, the calls that
    take the task lock twice, and [sys_fork]. *)
From S2P Require Import Prelude PageAllocator Bytes BlockDevice Vmm VmmTables VmmRun VmmSpec Interrupts Sched SchedSpec SchedLock Ext2.
From S2P Require Import Ext2Dir Ext2File Memory Elf Task Kernel Syscalls SyscallSpec.
Import Memory Kernel Syscalls.

Section fail.
  Context {A P D : Type} `{!PageAllocator A, !Mmu, !PortIO P, !Sched.ContextSwitch, !BlockDevice D}.
  Local Abbreviation K := (M (kernel A P D)).
  Implicit Types k : kernel A P D.

(** ** The variable [ext2_fs] *)

(** No descriptor of the table in the variable is open. *)
Definition all_closed k : Prop :=
  length (Ext2.open_files (ext2_fs k)) = Ext2.EXT2_MAX_FILES /\
  Forall (fun f => Ext2.is_open f = false) (Ext2.open_files (ext2_fs k)).

(** Code that leaves the table closed, whatever its outcome. *)
Definition stays_closed {X} (m : K X) : Prop := forall k, all_closed k -> all_closed (snd (m k)).

Lemma closed_bind {X Y} (m : K X) (f : X -> K Y) :
  stays_closed m -> (forall x, stays_closed (f x)) -> stays_closed (m ≫= f).
Proof using Type.
  intros Hm Hf k Hk. specialize (Hm k Hk). unfold mbind, m_bind.
  destruct (m k) as [[x| | | |] k']; cbn [snd] in *; try done. by apply Hf.
Qed.

(** What follows reading an entry of the closed table need only be looked at
    for a closed file. *)
Lemma closed_fs_file {Y} fd (f : Ext2.ext2_file_t -> K Y) :
  (forall x, Ext2.is_open x = false -> stays_closed (f x)) -> stays_closed (fs_file fd ≫= f).
Proof using Type.
  intros Hf k Hk. unfold fs_file, mbind, m_bind, mget.
  destruct (Ext2.open_files (ext2_fs k) !! Z.to_nat fd) as [x|] eqn:Hx; [|done].
  apply Hf; [|done]. by apply (Forall_lookup_1 _ _ _ _ (proj2 Hk) Hx).
Qed.

Lemma closed_same {X} (m : K X) : (forall k, ext2_fs (snd (m k)) = ext2_fs k) -> stays_closed m.
Proof using Type. intros Hm k. unfold all_closed. by rewrite Hm. Qed.

Lemma closed_sched {X} (m : M (Sched.sched_state A P) X) : stays_closed (run_sched (D := D) m).
Proof using Type. apply closed_same. intros k. unfold run_sched, mzoom. by destruct (m (sched k)). Qed.

Lemma closed_files {X} (m : M (Ext2.ext2_state A D) X) : stays_closed (run_files (P := P) m).
Proof using Type. apply closed_same. intros k. unfold run_files, mzoom. by destruct (m (file_system k)). Qed.

Ltac closed :=
  repeat first
    [ apply closed_sched | apply closed_files
    | apply closed_fs_file; intros ? Hclosed; rewrite Hclosed; cbn [negb orb]; cbv iota
    | apply closed_bind; [|intros ?]
    | match goal with
      | |- stays_closed (run_mem _) => apply closed_sched
      | |- stays_closed (match ?x with _ => _ end) => destruct x
      | |- stays_closed (let '(_, _) := ?x in _) => destruct x
      end
    | solve [by apply closed_same]
    | assumption ].

Lemma closed_read_to fd buffer size : stays_closed (read_to fd buffer size).
Proof using Type. unfold read_to. closed. Qed.

Lemma closed_wait fuel t : stays_closed (wait_terminated fuel t).
Proof using Type. induction fuel; cbn [wait_terminated]; closed. Qed.

Lemma closed_on_path fuel p f : stays_closed (on_path fuel p f).
Proof using Type. unfold on_path. closed. Qed.

Lemma closed_chdir fuel p : stays_closed (sys_chdir fuel p).
Proof using Type. unfold sys_chdir. closed. intros k Hk. exact Hk. Qed.

Lemma closed_lseek fd offset whence : stays_closed (sys_lseek fd offset whence).
Proof using Type. unfold sys_lseek. closed. Qed.

#[local] Hint Resolve closed_read_to closed_wait closed_on_path closed_chdir closed_lseek : core.

Lemma closed_call fuel entry_point entry n a1 a2 a3 a4 a5 a6 :
  stays_closed (handle_syscall fuel entry_point entry n a1 a2 a3 a4 a5 a6).
Proof using Type.
  unfold handle_syscall, sys_read, sys_write, sys_open, sys_close, sys_brk, sys_exit, sys_getpid, sys_fork,
    sys_execve, sys_waitpid, sys_mmap, sys_munmap, sys_getdents, sys_getcwd, sys_fstat, sys_mkdir,
    sys_rmdir, sys_unlink.
  cbv zeta. repeat case_match; closed; auto.
Qed.

(** The states after system calls with any arguments, whatever became of them,
    and after anything else, which [other] describes. *)
Inductive reached (other : kernel A P D -> kernel A P D -> Prop) k : kernel A P D -> Prop :=
  | reached_here : reached other k k
  | reached_call k' fuel entry_point entry n a1 a2 a3 a4 a5 a6 :
      reached other k k' ->
      reached other k (snd (handle_syscall fuel entry_point entry n a1 a2 a3 a4 a5 a6 k'))
  | reached_other k' k'' : reached other k k' -> other k' k'' -> reached other k k''.

(** No function outside syscalls.c can name the variable [ext2_fs]. *)
Definition leaves_variable k k' : Prop := ext2_fs k' = ext2_fs k.

Lemma reached_closed k k' : ext2_fs k = Ext2File.zero_fs -> reached leaves_variable k k' -> all_closed k'.
Proof using Type.
  intros Hk Hr. induction Hr as [|k' fuel ep entry n a1 a2 a3 a4 a5 a6 Hr IH|k' k'' Hr IH Hfs].
  - unfold all_closed. rewrite Hk. split; [done|]. by apply Forall_replicate.
  - by apply closed_call.
  - unfold all_closed. by rewrite Hfs.
Qed.

Lemma run_fs_file k fd :
  all_closed k -> 0 <= fd < 64 -> exists f, fs_file fd k = (Ret f, k) /\ Ext2.is_open f = false.
Proof using Type.
  intros [Hl Hc] Hfd.
  destruct (lookup_lt_is_Some_2 (Ext2.open_files (ext2_fs k)) (Z.to_nat fd)) as [f Hf].
  { rewrite Hl. unfold Ext2.EXT2_MAX_FILES. lia. }
  exists f. unfold fs_file. mstep. rewrite Hf. split; [done|]. by apply (Forall_lookup_1 _ _ _ _ Hc Hf).
Qed.

(** C26: The calls fstat, lseek and getdents fail for every descriptor.  They
    look it up in a second file system state, which no code ever fills: from
    boot on, after any system calls with any outcome, those that opened files
    included, each of them returns -1 and does nothing. *)
Theorem descriptor_calls_always_fail k0 k fuel entry_point entry n fd a2 a3 a4 a5 a6 :
  ext2_fs k0 = Ext2File.zero_fs -> reached leaves_variable k0 k -> n = SYS_FSTAT \/ n = SYS_LSEEK \/ n = SYS_GETDENTS ->
  0 <= fd < 64 ->
  handle_syscall fuel entry_point entry n fd a2 a3 a4 a5 a6 k = (Ret (-1), k).
Proof using Type.
  intros Hk0 Hr Hn Hfd. destruct (run_fs_file k fd (reached_closed _ _ Hk0 Hr) Hfd) as (f & Hf & Hclosed).
  assert (s32 fd = fd) as E by (apply swrap_small; lia).
  destruct Hn as [-> | [-> | ->]].
  - change (sys_fstat (s32 fd) (u64 a2) k = (Ret (-1), k)). rewrite E. unfold sys_fstat.
    replace (fd <? 0) with false by lia. destruct (_ || _); [done|]. mstep Hf. by rewrite Hclosed.
  - change (sys_lseek (s32 fd) a2 (s32 a3) k = (Ret (-1), k)). rewrite E. unfold sys_lseek.
    replace (fd <? 0) with false by lia. mstep Hf. by rewrite Hclosed.
  - change (sys_getdents fuel entry (s32 fd) (u64 a2) (u32 a3) k = (Ret (-1), k)). rewrite E.
    unfold sys_getdents. replace (fd <? 0) with false by lia. destruct (_ || _); [done|].
    mstep Hf. by rewrite Hclosed.
Qed.

(** ** The task lock *)

(** C27: A process cannot end and cannot be replaced.  When a task is running,
    exit (call 60) and execve (call 59) of any program wait forever for the
    task lock that they hold themselves. *)
Theorem exit_and_execve_deadlock k t fuel entry_point entry a1 a2 a3 a4 a5 a6 :
  Sched.current_task (sched k) = Some t ->
  fst (handle_syscall fuel entry_point entry SYS_EXIT a1 a2 a3 a4 a5 a6 k) = Spin /\
  (u64 a1 <> NULL -> fst (handle_syscall fuel entry_point entry SYS_EXECVE a1 a2 a3 a4 a5 a6 k) = Spin).
Proof using Type*.
  intros Ht.
  assert (Hcur : run_sched Sched.scheduler_get_current_task k = (Ret (Some t), k)).
  { rewrite <- Ht. erewrite run_in_sched by done. by destruct k. }
  assert (Hspin : forall X Y (m : K X) (f : X -> K Y), fst (m k) = Spin -> fst ((m ≫= f) k) = Spin).
  { intros X Y m f. unfold mbind, m_bind. by destruct (m k) as [[] k']. }
  split; [|intros Ha].
  - change (fst ((sys_exit (s32 a1);; mret 0 : K Z) k) = Spin). apply Hspin. unfold sys_exit. mstep Hcur. apply Hspin. mstep. apply call_spins, acquire_then_get.
  - change (fst (sys_execve (u64 a1) (u64 a2) (u64 a3) k) = Spin). unfold sys_execve. rewrite (proj2 (Z.eqb_neq _ _) Ha). mstep Hcur. cbv iota. mstep.
    apply call_spins, acquire_then_get.
Qed.
End fail.

(** ** Creating tasks *)

Section fork.
  Context {A P D : Type} `{PageAllocatorSpec A} `{!Mmu} `{!PortIO P} `{!Sched.ContextSwitch} `{!BlockDevice D}.
  Context (hhdm : Z) `{!HhdmWindow hhdm}.
  Implicit Types (k : kernel A P D) (s : Sched.sched_state A P).

(** The task slot and the page that [scheduler_create_task] would use, if it
    finds both. *)
Definition has_slot s : bool :=
  if Task.find_slot (Z.to_nat Sched.TASK_MAX_COUNT) 0 (Sched.task_table s) is Some _ then true else false.
Definition next_page s : Z := fst (pmm_alloc_page (Vmm.pmm (Sched.vm s))).

(** Every way [scheduler_create_task] ends when the processor does not
    translate the physical address of the next free page. *)
Lemma run_create_task T s fuel entry_point elf_data elf_size name priority argc argv envp :
  Sched.task_lock s = 0 -> pt_inv hhdm T (Sched.vm s) ->
  mmu_translate (Vmm.mem (Sched.vm s)) (Vmm.cr3 (Sched.vm s)) (next_page s) = None ->
  exists s', Task.scheduler_create_task fuel entry_point elf_data elf_size name priority argc argv envp s =
    (if has_slot s && negb (next_page s =? NULL) then Fault else Ret 0, s') /\
    Sched.task_lock s' = (if has_slot s && negb (next_page s =? NULL) then 1 else 0).
Proof using Type*.
  intros Hl Hpt Hmmu. unfold Task.scheduler_create_task. mstep (run_acquire s Hl). mstep.
  change (Sched.task_table (Sched.set_lock 1 s)) with (Sched.task_table s). unfold has_slot.
  destruct (Task.find_slot _ 0 (Sched.task_table s)) as [t|]; cbn [andb].
  2:{ eexists. split; [by mstep|reflexivity]. }
  unfold Sched.update. mstep. mstep run_allocate_tid. do 2 mstep.
  set (s1 := Sched.upd_task t _ _). unfold Sched.create_task_address_space.
  assert (Hvm : Sched.vm s1 = Sched.vm s) by done.
  destruct (Z.eqb_spec (next_page s) NULL) as [Hp|Hp]; cbn [negb].
  - destruct (run_create_address_space_no_page (Sched.vm s) Hp) as [v Hv].
    assert (R : Sched.run_vm Vmm.vmm_create_address_space s1 = (Ret 0, Sched.set_vm v s1)).
    { apply (run_zoom Sched.vm). by rewrite Hvm. }
    mstep R. mstep. cbn [Z.eqb]. eexists. split; [by mstep|reflexivity].
  - destruct (run_create_address_space_faults hhdm T (Sched.vm s) Hpt Hp Hmmu) as [v Hv].
    assert (R : Sched.run_vm Vmm.vmm_create_address_space s1 = (Fault, Sched.set_vm v s1)).
    { apply (run_zoom Sched.vm). by rewrite Hvm. }
    exists (Sched.set_vm v s1). unfold mbind at 1, m_bind. by rewrite R.
Qed.

(** C28: No task can be created on the memory layout the kernel is booted with,
    where the processor does not translate physical addresses.  With the task
    lock free, [scheduler_create_task] returns 0 for any arguments when there is
    no free task slot or no free page, and faults with the lock taken
    otherwise; so fork (call 57) gives its caller 4294967295, which is not the
    -1 of the other calls, or faults. *)
Theorem create_task_never_succeeds T k c :
  Sched.current_task (sched k) = Some c -> Sched.task_lock (sched k) = 0 ->
  pt_inv hhdm T (memory_manager k) ->
  mmu_translate (Vmm.mem (memory_manager k)) (Vmm.cr3 (memory_manager k)) (next_page (sched k)) = None ->
  let faults := has_slot (sched k) && negb (next_page (sched k) =? NULL) in
  (forall fuel entry_point elf_data elf_size name priority argc argv envp, exists s',
     Task.scheduler_create_task fuel entry_point elf_data elf_size name priority argc argv envp (sched k) =
       (if faults then Fault else Ret 0, s') /\ Sched.task_lock s' = (if faults then 1 else 0)) /\
  (forall fuel entry_point entry a1 a2 a3 a4 a5 a6,
     fst (handle_syscall fuel entry_point entry SYS_FORK a1 a2 a3 a4 a5 a6 k) =
       if faults then Fault else Ret 4294967295).
Proof using Type*.
  intros Hc Hl Hpt Hmmu faults. split; [intros; by apply (run_create_task T)|].
  intros fuel entry_point entry a1 a2 a3 a4 a5 a6.
  change (fst (sys_fork fuel entry_point k) = if faults then Fault else Ret 4294967295). unfold sys_fork.
  assert (Hcur : run_sched Sched.scheduler_get_current_task k = (Ret (Some c), k)).
  { rewrite <- Hc. erewrite run_in_sched by done. by destruct k. }
  mstep Hcur. cbv iota. mstep. cbv zeta.
  edestruct (run_create_task T (sched k) fuel entry_point NULL 0 fork_name) as (s' & R & _); [done..|].
  unfold mbind at 1, m_bind. rewrite (run_in_sched _ _ _ _ R). fold faults. by destruct faults.
Qed.
End fork.
