(* ===== verification/SyscallBoot.v ===== *)
(** The file calls of a kernel without a mounted volume.  main.c initialises the
    file system and mounts nothing, and no system call mounts anything. *)
From S2P Require Import Prelude PageAllocator Bytes BlockDevice Vmm Interrupts Sched Ext2.
From S2P Require Import Ext2Dir Ext2File Memory Task Kernel Syscalls SyscallSpec SyscallFail.
Import Memory Kernel Syscalls.

(** ** The file system *)

Section unmounted_files.
  Context {A D : Type} `{!PageAllocator A, !BlockDevice D}.
  Local Abbreviation F := (M (Ext2.ext2_state A D)).
  Implicit Types s : Ext2.ext2_state A D.

(** Code that mounts nothing, whatever its outcome. *)
Definition mounts_nothing {X} (m : F X) : Prop := forall s, Ext2.mounted s = false -> Ext2.mounted (snd (m s)) = false.

Lemma nothing_bind {X Y} (m : F X) (f : X -> F Y) :
  mounts_nothing m -> (forall x, mounts_nothing (f x)) -> mounts_nothing (m ≫= f).
Proof using Type.
  intros Hm Hf s Hs. specialize (Hm s Hs). unfold mbind, m_bind.
  destruct (m s) as [[x| | | |] s']; cbn [snd] in *; try done. by apply Hf.
Qed.

Lemma nothing_pmm {X} (f : A -> X * A) : mounts_nothing (Ext2.call_pmm f).
Proof using Type. intros s. unfold Ext2.call_pmm. by destruct (f (Ext2.pmm s)). Qed.
Lemma nothing_disk {X} (f : D -> X * D) : mounts_nothing (Ext2.call_disk f).
Proof using Type. intros s. unfold Ext2.call_disk. by destruct (f (Ext2.disk s)). Qed.
Lemma nothing_load b off n : mounts_nothing (Ext2.load b off n).
Proof using Type. intros s. unfold Ext2.load. by repeat case_match. Qed.
Lemma nothing_store b off l : mounts_nothing (Ext2.store b off l).
Proof using Type. intros s. unfold Ext2.store, Ext2.set_buffer. by repeat case_match. Qed.
Lemma nothing_scan {R} (f : list Z -> option R) : mounts_nothing (Ext2Dir.scan_io f).
Proof using Type. intros s. unfold Ext2Dir.scan_io. by case_match. Qed.

Ltac nothing :=
  repeat first
    [ apply nothing_pmm | apply nothing_disk | apply nothing_load | apply nothing_store | apply nothing_scan
    | match goal with
      | |- mounts_nothing (mbind _ _) => apply nothing_bind; [|intros ?]
      | |- mounts_nothing (match ?x with _ => _ end) => destruct x
      | |- mounts_nothing (let '(_, _) := ?x in _) => destruct x
      end
    | progress cbv zeta
    | assumption
    | solve [intros ? ?; done] ].

Lemma nothing_read_sectors drive start b n : forall i, mounts_nothing (Ext2.read_sectors drive start b n i).
Proof using Type. induction n as [|n IH]; intros i; cbn [Ext2.read_sectors]; nothing; apply IH. Qed.

Lemma nothing_read_block drive n b : mounts_nothing (Ext2.ext2_read_block drive n b).
Proof using Type.
  unfold Ext2.ext2_read_block, Ext2.cache_insert, Ext2.alloc_data. nothing; apply nothing_read_sectors.
Qed.

Lemma nothing_read_inode drive n : mounts_nothing (Ext2.ext2_read_inode drive n).
Proof using Type.
  unfold Ext2.ext2_read_inode, Ext2.inode_location, Ext2.mdiv, Ext2.mmod, Ext2.gd_get. nothing.
  apply nothing_read_block.
Qed.

Lemma nothing_get_block ino i : mounts_nothing (Ext2.get_block_from_inode ino i).
Proof using Type.
  assert (H : forall b k, mounts_nothing (Ext2.read_ptr b k)).
  { intros b k. unfold Ext2.read_ptr, Ext2.io_get. nothing. apply nothing_read_block. }
  unfold Ext2.get_block_from_inode, Ext2.mdiv. nothing; apply H.
Qed.

Lemma nothing_find drive dir name : mounts_nothing (Ext2Dir.find_file_in_dir drive dir name).
Proof using Type.
  assert (H : forall {R} k d (body : Z -> F (option R)) fuel, (forall b, mounts_nothing (body b)) ->
    forall off i, mounts_nothing (Ext2Dir.scan_dir k d body fuel off i)).
  { intros R k d body fuel Hb. induction fuel as [|fuel IH]; intros off i; cbn [Ext2Dir.scan_dir]; nothing;
      [apply nothing_get_block|apply nothing_read_block|apply Hb|apply IH]. }
  unfold Ext2Dir.find_file_in_dir. nothing; [apply nothing_read_inode|].
  apply H. intros b. nothing.
Qed.

Lemma nothing_lookup drive path : mounts_nothing (Ext2Dir.ext2_lookup_path drive path).
Proof using Type.
  assert (H : forall p k ino c, mounts_nothing (Ext2Dir.lookup_loop k ino c p)).
  { induction p as [|x p IH]; intros k ino c; cbn [Ext2Dir.lookup_loop]; nothing; first [apply nothing_find|apply IH]. }
  unfold Ext2Dir.ext2_lookup_path, Ext2Dir.normalize. nothing; apply H.
Qed.

(** Without a volume the calls fail at once. *)
Lemma unmounted_open path flags s : Ext2.mounted s = false -> Ext2File.ext2_open path flags s = (Ret (-1), s).
Proof using Type. intros Hs. unfold Ext2File.ext2_open. mstep. by rewrite Hs. Qed.
Lemma unmounted_close fd s : Ext2.mounted s = false -> Ext2File.ext2_close fd s = (Ret false, s).
Proof using Type.
  intros Hs. unfold Ext2File.ext2_close, Ext2File.open_file.
  erewrite run_bind; [|mstep; rewrite Hs; reflexivity]. done.
Qed.
Lemma unmounted_read fd b n s : Ext2.mounted s = false -> Ext2File.ext2_read fd b n s = (Ret (-1, []), s).
Proof using Type.
  intros Hs. unfold Ext2File.ext2_read, Ext2File.open_file.
  erewrite run_bind; [|mstep; rewrite Hs; reflexivity]. done.
Qed.
Lemma unmounted_write fd l s : Ext2.mounted s = false -> Ext2File.ext2_write fd l s = (Ret (-1), s).
Proof using Type.
  intros Hs. unfold Ext2File.ext2_write, Ext2File.open_file.
  erewrite run_bind; [|mstep; rewrite Hs; reflexivity]. done.
Qed.
Lemma unmounted_names path mode s : Ext2.mounted s = false ->
  Ext2Dir.ext2_mkdir path mode s = (Ret false, s) /\ Ext2Dir.ext2_rmdir path s = (Ret false, s) /\
  Ext2Dir.ext2_unlink path s = (Ret false, s).
Proof using Type.
  intros Hs. unfold Ext2Dir.ext2_mkdir, Ext2Dir.ext2_rmdir, Ext2Dir.ext2_unlink.
  split_and!; mstep; by rewrite Hs.
Qed.

(** Reading an inode divides by the number of inodes of a group, which is zero
    until a volume is mounted; so does every lookup. *)
Lemma read_inode_divides drive n s :
  n <> 0 -> Ext2.inodes_per_group (Ext2.fs s) = 0 -> fst (Ext2.ext2_read_inode drive n s) = Fault.
Proof using Type.
  intros Hn Hs. unfold Ext2.ext2_read_inode, Ext2.inode_location. rewrite (proj2 (Z.eqb_neq _ _) Hn).
  unfold mbind, m_bind, mgets, Ext2.mdiv. rewrite Hs. done.
Qed.

Lemma find_divides drive n name s :
  n <> 0 -> Ext2.inodes_per_group (Ext2.fs s) = 0 -> fst (Ext2Dir.find_file_in_dir drive n name s) = Fault.
Proof using Type.
  intros Hn Hs. unfold Ext2Dir.find_file_in_dir. rewrite (proj2 (Z.eqb_neq _ _) Hn).
  pose proof (read_inode_divides drive n s Hn Hs) as Hr. unfold mbind, m_bind.
  destruct (Ext2.ext2_read_inode drive n s) as [r s']. cbn in Hr. by subst r.
Qed.

Lemma lookup_divides drive path s : Ext2.inodes_per_group (Ext2.fs s) = 0 ->
  fst (Ext2Dir.ext2_lookup_path drive path s) = Fault \/
  Ext2Dir.ext2_lookup_path drive path s = (Ret Ext2.EXT2_ROOT_INO, s).
Proof using Type.
  intros Hs. assert (Hl : forall p c, fst (Ext2Dir.lookup_loop drive Ext2.EXT2_ROOT_INO c p s) = Fault \/
    Ext2Dir.lookup_loop drive Ext2.EXT2_ROOT_INO c p s = (Ret Ext2.EXT2_ROOT_INO, s)).
  { assert (Hf := fun name => find_divides drive Ext2.EXT2_ROOT_INO name s ltac:(done) Hs).
    induction p as [|x p IH]; intros c; cbn [Ext2Dir.lookup_loop].
    - destruct (decide (c = [])); [by right|]. left. apply Hf.
    - destruct (x =? Ext2Dir.SLASH); [|apply IH]. destruct (decide (c = [])); [apply IH|]. left.
      unfold mbind, m_bind. specialize (Hf (take (Z.to_nat Ext2.EXT2_NAME_LEN) c)).
      destruct (Ext2Dir.find_file_in_dir _ _ _ s) as [r s']. cbn in Hf. by subst r. }
  unfold Ext2Dir.ext2_lookup_path, Ext2Dir.normalize. mstep. destruct (decide _); [by right|apply Hl].
Qed.
End unmounted_files.

(** ** The system calls *)

Section unmounted_kernel.
  Context {A P D : Type} `{!PageAllocator A, !Mmu, !PortIO P, !Sched.ContextSwitch, !BlockDevice D}.
  Local Abbreviation K := (M (kernel A P D)).
  Implicit Types k : kernel A P D.

Definition no_volume k : Prop := Ext2.mounted (files k) = false.
Definition stays_unmounted {X} (m : K X) : Prop := forall k, no_volume k -> no_volume (snd (m k)).

Lemma stays_bind {X Y} (m : K X) (f : X -> K Y) :
  stays_unmounted m -> (forall x, stays_unmounted (f x)) -> stays_unmounted (m ≫= f).
Proof using Type.
  intros Hm Hf k Hk. specialize (Hm k Hk). unfold mbind, m_bind.
  destruct (m k) as [[x| | | |] k']; cbn [snd] in *; try done. by apply Hf.
Qed.

Lemma stays_sched {X} (m : M (Sched.sched_state A P) X) : stays_unmounted (run_sched (D := D) m).
Proof using Type. intros k. unfold run_sched, mzoom. by destruct (m (sched k)). Qed.

Lemma stays_files {X} (m : M (Ext2.ext2_state A D) X) : mounts_nothing m -> stays_unmounted (run_files (P := P) m).
Proof using Type.
  intros Hm k Hk. specialize (Hm (file_system k) Hk). unfold run_files, mzoom. by destruct (m (file_system k)).
Qed.

Lemma nothing_run {X} (m : M (Ext2.ext2_state A D) X) (v : X) :
  (forall s, Ext2.mounted s = false -> m s = (Ret v, s)) -> mounts_nothing m.
Proof using Type. intros Hm s Hs. by rewrite Hm. Qed.

Lemma nothing_open path flags : mounts_nothing (Ext2File.ext2_open (A := A) (D := D) path flags).
Proof using Type. eapply nothing_run. intros s. apply unmounted_open. Qed.
Lemma nothing_close fd : mounts_nothing (Ext2File.ext2_close (A := A) (D := D) fd).
Proof using Type. eapply nothing_run. intros s. apply unmounted_close. Qed.
Lemma nothing_read fd b n : mounts_nothing (Ext2File.ext2_read (A := A) (D := D) fd b n).
Proof using Type. eapply nothing_run. intros s. apply unmounted_read. Qed.
Lemma nothing_write fd l : mounts_nothing (Ext2File.ext2_write (A := A) (D := D) fd l).
Proof using Type. eapply nothing_run. intros s. apply unmounted_write. Qed.
Lemma nothing_mkdir path mode : mounts_nothing (Ext2Dir.ext2_mkdir (A := A) (D := D) path mode).
Proof using Type. eapply nothing_run. intros s Hs. exact (proj1 (unmounted_names path mode s Hs)). Qed.
Lemma nothing_rmdir path : mounts_nothing (Ext2Dir.ext2_rmdir (A := A) (D := D) path).
Proof using Type. eapply nothing_run. intros s Hs. exact (proj1 (proj2 (unmounted_names path 0 s Hs))). Qed.
Lemma nothing_unlink path : mounts_nothing (Ext2Dir.ext2_unlink (A := A) (D := D) path).
Proof using Type. eapply nothing_run. intros s Hs. exact (proj2 (proj2 (unmounted_names path 0 s Hs))). Qed.

#[local] Hint Resolve nothing_open nothing_close nothing_read nothing_write nothing_mkdir nothing_rmdir
  nothing_unlink nothing_lookup nothing_read_inode : kernel.

Ltac stays :=
  repeat first
    [ apply stays_sched
    | match goal with
      | |- stays_unmounted (run_mem _) => apply stays_sched
      | |- stays_unmounted (run_files _) =>
          apply stays_files; eauto with kernel nocore
      | |- stays_unmounted (mbind _ _) => apply stays_bind; [|intros ?]
      | |- stays_unmounted (match ?x with _ => _ end) => destruct x
      | |- stays_unmounted (let '(_, _) := ?x in _) => destruct x
      end
    | match goal with
      | |- stays_unmounted (mret _) => by intros ?
      | |- stays_unmounted mget => by intros ?
      | |- stays_unmounted (mgets _) => by intros ?
      | |- stays_unmounted (mmodify _) => by intros ?
      | |- stays_unmounted mspin => by intros ?
      end
    | assumption ].

Lemma stays_fs_file fd : stays_unmounted (fs_file fd).
Proof using Type. intros k Hk. unfold fs_file, mbind, m_bind, mget. by case_match. Qed.

Lemma stays_wait fuel t : stays_unmounted (wait_terminated fuel t).
Proof using Type. induction fuel; cbn [wait_terminated]; stays. Qed.

Lemma stays_getdents fuel fd dirp count : forall entry n, stays_unmounted (getdents_loop fuel fd dirp count entry n).
Proof using Type.
  induction fuel as [|fuel IH]; intros entry n; cbn [getdents_loop]; unfold store_dirent; cbv zeta; stays; apply IH.
Qed.

#[local] Hint Resolve stays_fs_file stays_wait stays_getdents : core.

Lemma stays_call fuel entry_point entry n a1 a2 a3 a4 a5 a6 :
  stays_unmounted (handle_syscall fuel entry_point entry n a1 a2 a3 a4 a5 a6).
Proof using Type.
  unfold handle_syscall, sys_read, sys_write, sys_open, sys_close, sys_brk, sys_exit, sys_getpid, sys_fork,
    sys_execve, sys_waitpid, sys_mmap, sys_munmap, sys_getdents, sys_getcwd, sys_fstat, sys_lseek, sys_chdir,
    sys_mkdir, sys_rmdir, sys_unlink, on_path, read_to.
  cbv zeta. stays; auto.
Qed.

(** No code outside the file system and main.c mounts a volume. *)
Definition mounts_none k k' : Prop := Ext2.mounted (files k') = Ext2.mounted (files k).

Lemma reached_unmounted k k' : no_volume k -> reached mounts_none k k' -> no_volume k'.
Proof using Type.
  intros Hk Hr. induction Hr as [|k' fuel ep entry n a1 a2 a3 a4 a5 a6 Hr IH|k' k'' Hr IH Hm]; [done| |].
  - by apply stays_call.
  - unfold no_volume. by rewrite Hm.
Qed.

Lemma run_unmounted {X} (m : M (Ext2.ext2_state A D) X) (v : X) k :
  (forall s, Ext2.mounted s = false -> m s = (Ret v, s)) -> no_volume k -> fst (run_files m k) = Ret v.
Proof using Type. intros Hm Hk. unfold run_files, mzoom. by rewrite Hm. Qed.

Lemma fst_bind {X Y} (m : K X) (f : X -> K Y) k x : fst (m k) = Ret x -> fst ((m ≫= f) k) = fst (f x (snd (m k))).
Proof using Type. unfold mbind, m_bind. destruct (m k) as [r k']. cbn. by intros ->. Qed.

Lemma run_on_path fuel p path v (f : list Z -> M (Ext2.ext2_state A D) bool) k :
  (forall s, Ext2.mounted s = false -> f path s = (Ret false, s)) -> no_volume k ->
  read_string fuel p (memory_manager k) = (Ret path, v) -> fst (on_path fuel p f k) = Ret (-1).
Proof using Type.
  intros Hf Hk Hp. unfold on_path. destruct (p =? NULL); [done|].
  mstep (run_in_mem _ _ _ _ Hp). erewrite fst_bind; [|by apply (run_unmounted (f path) false)]. done.
Qed.

(** C25: Without a volume no file can be used.  The kernel initialises the file
    system but never mounts anything, and whatever system calls are made, with
    whatever arguments and outcomes, nothing is mounted: from boot on close and
    read return -1 for all arguments, and open, mkdir, rmdir and unlink for
    every path the kernel can read. *)
Theorem no_file_without_volume k0 k fuel entry_point entry a1 a2 a3 a4 a5 a6 :
  no_volume k0 -> reached mounts_none k0 k ->
  let call n := fst (handle_syscall fuel entry_point entry n a1 a2 a3 a4 a5 a6 k) in
  call SYS_CLOSE = Ret (-1) /\ call SYS_READ = Ret (-1) /\
  (forall path v, read_string fuel (u64 a1) (memory_manager k) = (Ret path, v) ->
     call SYS_OPEN = Ret (-1) /\ call SYS_MKDIR = Ret (-1) /\ call SYS_RMDIR = Ret (-1) /\
     call SYS_UNLINK = Ret (-1)).
Proof using Type.
  intros Hk0 Hr. pose proof (reached_unmounted _ _ Hk0 Hr) as Hk. cbv zeta. split_and!.
  - change (fst (sys_close (s32 a1) k) = Ret (-1)). unfold sys_close. destruct (s32 a1 <? 0); [done|].
    erewrite fst_bind; [|apply (run_unmounted _ false); [apply unmounted_close|done]]. done.
  - change (fst (sys_read (s32 a1) (u64 a2) (u64 a3) k) = Ret (-1)). unfold sys_read, read_to.
    destruct (_ || _ || _); [done|].
    erewrite fst_bind; [|erewrite fst_bind; [|apply (run_unmounted _ (-1, [])); [apply unmounted_read|done]];
      reflexivity]. done.
  - intros path v Hp. split_and!.
    + change (fst (sys_open fuel (u64 a1) (s32 a2) (s32 a3) k) = Ret (-1)). unfold sys_open.
      destruct (u64 a1 =? NULL); [done|]. mstep (run_in_mem _ _ _ _ Hp).
      erewrite fst_bind; [|apply (run_unmounted _ (-1)); [apply unmounted_open|done]]. done.
    + change (fst (sys_mkdir fuel (u64 a1) (s32 a2) k) = Ret (-1)). eapply run_on_path; [|exact Hk|exact Hp].
      intros s Hs. exact (proj1 (unmounted_names path _ s Hs)).
    + change (fst (sys_rmdir fuel (u64 a1) k) = Ret (-1)). eapply run_on_path; [|exact Hk|exact Hp].
      intros s Hs. exact (proj1 (proj2 (unmounted_names path 0 s Hs))).
    + change (fst (sys_unlink fuel (u64 a1) k) = Ret (-1)). eapply run_on_path; [|exact Hk|exact Hp].
      intros s Hs. exact (proj2 (proj2 (unmounted_names path 0 s Hs))).
Qed.

(** Without a volume chdir stops the machine.  Call 80 with any path the
    kernel can read divides by zero, the path "/" included: looking up a path
    reads the root directory's inode, and the number of inodes of a group is
    still zero. *)
Theorem chdir_divides_by_zero k fuel entry_point entry a1 a2 a3 a4 a5 a6 path v :
  Ext2.inodes_per_group (Ext2.fs (files k)) = 0 -> u64 a1 <> NULL ->
  read_string fuel (u64 a1) (memory_manager k) = (Ret path, v) ->
  fst (handle_syscall fuel entry_point entry SYS_CHDIR a1 a2 a3 a4 a5 a6 k) = Fault.
Proof using Type.
  intros Hfs Ha Hp. change (fst (sys_chdir fuel (u64 a1) k) = Fault). unfold sys_chdir.
  rewrite (proj2 (Z.eqb_neq _ _) Ha). mstep (run_in_mem _ _ _ _ Hp). mstep. cbv zeta.
  set (k1 := set_memory_manager v k). set (drive := Ext2.drive_index _).
  assert (Hs : Ext2.inodes_per_group (Ext2.fs (file_system k1)) = 0).
  { change (Ext2.fs (file_system k1)) with (Ext2.fs (files k)). exact Hfs. }
  destruct (lookup_divides drive path _ Hs) as [Hl|Hl].
  - unfold mbind at 1, m_bind at 1, run_files at 1, mzoom at 1.
    destruct (Ext2Dir.ext2_lookup_path drive path (file_system k1)) as [r f]. cbn in Hl. by subst r.
  - mstep (run_in_files _ _ _ _ Hl). change (Ext2.EXT2_ROOT_INO =? 0) with false. cbv iota.
    set (k2 := set_allocator _ _).
    assert (Hs2 : Ext2.inodes_per_group (Ext2.fs (file_system k2)) = 0) by (unfold k2; by rewrite file_system_set_files).
    pose proof (read_inode_divides drive Ext2.EXT2_ROOT_INO _ ltac:(done) Hs2) as Hr.
    unfold mbind at 1, m_bind at 1, run_files at 1, mzoom at 1.
    destruct (Ext2.ext2_read_inode drive Ext2.EXT2_ROOT_INO (file_system k2)) as [r f]. cbn in Hr. by subst r.
Qed.
End unmounted_kernel.
