(* ===== verification/SyscallExamples.v ===== *)
(** A kernel with three tasks, a mounted volume and an open file, and instances
    of the properties of the system calls on it. *)
From S2P Require Import Prelude PageAllocator Pmm Bytes BlockDevice Vmm VmmTables VmmRun VmmExamples Interrupts Sched SchedExamples Ext2 Ext2Dir Ext2File.
From S2P Require Import Ext2Examples Ext2Inv Ext2Block Ext2Map Ext2ReadSpec Ext2Witness.
From S2P Require Import Memory ElfExamples Task Kernel Syscalls SyscallSpec SyscallFail SyscallBoot.
Import Memory Kernel Syscalls.

(** ** The kernel *)

(** The same volume over another allocator. *)
Section allocators.
Context {A B D : Type} `{!BlockDevice D, !BlockDeviceSpec D}.

Definition over (b : B) (s : Ext2.ext2_state A D) : Ext2.ext2_state B D :=
  Ext2.Ext2State (Ext2.fs s) (Ext2.initialized s) (Ext2.mounted s) (Ext2.io_buffer s) b (Ext2.disk s).

Lemma over_inv b s : inv s -> inv (over b s).
Proof. intros []. by constructor. Qed.
Lemma over_coherent b s : coherent s -> coherent (over b s).
Proof. done. Qed.
Lemma walk_over b s p ks : walk (over b s) p ks = walk s p ks.
Proof. revert p. induction ks as [|k ks IH]; intros p; [done|]. apply IH. Qed.
Lemma walk_in_over b s p ks : walk_in s p ks -> walk_in (over b s) p ks.
Proof. revert p. induction ks as [|k ks IH]; intros p; [done|]. intros [Hp Hk]. split; [exact Hp|by apply IH]. Qed.
Lemma file_block_over b s ino idx : file_block (over b s) ino idx = file_block s ino idx.
Proof.
  unfold file_block, mapped_block. change (pointers (over b s)) with (pointers s).
  change (Ext2.fs (over b s)) with (Ext2.fs s). destruct (block_path _ idx) as [[r ks]|]; [|done]. by rewrite walk_over.
Qed.
Lemma over_readable b s ino : readable s ino -> readable (over b s) ino.
Proof.
  intros [Hd Hs Hb]. constructor; [exact Hd|exact Hs|]. intros idx Hidx Hlt.
  destruct (Hb idx Hidx Hlt) as (Hin & Hnz & Hblk). rewrite file_block_over. split_and!; [|exact Hnz|exact Hblk].
  unfold file_block_in in *. change (pointers (over b s)) with (pointers s).
  destruct (block_path _ idx) as [[r ks]|]; [|done]. by apply walk_in_over.
Qed.
End allocators.

#[local] Opaque example_sched opened opened_file example_vmm.

(** The kernel with the volume [s] and the scheduler [x]. *)
Definition kernel_with (x : kstate) (v : Vmm.vmm_state Pmm.pmm_state) (s : volume) :
    kernel Pmm.pmm_state port_log ram_disk :=
  MkKernel (Sched.set_vm v x) (over (Vmm.pmm v) s) Ext2File.zero_fs ∅.

Lemma file_system_with x v s : file_system (kernel_with x v s) = over (Vmm.pmm v) s.
Proof. done. Qed.

Definition example_kernel := kernel_with example_sched example_vmm opened.

Lemma example_file_system :
  inv (file_system example_kernel) /\ coherent (file_system example_kernel) /\
  Ext2.open_files (Ext2.fs (file_system example_kernel)) !! 0%nat = Some opened_file /\
  readable (file_system example_kernel) (Ext2.inode opened_file).
Proof.
  unfold example_kernel. rewrite file_system_with. split_and!.
  - apply over_inv, opened_ok.
  - apply over_coherent, opened_ok.
  - vm_compute. reflexivity.
  - apply over_readable, opened_file_readable.
Qed.

(** ** Reading into memory *)


(** ** Calls that fail *)

Definition after_open : kernel Pmm.pmm_state port_log ram_disk :=
  snd (handle_syscall 10 0 [] SYS_OPEN 0x8000 1 0 0 0 0 example_kernel).

Lemma descriptor_calls_always_fail_witness :
  handle_syscall 10 0 [] SYS_FSTAT 0 0x9000 0 0 0 0 after_open = (Ret (-1), after_open).
Proof.
  apply (descriptor_calls_always_fail example_kernel after_open); [reflexivity| |by left|lia].
  apply reached_call, reached_here.
Defined.

Lemma exit_and_execve_deadlock_witness :
  fst (handle_syscall 10 0 [] SYS_EXIT 0 0 0 0 0 0 example_kernel) = Spin.
Proof.
  assert (Hc : Sched.current_task (sched example_kernel) = Some 1) by (vm_compute; reflexivity).
  exact (proj1 (exit_and_execve_deadlock example_kernel 1 10 0 [] 0 0 0 0 0 0 Hc)).
Defined.

(** The kernel as main.c leaves it: no volume mounted. *)
Definition boot_kernel : kernel Pmm.pmm_state port_log ram_disk :=
  MkKernel (Sched.set_vm example_vmm example_sched)
    (Ext2.Ext2State Ext2File.zero_fs true false (Ext2.io_buffer opened) (Vmm.pmm example_vmm) (Ext2.disk opened))
    Ext2File.zero_fs ∅.

Definition after_close : kernel Pmm.pmm_state port_log ram_disk :=
  snd (handle_syscall 10 0 [] SYS_CLOSE 0 0 0 0 0 0 boot_kernel).

Lemma no_file_without_volume_witness :
  fst (handle_syscall 10 0 [] SYS_OPEN 0x8000 1 0 0 0 0 after_close) = Ret (-1).
Proof.
  assert (Hr : reached mounts_none boot_kernel after_close) by apply reached_call, reached_here.
  destruct (no_file_without_volume boot_kernel after_close 10 0 [] 0x8000 1 0 0 0 0 eq_refl Hr) as (_ & _ & H).
  assert (Hp : fst (read_string 10 (u64 0x8000) (memory_manager after_close)) = Ret []) by (vm_compute; reflexivity).
  exact (proj1 (H [] _ (run_fst _ _ Hp))).
Defined.

Lemma chdir_divides_by_zero_witness :
  fst (handle_syscall 10 0 [] SYS_CHDIR 0x8000 0 0 0 0 0 boot_kernel) = Fault.
Proof.
  assert (Hp : fst (read_string 10 (u64 0x8000) (memory_manager boot_kernel)) = Ret []) by (vm_compute; reflexivity).
  exact (chdir_divides_by_zero boot_kernel 10 0 [] 0x8000 0 0 0 0 0 [] _ eq_refl ltac:(done) (run_fst _ _ Hp)).
Defined.

Section boot_layout.
#[local] Existing Instance example_mmu.
#[local] Existing Instance example_window.

Lemma create_task_never_succeeds_witness :
  fst (handle_syscall 10 0 [] SYS_FORK 0 0 0 0 0 0 example_kernel) = Fault.
Proof.
  destruct (create_task_never_succeeds example_hhdm example_types example_kernel 1
    ltac:(vm_compute; reflexivity) ltac:(vm_compute; reflexivity) example_pt_inv ltac:(vm_compute; reflexivity))
    as [_ Hfork].
  etransitivity; [apply Hfork|]. vm_compute. reflexivity.
Defined.
End boot_layout.
