(* ===== verification/Stdio.v ===== *)
(** Formatted output of lib/stdio.c, over the byte memory of CString.v, and
    [uint64_to_hex] of memory/vmm.c.

    A [va_list] is the list of the argument slots that are left, each of 64
    bits; taking one when none is left faults.  The loop over the format runs
    [fuel] times at most. *)
From S2P Require Import Prelude CString.
Import CString.

Module Stdio.

(** The characters the formats use. *)
Definition PERCENT : Z := 37.
Definition MINUS : Z := 45.
Definition ZERO : Z := 48.
Definition CHAR_s : Z := 115.
Definition CHAR_c : Z := 99.
Definition CHAR_d : Z := 100.
Definition CHAR_x : Z := 120.

(** The bytes of "(null)". *)
Definition null_string : list Z := [40; 110; 117; 108; 108; 41].

Definition va_arg (args : list Z) : M mem (Z * list Z) :=
  match args with
  | [] => mfault
  | a :: args => mret (a, args)
  end.

(** [*p++ = c] for every [c] of [l]; the result is [p]. *)
Fixpoint put_bytes (p : Z) (l : list Z) : M mem Z :=
  match l with
  | [] => mret p
  | c :: l => wr p c;; put_bytes (p + 1) l
  end.

Definition digit_char (upper : bool) (d : Z) : Z :=
  if d <? 10 then ZERO + d else (if upper then 65 else 97) + (d - 10).

(** The digits of [value] from the last one on, [n] at most: the loop
    [while (value > 0) { ...; value /= base; }]. *)
Fixpoint digits (n : nat) (base : Z) (upper : bool) (value : Z) : list Z :=
  match n with
  | O => []
  | S n => if 0 <? value then digit_char upper (value mod base) :: digits n base upper (value / base) else []
  end.

(** The local buffer of [%d] and [%x], from its first character on. *)
Definition number_buffer (size : nat) (base value : Z) : list Z :=
  if value =? 0 then [ZERO] else digits size base false value.

(** Writing the buffer backwards, as far as there is room. *)
Definition put_number (str remaining : Z) (buffer : list Z) : M mem (Z * Z) :=
  let l := take (Z.to_nat remaining) (rev buffer) in
  str ← put_bytes str l;
  mret (str, remaining - Z.of_nat (length l)).

(** The body of the [switch]: the new values of [str], [remaining] and
    [args]. *)
Definition specifier (fuel : nat) (c str remaining : Z) (args : list Z) : M mem (Z * Z * list Z) :=
  if c =? CHAR_s then
    '(s, args) ← va_arg args;
    if s =? NULL then
      let l := take (Z.to_nat remaining) null_string in
      str ← put_bytes str l;
      mret (str, remaining - Z.of_nat (length l), args)
    else
      len ← strlen fuel s;
      let len := if remaining <? len then remaining else len in
      mfor (Z.to_nat len) 0 (fun i => v ← rd (s + i); wr (str + i) v);;
      mret (str + len, remaining - len, args)
  else if c =? CHAR_c then
    '(v, args) ← va_arg args;
    wr str (u8 v);;
    mret (str + 1, remaining - 1, args)
  else if c =? CHAR_d then
    '(v, args) ← va_arg args;
    let value := s32 v in
    '(str, value, remaining) ←
      (if value <? 0 then wr str MINUS;; mret (str + 1, s32 (- value), remaining - 1)
       else mret (str, value, remaining));
    if remaining =? 0 then mret (str, remaining, args)
    else
      '(str, remaining) ← put_number str remaining (number_buffer 12 10 value);
      mret (str, remaining, args)
  else if c =? CHAR_x then
    '(v, args) ← va_arg args;
    '(str, remaining) ← put_number str remaining (number_buffer 8 16 (u32 v));
    mret (str, remaining, args)
  else
    wr str PERCENT;;
    wr (str + 1) c;;
    mret (str + 2, u64 (remaining - 2), args).

(** The loop over the format; the result is the final [str]. *)
Fixpoint format_loop (fuel : nat) (str remaining format : Z) (args : list Z) : M mem Z :=
  c ← rd format;
  if (c =? 0) || (remaining =? 0) then mret str
  else
    match fuel with
    | O => mspin
    | S fuel =>
        if negb (c =? PERCENT) then
          wr str c;;
          format_loop fuel (str + 1) (remaining - 1) (format + 1) args
        else
          c ← rd (format + 1);
          if c =? PERCENT then
            wr str PERCENT;;
            format_loop fuel (str + 1) (remaining - 1) (format + 2) args
          else
            '(str, remaining, args) ← specifier fuel c str remaining args;
            format_loop fuel str remaining (format + 2) args
    end.

Definition vsnprintf (fuel : nat) (str size format : Z) (args : list Z) : M mem Z :=
  if size =? 0 then mret 0
  else
    end_ ← format_loop fuel str (size - 1) format args;
    wr end_ 0;;
    mret (s32 (end_ - str)).

Definition snprintf (fuel : nat) (str size format : Z) (args : list Z) : M mem Z :=
  vsnprintf fuel str size format args.

(** ** [uint64_to_hex] of memory/vmm.c *)

(** [for (int i = 16; i > 1; i--)]: [n] turns from index [i] down. *)
Fixpoint hex_loop (n : nat) (i value buffer : Z) : M mem unit :=
  match n with
  | O => mret tt
  | S n => wr (buffer + i) (digit_char true (Z.land value 0xF));; hex_loop n (i - 1) (Z.shiftr value 4) buffer
  end.

Definition uint64_to_hex (value buffer : Z) : M mem unit :=
  wr buffer ZERO;;
  wr (buffer + 1) CHAR_x;;
  hex_loop 15 16 value buffer;;
  wr (buffer + 17) 0.

End Stdio.
