(* ===== verification/StdioSpec.v ===== *)
(** Formatted output: what [vsnprintf] writes, against the text a format stands
    for, and reading a printed number back. *)
From S2P Require Import Prelude CString CStringSpec Stdio.
Import CString Stdio.

(** ** Writing bytes *)

Abbreviation len l := (Z.of_nat (length l)).

(** From [m] to [m'] the bytes from [p] on become [l]; nothing else changes. *)
Definition wrote (m m' : mem) (p : Z) (l : list Z) : Prop :=
  forall a, m' a = if (p <=? a) && (a <? p + len l) then default 0 (l !! Z.to_nat (a - p)) else m a.

Lemma wrote_nil m p : wrote m m p [].
Proof. intros a. cbn [length]. range_cases; done. Qed.

Lemma wrote_one m p c : wrote m (upd m p c) p [c].
Proof.
  intros a. unfold upd. cbn [length]. range_cases; subst; try done. by rewrite Z.sub_diag.
Qed.

Lemma wrote_app m m1 m2 p l1 l2 :
  wrote m m1 p l1 -> wrote m1 m2 (p + len l1) l2 -> wrote m m2 p (l1 ++ l2).
Proof.
  intros H1 H2 a. rewrite H2, H1, length_app, Nat2Z.inj_add.
  pose proof (Nat2Z.is_nonneg (length l1)). pose proof (Nat2Z.is_nonneg (length l2)).
  destruct (decide (p <= a < p + len l1)).
  - replace ((p + len l1 <=? a) && (a <? p + len l1 + len l2)) with false by lia.
    replace ((p <=? a) && (a <? p + len l1)) with true by lia.
        replace ((p <=? a) && (a <? p + (len l1 + len l2))) with true by lia.
    by rewrite lookup_app_l by lia.
  - replace ((p <=? a) && (a <? p + len l1)) with false by lia.
    destruct (decide (p + len l1 <= a < p + len l1 + len l2)).
    + replace ((p + len l1 <=? a) && (a <? p + len l1 + len l2)) with true by lia.
      replace ((p <=? a) && (a <? p + (len l1 + len l2))) with true by lia.
      rewrite lookup_app_r by lia. do 2 f_equal. lia.
    + replace ((p + len l1 <=? a) && (a <? p + len l1 + len l2)) with false by lia.
      by replace ((p <=? a) && (a <? p + (len l1 + len l2))) with false by lia.
Qed.

Lemma wrote_outside m m' p l a : wrote m m' p l -> ~ (p <= a < p + len l) -> m' a = m a.
Proof. intros H Ha. rewrite H. by replace ((p <=? a) && (a <? p + len l)) with false by lia. Qed.

Lemma wrote_at m m' p l i c : wrote m m' p l -> l !! i = Some c -> m' (p + Z.of_nat i) = c.
Proof.
  intros H Hi. pose proof (lookup_lt_Some _ _ _ Hi). rewrite H.
  replace ((p <=? p + Z.of_nat i) && (p + Z.of_nat i <? p + len l)) with true by lia.
  replace (Z.to_nat (p + Z.of_nat i - p)) with i by lia. by rewrite Hi.
Qed.

Lemma run_put_bytes l p m : exists m', put_bytes p l m = (Ret (p + len l), m') /\ wrote m m' p l.
Proof.
  revert p m. induction l as [|c l IH]; intros p m.
  { exists m. split; [by rewrite Z.add_0_r|apply wrote_nil]. }
  cbn [put_bytes]. rewrite bind_wr. destruct (IH (p + 1) (upd m p c)) as (m' & R & H).
  exists m'. rewrite R. split; [do 2 f_equal; cbn [length]; lia|].
  apply (wrote_app _ _ _ _ [c] _ (wrote_one m p c)). exact H.
Qed.

(** Copying the first [n] bytes of a string. *)
Lemma run_copy_string n s w p m :
  cstr m s w -> (n <= length w)%nat ->
  (forall i, 0 <= i < Z.of_nat n -> ~ (p <= s + i < p + Z.of_nat n)) ->
  exists m', mfor n 0 (fun i => v ← rd (s + i); wr (p + i) v) m = (Ret tt, m') /\ wrote m m' p (take n w).
Proof.
  intros Hs Hn Hdis.
  assert (Hat : forall i c, w !! i = Some c -> m (s + Z.of_nat i) = c).
  { clear -Hs. revert s Hs. induction w as [|b w IH]; intros s Hs i c Hi; [done|].
    destruct Hs as (Hb & _ & Hw). destruct i as [|i]; [cbn in Hi; by rewrite Z.add_0_r; simplify_eq|].
    replace (s + Z.of_nat (S i)) with (s + 1 + Z.of_nat i) by lia. by apply IH. }
  destruct (run_for_inv (fun k m1 => 0 <= k /\ wrote m m1 p (take (Z.to_nat k) w)) n 0
    (fun i => v ← rd (s + i); wr (p + i) v) m) as (m' & R & _ & H).
  - split; [lia|apply wrote_nil].
  - intros k m1 Hk [_ H]. eexists. split; [by rewrite bind_rd|]. split; [lia|].
    assert (Hlen : len (take (Z.to_nat k) w) = k) by (rewrite length_take; lia).
    destruct (lookup_lt_is_Some_2 w (Z.to_nat k)) as [c Hc]; [lia|].
    rewrite (wrote_outside _ _ _ _ _ H) by (rewrite Hlen; pose proof (Hdis k); lia).
    assert (E : m (s + k) = c) by (rewrite <- (Hat _ _ Hc); f_equal; lia). rewrite E.
    replace (Z.to_nat (k + 1)) with (S (Z.to_nat k)) by lia. rewrite (take_S_r _ _ _ Hc).
    eapply wrote_app; [exact H|]. rewrite Hlen. apply wrote_one.
  - exists m'. split; [exact R|]. by replace (Z.to_nat (0 + Z.of_nat n)) with n in H by lia.
Qed.

(** ** Numbers and their digits *)

(** The value of a digit in base [b]. *)
Definition digit_value (b c : Z) : option Z :=
  let d := if (48 <=? c) && (c <=? 57) then c - 48
           else if (97 <=? c) && (c <=? 102) then c - 87 else b in
  if d <? b then Some d else None.

(** The number a string of digits stands for. *)
Definition read_number (b : Z) (t : list Z) : option Z :=
  foldl (fun acc c => a ← acc; d ← digit_value b c; Some (a * b + d)) (Some 0) t.

(** [t] is the numeral of [v]: no digit too many. *)
Definition numeral (b v : Z) (t : list Z) : Prop :=
  read_number b t = Some v /\ t <> [] /\ (head t = Some ZERO -> t = [ZERO]).

Lemma read_snoc b t c : read_number b (t ++ [c]) = (a ← read_number b t; d ← digit_value b c; Some (a * b + d)).
Proof. unfold read_number. by rewrite foldl_app. Qed.

Lemma digit_value_char b d : 2 <= b <= 16 -> 0 <= d < b -> digit_value b (digit_char false d) = Some d.
Proof.
  intros Hb Hd. unfold digit_value, digit_char, ZERO. destruct (Z.ltb_spec d 10).
  - replace ((48 <=? 48 + d) && (48 + d <=? 57)) with true by lia.
    replace (48 + d - 48 <? b) with true by lia. f_equal. lia.
  - replace ((48 <=? 97 + (d - 10)) && (97 + (d - 10) <=? 57)) with false by lia.
    replace ((97 <=? 97 + (d - 10)) && (97 + (d - 10) <=? 102)) with true by lia.
    replace (97 + (d - 10) - 87 <? b) with true by lia. f_equal. lia.
Qed.

Lemma digit_char_value b c d : 2 <= b <= 16 -> digit_value b c = Some d -> 0 <= d < b /\ digit_char false d = c.
Proof.
  intros Hb. unfold digit_value. destruct ((48 <=? c) && (c <=? 57)) eqn:E1.
  - destruct (Z.ltb_spec (c - 48) b); intros [= <-]. split; [lia|]. unfold digit_char, ZERO.
    replace (c - 48 <? 10) with true by lia. lia.
  - destruct ((97 <=? c) && (c <=? 102)) eqn:E2.
    + destruct (Z.ltb_spec (c - 87) b); intros [= <-]. split; [lia|]. unfold digit_char, ZERO.
      replace (c - 87 <? 10) with false by lia. lia.
    + by rewrite Z.ltb_irrefl.
Qed.

(** The digits of a number are those of its numeral, from the last one on. *)
Lemma digits_numeral b t : forall n v,
  2 <= b <= 16 -> read_number b t = Some v -> head t <> Some ZERO -> v < b ^ Z.of_nat n ->
  digits n b false v = rev t /\ 0 <= v /\ (v = 0 -> t = []).
Proof.
  induction t as [|c t IH] using rev_ind; intros n v Hb Hread Hhead Hv.
  { injection Hread as <-. split_and!; [by destruct n|lia|done]. }
  rewrite read_snoc in Hread. destruct (read_number b t) as [x|] eqn:Hx; [|done]. cbn in Hread.
  destruct (digit_value b c) as [d|] eqn:Hd; [|done]. injection Hread as <-.
  destruct (digit_char_value b c d Hb Hd) as [Hdr Hdc].
  assert (0 <= x /\ 0 < x * b + d) as [Hx0 Hpos].
  { destruct t as [|c0 t].
    - injection Hx as <-. split; [lia|]. destruct (decide (d = 0)) as [->|]; [|lia].
      exfalso. apply Hhead. cbn. rewrite <- Hdc. done.
    - destruct (IH (Z.to_nat (x + 1)) x Hb eq_refl Hhead) as (_ & Hx0 & Hne).
      { destruct (decide (0 <= x)); [|pose proof (Z.pow_nonneg b (Z.of_nat (Z.to_nat (x + 1))) ltac:(lia)); lia].
        rewrite Z2Nat.id by lia. pose proof (Z.pow_gt_lin_r b (x + 1) ltac:(lia) ltac:(lia)). lia. }
      split; [done|]. destruct (decide (x = 0)) as [E|]; [by apply Hne in E|]. nia. }
  split_and!; [|lia|lia]. rewrite rev_app_distr. cbn [rev app].
  destruct n as [|n]; [rewrite Z.pow_0_r in Hv; lia|]. cbn [digits].
  replace (0 <? x * b + d) with true by lia.
  assert ((x * b + d) mod b = d) as -> by (symmetry; apply (Z.mod_unique_pos _ _ x); lia).
  assert ((x * b + d) / b = x) as -> by (symmetry; apply (Z.div_unique_pos _ _ _ d); lia).
  rewrite Hdc. f_equal. rewrite Nat2Z.inj_succ, Z.pow_succ_r in Hv by lia.
  destruct t as [|c0 t]; [injection Hx as <-; by destruct n|]. apply IH; [done..|nia].
Qed.

Lemma buffer_numeral b n v t :
  2 <= b <= 16 -> numeral b v t -> v < b ^ Z.of_nat n -> rev (number_buffer n b v) = t.
Proof.
  intros Hb (Hread & Hne & Hz) Hv. unfold number_buffer.
  destruct (decide (head t = Some ZERO)) as [Hh|Hh].
  - rewrite (Hz Hh) in *. unfold read_number in Hread. cbn [foldl mbind option_bind] in Hread.
    change ZERO with (digit_char false 0) in Hread. rewrite digit_value_char in Hread by lia.
    cbn in Hread. injection Hread as <-. done.
  - destruct (digits_numeral b t n v Hb Hread Hh Hv) as (Hd & Hv0 & Hnz).
    destruct (Z.eqb_spec v 0) as [->|]; [by rewrite Hnz in Hne|]. rewrite Hd. apply rev_involutive.
Qed.

(** Every number has a numeral. *)
Lemma read_digits b n : forall v, 2 <= b <= 16 -> 0 <= v < b ^ Z.of_nat n ->
  read_number b (rev (digits n b false v)) = Some v /\ (0 < v -> head (rev (digits n b false v)) <> Some ZERO).
Proof.
  induction n as [|n IH]; intros v Hb Hv.
  { rewrite Z.pow_0_r in Hv. assert (v = 0) as -> by lia. by split. }
  cbn [digits]. destruct (Z.ltb_spec 0 v); [|assert (v = 0) as -> by lia; by split].
  rewrite Nat2Z.inj_succ, Z.pow_succ_r in Hv by lia.
  pose proof (Z.div_mod v b ltac:(lia)) as Hdm. pose proof (Z.mod_pos_bound v b ltac:(lia)) as Hm.
  assert (0 <= v / b < b ^ Z.of_nat n) as Hq.
  { split; [apply Z.div_pos; lia|]. apply Z.div_lt_upper_bound; lia. }
  destruct (IH (v / b) Hb Hq) as [Hr Hh]. cbn [rev]. split.
  - rewrite read_snoc, Hr. cbn. rewrite digit_value_char by lia. cbn. f_equal. lia.
  - intros _. destruct (rev (digits n b false (v / b))) as [|c l] eqn:El.
    + cbn. injection Hr as Hq0. intros [= Hc]. pose proof (digit_value_char b (v mod b) Hb ltac:(lia)) as Hc'.
      rewrite Hc in Hc'. change (digit_value b ZERO) with (if 0 <? b then Some 0 else None) in Hc'.
      destruct (Z.ltb_spec 0 b); [injection Hc' as Hc'|]; lia.
    + cbn in *. intros E. apply Hh in E; [done|]. destruct (decide (v / b = 0)) as [E0|]; [|lia].
      rewrite E0 in El. destruct n; discriminate El.
Qed.

Lemma numeral_exists b n v : 2 <= b <= 16 -> 0 <= v < b ^ Z.of_nat n -> numeral b v (rev (number_buffer n b v)).
Proof.
  intros Hb Hv. unfold number_buffer. destruct (Z.eqb_spec v 0) as [->|Hne].
  - split_and!; [|done|done]. unfold read_number. cbn [rev app foldl mbind option_bind].
    change ZERO with (digit_char false 0). by rewrite digit_value_char by lia.
  - destruct (read_digits b n v Hb Hv) as [Hr Hh]. split_and!; [done| |intros E; by apply Hh in E; [|lia]].
    intros E. rewrite E in Hr. injection Hr as <-. done.
Qed.

(** ** The text of a format *)

Section format.
  Context (B : Z -> Prop) (K : nat).
  Implicit Types m : mem.

(** The string at [p] is [w], short enough and outside [B]. *)
Definition outside_string m (p : Z) (w : list Z) : Prop :=
  cstr m p w /\ (length w <= K)%nat /\ forall a, p <= a <= p + len w -> ~ B a.

(** The text of the directive "%c" for the first of [args]; and the arguments
    that are left.  The least [int] is left out. *)
Inductive directive m : Z -> list Z -> list Z -> list Z -> Prop :=
  | directive_string p w args : p <> NULL -> outside_string m p w -> directive m CHAR_s (p :: args) w args
  | directive_null args : directive m CHAR_s (NULL :: args) null_string args
  | directive_char v args : directive m CHAR_c (v :: args) [u8 v] args
  | directive_int v t args : s32 v <> - 2 ^ 31 -> numeral 10 (Z.abs (s32 v)) t ->
      directive m CHAR_d (v :: args) (if s32 v <? 0 then MINUS :: t else t) args
  | directive_hex v t args : numeral 16 (u32 v) t -> directive m CHAR_x (v :: args) t args.

(** The text of the format [f]. *)
Inductive renders m : list Z -> list Z -> list Z -> Prop :=
  | renders_nil args : renders m [] args []
  | renders_char c f args t : c <> PERCENT -> renders m f args t -> renders m (c :: f) args (c :: t)
  | renders_percent f args t : renders m f args t -> renders m (PERCENT :: PERCENT :: f) args (PERCENT :: t)
  | renders_directive c f args l rest t : directive m c args l rest -> renders m f rest t ->
      renders m (PERCENT :: c :: f) args (l ++ t).

Lemma outside_ext m m' p w : (forall a, ~ B a -> m' a = m a) -> outside_string m p w -> outside_string m' p w.
Proof.
  intros Hext (Hs & Hk & Hout). split_and!; [|done|done]. eapply cstr_ext; [|exact Hs]. intros a Ha. by apply Hext, Hout.
Qed.

Lemma renders_ext m m' f args t : (forall a, ~ B a -> m' a = m a) -> renders m f args t -> renders m' f args t.
Proof.
  intros Hext. induction 1 as [| | |c f args l rest t Hd Hr IH].
  - apply renders_nil.
  - by apply renders_char.
  - by apply renders_percent.
  - apply renders_directive with rest; [|done].
    destruct Hd.
    + apply directive_string; [done|]. by eapply outside_ext.
    + apply directive_null.
    + apply directive_char.
    + by apply directive_int.
    + by apply directive_hex.
Qed.

(** What a directive does when [remaining] more bytes fit. *)
Definition puts m str remaining (r : M mem (Z * Z * list Z)) (l rest : list Z) : Prop :=
  let t := take (Z.to_nat remaining) l in
  exists m', r m = (Ret (str + len t, remaining - len t, rest), m') /\ wrote m m' str t.

Lemma puts_number m str remaining buffer rest : 0 <= remaining ->
  puts m str remaining
    ('(str, remaining) ← put_number str remaining buffer; mret (str, remaining, rest)) (rev buffer) rest.
Proof using Type.
  intros Hr. unfold puts, put_number. destruct (run_put_bytes (take (Z.to_nat remaining) (rev buffer)) str m) as (m' & R & H).
  exists m'. split; [|done]. erewrite run_bind; [|cbv zeta; mstep R; reflexivity]. done.
Qed.

Lemma s32_range v : - 2 ^ 31 <= s32 v < 2 ^ 31.
Proof using Type.
  unfold swrap. cbv zeta. pose proof (Z.mod_pos_bound v (2 ^ 32) ltac:(lia)).
  change (2 ^ (32 - 1)) with (2 ^ 31). destruct (Z.ltb_spec (v mod 2 ^ 32) (2 ^ 31)); lia.
Qed.

Lemma run_strlen w : forall fuel p m, cstr m p w -> (length w <= fuel)%nat -> strlen fuel p m = (Ret (len w), m).
Proof using Type.
  assert (He : forall fuel p m, cstr m p w -> (length w <= fuel)%nat -> string_end fuel p m = (Ret (p + len w), m)).
  { induction w as [|c w IH]; intros fuel p m Hs Hf.
    - destruct fuel; cbn [string_end]; rewrite bind_rd, Hs; cbv [mret m_ret Z.eqb]; do 2 f_equal; cbn [length]; lia.
    - destruct Hs as (Hc & Hr & Hs). cbn [length] in *. destruct fuel as [|fuel]; [lia|]. cbn [string_end].
      rewrite bind_rd, Hc. replace (c =? 0) with false by lia. rewrite IH by (done || lia). do 2 f_equal. lia. }
  intros fuel p m Hs Hf. unfold strlen. mstep (He fuel p m Hs Hf). rewrite run_ret. do 2 f_equal. lia.
Qed.

Lemma puts_string m fuel str remaining p w rest :
  p <> NULL -> outside_string m p w -> (K <= fuel)%nat -> 0 < remaining ->
  (forall a, str <= a < str + remaining -> B a) ->
  puts m str remaining (specifier fuel CHAR_s str remaining (p :: rest)) w rest.
Proof using Type.
  intros Hp (Hs & Hk & Hout) Hf Hr HB. unfold specifier. cbn [va_arg]. rewrite Z.eqb_refl. unfold puts. mstep. cbv iota.
  rewrite (proj2 (Z.eqb_neq _ _) Hp). mstep (run_strlen w fuel p m Hs ltac:(lia)). cbv zeta.
  set (n := if remaining <? len w then remaining else len w).
  assert (Hn : 0 <= n <= len w /\ n <= remaining) by (unfold n; destruct (Z.ltb_spec remaining (len w)); lia).
  assert (Ht : take (Z.to_nat remaining) w = take (Z.to_nat n) w).
  { unfold n. destruct (Z.ltb_spec remaining (len w)); [done|]. rewrite !take_ge by lia. done. }
  destruct (run_copy_string (Z.to_nat n) p w str m Hs ltac:(lia)) as (m' & R & H).
  { intros i Hi Hin. apply (Hout (p + i)); [lia|]. apply HB. lia. }
  assert (Hl : len (take (Z.to_nat n) w) = n) by (rewrite length_take; lia).
  rewrite Ht, Hl. exists m'. split; [|exact H]. by mstep R.
Qed.

Lemma puts_int m fuel str remaining v t rest :
  s32 v <> - 2 ^ 31 -> numeral 10 (Z.abs (s32 v)) t -> 0 < remaining ->
  puts m str remaining (specifier fuel CHAR_d str remaining (v :: rest)) (if s32 v <? 0 then MINUS :: t else t) rest.
Proof using Type.
  intros Hmin Hn Hr. pose proof (s32_range v) as Hv. unfold specifier. cbn [va_arg].
  change (CHAR_d =? CHAR_s) with false. change (CHAR_d =? CHAR_c) with false. rewrite Z.eqb_refl.
  unfold puts. mstep. cbv iota zeta.
  assert (Hbuf : rev (number_buffer 12 10 (Z.abs (s32 v))) = t).
  { apply buffer_numeral; [lia|done|]. change (10 ^ Z.of_nat 12) with 1000000000000. lia. }
  destruct (Z.ltb_spec (s32 v) 0) as [Hneg|Hpos].
  - rewrite Z.abs_neq in Hbuf by lia. rewrite (swrap_small 32 (- s32 v)) by lia.
    assert (Htake : take (Z.to_nat remaining) (MINUS :: t) = MINUS :: take (Z.to_nat (remaining - 1)) t).
    { by replace (Z.to_nat remaining) with (S (Z.to_nat (remaining - 1))) by lia. }
    rewrite Htake. cbn [length]. erewrite run_bind; [|rewrite bind_wr; reflexivity]. cbv beta iota.
    destruct (Z.eqb_spec (remaining - 1) 0) as [E|E].
    + rewrite E. exists (upd m str MINUS). split; [|apply wrote_one]. cbv [mret m_ret]. cbn [take length Z.to_nat].
      change (take (Z.to_nat 0) t) with (@nil Z). cbn [length]. do 4 f_equal; lia.
    + destruct (puts_number (upd m str MINUS) (str + 1) (remaining - 1) (number_buffer 12 10 (- s32 v)) rest)
        as (m' & R & H); [lia|]. rewrite Hbuf in R, H.
      exists m'. split; [|apply (wrote_app _ _ _ _ [MINUS] _ (wrote_one m str MINUS)); exact H].
      rewrite R. do 4 f_equal; lia.
  - rewrite Z.abs_eq in Hbuf by lia. mstep. cbv iota. replace (remaining =? 0) with false by lia.
    destruct (puts_number m str remaining (number_buffer 12 10 (s32 v)) rest) as (m' & R & H); [lia|].
    rewrite Hbuf in R, H. by exists m'.
Qed.

Lemma run_specifier m fuel c str remaining args l rest :
  directive m c args l rest -> (K <= fuel)%nat -> 0 < remaining ->
  (forall a, str <= a < str + remaining -> B a) ->
  puts m str remaining (specifier fuel c str remaining args) l rest.
Proof using Type.
  intros Hd Hf Hr HB. destruct Hd as [p w args Hp Hs|args|v args|v t args Hmin Hn|v t args Hn].
  - by apply puts_string.
  - destruct (run_put_bytes (take (Z.to_nat remaining) null_string) str m) as (m' & R & H).
    exists m'. split; [|exact H]. unfold specifier. cbn [va_arg]. rewrite Z.eqb_refl. mstep. cbv iota.
    rewrite Z.eqb_refl. cbv zeta. by mstep R.
  - exists (upd m str (u8 v)). unfold specifier. cbn [va_arg]. change (CHAR_c =? CHAR_s) with false.
    rewrite Z.eqb_refl. mstep. cbv iota. rewrite bind_wr.
    assert (take (Z.to_nat remaining) [u8 v] = [u8 v]) as -> by (apply take_ge; cbn; lia).
    split; [done|apply wrote_one].
  - by apply puts_int.
  - assert (Hbuf : rev (number_buffer 8 16 (u32 v)) = t).
    { apply buffer_numeral; [lia|done|]. apply (wrap_range 32). lia. }
    destruct (puts_number m str remaining (number_buffer 8 16 (u32 v)) args) as (m' & R & H); [lia|].
    rewrite Hbuf in R, H. exists m'. split; [|exact H]. exact R.
Qed.

(** What the loop does with the format [f], from any state of memory that
    differs from the first one inside the buffer only. *)
Definition loops m0 f args t : Prop := forall fuel str remaining format m,
  (length f + K <= fuel)%nat -> 0 <= remaining -> (forall a, str <= a < str + remaining -> B a) ->
  cstr m format f -> (forall a, format <= a <= format + len f -> ~ B a) ->
  (forall a, ~ B a -> m a = m0 a) ->
  let t' := take (Z.to_nat remaining) t in
  exists m', format_loop fuel str remaining format args m = (Ret (str + len t'), m') /\ wrote m m' str t'.

(** The rest of the format after [l] has been written. *)
Lemma loops_after m0 f args t fuel str remaining format m m1 l :
  loops m0 f args t -> (length f + K <= fuel)%nat -> len l <= remaining ->
  (forall a, str <= a < str + remaining -> B a) -> cstr m format f ->
  (forall a, format <= a <= format + len f -> ~ B a) -> (forall a, ~ B a -> m a = m0 a) -> wrote m m1 str l ->
  let t' := l ++ take (Z.to_nat (remaining - len l)) t in
  exists m', format_loop fuel (str + len l) (remaining - len l) format args m1 = (Ret (str + len t'), m') /\
    wrote m m' str t'.
Proof using Type.
  intros Hl Hf Hr HB Hs Hout Hm Hw t'.
  assert (Hm1 : forall a, ~ B a -> m1 a = m a).
  { intros a Ha. apply (wrote_outside _ _ _ _ _ Hw). intros Hin. apply Ha, HB. lia. }
  destruct (Hl fuel (str + len l) (remaining - len l) format m1) as (m' & R & H); [done|lia| | |done| |].
  - intros a Ha. apply HB. lia.
  - eapply cstr_ext; [|exact Hs]. intros a Ha. by apply Hm1, Hout.
  - intros a Ha. rewrite Hm1 by done. by apply Hm.
  - exists m'. split; [|by eapply wrote_app]. rewrite R. unfold t'. rewrite length_app. do 2 f_equal. lia.
Qed.

Lemma loop_full fuel str format args m : format_loop fuel str 0 format args m = (Ret str, m).
Proof using Type. destruct fuel; cbn [format_loop]; rewrite bind_rd, Z.eqb_refl, orb_true_r; done. Qed.

Lemma run_format_loop m0 f args t : renders m0 f args t -> loops m0 f args t.
Proof using Type.
  intros Hren. induction Hren as [args|c f args t Hc Hren IH|f args t Hren IH|c f args l rest t Hd Hren IH];
    intros fuel str remaining format m Hf Hr HB Hs Hout Hm t';
    (destruct (decide (remaining = 0)) as [->|Hne];
     [exists m; rewrite loop_full; split; [by rewrite Z.add_0_r|apply wrote_nil]|]).
  - exists m. unfold t'. rewrite take_nil. split; [|apply wrote_nil].
    destruct fuel; cbn [format_loop]; rewrite bind_rd, Hs; by cbv [mret m_ret]; rewrite Z.add_0_r.
  - destruct Hs as (Hc0 & Hcr & Hs). cbn [length] in *. destruct fuel as [|fuel]; [lia|]. cbn [format_loop].
    rewrite bind_rd, Hc0. replace ((c =? 0) || (remaining =? 0)) with false by lia.
    rewrite (proj2 (Z.eqb_neq _ _) Hc). cbn [negb]. rewrite bind_wr.
    destruct (loops_after m0 f args t fuel str remaining (format + 1) m (upd m str c) [c]) as (m' & R & H);
      try done; [lia|cbn; lia|intros a Ha; apply Hout; lia|apply wrote_one|].
    exists m'. unfold t'. replace (Z.to_nat remaining) with (S (Z.to_nat (remaining - 1))) by lia. exact (conj R H).
  - destruct Hs as (Hc0 & _ & Hc1 & _ & Hs). cbn [length] in *. destruct fuel as [|fuel]; [lia|]. cbn [format_loop].
    rewrite bind_rd, Hc0. replace ((PERCENT =? 0) || (remaining =? 0)) with false by (unfold PERCENT; lia).
    rewrite Z.eqb_refl. cbn [negb]. rewrite bind_rd, Hc1, Z.eqb_refl, bind_wr.
    replace (format + 1 + 1) with (format + 2) in Hs by lia.
    destruct (loops_after m0 f args t fuel str remaining (format + 2) m (upd m str PERCENT) [PERCENT]) as (m' & R & H);
      try done; [lia|cbn; lia|intros a Ha; apply Hout; lia|apply wrote_one|].
    exists m'. unfold t'. replace (Z.to_nat remaining) with (S (Z.to_nat (remaining - 1))) by lia. exact (conj R H).
  - destruct Hs as (Hc0 & _ & Hc1 & _ & Hs). cbn [length] in *. destruct fuel as [|fuel]; [lia|]. cbn [format_loop].
    rewrite bind_rd, Hc0. replace ((PERCENT =? 0) || (remaining =? 0)) with false by (unfold PERCENT; lia).
    rewrite Z.eqb_refl. cbn [negb]. rewrite bind_rd, Hc1.
    assert (c <> PERCENT) as Hcp by (by destruct Hd). rewrite (proj2 (Z.eqb_neq _ _) Hcp).
    replace (format + 1 + 1) with (format + 2) in Hs by lia.
    destruct (run_specifier m fuel c str remaining args l rest) as (m1 & R1 & H1); [|lia|lia|done|].
    { destruct Hd; try by constructor. constructor; [done|]. by apply (outside_ext m0). }
    mstep R1. cbv iota.
    destruct (loops_after m0 f rest t fuel str remaining (format + 2) m m1 (take (Z.to_nat remaining) l)) as (m' & R & H);
      try done; [lia|rewrite length_take; lia|intros a Ha; apply Hout; lia|].
    exists m'. unfold t'. rewrite take_app.
    replace (Z.to_nat (remaining - len (take (Z.to_nat remaining) l)))
      with (Z.to_nat remaining - length l)%nat in R, H by (rewrite length_take; lia).
    exact (conj R H).
Qed.
End format.

(** ** The functions *)

(** C29: Formatted output.  For a format made of plain characters, "%%" and the
    directives %s, %c, %d and %x, with an argument for each, [vsnprintf]
    returns and the buffer then holds the text the format stands for, cut off
    to [size - 1] characters, and a NUL; the result is the number of those
    characters.  No byte outside the buffer changes.  Excluded are the least
    [int] and strings in the buffer itself. *)
Theorem vsnprintf_correct K m fuel str size format f args t :
  0 < size <= 2 ^ 31 -> renders (fun a => str <= a < str + size) K m f args t ->
  cstr m format f -> (forall a, format <= a <= format + len f -> ~ (str <= a < str + size)) ->
  (length f + K <= fuel)%nat ->
  let t' := take (Z.to_nat (size - 1)) t in
  exists m', vsnprintf fuel str size format args m = (Ret (len t'), m') /\
    (forall i c, t' !! i = Some c -> m' (str + Z.of_nat i) = c) /\ m' (str + len t') = 0 /\
    forall a, ~ (str <= a < str + size) -> m' a = m a.
Proof.
  intros Hsize Hren Hs Hout Hf t'.
  destruct (run_format_loop _ K m f args t Hren fuel str (size - 1) format m) as (m1 & R & H);
    [lia|lia|intros a Ha; lia|done|done|done|]. fold t' in R, H.
  assert (Hlen : 0 <= len t' <= size - 1) by (unfold t'; rewrite length_take; lia).
  exists (upd m1 (str + len t') 0). split_and!.
  - unfold vsnprintf. replace (size =? 0) with false by lia. mstep R. rewrite bind_wr. cbv [mret m_ret].
    rewrite swrap_small by lia. do 2 f_equal. lia.
  - intros i c Hi. pose proof (lookup_lt_Some _ _ _ Hi). rewrite upd_ne by lia. by apply (wrote_at m m1 str t').
  - apply upd_eq.
  - intros a Ha. rewrite upd_ne by lia. apply (wrote_outside _ _ _ _ _ H). lia.
Qed.

(** The digits of a numeral are characters, and few. *)
Lemma read_number_bytes b t v : 2 <= b <= 16 -> read_number b t = Some v -> bytes t.
Proof.
  intros Hb. revert v. induction t as [|c t IH] using rev_ind; intros v Hr; [constructor|].
  rewrite read_snoc in Hr. destruct (read_number b t) as [x|]; [|done]. cbn in Hr.
  destruct (digit_value b c) as [d|] eqn:Hd; [|done]. apply Forall_app. split; [by apply (IH x)|].
  apply Forall_singleton. apply digit_char_value in Hd as [Hd <-]; [|done]. unfold digit_char, ZERO.
  destruct (Z.ltb_spec d 10); lia.
Qed.

Lemma length_digits n b u v : (length (digits n b u v) <= n)%nat.
Proof. revert v. induction n as [|n IH]; intros v; cbn [digits]; [done|]. destruct (0 <? v); cbn; [specialize (IH (v / b))|]; lia. Qed.

Lemma length_numeral n b v t :
  2 <= b <= 16 -> numeral b v t -> v < b ^ Z.of_nat n -> (0 < n)%nat -> (length t <= n)%nat.
Proof.
  intros Hb Ht Hv Hn. rewrite <- (buffer_numeral b n v t Hb Ht Hv), length_rev. unfold number_buffer.
  destruct (v =? 0); [cbn; lia|apply length_digits].
Qed.

Lemma cstr_intro m p t : bytes t -> (forall i c, t !! i = Some c -> m (p + Z.of_nat i) = c) -> m (p + len t) = 0 -> cstr m p t.
Proof.
  intros Ht. revert p. induction Ht as [|c t Hc Ht IH]; intros p Hat Hend.
  - by rewrite Z.add_0_r in Hend.
  - split_and!; [|lia|lia|].
    + rewrite <- (Hat 0%nat c eq_refl). f_equal. lia.
    + apply IH.
      * intros i d Hi. rewrite <- (Hat (S i) d Hi). f_equal. lia.
      * rewrite <- Hend. f_equal. cbn [length]. lia.
Qed.

(** The [int] a text stands for. *)
Definition parse_int (t : list Z) : option Z :=
  match t with
  | c :: t' => if c =? MINUS then Z.opp <$> read_number 10 t' else read_number 10 t
  | [] => None
  end.

Lemma parse_signed v t :
  numeral 10 (Z.abs v) t -> parse_int (if v <? 0 then MINUS :: t else t) = Some v.
Proof.
  intros (Hr & Hne & _). destruct (Z.ltb_spec v 0).
  - unfold parse_int. rewrite Z.eqb_refl, Hr. cbn. f_equal. lia.
  - rewrite Z.abs_eq in Hr by lia. destruct t as [|c t]; [done|]. unfold parse_int.
    pose proof (read_number_bytes 10 [c] 0) as _. destruct (Z.eqb_spec c MINUS) as [->|]; [|done].
    exfalso. clear -Hr. revert v Hr. induction t as [|d t IH] using rev_ind; intros v Hr; [by vm_compute in Hr|].
    rewrite app_comm_cons, read_snoc in Hr. destruct (read_number 10 (MINUS :: t)) as [x|] eqn:E; [|done].
    by apply (IH x).
Qed.

(** "%d" of the least [int]. *)
Lemma run_specifier_int_min fuel str remaining v rest m :
  s32 v = - 2 ^ 31 -> 1 < remaining ->
  specifier fuel CHAR_d str remaining (v :: rest) m = (Ret (str + 1, remaining - 1, rest), upd m str MINUS).
Proof.
  intros Hv Hr. unfold specifier. cbn [va_arg].
  change (CHAR_d =? CHAR_s) with false. change (CHAR_d =? CHAR_c) with false. rewrite Z.eqb_refl. mstep. cbv iota zeta.
  rewrite Hv. change (- 2 ^ 31 <? 0) with true. cbv iota. erewrite run_bind; [|rewrite bind_wr; reflexivity].
  cbv iota. replace (remaining - 1 =? 0) with false by lia.
  change (number_buffer 12 10 (s32 (- - 2 ^ 31))) with (@nil Z). unfold put_number. cbn [rev]. rewrite take_nil.
  cbv [mret m_ret mbind m_bind put_bytes]. cbn [length]. do 4 f_equal. lia.
Qed.

Lemma run_int_min m fuel str size format v :
  s32 v = - 2 ^ 31 -> 2 < size -> cstr m format [PERCENT; CHAR_d] -> ~ (str <= format + 2 < str + size) ->
  (2 <= fuel)%nat ->
  vsnprintf fuel str size format [v] m = (Ret 1, upd (upd m str MINUS) (str + 1) 0).
Proof.
  intros Hv Hsize (Hc0 & _ & Hc1 & _ & Hc2) Hout Hf. replace (format + 1 + 1) with (format + 2) in Hc2 by lia.
  destruct fuel as [|[|fuel]]; [lia..|]. unfold vsnprintf. replace (size =? 0) with false by lia.
  assert (R : format_loop (S (S fuel)) str (size - 1) format [v] m = (Ret (str + 1), upd m str MINUS)).
  { cbn [format_loop]. rewrite bind_rd, Hc0. replace ((PERCENT =? 0) || (size - 1 =? 0)) with false by (unfold PERCENT; lia).
    change (negb (PERCENT =? PERCENT)) with false. cbv iota. rewrite bind_rd, Hc1. change (CHAR_d =? PERCENT) with false. cbv iota.
    mstep (run_specifier_int_min (S fuel) str (size - 1) v [] m Hv ltac:(lia)). cbv iota.
    rewrite bind_rd, upd_ne, Hc2 by lia. done. }
  mstep R. rewrite bind_wr. cbv [mret m_ret]. do 2 f_equal. rewrite swrap_small by lia. lia.
Qed.

(** C30: A printed [int] reads back.  In a buffer of at least twelve bytes,
    [vsnprintf] with the format "%d" leaves a string that stands for the
    argument, whatever its value; except the least [int], whose negation
    overflows and for which the string is "-". *)
Theorem printed_int_reads_back m fuel str size format v :
  12 <= size <= 2 ^ 31 -> cstr m format [PERCENT; CHAR_d] ->
  (forall a, format <= a <= format + 2 -> ~ (str <= a < str + size)) -> (2 <= fuel)%nat ->
  exists n m' t, vsnprintf fuel str size format [v] m = (Ret n, m') /\ cstr m' str t /\ n = len t /\
    (if s32 v =? - 2 ^ 31 then t = [MINUS] else parse_int t = Some (s32 v)).
Proof.
  intros Hsize Hs Hout Hf. destruct (Z.eqb_spec (s32 v) (- 2 ^ 31)) as [Hmin|Hmin].
  - exists 1, (upd (upd m str MINUS) (str + 1) 0), [MINUS].
    assert (Hf2 : ~ (str <= format + 2 < str + size)) by (apply Hout; lia).
    split_and!; [by apply run_int_min; [|lia|..]| |done|done].
    cbn [cstr]. rewrite (upd_ne _ (str + 1) str), !upd_eq by lia. done.
  - pose proof (s32_range v) as Hv.
    pose proof (numeral_exists 10 10 (Z.abs (s32 v)) ltac:(lia) ltac:(change (10 ^ Z.of_nat 10) with 10000000000; lia)) as Ht.
    set (t := rev (number_buffer 10 10 (Z.abs (s32 v)))) in *.
    set (text := if s32 v <? 0 then MINUS :: t else t).
    assert (Hren : renders (fun a => str <= a < str + size) 0 m [PERCENT; CHAR_d] [v] (text ++ [])).
    { eapply renders_directive; [by apply directive_int|apply renders_nil]. }
    rewrite app_nil_r in Hren.
    pose proof (length_numeral 10 10 _ t ltac:(lia) Ht ltac:(change (10 ^ Z.of_nat 10) with 10000000000; lia) ltac:(lia)) as Hlt.
    assert (Hlen : (length text <= 11)%nat) by (unfold text; destruct (s32 v <? 0); cbn [length]; lia).
    destruct (vsnprintf_correct 0 m fuel str size format _ _ _ ltac:(lia) Hren Hs Hout ltac:(cbn; lia))
      as (m' & R & Hat & Hend & _).
    rewrite take_ge in R, Hat, Hend by lia. exists (len text), m', text. split_and!; [exact R| |done|].
    + apply cstr_intro; [|exact Hat|exact Hend]. pose proof (read_number_bytes 10 t _ ltac:(lia) (proj1 Ht)) as Hb.
      unfold text. destruct (s32 v <? 0); [|done]. constructor; [unfold MINUS; lia|done].
    + by apply parse_signed.
Qed.

(** An unknown directive runs over the end of the buffer.  With one byte
    of room left, "%" and the character after it are both written and the
    number of bytes left wraps around, so that the rest of the text is written
    without any limit: a buffer of two bytes gets two bytes, the whole text
    after them, and the NUL. *)
Theorem unknown_directive_overruns K m fuel str format c f args t :
  0 < c < 256 -> c ∉ [PERCENT; CHAR_s; CHAR_c; CHAR_d; CHAR_x] ->
  renders (fun a => str <= a) K m f args t -> len t + 2 < 2 ^ 31 ->
  cstr m format (PERCENT :: c :: f) -> format + 2 + len f < str -> (length f + K < fuel)%nat ->
  exists m', vsnprintf fuel str 2 format args m = (Ret (2 + len t), m') /\
    m' str = PERCENT /\ m' (str + 1) = c /\ (forall i d, t !! i = Some d -> m' (str + 2 + Z.of_nat i) = d) /\
    m' (str + 2 + len t) = 0.
Proof.
  intros Hc Hni Hren Ht (Hc0 & _ & Hc1 & _ & Hs) Hout Hf. replace (format + 1 + 1) with (format + 2) in Hs by lia.
  destruct fuel as [|fuel]; [lia|]. set (m1 := upd (upd m str PERCENT) (str + 1) c).
  assert (Hspec : specifier fuel c str 1 args m = (Ret (str + 2, 2 ^ 64 - 1, args), m1)).
  { unfold specifier. rewrite !(proj2 (Z.eqb_neq c _)) by (intros ->; apply Hni; set_solver). by rewrite !bind_wr. }
  assert (Hm1 : forall a, a < str -> m1 a = m a) by (intros a Ha; unfold m1; by rewrite !upd_ne by lia).
  destruct (run_format_loop _ K m f args t Hren fuel (str + 2) (2 ^ 64 - 1) (format + 2) m1) as (m2 & R & H);
    [lia|lia|intros a Ha; lia| |intros a Ha; lia|intros a Ha; apply Hm1; lia|].
  { eapply cstr_ext; [|exact Hs]. intros a Ha. apply Hm1. lia. }
  rewrite take_ge in R, H by lia.
  exists (upd m2 (str + 2 + len t) 0). split_and!.
  - unfold vsnprintf. replace (2 =? 0) with false by lia. change (2 - 1) with 1.
    erewrite run_bind; [|cbn [format_loop]; rewrite bind_rd, Hc0;
      change ((PERCENT =? 0) || (1 =? 0)) with false; change (negb (PERCENT =? PERCENT)) with false; cbv iota;
      rewrite bind_rd, Hc1, (proj2 (Z.eqb_neq c PERCENT)) by (intros ->; apply Hni; set_solver);
      mstep Hspec; cbv iota; exact R].
    cbv beta. rewrite bind_wr. cbv [mret m_ret]. rewrite swrap_small by lia. do 2 f_equal. lia.
  - rewrite upd_ne, (wrote_outside _ _ _ _ _ H) by lia. unfold m1. by rewrite upd_ne, upd_eq by lia.
  - rewrite upd_ne, (wrote_outside _ _ _ _ _ H) by lia. unfold m1. by rewrite upd_eq.
  - intros i d Hi. pose proof (lookup_lt_Some _ _ _ Hi). rewrite upd_ne by lia. by apply (wrote_at _ _ _ _ _ _ H).
  - apply upd_eq.
Qed.

(** ** Hexadecimal numbers of page fault reports *)

Lemma hex_loop_low n : forall i v k buffer m,
  hex_loop n i (v + k * 16 ^ Z.of_nat n) buffer m = hex_loop n i v buffer m.
Proof.
  induction n as [|n IH]; intros i v k buffer m; [done|]. cbn [hex_loop].
  rewrite Nat2Z.inj_succ, Z.pow_succ_r by lia. rewrite !bind_wr, !Z.shiftr_div_pow2 by lia.
  change 0xF with (Z.ones 4). rewrite !Z.land_ones by lia. change (2 ^ 4) with 16.
  replace (v + k * (16 * 16 ^ Z.of_nat n)) with (v + (k * 16 ^ Z.of_nat n) * 16) by ring.
  rewrite Z_mod_plus_full, Z.div_add by lia. apply IH.
Qed.

(** The first digit of a 64-bit number is missing: numbers that differ in their
    four highest bits only are printed alike. *)
Theorem uint64_to_hex_drops_digit v k buffer m :
  uint64_to_hex (v + k * 2 ^ 60) buffer m = uint64_to_hex v buffer m.
Proof.
  unfold uint64_to_hex. rewrite !bind_wr. unfold mbind, m_bind.
  change (2 ^ 60) with (16 ^ Z.of_nat 15). by rewrite hex_loop_low.
Qed.

(** ** Instances *)

(** The format "%s has %d%%" at 100, "disk" at 200. *)
Definition format_mem : mem := fun a =>
  if (100 <=? a) && (a <? 112) then nth (Z.to_nat (a - 100)) [37; 115; 32; 104; 97; 115; 32; 37; 100; 37; 37] 0
  else if (200 <=? a) && (a <? 205) then nth (Z.to_nat (a - 200)) [100; 105; 115; 107] 0
  else if (300 <=? a) && (a <? 303) then nth (Z.to_nat (a - 300)) [37; 100] 0
  else if (400 <=? a) && (a <? 406) then nth (Z.to_nat (a - 400)) [37; 122; 33; 33; 33] 0
  else 7.

Lemma vsnprintf_correct_witness :
  exists m', vsnprintf 20 1000 64 100 [200; 2 ^ 32 - 5] format_mem = (Ret 12, m') /\ m' 1012 = 0.
Proof.
  assert (Hf : cstr format_mem 100 [37; 115; 32; 104; 97; 115; 32; 37; 100; 37; 37]) by (vm_compute; split_and!; reflexivity).
  assert (Hren : renders (fun a => 1000 <= a < 1000 + 64) 4 format_mem
            [37; 115; 32; 104; 97; 115; 32; 37; 100; 37; 37] [200; 2 ^ 32 - 5]
            ([100; 105; 115; 107] ++ [32; 104; 97; 115; 32] ++ [45; 53] ++ [37])).
  { eapply renders_directive.
    { apply directive_string; [done|]. split_and!; [vm_compute; split_and!; reflexivity|cbn; lia|cbn; lia]. }
    do 5 (apply renders_char; [done|]). eapply (renders_directive _ _ _ CHAR_d _ _ [45; 53]).
    { apply (directive_int _ _ _ (2 ^ 32 - 5) [53]); [done|]. split_and!; [by vm_compute|done|done]. }
    apply renders_percent, renders_nil. }
  destruct (vsnprintf_correct 4 format_mem 20 1000 64 100 _ _ _ ltac:(lia) Hren Hf ltac:(cbn; lia) ltac:(cbn; lia))
    as (m' & R & _ & Hz & _).
  exists m'. exact (conj R Hz).
Defined.

Lemma printed_int_reads_back_witness :
  exists n m' t, vsnprintf 2 1000 12 300 [2 ^ 32 - 5] format_mem = (Ret n, m') /\ parse_int t = Some (-5).
Proof.
  destruct (printed_int_reads_back format_mem 2 1000 12 300 (2 ^ 32 - 5) ltac:(lia) ltac:(vm_compute; split_and!; reflexivity) ltac:(lia) ltac:(lia))
    as (n & m' & t & R & _ & _ & Ht).
  exists n, m', t. split; [exact R|]. change (s32 (2 ^ 32 - 5) =? - 2 ^ 31) with false in Ht. exact Ht.
Defined.

Lemma unknown_directive_overruns_witness :
  exists m', vsnprintf 20 1000 2 400 [] format_mem = (Ret 5, m') /\ format_mem 1004 = 7 /\ m' 1004 = 33.
Proof.
  destruct (unknown_directive_overruns 0 format_mem 20 1000 400 122 [33; 33; 33] [] [33; 33; 33] ltac:(lia))
    as (m' & R & _ & _ & Ht & _).
  - apply (bool_decide_unpack _). by vm_compute.
  - do 3 (apply renders_char; [done|]). apply renders_nil.
  - cbn. lia.
  - vm_compute. split_and!; reflexivity.
  - cbn. lia.
  - cbn. lia.
  - exists m'. split_and!; [exact R|reflexivity|exact (Ht 2%nat 33 eq_refl)].
Defined.
