(* ===== verification/Serial.v ===== *)
(** The serial port, drivers/serial/serial.c, over the port accesses of Ports.v,
    and what a UART does with them.  A loop that waits for the UART polls it
    [fuel] times at most and is then still waiting ([Spin]). *)
From S2P Require Import Prelude Interrupts Ports CString CStringSpec Stdio.
Import CString.

Module Serial.

Definition SERIAL_COM1 : Z := 0x3F8.
Definition SERIAL_DATA : Z := 0.
Definition SERIAL_INT_EN : Z := 1.
Definition SERIAL_FIFO_CTRL : Z := 2.
Definition SERIAL_LINE_CTRL : Z := 3.
Definition SERIAL_MODEM_CTRL : Z := 4.
Definition SERIAL_LINE_STAT : Z := 5.
Definition SERIAL_LINE_DATA_READY : Z := 0x01.
Definition SERIAL_LINE_THR_EMPTY : Z := 0x20.
Definition SERIAL_BAUD_115200 : Z := 1.

Section ports.
  Context {D : Type} `{!PortIO D}.

(** The argument [port + offset] is a [uint16_t]. *)
Definition inb (port : Z) : M D Z := Ports.inb (u16 port).
Definition outb (port v : Z) : M D unit := Ports.outb (u16 port) v.

Definition serial_init (port baud_divisor : Z) : M D bool :=
  outb (port + SERIAL_INT_EN) 0x00;;
  outb (port + SERIAL_LINE_CTRL) 0x80;;
  outb (port + SERIAL_DATA) (Z.land baud_divisor 0xFF);;
  outb (port + SERIAL_INT_EN) (Z.land (Z.shiftr baud_divisor 8) 0xFF);;
  outb (port + SERIAL_LINE_CTRL) 0x03;;
  outb (port + SERIAL_FIFO_CTRL) 0xC7;;
  outb (port + SERIAL_MODEM_CTRL) 0x0B;;
  outb (port + SERIAL_MODEM_CTRL) 0x1E;;
  outb (port + SERIAL_DATA) 0xAE;;
  v ← inb (port + SERIAL_DATA);
  if negb (v =? 0xAE) then mret false
  else
    outb (port + SERIAL_MODEM_CTRL) 0x0F;;
    mret true.

Definition serial_is_transmit_ready (port : Z) : M D bool :=
  v ← inb (port + SERIAL_LINE_STAT); mret (negb (Z.land v SERIAL_LINE_THR_EMPTY =? 0)).

Definition serial_is_data_ready (port : Z) : M D bool :=
  v ← inb (port + SERIAL_LINE_STAT); mret (negb (Z.land v SERIAL_LINE_DATA_READY =? 0)).

(** [while (!ready(port)) {}] *)
Fixpoint wait_for (fuel : nat) (ready : M D bool) : M D unit :=
  r ← ready;
  if (r : bool) then mret tt
  else match fuel with O => mspin | S fuel => wait_for fuel ready end.

Definition serial_write_byte (fuel : nat) (port data : Z) : M D unit :=
  wait_for fuel (serial_is_transmit_ready port);;
  outb (port + SERIAL_DATA) data.

Definition serial_read_byte (fuel : nat) (port : Z) : M D Z :=
  wait_for fuel (serial_is_data_ready port);;
  inb (port + SERIAL_DATA).

(** The bytes of a literal. *)
Fixpoint write_bytes (fuel : nat) (port : Z) (l : list Z) : M D unit :=
  match l with
  | [] => mret tt
  | c :: l => serial_write_byte fuel port c;; write_bytes fuel port l
  end.

Definition serial_write_hex (fuel : nat) (port value num_digits : Z) : M D unit :=
  let num_digits := if (num_digits <=? 0) || (16 <? num_digits) then 16 else num_digits in
  write_bytes fuel port [Stdio.ZERO; Stdio.CHAR_x];;
  write_bytes fuel port
    ((fun i => Stdio.digit_char true (Z.land (Z.shiftr value (i * 4)) 0xF)) <$> rev (seqZ 0 num_digits)).
End ports.

(** The memory that holds the strings, and the devices. *)
Record machine (D : Type) : Type := Machine { memory : mem; device : D }.
Arguments Machine {D}.
Arguments memory {D}.
Arguments device {D}.

Section strings.
  Context {D : Type} `{!PortIO D}.

Definition run_mem {X} (m : M mem X) : M (machine D) X := mzoom memory (fun b s => Machine b (device s)) m.
Definition run_dev {X} (m : M D X) : M (machine D) X := mzoom device (fun d s => Machine (memory s) d) m.

(** The characters from [str] on, to the NUL. *)
Fixpoint write_chars (fuel : nat) (port str : Z) : M (machine D) unit :=
  c ← run_mem (rd str);
  if c =? 0 then mret tt
  else
    match fuel with
    | O => mspin
    | S fuel => run_dev (serial_write_byte fuel port c);; write_chars fuel port (str + 1)
    end.

Definition serial_write_string (fuel : nat) (port str : Z) : M (machine D) unit :=
  if str =? NULL then mret tt else write_chars fuel port str.
End strings.
End Serial.
Import Serial.

(** ** A UART

    [sent] is what has gone out on the line of the UART at [port].  After a
    byte the transmitter is busy for [delay] polls of the status at most. *)
Class Uart (D : Type) `{!PortIO D} (port : Z) (delay : nat) : Type := {
  sent : D -> list Z;
  busy : D -> nat;
  busy_bound d : (busy d <= delay)%nat;
  read_status d :
    let '(v, d') := port_in (port + SERIAL_LINE_STAT) d in
    Z.land (u8 v) SERIAL_LINE_THR_EMPTY = (if busy d is O then SERIAL_LINE_THR_EMPTY else 0) /\
    sent d' = sent d /\ busy d' = pred (busy d);
  write_data d c : busy d = O -> sent (port_out (port + SERIAL_DATA) c d) = sent d ++ [c];
}.

Section uart.
  Context {D : Type} `{!PortIO D} (port : Z) (delay : nat) `{!Uart D port delay}.
  Hypothesis port_range : 0 <= port < 2 ^ 15.

Lemma run_transmit_ready d : exists d', serial_is_transmit_ready port d = (Ret (if busy d is O then true else false), d') /\
  sent d' = sent d /\ busy d' = pred (busy d).
Proof using Type*.
  unfold serial_is_transmit_ready, inb, Ports.inb. rewrite wrap_small by (unfold SERIAL_LINE_STAT; lia).
  pose proof (read_status d) as Hst. unfold mlift, mbind, m_bind.
  destruct (port_in (port + SERIAL_LINE_STAT) d) as [v d']. destruct Hst as (Hv & Hs & Hb).
  exists d'. rewrite Hv. by destruct (busy d).
Qed.

Lemma run_wait fuel d : (busy d <= fuel)%nat ->
  exists d', wait_for fuel (serial_is_transmit_ready port) d = (Ret tt, d') /\ sent d' = sent d /\ busy d' = O.
Proof using Type*.
  revert d. induction fuel as [|fuel IH]; intros d Hf; cbn [wait_for];
    destruct (run_transmit_ready d) as (d' & R & Hs & Hb); mstep R.
  - assert (busy d = O) as E by lia. rewrite E in *. by exists d'.
  - destruct (busy d) as [|n] eqn:E; [by exists d'|]. destruct (IH d') as (d2 & R2 & Hs2 & Hb2); [cbn in Hb; lia|].
    exists d2. by rewrite Hs2, Hs in *.
Qed.

(** A byte goes out, however busy the transmitter is. *)
Lemma run_write_byte fuel d c : (delay <= fuel)%nat -> 0 <= c < 256 ->
  exists d', serial_write_byte fuel port c d = (Ret tt, d') /\ sent d' = sent d ++ [c].
Proof using Type*.
  intros Hf Hc. pose proof (busy_bound d). unfold serial_write_byte.
  destruct (run_wait fuel d) as (d1 & R & Hs & Hb); [lia|]. mstep R. unfold outb, Ports.outb.
  rewrite !wrap_small by (unfold SERIAL_DATA; lia). eexists. split; [reflexivity|]. by rewrite write_data, Hs.
Qed.

Lemma run_write_string w : forall fuel str (s : machine D), (length w + delay <= fuel)%nat -> cstr (memory s) str w ->
  exists d', write_chars fuel port str s = (Ret tt, Machine (memory s) d') /\ sent d' = sent (device s) ++ w.
Proof using Type*.
  induction w as [|c w IH]; intros fuel str s Hf Hs.
  - exists (device s). rewrite app_nil_r. destruct s as [m d]. cbn [cstr memory] in Hs.
    split; [|done]. destruct fuel; cbn [write_chars]; unfold run_mem, mzoom, mbind, m_bind; cbn; by rewrite Hs.
  - destruct Hs as (Hc & Hr & Hs). cbn [length] in Hf. destruct fuel as [|fuel]; [lia|]. cbn [write_chars].
    assert (Hrd : run_mem (rd str) s = (Ret c, s)).
    { rewrite <- Hc. destruct s as [m d]. done. }
    mstep Hrd. replace (c =? 0) with false by lia.
    destruct (run_write_byte fuel (device s) c) as (d1 & R & Hs1); [lia..|].
    mstep (run_zoom device (fun d s => Machine (memory s) d) _ _ _ _ R).
    destruct (IH fuel (str + 1) (Machine (memory s) d1)) as (d2 & R2 & Hs2); [lia|done|].
    exists d2. rewrite R2. split; [done|]. rewrite Hs2. cbn [device]. by rewrite Hs1, <- app_assoc.
Qed.
End uart.
