(* ===== verification/Log.v ===== *)
(** Logging, utils/log.c: its own formatted output, which knows field widths and
    no buffer size, and the messages sent to the first serial port.

    The addresses at which the linker places the buffer and the string literals
    are the class [LogStrings]. *)
From S2P Require Import Prelude Interrupts Ports CString Stdio Serial.
Import CString Serial.

(** [log_buffer]; the formats "[%s] " and "[%s] %s\r\n"; the first message; and
    [log_level_names]. *)
Class LogStrings : Type := {
  log_buffer : Z;
  level_format : Z;
  message_format : Z;
  first_message : Z;
  log_level_names : Z -> Z;
}.

Module Log.
Import Stdio.

Definition LOG_SERIAL_PORT : Z := SERIAL_COM1.
Definition LOG_BUFFER_SIZE : Z := 256.

Definition LOG_LEVEL_DEBUG : Z := 0.
Definition LOG_LEVEL_INFO : Z := 1.
Definition LOG_LEVEL_WARN : Z := 2.
Definition LOG_LEVEL_ERROR : Z := 3.
Definition LOG_LEVEL_CRITICAL : Z := 4.

Definition CHAR_u : Z := 117.
Definition CHAR_X : Z := 88.
Definition CHAR_p : Z := 112.
Definition CHAR_l : Z := 108.

(** ** Formatted output *)

(** The loop over the digits of the width: the address behind them, and the
    width. *)
Fixpoint scan_width (fuel : nat) (fmt width : Z) : M mem (Z * Z) :=
  c ← rd fmt;
  if (48 <=? c) && (c <=? 57) then
    match fuel with
    | O => mspin
    | S fuel => scan_width fuel (fmt + 1) (s32 (width * 10 + (c - 48)))
    end
  else mret (fmt, width).

(** The loop that copies a string argument. *)
Fixpoint copy_chars (fuel : nat) (ptr str : Z) : M mem Z :=
  c ← rd str;
  if c =? 0 then mret ptr
  else match fuel with O => mspin | S fuel => wr ptr c;; copy_chars fuel (ptr + 1) (str + 1) end.

(** A number, [n] digits at most, with zeros before it up to [width]; a zero is
    not padded. *)
Definition number (n : nat) (base : Z) (upper zero_pad : bool) (width value : Z) : list Z :=
  if value =? 0 then [ZERO]
  else
    let ds := rev (digits n base upper value) in
    (if zero_pad && (Z.of_nat (length ds) <? width)
     then replicate (Z.to_nat (width - Z.of_nat (length ds))) ZERO else []) ++ ds.

(** The body of the [switch]: the new values of [fmt], [ptr] and [args]. *)
Definition conversion (fuel : nat) (fmt ptr : Z) (zero_pad : bool) (width : Z) (args : list Z) :
    M mem (Z * Z * list Z) :=
  let put ptr l args : M mem (Z * Z * list Z) := (ptr ← put_bytes ptr l; mret (fmt, ptr, args)) in
  c ← rd fmt;
  if c =? CHAR_s then
    '(s, args) ← va_arg args;
    if s =? NULL then put ptr null_string args
    else ptr ← copy_chars fuel ptr s; mret (fmt, ptr, args)
  else if c =? CHAR_c then
    '(v, args) ← va_arg args;
    put ptr [u8 v] args
  else if c =? CHAR_d then
    '(v, args) ← va_arg args;
    let value := s32 v in
    if value <? 0 then put ptr (MINUS :: number 10 10 false zero_pad width (s32 (- value))) args
    else put ptr (number 10 10 false zero_pad width value) args
  else if c =? CHAR_u then
    '(v, args) ← va_arg args;
    put ptr (number 10 10 false zero_pad width (u32 v)) args
  else if (c =? CHAR_x) || (c =? CHAR_X) then
    '(v, args) ← va_arg args;
    put ptr (number 8 16 (c =? CHAR_X) zero_pad width (u32 v)) args
  else if c =? CHAR_p then
    '(v, args) ← va_arg args;
    let value := u64 v in
    put ptr (ZERO :: CHAR_x ::
      (if value =? 0 then [ZERO]
       else (fun i => digit_char true (Z.land (Z.shiftr value (i * 4)) 0xF)) <$> rev (seqZ 0 16))) args
  else if c =? PERCENT then put ptr [PERCENT] args
  else if c =? CHAR_l then
    c1 ← rd (fmt + 1);
    c2 ← rd (fmt + 2);
    if (c1 =? CHAR_l) && ((c2 =? CHAR_X) || (c2 =? CHAR_x)) then
      '(v, args) ← va_arg args;
      ptr ← put_bytes ptr (number 16 16 (c2 =? CHAR_X) zero_pad width (u64 v));
      mret (fmt + 2, ptr, args)
    else put ptr [PERCENT; CHAR_l] args
  else put ptr [PERCENT; c] args.

(** The loop over the format; the result is the final [ptr]. *)
Fixpoint vsprintf_loop (fuel : nat) (ptr fmt : Z) (args : list Z) : M mem Z :=
  c ← rd fmt;
  if c =? 0 then mret ptr
  else
    match fuel with
    | O => mspin
    | S fuel =>
        if c =? PERCENT then
          let fmt := fmt + 1 in
          c ← rd fmt;
          let zero_pad := c =? ZERO in
          let fmt := if zero_pad then fmt + 1 else fmt in
          '(fmt, width) ← scan_width fuel fmt 0;
          '(fmt, ptr, args) ← conversion fuel fmt ptr zero_pad width args;
          vsprintf_loop fuel ptr (fmt + 1) args
        else
          wr ptr c;;
          vsprintf_loop fuel (ptr + 1) (fmt + 1) args
    end.

Definition vsprintf (fuel : nat) (buffer fmt : Z) (args : list Z) : M mem Z :=
  ptr ← vsprintf_loop fuel buffer fmt args;
  wr ptr 0;;
  mret (s32 (ptr - buffer)).

(** ** Messages *)

Record log_state (D : Type) : Type := LogState {
  io : machine D;
  current_log_level : Z;
  log_initialized : bool;
}.
Arguments LogState {D}.
Arguments io {D}.
Arguments current_log_level {D}.
Arguments log_initialized {D}.

Section log.
  Context {D : Type} `{!PortIO D, !LogStrings}.
  Local Abbreviation L := (M (log_state D)).

Definition run_io {X} (m : M (machine D) X) : L X :=
  mzoom io (fun x s => LogState x (current_log_level s) (log_initialized s)) m.

Definition printf_serial (fuel : nat) (fmt : Z) (args : list Z) : L unit :=
  s ← mget;
  if negb (log_initialized s) then mret tt
  else
    _ ← run_io (run_mem (vsprintf fuel log_buffer fmt args));
    run_io (serial_write_string fuel LOG_SERIAL_PORT log_buffer).

Definition log_printf (fuel : nat) (level fmt : Z) (args : list Z) : L unit :=
  s ← mget;
  if negb (log_initialized s) || (level <? current_log_level s) then mret tt
  else
    printf_serial fuel level_format [log_level_names level];;
    _ ← run_io (run_mem (vsprintf fuel log_buffer fmt args));
    run_io (serial_write_string fuel LOG_SERIAL_PORT log_buffer);;
    run_io (run_dev (serial_write_byte fuel LOG_SERIAL_PORT 13));;
    run_io (run_dev (serial_write_byte fuel LOG_SERIAL_PORT 10)).

Definition log_message (fuel : nat) (level msg : Z) : L unit :=
  s ← mget;
  if negb (log_initialized s) || (level <? current_log_level s) then mret tt
  else printf_serial fuel message_format [log_level_names level; msg].

Definition log_init (fuel : nat) (level : Z) : L bool :=
  mmodify (fun s => LogState (io s) level (log_initialized s));;
  result ← run_io (run_dev (serial_init LOG_SERIAL_PORT SERIAL_BAUD_115200));
  (if (result : bool) then
     mmodify (fun s => LogState (io s) (current_log_level s) true);;
     log_message fuel LOG_LEVEL_INFO first_message
   else mret tt);;
  mret result.
End log.
End Log.
