(* ===== verification/LogSpec.v ===== *)
(** The formatter and the messages of utils/log.c: the text a format stands for,
    its directives and their widths, and [vsprintf] against it; and that a logged
    line goes out on the serial line, and fills the buffer it is formatted in
    whatever its length. *)
From S2P Require Import Prelude Interrupts Ports CString CStringSpec Stdio StdioSpec Serial Log.
Import CString Stdio Serial Log.

(** ** Numbers *)

(** The upper-case form of a hexadecimal digit. *)
Definition upcase (c : Z) : Z := if (97 <=? c) && (c <=? 102) then c - 32 else c.
Definition letters (upper : bool) (t : list Z) : list Z := if upper then upcase <$> t else t.

(** The numeral [t] of [v] behind as many zeros as the width asks for; a zero is
    left alone. *)
Definition padded (pad : bool) (width v : Z) (t : list Z) : list Z :=
  (if pad && negb (v =? 0) then replicate (Z.to_nat (width - len t)) ZERO else []) ++ t.

Lemma upcase_char d : 0 <= d < 16 -> digit_char true d = upcase (digit_char false d).
Proof.
  intros Hd. unfold upcase, digit_char, ZERO. destruct (Z.ltb_spec d 10).
  - by replace ((97 <=? 48 + d) && (48 + d <=? 102)) with false by lia.
  - replace ((97 <=? 97 + (d - 10)) && (97 + (d - 10) <=? 102)) with true by lia. lia.
Qed.

Lemma digits_letters n b upper : forall v, 2 <= b <= 16 -> digits n b upper v = letters upper (digits n b false v).
Proof.
  destruct upper; [|done]. induction n as [|n IH]; intros v Hb; [done|]. cbn [digits].
  destruct (0 <? v); [|done]. cbn. rewrite IH by done. f_equal. apply upcase_char.
  pose proof (Z.mod_pos_bound v b). lia.
Qed.

Lemma fmap_rev {X Y} (f : X -> Y) l : f <$> rev l = rev (f <$> l).
Proof. induction l as [|x l IH]; [done|]. cbn. by rewrite fmap_app, IH. Qed.

Lemma letters_rev upper t : rev (letters upper t) = letters upper (rev t).
Proof. destruct upper; [|done]. cbn. by rewrite fmap_rev. Qed.

Lemma length_letters upper t : length (letters upper t) = length t.
Proof. destruct upper; [apply length_fmap|done]. Qed.

Lemma number_padded n b upper pad width v t :
  2 <= b <= 16 -> numeral b v t -> v < b ^ Z.of_nat n ->
  number n b upper pad width v = padded pad width v (letters upper t).
Proof.
  intros Hb Ht Hv. pose proof (buffer_numeral b n v t Hb Ht Hv) as Hbuf.
  unfold number, padded, number_buffer in *. destruct (v =? 0).
  { subst t. rewrite andb_false_r. by destruct upper. }
  cbv zeta. rewrite digits_letters, letters_rev, Hbuf by done. rewrite andb_true_r. f_equal.
  destruct pad; [|done]. cbn [andb]. destruct (Z.ltb_spec (len (letters upper t)) width); [done|].
  by replace (Z.to_nat (width - len (letters upper t))) with O by lia.
Qed.

(** The sixteen digits of a pointer. *)
Lemma fixed_digits n : forall v, 0 <= v < 16 ^ Z.of_nat n ->
  (fun i => digit_char true (Z.land (Z.shiftr v (i * 4)) 0xF)) <$> seqZ 0 (Z.of_nat n) =
  digits n 16 true v ++ replicate (n - length (digits n 16 true v)) ZERO.
Proof.
  induction n as [|n IH]; intros v Hv; [done|].
  rewrite Nat2Z.inj_succ in *. rewrite Z.pow_succ_r in Hv by lia.
  rewrite seqZ_cons by lia. replace (Z.succ 0) with (1 + 0) by lia. rewrite Z.pred_succ, <- fmap_add_seqZ.
  rewrite fmap_cons, <- list_fmap_compose. cbn [digits].
  assert (E : ((fun i => digit_char true (Z.land (Z.shiftr v (i * 4)) 0xF)) ∘ Z.add 1) <$> seqZ 0 (Z.of_nat n) =
              digits n 16 true (v / 16) ++ replicate (n - length (digits n 16 true (v / 16))) ZERO).
  { rewrite <- IH by (split; [apply Z.div_pos|apply Z.div_lt_upper_bound]; lia).
    apply list_fmap_ext. intros k i Hi. apply lookup_seqZ in Hi as [-> Hi]. cbn.
    do 2 f_equal. rewrite !Z.shiftr_div_pow2 by lia. change 16 with (2 ^ 4). rewrite Z.div_div by lia.
    rewrite <- Z.pow_add_r by lia. do 2 f_equal. lia. }
  rewrite E. cbn. rewrite Z.shiftr_0_r. change 15 with (Z.ones 4). rewrite Z.land_ones by lia. change (2 ^ 4) with 16.
  destruct (Z.ltb_spec 0 v); [done|]. assert (v = 0) as -> by lia. cbn. by destruct n.
Qed.

Lemma pointer_digits v t : 0 <= v < 2 ^ 64 -> numeral 16 v t ->
  (if v =? 0 then [ZERO] else (fun i => digit_char true (Z.land (Z.shiftr v (i * 4)) 0xF)) <$> rev (seqZ 0 16)) =
  padded true 16 v (upcase <$> t).
Proof.
  intros Hv Ht. pose proof (buffer_numeral 16 16 v t ltac:(lia) Ht ltac:(lia)) as Hbuf.
  unfold number_buffer in Hbuf. unfold padded. destruct (Z.eqb_spec v 0) as [->|Hne]; [by subst t|]. cbn [andb negb].
  assert (E : rev (digits 16 16 true v) = upcase <$> t).
  { rewrite digits_letters, letters_rev, Hbuf by lia. done. }
  rewrite <- E, length_rev. change (seqZ 0 16) with (seqZ 0 (Z.of_nat 16)).
  rewrite fmap_rev, (fixed_digits 16 v) by lia. rewrite rev_app_distr. f_equal.
  rewrite rev_alt. etrans; [apply (reverse_replicate _ ZERO)|]. f_equal. lia.
Qed.

(** ** Widths *)

(** The number the digits [ds] stand for behind a number [a]. *)
Definition read_from (b a : Z) (ds : list Z) : option Z :=
  foldl (fun acc c => a ← acc; d ← digit_value b c; Some (a * b + d)) (Some a) ds.

Lemma read_from_cons b a c ds w : read_from b a (c :: ds) = Some w ->
  exists d, digit_value b c = Some d /\ read_from b (a * b + d) ds = Some w.
Proof.
  unfold read_from. cbn. destruct (digit_value b c) as [d|]; cbn; [by exists d|].
  intros H. exfalso. induction ds as [|x ds IH]; [done|by apply IH].
Qed.

Lemma digit_decimal c d : digit_value 10 c = Some d -> d = c - 48 /\ 48 <= c <= 57.
Proof.
  unfold digit_value. cbv zeta. destruct ((48 <=? c) && (c <=? 57)) eqn:E1.
  - destruct (Z.ltb_spec (c - 48) 10); intros [= <-]; lia.
  - destruct ((97 <=? c) && (c <=? 102)) eqn:E2; [|done].
    destruct (Z.ltb_spec (c - 87) 10); [lia|done].
Qed.

Lemma read_from_grows ds : forall a w, 0 <= a -> read_from 10 a ds = Some w -> a <= w.
Proof.
  induction ds as [|c ds IH]; intros a w Ha H; [injection H; lia|].
  apply read_from_cons in H as (d & Hd & H). apply digit_decimal in Hd. apply IH in H; lia.
Qed.

(** No digit follows. *)
Definition no_digit (f : list Z) : Prop := forall c, head f = Some c -> ~ (48 <= c <= 57).

Lemma run_scan_width ds : forall fuel fmt a w f m,
  read_from 10 a ds = Some w -> 0 <= a -> w < 2 ^ 31 -> cstr m fmt (ds ++ f) -> no_digit f -> (length ds <= fuel)%nat ->
  scan_width fuel fmt a m = (Ret (fmt + len ds, w), m).
Proof.
  induction ds as [|c ds IH]; intros fuel fmt a w f m Hr Ha Hw Hs Hnd Hf.
  - injection Hr as <-. assert (Hc : ~ (48 <= m fmt <= 57)).
    { destruct f as [|c f]; cbn in Hs; [lia|]. destruct Hs as [-> _]. by apply Hnd. }
    destruct fuel; cbn [scan_width]; rewrite bind_rd;
      (replace ((48 <=? m fmt) && (m fmt <=? 57)) with false by lia); cbv [mret m_ret]; by rewrite Z.add_0_r.
  - destruct (read_from_cons _ _ _ _ _ Hr) as (d & Hd & Hr'). apply digit_decimal in Hd as [-> Hc].
    assert (a * 10 + (c - 48) <= w) by (apply (read_from_grows ds); [lia|exact Hr']). destruct Hs as (Hmc & _ & Hs). cbn [length] in *.
    destruct fuel as [|fuel]; [lia|]. cbn [scan_width]. rewrite bind_rd, Hmc.
    replace ((48 <=? c) && (c <=? 57)) with true by lia.
    rewrite swrap_small by lia. rewrite (IH fuel (fmt + 1) _ w f) by (done || lia). do 3 f_equal. lia.
Qed.

(** ** Directives *)

Section directives.
  Context (B : Z -> Prop) (K : nat).
  Implicit Types m : mem.

(** The letters that have a meaning behind "%". *)
Definition conversions : list Z := [CHAR_s; CHAR_c; CHAR_d; CHAR_u; CHAR_x; CHAR_X; CHAR_p; PERCENT; CHAR_l].

(** What a directive with the letters [conv] takes from the arguments and the
    text it stands for. *)
Inductive converts m (pad : bool) (width : Z) : list Z -> list Z -> list Z -> list Z -> Prop :=
  | conv_string p w args : p <> NULL -> outside_string B K m p w -> converts m pad width [CHAR_s] (p :: args) w args
  | conv_null args : converts m pad width [CHAR_s] (NULL :: args) null_string args
  | conv_char v args : converts m pad width [CHAR_c] (v :: args) [u8 v] args
  | conv_int v t args : s32 v <> - 2 ^ 31 -> numeral 10 (Z.abs (s32 v)) t ->
      converts m pad width [CHAR_d] (v :: args) ((if s32 v <? 0 then [MINUS] else []) ++ padded pad width (s32 v) t) args
  | conv_unsigned v t args : numeral 10 (u32 v) t ->
      converts m pad width [CHAR_u] (v :: args) (padded pad width (u32 v) t) args
  | conv_hex (upper : bool) v t args : numeral 16 (u32 v) t ->
      converts m pad width [if upper then CHAR_X else CHAR_x] (v :: args)
        (padded pad width (u32 v) (letters upper t)) args
  | conv_long (upper : bool) v t args : numeral 16 (u64 v) t ->
      converts m pad width [CHAR_l; CHAR_l; if upper then CHAR_X else CHAR_x] (v :: args)
        (padded pad width (u64 v) (letters upper t)) args
  | conv_pointer v t args : numeral 16 (u64 v) t ->
      converts m pad width [CHAR_p] (v :: args) ([ZERO; CHAR_x] ++ padded true 16 (u64 v) (upcase <$> t)) args
  | conv_percent args : converts m pad width [PERCENT] args [PERCENT] args
  | conv_other c args : c ∉ conversions -> ~ (48 <= c <= 57) -> converts m pad width [c] args [PERCENT; c] args.

(** The text of a format: "%", a zero that asks for padding, a width, letters. *)
Inductive shows m : list Z -> list Z -> list Z -> Prop :=
  | shows_nil args : shows m [] args []
  | shows_char c f args t : c <> PERCENT -> shows m f args t -> shows m (c :: f) args (c :: t)
  | shows_directive (pad : bool) ds width conv f args l rest t :
      read_number 10 ds = Some width -> width < 2 ^ 31 -> (pad = false -> head ds <> Some ZERO) ->
      converts m pad width conv args l rest -> shows m f rest t ->
      shows m (PERCENT :: (if pad then [ZERO] else []) ++ ds ++ conv ++ f) args (l ++ t).

Lemma run_copy_chars w : forall fuel ptr s m,
  cstr m s w -> (length w <= fuel)%nat -> (forall a, s <= a <= s + len w -> ~ (ptr <= a < ptr + len w)) ->
  exists m', copy_chars fuel ptr s m = (Ret (ptr + len w), m') /\ wrote m m' ptr w.
Proof using Type.
  induction w as [|c w IH]; intros fuel ptr s m Hs Hf Hdis.
  - exists m. split; [|apply wrote_nil].
    destruct fuel; cbn [copy_chars]; rewrite bind_rd, Hs; cbv [mret m_ret]; by rewrite Z.add_0_r.
  - destruct Hs as (Hc & Hr & Hs). cbn [length] in *. destruct fuel as [|fuel]; [lia|]. cbn [copy_chars].
    rewrite bind_rd, Hc. replace (c =? 0) with false by lia. rewrite bind_wr.
    destruct (IH fuel (ptr + 1) (s + 1) (upd m ptr c)) as (m' & R & H).
    + eapply cstr_ext; [|exact Hs]. intros a Ha. apply upd_ne. pose proof (Hdis a). lia.
    + lia.
    + intros a Ha Hin. apply (Hdis a); lia.
    + exists m'. rewrite R. split; [do 2 f_equal; lia|].
      apply (wrote_app _ _ _ _ [c] _ (wrote_one m ptr c)). exact H.
Qed.

(** What a conversion does: the format is left at its last letter. *)
Definition prints m (r : M mem (Z * Z * list Z)) (fmt ptr : Z) (l rest : list Z) : Prop :=
  exists m', r m = (Ret (fmt, ptr + len l, rest), m') /\ wrote m m' ptr l.

Lemma prints_bytes m fmt ptr l rest : prints m (ptr ← put_bytes ptr l; mret (fmt, ptr, rest)) fmt ptr l rest.
Proof using Type. destruct (run_put_bytes l ptr m) as (m' & R & H). exists m'. split; [by mstep R|exact H]. Qed.

(** Evaluates the comparisons of known characters. *)
Local Ltac known_chars :=
  repeat match goal with
  | |- context [Z.eqb ?a ?b] =>
      let v := eval vm_compute in (Z.eqb a b) in
      match v with true => idtac | false => idtac end; change (Z.eqb a b) with v
  end; cbn [orb andb negb]; cbv iota.

Lemma run_conversion m fuel fmt ptr pad width conv f args l rest :
  converts m pad width conv args l rest -> cstr m fmt (conv ++ f) -> (K <= fuel)%nat ->
  (forall a, ptr <= a < ptr + len l -> B a) ->
  prints m (conversion fuel fmt ptr pad width args) (fmt + len conv - 1) ptr l rest.
Proof using Type.
  assert (Hone : forall r l0 rest0, prints m r fmt ptr l0 rest0 -> prints m r (fmt + 1 - 1) ptr l0 rest0).
  { intros r l0 rest0. by replace (fmt + 1 - 1) with fmt by lia. }
  intros Hc Hs Hf HB.
  destruct Hc as [p w args Hp (Hw & HK & Hout)|args|v args|v t args Hmin Ht|v t args Ht|upper v t args Ht|
                  upper v t args Ht|v t args Ht|args|c args Hc Hd].
  all: cbn [app] in Hs; destruct Hs as (Hc0 & _ & Hs).
  all: unfold conversion; cbv zeta.
  all: try (apply Hone).
  - unfold prints. rewrite bind_rd, Hc0. known_chars. mstep. cbv iota. rewrite (proj2 (Z.eqb_neq _ _) Hp).
    destruct (run_copy_chars w fuel ptr p m Hw) as (m1 & R1 & H1); [lia| |].
    { intros a Ha Hin. by apply (Hout a Ha), HB. }
    exists m1. split; [by mstep R1|exact H1].
  - unfold prints. rewrite bind_rd, Hc0. known_chars. mstep. cbv iota. known_chars. apply prints_bytes.
  - unfold prints. rewrite bind_rd, Hc0. known_chars. mstep. cbv iota. apply prints_bytes.
  - unfold prints. rewrite bind_rd, Hc0. known_chars. mstep. cbv iota. pose proof (s32_range v) as Hv.
    assert (Hn : forall x, x = Z.abs (s32 v) -> padded pad width (s32 v) t = number 10 10 false pad width x).
    { intros x ->. rewrite (number_padded 10 10 false pad width _ t) by
        first [lia|done|change (10 ^ Z.of_nat 10) with 10000000000; lia].
      unfold padded, letters. by replace (Z.abs (s32 v) =? 0) with (s32 v =? 0) by lia. }
    destruct (Z.ltb_spec (s32 v) 0).
    + rewrite (swrap_small 32 (- s32 v)) by lia. rewrite (Hn (- s32 v)) by lia. apply prints_bytes.
    + rewrite (Hn (s32 v)) by lia. apply prints_bytes.
  - unfold prints. rewrite bind_rd, Hc0. known_chars. mstep. cbv iota. pose proof (wrap_range 32 v ltac:(lia)).
    rewrite (number_padded 10 10 false pad width _ t) by first [lia|done|change (10 ^ Z.of_nat 10) with 10000000000; lia].
    apply prints_bytes.
  - unfold prints. rewrite bind_rd, Hc0. pose proof (wrap_range 32 v ltac:(lia)).
    destruct upper; known_chars; mstep; cbv iota; (rewrite (number_padded 8 16 _ pad width _ t) by (done || lia));
      apply prints_bytes.
  - destruct Hs as (Hc1 & _ & Hc2 & _). pose proof (wrap_range 64 v ltac:(lia)).
    replace (fmt + len [CHAR_l; CHAR_l; if upper then CHAR_X else CHAR_x] - 1) with (fmt + 2) by (cbn; lia).
    unfold prints. rewrite bind_rd, Hc0. known_chars. rewrite bind_rd, Hc1, bind_rd.
    replace (fmt + 2) with (fmt + 1 + 1) by lia. rewrite Hc2.
    destruct upper; known_chars; mstep; cbv iota; (rewrite (number_padded 16 16 _ pad width _ t) by (done || lia));
      apply prints_bytes.
  - unfold prints. rewrite bind_rd, Hc0. known_chars. mstep. cbv iota.
    rewrite (pointer_digits _ t (wrap_range 64 v ltac:(lia)) Ht). apply (prints_bytes m fmt ptr ([ZERO; CHAR_x] ++ _)).
  - unfold prints. rewrite bind_rd, Hc0. known_chars. apply prints_bytes.
  - unfold prints. rewrite bind_rd, Hc0. unfold conversions in Hc.
    rewrite !(proj2 (Z.eqb_neq c _)) by (intros ->; apply Hc; set_solver). cbn [orb]. apply prints_bytes.
Qed.

Lemma converts_ext m m' pad width conv args l rest :
  (forall a, ~ B a -> m' a = m a) -> converts m pad width conv args l rest -> converts m' pad width conv args l rest.
Proof using Type.
  intros Hext H. destruct H; try by constructor. constructor; [done|]. by eapply outside_ext.
Qed.

Lemma shows_ext m m' f args t : (forall a, ~ B a -> m' a = m a) -> shows m f args t -> shows m' f args t.
Proof using Type.
  intros Hext H. induction H; [apply shows_nil|by apply shows_char|].
  eapply shows_directive; try done. by eapply converts_ext.
Qed.

Lemma conv_no_digit m pad width conv args l rest f : converts m pad width conv args l rest ->
  conv <> [] /\ no_digit (conv ++ f).
Proof using Type.
  unfold no_digit. destruct 1 as [| | | | |upper| | | |]; split; try done; intros x [= <-];
    try destruct upper; try done; unfold CHAR_s, CHAR_c, CHAR_d, CHAR_u, CHAR_x, CHAR_X, CHAR_l, CHAR_p, PERCENT; lia.
Qed.

Lemma run_vsprintf_loop m0 f args t : shows m0 f args t ->
  forall fuel ptr fmt m, (length f + K < fuel)%nat -> cstr m fmt f ->
  (forall a, fmt <= a <= fmt + len f -> ~ B a) -> (forall a, ptr <= a < ptr + len t -> B a) ->
  (forall a, ~ B a -> m a = m0 a) ->
  exists m', vsprintf_loop fuel ptr fmt args m = (Ret (ptr + len t), m') /\ wrote m m' ptr t.
Proof using Type.
  induction 1 as [args|c f args t Hc Hsh IH|pad ds width conv f args l rest t Hds Hw Hpad Hconv Hsh IH];
    intros fuel ptr fmt m Hf Hs Hout HB Hm.
  - exists m. split; [|apply wrote_nil].
    destruct fuel; cbn [vsprintf_loop]; rewrite bind_rd, Hs; cbv [mret m_ret]; by rewrite Z.add_0_r.
  - destruct Hs as (Hc0 & Hr & Hs). cbn [length] in *. destruct fuel as [|fuel]; [lia|]. cbn [vsprintf_loop].
    rewrite bind_rd, Hc0. replace (c =? 0) with false by lia. rewrite (proj2 (Z.eqb_neq _ _) Hc), bind_wr.
    assert (Hm1 : forall a, ~ B a -> upd m ptr c a = m a).
    { intros a Ha. apply upd_ne. intros ->. apply Ha, HB. lia. }
    destruct (IH fuel (ptr + 1) (fmt + 1) (upd m ptr c)) as (m' & R & H).
    + lia.
    + eapply cstr_ext; [|exact Hs]. intros a Ha. apply Hm1, Hout. lia.
    + intros a Ha. apply Hout. lia.
    + intros a Ha. apply HB. lia.
    + intros a Ha. rewrite Hm1 by done. by apply Hm.
    + exists m'. rewrite R. split; [do 2 f_equal; lia|]. by apply (wrote_app _ _ _ _ [c] _ (wrote_one m ptr c)).
  - destruct Hs as (Hc0 & _ & Hs). destruct fuel as [|fuel]; [cbn in Hf; lia|]. cbn [vsprintf_loop].
    rewrite bind_rd, Hc0. change (PERCENT =? 0) with false. rewrite Z.eqb_refl. cbv zeta.
    destruct (conv_no_digit m0 pad width conv args l rest f Hconv) as [Hne Hnd].
    set (flag := if pad then [ZERO] else []) in *.
    assert (Hflag : (m (fmt + 1) =? ZERO) = pad).
    { destruct pad; [by destruct Hs as [-> _]|]. cbn [app flag] in Hs. apply Z.eqb_neq. intros Hz.
      destruct ds as [|d ds]; [|destruct Hs as [<- _]; by apply Hpad; cbn; f_equal].
      destruct conv as [|c conv]; [done|]. destruct Hs as [<- _]. apply (Hnd _ eq_refl). rewrite Hz. by vm_compute. }
    rewrite bind_rd, Hflag.
    assert (Hpos : (if pad then fmt + 1 + 1 else fmt + 1) = fmt + 1 + len flag) by (unfold flag; destruct pad; cbn; lia).
    rewrite Hpos. set (p1 := fmt + 1 + len flag) in *.
    apply cstr_app in Hs as [_ Hs1]. pose proof Hs1 as Hs2. apply cstr_app in Hs2 as [_ Hs2].
    pose proof Hs2 as Hs3. apply cstr_app in Hs3 as [_ Hs3]. fold p1 in Hs1, Hs2, Hs3.
    cbn [length] in Hf, Hout. rewrite !length_app in Hf, Hout.
    mstep (run_scan_width ds fuel p1 0 width (conv ++ f) m Hds ltac:(lia) Hw Hs1 Hnd ltac:(lia)). cbv iota.
    rewrite length_app, Nat2Z.inj_add in HB |- *.
    destruct (run_conversion m fuel (p1 + len ds) ptr pad width conv f args l rest) as (m1 & R1 & H1);
      [by apply (converts_ext m0)|done|lia|intros a Ha; apply HB; lia|].
    mstep R1. cbv iota. replace (p1 + len ds + len conv - 1 + 1) with (p1 + len ds + len conv) by lia.
    assert (Hm1 : forall a, ~ B a -> m1 a = m a).
    { intros a Ha. apply (wrote_outside _ _ _ _ _ H1). intros Hin. apply Ha, HB. lia. }
    destruct (IH fuel (ptr + len l) (p1 + len ds + len conv) m1) as (m' & R & H2).
    + lia.
    + eapply cstr_ext; [|exact Hs3]. intros a Ha. apply Hm1, Hout. lia.
    + intros a Ha. apply Hout. lia.
    + intros a Ha. apply HB. lia.
    + intros a Ha. rewrite Hm1 by done. by apply Hm.
    + exists m'. rewrite R. split; [do 2 f_equal; lia|]. by eapply wrote_app.
Qed.
End directives.

(** ** Messages *)

Section messages.
  Context {D : Type} `{!PortIO D, !LogStrings} (delay : nat) `{!Uart D SERIAL_COM1 delay}.
  Implicit Types s : log_state D.

(** The bytes of "[%s] " and of "[%s] %s\r\n". *)
Definition level_format_text : list Z := [91; PERCENT; CHAR_s; 93; 32].
Definition message_format_text : list Z := level_format_text ++ [PERCENT; CHAR_s; 13; 10].

Definition with_io (x : machine D) s : log_state D := LogState x (current_log_level s) (log_initialized s).

Lemma zoom_io {X} (m : M (machine D) X) s r x : m (io s) = (r, x) -> run_io m s = (r, with_io x s).
Proof using Type. apply (run_zoom io (fun x s => LogState x (current_log_level s) (log_initialized s))). Qed.

(** The bytes of the buffer that [n] characters and a NUL take. *)
Definition in_buffer (n a : Z) : Prop := log_buffer <= a <= log_buffer + n.

(** Formatting a text into the buffer and sending it: the two calls
    [printf_serial] and [log_printf] make. *)
Lemma run_format_and_send n K fuel fmt f args t s :
  shows (in_buffer n) K (memory (io s)) f args t -> bytes t -> len t <= n -> log_buffer <> NULL ->
  cstr (memory (io s)) fmt f -> (forall a, fmt <= a <= fmt + len f -> ~ in_buffer n a) ->
  (length f + K + length t + delay < fuel)%nat ->
  exists r m' d',
    run_io (run_mem (vsprintf fuel log_buffer fmt args)) s = (Ret r, with_io (Machine m' (device (io s))) s) /\
    run_io (serial_write_string fuel LOG_SERIAL_PORT log_buffer) (with_io (Machine m' (device (io s))) s) =
      (Ret tt, with_io (Machine m' d') s) /\
    sent d' = sent (device (io s)) ++ t /\ wrote (memory (io s)) m' log_buffer (t ++ [0]).
Proof using Type*.
  intros Hshow Ht Hn Hbuf Hs Hout Hf.
  destruct (run_vsprintf_loop _ K _ _ _ _ Hshow fuel log_buffer fmt (memory (io s))) as (m1 & R & Hm1);
    [lia|done|done|unfold in_buffer; lia|done|].
  assert (Hw : wrote (memory (io s)) (upd m1 (log_buffer + len t) 0) log_buffer (t ++ [0]))
    by (eapply wrote_app; [exact Hm1|apply wrote_one]).
  assert (Hline : cstr (upd m1 (log_buffer + len t) 0) log_buffer t).
  { apply cstr_intro; [done|intros i c Hi; apply (wrote_at _ _ _ _ _ _ Hw); by apply lookup_app_l_Some|apply upd_eq]. }
  destruct (run_write_string SERIAL_COM1 delay ltac:(unfold SERIAL_COM1; lia) t fuel log_buffer
    (Machine (upd m1 (log_buffer + len t) 0) (device (io s)))) as (d' & R2 & Hsent); [lia|done|].
  eexists _, _, d'. split_and!; [| |exact Hsent|exact Hw].
  - apply zoom_io. apply (run_zoom memory (fun b x => Machine b (device x))). unfold vsprintf. mstep R. by rewrite bind_wr.
  - apply (zoom_io _ (with_io _ s)). unfold serial_write_string. rewrite (proj2 (Z.eqb_neq _ _) Hbuf). exact R2.
Qed.

Lemma wrote_buffer m m' n t a : wrote m m' log_buffer (t ++ [0]) -> len t <= n -> ~ in_buffer n a -> m' a = m a.
Proof using Type.
  intros Hw Hn Ha. apply (wrote_outside _ _ _ _ _ Hw). rewrite length_app. cbn [length]. unfold in_buffer in Ha. lia.
Qed.

Lemma run_send_byte fuel c x s : (delay <= fuel)%nat -> 0 <= c < 256 ->
  exists d', run_io (run_dev (serial_write_byte fuel LOG_SERIAL_PORT c)) (with_io x s) = (Ret tt, with_io (Machine (memory x) d') s) /\
    sent d' = sent (device x) ++ [c].
Proof using Type*.
  intros Hf Hc. destruct (run_write_byte SERIAL_COM1 delay ltac:(unfold SERIAL_COM1; lia) fuel (device x) c Hf Hc) as (d' & R & Hs).
  exists d'. split; [|exact Hs]. apply (zoom_io _ (with_io x s)).
  apply (run_zoom device (fun d x => Machine (memory x) d) _ x). exact R.
Qed.

(** The name of a level in brackets. *)
Definition bracketed (name : list Z) : list Z := [91] ++ name ++ [93; 32].

Lemma bytes_bracketed name : bytes name -> bytes (bracketed name).
Proof using Type.
  intros Hb. unfold bracketed. repeat apply Forall_app_2; [|exact Hb|]; repeat constructor; lia.
Qed.

Lemma shows_level B K m p name f args t : p <> NULL -> outside_string B K m p name -> shows B K m f args t ->
  shows B K m (level_format_text ++ f) (p :: args) (bracketed name ++ t).
Proof using Type.
  intros Hp Hn Hsh. unfold bracketed. rewrite <- !app_assoc. apply shows_char; [done|].
  apply (shows_directive B K m false [] 0 [CHAR_s] _ _ name args); [done|lia|done|by constructor|].
  do 2 (apply shows_char; [done|]). exact Hsh.
Qed.

(** Log messages: a message goes out as one line.  It is put together at
    [log_buffer] first, with a NUL behind it, and its length is compared with
    nothing: a line of [LOG_BUFFER_SIZE] characters or more overwrites what
    follows the buffer. *)
Theorem log_message_sends K fuel level msg name text s :
  let m := memory (io s) in
  let line := bracketed name ++ text ++ [13; 10] in
  let B := in_buffer (len line) in
  log_initialized s = true -> current_log_level s <= level -> log_buffer <> NULL ->
  cstr m message_format message_format_text ->
  (forall a, message_format <= a <= message_format + 9 -> ~ B a) ->
  log_level_names level <> NULL -> outside_string B K m (log_level_names level) name ->
  msg <> NULL -> outside_string B K m msg text -> (9 + K + length line + delay < fuel)%nat ->
  exists s', log_message fuel level msg s = (Ret tt, s') /\
    sent (device (io s')) = sent (device (io s)) ++ line /\
    wrote m (memory (io s')) log_buffer (line ++ [0]) /\
    current_log_level s' = current_log_level s /\ log_initialized s' = true.
Proof using Type*.
  intros m line B Hinit Hlev Hbuf Hfmt Hfout Hname0 Hname Hmsg0 Hmsg Hf.
  assert (Hshow : shows B K m message_format_text [log_level_names level; msg] line).
  { apply shows_level; [done..|]. apply (shows_directive B K m false [] 0 [CHAR_s] _ _ text []); [done|lia|done|by constructor|].
    do 2 (apply shows_char; [done|]). apply shows_nil. }
  assert (Hb : bytes line).
  { apply Forall_app_2; [apply bytes_bracketed, (cstr_bytes _ _ _ (proj1 Hname))|].
    apply Forall_app_2; [apply (cstr_bytes _ _ _ (proj1 Hmsg))|repeat constructor; lia]. }
  destruct (run_format_and_send (len line) K fuel message_format _ _ line s Hshow Hb) as (r & m' & d' & R1 & R2 & Hsent & Hw);
    [lia|done|done|done|cbn in *; lia|].
  exists (with_io (Machine m' d') s). split_and!; [|exact Hsent|exact Hw|done|done].
  unfold log_message. mstep. rewrite Hinit. cbn [negb orb]. rewrite (proj2 (Z.ltb_ge _ _) Hlev).
  unfold printf_serial. mstep. rewrite Hinit. cbn [negb]. mstep R1. exact R2.
Qed.

(** The same with a bound [n] on the part of the buffer that is used. *)
Lemma run_log_message K fuel n level msg name text s :
  let m := memory (io s) in
  let line := bracketed name ++ text ++ [13; 10] in
  log_initialized s = true -> current_log_level s <= level -> log_buffer <> NULL -> len line <= n ->
  cstr m message_format message_format_text ->
  (forall a, message_format <= a <= message_format + 9 -> ~ in_buffer n a) ->
  log_level_names level <> NULL -> outside_string (in_buffer n) K m (log_level_names level) name ->
  msg <> NULL -> outside_string (in_buffer n) K m msg text -> (9 + K + length line + delay < fuel)%nat ->
  exists s', log_message fuel level msg s = (Ret tt, s') /\
    sent (device (io s')) = sent (device (io s)) ++ line /\
    (forall a, ~ in_buffer n a -> memory (io s') a = memory (io s) a) /\
    current_log_level s' = current_log_level s /\ log_initialized s' = true.
Proof using Type*.
  intros m line Hi Hlev Hb Hn Hs Hp Hn0 Hname Hm0 Hmsg Hf.
  assert (Hin : forall a, in_buffer (len line) a -> in_buffer n a) by (unfold in_buffer; intros a; lia).
  assert (Hsub : forall q w, outside_string (in_buffer n) K m q w -> outside_string (in_buffer (len line)) K m q w).
  { intros q w (Hw & HK & Hq). split_and!; [done|done|]. intros a Ha Hia. by apply (Hq a Ha), Hin. }
  destruct (log_message_sends K fuel level msg name text s) as (s' & R & Hsent & Hw & Hlev' & Hi'); try done.
  - intros a Ha Hia. by apply (Hp a Ha), Hin.
  - by apply Hsub.
  - by apply Hsub.
  - exists s'. split_and!; try done. intros a Ha. apply (wrote_buffer _ _ (len line) _ a Hw); [apply Z.le_refl|].
    intros Hia. by apply Ha, Hin.
Qed.

(** What a call of [log_printf] needs to send the text [t]: the strings it reads
    are where its own writing does not reach. *)
Definition printf_ready (K : nat) (n level fmt : Z) (f args t name : list Z) s : Prop :=
  let m := memory (io s) in let B := in_buffer n in
  len name + 3 <= n /\ len t <= n /\
  cstr m level_format level_format_text /\ (forall a, level_format <= a <= level_format + 5 -> ~ B a) /\
  log_level_names level <> NULL /\ outside_string B K m (log_level_names level) name /\
  cstr m fmt f /\ (forall a, fmt <= a <= fmt + len f -> ~ B a) /\
  shows B K m f args t /\ bytes t.

Lemma run_log_printf K fuel n level fmt f args t name s :
  log_initialized s = true -> current_log_level s <= level -> log_buffer <> NULL ->
  printf_ready K n level fmt f args t name s ->
  (length f + 8 + K + length t + length name + delay < fuel)%nat ->
  exists s', log_printf fuel level fmt args s = (Ret tt, s') /\
    sent (device (io s')) = sent (device (io s)) ++ bracketed name ++ t ++ [13; 10] /\
    (forall a, ~ in_buffer n a -> memory (io s') a = memory (io s) a) /\
    current_log_level s' = current_log_level s /\ log_initialized s' = true.
Proof using Type*.
  intros Hinit Hlev Hbuf (Hn1 & Hn2 & Hl & Hlout & Hname0 & Hname & Hs & Hout & Hshow & Ht) Hf.
  assert (Hlshow : shows (in_buffer n) K (memory (io s)) level_format_text [log_level_names level] (bracketed name)).
  { rewrite <- (app_nil_r level_format_text), <- (app_nil_r (bracketed name)). apply shows_level; [done..|apply shows_nil]. }
  assert (Hlen : length (bracketed name) = (length name + 3)%nat).
  { unfold bracketed. rewrite !length_app. cbn. lia. }
  destruct (run_format_and_send n K fuel level_format _ _ _ s Hlshow (bytes_bracketed _ (cstr_bytes _ _ _ (proj1 Hname))))
    as (r1 & m1 & d1 & R1 & R2 & Hsent1 & Hw1); [lia|done|done|done|change (length level_format_text) with 5%nat; lia|].
  pose proof (fun a => wrote_buffer _ _ n _ a Hw1 ltac:(lia)) as Hm1. set (s1 := with_io (Machine m1 d1) s) in *.
  destruct (run_format_and_send n K fuel fmt f args t s1) as (r2 & m2 & d2 & R3 & R4 & Hsent2 & Hw2); try done; [|  |lia| ].
  { apply (shows_ext _ _ (memory (io s))); [|done]. intros a Ha. by apply Hm1. }
  { eapply cstr_ext; [|exact Hs]. intros a Ha. by apply Hm1, Hout. }
  pose proof (fun a => wrote_buffer _ _ n _ a Hw2 ltac:(lia)) as Hm2.
  destruct (run_send_byte fuel 13 (Machine m2 d2) s) as (d3 & R5 & Hsent3); [lia..|].
  destruct (run_send_byte fuel 10 (Machine m2 d3) s) as (d4 & R6 & Hsent4); [lia..|].
  exists (with_io (Machine m2 d4) s). split_and!; [| | |done|done].
  - unfold log_printf. mstep. rewrite Hinit. cbn [negb orb]. rewrite (proj2 (Z.ltb_ge _ _) Hlev).
    assert (Hp : printf_serial fuel level_format [log_level_names level] s = (Ret tt, s1)).
    { unfold printf_serial. mstep. rewrite Hinit. cbn [negb]. mstep R1. exact R2. }
    mstep Hp. mstep R3. mstep R4. mstep R5. exact R6.
  - cbn [device io with_io] in *. rewrite Hsent4, Hsent3. cbn [device]. rewrite Hsent2. cbn [device io with_io s1].
    rewrite Hsent1, <- !app_assoc. done.
  - intros a Ha. cbn. rewrite Hm2 by done. by apply Hm1.
Qed.

End messages.

(** ** An instance *)

(** A UART that is busy for two polls after each byte: what it has sent and how
    long it is busy. *)
Record slow_uart : Type := SlowUart { line_out : list Z; polls : nat }.

Definition slow_busy (d : slow_uart) : nat := Nat.min 2 (polls d).

#[export] Instance slow_ports : PortIO slow_uart := {
  port_in p d :=
    if p =? 0x3FD
    then (match slow_busy d with O => 0x60 | _ => 0x40 end, SlowUart (line_out d) (pred (slow_busy d)))
    else (0, d);
  port_out p c d := if p =? 0x3F8 then SlowUart (line_out d ++ [c]) 2 else d;
}.

#[export, refine] Instance slow_is_uart : Uart slow_uart SERIAL_COM1 2 := {
  sent := line_out;
  busy := slow_busy;
}.
Proof.
  - unfold slow_busy. lia.
  - intros d. cbn -[slow_busy]. destruct (slow_busy d) as [|n] eqn:E; split_and!; try done.
    unfold slow_busy in *. cbn [polls pred]. lia.
  - intros d c _. reflexivity.
Defined.

#[export] Instance example_strings : LogStrings := {
  log_buffer := 1000;
  level_format := 100;
  message_format := 200;
  first_message := 300;
  log_level_names l := if l =? LOG_LEVEL_CRITICAL then 420 else 400;
}.

Definition text_at (p : Z) (t : list Z) (m : mem) : mem := fun a =>
  if (p <=? a) && (a <? p + len t) then nth (Z.to_nat (a - p)) t 0 else m a.

(** The literals, "OK" and "%04x: %d". *)
Definition number_format : list Z := [PERCENT; ZERO; 52; CHAR_x; 58; 32; PERCENT; CHAR_d].
Definition log_mem : mem :=
  text_at 100 level_format_text (text_at 200 message_format_text (text_at 400 [73; 78; 70; 79]
    (text_at 500 [79; 75] (text_at 600 number_format (fun _ => 0))))).

(** A string of the example is where it should be and away from the buffer. *)
Local Ltac at_address := vm_compute; repeat split; reflexivity.
Local Ltac in_place := split_and!; [at_address|cbn; lia|unfold in_buffer; cbn; lia].

(** The line "[INFO] OK". *)
Lemma log_message_sends_witness :
  exists s', log_message 40 LOG_LEVEL_INFO 500 (LogState (Machine log_mem (SlowUart [] 0)) 0 true) = (Ret tt, s') /\
    line_out (device (io s')) = [91; 73; 78; 70; 79; 93; 32; 79; 75; 13; 10].
Proof.
  destruct (log_message_sends 2 4 40 LOG_LEVEL_INFO 500 [73; 78; 70; 79] [79; 75]
    (LogState (Machine log_mem (SlowUart [] 0)) 0 true)) as (s' & R & Hs & _);
    [reflexivity|unfold LOG_LEVEL_INFO; cbn; lia|done|at_address|unfold in_buffer; cbn; lia|done|in_place|done|in_place|cbn; lia|].
  - exists s'. exact (conj R Hs).
Defined.

