(* ===== verification/SysInfo.v ===== *)
(** The report of utils/sysinfo.c: what the boot loader and the physical memory
    manager say, logged line by line; and what it says on the serial line.

    The responses of the boot loader are arguments, [None] for the null pointer:
    the addresses of its name and version, the physical and virtual base of the
    kernel, and the memory map.  The addresses of the string literals are the
    class [SysinfoStrings]. *)
From Stdlib Require Import Strings.String.
From S2P Require Import Prelude Bitmap Pmm PmmSpec PmmInit Interrupts Ports Input CString CStringSpec.
From S2P Require Import Stdio StdioSpec Serial Log LogSpec.
Import Stdio Serial Log.

(** The string literals of sysinfo.c. *)
Inductive literal : Type :=
| no_memory_map | no_bootloader | no_kernel_address
| title | bootloader_line | kernel_line | entries_line | usable_line
| memory_title | range_line | size_line | free_line | used_line.

Definition literal_text (l : literal) : list Z :=
  chars match l with
  | no_memory_map => "Memory map information not available"
  | no_bootloader => "Bootloader information not available"
  | no_kernel_address => "Kernel address information not available"
  | title => "System Information:"
  | bootloader_line => "Bootloader: %s %s"
  | kernel_line => "Kernel: physical=0x%X, virtual=0x%X"
  | entries_line => "Memory map entries: %d"
  | usable_line => "Total usable memory: %d MB"
  | memory_title => "Memory Management:"
  | range_line => "  Managed range: 0x%X - 0x%X"
  | size_line => "  Managed size: %d MB"
  | free_line => "  Free Memory: %d MB"
  | used_line => "  Used Memory: %d MB"
  end.

Class SysinfoStrings : Type := { literal_address : literal -> Z }.

Module SysInfo.

(** The logger and the physical memory manager. *)
Record sysinfo_state (D : Type) : Type := SysinfoState {
  log : log_state D;
  pmm : Pmm.pmm_state;
}.
Arguments SysinfoState {D}.
Arguments log {D}.
Arguments pmm {D}.

Definition MEGABYTE : Z := 1024 * 1024.

(** The loop over the memory map. *)
Definition total_usable (entries : list memmap_entry) : Z :=
  foldl (fun total e => if is_usable e then u64 (total + entry_length e) else total) 0 entries.

Section sysinfo.
  Context {D : Type} `{!PortIO D, !LogStrings, !SysinfoStrings}.
  Local Abbreviation K := (M (sysinfo_state D)).

Definition run_log {X} (m : M (log_state D) X) : K X := mzoom log (fun l s => SysinfoState l (pmm s)) m.

Definition LOG_INFO (fuel : nat) (l : literal) (args : list Z) : K unit :=
  run_log (log_printf fuel LOG_LEVEL_INFO (literal_address l) args).
Definition LOG_INFO_MSG (fuel : nat) (l : literal) : K unit :=
  run_log (log_message fuel LOG_LEVEL_INFO (literal_address l)).
Definition LOG_WARN_MSG (fuel : nat) (l : literal) : K unit :=
  run_log (log_message fuel LOG_LEVEL_WARN (literal_address l)).

(** [if (response == NULL) LOG_WARN_MSG(...);] *)
Definition warn_missing {X} (fuel : nat) (response : option X) (l : literal) : K unit :=
  match response with Some _ => mret tt | None => LOG_WARN_MSG fuel l end.

Definition sysinfo_init (fuel : nat) (bootloader kernel_address : option (Z * Z))
    (memmap : option (list memmap_entry)) : K unit :=
  warn_missing fuel memmap no_memory_map;;
  warn_missing fuel bootloader no_bootloader;;
  warn_missing fuel kernel_address no_kernel_address.

Definition sysinfo_print (fuel : nat) (bootloader kernel_address : option (Z * Z))
    (memmap : option (list memmap_entry)) : K unit :=
  LOG_INFO_MSG fuel title;;
  (match bootloader with
   | Some (name, version) => LOG_INFO fuel bootloader_line [name; version]
   | None => mret tt
   end);;
  (match kernel_address with
   | Some (physical_base, virtual_base) => LOG_INFO fuel kernel_line [physical_base; virtual_base]
   | None => mret tt
   end);;
  (match memmap with
   | Some entries =>
       LOG_INFO fuel entries_line [u64 (Z.of_nat (length entries))];;
       LOG_INFO fuel usable_line [total_usable entries / MEGABYTE]
   | None => mret tt
   end);;
  config ← mgets (fun s => Pmm.pmm_get_info (pmm s));
  LOG_INFO fuel memory_title [];;
  LOG_INFO fuel range_line [Pmm.kernel_start config; Pmm.kernel_end config];;
  LOG_INFO fuel size_line [u64 (Pmm.kernel_end config - Pmm.kernel_start config) / MEGABYTE];;
  free ← mgets (fun s => Pmm.pmm_get_free_memory (pmm s));
  LOG_INFO fuel free_line [free / MEGABYTE];;
  used ← mgets (fun s => Pmm.pmm_get_used_memory (pmm s));
  LOG_INFO fuel used_line [used / MEGABYTE].
End sysinfo.
End SysInfo.
Import CString SysInfo.

(** ** What the report says *)

(** The numerals of a number, in base ten, and of its low 32 bits in base
    sixteen ([numeral_exists]). *)
Definition decimal (v : Z) : list Z := rev (number_buffer 10 10 v).
Definition hexadecimal (v : Z) : list Z := upcase <$> rev (number_buffer 8 16 (u32 v)).

(** The usable memory of a memory map. *)
Definition usable_bytes (entries : list memmap_entry) : Z :=
  foldr (fun e n => (if is_usable e then entry_length e else 0) + n) 0 entries.

(** The lines of the report.  The strings of the boot loader are [boot]. *)
Definition report (boot : option (list Z * list Z)) (kernel_address : option (Z * Z))
    (memmap : option (list memmap_entry)) (p : Pmm.pmm_state) : list (list Z) :=
  let start := Pmm.kernel_start (Pmm.pmm_config p) in
  let end_ := Pmm.kernel_end (Pmm.pmm_config p) in
  let free := 4096 * Z.of_nat (size (free_frames p)) in
  [chars "System Information:"] ++
  (match boot with Some (name, version) => [chars "Bootloader: " ++ name ++ chars " " ++ version] | None => [] end) ++
  (match kernel_address with
   | Some (pbase, vbase) => [chars "Kernel: physical=0x" ++ hexadecimal pbase ++ chars ", virtual=0x" ++ hexadecimal vbase]
   | None => []
   end) ++
  (match memmap with
   | Some es => [chars "Memory map entries: " ++ decimal (Z.of_nat (length es));
                 chars "Total usable memory: " ++ decimal (usable_bytes es / MEGABYTE) ++ chars " MB"]
   | None => []
   end) ++
  [chars "Memory Management:";
   chars "  Managed range: 0x" ++ hexadecimal start ++ chars " - 0x" ++ hexadecimal end_;
   chars "  Managed size: " ++ decimal ((end_ - start) / MEGABYTE) ++ chars " MB";
   chars "  Free Memory: " ++ decimal (free / MEGABYTE) ++ chars " MB";
   chars "  Used Memory: " ++ decimal ((end_ - start - free) / MEGABYTE) ++ chars " MB"].

(** A line of level INFO on the serial line. *)
Definition log_line (t : list Z) : list Z := bracketed (chars "INFO") ++ t ++ [13; 10].

(** ** Texts *)

Section texts.
  Context (B : Z -> Prop) (K : nat) (m : mem).

(** The format [f] stands for the text [t] of [k] characters at most. *)
Definition text_of (f args t : list Z) (k : Z) : Prop := shows B K m f args t /\ bytes t /\ len t <= k.

Lemma text_nil args : text_of [] args [] 0.
Proof using Type. split_and!; [apply shows_nil|apply Forall_nil_2|done]. Qed.

Lemma text_plain w f args t k : Forall (fun c => 0 < c < 256 /\ c <> PERCENT) w -> text_of f args t k ->
  text_of (w ++ f) args (w ++ t) (len w + k).
Proof using Type.
  intros Hw (Hs & Ht & Hk). induction Hw as [|c w [Hc Hp] Hw (Hs' & Ht' & Hk')]; [by split_and!|].
  split_and!; [by apply shows_char|by constructor|cbn; lia].
Qed.

Lemma shows_conv c v l f args t : converts B K m false 0 [c] (v :: args) l args -> shows B K m f args t ->
  shows B K m (PERCENT :: c :: f) (v :: args) (l ++ t).
Proof using Type. intros Hc Hs. by apply (shows_directive B K m false [] 0 [c] f (v :: args) l args t). Qed.

Lemma text_decimal v f args t k : 0 <= v < 2 ^ 31 -> text_of f args t k ->
  text_of (PERCENT :: CHAR_d :: f) (v :: args) (decimal v ++ t) (10 + k).
Proof using Type.
  intros Hv (Hs & Ht & Hk).
  assert (Hn : numeral 10 v (decimal v)) by (apply numeral_exists; change (10 ^ Z.of_nat 10) with 10000000000; lia).
  pose proof (length_numeral 10 10 v _ ltac:(lia) Hn ltac:(change (10 ^ Z.of_nat 10) with 10000000000; lia) ltac:(lia)).
  split_and!; [|apply Forall_app_2; [apply (read_number_bytes 10 _ v ltac:(lia)), Hn|done]|rewrite length_app; lia].
  apply shows_conv; [|done]. pose proof (conv_int B K m false 0 v (decimal v) args) as H'.
  rewrite (swrap_small 32 v) in H' by lia. rewrite Z.abs_eq in H' by lia.
  replace (v <? 0) with false in H' by lia. apply H'; [lia|done].
Qed.

Lemma upcase_bytes l : bytes l -> bytes (upcase <$> l).
Proof using Type.
  intros Hl. apply Forall_fmap. eapply Forall_impl; [exact Hl|]. intros c Hc. cbn in *. unfold upcase.
  destruct ((97 <=? c) && (c <=? 102)) eqn:E; lia.
Qed.

Lemma text_hexadecimal v f args t k : text_of f args t k ->
  text_of (PERCENT :: CHAR_X :: f) (v :: args) (hexadecimal v ++ t) (8 + k).
Proof using Type.
  intros (Hs & Ht & Hk). unfold hexadecimal. set (w := rev (number_buffer 8 16 (u32 v))).
  pose proof (wrap_range 32 v ltac:(lia)) as Hv.
  assert (Hn : numeral 16 (u32 v) w) by (apply numeral_exists; lia).
  pose proof (length_numeral 8 16 (u32 v) _ ltac:(lia) Hn ltac:(lia) ltac:(lia)).
  split_and!; [|apply Forall_app_2; [apply upcase_bytes, (read_number_bytes 16 _ (u32 v) ltac:(lia)), Hn|done]|
    rewrite length_app, length_fmap; lia].
  apply shows_conv; [|done]. exact (conv_hex B K m false 0 true v w args Hn).
Qed.

Lemma text_string p w f args t k : p <> NULL -> outside_string B K m p w -> text_of f args t k ->
  text_of (PERCENT :: CHAR_s :: f) (p :: args) (w ++ t) (Z.of_nat K + k).
Proof using Type.
  intros Hp Hw (Hs & Ht & Hk).
  split_and!; [|apply Forall_app_2; [apply (cstr_bytes _ _ _ (proj1 Hw))|done]|rewrite length_app].
  - apply shows_conv; [|done]. by apply conv_string.
  - destruct Hw as (_ & HK & _). lia.
Qed.
End texts.

(** ** The report *)

Section report.
  Context {D : Type} `{!PortIO D, !LogStrings, !SysinfoStrings} (delay : nat) `{!Uart D SERIAL_COM1 delay}.

(** The strings the report reads are in memory, away from the first [n] bytes
    of the log buffer; [K] bounds the length of those it is given. *)
Record strings_ready (n : Z) (K : nat) (m : mem) : Prop := {
  ready_buffer : log_buffer <> NULL;
  ready_size : 2 * Z.of_nat K + 64 <= n;
  ready_level : cstr m level_format level_format_text;
  ready_level_place a : level_format <= a <= level_format + 5 -> ~ in_buffer n a;
  ready_message : cstr m message_format message_format_text;
  ready_message_place a : message_format <= a <= message_format + 9 -> ~ in_buffer n a;
  ready_name : log_level_names LOG_LEVEL_INFO <> NULL;
  ready_name_text : outside_string (in_buffer n) K m (log_level_names LOG_LEVEL_INFO) (chars "INFO");
  ready_literal l : literal_address l <> NULL;
  ready_literal_text l : outside_string (in_buffer n) K m (literal_address l) (literal_text l);
}.

Section calls.
  Context (n : Z) (K fuel : nat) (m0 : mem) (p : Pmm.pmm_state).
  Hypothesis Hready : strings_ready n K m0.
  Hypothesis Hfuel : (2 * K + Z.to_nat n + 52 + delay < fuel)%nat.

(** The logger is on and has written to its buffer only. *)
Definition good (s : sysinfo_state D) : Prop :=
  log_initialized (log s) = true /\ current_log_level (log s) <= LOG_LEVEL_INFO /\ pmm s = p /\
  forall a, ~ in_buffer n a -> memory (io (log s)) a = m0 a.

Definition out (s : sysinfo_state D) : list Z := sent (device (io (log s))).

(** The code [c] returns and sends the lines [ls]. *)
Definition sends (c : M (sysinfo_state D) unit) (ls : list (list Z)) : Prop :=
  forall s, good s -> exists s', c s = (Ret tt, s') /\ good s' /\ out s' = out s ++ concat (log_line <$> ls).

Lemma sends_none : sends (mret tt) [].
Proof using Type. intros s Hs. exists s. by rewrite app_nil_r. Qed.

Lemma sends_seq c k l1 l2 : sends c l1 -> sends k l2 -> sends (c;; k) (l1 ++ l2).
Proof using Type.
  intros Hc Hk s Hs. destruct (Hc s Hs) as (s1 & R1 & G1 & O1). destruct (Hk s1 G1) as (s2 & R2 & G2 & O2).
  exists s2. split_and!; [by mstep R1|done|]. by rewrite O2, O1, fmap_app, concat_app, app_assoc.
Qed.

Lemma sends_gets {X} (f : Pmm.pmm_state -> X) (k : X -> M (sysinfo_state D) unit) ls :
  sends (k (f p)) ls -> sends (x ← mgets (fun s => f (pmm s)); k x) ls.
Proof using Type.
  intros Hk s Hs. destruct (Hk s Hs) as (s' & R & H'). exists s'. split; [|exact H'].
  destruct Hs as (_ & _ & <- & _). exact R.
Qed.

Lemma run_in_log {X} (c : M (log_state D) X) s r l : c (log s) = (r, l) -> run_log c s = (r, SysinfoState l (pmm s)).
Proof using Type. apply (run_zoom log (fun l s => SysinfoState l (pmm s))). Qed.

Lemma outside_in s q w : good s -> outside_string (in_buffer n) K m0 q w ->
  outside_string (in_buffer n) K (memory (io (log s))) q w.
Proof using Type. intros (_ & _ & _ & Hm). by apply outside_ext. Qed.

Lemma cstr_in s q w : good s -> cstr m0 q w -> (forall a, q <= a <= q + len w -> ~ in_buffer n a) ->
  cstr (memory (io (log s))) q w.
Proof using Type. intros (_ & _ & _ & Hm) Hw Hout. eapply cstr_ext; [|exact Hw]. intros a Ha. by apply Hm, Hout. Qed.

Lemma sends_info l args t k : text_of (in_buffer n) K m0 (literal_text l) args t k -> k <= n ->
  sends (LOG_INFO fuel l args) [t].
Proof using Type*.
  intros (Hsh & Ht & Hk) Hkn s Hs. destruct Hready as [Hb Hn Hl Hlp Hmf Hmp Hn0 Hnt Hl0 Hlt].
  destruct (Hlt l) as (Hc & Hlen & Hplace). pose proof Hs as (Hi & Hlev & Hp & Hm).
  destruct (run_log_printf delay K fuel n LOG_LEVEL_INFO (literal_address l) (literal_text l) args t (chars "INFO") (log s))
    as (l' & R & Hsent & Hm' & Hlev' & Hi'); [done..| | |].
  - split_and!; [cbn; lia|lia|by apply cstr_in|done|done|by apply outside_in|by apply cstr_in|done| |done].
    by apply (shows_ext _ _ m0).
  - change (length (chars "INFO")) with 4%nat. lia.
  - exists (SysinfoState l' (pmm s)). split_and!; [by apply run_in_log| |].
    + split_and!; [done|cbn in *; lia|done|]. intros a Ha. cbn. rewrite Hm' by done. by apply Hm.
    + unfold out. cbn [concat fmap list_fmap]. rewrite app_nil_r. exact Hsent.
Qed.

Lemma sends_info_msg l : sends (LOG_INFO_MSG fuel l) [literal_text l].
Proof using Type*.
  intros s Hs. destruct Hready as [Hb Hn Hl Hlp Hmf Hmp Hn0 Hnt Hl0 Hlt].
  pose proof (proj1 (proj2 (Hlt l))) as Hlen. pose proof Hs as (Hi & Hlev & Hp & Hm).
  assert (Hline : length (bracketed (chars "INFO") ++ literal_text l ++ [13; 10]) = (length (literal_text l) + 9)%nat).
  { rewrite !length_app. cbn [length]. change (length (bracketed (chars "INFO"))) with 7%nat. lia. }
  destruct (run_log_message delay K fuel n LOG_LEVEL_INFO (literal_address l) (chars "INFO") (literal_text l) (log s))
    as (l' & R & Hsent & Hm' & Hlev' & Hi'); [done|done|done| | |done|done| |done| | |].
  - rewrite Hline. lia.
  - by apply cstr_in.
  - by apply outside_in.
  - by apply outside_in.
  - rewrite Hline. lia.
  - exists (SysinfoState l' (pmm s)). split_and!; [by apply run_in_log| |].
    + split_and!; [done|cbn in *; lia|done|]. intros a Ha. cbn. rewrite Hm' by done. by apply Hm.
    + unfold out. cbn [concat fmap list_fmap]. rewrite app_nil_r. exact Hsent.
Qed.

(** ** The lines *)

Definition plain (w : list Z) : bool := bool_decide (Forall (fun c => 0 < c < 256 /\ c <> PERCENT) w).

Lemma plain_text w f args t k : plain w = true -> text_of (in_buffer n) K m0 f args t k ->
  text_of (in_buffer n) K m0 (w ++ f) args (w ++ t) (len w + k).
Proof using Type. intros Hw%bool_decide_eq_true. by apply text_plain. Qed.

Lemma plain_end w args : plain w = true -> text_of (in_buffer n) K m0 w args w (len w).
Proof using Type.
  intros Hw. pose proof (plain_text w [] args [] 0 Hw (text_nil _ _ _ _)) as Hn. by rewrite !app_nil_r, Z.add_0_r in Hn.
Qed.

Lemma sends_megabytes l pre v : literal_text l = chars pre ++ PERCENT :: CHAR_d :: chars " MB" ->
  plain (chars pre) = true -> len (chars pre) <= 40 -> 0 <= v < 2 ^ 31 ->
  sends (LOG_INFO fuel l [v]) [chars pre ++ decimal v ++ chars " MB"].
Proof using Type*.
  intros Hl Hp Hlen Hv. pose proof (ready_size _ _ _ Hready).
  apply (sends_info _ _ _ (len (chars pre) + (10 + 3))); [|lia]. rewrite Hl.
  apply plain_text, text_decimal, plain_end; done.
Qed.

Lemma sends_addresses l pre mid v w : literal_text l = chars pre ++ PERCENT :: CHAR_X :: chars mid ++ [PERCENT; CHAR_X] ->
  plain (chars pre) = true -> plain (chars mid) = true -> len (chars pre) + len (chars mid) <= 48 ->
  sends (LOG_INFO fuel l [v; w]) [chars pre ++ hexadecimal v ++ chars mid ++ hexadecimal w].
Proof using Type*.
  intros Hl Hp Hm Hlen. pose proof (ready_size _ _ _ Hready).
  apply (sends_info _ _ _ (len (chars pre) + (8 + (len (chars mid) + (8 + 0))))); [|lia]. rewrite Hl.
  rewrite <- (app_nil_r (hexadecimal w)). apply plain_text, text_hexadecimal, plain_text, text_hexadecimal, text_nil; done.
Qed.

Lemma sends_bootloader a b wa wb : a <> NULL -> outside_string (in_buffer n) K m0 a wa ->
  b <> NULL -> outside_string (in_buffer n) K m0 b wb ->
  sends (LOG_INFO fuel bootloader_line [a; b]) [chars "Bootloader: " ++ wa ++ chars " " ++ wb].
Proof using Type*.
  intros Ha Hwa Hb Hwb. pose proof (ready_size _ _ _ Hready).
  apply (sends_info _ _ _ (12 + (Z.of_nat K + (1 + (Z.of_nat K + 0))))); [|lia].
  change (literal_text bootloader_line) with (chars "Bootloader: " ++ PERCENT :: CHAR_s :: chars " " ++ [PERCENT; CHAR_s]).
  rewrite <- (app_nil_r wb).
  apply (plain_text (chars "Bootloader: ")); [done|]. apply text_string; [done..|].
  apply (plain_text (chars " ")); [done|]. apply text_string; [done..|]. apply text_nil.
Qed.

Lemma sends_entries v : 0 <= v < 2 ^ 31 ->
  sends (LOG_INFO fuel entries_line [v]) [chars "Memory map entries: " ++ decimal v].
Proof using Type*.
  intros Hv. pose proof (ready_size _ _ _ Hready). apply (sends_info _ _ _ (20 + (10 + 0))); [|lia].
  change (literal_text entries_line) with (chars "Memory map entries: " ++ [PERCENT; CHAR_d]).
  rewrite <- (app_nil_r (decimal v)).
  apply (plain_text (chars "Memory map entries: ")); [done|]. by apply text_decimal, text_nil.
Qed.
End calls.

Lemma usable_cons e es : usable_bytes (e :: es) = (if is_usable e then entry_length e else 0) + usable_bytes es.
Proof using Type. done. Qed.

Lemma usable_nonneg entries : Forall (fun e => 0 <= entry_length e) entries -> 0 <= usable_bytes entries.
Proof using Type. induction 1 as [|e es He Hes IH]; [done|]. rewrite usable_cons. destruct (is_usable e); lia. Qed.

Lemma total_usable_sum entries : Forall (fun e => 0 <= entry_length e) entries -> usable_bytes entries < 2 ^ 64 ->
  total_usable entries = usable_bytes entries.
Proof using Type.
  intros Hpos Hlt. unfold total_usable.
  assert (Hacc : forall total, 0 <= total -> total + usable_bytes entries < 2 ^ 64 ->
    foldl (fun total e => if is_usable e then u64 (total + entry_length e) else total) total entries
    = total + usable_bytes entries).
  { clear Hlt. induction Hpos as [|e es He Hes IH]; intros total Ht Hlt; [cbn; lia|].
    pose proof (usable_nonneg es Hes). cbn [foldl]. rewrite usable_cons in *. destruct (is_usable e).
    - rewrite wrap_small by lia. rewrite IH by lia. lia.
    - rewrite IH by lia. lia. }
  rewrite Hacc by lia. lia.
Qed.

Lemma used_nonneg p : 0 <= Pmm.pmm_get_used_memory p.
Proof using Type. unfold Pmm.pmm_get_used_memory. destruct (negb _); [done|]. apply (wrap_range 64). lia. Qed.

(** The strings of the boot loader are in place. *)
Definition boot_ready (n : Z) (K : nat) (m : mem) (bootloader : option (Z * Z)) (boot : option (list Z * list Z)) : Prop :=
  match bootloader, boot with
  | Some (a, b), Some (wa, wb) =>
      a <> NULL /\ outside_string (in_buffer n) K m a wa /\ b <> NULL /\ outside_string (in_buffer n) K m b wb
  | None, None => True
  | _, _ => False
  end.

(** The memory map has fewer than 2^31 entries and less than 2 PB of usable
    memory. *)
Definition map_ready (memmap : option (list memmap_entry)) : Prop :=
  match memmap with
  | Some es => Z.of_nat (length es) < 2 ^ 31 /\ Forall (fun e => 0 <= entry_length e) es /\ usable_bytes es < 2 ^ 51
  | None => True
  end.

Lemma sends_report n K fuel m p boot bootloader kernel_address memmap :
  strings_ready n K m -> (2 * K + Z.to_nat n + 52 + delay < fuel)%nat -> pmm_inv p ->
  boot_ready n K m bootloader boot -> map_ready memmap ->
  sends n m p (sysinfo_print fuel bootloader kernel_address memmap) (report boot kernel_address memmap p).
Proof using Type*.
  intros Hready Hfuel Hinv Hboot Hmap. destruct (pmm_accounting_aux p Hinv) as [Hfree Hused].
  pose proof (inv_start _ Hinv). pose proof (inv_end _ Hinv). pose proof (inv_max _ Hinv). pose proof (inv_limit _ Hinv).
  pose proof (Nat2Z.is_nonneg (size (free_frames p))).
  unfold sysinfo_print, report. cbv zeta.
  apply sends_seq; [by apply (sends_info_msg n K fuel)|].
  apply sends_seq.
  { destruct bootloader as [[a b]|], boot as [[wa wb]|]; try done; [|apply sends_none].
    destruct Hboot as (Ha & Hwa & Hb & Hwb). by apply (sends_bootloader n K fuel). }
  apply sends_seq.
  { destruct kernel_address as [[pb vb]|]; [|apply sends_none].
    by apply (sends_addresses n K fuel m p Hready Hfuel kernel_line "Kernel: physical=0x" ", virtual=0x"). }
  apply sends_seq.
  { destruct memmap as [es|]; [|apply sends_none]. destruct Hmap as (Hlen & Hpos & Hsum).
    rewrite total_usable_sum by (done || lia). rewrite wrap_small by lia.
    pose proof (usable_nonneg es Hpos).
    apply (sends_seq _ _ _ _ _ [_] [_]); [apply (sends_entries n K fuel m p Hready Hfuel); lia|].
    apply (sends_megabytes n K fuel m p Hready Hfuel usable_line "Total usable memory: "); [done..|].
    unfold MEGABYTE. split; [apply Z.div_pos|apply Z.div_lt_upper_bound]; lia. }
  apply (sends_gets n m p Pmm.pmm_get_info).
  apply (sends_seq _ _ _ _ _ [_] [_; _; _; _]).
  { apply (sends_info n K fuel m p Hready Hfuel memory_title [] _ 18); [|pose proof (ready_size _ _ _ Hready); lia].
    by apply plain_end. }
  apply (sends_seq _ _ _ _ _ [_] [_; _; _]).
  { by apply (sends_addresses n K fuel m p Hready Hfuel range_line "  Managed range: 0x" " - 0x"). }
  unfold Pmm.pmm_get_info. rewrite wrap_small by lia.
  assert (Hmb : forall x, 0 <= x <= 65536 * 4096 -> 0 <= x / MEGABYTE < 2 ^ 31).
  { intros x Hx. unfold MEGABYTE. split; [apply Z.div_pos|apply Z.div_lt_upper_bound]; lia. }
  apply (sends_seq _ _ _ _ _ [_] [_; _]).
  { apply (sends_megabytes n K fuel m p Hready Hfuel size_line "  Managed size: "); [done..|]. apply Hmb. lia. }
  apply (sends_gets n m p Pmm.pmm_get_free_memory (fun free => LOG_INFO fuel free_line [free / MEGABYTE];; _)).
  apply (sends_seq _ _ _ _ _ [_] [_]).
  { rewrite Hfree. apply (sends_megabytes n K fuel m p Hready Hfuel free_line "  Free Memory: "); [done..|].
    apply Hmb. pose proof (used_nonneg p). lia. }
  apply (sends_gets n m p Pmm.pmm_get_used_memory (fun used => LOG_INFO fuel used_line [used / MEGABYTE])).
  replace (Pmm.pmm_get_used_memory p) with (Pmm.kernel_end (Pmm.pmm_config p) - Pmm.kernel_start (Pmm.pmm_config p) -
    4096 * Z.of_nat (size (free_frames p))) by lia.
  apply (sends_megabytes n K fuel m p Hready Hfuel used_line "  Used Memory: "); [done..|].
  apply Hmb. pose proof (used_nonneg p). lia.
Qed.

(** C40: The system information.  With the strings in place and the physical
    memory manager initialised, [sysinfo_print] sends its report on the serial
    port: the boot loader's name and version, the number of entries of the
    memory map and the megabytes of its usable ones, and of the manager's range
    the size, the free frames and the others, in megabytes.  Of the kernel's
    addresses and of the range's ends only the low 32 bits are printed.  The
    manager does not change. *)
Theorem sysinfo_print_reports n K fuel boot bootloader kernel_address memmap s :
  let m := memory (io (log s)) in
  strings_ready n K m -> (2 * K + Z.to_nat n + 52 + delay < fuel)%nat ->
  log_initialized (log s) = true -> current_log_level (log s) <= LOG_LEVEL_INFO -> pmm_inv (pmm s) ->
  boot_ready n K m bootloader boot -> map_ready memmap ->
  exists s', sysinfo_print fuel bootloader kernel_address memmap s = (Ret tt, s') /\ pmm s' = pmm s /\
    sent (device (io (log s'))) =
      sent (device (io (log s))) ++ concat (log_line <$> report boot kernel_address memmap (pmm s)).
Proof using Type*.
  intros m Hready Hfuel Hinit Hlev Hinv Hboot Hmap.
  destruct (sends_report n K fuel m (pmm s) boot bootloader kernel_address memmap Hready Hfuel Hinv Hboot Hmap s)
    as (s' & R & (_ & _ & Hp & _) & Ho); [by split_and!|].
  exists s'. by split_and!.
Qed.
End report.

(** ** An instance *)

Definition literals : list literal :=
  [no_memory_map; no_bootloader; no_kernel_address; title; bootloader_line; kernel_line; entries_line; usable_line;
   memory_title; range_line; size_line; free_line; used_line].

Definition example_address (l : literal) : Z :=
  match l with
  | no_memory_map => 2000 | no_bootloader => 2064 | no_kernel_address => 2128 | title => 2192
  | bootloader_line => 2256 | kernel_line => 2320 | entries_line => 2384 | usable_line => 2448
  | memory_title => 2512 | range_line => 2576 | size_line => 2640 | free_line => 2704 | used_line => 2768
  end.
#[export] Instance example_literals : SysinfoStrings := { literal_address := example_address }.

(** The literals, and the name and version of a boot loader. *)
Definition sysinfo_mem : mem :=
  foldr (fun l => text_at (example_address l) (literal_text l))
    (text_at 3000 (chars "Limine") (text_at 3064 (chars "9.0") log_mem)) literals.

Definition sysinfo_example : sysinfo_state slow_uart :=
  SysinfoState (LogState (Machine sysinfo_mem (SlowUart [] 0)) 0 true) example_pmm.

Local Ltac at_address := vm_compute; repeat split; reflexivity.
Local Ltac in_place := split_and!; [at_address|cbn; lia|unfold in_buffer; cbn; lia].

Lemma sysinfo_strings_ready : strings_ready 144 40 sysinfo_mem.
Proof.
  split; [done|cbn; lia|at_address|unfold in_buffer; cbn; lia|at_address|unfold in_buffer; cbn; lia|done|in_place| |].
  - by intros [].
  - intros []; in_place.
Qed.

(** The lines sent, the upper half of the kernel's virtual address missing. *)
Definition sysinfo_lines : list string := [
  "System Information:"; "Bootloader: Limine 9.0"; "Kernel: physical=0x200000, virtual=0x80000000";
  "Memory map entries: 4"; "Total usable memory: 1 MB"; "Memory Management:";
  "  Managed range: 0x100000 - 0x22C000"; "  Managed size: 1 MB"; "  Free Memory: 0 MB"; "  Used Memory: 1 MB"]%string.

Lemma example_report :
  report (Some (chars "Limine", chars "9.0")) (Some (0x200000, 0xffffffff80000000)) (Some example_map) example_pmm =
  chars <$> sysinfo_lines.
Proof. vm_compute. reflexivity. Qed.

Lemma sysinfo_print_reports_witness :
  exists s', sysinfo_print 300 (Some (3000, 3064)) (Some (0x200000, 0xffffffff80000000)) (Some example_map) sysinfo_example
      = (Ret tt, s') /\
    line_out (device (io (log s'))) = concat (log_line <$> (chars <$> sysinfo_lines)).
Proof.
  destruct (sysinfo_print_reports 2 144 40 300 (Some (chars "Limine", chars "9.0")) (Some (3000, 3064))
    (Some (0x200000, 0xffffffff80000000)) (Some example_map) sysinfo_example sysinfo_strings_ready) as (s' & R & _ & Hs).
  - lia.
  - reflexivity.
  - unfold LOG_LEVEL_INFO. cbn. lia.
  - exact example_pmm_inv.
  - split; [done|]. split; [in_place|]. split; [done|]. in_place.
  - split; [cbn; lia|]. split; [repeat constructor; cbn; lia|vm_compute; reflexivity].
  - exists s'. split; [exact R|]. cbn [sent slow_is_uart] in Hs. etrans; [exact Hs|].
    change (pmm sysinfo_example) with example_pmm. rewrite example_report. reflexivity.
Defined.
