(* ===== verification/Boot.v ===== *)
(** Starting the kernel, main.c: [setup_fb] and [kmain], over all components
    together.

    The devices behind the ports are one state.  It is the one inside the
    interrupt table inside the timer; a component with a place of its own for
    the devices or the interrupt table gets them before a call and gives them
    back after it.  The byte memory of the logger holds the strings of the
    kernel; the framebuffer is a memory of its own.

    The responses of the boot loader are the record [boot_info].  No interrupt
    arrives while the kernel starts.  [kmain] ends in its main loop, [Spin]; what
    it does before is [kmain_start].  Messages of other components than main.c
    and sysinfo.c are left out. *)
From Stdlib Require Import Strings.String.
From S2P Require Import Prelude Pmm PageAllocator Bytes BlockDevice Vmm Interrupts Sched Input Gdt CString.
From S2P Require Import Ext2 Ext2File Ports Pci Ata AtaSpec Memory Kernel Syscalls Stdio Serial Log SysInfo.

(** The string literals of main.c. *)
Inductive boot_literal : Type :=
| booting | no_framebuffer | framebuffer_line | initializing_gdt | no_map
| initializing_io | enabling_interrupts | kernel_initialized.

Definition boot_text (l : boot_literal) : list Z :=
  chars match l with
  | booting => "KronosOS booting"
  | no_framebuffer => "No framebuffer available"
  | framebuffer_line => "Framebuffer: %dx%d, pitch: %d, bpp: %d"
  | initializing_gdt => "Initializing GDT"
  | no_map => "Memory map information not available"
  | initializing_io => "Initializing I/O Drivers (KB, Mouse)"
  | enabling_interrupts => "Enabling interrupts"
  | kernel_initialized => "Kernel initialized"
  end.

Class BootStrings : Type := { boot_address : boot_literal -> Z }.

Module Boot.
Import Log Serial Kernel.

(** [struct limine_framebuffer], as far as it is used. *)
Record framebuffer_t : Type := Framebuffer {
  fb_address : Z;
  fb_width : Z;
  fb_height : Z;
  fb_pitch : Z;
  fb_bpp : Z;
}.

(** The responses of the boot loader, [None] for a null pointer; [cpuid_edx] is
    what the processor answers to leaf 0x80000001. *)
Record boot_info : Type := BootInfo {
  framebuffers : option (list framebuffer_t);
  memmap : option (list memmap_entry);
  hhdm_response : option Z;
  kernel_address : option (Z * Z);
  bootloader : option (Z * Z);
  cpuid_edx : Z;
}.

Record boot_state (D : Type) : Type := BootState {
  kernel : Kernel.kernel Pmm.pmm_state D (Ata.ata_state D);
  log : log_state D;
  keyboard : Keyboard.keyboard_state D;
  mouse : Mouse.mouse_state D;
  gdt : Gdt.gdt_state;
  screen : CString.mem;
}.
Arguments BootState {D}.
Arguments kernel {D}.
Arguments log {D}.
Arguments keyboard {D}.
Arguments mouse {D}.
Arguments gdt {D}.
Arguments screen {D}.

Section boot.
  Context {D : Type} `{!PortIO D, !PortIO16 D, !PortIO32 D, !LogStrings, !SysinfoStrings, !BootStrings}.
  Context `{!Idt.IdtLayout, !Gdt.GdtLayout, !Mmu, !Sched.ContextSwitch}.
  Local Abbreviation K := (M (boot_state D)).
  Implicit Types b : boot_state D.

Definition set_kernel (x : Kernel.kernel Pmm.pmm_state D (Ata.ata_state D)) b : boot_state D :=
  BootState x (log b) (keyboard b) (mouse b) (gdt b) (screen b).
Definition set_log (x : log_state D) b : boot_state D :=
  BootState (kernel b) x (keyboard b) (mouse b) (gdt b) (screen b).
Definition set_keyboard (x : Keyboard.keyboard_state D) b : boot_state D :=
  BootState (kernel b) (log b) x (mouse b) (gdt b) (screen b).
Definition set_mouse (x : Mouse.mouse_state D) b : boot_state D :=
  BootState (kernel b) (log b) (keyboard b) x (gdt b) (screen b).
Definition set_gdt (x : Gdt.gdt_state) b : boot_state D :=
  BootState (kernel b) (log b) (keyboard b) (mouse b) x (screen b).
Definition set_screen (x : CString.mem) b : boot_state D :=
  BootState (kernel b) (log b) (keyboard b) (mouse b) (gdt b) x.

(** ** The shared parts *)

Definition timer b : Timer.timer_state D := Sched.timer (sched (kernel b)).
Definition set_timer (x : Timer.timer_state D) b : boot_state D :=
  set_kernel (set_sched (Sched.set_timer x (sched (kernel b))) (kernel b)) b.
Definition idt b : Idt.idt_state D := Timer.idt (timer b).
Definition set_idt (x : Idt.idt_state D) b : boot_state D := set_timer (Timer.set_idt x (timer b)) b.
Definition devices b : D := Pic.dev (Idt.pic (idt b)).
Definition set_devices (d : D) b : boot_state D :=
  set_idt (Idt.set_pic (Pic.PicState d (Pic.irq_mask (Idt.pic (idt b)))) (idt b)) b.

Definition log_on (d : D) (l : log_state D) : log_state D :=
  LogState (Machine (memory (io l)) d) (current_log_level l) (log_initialized l).
Definition ata_on (d : D) (a : Ata.ata_state D) : Ata.ata_state D :=
  Ata.AtaState (Ata.detected_drives a) (Ata.drive_count a)
    (Pci.PciState (Pci.pci_devices (Ata.pci a)) (Pci.detected_device_count (Ata.pci a)) d).
Definition set_disk (a : Ata.ata_state D) (f : Ext2.ext2_state Pmm.pmm_state (Ata.ata_state D)) :=
  Ext2.Ext2State (Ext2.fs f) (Ext2.initialized f) (Ext2.mounted f) (Ext2.io_buffer f) (Ext2.pmm f) a.

(** The logger, the drives, the keyboard, the mouse and the report with the
    shared parts put in, and what they leave. *)
Definition get_log b : log_state D := log_on (devices b) (log b).
Definition put_log (l : log_state D) b : boot_state D := set_devices (device (io l)) (set_log l b).
Definition get_ata b : Ata.ata_state D := ata_on (devices b) (Ext2.disk (files (kernel b))).
Definition put_ata (a : Ata.ata_state D) b : boot_state D :=
  set_devices (Pci.dev (Ata.pci a)) (set_kernel (set_files (set_disk a (files (kernel b))) (kernel b)) b).
Definition get_keyboard b : Keyboard.keyboard_state D := Keyboard.set_idt (idt b) (keyboard b).
Definition put_keyboard (x : Keyboard.keyboard_state D) b : boot_state D :=
  set_idt (Keyboard.idt x) (set_keyboard x b).
Definition get_mouse b : Mouse.mouse_state D := Mouse.set_idt (idt b) (mouse b).
Definition put_mouse (x : Mouse.mouse_state D) b : boot_state D := set_idt (Mouse.idt x) (set_mouse x b).
Definition get_sysinfo b : SysInfo.sysinfo_state D := SysInfo.SysinfoState (get_log b) (allocator (kernel b)).
Definition put_sysinfo (x : SysInfo.sysinfo_state D) b : boot_state D :=
  put_log (SysInfo.log x) (set_kernel (set_allocator (SysInfo.pmm x) (kernel b)) b).

Definition run_kernel {X} : M (Kernel.kernel Pmm.pmm_state D (Ata.ata_state D)) X -> K X := mzoom kernel set_kernel.
Definition run_log {X} : M (log_state D) X -> K X := mzoom get_log put_log.
Definition run_pmm {X} : M Pmm.pmm_state X -> K X :=
  mzoom (fun b => allocator (kernel b)) (fun p b => set_kernel (set_allocator p (kernel b)) b).
Definition run_timer {X} : M (Timer.timer_state D) X -> K X := mzoom timer set_timer.
Definition run_idt {X} : M (Idt.idt_state D) X -> K X := mzoom idt set_idt.
Definition run_ata {X} : M (Ata.ata_state D) X -> K X := mzoom get_ata put_ata.
Definition run_keyboard {X} : M (Keyboard.keyboard_state D) X -> K X := mzoom get_keyboard put_keyboard.
Definition run_mouse {X} : M (Mouse.mouse_state D) X -> K X := mzoom get_mouse put_mouse.
Definition run_gdt {X} : M Gdt.gdt_state X -> K X := mzoom gdt set_gdt.
Definition run_screen {X} : M CString.mem X -> K X := mzoom screen set_screen.
Definition run_sysinfo {X} : M (SysInfo.sysinfo_state D) X -> K X := mzoom get_sysinfo put_sysinfo.

(** ** main.c *)

Definition LOG_MSG (fuel : nat) (level : Z) (l : boot_literal) : K unit :=
  run_log (log_message fuel level (boot_address l)).

Definition setup_fb (fuel : nat) (info : boot_info) : K unit :=
  match framebuffers info with
  | Some (fb :: _) =>
      run_log (log_printf fuel LOG_LEVEL_INFO (boot_address framebuffer_line)
        [fb_width fb; fb_height fb; fb_pitch fb; fb_bpp fb]);;
      _ ← run_screen (CString.memset (fb_address fb) 0 (Z.to_nat (u64 (fb_pitch fb * fb_height fb))));
      mret tt
  | _ => LOG_MSG fuel LOG_LEVEL_CRITICAL no_framebuffer;; mhalt
  end.

(** [vmm_init] of memory/vmm.c, with the handler it registers in the interrupt
    table. *)
Definition vmm_init (info : boot_info) : K unit :=
  run_kernel (run_mem (Vmm.vmm_init (hhdm_response info) (kernel_address info) (cpuid_edx info)));;
  run_idt (Idt.idt_register_handler 14 Idt.page_fault_handler).

Definition interrupt_enable : K unit :=
  run_kernel (run_sched (mmodify (Sched.set_interrupts true))).

(** [kmain] up to its main loop.  [syscall_entry] is the address of the entry
    point of the system calls. *)
Definition kmain_start (fuel : nat) (syscall_entry : Z) (info : boot_info) : K unit :=
  _ ← run_log (log_init fuel LOG_LEVEL_DEBUG);
  LOG_MSG fuel LOG_LEVEL_INFO booting;;
  setup_fb fuel info;;
  LOG_MSG fuel LOG_LEVEL_INFO initializing_gdt;;
  run_gdt Gdt.gdt_init;;
  run_idt Idt.idt_init;;
  match memmap info with
  | None => LOG_MSG fuel LOG_LEVEL_CRITICAL no_map;; mhalt
  | Some entries =>
      run_pmm (Pmm.pmm_init (Some entries));;
      vmm_init info;;
      run_timer (Timer.timer_init 100);;
      LOG_MSG fuel LOG_LEVEL_INFO initializing_io;;
      run_keyboard Keyboard.keyboard_init;;
      run_mouse (Mouse.mouse_init fuel);;
      LOG_MSG fuel LOG_LEVEL_INFO enabling_interrupts;;
      interrupt_enable;;
      run_ata Ata.ata_init;;
      _ ← run_kernel (run_files Ext2File.ext2_init);
      run_kernel (Syscalls.syscalls_init syscall_entry);;
      _ ← run_kernel (run_sched Sched.scheduler_init);
      LOG_MSG fuel LOG_LEVEL_INFO kernel_initialized;;
      run_sysinfo (SysInfo.sysinfo_print fuel (bootloader info) (kernel_address info) (memmap info))
  end.

Definition kmain (fuel : nat) (syscall_entry : Z) (info : boot_info) : K unit :=
  kmain_start fuel syscall_entry info;; mspin.
End boot.
End Boot.
