(* ===== verification/BootSpec.v ===== *)
(** Starting the kernel: the stages of [kmain] (main.c) one by one - that each
    returns, what it leaves, and that the bytes waiting at the mouse stay as they
    are until the mouse is initialised -, and that [kmain] reaches its main loop in
    the state the theorems about tasks, system calls and files begin with. *)
From Stdlib Require Import Strings.String.
From S2P Require Import Prelude Wp Pmm PmmSpec PmmInit PageAllocator Bytes BlockDevice Vmm Interrupts InterruptsSpec Sched.
From S2P Require Import Input InputSpec Gdt CString CStringSpec Ext2 Ext2File Ports Pci Ata AtaSpec AtaInit Memory Kernel.
From S2P Require Import Syscalls SyscallBoot Stdio StdioSpec Serial Log LogSpec SysInfo Boot.
From S2P Require Import InputExamples InterruptsExamples VmmExamples SchedExamples.
Import Kernel Syscalls Boot Stdio Log Serial.

(** ** Code that leaves something alone *)

Definition spares {S T X} (f : S -> T) (m : M S X) : Prop := forall s, f (snd (m s)) = f s.

Section spares.
  Context {S T : Type} (f : S -> T).

Lemma spares_bind {X Y} (m : M S X) (k : X -> M S Y) : spares f m -> (forall x, spares f (k x)) -> spares f (m ≫= k).
Proof.
  intros Hm Hk s. specialize (Hm s). unfold mbind, m_bind. destruct (m s) as [[x| | | |] s']; cbn [snd] in *; try done.
  by rewrite Hk.
Qed.

Lemma spares_zoom {S' X} (get : S' -> S) (set : S -> S' -> S') (f' : S' -> T) (m : M S X) :
  (forall t s, f' (set t s) = f t) -> (forall s, f (get s) = f' s) -> spares f m -> spares f' (mzoom get set m).
Proof.
  intros Hset Hget Hm s. specialize (Hm (get s)). unfold mzoom. destruct (m (get s)) as [r t]. cbn in *.
  by rewrite Hset, Hm.
Qed.
End spares.

(** One rule for the command in the goal. *)
Ltac keep :=
  repeat first
    [ assumption
    | match goal with
      | |- spares _ (mbind _ _) => apply spares_bind; [|intros ?]
      | |- spares _ (match ?x with _ => _ end) => destruct x
      | |- spares _ (let '(_, _) := ?x in _) => destruct x
      end
    | progress cbv zeta
    | solve [intros ?; done] ].

(** The mouse of [Ps2Mouse] hears only its own two ports. *)
Class MouseAlone (D : Type) `{!PortIO D, !Ps2Mouse D} : Prop := {
  other_in p d : p <> 0x60 -> p <> 0x64 -> pending (snd (port_in p d)) = pending d;
  other_out p v d : p <> 0x60 -> p <> 0x64 -> pending (port_out p v d) = pending d;
}.

Section quiet.
  Context {D : Type} `{!PortIO D, !Ps2Mouse D, !MouseAlone D}.

(** ** The interrupt controllers *)

Definition waiting_at (p : Pic.pic_state D) : list Z := pending (Pic.dev p).

(** Code of the controllers that returns and leaves the mouse alone. *)
Definition calm {X} (m : M (Pic.pic_state D) X) : Prop := returns m /\ spares waiting_at m.

Lemma calm_bind {X Y} (m : M (Pic.pic_state D) X) (k : X -> M (Pic.pic_state D) Y) :
  calm m -> (forall x, calm (k x)) -> calm (m ≫= k).
Proof using Type.
  intros [Hm Km] Hk. split; [apply returns_bind; [done|intros x; apply Hk]|apply spares_bind; [done|intros x; apply Hk]].
Qed.

Lemma calm_inb p : p <> 0x60 -> p <> 0x64 -> calm (Pic.inb p).
Proof using Type*.
  intros H1 H2. split; intros s; unfold Pic.inb.
  - destruct (port_in p (Pic.dev s)) as [v d]. by eexists _, _.
  - pose proof (other_in p (Pic.dev s) H1 H2) as H3. destruct (port_in p (Pic.dev s)) as [v d]. exact H3.
Qed.

Lemma calm_outb p v : p <> 0x60 -> p <> 0x64 -> calm (Pic.outb p v).
Proof using Type*. intros H1 H2. split; intros s; [by eexists _, _|]. by apply other_out. Qed.

Lemma calm_mask (f : Pic.pic_state D -> Z) : calm (mmodify (fun s => Pic.PicState (Pic.dev s) (f s))).
Proof using Type. split; intros s; [by eexists _, _|done]. Qed.

Ltac calm_ports :=
  repeat first [apply calm_bind; [|intros ?] | apply calm_inb; [done..|] | apply calm_inb | apply calm_outb | apply calm_mask];
  try (repeat case_match; done).

Lemma calm_unmask irq : calm (Pic.pic_unmask_irq irq : M (Pic.pic_state D) unit).
Proof using Type*. unfold Pic.pic_unmask_irq. cbv zeta. calm_ports. Qed.

Lemma calm_init : calm (Pic.pic_init : M (Pic.pic_state D) unit).
Proof using Type*. unfold Pic.pic_init, Pic.pic_mask_irq, Pic.set_mask. calm_ports. Qed.

(** ** The logger *)

Definition waiting_log (s : log_state D) : list Z := pending (device (io s)).

Lemma spares_inb p : 0 <= p < 2 ^ 16 -> p <> 0x60 -> p <> 0x64 -> spares pending (Serial.inb p : M D Z).
Proof using Type*.
  intros Hr H1 H2 d. unfold Serial.inb, Ports.inb, mlift. rewrite wrap_small by done.
  pose proof (other_in p d H1 H2) as H3. destruct (port_in p d) as [v d']. exact H3.
Qed.

Lemma spares_outb p v : 0 <= p < 2 ^ 16 -> p <> 0x60 -> p <> 0x64 -> spares pending (Serial.outb p v : M D unit).
Proof using Type*. intros Hr H1 H2 d. unfold Serial.outb, Ports.outb. rewrite wrap_small by done. by apply other_out. Qed.

Lemma spares_serial_init baud : spares pending (serial_init SERIAL_COM1 baud : M D bool).
Proof using Type*.
  unfold serial_init. keep; first [apply spares_outb | apply spares_inb]; try done.
Qed.

Lemma spares_write_byte fuel c : spares pending (serial_write_byte fuel SERIAL_COM1 c : M D unit).
Proof using Type*.
  assert (Hw : spares pending (wait_for fuel (serial_is_transmit_ready SERIAL_COM1) : M D unit)).
  { induction fuel as [|fuel IH]; cbn [wait_for]; unfold serial_is_transmit_ready; keep; by apply spares_inb. }
  unfold serial_write_byte. keep. by apply spares_outb.
Qed.

Lemma spares_log_dev {X} (m : M D X) : spares pending m -> spares waiting_log (run_io (run_dev m)).
Proof using Type. intros Hm. apply (spares_zoom (fun x => pending (device x))); [done..|]. by apply (spares_zoom pending). Qed.

Lemma spares_log_mem {X} (m : M CString.mem X) : spares waiting_log (run_io (D := D) (run_mem m)).
Proof using Type.
  intros s. unfold run_io, run_mem, mzoom. by destruct (m (memory (io s))).
Qed.

Lemma spares_write_string fuel p : spares waiting_log (run_io (D := D) (serial_write_string fuel SERIAL_COM1 p)).
Proof using Type*.
  apply (spares_zoom (fun x => pending (device x))); [done..|]. unfold serial_write_string. destruct (p =? NULL); [by intros ?|].
  assert (Hm : spares (fun x : machine D => pending (device x)) (run_mem (CString.rd p))) by (intros s; done).
  revert p Hm. induction fuel as [|fuel IH]; intros p Hm; cbn [write_chars]; keep.
  - apply (spares_zoom pending); [done..|apply spares_write_byte].
  - apply IH. by intros s.
Qed.

Context `{!LogStrings}.

Lemma spares_printf_serial fuel fmt args : spares waiting_log (printf_serial (D := D) fuel fmt args).
Proof using Type*. unfold printf_serial. keep; [apply spares_log_mem|apply spares_write_string]. Qed.

Lemma spares_log_message fuel level msg : spares waiting_log (log_message (D := D) fuel level msg).
Proof using Type*. unfold log_message. keep. apply spares_printf_serial. Qed.

Lemma spares_log_printf fuel level fmt args : spares waiting_log (log_printf (D := D) fuel level fmt args).
Proof using Type*.
  unfold log_printf. keep; first [apply spares_printf_serial | apply spares_log_mem | apply spares_write_string |
    apply spares_log_dev, spares_write_byte].
Qed.

Lemma spares_log_init fuel level : spares waiting_log (log_init (D := D) fuel level).
Proof using Type*.
  unfold log_init. keep; first [apply spares_log_dev, spares_serial_init | apply spares_log_message].
Qed.
End quiet.

(** ** Messages while the kernel starts *)

Section messages.
  Context {D : Type} `{!PortIO D, !LogStrings, !SysinfoStrings, !BootStrings} (delay : nat) `{!Uart D SERIAL_COM1 delay}.

(** The strings [kmain] logs are in memory, away from the first [n] bytes of the
    log buffer. *)
Record main_ready (n : Z) (K : nat) (m : CString.mem) : Prop := {
  br_sysinfo : strings_ready n K m;
  br_address l : boot_address l <> NULL;
  br_text l : outside_string (in_buffer n) K m (boot_address l) (boot_text l);
  br_first : first_message <> NULL;
  br_first_text : outside_string (in_buffer n) K m first_message (chars "Logging system initialized");
  br_critical : log_level_names LOG_LEVEL_CRITICAL <> NULL;
  br_critical_text : outside_string (in_buffer n) K m (log_level_names LOG_LEVEL_CRITICAL) (chars "CRITICAL");
}.

Context (n : Z) (K fuel : nat) (m0 : CString.mem).
Hypothesis Hready : main_ready n K m0.
Hypothesis Hfuel : (2 * K + Z.to_nat n + 64 + delay < fuel)%nat.

(** The logger takes every message from level INFO on and has written to its buffer only; it may
    be off. *)
Definition good_log (l : log_state D) : Prop :=
  current_log_level l <= LOG_LEVEL_INFO /\ forall a, ~ in_buffer n a -> memory (io l) a = m0 a.

Lemma good_outside l q w : good_log l -> outside_string (in_buffer n) K m0 q w ->
  outside_string (in_buffer n) K (memory (io l)) q w.
Proof using Type. intros [_ Hm]. by apply outside_ext. Qed.

Lemma good_cstr l q w : good_log l -> CStringSpec.cstr m0 q w -> (forall a, q <= a <= q + len w -> ~ in_buffer n a) ->
  CStringSpec.cstr (memory (io l)) q w.
Proof using Type. intros [_ Hm] Hw Hout. eapply cstr_ext; [|exact Hw]. intros a Ha. by apply Hm, Hout. Qed.

(** The levels [kmain] uses. *)
Lemma level_name level : level = LOG_LEVEL_INFO \/ level = LOG_LEVEL_CRITICAL ->
  exists name, LOG_LEVEL_INFO <= level /\ log_level_names level <> NULL /\ (length name <= 8)%nat /\
    outside_string (in_buffer n) K m0 (log_level_names level) name.
Proof using Type*.
  intros [->| ->].
  - exists (chars "INFO"). split_and!; [by vm_compute|apply (br_sysinfo _ _ _ Hready)|cbn; lia|apply (br_sysinfo _ _ _ Hready)].
  - exists (chars "CRITICAL"). split_and!; [by vm_compute|apply Hready|cbn; lia|apply Hready].
Qed.

Lemma run_message level msg w l : level = LOG_LEVEL_INFO \/ level = LOG_LEVEL_CRITICAL ->
  msg <> NULL -> outside_string (in_buffer n) K m0 msg w -> good_log l ->
  exists l', log_message fuel level msg l = (Ret tt, l') /\ good_log l' /\ log_initialized l' = log_initialized l.
Proof using Type*.
  intros Hlevel Hmsg Hw Hl. destruct (log_initialized l) eqn:Hi.
  2:{ exists l. split_and!; [|done|done]. unfold log_message. mstep. by rewrite Hi. }
  destruct (level_name level Hlevel) as (name & Hlow & Hn0 & Hname8 & Hname).
  destruct (br_sysinfo _ _ _ Hready) as [Hb Hn _ _ Hmf Hmp _ _ _ _].
  pose proof (proj1 (proj2 Hw)) as HwK.
  assert (Hline : length (bracketed name ++ w ++ [13; 10]) = (length name + length w + 5)%nat).
  { unfold bracketed. rewrite !length_app. cbn. lia. }
  destruct (run_log_message delay K fuel n level msg name w l)
    as (l' & R & _ & Hm' & Hlev' & Hi'); [done| |done| | |done|done| |done| | |].
  - destruct Hl as [Hlev _]. lia.
  - rewrite Hline. lia.
  - by apply good_cstr.
  - by apply good_outside.
  - by apply good_outside.
  - rewrite Hline. lia.
  - exists l'. split_and!; [exact R| |done]. destruct Hl as [Hlev Hm]. split; [by rewrite Hlev'|].
    intros a Ha. rewrite Hm' by done. by apply Hm.
Qed.

Lemma run_formatted fmt f args t k l : CStringSpec.cstr m0 fmt f -> (length f <= 40)%nat ->
  (forall a, fmt <= a <= fmt + len f -> ~ in_buffer n a) -> text_of (in_buffer n) K m0 f args t k -> k <= n -> good_log l ->
  exists l', log_printf fuel LOG_LEVEL_INFO fmt args l = (Ret tt, l') /\ good_log l' /\ log_initialized l' = log_initialized l.
Proof using Type*.
  intros Hf Hlen Hplace (Hsh & Ht & Hk) Hkn Hl. destruct (log_initialized l) eqn:Hi.
  2:{ exists l. split_and!; [|done|done]. unfold log_printf. mstep. by rewrite Hi. }
  destruct (br_sysinfo _ _ _ Hready) as [Hb Hn Hlf Hlp _ _ Hn0 Hnt _ _].
  destruct (run_log_printf delay K fuel n LOG_LEVEL_INFO fmt f args t (chars "INFO") l)
    as (l' & R & _ & Hm' & Hlev' & Hi'); [done| |done| | |].
  - apply Hl.
  - split_and!; [cbn; lia|lia|by apply good_cstr|done|done|by apply good_outside|by apply good_cstr|done| |done].
    apply (shows_ext _ _ m0); [|done]. apply Hl.
  - change (length (chars "INFO")) with 4%nat. lia.
  - exists l'. split_and!; [exact R| |done]. destruct Hl as [Hlev Hm]. split; [by rewrite Hlev'|].
    intros a Ha. rewrite Hm' by done. by apply Hm.
Qed.

Lemma returns_in p : returns (Serial.inb p : M D Z).
Proof using Type.
  intros d. unfold Serial.inb, Ports.inb, mlift. destruct (port_in (u16 p) d) as [v d']. by eexists _, _.
Qed.

Lemma run_log_start l : (forall a, ~ in_buffer n a -> memory (io l) a = m0 a) ->
  exists ok l', log_init fuel LOG_LEVEL_DEBUG l = (Ret ok, l') /\ good_log l'.
Proof using Type*.
  intros Hm. unfold log_init. mstep. set (l1 := LogState _ _ _).
  assert (Hs : exists ok d, serial_init LOG_SERIAL_PORT SERIAL_BAUD_115200 (device (io l1)) = (Ret ok, d)).
  { generalize (device (io l1)). fold (returns (serial_init LOG_SERIAL_PORT SERIAL_BAUD_115200 : M D bool)). unfold serial_init.
    repeat (apply returns_bind; [first [apply returns_modify | apply returns_in]|intros ?]).
    case_match; [apply returns_ret|]. apply returns_bind; [apply returns_modify|intros ?; apply returns_ret]. }
  destruct Hs as (ok & d & Hs). set (l2 := with_io (Machine (memory (io l1)) d) l1).
  assert (R : run_io (run_dev (serial_init LOG_SERIAL_PORT SERIAL_BAUD_115200)) l1 = (Ret ok, l2)).
  { apply zoom_io. by apply (run_zoom device (fun d x => Machine (memory x) d)). }
  mstep R. exists ok. destruct ok.
  - destruct (run_message LOG_LEVEL_INFO first_message (chars "Logging system initialized")
      (LogState (io l2) (current_log_level l2) true)) as (l' & R' & Hl' & _); [by left|apply Hready|apply Hready|done|].
    exists l'. split; [|done]. erewrite run_bind; [|mstep; exact R']. done.
  - exists l2. done.
Qed.
End messages.

(** ** Stages *)

Section stages.
  Context {D : Type} `{!PortIO D, !PortIO16 D, !PortIO32 D, !LogStrings, !SysinfoStrings, !BootStrings}.
  Context `{!Idt.IdtLayout, !Gdt.GdtLayout, !Mmu, !Sched.ContextSwitch}.
  Context `{!Ps2Mouse D, !MouseAlone D} (delay : nat) `{!Uart D SERIAL_COM1 delay}.
  Context (n : Z) (K fuel : nat) (m0 : CString.mem).
  Hypothesis Hready : main_ready n K m0.
  Hypothesis Hfuel : (2 * K + Z.to_nat n + 64 + delay < fuel)%nat.
  Implicit Types b : boot_state D.
  Local Abbreviation kern := (Kernel.kernel Pmm.pmm_state D (Ata.ata_state D)).
  Implicit Types k : kern.

Definition with_timer (t : Timer.timer_state D) k : kern := set_sched (Sched.set_timer t (sched k)) k.

(** What code that logs or talks to a device leaves: the kernel but for its
    timer, the descriptors, the interrupt table but for the controllers. *)
Record same b b' : Prop := {
  same_kernel : exists t, kernel b' = with_timer t (kernel b);
  same_gdt : gdt b' = gdt b;
  same_table p : Idt.set_pic p (idt b') = Idt.set_pic p (idt b);
  same_log : good_log n m0 (log b) -> good_log n m0 (log b');
}.

Lemma same_trans b1 b2 b3 : same b1 b2 -> same b2 b3 -> same b1 b3.
Proof using Type.
  intros [(t1 & K1) G1 T1 L1] [(t2 & K2) G2 T2 L2]. split; [|congruence| |auto].
  - exists t2. by rewrite K2, K1.
  - intros p. by rewrite T2, T1.
Qed.

Definition waiting b : list Z := pending (devices b).

Lemma same_put_log l b : (good_log n m0 (log b) -> good_log n m0 l) -> same b (put_log l b).
Proof using Type. intros Hl. split; [by eexists|done|done|]. exact Hl. Qed.

Lemma same_set_devices_pic p b : same b (set_idt (Idt.set_pic p (idt b)) b).
Proof using Type. split; [by eexists|done|done|done]. Qed.

(** A call of the logger. *)
Lemma wp_log {X} (m : M (log_state D) X) b :
  good_log n m0 (log b) ->
  (forall l, good_log n m0 l -> exists a l', m l = (Ret a, l') /\ good_log n m0 l') -> spares waiting_log m ->
  wp (run_log m) b (fun _ b' => same b b' /\ waiting b' = waiting b).
Proof using Type.
  intros Hl Hm Hk. apply wp_run. destruct (Hm (get_log b) Hl) as (a & l' & R & Hl').
  exists a, (put_log l' b). split; [by apply run_zoom|]. split; [by apply same_put_log|].
  specialize (Hk (get_log b)). rewrite R in Hk. exact Hk.
Qed.

Lemma wp_message level l b : level = LOG_LEVEL_INFO \/ level = LOG_LEVEL_CRITICAL -> good_log n m0 (log b) ->
  wp (LOG_MSG fuel level l) b (fun _ b' => same b b' /\ waiting b' = waiting b).
Proof using Type*.
  intros Hlevel Hl. apply wp_log; [done| |apply spares_log_message]. intros lg Hlg.
  destruct (run_message delay n K fuel m0 Hready Hfuel level (boot_address l) (boot_text l) lg Hlevel)
    as (l' & R & Hl' & _); [apply Hready|apply Hready|done|]. by exists tt, l'.
Qed.

(** The first line of the framebuffer. *)
Definition fb_ok (fb : framebuffer_t) : Prop :=
  0 <= fb_width fb < 2 ^ 31 /\ 0 <= fb_height fb < 2 ^ 31 /\ 0 <= fb_pitch fb < 2 ^ 31 /\ 0 <= fb_bpp fb < 2 ^ 31.

Lemma framebuffer_text fb : fb_ok fb -> exists t j,
  text_of (in_buffer n) K m0 (boot_text framebuffer_line) [fb_width fb; fb_height fb; fb_pitch fb; fb_bpp fb] t j /\ j <= 70.
Proof using Type.
  intros (Hw & Hh & Hp & Hb).
  change (boot_text framebuffer_line) with (chars "Framebuffer: " ++ PERCENT :: CHAR_d ::
    (chars "x" ++ PERCENT :: CHAR_d :: (chars ", pitch: " ++ PERCENT :: CHAR_d :: (chars ", bpp: " ++ [PERCENT; CHAR_d])))).
  do 2 eexists. split.
  - apply text_plain; [apply (bool_decide_unpack _); by vm_compute|]. apply text_decimal; [done|].
    apply text_plain; [apply (bool_decide_unpack _); by vm_compute|]. apply text_decimal; [done|].
    apply text_plain; [apply (bool_decide_unpack _); by vm_compute|]. apply text_decimal; [done|].
    apply text_plain; [apply (bool_decide_unpack _); by vm_compute|]. apply text_decimal; [done|]. apply text_nil.
  - by vm_compute.
Qed.

Lemma run_memset_screen s c j (m : CString.mem) : exists m', CString.memset s c j m = (Ret s, m').
Proof using Type.
  destruct (run_for_inv (fun _ _ => True) j 0 (fun i => CString.wr (s + i) (u8 c)) m I) as (m' & R & _).
  - intros i m1 _ _. by eexists.
  - exists m'. unfold CString.memset. by mstep R.
Qed.

Lemma wp_setup_fb info fb l b : framebuffers info = Some (fb :: l) -> fb_ok fb -> good_log n m0 (log b) ->
  wp (setup_fb fuel info) b (fun _ b' => same b b' /\ waiting b' = waiting b).
Proof using Type*.
  intros Hi Hfb Hl. unfold setup_fb. rewrite Hi. apply wp_bind. eapply wp_mono.
  - apply wp_log; [done| |apply spares_log_printf]. intros lg Hlg. destruct (framebuffer_text fb Hfb) as (t & j & Ht & Hk).
    destruct (br_text _ _ _ Hready framebuffer_line) as (Hs & HK & Hplace).
    pose proof (ready_size _ _ _ (br_sysinfo _ _ _ Hready)).
    change (length (boot_text framebuffer_line)) with 38%nat in HK.
    destruct (run_formatted delay n K fuel m0 Hready Hfuel _ _ _ _ j lg Hs ltac:(cbn; lia) Hplace Ht ltac:(lia) Hlg)
      as (l' & R & Hl' & _).
    by exists tt, l'.
  - intros _ b1 [Hsame Hw]. apply wp_bind. apply wp_run.
    destruct (run_memset_screen (fb_address fb) 0 (Z.to_nat (u64 (fb_pitch fb * fb_height fb))) (screen b1)) as (m' & R).
    eexists _, (set_screen m' b1). split; [by apply run_zoom|]. apply wp_ret. split; [|done].
    eapply same_trans; [exact Hsame|]. split; [|done..]. exists (timer b1). by destruct b1 as [[[] ? ? ?] ? ? ? ? ?].
Qed.

(** ** Interrupt handlers *)

Lemma wp_zoom {S T X} (get : S -> T) (set : T -> S -> S) (m : M T X) s (Q : X -> S -> Prop) :
  wp m (get s) (fun x t => Q x (set t s)) -> wp (mzoom get set m) s Q.
Proof using Type. unfold wp, mzoom. by destruct (m (get s)) as [[] t]. Qed.

Lemma wp_calm {X} (m : M (Pic.pic_state D) X) p : calm m -> wp m p (fun _ p' => waiting_at p' = waiting_at p).
Proof using Type.
  intros [Hm Hk]. destruct (Hm p) as (x & p' & R). apply wp_run. exists x, p'. split; [done|].
  specialize (Hk p). by rewrite R in Hk.
Qed.

Definition with_handler (v : Z) (x : Idt.handler) (i : Idt.idt_state D) : Idt.idt_state D :=
  Idt.set_handlers (array_set (Idt.interrupt_handlers i) v (Some x)) i.

Lemma wp_register v x i Q : v < 256 -> Q tt (with_handler v x i) -> wp (Idt.idt_register_handler v x) i Q.
Proof using Type.
  intros Hv HQ. unfold Idt.idt_register_handler. by replace (v <? Idt.IDT_ENTRIES) with true by (symmetry; by apply Z.ltb_lt).
Qed.

Lemma wp_unmask irq (i : Idt.idt_state D) Q :
  (forall p, waiting_at p = waiting_at (Idt.pic i) -> Q tt (Idt.set_pic p i)) -> wp (Idt.run_pic (Pic.pic_unmask_irq irq)) i Q.
Proof using Type*.
  intros HQ. apply wp_zoom. eapply wp_mono; [apply wp_calm, calm_unmask|]. intros [] p. apply HQ.
Qed.

Lemma wp_port q v (t : Timer.timer_state D) Q : q <> 0x60 -> q <> 0x64 ->
  (forall p, waiting_at p = waiting_at (Idt.pic (Timer.idt t)) -> Q tt (Timer.set_idt (Idt.set_pic p (Timer.idt t)) t)) ->
  wp (Timer.outb q v) t Q.
Proof using Type*.
  intros Hq1 Hq2 HQ. unfold Timer.outb. do 2 apply wp_zoom. eapply wp_mono; [apply wp_calm; by apply calm_outb|].
  intros [] p. apply HQ.
Qed.

(** The timer's table with its handler, and some state of the controllers. *)
Lemma wp_timer_init f (s : Timer.timer_state D) :
  wp (Timer.timer_init f) s (fun _ s' => exists p,
    s' = Timer.set_idt (Idt.set_pic p (with_handler Timer.IRQ_TIMER Idt.timer_interrupt_handler (Timer.idt s))) s /\
    waiting_at p = waiting_at (Idt.pic (Timer.idt s))).
Proof using Type*.
  unfold Timer.timer_init, Timer.timer_set_frequency. cbv zeta.
  apply wp_bind, wp_bind, wp_port; [done..|]. intros p1 Hp1. apply wp_bind, wp_port; [done..|]. intros p2 Hp2.
  apply wp_port; [done..|]. intros p3 Hp3. apply wp_bind, wp_zoom, wp_register; [done|].
  apply wp_zoom, wp_unmask. intros p Hp. exists p. split; [done|]. cbn in *. congruence.
Qed.

(** ** The state while the kernel starts *)

(** [h] are the registered handlers; [F] is what holds of the kernel. *)
Record started (h : list (option Idt.handler)) (F : kern -> Prop) b : Prop := {
  st_gdt : gdt b = Gdt.GdtState Gdt.installed_entries (Gdt.GdtPtr Gdt.gdt_limit Gdt.gdt_address) Gdt.installed_entries
    (Gdt.GdtPtr Gdt.gdt_limit Gdt.gdt_address) (Gdt.TssEntry 0 Gdt.sizeof_tss) (Gdt.GdtPtr Gdt.gdt_limit Gdt.gdt_address) 0x28;
  st_idt : idt_installed (idt b);
  st_handlers : Idt.interrupt_handlers (idt b) = h;
  st_log : good_log n m0 (log b);
  st_kernel : F (kernel b);
}.

(** [F] does not look at the timer. *)
Definition steady (F : kern -> Prop) : Prop := forall t k, F k -> F (with_timer t k).

Lemma installed_set_pic p (i : Idt.idt_state D) : idt_installed i -> idt_installed (Idt.set_pic p i).
Proof using Type. intros []. by constructor. Qed.

Lemma installed_handler v x (i : Idt.idt_state D) : idt_installed i -> idt_installed (with_handler v x i).
Proof using Type. intros []. by constructor. Qed.

Lemma started_same h F b b' : steady F -> started h F b -> same b b' -> started h F b'.
Proof using Type.
  intros HF [Hg Hi Hh Hl Hk] [(t & Ek) Eg Et El].
  pose proof (Et (Idt.pic (idt b'))) as E. replace (Idt.set_pic (Idt.pic (idt b')) (idt b')) with (idt b') in E
    by (by destruct (idt b')).
  split; [congruence| | |auto|].
  - rewrite E. by apply installed_set_pic.
  - rewrite E. exact Hh.
  - rewrite Ek. by apply HF.
Qed.

(** A handler is registered and the controllers are told. *)
Lemma started_handler h F v x p b : steady F -> started h F b ->
  started (array_set h v (Some x)) F (set_idt (Idt.set_pic p (with_handler v x (idt b))) b).
Proof using Type.
  intros HF [Hg Hi Hh Hl Hk]. split; [done| | |done|].
  - change (idt (set_idt ?i b)) with i. by apply installed_set_pic, installed_handler.
  - by rewrite <- Hh.
  - by apply (HF (Timer.set_idt _ (timer b))).
Qed.

Lemma wp_start_timer h F f b : steady F -> started h F b ->
  wp (run_timer (Timer.timer_init f)) b (fun _ b' =>
    started (array_set h Timer.IRQ_TIMER (Some Idt.timer_interrupt_handler)) F b' /\ waiting b' = waiting b).
Proof using Type*.
  intros HF Hb. apply wp_zoom. eapply wp_mono; [apply wp_timer_init|]. intros _ s' (p & -> & Hp).
  split; [by apply (started_handler h F)|exact Hp].
Qed.

Lemma wp_start_keyboard h F b : steady F -> started h F b ->
  wp (run_keyboard Keyboard.keyboard_init) b (fun _ b' =>
    started (array_set h Keyboard.IRQ_KEYBOARD (Some Idt.keyboard_interrupt_handler)) F b' /\ waiting b' = waiting b).
Proof using Type*.
  intros HF Hb. apply wp_zoom. unfold Keyboard.keyboard_init. apply wp_bind, wp_zoom, wp_register; [done|].
  apply wp_zoom, wp_unmask. intros p Hp. split; [|exact Hp].
  pose proof (started_handler h F Keyboard.IRQ_KEYBOARD Idt.keyboard_interrupt_handler p b HF Hb) as [Hg Hi Hh Hl Hk].
  by split.
Qed.

Lemma wp_start_mouse F h b : steady F -> started h F b -> waiting b = [] ->
  wp (run_mouse (Mouse.mouse_init fuel)) b (fun _ b' => started h F b').
Proof using Type.
  intros HF Hb Hw. apply wp_zoom. destruct (mouse_init_gives_up fuel (get_mouse b) Hw) as (d & R & _ & _).
  unfold wp. rewrite R. apply (started_same _ _ b); [done..|]. split; [by eexists|done|done|done].
Qed.

(** ** The descriptor tables *)

Lemma spares_idt_init : spares (fun i : Idt.idt_state D => waiting_at (Idt.pic i)) Idt.idt_init.
Proof using Type*.
  unfold Idt.idt_init, Idt.idt_initialize_gates, Idt.idt_save_backup, Idt.idt_load, Idt.run_pic. keep.
  by apply (spares_zoom waiting_at); [..|apply calm_init].
Qed.

Lemma wp_tables F b : (forall v, 0 <= v < 48 -> 0 <= Idt.stub_address v < 2 ^ 64) -> length (Gdt.gdt (gdt b)) = 7%nat ->
  steady F -> F (kernel b) -> good_log n m0 (log b) ->
  wp (run_gdt Gdt.gdt_init;; run_idt Idt.idt_init) b (fun _ b' =>
    started (Idt.interrupt_handlers (idt b)) F b' /\ waiting b' = waiting b).
Proof using Type*.
  intros Hstub Hlen HF Hk Hl. apply wp_bind, wp_zoom. unfold wp at 1. rewrite Gdt.run_gdt_init by done.
  apply wp_zoom. set (b1 := set_gdt _ b).
  destruct (idt_init_correct (idt b1) Hstub) as (i' & R & Hi & _ & Hh & _).
  pose proof (spares_idt_init (idt b1)) as Hw. rewrite R in Hw. unfold wp. rewrite R. split; [|exact Hw].
  split; [done|done|done|done|]. by apply (HF (Timer.set_idt i' (timer b1))).
Qed.

(** ** The kernel's parts *)

(** Code of the kernel that leaves the timer alone. *)
Lemma wp_kernel {X} (m : M kern X) h (F G : kern -> Prop) b : started h F b ->
  wp m (kernel b) (fun _ k => G k /\ Sched.timer (sched k) = Sched.timer (sched (kernel b))) ->
  wp (run_kernel m) b (fun _ b' => started h G b' /\ waiting b' = waiting b).
Proof using Type.
  intros [Hg Hi Hh Hl Hk] Hm. apply wp_zoom. eapply wp_mono; [exact Hm|]. intros _ k (HG & Ht).
  assert (E : idt (set_kernel k b) = idt b) by (unfold idt, timer; cbn; by rewrite Ht).
  split; [|by unfold waiting, devices; rewrite E]. split; [done|by rewrite E|by rewrite E|done|done].
Qed.

(** What holds of the kernel after each step, one added to the other. *)
Definition nothing_mounted k : Prop := Ext2.mounted (files k) = false /\ ext2_fs k = Ext2File.zero_fs.
Definition memory_managed k : Prop := nothing_mounted k /\ pmm_inv (allocator k).
Definition interrupts_enabled k : Prop := memory_managed k /\ Sched.interrupts_on (sched k) = true.
Definition files_initialised k : Prop := interrupts_enabled k /\ Ext2.inodes_per_group (Ext2.fs (files k)) = 0.
Definition calls_enabled (entry : Z) k : Prop :=
  files_initialised k /\ msrs k !! IA32_LSTAR = Some entry /\
  exists efer, msrs k !! IA32_EFER = Some efer /\ Z.testbit efer 0 = true.
Definition idle_running (entry : Z) k : Prop :=
  calls_enabled entry k /\ Sched.current_task (sched k) = Some 0 /\ Sched.idle_task (sched k) = Some 0 /\
  Sched.task_lock (sched k) = 0 /\
  Sched.context (Sched.the_task (sched k) 0) !! Sched.CONTEXT_CR3 = Some (Vmm.current_pml4_phys (Sched.vm (sched k))).

Lemma steady_mounted : steady nothing_mounted.
Proof using Type. by intros t k. Qed.
Lemma steady_memory : steady memory_managed.
Proof using Type. by intros t k. Qed.
Lemma steady_interrupts : steady interrupts_enabled.
Proof using Type. by intros t k. Qed.
Lemma steady_files : steady files_initialised.
Proof using Type. by intros t k. Qed.
Lemma steady_calls entry : steady (calls_enabled entry).
Proof using Type. by intros t k. Qed.
Lemma steady_idle entry : steady (idle_running entry).
Proof using Type. by intros t k. Qed.

Lemma wp_memory es h b : memmap_ok es -> started h nothing_mounted b ->
  wp (run_pmm (Pmm.pmm_init (Some es))) b (fun _ b' => started h memory_managed b' /\ waiting b' = waiting b).
Proof using Type.
  intros Hes [Hg Hi Hh Hl Hk]. apply wp_zoom.
  destruct (pmm_init_correct_aux es (allocator (kernel b)) Hes) as (p & R & Hp & _). unfold wp. rewrite R.
  split; [|done]. by split.
Qed.

(** [vmm_init] leaves the page allocator alone. *)
Lemma wp_vmm_init hhdm ka edx (v : Vmm.vmm_state Pmm.pmm_state) :
  wp (Vmm.vmm_init hhdm ka edx) v (fun _ v' => Vmm.pmm v' = Vmm.pmm v).
Proof using Type.
  assert (Hr : forall u base size flags (w : Vmm.vmm_state Pmm.pmm_state) (Q : unit -> Vmm.vmm_state Pmm.pmm_state -> Prop),
    (forall w', Vmm.pmm w' = Vmm.pmm w -> Q tt w') -> wp (Vmm.register_memory_area u base size flags) w Q).
  { intros u base size flags w Q HQ. apply wp_modify, HQ. cbv zeta. by destruct (_ <=? _). }
  unfold Vmm.vmm_init. apply wp_bind, wp_modify, wp_bind, wp_get, wp_bind, Hr. intros v1 E1. apply Hr. intros v2 E2.
  rewrite E2, E1. by destruct ka as [[]|].
Qed.

Lemma wp_start_vmm info h b : started h memory_managed b ->
  wp (vmm_init info) b (fun _ b' => started (array_set h 14 (Some Idt.page_fault_handler)) memory_managed b' /\
    waiting b' = waiting b).
Proof using Type*.
  intros Hb. unfold vmm_init. apply wp_bind. eapply wp_mono.
  - apply (wp_kernel _ h memory_managed memory_managed b Hb). do 2 apply wp_zoom.
    eapply wp_mono; [apply wp_vmm_init|]. intros [] v' Hv. cbn in Hv. destruct (st_kernel _ _ _ Hb) as [Hn Hp].
    split; [|done]. split; [exact Hn|]. unfold allocator. cbn. by rewrite Hv.
  - intros _ b1 [Hb1 Hw]. apply wp_zoom, wp_register; [done|]. split; [|exact Hw].
    pose proof (started_handler h _ 14 Idt.page_fault_handler (Idt.pic (idt b1)) b1 steady_memory Hb1) as H'.
    by destruct (idt b1).
Qed.

Lemma wp_interrupts h b : started h memory_managed b ->
  wp interrupt_enable b (fun _ b' => started h interrupts_enabled b').
Proof using Type*.
  intros Hb. eapply wp_mono.
  - apply (wp_kernel _ h memory_managed interrupts_enabled b Hb). apply wp_zoom, wp_modify.
    pose proof (st_kernel _ _ _ Hb) as Hk. by split.
  - by intros _ b' [].
Qed.

Lemma wp_drives h b : started h interrupts_enabled b ->
  wp (run_ata Ata.ata_init) b (fun _ b' => started h interrupts_enabled b').
Proof using Type*.
  intros Hb. apply wp_zoom. destruct (ata_init_fills_table (get_ata b)) as (a & R & _). unfold wp. rewrite R.
  destruct Hb as [Hg Hi Hh Hl Hk]. split; [done|by apply installed_set_pic|done|done|exact Hk].
Qed.

(** [ext2_init] mounts nothing. *)
Lemma wp_ext2_init (f : Ext2.ext2_state Pmm.pmm_state (Ata.ata_state D)) : Ext2.mounted f = false -> pmm_inv (Ext2.pmm f) ->
  wp Ext2File.ext2_init f (fun _ f' => Ext2.mounted f' = false /\ pmm_inv (Ext2.pmm f') /\ Ext2.inodes_per_group (Ext2.fs f') = 0).
Proof using Type*.
  intros Hm Hp. unfold Ext2File.ext2_init. do 2 wp_rule. wp_rule. unfold Ext2.alloc_data. wp_rule.
  unfold wp at 1, Ext2.call_pmm. cbn [Ext2.pmm Ext2.on_fs]. cbn [pmm_alloc_pages pmm_allocator].
  destruct (Pmm.pmm_alloc_pages 2 (Ext2.pmm f)) as [p a] eqn:Ha.
  destruct (alloc_pages_step _ 2 _ _ Hp ltac:(done) Ha) as (Hinv & _).
  apply wp_ret. do 2 wp_rule. destruct (p =? NULL); cbn [fmap option_fmap option_map]; [apply wp_ret; by split_and!|].
  do 2 wp_rule. do 2 wp_rule. apply wp_ret. by split_and!.
Qed.

Lemma wp_files h b : started h interrupts_enabled b ->
  wp (run_kernel (run_files Ext2File.ext2_init)) b (fun _ b' => started h files_initialised b').
Proof using Type*.
  intros Hb. eapply wp_mono.
  - apply (wp_kernel _ h interrupts_enabled files_initialised b Hb). apply wp_zoom.
    destruct (st_kernel _ _ _ Hb) as [[[Hm Hv] Hp] Hi].
    eapply wp_mono; [by apply wp_ext2_init|]. intros _ f (Hm' & Hp' & Hz). split; [|done].
    exact (conj (conj (conj (conj Hm' Hv) Hp') Hi) Hz).
  - by intros _ b' [].
Qed.

Lemma wp_calls entry h b : started h files_initialised b ->
  wp (run_kernel (syscalls_init entry)) b (fun _ b' => started h (calls_enabled entry) b').
Proof using Type*.
  intros Hb. eapply wp_mono.
  - apply (wp_kernel _ h files_initialised (calls_enabled entry) b Hb). unfold syscalls_init, write_msr, read_msr.
    do 8 wp_rule. apply wp_modify. split; [|done]. split; [exact (st_kernel _ _ _ Hb)|]. cbn [msrs set_msr]. split.
    + do 2 (rewrite lookup_insert_ne by done). by rewrite lookup_insert_eq.
    + eexists. split; [apply lookup_insert_eq|]. rewrite Z.lor_spec. apply orb_true_r.
  - by intros _ b' [].
Qed.

Lemma wp_scheduler entry h b : started h (calls_enabled entry) b ->
  wp (run_kernel (run_sched Sched.scheduler_init)) b (fun _ b' =>
    started (array_set h Timer.IRQ_TIMER (Some Idt.timer_interrupt_handler)) (idle_running entry) b').
Proof using Type*.
  intros Hb. do 2 apply wp_zoom. unfold Sched.scheduler_init, Sched.spinlock_init, Sched.update.
  do 4 wp_rule. apply wp_bind, wp_zoom, wp_modify. apply wp_bind, wp_zoom. eapply wp_mono; [apply wp_timer_init|].
  intros _ t (p & -> & _). do 2 wp_rule. apply wp_bind, wp_zoom, wp_gets. do 4 wp_rule. apply wp_ret.
  pose proof (started_handler h _ Timer.IRQ_TIMER Idt.timer_interrupt_handler p b (steady_calls entry) Hb) as [Hg Hi Hh Hl Hk].
  split; [done|exact Hi|exact Hh|done|]. split; [exact Hk|]. done.
Qed.

(** ** The report *)

(** Without a serial port nothing is logged. *)
Lemma silent_info l args (s : SysInfo.sysinfo_state D) : log_initialized (SysInfo.log s) = false ->
  SysInfo.LOG_INFO fuel l args s = (Ret tt, s) /\ SysInfo.LOG_INFO_MSG fuel l s = (Ret tt, s).
Proof using Type.
  intros Hi. unfold SysInfo.LOG_INFO, SysInfo.LOG_INFO_MSG, SysInfo.run_log, mzoom, log_printf, log_message.
  split; (erewrite run_bind; [|reflexivity]); rewrite Hi; by destruct s.
Qed.

Lemma silent_report bl ka mm (s : SysInfo.sysinfo_state D) : log_initialized (SysInfo.log s) = false ->
  SysInfo.sysinfo_print fuel bl ka mm s = (Ret tt, s).
Proof using Type.
  intros Hi. pose proof (fun l args => proj1 (silent_info l args s Hi)) as Hl.
  unfold SysInfo.sysinfo_print. mstep (proj2 (silent_info SysInfo.title [] s Hi)).
  assert (Hb : forall c : M (SysInfo.sysinfo_state D) unit, c s = (Ret tt, s) -> forall k : M (SysInfo.sysinfo_state D) unit,
    k s = (Ret tt, s) -> (c;; k) s = (Ret tt, s)) by (intros c Hc k' Hk; by mstep Hc).
  apply Hb; [destruct bl as [[]|]; [apply Hl|done]|]. apply Hb; [destruct ka as [[]|]; [apply Hl|done]|].
  apply Hb; [destruct mm; [by apply Hb|done]|]. repeat first [apply Hl | apply Hb; [apply Hl|] | mstep].
Qed.

Lemma same_put_sysinfo (x : SysInfo.sysinfo_state D) b : SysInfo.pmm x = allocator (kernel b) ->
  (good_log n m0 (log b) -> good_log n m0 (SysInfo.log x)) -> same b (put_sysinfo x b).
Proof using Type.
  intros Hp Hl. split; [|done|done|exact Hl]. eexists. unfold put_sysinfo. rewrite Hp.
  destruct b as [[s f e ms] ? ? ? ? ?]. destruct s as [? ? ? ? ? ? ? ? ? ? v ?]. destruct v. reflexivity.
Qed.

Lemma wp_report h F info boot b : started h F b -> pmm_inv (allocator (kernel b)) ->
  boot_ready n K m0 (bootloader info) boot -> map_ready (memmap info) ->
  wp (run_sysinfo (SysInfo.sysinfo_print fuel (bootloader info) (Boot.kernel_address info) (memmap info))) b (fun _ b' => same b b').
Proof using Type*.
  intros Hb Hp Hboot Hmap. apply wp_zoom. destruct (log_initialized (log b)) eqn:Hi.
  - destruct (st_log _ _ _ Hb) as [Hlev Hm].
    destruct (sends_report delay n K fuel m0 (allocator (kernel b)) boot (bootloader info) (Boot.kernel_address info) (memmap info)
      (br_sysinfo _ _ _ Hready) ltac:(lia) Hp Hboot Hmap (get_sysinfo b)) as (x & R & (_ & Hlev' & Hp' & Hm') & _);
      [by split_and!|].
    unfold wp. rewrite R. apply same_put_sysinfo; [done|]. intros _. by split.
  - unfold wp. rewrite silent_report by done. by apply same_put_sysinfo.
Qed.

End stages.

(** ** The whole of [kmain] *)

(** The interrupt handlers of a started kernel, over the initial array. *)
Definition registered (h : list (option Idt.handler)) : list (option Idt.handler) :=
  let h := array_set h 14 (Some Idt.page_fault_handler) in
  let h := array_set h Timer.IRQ_TIMER (Some Idt.timer_interrupt_handler) in
  let h := array_set h Keyboard.IRQ_KEYBOARD (Some Idt.keyboard_interrupt_handler) in
  array_set h Timer.IRQ_TIMER (Some Idt.timer_interrupt_handler).

(** A rule for the first two commands. *)
Lemma wp_both {S X} (a b : M S unit) (c : M S X) s Q :
  wp (a;; b) s (fun _ s' => wp c s' Q) -> wp (a;; (b;; c)) s Q.
Proof. unfold wp, mbind, m_bind. by destruct (a s) as [[] s1]; destruct (b s1) as [[] s2]. Qed.

Section boot.
  Context {D : Type} `{!PortIO D, !PortIO16 D, !PortIO32 D, !LogStrings, !SysinfoStrings, !BootStrings}.
  Context `{!Idt.IdtLayout, !Gdt.GdtLayout, !Mmu, !Sched.ContextSwitch}.
  Context `{!Ps2Mouse D, !MouseAlone D} (delay : nat) `{!Uart D SERIAL_COM1 delay}.
  Context (n : Z) (K fuel : nat) (m0 : CString.mem).
  Implicit Types b : boot_state D.

(** What [kmain] is given by the boot loader, and the static variables as the
    compiler initialises them. *)
Record boot_input (info : boot_info) (boot : option (list Z * list Z)) b : Prop := {
  bi_stubs v : 0 <= v < 48 -> 0 <= Idt.stub_address v < 2 ^ 64;
  bi_framebuffer : exists fb l, framebuffers info = Some (fb :: l) /\ fb_ok fb;
  bi_memmap : exists es, memmap info = Some es /\ memmap_ok es;
  bi_map : map_ready (memmap info);
  bi_loader : boot_ready n K m0 (bootloader info) boot;
  bi_gdt : length (Gdt.gdt (gdt b)) = 7%nat;
  bi_log : good_log n m0 (log b);
  bi_files : nothing_mounted (kernel b);
  bi_mouse : waiting b = [];
  bi_handlers : length (Idt.interrupt_handlers (idt b)) = 256%nat;
}.

Lemma wp_kmain entry info boot b : main_ready n K m0 -> (2 * K + Z.to_nat n + 64 + delay < fuel)%nat ->
  boot_input info boot b ->
  wp (kmain_start fuel entry info) b (fun _ b' =>
    started n m0 (registered (Idt.interrupt_handlers (idt b))) (idle_running entry) b').
Proof using Type*.
  intros Hready Hfuel [Hstub (fb & l & Hfb & Hfbok) (es & Hes & Hesok) Hmap Hboot Hgdt Hlog Hfiles Hmouse _].
  unfold kmain_start. apply wp_bind. eapply wp_mono.
  { apply (wp_log n m0); [done| |apply spares_log_init]. intros lg [_ Hm].
    destruct (run_log_start delay n K fuel m0 Hready Hfuel lg Hm) as (ok & l' & R & Hl'). by exists ok, l'. }
  intros ? b1 [S1 W1]. pose proof (same_log _ _ _ _ S1 Hlog) as L1.
  apply wp_bind. eapply wp_mono; [apply (wp_message delay n K fuel m0); try done; by left|].
  intros ? b2 [S2 W2]. pose proof (same_log _ _ _ _ S2 L1) as L2.
  apply wp_bind. eapply wp_mono; [by apply (wp_setup_fb delay n K fuel m0 Hready Hfuel info fb l)|].
  intros ? b3 [S3 W3]. pose proof (same_log _ _ _ _ S3 L2) as L3.
  apply wp_bind. eapply wp_mono; [apply (wp_message delay n K fuel m0); try done; by left|].
  intros ? b4 [S4 W4]. pose proof (same_log _ _ _ _ S4 L3) as L4.
  assert (S : same n m0 b b4) by (do 3 (eapply same_trans; [eassumption|]); done).
  assert (W : waiting b4 = []) by congruence. clear S1 S2 S3 S4 W1 W2 W3 W4 L1 L2 L3.
  destruct S as [(t & Ek) Eg Et _].
  assert (Hk4 : nothing_mounted (kernel b4)) by (by rewrite Ek).
  assert (Hh4 : Idt.interrupt_handlers (idt b4) = Idt.interrupt_handlers (idt b)).
  { exact (f_equal Idt.interrupt_handlers (Et (Idt.pic (idt b)))). }
  rewrite <- Eg in Hgdt. rewrite <- Hh4.
  apply wp_both. eapply wp_mono; [apply (wp_tables delay n K fuel m0 Hready Hfuel nothing_mounted);
    [done|done|apply steady_mounted|done|done]|].
  intros ? b5 [S5 W5]. rewrite Hes. apply wp_bind. eapply wp_mono; [by apply wp_memory|].
  intros ? b6 [S6 W6]. apply wp_bind. eapply wp_mono; [eapply wp_start_vmm; eauto|].
  intros ? b7 [S7 W7]. apply wp_bind. eapply wp_mono; [eapply wp_start_timer; eauto using steady_memory|].
  intros ? b8 [S8 W8]. apply wp_bind.
  eapply wp_mono; [apply (wp_message delay n K fuel m0); [done|done|by left|apply S8]|].
  intros ? b9 [T9 W9]. pose proof (started_same _ _ _ _ _ _ steady_memory S8 T9) as S9. apply wp_bind.
  eapply wp_mono; [eapply wp_start_keyboard; eauto using steady_memory|].
  intros ? b10 [S10 W10]. apply wp_bind.
  eapply wp_mono; [eapply wp_start_mouse; [apply steady_memory|exact S10|congruence]|].
  intros ? b11 S11. apply wp_bind.
  eapply wp_mono; [apply (wp_message delay n K fuel m0); [done|done|by left|apply S11]|].
  intros ? b12 [T12 _]. pose proof (started_same _ _ _ _ _ _ steady_memory S11 T12) as S12. apply wp_bind.
  eapply wp_mono; [exact (wp_interrupts delay n K fuel m0 Hready Hfuel _ _ S12)|]. intros ? b13 S13. apply wp_bind.
  eapply wp_mono; [exact (wp_drives delay n K fuel m0 Hready Hfuel _ _ S13)|]. intros ? b14 S14. apply wp_bind.
  eapply wp_mono; [exact (wp_files delay n K fuel m0 Hready Hfuel _ _ S14)|]. intros ? b15 S15. apply wp_bind.
  eapply wp_mono; [exact (wp_calls delay n K fuel m0 Hready Hfuel entry _ _ S15)|]. intros ? b16 S16. apply wp_bind.
  eapply wp_mono; [exact (wp_scheduler delay n K fuel m0 Hready Hfuel entry _ _ S16)|]. intros ? b17 S17. apply wp_bind.
  eapply wp_mono; [apply (wp_message delay n K fuel m0); [done|done|by left|apply S17]|].
  intros ? b18 [T18 _]. pose proof (started_same _ _ _ _ _ _ (steady_idle entry) S17 T18) as S18.
  rewrite <- Hes. eapply wp_mono; [apply (wp_report delay n K fuel m0 Hready Hfuel _ _ info boot _ S18); [|done|done]|].
  { apply (st_kernel _ _ _ _ _ S18). }
  intros ? b19 T19. exact (started_same _ _ _ _ _ _ (steady_idle entry) S18 T19).
Qed.

Lemma registered_get h v : length h = 256%nat -> 0 <= v < 256 ->
  array_get None (registered h) v =
    if v =? 14 then Some Idt.page_fault_handler
    else if v =? 32 then Some Idt.timer_interrupt_handler
    else if v =? 33 then Some Idt.keyboard_interrupt_handler else array_get None h v.
Proof using Type.
  intros Hh Hv. unfold registered, Timer.IRQ_TIMER, Keyboard.IRQ_KEYBOARD.
  assert (Hs : forall h i x, length h = 256%nat -> 0 <= i < 256 ->
    array_get None (array_set h i x) v = if v =? i then x else array_get (None : option Idt.handler) h v).
  { intros h' i x Hh' Hi. destruct (Z.eqb_spec v i) as [->|Hne]; [apply array_get_set_eq; lia|by apply array_get_set_ne; lia]. }
  rewrite !Hs by (rewrite ?length_array_set; done || lia).
  destruct (Z.eqb_spec v 32), (Z.eqb_spec v 33), (Z.eqb_spec v 14); done || lia.
Qed.


(** ** Halting *)

Definition halts {X} (m : M (boot_state D) X) b : Prop := fst (m b) = Halted.

Lemma halts_bind {X Y} (m : M (boot_state D) X) (f : X -> M (boot_state D) Y) b : halts m b -> halts (m ≫= f) b.
Proof using Type. unfold halts, mbind, m_bind. destruct (m b) as [[] b']; by intros [=]. Qed.

Lemma halts_after {X Y} (m : M (boot_state D) X) (f : X -> M (boot_state D) Y) b :
  wp m b (fun x b' => halts (f x) b') -> halts (m ≫= f) b.
Proof using Type. unfold halts, wp, mbind, m_bind. by destruct (m b) as [[] b']. Qed.

(** Without a framebuffer the kernel halts before it has set anything up. *)
Theorem kmain_halts_without_framebuffer entry info b :
  main_ready n K m0 -> (2 * K + Z.to_nat n + 64 + delay < fuel)%nat -> good_log n m0 (log b) ->
  framebuffers info = None \/ framebuffers info = Some [] -> halts (kmain fuel entry info) b.
Proof using Type*.
  intros Hready Hfuel Hlog Hfb. unfold kmain, kmain_start. apply halts_bind, halts_after. eapply wp_mono.
  { apply (wp_log n m0); [done| |apply spares_log_init]. intros lg [_ Hm].
    destruct (run_log_start delay n K fuel m0 Hready Hfuel lg Hm) as (ok & l' & R & Hl'). by exists ok, l'. }
  intros ? b1 [S1 _]. pose proof (same_log _ _ _ _ S1 Hlog) as L1.
  apply halts_after. eapply wp_mono; [apply (wp_message delay n K fuel m0); try done; by left|].
  intros ? b2 [S2 _]. pose proof (same_log _ _ _ _ S2 L1) as L2.
  apply halts_bind. unfold setup_fb. destruct Hfb as [-> | ->].
  all: apply halts_after; eapply wp_mono; [apply (wp_message delay n K fuel m0); try done; by right|done].
Qed.
End boot.

(** ** An instance *)

(** A machine with the serial port of LogSpec.v and the mouse of
    InputExamples.v; its other ports read as 0, and there is no PCI bus. *)
Record pc : Type := Pc { line : slow_uart; ps2 : controller }.

Definition at_mouse (p : Z) : bool := (p =? 0x60) || (p =? 0x64).

#[export] Instance pc_ports : PortIO pc := {
  port_in p d :=
    if at_mouse p then let '(v, c) := port_in p (ps2 d) in (v, Pc (line d) c)
    else let '(v, u) := port_in p (line d) in (v, Pc u (ps2 d));
  port_out p v d :=
    if at_mouse p then Pc (line d) (port_out p v (ps2 d)) else Pc (port_out p v (line d)) (ps2 d);
}.
#[export] Instance pc_ports16 : PortIO16 pc := { port_in16 p d := (0, d); port_out16 p v d := d }.
#[export] Instance pc_ports32 : PortIO32 pc := { port_in32 p d := (0xFFFFFFFF, d); port_out32 p v d := d }.

#[export] Instance pc_uart : Uart pc SERIAL_COM1 2.
Proof.
  refine {| sent d := line_out (line d); busy d := slow_busy (line d) |}.
  - intros d. apply (@busy_bound _ _ _ _ slow_is_uart (line d)).
  - intros d. exact (@read_status _ _ _ _ slow_is_uart (line d)).
  - intros d c. exact (@write_data _ _ _ _ slow_is_uart (line d) c).
Defined.

#[export] Instance pc_mouse : Ps2Mouse pc.
Proof.
  refine {| pending d := c_pending (ps2 d); to_mouse d := c_to_mouse (ps2 d) |}.
  - intros d. destruct (@in_status _ _ controller_mouse (ps2 d)) as (st & R & Hst). exists st. split; [|exact Hst].
    cbn in R |- *. injection R as <-. by destruct d.
  - intros x l d Hd. destruct (@in_data _ _ controller_mouse x l (ps2 d) Hd) as (c & R & Hc). exists (Pc (line d) c). split; [|exact Hc].
    unfold port_in, pc_ports. change (at_mouse 0x60) with true. cbv iota. by rewrite R.
  - intros d. exact (@out_prefix _ _ controller_mouse (ps2 d)).
  - intros cmd d. exact (@out_to_mouse _ _ controller_mouse cmd (ps2 d)).
Defined.

#[export] Instance pc_mouse_alone : MouseAlone pc.
Proof.
  split.
  - intros p d H1 H2. unfold port_in, pc_ports. replace (at_mouse p) with false by (unfold at_mouse; lia).
    by destruct (port_in p (line d)).
  - intros p v d H1 H2. unfold port_out, pc_ports. by replace (at_mouse p) with false by (unfold at_mouse; lia).
Qed.

Definition example_boot_address (l : boot_literal) : Z :=
  match l with
  | booting => 4000 | no_framebuffer => 4064 | framebuffer_line => 4128 | initializing_gdt => 4192
  | no_map => 4256 | initializing_io => 4320 | enabling_interrupts => 4384 | kernel_initialized => 4448
  end.
#[export] Instance example_boot_strings : BootStrings := { boot_address := example_boot_address }.

Definition boot_mem : CString.mem :=
  foldr (fun l => text_at (example_boot_address l) (boot_text l))
    (text_at 300 (chars "Logging system initialized") (text_at 420 (chars "CRITICAL") sysinfo_mem))
    [booting; no_framebuffer; framebuffer_line; initializing_gdt; no_map; initializing_io; enabling_interrupts; kernel_initialized].

Local Ltac at_address := vm_compute; repeat split; reflexivity.
Local Ltac in_place := split_and!; [at_address|cbn; lia|unfold in_buffer; cbn; lia].

Lemma boot_strings_ready : main_ready 144 40 boot_mem.
Proof.
  split; [split|..].
  - done.
  - cbn. lia.
  - at_address.
  - unfold in_buffer. cbn. lia.
  - at_address.
  - unfold in_buffer. cbn. lia.
  - done.
  - in_place.
  - by intros [].
  - intros []; in_place.
  - by intros [].
  - intros []; in_place.
  - done.
  - in_place.
  - done.
  - in_place.
Qed.

Definition pc_devices : pc := Pc (SlowUart [] 0) (Controller [] false).
Definition pc_idt : Idt.idt_state pc :=
  Idt.IdtState (replicate 256 Idt.zero_entry) (Idt.IdtPtr 0 0) (replicate 256 Idt.zero_entry)
    (Idt.IdtPtr 0 0) (replicate 256 None) (Pic.PicState pc_devices 0xFFFF) (Idt.IdtPtr 0 0).

(** The static variables before [kmain]. *)
Definition pc_boot : boot_state pc :=
  BootState
    (MkKernel (Sched.sched_boot (Vmm.vmm_boot Pmm.pmm_boot ∅ 0x1000) (Timer.TimerState 0 false pc_idt))
       (Ext2.Ext2State Ext2File.zero_fs false false None Pmm.pmm_boot
          (Ata.AtaState [] 0 (Pci.PciState [] 0 pc_devices)))
       Ext2File.zero_fs ∅)
    (LogState (Machine boot_mem pc_devices) LOG_LEVEL_INFO false)
    (Keyboard.KeyboardState (replicate 128 0) false false false false false [] pc_idt)
    (Mouse.MouseState [0; 0; 0] 0 0 false [] pc_idt)
    (Gdt.GdtState (replicate 7 Gdt.zero_entry) (Gdt.GdtPtr 0 0) (replicate 7 Gdt.zero_entry) (Gdt.GdtPtr 0 0)
       (Gdt.TssEntry 0 0) (Gdt.GdtPtr 0 0) 0)
    (fun _ => 0).

Definition pc_info : boot_info :=
  BootInfo (Some [Framebuffer 0xfe000000 1280 800 5120 32]) (Some example_map) (Some 0xffff800000000000)
    (Some (0x200000, 0xffffffff80000000)) (Some (3000, 3064)) (2 ^ 20).

